(* ===== verification/_CoqProject ===== *)
-Q . S2P
Prelude.v
CString.v
Types.v
Process.v
Lifecycle.v
Mmu.v
Device.v
Chardev.v
Memblk.v
Romfs.v
Vfs.v
RootFs.v
Console.v
FbCon.v
Gdb.v
GdbFrames.v
Elf.v
Syscall.v
Printf.v
Heap.v
Interrupt.v
Modules.v
Spi.v
Uart.v
Files.v
Sd.v
Kernel.v
