(* ===== verification/Prelude.v ===== *)
(** * The TrollOS kernel in Rocq

    TrollOS is a small Unix-like kernel in C for a computer with an MC68040.
    This library translates the C of [src/kernel] into functions and proves
    what makes it correct; where the code does something else than it means to,
    the theorem says what it does.

    ** The program and its files

    [main] ([kernel/kernel.c]) sets up the console, the MMU and the interrupts,
    registers the console and the block of memory that holds the root file
    system as devices, mounts it, and starts "/sbin/init", which becomes process
    0 (other code takes process 1 for it).  From then on the kernel runs in
    system calls and interrupts.  The calls go from the table of [syscall.c] to
    the VFS, from there to romfs and to devices, and to the processes, which own
    an address space of the MMU driver.

    - [Prelude]: integers of a width, the monad and its loops, lists, lenses;
    - [CString]: [util/string.c], over a byte memory;
    - [Types]: the shared headers (error numbers, [stat], modes);
    - [Process]: [process.c], the table, creation, exit, wait, the scheduler;
    - [Lifecycle]: an abstract process table that [process.c] implements;
    - [Mmu]: [mmu/mmu040.c], the translation tables in physical memory;
    - [Device], [Chardev], [Memblk]: [device.c], [modules/chardev.c],
      [modules/blockdev/memblk.c];
    - [Romfs], [Vfs], [RootFs]: [modules/fs/romfs.c], [vfs.c], and the two
      together;
    - [Console], [FbCon]: [modules/chardev/console.c] and [console-fb.c];
    - [Printf]: [util/printf.c], [util/log.c], [util/kconsole.c];
    - [Gdb], [GdbFrames]: [gdb-stub.c], the protocol and the frames;
    - [Elf], [Syscall]: [modules/binformat/elf.c], [syscall.c] and [syscall/*.c];
    - [Heap]: [util/mem.c], [kmalloc], [kfree], [krealloc] and [ksbrk];
    - [Interrupt], [Modules]: [int.c], [module.c] and [modules/module.c];
    - [Spi], [Uart]: [modules/bus/trollbook-spi.c],
      [modules/chardev/trollbook-uart.c];
    - [Sd]: the protocol of [modules/blockdev/spisd.c], which is compiled out;
    - [Files]: [file.c], [modules/fs/fs.c] and [devfs.c], which nothing uses;
    - [Kernel]: [kernel.c] and [early.c], the composition of the others.

    A definition has the name of the C function, and a record that of the
    structure; a helper has a name of its own where the C has a loop body or a
    part of a function.  A Section [ops] holds the operations of a file, what
    they rely on is in its context.

    ** How the C is translated

    An operation on a state [S] with a result [A] is an [M S A], a function from
    states to outcomes: [Ret] with the result and the new state; [Fault] for
    what C leaves undefined (an access outside of an object, a null pointer, a
    call through one); [Panic] for [panic()], which never returns; [Timeout]
    when the fuel is used up.  Loops with a bound in the code are [for_range],
    [for_to] or [for_acc]; those without one are [loop], with fuel, and the
    theorems say how much is enough or that none is: 1025 for the searches of
    the process table (a round and one), the length of a string or of a chain of
    headers, the number of components of a path, half of the bytes of the heap,
    77 for the exception frames (more do not fit the array).  A wait for the
    hardware or the host is a [Timeout] when nothing comes.

    Numbers are [Z] with the wrap-around of their C type written out ([u8],
    [u16], [u32], [u64], [s8], [s32], ...); addition of [int]s that cannot wrap
    in a defined execution is plain.  [char] is signed and words are big-endian,
    as on the target.  A pointer is its address, or an index where the code uses
    it so; tables are lists, with [zget] and [zset] by index, where an index
    outside is a [Fault].  What a buffer on the stack happens to hold is an
    argument, and so is what [kmalloc] gives to the clients that are not in
    [Heap], [Spi] and [Uart] (a block with its contents, or nothing).

    Each component works on its own state; a larger state contains it by a
    [Lens]: the drivers' state [D] is in the device table [Devices D], that with
    the processes in [Io D W] ([W] is the state of the MMU driver), that with the
    instances of romfs in [Kfs D W], that is below the [Vfs], that in [Sys], and
    that in [Kernel].  Memory is modelled where a component needs it: bytes for
    strings and for block devices, words for the frames of physical memory and
    for the heap, each a finite map, where what is missing is not mapped.

    Interfaces are classes: [Process.Mmu] with [MmuLaws], what the processes
    rely on; [Elf.UserMmu] with [Syscall.UserMmuLaws], the loader, [fork] and
    [execve]; [Heap.HeapMmu], a page for the heap at every address of a range.
    The 68040 driver of [Mmu] implements all three ([mmu040_laws],
    [mmu040_user_laws], [mmu040_backs_heap]).  [SpiHw], [UartHw] and
    [SdBus] with their laws are the controllers.  [ConsoleBackend] and
    [VFSFSType] are records of functions, as in the C.

    ** What the theorems show

    - The heap ([Heap]): well-formedness of the lists and blocks in memory, kept
      by every sequence of requests, no overlap, nothing lost from the blocks
      in use; resizing copies the bytes; the driver can back it.
    - Start ([Kernel]): from the static data and an image in memory, [main] ends
      with the jump to the entry point of "/sbin/init", on every
      MMU that keeps the interface; the witness is the 68040 driver.
    - Memory management ([Mmu]): mapping a page changes one translation only and
      keeps the tables a tree; the stack of the mapper is balanced; copies from
      user space follow the translation.
    - Files ([Romfs], [Vfs], [RootFs], [Syscall]): path resolution is a walk,
      reading gives the bytes of the image, through every layer up to the
      system calls.
    - Processes ([Process], [Lifecycle], [Syscall], [Elf]): every history since
      the boot is one of the abstract table; values of dead processes reach who
      waits; when operations return; fairness of the scheduler, exit and wait,
      fork with the address spaces it copies, execve, and what the loader maps.
    - Output ([Printf], [Console], [FbCon]): formats print what they stand for,
      escape sequences are parsed back, glyphs of ASCII text are drawn in bounds.
    - The debugger ([Gdb], [GdbFrames]): packets and register texts round trip,
      bad packets are refused; exception frames of up to 78 bytes stay in their
      array.
    - SD cards ([Sd]): what each operation does on the bus, byte for byte, given
      what the card answers; identification, sectors, and for which cards the
      size is right.
    - Drivers and tables ([Spi], [Uart], [Interrupt], [Modules], [Files]): what
      is set up, the order of the handlers, and the cases that go wrong.

    The main theorems with hypotheses have, at the end of their file, a witness
    at a concrete state.  Theorems named after a failure ([..._faults],
    [..._never], [..._lost], [..._overruns]) show what the code does wrong.

    ** What is not modelled, and why

    - [modules/blockdev/spisd.c] from line 442 on: a sketch of a block device
      whose names are not declared anywhere; [blockcache.c] has no code,
      [mmu/mmu030._c] is not built, [init.c] is a binary image;
    - assembly: the entry of interrupts and system calls ([int.S], [syscall.S],
      [start.S], [process.S]), except for what [mmu040.S], [int.S] and the
      debugger's entry code do to state that the C uses;
    - log and debug messages inside other operations: they only write to the
      console, which [Printf], [Console] and [FbCon] model;
    - the register of the debugger's port ([debug.c]) beyond its two byte streams;
    - preemption inside the kernel: interrupts come between operations.

    ** What could follow

    The clients of [kmalloc] outside of [Heap], [Spi] and [Uart] are given a
    block; [kmalloc_gives_block] says that [kmalloc] gives such blocks, and the
    system calls could be put over the heap itself.  The layout of a process's
    stack waits for the code to pass arguments to programs. *)

From stdpp Require Export base numbers list list_numbers option gmap.
From Stdlib Require Export ZArith Lia.

#[export] Set Default Goal Selector "!".

Declare Scope troll_scope.
Delimit Scope troll_scope with troll.
Open Scope Z_scope.

(** * Machine integers *)

Module Word.
Definition u8 (z : Z) : Z := z mod 2 ^ 8.
Definition u16 (z : Z) : Z := z mod 2 ^ 16.
Definition u32 (z : Z) : Z := z mod 2 ^ 32.
Definition u64 (z : Z) : Z := z mod 2 ^ 64.
Definition s8 (z : Z) : Z := (z + 2 ^ 7) mod 2 ^ 8 - 2 ^ 7.
Definition s16 (z : Z) : Z := (z + 2 ^ 15) mod 2 ^ 16 - 2 ^ 15.
Definition s32 (z : Z) : Z := (z + 2 ^ 31) mod 2 ^ 32 - 2 ^ 31.
Definition s64 (z : Z) : Z := (z + 2 ^ 63) mod 2 ^ 64 - 2 ^ 63.

Lemma u8_small z : 0 <= z < 256 -> u8 z = z.
Proof. intros H. apply Z.mod_small. lia. Qed.
Lemma u16_small z : 0 <= z < 65536 -> u16 z = z.
Proof. intros H. apply Z.mod_small. lia. Qed.
Lemma u32_small z : 0 <= z < 2 ^ 32 -> u32 z = z.
Proof. intros H. apply Z.mod_small. lia. Qed.
Lemma u64_small z : 0 <= z < 2 ^ 64 -> u64 z = z.
Proof. intros H. apply Z.mod_small. lia. Qed.
Lemma s32_small z : - 2 ^ 31 <= z < 2 ^ 31 -> s32 z = z.
Proof. intros H. unfold s32. rewrite Z.mod_small; lia. Qed.
Lemma s64_small z : - 2 ^ 63 <= z < 2 ^ 63 -> s64 z = z.
Proof. intros H. unfold s64. rewrite Z.mod_small; lia. Qed.
Lemma u8_range z : 0 <= u8 z < 256.
Proof. apply Z.mod_pos_bound. lia. Qed.
Lemma u32_range z : 0 <= u32 z < 2 ^ 32.
Proof. apply Z.mod_pos_bound. lia. Qed.
Lemma s32_range z : - 2 ^ 31 <= s32 z < 2 ^ 31.
Proof. unfold s32. pose proof (Z.mod_pos_bound (z + 2 ^ 31) (2 ^ 32)). lia. Qed.
Lemma s8_inj a b : 0 <= a < 256 -> 0 <= b < 256 -> s8 a = s8 b -> a = b.
Proof.
  unfold s8. intros Ha Hb H.
  pose proof (Z.div_mod (a + 2 ^ 7) (2 ^ 8)). pose proof (Z.div_mod (b + 2 ^ 7) (2 ^ 8)).
  pose proof (Z.mod_pos_bound (a + 2 ^ 7) (2 ^ 8)).
  pose proof (Z.mod_pos_bound (b + 2 ^ 7) (2 ^ 8)). lia.
Qed.
Lemma u32_u32 z : u32 (u32 z) = u32 z.
Proof. apply Z.mod_mod. lia. Qed.
Lemma u32_s32 z : u32 (s32 z) = u32 z.
Proof.
  unfold u32, s32.
  rewrite Zminus_mod, Z.mod_mod, <- Zminus_mod by lia. f_equal. lia.
Qed.
End Word.
Export Word.

(** Bit fields: a value shifted above a field of [n] bits. *)
Lemma land_shiftl_low a b n : 0 <= n -> 0 <= b < 2 ^ n -> Z.land (Z.shiftl a n) b = 0.
Proof.
  intros Hn Hb. apply Z.bits_inj'. intros i Hi. rewrite Z.land_spec, Z.bits_0.
  destruct (decide (i < n)).
  - by rewrite Z.shiftl_spec_low by lia.
  - rewrite (proj1 (Z.bounded_iff_bits_nonneg n b Hn ltac:(lia)) ltac:(lia) i ltac:(lia)).
    apply andb_false_r.
Qed.
Lemma lor_shiftl_add a b n : 0 <= n -> 0 <= b < 2 ^ n -> Z.lor (Z.shiftl a n) b = a * 2 ^ n + b.
Proof.
  intros Hn Hb. rewrite <- Z.add_nocarry_lor by (by apply land_shiftl_low).
  by rewrite Z.shiftl_mul_pow2.
Qed.

(** * Outcomes and the error-state monad *)

Inductive outcome (A : Type) : Type :=
| Ret (a : A)
| Fault
| Panic
| Timeout.
Arguments Ret {_} _.
Arguments Fault {_}.
Arguments Panic {_}.
Arguments Timeout {_}.

Definition M (S A : Type) : Type := S -> outcome (A * S).

Definition ret {S A} (a : A) : M S A := fun s => Ret (a, s).
Definition bind {S A B} (m : M S A) (k : A -> M S B) : M S B := fun s =>
  match m s with
  | Ret (a, s') => k a s'
  | Fault => Fault
  | Panic => Panic
  | Timeout => Timeout
  end.

Notation "'let*' x ':=' m 'in' k" := (bind m (fun x => k))
  (at level 10, x name, m at level 100, k at level 200) : troll_scope.
Notation "'let*' ' p ':=' m 'in' k" := (bind m (fun x => match x with p => k end))
  (at level 10, p pattern, m at level 100, k at level 200) : troll_scope.
Notation "m ;; k" := (bind m (fun _ => k))
  (at level 100, k at level 200, right associativity) : troll_scope.
Open Scope troll_scope.

Definition get {S} : M S S := fun s => Ret (s, s).
Definition gets {S A} (f : S -> A) : M S A := fun s => Ret (f s, s).
Definition put {S} (s : S) : M S unit := fun _ => Ret (tt, s).
Definition modify {S} (f : S -> S) : M S unit := fun s => Ret (tt, f s).
Definition fault {S A} : M S A := fun _ => Fault.
Definition panic {S A} : M S A := fun _ => Panic.
Definition timeout {S A} : M S A := fun _ => Timeout.
(** A C object access that is defined only when the lookup succeeds. *)
Definition need {S A} (o : option A) : M S A :=
  match o with Some a => ret a | None => fault end.
Definition when {S} (b : bool) (m : M S unit) : M S unit :=
  if b then m else ret tt.
(** Run a computation on a part of the state. *)
Definition zoom {S T A} (g : S -> T) (p : T -> S -> S) (m : M T A) : M S A :=
  fun s => match m (g s) with
           | Ret (a, t) => Ret (a, p t s)
           | Fault => Fault
           | Panic => Panic
           | Timeout => Timeout
           end.

Lemma bind_Ret {S A B} (m : M S A) (k : A -> M S B) a s s' :
  m s = Ret (a, s') -> (bind m k) s = k a s'.
Proof. unfold bind. by intros ->. Qed.
Lemma bind_Ret_inv {S A B} (m : M S A) (k : A -> M S B) b s s' :
  (bind m k) s = Ret (b, s') -> exists a t, m s = Ret (a, t) /\ k a t = Ret (b, s').
Proof. unfold bind. destruct (m s) as [[a t]| | |]; [|done..]. eauto. Qed.
Lemma bind_Fault {S A B} (m : M S A) (k : A -> M S B) s : m s = Fault -> (bind m k) s = Fault.
Proof. unfold bind. by intros ->. Qed.
Lemma bind_cong {S A B} (m m' : M S A) (k k' : A -> M S B) s :
  m s = m' s -> (forall a t, m s = Ret (a, t) -> k a t = k' a t) -> (bind m k) s = (bind m' k') s.
Proof. unfold bind. intros <-. destruct (m s) as [[a t]| | |]; eauto. Qed.
Lemma bind_assoc {S A B C} (m : M S A) (f : A -> M S B) (g : B -> M S C) s :
  bind (bind m f) g s = bind m (fun a => bind (f a) g) s.
Proof. unfold bind. by destruct (m s) as [[a t]| | |]. Qed.

(** * Loops *)

(** [for (i = i0; i < i0 + n; i++) body]: the body either continues
    ([None]) or leaves the loop with a value ([Some r]); the result is
    [None] when the loop ran to its end. *)
Fixpoint for_range {S R} (n : nat) (i : Z) (body : Z -> M S (option R)) : M S (option R) :=
  match n with
  | O => ret None
  | S n' => let* r := body i in
            match r with
            | Some x => ret (Some x)
            | None => for_range n' (i + 1) body
            end
  end.

(** A loop without a known bound, with its loop-carried locals in [A]. *)
Fixpoint loop {S A R} (fuel : nat) (a : A) (body : A -> M S (A + R)) : M S R :=
  match fuel with
  | O => timeout
  | S fuel' => let* r := body a in
               match r with
               | inl a' => loop fuel' a' body
               | inr x => ret x
               end
  end.

Lemma loop_unfold {S A R} fuel (a : A) (body : A -> M S (A + R)) :
  loop (Datatypes.S fuel) a body =
  (let* r := body a in match r with inl a' => loop fuel a' body | inr x => ret x end).
Proof. reflexivity. Qed.
Lemma loop_next {S A R} fuel (a a' : A) (body : A -> M S (A + R)) s s' :
  body a s = Ret (inl a', s') -> loop (Datatypes.S fuel) a body s = loop fuel a' body s'.
Proof. intros H. cbn [loop]. by rewrite (bind_Ret _ _ _ _ _ H). Qed.
Lemma loop_done {S A R} fuel (a : A) (x : R) (body : A -> M S (A + R)) s s' :
  body a s = Ret (inr x, s') -> loop (Datatypes.S fuel) a body s = Ret (x, s').
Proof. intros H. cbn [loop]. by rewrite (bind_Ret _ _ _ _ _ H). Qed.
(** A loop whose body never asks to leave it does not return. *)
Lemma loop_never {S A R} (body : A -> M S (A + R)) : (forall a s x s', body a s <> Ret (inr x, s')) ->
  forall fuel a s r, loop fuel a body s <> Ret r.
Proof.
  intros Hb fuel. induction fuel as [|fuel IH]; intros a s [x s'] H; [discriminate H|]. cbn [loop] in H.
  apply bind_Ret_inv in H as ([a'|y] & t & H1 & H2); [by apply IH in H2|]. by apply Hb in H1.
Qed.
Lemma for_range_next {S R} n i (body : Z -> M S (option R)) s s' :
  body i s = Ret (None, s') ->
  for_range (Datatypes.S n) i body s = for_range n (i + 1) body s'.
Proof. intros H. cbn [for_range]. by rewrite (bind_Ret _ _ _ _ _ H). Qed.
Lemma for_range_done {S R} n i (x : R) (body : Z -> M S (option R)) s s' :
  body i s = Ret (Some x, s') ->
  for_range (Datatypes.S n) i body s = Ret (Some x, s').
Proof. intros H. cbn [for_range]. by rewrite (bind_Ret _ _ _ _ _ H). Qed.

Lemma for_range_Fault {S R} n i (body : Z -> M S (option R)) s :
  body i s = Fault -> for_range (Datatypes.S n) i body s = Fault.
Proof. intros H. cbn [for_range]. by rewrite (bind_Fault _ _ _ H). Qed.
Lemma for_range_split {S R} n m i (body : Z -> M S (option R)) s s' :
  for_range n i body s = Ret (None, s') ->
  for_range (n + m) i body s = for_range m (i + Z.of_nat n) body s'.
Proof.
  revert i s. induction n as [|n IH]; intros i s; cbn [for_range Nat.add].
  - intros [= <-]. by rewrite Z.add_0_r.
  - unfold bind. destruct (body i s) as [[[x|] s1]| | |]; intros H; try discriminate H.
    rewrite (IH (i + 1) s1 H). f_equal. lia.
Qed.
Lemma for_range_0 {S R} i (body : Z -> M S (option R)) s :
  for_range 0 i body s = Ret (None, s).
Proof. reflexivity. Qed.

(** * Total-correctness weakest preconditions *)

(** [wp m Q s]: from [s], [m] returns normally (no undefined behaviour, no
    kernel panic, enough fuel) and its result and final state satisfy [Q]. *)
Definition wp {S A} (m : M S A) (Q : A -> S -> Prop) (s : S) : Prop :=
  match m s with
  | Ret (a, s') => Q a s'
  | _ => False
  end.

Section wp_rules.
Context {S : Type}.
Implicit Types s : S.

Lemma wp_ret {A} (a : A) (Q : A -> S -> Prop) s : wp (ret a) Q s <-> Q a s.
Proof. reflexivity. Qed.
Lemma wp_bind {A B} (m : M S A) (k : A -> M S B) (Q : B -> S -> Prop) s :
  wp (bind m k) Q s <-> wp m (fun a s' => wp (k a) Q s') s.
Proof. unfold wp, bind. destruct (m s) as [[a s']| | |]; reflexivity. Qed.
Lemma wp_bind_assoc {A B C} (m : M S A) (f : A -> M S B) (g : B -> M S C) (Q : C -> S -> Prop) s :
  wp (bind m (fun a => bind (f a) g)) Q s <-> wp (bind (bind m f) g) Q s.
Proof. unfold wp. by rewrite bind_assoc. Qed.
Lemma wp_get (Q : S -> S -> Prop) s : wp get Q s <-> Q s s.
Proof. reflexivity. Qed.
Lemma wp_gets {A} (f : S -> A) (Q : A -> S -> Prop) s : wp (gets f) Q s <-> Q (f s) s.
Proof. reflexivity. Qed.
Lemma wp_put s' (Q : unit -> S -> Prop) s : wp (put s') Q s <-> Q tt s'.
Proof. reflexivity. Qed.
Lemma wp_modify f (Q : unit -> S -> Prop) s : wp (modify f) Q s <-> Q tt (f s).
Proof. reflexivity. Qed.
Lemma wp_need {A} (o : option A) a (Q : A -> S -> Prop) s :
  o = Some a -> wp (need o) Q s <-> Q a s.
Proof. intros ->. reflexivity. Qed.
Lemma wp_mono {A} (m : M S A) (Q Q' : A -> S -> Prop) s :
  wp m Q s -> (forall a s', Q a s' -> Q' a s') -> wp m Q' s.
Proof. unfold wp. destruct (m s) as [[a s']| | |]; eauto. Qed.
Lemma wp_run {A} (m : M S A) (Q : A -> S -> Prop) s :
  wp m Q s <-> exists a s', m s = Ret (a, s') /\ Q a s'.
Proof.
  unfold wp. split.
  - destruct (m s) as [[a s']| | |]; try done. eauto.
  - intros (a & s' & -> & H). exact H.
Qed.
Lemma wp_eq {A} (m : M S A) a s' s (Q : A -> S -> Prop) :
  m s = Ret (a, s') -> Q a s' -> wp m Q s.
Proof. unfold wp. by intros ->. Qed.

Lemma wp_eq' {A} (Q : A -> S -> Prop) (m : M S A) a s s' :
  wp m Q s -> (forall b t, Q b t -> b = a /\ t = s') -> m s = Ret (a, s').
Proof.
  unfold wp. destruct (m s) as [[b t]| | |]; [|done..]. intros H Hq.
  by destruct (Hq _ _ H) as [-> ->].
Qed.

Lemma wp_loop_next {A R} fuel (a a' : A) (body : A -> M S (A + R)) (Q : R -> S -> Prop) s s' :
  body a s = Ret (inl a', s') -> wp (loop fuel a' body) Q s' ->
  wp (loop (Datatypes.S fuel) a body) Q s.
Proof. intros H. unfold wp. by rewrite (loop_next _ _ _ _ _ _ H). Qed.

(** The loop invariant rule for bounded loops. *)
Lemma wp_for_range {R} (I : Z -> S -> Prop) (Q : option R -> S -> Prop)
    (body : Z -> M S (option R)) n i s :
  I i s ->
  (forall j s', i <= j < i + Z.of_nat n -> I j s' ->
     wp (body j) (fun r s'' => match r with
                               | None => I (j + 1) s''
                               | Some x => Q (Some x) s''
                               end) s') ->
  (forall s', I (i + Z.of_nat n) s' -> Q None s') ->
  wp (for_range n i body) Q s.
Proof.
  revert i s. induction n as [|n IH]; intros i s Hi Hb Hq; cbn [for_range].
  - rewrite wp_ret. apply Hq. by rewrite Z.add_0_r.
  - rewrite wp_bind. eapply wp_mono; [apply Hb; [lia|done]|].
    intros [x|] s' H'; [by rewrite wp_ret|].
    apply IH; [done| |].
    + intros j s'' Hj. apply Hb. lia.
    + intros s'' H''. apply Hq. by replace (i + Z.of_nat (Datatypes.S n)) with (i + 1 + Z.of_nat n) by lia.
Qed.

(** The loop rule with a decreasing variant bounded by the fuel. *)
Lemma wp_loop {A R} (I : A -> S -> Prop) (v : A -> S -> nat) (Q : R -> S -> Prop)
    (body : A -> M S (A + R)) fuel a s :
  I a s -> (v a s < fuel)%nat ->
  (forall a s, I a s ->
     wp (body a) (fun r s' => match r with
                              | inl a' => I a' s' /\ (v a' s' < v a s)%nat
                              | inr x => Q x s'
                              end) s) ->
  wp (loop fuel a body) Q s.
Proof.
  revert a s. induction fuel as [|fuel IH]; intros a s Hi Hv Hb; [lia|].
  cbn [loop]. rewrite wp_bind. eapply wp_mono; [by apply Hb|].
  intros [a'|x] s' H; [|by rewrite wp_ret].
  destruct H as [Hi' Hv']. apply IH; [done|lia|done].
Qed.

End wp_rules.

(** A [for] loop over the range from [i0] to [i1], with no result. *)
Definition for_to {S} (i0 i1 : Z) (body : Z -> M S unit) : M S unit :=
  let* _ := for_range (R := unit) (Z.to_nat (i1 - i0)) i0 (fun i => body i ;; ret None) in ret tt.

Lemma wp_for_to {S} (I : Z -> S -> Prop) (Q : unit -> S -> Prop) (body : Z -> M S unit) i0 i1 s :
  i0 <= i1 -> I i0 s ->
  (forall j s', i0 <= j < i1 -> I j s' -> wp (body j) (fun _ s'' => I (j + 1) s'') s') ->
  (forall s', I i1 s' -> Q tt s') ->
  wp (for_to i0 i1 body) Q s.
Proof.
  intros Hi Hs Hb HQ. unfold for_to. rewrite wp_bind.
  apply (wp_for_range I (fun _ s' => wp (ret tt) Q s')); [exact Hs| |].
  - intros j s' Hj HI. rewrite wp_bind. eapply wp_mono; [apply Hb; [lia|done]|].
    intros r s2 H2. by rewrite wp_ret.
  - intros s' HI. replace (i0 + Z.of_nat (Z.to_nat (i1 - i0))) with i1 in HI by lia.
    rewrite wp_ret. by apply HQ.
Qed.

Lemma for_to_Fault {S} (body : Z -> M S unit) i0 i1 s :
  i0 < i1 -> body i0 s = Fault -> for_to i0 i1 body s = Fault.
Proof.
  intros Hi Hb. unfold for_to. apply bind_Fault. destruct (Z.to_nat (i1 - i0)) as [|n] eqn:En; [lia|].
  by apply for_range_Fault, bind_Fault.
Qed.

Lemma wp_zoom {S T A} (g : S -> T) (p : T -> S -> S) (m : M T A) (Q : A -> S -> Prop) s :
  wp (zoom g p m) Q s <-> wp m (fun a t => Q a (p t s)) (g s).
Proof. unfold wp, zoom. destruct (m (g s)) as [[a t]| | |]; reflexivity. Qed.

(** * Parts of a larger state *)

(** The state [T] of one component inside the state [S] of another. *)
Class Lens (S T : Type) : Type := { lget : S -> T; lset : T -> S -> S }.

Class LensLaws (S T : Type) `{Lens S T} : Prop := {
  lget_lset (t : T) (s : S) : lget (lset t s) = t;
  lset_lset (t u : T) (s : S) : lset t (lset u s) = lset t s;
  lset_lget (s : S) : lset (lget s) s = s;
}.

(** Run a component's operation inside the larger state. *)
Definition on {S T A} `{Lens S T} (m : M T A) : M S A := zoom lget lset m.

Lemma wp_on {S T A} `{Lens S T} (m : M T A) (Q : A -> S -> Prop) s :
  wp (on m) Q s <-> wp m (fun a t => Q a (lset t s)) (lget s).
Proof. apply wp_zoom. Qed.
Lemma on_eq {S T A} `{Lens S T} (m : M T A) s a t :
  m (lget s) = Ret (a, t) -> on m s = Ret (a, lset t s).
Proof. intros Hm. unfold on, zoom. by rewrite Hm. Qed.
(** A component operation that leaves its state alone leaves all of it alone. *)
Lemma on_eq_id {S T A} `{LensLaws S T} (m : M T A) s a :
  m (lget s) = Ret (a, lget s) -> on m s = Ret (a, s).
Proof. intros Hm. rewrite (on_eq _ _ _ _ Hm). by rewrite lset_lget. Qed.

(** * Invariant preservation *)

(** [preserves I m]: if [m] returns from a state in [I], it ends in [I]. *)
Definition preserves {S A} (I : S -> Prop) (m : M S A) : Prop :=
  forall s a s', I s -> m s = Ret (a, s') -> I s'.

Section preserves_rules.
Context {S : Type} (I : S -> Prop).

Lemma preserves_ret {A} (a : A) : preserves I (ret a).
Proof. intros s b s' H [= _ <-]. done. Qed.
Lemma preserves_get : preserves I get.
Proof. intros s b s' H [= _ <-]. done. Qed.
Lemma preserves_gets {A} (f : S -> A) : preserves I (gets f).
Proof. intros s b s' H [= _ <-]. done. Qed.
Lemma preserves_modify f : (forall s, I s -> I (f s)) -> preserves I (modify f).
Proof. intros Hf s b s' H [= _ <-]. by apply Hf. Qed.
Lemma preserves_fault {A} : preserves I (@fault S A).
Proof. intros s b s' H [=]. Qed.
Lemma preserves_panic {A} : preserves I (@panic S A).
Proof. intros s b s' H [=]. Qed.
Lemma preserves_timeout {A} : preserves I (@timeout S A).
Proof. intros s b s' H [=]. Qed.
Lemma preserves_need {A} (o : option A) : preserves I (need o).
Proof. destruct o; [apply preserves_ret|apply preserves_fault]. Qed.
Lemma preserves_bind {A B} (m : M S A) (k : A -> M S B) :
  preserves I m -> (forall a, preserves I (k a)) -> preserves I (bind m k).
Proof.
  intros Hm Hk s b s' H (a & t & Ha & Hb)%bind_Ret_inv.
  eapply Hk; [|exact Hb]. by eapply Hm.
Qed.
Lemma preserves_when b (m : M S unit) : preserves I m -> preserves I (when b m).
Proof. destruct b; [done|]. intros _. apply preserves_ret. Qed.
Lemma preserves_loop {A R} fuel (a : A) (body : A -> M S (A + R)) :
  (forall a, preserves I (body a)) -> preserves I (loop fuel a body).
Proof.
  intros Hb. revert a. induction fuel as [|fuel IH]; intros a; [apply preserves_timeout|].
  rewrite loop_unfold. apply preserves_bind; [done|]. intros [a'|r]; [done|apply preserves_ret].
Qed.
Lemma preserves_for_range {R} n i (body : Z -> M S (option R)) :
  (forall i, preserves I (body i)) -> preserves I (for_range n i body).
Proof.
  intros Hb. revert i. induction n as [|n IH]; intros i; [apply preserves_ret|].
  cbn [for_range]. apply preserves_bind; [done|]. intros [r|]; [apply preserves_ret|done].
Qed.
End preserves_rules.

Lemma preserves_zoom {S T A} (I : S -> Prop) (g : S -> T) (p : T -> S -> S) (m : M T A) :
  (forall s t a, I s -> m (g s) = Ret (a, t) -> I (p t s)) -> preserves I (zoom g p m).
Proof.
  intros Hp s a s' H. unfold zoom. destruct (m (g s)) as [[b t]| | |] eqn:E; [|done..].
  intros [= -> <-]. by eapply Hp.
Qed.

(** Running a [for] loop whose body only reads: the first index with a
    result, or none. *)
Section pure_for.
Context {S R : Type}.

Fixpoint find_from (n : nat) (i : Z) (f : Z -> option R) : option R :=
  match n with
  | O => None
  | Datatypes.S n' => match f i with Some x => Some x | None => find_from n' (i + 1) f end
  end.

Lemma for_range_find n i (body : Z -> M S (option R)) (f : Z -> option R) s :
  (forall j, i <= j < i + Z.of_nat n -> body j s = Ret (f j, s)) ->
  for_range n i body s = Ret (find_from n i f, s).
Proof.
  revert i. induction n as [|n IH]; intros i H; [done|].
  cbn [for_range find_from]. unfold bind. rewrite H by lia.
  destruct (f i); [done|]. apply IH. intros j Hj. apply H. lia.
Qed.

Lemma find_from_Some n i f (x : R) :
  find_from n i f = Some x ->
  exists j, i <= j < i + Z.of_nat n /\ f j = Some x /\ forall k, i <= k < j -> f k = None.
Proof.
  revert i. induction n as [|n IH]; intros i; [done|]. cbn [find_from].
  destruct (f i) eqn:E.
  - intros [= ->]. exists i. split; [lia|]. split; [done|]. lia.
  - intros (j & Hj & Hf & Hk)%IH. exists j. split; [lia|]. split; [done|].
    intros k Hik. destruct (decide (k = i)) as [->|]; [done|]. apply Hk. lia.
Qed.

Lemma find_from_None n i f :
  find_from n i f = None <-> forall j, i <= j < i + Z.of_nat n -> f j = (None : option R).
Proof.
  revert i. induction n as [|n IH]; intros i; cbn [find_from].
  - split; [lia|done].
  - destruct (f i) eqn:E.
    + split; [done|]. intros H. rewrite H in E by lia. done.
    + rewrite IH. split; intros H j Hj.
      * destruct (decide (j = i)) as [->|]; [done|]. apply H. lia.
      * apply H. lia.
Qed.
End pure_for.

(** * Arrays: lists indexed by [Z], undefined out of range *)

Section arrays.
Context {A : Type}.
Implicit Types l : list A.

Definition zget l (i : Z) : option A := if i <? 0 then None else l !! Z.to_nat i.
Definition zset l (i : Z) (x : A) : list A := <[Z.to_nat i := x]> l.

Lemma zget_lt_Some l i x : zget l i = Some x -> 0 <= i < Z.of_nat (length l).
Proof.
  unfold zget. destruct (Z.ltb_spec i 0) as [Hneg|Hneg]; [done|]. intros H%lookup_lt_Some. lia.
Qed.
Lemma zget_in_range l i : 0 <= i < Z.of_nat (length l) -> exists x, zget l i = Some x.
Proof.
  intros H. unfold zget. destruct (Z.ltb_spec i 0) as [Hneg|Hneg]; [lia|]. apply lookup_lt_is_Some. lia.
Qed.
Lemma zget_None l i : zget l i = None <-> ~ (0 <= i < Z.of_nat (length l)).
Proof.
  unfold zget. destruct (Z.ltb_spec i 0) as [Hneg|Hneg]; [split; [lia|done]|].
  rewrite lookup_ge_None. lia.
Qed.
Lemma zget_nat l (n : nat) : zget l (Z.of_nat n) = l !! n.
Proof. unfold zget. destruct (Z.ltb_spec (Z.of_nat n) 0) as [Hneg|Hneg]; [lia|]. by rewrite Nat2Z.id. Qed.
Lemma zget_zset_eq l i x : 0 <= i < Z.of_nat (length l) -> zget (zset l i x) i = Some x.
Proof.
  intros H. unfold zget, zset. destruct (Z.ltb_spec i 0) as [Hneg|Hneg]; [lia|].
  apply list_lookup_insert_eq. lia.
Qed.
Lemma zget_zset_ne l i j x : 0 <= i -> i <> j -> zget (zset l i x) j = zget l j.
Proof.
  intros H Hne. unfold zget, zset. destruct (Z.ltb_spec j 0) as [Hneg|Hneg]; [done|].
  apply list_lookup_insert_ne. lia.
Qed.
Lemma zget_zset l i j x :
  0 <= i < Z.of_nat (length l) ->
  zget (zset l i x) j = if decide (i = j) then Some x else zget l j.
Proof.
  intros H. case_decide as E; [subst; by apply zget_zset_eq|]. apply zget_zset_ne; lia.
Qed.
Lemma length_zset l i x : length (zset l i x) = length l.
Proof. apply length_insert. Qed.
Lemma zset_zset l i x y : zset (zset l i x) i y = zset l i y.
Proof. apply list_insert_insert_eq. Qed.
Lemma zset_id l i x : zget l i = Some x -> zset l i x = l.
Proof.
  unfold zget, zset. destruct (Z.ltb_spec i 0) as [Hneg|Hneg]; [done|]. apply list_insert_id.
Qed.
Lemma Forall_zset (P : A -> Prop) l i x : Forall P l -> P x -> Forall P (zset l i x).
Proof. intros H Hx. by apply Forall_insert. Qed.
Lemma Forall_zget (P : A -> Prop) l i x : Forall P l -> zget l i = Some x -> P x.
Proof.
  unfold zget. destruct (Z.ltb_spec i 0) as [Hneg|Hneg]; [done|]. intros Hl ?. by eapply Forall_lookup_1.
Qed.
Lemma zget_replicate n (x : A) i :
  0 <= i < Z.of_nat n -> zget (replicate n x) i = Some x.
Proof.
  intros H. unfold zget. destruct (Z.ltb_spec i 0) as [Hneg|Hneg]; [lia|]. apply lookup_replicate_2. lia.
Qed.
Lemma zget_app_l l k i : 0 <= i < Z.of_nat (length l) -> zget (l ++ k) i = zget l i.
Proof.
  intros H. unfold zget. destruct (Z.ltb_spec i 0) as [Hneg|Hneg]; [done|]. apply lookup_app_l. lia.
Qed.
Lemma zget_app_r l k i :
  Z.of_nat (length l) <= i -> zget (l ++ k) i = zget k (i - Z.of_nat (length l)).
Proof.
  intros H. unfold zget. destruct (Z.ltb_spec i 0) as [Hneg|Hneg]; [lia|].
  destruct (Z.ltb_spec (i - Z.of_nat (length l)) 0); [lia|].
  rewrite lookup_app_r by lia. f_equal. lia.
Qed.
Lemma zget_ext l k :
  length l = length k ->
  (forall i, 0 <= i < Z.of_nat (length l) -> zget l i = zget k i) -> l = k.
Proof.
  intros Hl H. apply list_eq. intros n.
  destruct (decide (n < length l)%nat) as [Hn|Hn].
  - rewrite <- !zget_nat. apply H. lia.
  - rewrite !lookup_ge_None_2 by lia. done.
Qed.
End arrays.

(** Counting the slots of a table that satisfy a predicate. *)
Section counting.
Context {A : Type} (p : A -> bool).

Fixpoint count (l : list A) : Z :=
  match l with
  | [] => 0
  | x :: l' => (if p x then 1 else 0) + count l'
  end.

Lemma count_nonneg l : 0 <= count l.
Proof. induction l as [|x l IH]; cbn; [lia|]. destruct (p x); lia. Qed.
Lemma count_le_length l : count l <= Z.of_nat (length l).
Proof. induction l as [|x l IH]; cbn [count length]; [lia|]. destruct (p x); lia. Qed.
Lemma count_insert l (i : nat) x y :
  l !! i = Some y ->
  count (<[i := x]> l) = count l + (if p x then 1 else 0) - (if p y then 1 else 0).
Proof.
  revert i. induction l as [|z l IH]; intros [|i] H; try done.
  - injection H as ->. cbn. lia.
  - cbn in H. change (<[Datatypes.S i := x]> (z :: l)) with (z :: <[i := x]> l).
    cbn [count]. rewrite (IH _ H). lia.
Qed.
Lemma count_zset l i x y :
  zget l i = Some y ->
  count (zset l i x) = count l + (if p x then 1 else 0) - (if p y then 1 else 0).
Proof.
  unfold zget, zset. destruct (Z.ltb_spec i 0) as [Hneg|Hneg]; [done|]. apply count_insert.
Qed.
End counting.

(** Lists whose elements are pairwise in a relation. *)
Section pairwise.
Context {A : Type} (R : A -> A -> Prop).
Implicit Types l k : list A.

Fixpoint pairwise l : Prop :=
  match l with
  | [] => True
  | x :: l' => Forall (R x) l' /\ pairwise l'
  end.

Lemma pairwise_app l k : pairwise (l ++ k) <-> pairwise l /\ pairwise k /\ Forall (fun x => Forall (R x) k) l.
Proof.
  induction l as [|x l IH]; cbn [app pairwise]; [naive_solver|]. rewrite IH, Forall_app, Forall_cons. tauto.
Qed.
#[export] Instance pairwise_perm : Symmetric R -> Proper ((≡ₚ) ==> iff) pairwise.
Proof.
  intros Hs l k Hp. induction Hp as [|x l k Hp IH|x y l|l k j _ IH1 _ IH2]; cbn [pairwise]; [done| | |by rewrite IH1].
  - assert (Forall (R x) l <-> Forall (R x) k) as -> by (rewrite !Forall_forall; by setoid_rewrite Hp). by rewrite IH.
  - rewrite !Forall_cons. assert (R x y <-> R y x) by (split; apply Hs). tauto.
Qed.
End pairwise.

(** * Automation *)

(** Decompose a [preserves] goal along the program's structure; the leaves
    that change the state are left (or found in the [troll] hints). *)
Ltac preserve :=
  repeat match goal with
    | |- preserves _ (bind _ _) => apply preserves_bind; [|intros ?]
    | |- preserves _ (ret _) => apply preserves_ret
    | |- preserves _ get => apply preserves_get
    | |- preserves _ (gets _) => apply preserves_gets
    | |- preserves _ (need _) => apply preserves_need
    | |- preserves _ fault => apply preserves_fault
    | |- preserves _ panic => apply preserves_panic
    | |- preserves _ timeout => apply preserves_timeout
    | |- preserves _ (when _ _) => apply preserves_when
    | |- preserves _ (loop _ _ _) => apply preserves_loop; intros ?
    | |- preserves _ (for_range _ _ _) => apply preserves_for_range; intros ?
    | |- preserves _ (if ?b then _ else _) => destruct b
    | |- preserves _ (match ?x with _ => _ end) => destruct x
    | |- preserves _ _ => solve [auto 3 with troll]
    end.

#[global] Arguments loop : simpl never.
#[global] Arguments for_range : simpl never.
#[global] Arguments bind : simpl never.
#[global] Arguments zget : simpl never.
#[global] Arguments zset : simpl never.

Create HintDb troll.
Create Rewrite HintDb wp.
Create Rewrite HintDb trollr.
#[export] Hint Rewrite @wp_bind @wp_ret @wp_get @wp_gets @wp_put @wp_modify : wp.
#[export] Hint Rewrite @length_zset @length_replicate : trollr.
#[export] Hint Resolve Forall_zset : troll.

(** One step of symbolic execution of a [wp] goal. *)
Ltac wp_simpl := rewrite ?wp_bind, ?wp_ret, ?wp_get, ?wp_gets, ?wp_put, ?wp_modify; cbn beta iota.

(** Turn boolean comparisons in the context and goal into propositions. *)
Ltac bool_prop :=
  repeat match goal with
    | H : (_ <? _)%Z = true |- _ => apply Z.ltb_lt in H
    | H : (_ <? _)%Z = false |- _ => apply Z.ltb_ge in H
    | H : (_ <=? _)%Z = true |- _ => apply Z.leb_le in H
    | H : (_ <=? _)%Z = false |- _ => apply Z.leb_gt in H
    | H : (_ =? _)%Z = true |- _ => apply Z.eqb_eq in H
    | H : (_ =? _)%Z = false |- _ => apply Z.eqb_neq in H
    | H : negb _ = true |- _ => apply negb_true_iff in H
    | H : negb _ = false |- _ => apply negb_false_iff in H
    | H : (_ && _) = true |- _ => apply andb_true_iff in H as [? ?]
    | H : (_ || _) = false |- _ => apply orb_false_iff in H as [? ?]
    end.

(** Case split on the scrutinee of the [if]/[match] in the goal. *)
Ltac case_goal :=
  match goal with
  | |- context [if ?b then _ else _] => let E := fresh "E" in destruct b eqn:E
  | |- context [match ?x with _ => _ end] => let E := fresh "E" in destruct x eqn:E
  end.

(** Linear arithmetic with division and remainder by constants. *)
Ltac mod_lia := intros; Z.div_mod_to_equations; lia.
