(* ===== verification/CString.v ===== *)
(** The kernel's string routines, [kernel/util/string.c], over a byte memory.

    A pointer is its address; an access to a byte that is in no object is
    undefined behaviour ([Fault]).  [char] is signed on this target, so the
    comparisons convert with [s8].  Loops without a static bound take their
    fuel as the first argument; the theorems give the fuel that is enough. *)

From Stdlib Require Import Ascii String.
From S2P Require Import Prelude.

(** Bytes of a literal string, for constants of the C source. *)
Fixpoint zstr (s : string) : list Z :=
  match s with
  | EmptyString => []
  | String a s' => Z.of_N (N_of_ascii a) :: zstr s'
  end.

(** * Byte memory *)

Abbreviation mem := (gmap Z Z).

Definition load8 (p : Z) : M mem Z := let* m := get in need (m !! p).
Definition store8 (p b : Z) : M mem unit :=
  let* m := get in
  match m !! p with
  | Some _ => put (<[p := u8 b]> m)
  | None => fault
  end.

(** The [n] bytes from [p] on. *)
Fixpoint load_bytes (n : nat) (p : Z) : M mem (list Z) :=
  match n with
  | O => ret []
  | S n' => let* b := load8 p in let* l := load_bytes n' (p + 1) in ret (b :: l)
  end.

(** * The routines *)

Definition strlen (fuel : nat) (c : Z) : M mem Z :=
  loop fuel (c, 0) (fun '(c, i) =>
    let* b := load8 c in
    ret (if b =? 0 then inr i else inl (c + 1, u32 (i + 1)))).

Definition strnlen (c maxlen : Z) : M mem Z :=
  let* r := for_range (Z.to_nat maxlen) 0 (fun i =>
        let* b := load8 (c + i) in
        ret (if b =? 0 then Some i else None)) in
  ret (default maxlen r).

Definition isalpha (c : Z) : Z :=
  if ((97 <=? c) && (c <=? 122)) || ((65 <=? c) && (c <=? 90)) then 1 else 0.

Definition isdigit (c : Z) : Z :=
  if (48 <=? c) && (c <=? 57) then 1 else 0.

(** [dest[i - 1]] with [i = 0] indexes with the 32-bit value [0xFFFFFFFF],
    that is the byte before [dest]. *)
Definition strncpy (dest src max : Z) : M mem Z :=
  let* r := for_range (Z.to_nat max) 0 (fun i =>
        let* b := load8 (src + i) in
        if b =? 0 then ret (Some i)
        else store8 (dest + i) b ;; ret None) in
  let i := default max r in
  (if i =? max then store8 (u32 (dest + u32 (i - 1))) 0 else store8 (dest + i) 0) ;;
  ret dest.

Definition strcpy (fuel : nat) (dest src : Z) : M mem Z :=
  loop fuel (dest, src) (fun '(d, s) =>
    let* b := load8 s in
    store8 d b ;;
    ret (if b =? 0 then inr dest else inl (d + 1, s + 1))).

(** The loop condition [s1[i] && s2[i] && s1[i] == s2[i]]. *)
Definition same_char (s1 s2 i : Z) : M mem bool :=
  let* a := load8 (s1 + i) in
  if a =? 0 then ret false else
  let* b := load8 (s2 + i) in
  ret (negb (b =? 0) && (a =? b)).

(** The comparison after the loop. *)
Definition char_diff (s1 s2 i : Z) : M mem Z :=
  let* a := load8 (s1 + i) in
  let* b := load8 (s2 + i) in
  ret (if a =? b then 0 else s8 a - s8 b).

Definition strcmp (fuel : nat) (s1 s2 : Z) : M mem Z :=
  let* i := loop fuel 0 (fun i => let* c := same_char s1 s2 i in ret (if c then inl (i + 1) else inr i)) in
  char_diff s1 s2 i.

Definition strncmp (s1 s2 n : Z) : M mem Z :=
  if n =? 0 then ret 0 else
  let* r := for_range (Z.to_nat (n - 1)) 0 (fun i =>
        let* c := same_char s1 s2 i in ret (if c then None else Some i)) in
  char_diff s1 s2 (default (n - 1) r).

(** [NULL] is address [0]. *)
Definition strchr (fuel : nat) (str chr : Z) : M mem Z :=
  loop fuel str (fun p =>
    let* b := load8 p in
    ret (if b =? 0 then inr 0 else if b =? u8 chr then inr p else inl (p + 1))).

(** The [for] loop of [strtok_r] that skips leading delimiters. *)
Definition strtok_skip (fuel : nat) (delim search : Z) : M mem Z :=
  loop fuel (0, search) (fun '(i, search) =>
    let* d := load8 (delim + i) in
    if d =? 0 then ret (inr search) else
    let* b := load8 search in
    if b =? 0 then ret (inr search) else
    ret (inl (i + 1, if b =? d then search + 1 else search))).

(** The result is the token and the new value of [*next]. *)
Definition strtok_r (fuel : nat) (buff delim next : Z) : M mem (Z * Z) :=
  let search := if buff =? 0 then next else buff in
  if search =? 0 then ret (0, next) else
  let* search := loop fuel search (fun old =>
             let* search := strtok_skip fuel delim old in
             ret (if search =? old then inr search else inl search)) in
  let* tok_end := loop fuel (delim, 0) (fun '(delim, tok_end) =>
          let* d := load8 delim in
          if d =? 0 then ret (inr tok_end) else
          let* new := strchr fuel search d in
          ret (inl (delim + 1, if (tok_end =? 0) || (new <? tok_end) then new else tok_end))) in
  (if tok_end =? 0 then ret tt else store8 tok_end 0) ;;
  ret (search, if tok_end =? 0 then 0 else tok_end + 1).

Definition parse_dec_digit (str acc i : Z) : M mem (Z + Z) :=
  let* c := load8 (str + i) in
  let c := s8 c in
  ret (if (c <? 48) || (57 <? c) then inl acc else inr (u32 (u32 (acc * 10) + (c - 48)))).

(** [None]: the digit is not hexadecimal, the parser returns [0]. *)
Definition parse_hex_digit (str acc i : Z) : M mem (option Z) :=
  let* c := load8 (str + i) in
  let c := s8 c in
  let acc := u32 (Z.shiftl acc 4) in
  ret (if (c <? 48) || (57 <? c)
        then if (c <? 97) || (102 <? c)
             then if (c <? 65) || (70 <? c) then None
                  else Some (u32 (Z.lor acc (c - 65 + 10)))
             else Some (u32 (Z.lor acc (c - 97 + 10)))
        else Some (u32 (Z.lor acc (c - 48)))).

Definition str_parse_int (str : Z) : M mem Z :=
  let* len := strnlen str 32 in
  if len =? 0 then ret 0 else
  let* c := load8 str in
  if negb (c =? 48) then
    (* base 10: a non-digit ends the number *)
    loop (S (Z.to_nat len)) (0, 0) (fun '(i, acc) =>
      if len <=? i then ret (inr acc) else
      let* r := parse_dec_digit str acc i in
      ret (match r with inl acc => inr acc | inr acc => inl (i + 1, acc) end))
  else
    let* x := load8 (str + 1) in
    if (x =? 120) || (x =? 88) then
      loop (S (Z.to_nat len)) (2, 0) (fun '(i, acc) =>
        if len <=? i then ret (inr acc) else
        let* r := parse_hex_digit str acc i in
        ret (match r with None => inr 0 | Some acc => inl (i + 1, acc) end))
    else ret 0.

(** [buff] is the address of the 512-byte local buffer. *)
Definition str_extract_arg (fuel : nat) (buff comma str_in findarg argout arglen : Z) : M mem Z :=
  strncpy buff str_in 512 ;;
  let* first := strtok_r fuel buff comma 0 in
  loop fuel first (fun '(tok, next) =>
    if tok =? 0 then ret (inr 0) else
    let* sep := strchr fuel tok 61 (* '=' *) in
    let continue := let* t := strtok_r fuel 0 comma next in ret (inl t) in
    if sep =? 0 then continue else
    store8 sep 0 ;;
    let* c := strcmp fuel findarg tok in
    if c =? 0 then strncpy argout (sep + 1) arglen ;; ret (inr argout)
    else continue).

(** * C strings in memory *)

(** The bytes [s] followed by a NUL are stored at [p]. *)
Fixpoint cstr (m : mem) (p : Z) (s : list Z) : Prop :=
  match s with
  | [] => m !! p = Some 0
  | c :: s' => 0 < c < 256 /\ m !! p = Some c /\ cstr m (p + 1) s'
  end.

(** What [strcmp] computes on the two strings' values. *)
Fixpoint strcmp_val (s t : list Z) : Z :=
  match s, t with
  | [], [] => 0
  | [], b :: _ => s8 0 - s8 b
  | a :: _, [] => s8 a - s8 0
  | a :: s', b :: t' => if a =? b then strcmp_val s' t' else s8 a - s8 b
  end.

Definition bytes_ok (s : list Z) : Prop := Forall (fun c => 0 < c < 256) s.

Lemma load8_eq (m : mem) p b : m !! p = Some b -> load8 p m = Ret (b, m).
Proof. intros H. unfold load8, bind, get, need. by rewrite H. Qed.

(** [l] is stored from [p] on. *)
Definition bytes_at (m : mem) (p : Z) (l : list Z) : Prop :=
  forall i b, zget l i = Some b -> m !! (p + i) = Some b.

Lemma load_bytes_eq m p l n :
  bytes_at m p l -> (n <= length l)%nat -> load_bytes n p m = Ret (take n l, m).
Proof.
  revert p l. induction n as [|n IH]; intros p l Hb Hn; [done|].
  destruct l as [|b l]; [cbn in Hn; lia|]. cbn [load_bytes take].
  assert (m !! p = Some b) as Hp by (rewrite <- (Z.add_0_r p); by apply Hb).
  rewrite (bind_Ret _ _ _ _ _ (load8_eq _ _ _ Hp)).
  erewrite bind_Ret; [reflexivity|]. apply IH; [|cbn in Hn; lia].
  intros i c Hi. pose proof (zget_lt_Some _ _ _ Hi). replace (p + 1 + i) with (p + (i + 1)) by lia.
  apply Hb. change (b :: l) with ([b] ++ l). rewrite zget_app_r by (cbn; lia).
  cbn [length]. by replace (i + 1 - Z.of_nat 1) with i by lia.
Qed.

Lemma bytes_at_drop m p l n : bytes_at m p l -> bytes_at m (p + Z.of_nat n) (drop n l).
Proof.
  intros Hb i c Hi. pose proof (zget_lt_Some _ _ _ Hi) as Hr. rewrite <- Z.add_assoc. apply Hb.
  unfold zget in *. destruct (Z.ltb_spec i 0); [lia|]. destruct (Z.ltb_spec (Z.of_nat n + i) 0); [lia|].
  rewrite lookup_drop in Hi. rewrite <- Hi. f_equal. lia.
Qed.

Lemma store8_eq m p b c :
  m !! p = Some c -> store8 p b m = Ret (tt, <[p := u8 b]> m).
Proof. intros H. unfold store8, bind, get. by rewrite H. Qed.

Lemma cstr_bytes_ok m p s : cstr m p s -> bytes_ok s.
Proof.
  revert p. induction s as [|c s IH]; intros p H; [constructor|].
  destruct H as (? & ? & ?). constructor; [done|]. by eapply IH.
Qed.

Lemma cstr_app m p s t :
  cstr m p (s ++ t) <->
  bytes_ok s /\ (forall i c, zget s i = Some c -> m !! (p + i) = Some c) /\
  cstr m (p + Z.of_nat (length s)) t.
Proof.
  revert p. induction s as [|a s IH]; intros p; cbn [app cstr length].
  - rewrite Z.add_0_r. split; [|tauto]. intros H. split_and!; [constructor| |done].
    intros i c Hi%zget_lt_Some. cbn in Hi. lia.
  - rewrite IH. replace (p + Z.of_nat (S (length s))) with (p + 1 + Z.of_nat (length s)) by lia.
    split.
    + intros (Ha & Hp & Hs & Hb & Ht). split_and!; [by constructor| |done].
      intros i c Hi. pose proof (zget_lt_Some _ _ _ Hi).
      destruct (decide (i = 0)) as [->|].
      * rewrite Z.add_0_r. change (Some a = Some c) in Hi. congruence.
      * replace (p + i) with (p + 1 + (i - 1)) by lia. apply Hb.
        change (a :: s) with ([a] ++ s) in Hi.
        rewrite zget_app_r in Hi by (cbn; lia). done.
    + intros (Hs & Hb & Ht). inversion Hs; subst. split; [done|]. split_and!; [|done| |done].
      * rewrite <- (Z.add_0_r p). by apply Hb.
      * intros i c Hi. replace (p + 1 + i) with (p + (i + 1)) by lia. apply Hb.
        pose proof (zget_lt_Some _ _ _ Hi).
        change (a :: s) with ([a] ++ s). rewrite zget_app_r by (cbn; lia).
        cbn [length]. by replace (i + 1 - Z.of_nat 1) with i by lia.
Qed.

Lemma cstr_mono m m' p s :
  cstr m p s -> (forall q, p <= q <= p + Z.of_nat (length s) -> m' !! q = m !! q) ->
  cstr m' p s.
Proof.
  revert p. induction s as [|c s IH]; intros p Hs Hm; cbn [cstr length] in *.
  - rewrite Hm by lia. done.
  - destruct Hs as (Hc & Hp & Hs). split_and!; [lia|lia| |].
    + rewrite Hm by lia. done.
    + apply IH; [done|]. intros q Hq. apply Hm. lia.
Qed.

Lemma strcmp_val_eq s t : bytes_ok s -> bytes_ok t -> strcmp_val s t = 0 <-> s = t.
Proof.
  revert t. induction s as [|a s IH]; intros [|b t] Hs Ht; cbn [strcmp_val].
  - done.
  - split; [|done]. inversion Ht; subst. intros H.
    assert (0 = b) by (apply s8_inj; lia). lia.
  - split; [|done]. inversion Hs; subst. intros H.
    assert (a = 0) by (apply s8_inj; lia). lia.
  - inversion Hs; inversion Ht; subst. destruct (Z.eqb_spec a b) as [->|Hne].
    + rewrite IH by done. split; congruence.
    + split; [|congruence]. intros H. contradict Hne. apply s8_inj; lia.
Qed.

(** * Lemmas on the loops *)


Lemma cstr_head m p c s :
  cstr m p (c :: s) -> load8 p m = Ret (c, m) /\ (c =? 0) = false.
Proof. intros (? & H & ?). split; [by apply load8_eq|]. apply Z.eqb_neq. lia. Qed.

Lemma cstr_nul m p : cstr m p [] -> load8 p m = Ret (0, m).
Proof. apply load8_eq. Qed.

Lemma strlen_loop fuel m p s i :
  cstr m p s -> (length s < fuel)%nat -> 0 <= i -> i + Z.of_nat (length s) < 2 ^ 32 ->
  loop fuel (p, i) (fun '(c, i) =>
    let* b := load8 c in
    ret (if b =? 0 then inr i else inl (c + 1, u32 (i + 1)))) m
  = Ret (i + Z.of_nat (length s), m).
Proof.
  revert fuel p i. induction s as [|c s IH]; intros [|fuel] p i Hs Hf Hi Hb; cbn [length] in *; try lia.
  - erewrite loop_done; [|erewrite bind_Ret by (by apply cstr_nul); done].
    by rewrite Z.add_0_r.
  - destruct (cstr_head _ _ _ _ Hs) as [Hl Hc].
    erewrite loop_next; [|erewrite bind_Ret by exact Hl; rewrite Hc; done].
    rewrite u32_small by lia. destruct Hs as (_ & _ & Hs).
    rewrite IH; [|done|lia..]. do 2 f_equal. lia.
Qed.

(** Both comparison loops stop at the first position where a string ends or
    the strings differ; [hd 0] is the byte the loop sees there. *)
Lemma load8_hd m p s : cstr m p s -> load8 p m = Ret (hd 0 s, m).
Proof. destruct s; [apply cstr_nul|]. intros H. by apply cstr_head in H as [? _]. Qed.

Definition go_on (s t : list Z) : bool :=
  negb (hd 0 s =? 0) && (negb (hd 0 t =? 0) && (hd 0 s =? hd 0 t)).

Lemma same_char_eq m p q i s t :
  cstr m (p + i) s -> cstr m (q + i) t -> same_char p q i m = Ret (go_on s t, m).
Proof.
  intros Hs%load8_hd Ht%load8_hd. unfold same_char, go_on.
  rewrite (bind_Ret _ _ _ _ _ Hs). destruct (hd 0 s =? 0); [done|].
  by rewrite (bind_Ret _ _ _ _ _ Ht).
Qed.

Lemma char_diff_stop m p q i s t :
  cstr m (p + i) s -> cstr m (q + i) t -> go_on s t = false ->
  char_diff p q i m = Ret (strcmp_val s t, m).
Proof.
  intros Hs Ht Hg. unfold char_diff.
  rewrite (bind_Ret _ _ _ _ _ (load8_hd _ _ _ Hs)), (bind_Ret _ _ _ _ _ (load8_hd _ _ _ Ht)).
  do 2 f_equal. unfold go_on in Hg.
  destruct s as [|a s], t as [|b t]; cbn [hd strcmp_val] in *; try done.
  - destruct (cstr_head _ _ _ _ Ht) as [_ Hb]. by rewrite Z.eqb_sym, Hb.
  - destruct (cstr_head _ _ _ _ Hs) as [_ Ha]. by rewrite Ha.
  - destruct (cstr_head _ _ _ _ Hs) as [_ Ha], (cstr_head _ _ _ _ Ht) as [_ Hb].
    rewrite Ha, Hb in Hg. cbn in Hg. by rewrite Hg.
Qed.

Lemma go_on_cons s t :
  go_on s t = true -> exists a s' t', s = a :: s' /\ t = a :: t'.
Proof.
  unfold go_on. destruct s as [|a s], t as [|b t]; cbn; intros H; try done.
  - by destruct (a =? 0).
  - assert (a = b) as -> by lia. eauto.
Qed.

Lemma strcmp_val_take_stop n m p q s t :
  cstr m p s -> cstr m q t -> go_on s t = false ->
  strcmp_val (take (S n) s) (take (S n) t) = strcmp_val s t.
Proof.
  intros Hs Ht Hg. unfold go_on in Hg.
  destruct s as [|a s], t as [|b t]; cbn [take strcmp_val]; try done.
  destruct (cstr_head _ _ _ _ Hs) as [_ Ha], (cstr_head _ _ _ _ Ht) as [_ Hb].
  cbn [hd] in Hg. rewrite Ha, Hb in Hg. cbn in Hg. by rewrite Hg.
Qed.

Lemma cstr_next m p i c s : cstr m (p + i) (c :: s) -> cstr m (p + (i + 1)) s.
Proof. rewrite Z.add_assoc. by intros (? & ? & ?). Qed.

Lemma strcmp_loop fuel m p q s t i :
  cstr m (p + i) s -> cstr m (q + i) t -> (length s < fuel)%nat ->
  (let* i := loop fuel i (fun i => let* c := same_char p q i in ret (if c then inl (i + 1) else inr i)) in
   char_diff p q i) m = Ret (strcmp_val s t, m).
Proof.
  revert s t i. induction fuel as [|fuel IH]; intros s t i Hs Ht Hf; [lia|].
  pose proof (same_char_eq _ _ _ _ _ _ Hs Ht) as Hc. destruct (go_on s t) eqn:Hg.
  - destruct (go_on_cons _ _ Hg) as (a & s' & t' & -> & ->).
    unfold bind at 1.
    erewrite loop_next by (by rewrite (bind_Ret _ _ _ _ _ Hc)).
    cbn [strcmp_val]. rewrite Z.eqb_refl.
    apply IH; [by eapply cstr_next..|cbn in Hf; lia].
  - erewrite bind_Ret by (eapply loop_done; by rewrite (bind_Ret _ _ _ _ _ Hc)).
    by apply char_diff_stop.
Qed.

Lemma strncmp_loop n m p q s t i :
  cstr m (p + i) s -> cstr m (q + i) t ->
  (let* r := for_range n i (fun i => let* c := same_char p q i in ret (if c then None else Some i)) in
   char_diff p q (default (i + Z.of_nat n) r)) m
  = Ret (strcmp_val (take (S n) s) (take (S n) t), m).
Proof.
  revert s t i. induction n as [|n IH]; intros s t i Hs Ht;
    pose proof (same_char_eq _ _ _ _ _ _ Hs Ht) as Hc; destruct (go_on s t) eqn:Hg.
  - destruct (go_on_cons _ _ Hg) as (a & s' & t' & -> & ->).
    rewrite (bind_Ret _ _ _ _ _ (for_range_0 _ _ _)). cbn. rewrite Z.add_0_r, !take_0, Z.eqb_refl.
    unfold char_diff. destruct (cstr_head _ _ _ _ Hs) as [Ha _], (cstr_head _ _ _ _ Ht) as [Hb _].
    by rewrite (bind_Ret _ _ _ _ _ Ha), (bind_Ret _ _ _ _ _ Hb), Z.eqb_refl.
  - rewrite (bind_Ret _ _ _ _ _ (for_range_0 _ _ _)). unfold from_option, id. rewrite Z.add_0_r.
    rewrite (char_diff_stop _ _ _ _ _ _ Hs Ht Hg). by erewrite strcmp_val_take_stop.
  - destruct (go_on_cons _ _ Hg) as (a & s' & t' & -> & ->).
    unfold bind at 1.
    erewrite for_range_next by (by rewrite (bind_Ret _ _ _ _ _ Hc)).
    replace (i + Z.of_nat (S n)) with (i + 1 + Z.of_nat n) by lia.
    rewrite !firstn_cons. cbn [strcmp_val]. rewrite Z.eqb_refl.
    apply IH; by eapply cstr_next.
  - erewrite bind_Ret by (eapply for_range_done; by rewrite (bind_Ret _ _ _ _ _ Hc)).
    unfold from_option, id. rewrite (char_diff_stop _ _ _ _ _ _ Hs Ht Hg). by erewrite strcmp_val_take_stop.
Qed.

(** * Indexed view of a C string *)

(** The byte [str[i]] of a string value, its terminator included. *)
Definition byte_at (s : list Z) (i : Z) : Z := default 0 (zget s i).

Lemma byte_at_range s i : bytes_ok s -> 0 <= byte_at s i < 256.
Proof.
  intros H. unfold byte_at. destruct (zget s i) as [c|] eqn:E; cbn; [|lia].
  pose proof (Forall_zget _ _ _ _ H E). cbn in *. lia.
Qed.

Lemma byte_at_zero s i :
  bytes_ok s -> 0 <= i -> byte_at s i = 0 <-> Z.of_nat (length s) <= i.
Proof.
  intros H Hi. unfold byte_at. split.
  - intros E. apply Z.le_ngt. intros Hlt.
    destruct (zget_in_range s i) as [c Hc]; [lia|]. rewrite Hc in E. cbn in E.
    pose proof (Forall_zget _ _ _ _ H Hc). cbn in *. lia.
  - intros Hle. assert (zget s i = None) as -> by (apply zget_None; lia). done.
Qed.

Lemma cstr_at m p s i :
  cstr m p s -> 0 <= i <= Z.of_nat (length s) -> m !! (p + i) = Some (byte_at s i).
Proof.
  intros H Hi. rewrite <- (app_nil_r s) in H. apply cstr_app in H as (_ & Hb & Hn).
  unfold byte_at. destruct (decide (i = Z.of_nat (length s))) as [->|].
  - assert (zget s (Z.of_nat (length s)) = None) as -> by (apply zget_None; lia). done.
  - destruct (zget_in_range s i) as [c Hc]; [lia|]. rewrite Hc. by apply Hb.
Qed.

Lemma cstr_intro m p s :
  bytes_ok s -> (forall i, 0 <= i <= Z.of_nat (length s) -> m !! (p + i) = Some (byte_at s i)) ->
  cstr m p s.
Proof.
  intros Hs H. rewrite <- (app_nil_r s). apply cstr_app. split_and!; [done| |].
  - intros i c Hi. pose proof (zget_lt_Some _ _ _ Hi). rewrite H by lia.
    unfold byte_at. by rewrite Hi.
  - cbn. rewrite H by lia. f_equal. by apply byte_at_zero; [|lia|].
Qed.

Lemma byte_at_take s n i :
  0 <= i < Z.of_nat n -> byte_at (take n s) i = byte_at s i.
Proof.
  intros H. unfold byte_at, zget. destruct (Z.ltb_spec i 0); [lia|].
  by rewrite lookup_take_lt by lia.
Qed.

Lemma byte_at_ge s i : Z.of_nat (length s) <= i -> byte_at s i = 0.
Proof. intros H. unfold byte_at. by rewrite (proj2 (zget_None s i)) by lia. Qed.

Lemma bytes_ok_take n s : bytes_ok s -> bytes_ok (take n s).
Proof. apply Forall_take. Qed.

(** [m'] is [m] with the bytes of [s] from index [0] to [n - 1] at [dest]. *)
Definition copied (m m' : mem) (dest : Z) (s : list Z) (n : Z) : Prop :=
  (forall i, 0 <= i < n -> m' !! (dest + i) = Some (byte_at s i)) /\
  (forall q, ~ (dest <= q < dest + n) -> m' !! q = m !! q).

Lemma copied_0 m dest s : copied m m dest s 0.
Proof. split; [lia|done]. Qed.

Lemma copied_S m m' dest s n b :
  copied m m' dest s n -> 0 <= n -> b = byte_at s n ->
  copied m (<[dest + n := b]> m') dest s (n + 1).
Proof.
  intros [Hc Hf] Hn ->. split.
  - intros i Hi. destruct (decide (i = n)) as [->|].
    + by rewrite lookup_insert_eq.
    + rewrite lookup_insert_ne by lia. apply Hc. lia.
  - intros q Hq. rewrite lookup_insert_ne by lia. apply Hf. lia.
Qed.

Lemma wp_load8 (Q : Z -> mem -> Prop) m p b : m !! p = Some b -> wp (load8 p) Q m <-> Q b m.
Proof. intros H. unfold wp. by rewrite (load8_eq _ _ _ H). Qed.
Lemma wp_store8 (Q : unit -> mem -> Prop) m p b c :
  m !! p = Some c -> wp (store8 p b) Q m <-> Q tt (<[p := u8 b]> m).
Proof. intros H. unfold wp. by rewrite (store8_eq _ _ _ _ H). Qed.

(** The string [s] at [src] and the [max] writable bytes at [dest] are
    disjoint. *)
Record copy_pre (m : mem) (dest src max : Z) (s : list Z) : Prop := {
  cp_src : cstr m src s;
  cp_dest : forall i, 0 <= i < max -> is_Some (m !! (dest + i));
  cp_disj : dest + max <= src \/ src + Z.of_nat (length s) < dest;
}.

Lemma copied_src m m' dest src max s n i :
  copy_pre m dest src max s -> copied m m' dest s n -> n <= max ->
  0 <= i <= Z.of_nat (length s) -> m' !! (src + i) = Some (byte_at s i).
Proof.
  intros [Hs Hd Hdisj] [_ Hf] Hn Hi. rewrite Hf by lia. by apply cstr_at.
Qed.

Lemma copied_dest m m' dest src max s n i :
  copy_pre m dest src max s -> copied m m' dest s n ->
  0 <= i < max -> is_Some (m' !! (dest + i)).
Proof.
  intros [Hs Hd Hdisj] [Hc Hf] Hi. destruct (decide (i < n)).
  - rewrite Hc by lia. eauto.
  - rewrite Hf by lia. by apply Hd.
Qed.

Lemma strncpy_loop m dest src max s :
  copy_pre m dest src max s -> 0 <= max ->
  wp (for_range (Z.to_nat max) 0 (fun i =>
        let* b := load8 (src + i) in
        if b =? 0 then ret (Some i) else store8 (dest + i) b ;; ret None))
     (fun r m' => copied m m' dest s (Z.min max (Z.of_nat (length s))) /\
                  default max r = Z.min max (Z.of_nat (length s))) m.
Proof.
  intros Hp Hmax. pose proof (cstr_bytes_ok _ _ _ (cp_src _ _ _ _ _ Hp)) as Hok.
  apply (wp_for_range (fun i m' => copied m m' dest s i /\ i <= Z.of_nat (length s))).
  - split; [apply copied_0|lia].
  - intros j m' Hj [Hc Hl].
    rewrite wp_bind, (wp_load8 _ _ _ (byte_at s j)) by (eapply copied_src; eauto; lia).
    destruct (Z.eqb_spec (byte_at s j) 0) as [E|E].
    + apply byte_at_zero in E; [|done|lia].
      assert (j = Z.of_nat (length s)) by lia. cbn. subst.
      rewrite Z.min_r by lia. by split.
    + destruct (copied_dest _ _ _ _ _ _ _ j Hp Hc) as [c Hc']; [lia|].
      rewrite wp_bind, (wp_store8 _ _ _ _ c) by done. cbn.
      rewrite (u8_small (byte_at s j)) by (by apply byte_at_range).
      split; [by apply copied_S; [|lia|]|].
      apply Z.le_ngt. intros Hlt. apply E, byte_at_ge. lia.
  - intros m' [Hc Hl]. rewrite Z2Nat.id in * by lia. rewrite Z.min_l by lia. by split.
Qed.

(** * Parsing numbers: what [str_parse_int] computes on the string's value *)

Definition is_digit (c : Z) : bool := (48 <=? c) && (c <=? 57).

Definition hex_digit (c : Z) : option Z :=
  if is_digit c then Some (c - 48)
  else if (97 <=? c) && (c <=? 102) then Some (c - 97 + 10)
  else if (65 <=? c) && (c <=? 70) then Some (c - 65 + 10)
  else None.

(** Read bytes from left to right: [step] continues with a new accumulator
    or stops with a result. *)
Fixpoint scan (step : Z -> Z -> Z + Z) (acc : Z) (s : list Z) : Z :=
  match s with
  | c :: s' => match step acc c with inl acc' => scan step acc' s' | inr v => v end
  | [] => acc
  end.

Definition dec_step (acc c : Z) : Z + Z :=
  if is_digit c then inl (u32 (acc * 10 + (c - 48))) else inr acc.
Definition hex_step (acc c : Z) : Z + Z :=
  match hex_digit c with
  | Some d => inl (u32 (Z.lor (u32 (Z.shiftl acc 4)) d))
  | None => inr 0
  end.
Definition dec_value : Z -> list Z -> Z := scan dec_step.
Definition hex_value : Z -> list Z -> Z := scan hex_step.

Definition parse_value (s : list Z) : Z :=
  match s with
  | [] => 0
  | c :: s' =>
      if negb (c =? 48) then dec_value 0 (take 32 s)
      else match s' with
           | x :: h => if (x =? 120) || (x =? 88) then hex_value 0 (take 30 h) else 0
           | [] => 0
           end
  end.

Lemma digit_char c : 0 < c < 256 -> ((s8 c <? 48) || (57 <? s8 c)) = negb (is_digit c).
Proof.
  intros Hc. unfold is_digit, s8.
  destruct (decide (c < 128)).
  - rewrite Z.mod_small by lia. lia.
  - replace (c + 2 ^ 7) with (c - 2 ^ 7 + 1 * 2 ^ 8) by lia.
    rewrite Z.mod_add, Z.mod_small by lia. lia.
Qed.

Lemma s8_ascii c : 0 <= c < 128 -> s8 c = c.
Proof. intros H. unfold s8. rewrite Z.mod_small by lia. lia. Qed.

Lemma parse_dec_digit_eq m p i acc c :
  m !! (p + i) = Some c -> 0 < c < 256 ->
  parse_dec_digit p acc i m =
    Ret (if is_digit c then inr (u32 (acc * 10 + (c - 48))) else inl acc, m).
Proof.
  intros Hm Hc. unfold parse_dec_digit. rewrite (bind_Ret _ _ _ _ _ (load8_eq _ _ _ Hm)).
  rewrite digit_char by done. unfold ret. do 2 f_equal.
  destruct (is_digit c) eqn:E; cbn [negb]; [|done].
  unfold is_digit in E. rewrite s8_ascii by lia. f_equal. unfold u32.
  by rewrite Zplus_mod_idemp_l.
Qed.

Lemma parse_hex_digit_eq m p i acc c :
  m !! (p + i) = Some c -> 0 < c < 256 ->
  parse_hex_digit p acc i m =
    Ret ((fun d => u32 (Z.lor (u32 (Z.shiftl acc 4)) d)) <$> hex_digit c, m).
Proof.
  intros Hm Hc. unfold parse_hex_digit. rewrite (bind_Ret _ _ _ _ _ (load8_eq _ _ _ Hm)).
  unfold ret. do 2 f_equal. rewrite digit_char by done. unfold hex_digit.
  destruct (is_digit c) eqn:E; cbn [negb].
  { unfold is_digit in E. by rewrite s8_ascii by lia. }
  assert (Hs : s8 c = c \/ (s8 c < 0 /\ 128 <= c)).
  { destruct (decide (c < 128)); [left; apply s8_ascii; lia|right].
    unfold s8. replace (c + 2 ^ 7) with (c - 2 ^ 7 + 1 * 2 ^ 8) by lia.
    rewrite Z.mod_add, Z.mod_small by lia. lia. }
  repeat case_goal; cbn; try done; try lia; destruct Hs as [->|Hs]; try done; lia.
Qed.

Lemma drop_byte_at (s : list Z) i :
  0 <= i < Z.of_nat (length s) ->
  drop (Z.to_nat i) s = byte_at s i :: drop (Z.to_nat (i + 1)) s.
Proof.
  intros H. unfold byte_at, zget. destruct (Z.ltb_spec i 0); [lia|].
  destruct (lookup_lt_is_Some_2 s (Z.to_nat i)) as [c Hc]; [lia|]. rewrite Hc. cbn.
  replace (Z.to_nat (i + 1)) with (S (Z.to_nat i)) by lia. by apply drop_S.
Qed.

(** The index loop of a number parser computes [scan]. *)
Lemma scan_loop m p s len step (body : Z * Z -> M mem (Z * Z + Z)) fuel i acc :
  cstr m p s -> len <= Z.of_nat (length s) -> 0 <= i <= len ->
  (Z.to_nat (len - i) < fuel)%nat ->
  (forall acc, body (len, acc) m = Ret (inr acc, m)) ->
  (forall i acc c, 0 <= i < len -> m !! (p + i) = Some c -> 0 < c < 256 ->
     body (i, acc) m =
       Ret (match step acc c with inl a => inl (i + 1, a) | inr v => inr v end, m)) ->
  loop fuel (i, acc) body m = Ret (scan step acc (drop (Z.to_nat i) (take (Z.to_nat len) s)), m).
Proof.
  intros Hs Hl Hi Hf Hend Hstep. revert i acc Hi Hf.
  induction fuel as [|fuel IH]; intros i acc Hi Hf; [lia|].
  destruct (decide (i = len)) as [->|].
  { rewrite drop_ge by (rewrite length_take; lia). by erewrite loop_done. }
  rewrite drop_byte_at by (rewrite length_take; lia). rewrite byte_at_take by lia.
  pose proof (cstr_at _ _ _ i Hs) as Hb. pose proof (cstr_bytes_ok _ _ _ Hs) as Hok.
  pose proof (byte_at_range s i Hok). pose proof (byte_at_zero s i Hok).
  cbn [scan]. pose proof (Hstep i acc (byte_at s i)) as Hd.
  destruct (step acc (byte_at s i)) as [a|v].
  - rewrite (loop_next _ _ (i + 1, a) _ m m) by (apply Hd; [lia|apply Hb; lia|lia]).
    apply IH; lia.
  - rewrite (loop_done _ _ v _ m m); [done|]. apply Hd; [lia|apply Hb; lia|lia].
Qed.

Lemma strnlen_eq m p s n :
  cstr m p s -> 0 <= n -> strnlen p n m = Ret (Z.min n (Z.of_nat (length s)), m).
Proof.
  intros Hs Hn. pose proof (cstr_bytes_ok _ _ _ Hs) as Hok. unfold strnlen.
  apply (wp_eq' (fun r m' => r = Z.min n (Z.of_nat (length s)) /\ m' = m)); [|naive_solver].
  rewrite wp_bind.
  apply (wp_for_range (fun i m' => i <= Z.of_nat (length s) /\ m' = m)); [split; [lia|done]| |].
  - intros j m' Hj [Hl ->]. rewrite wp_bind, (wp_load8 _ _ _ (byte_at s j)) by (apply cstr_at; [done|lia]).
    rewrite wp_ret. pose proof (byte_at_zero s j Hok). destruct (Z.eqb_spec (byte_at s j) 0).
    + rewrite wp_ret. cbn. split; [lia|done].
    + split; [lia|done].
  - intros m' [Hl ->]. rewrite wp_ret. cbn. rewrite Z2Nat.id in Hl by lia. split; [lia|done].
Qed.

Lemma str_parse_int_eq m p s : cstr m p s -> str_parse_int p m = Ret (parse_value s, m).
Proof.
  intros Hs. pose proof (cstr_bytes_ok _ _ _ Hs) as Hok. unfold str_parse_int.
  rewrite (bind_Ret _ _ _ _ _ (strnlen_eq m p s 32 Hs ltac:(lia))).
  set (len := Z.min 32 (Z.of_nat (length s))).
  destruct s as [|c s']; [done|].
  destruct (Z.eqb_spec len 0) as [E|_]; [cbn [length] in len; lia|].
  destruct (cstr_head _ _ _ _ Hs) as [Hc _]. rewrite (bind_Ret _ _ _ _ _ Hc).
  cbn [parse_value]. destruct (c =? 48) eqn:Ec; cbn [negb].
  - destruct s' as [|x h].
    { destruct Hs as (_ & _ & Hn). by rewrite (bind_Ret _ _ _ _ _ (cstr_nul _ _ Hn)). }
    destruct Hs as (Hc0 & Hp & Hs). destruct (cstr_head _ _ _ _ Hs) as [Hx _].
    rewrite (bind_Ret _ _ _ _ _ Hx). destruct (_ || _); [|done].
    rewrite (scan_loop m p (c :: x :: h) len hex_step).
    + do 2 f_equal. unfold hex_value. change (Z.to_nat 2) with 2%nat.
      cbn [length] in len. replace (Z.to_nat len) with (S (S (Nat.min 30 (length h)))) by lia.
      cbn [take drop]. f_equal.
      destruct (decide (length h <= 30)%nat);
        [rewrite Nat.min_r, !take_ge by lia; done|by rewrite Nat.min_l by lia].
    + by split_and!; try lia.
    + lia.
    + cbn [length] in len. lia.
    + cbn [length] in len. lia.
    + intros acc. destruct (Z.leb_spec len len); [done|lia].
    + intros i acc b Hi Hb Hr. destruct (Z.leb_spec len i); [lia|].
      rewrite (bind_Ret _ _ _ _ _ (parse_hex_digit_eq _ _ _ acc _ Hb Hr)).
      unfold hex_step. by destruct (hex_digit b).
  - rewrite (scan_loop m p (c :: s') len dec_step); try done; try lia.
    + do 2 f_equal. unfold dec_value. change (Z.to_nat 0) with 0%nat. rewrite drop_0. f_equal.
      destruct (decide (length (c :: s') <= 32)%nat);
        [rewrite !take_ge by lia; done|f_equal; lia].
    + intros acc. destruct (Z.leb_spec len len); [done|lia].
    + intros i acc b Hi Hb Hr. destruct (Z.leb_spec len i); [lia|].
      rewrite (bind_Ret _ _ _ _ _ (parse_dec_digit_eq _ _ _ acc _ Hb Hr)).
      unfold dec_step. by destruct (is_digit b).
Qed.

(** * Searching and splitting *)

(** The part of [s] before the first [d], and the rest from that [d] on. *)
Fixpoint split_at (d : Z) (s : list Z) : list Z * list Z :=
  match s with
  | [] => ([], [])
  | c :: s' => if c =? d then ([], s) else let '(a, b) := split_at d s' in (c :: a, b)
  end.

Fixpoint skip_char (d : Z) (s : list Z) : list Z :=
  match s with
  | c :: s' => if c =? d then skip_char d s' else s
  | [] => []
  end.

Lemma split_at_app d s : (split_at d s).1 ++ (split_at d s).2 = s.
Proof.
  induction s as [|c s IH]; [done|]. cbn. destruct (c =? d); [done|].
  destruct (split_at d s). cbn in *. by rewrite IH.
Qed.

Lemma split_at_rest d s c r : (split_at d s).2 = c :: r -> c = d.
Proof.
  induction s as [|a s IH]; [done|]. cbn. destruct (Z.eqb_spec a d) as [->|]; cbn; [congruence|].
  by destruct (split_at d s).
Qed.

Lemma split_at_notin d s : d ∉ (split_at d s).1.
Proof.
  induction s as [|a s IH]; cbn; [apply not_elem_of_nil|].
  destruct (Z.eqb_spec a d); [apply not_elem_of_nil|].
  destruct (split_at d s); cbn in *. rewrite not_elem_of_cons. by split.
Qed.

Lemma strchr_eq fuel m p s d :
  cstr m p s -> (length s < fuel)%nat -> 0 < d < 256 ->
  strchr fuel p d m =
    Ret (match (split_at d s).2 with
         | [] => 0
         | _ => p + Z.of_nat (length (split_at d s).1)
         end, m).
Proof.
  intros Hs Hf Hd. unfold strchr. rewrite u8_small by lia. revert p s Hs Hf.
  induction fuel as [|fuel IH]; intros p [|c s] Hs Hf; cbn [length] in Hf; try lia.
  - erewrite loop_done; [done|]. by rewrite (bind_Ret _ _ _ _ _ (cstr_nul _ _ Hs)).
  - destruct (cstr_head _ _ _ _ Hs) as [Hl Hc]. cbn [split_at].
    destruct (c =? d) eqn:E.
    + cbn. change (Z.of_nat 0) with 0. rewrite Z.add_0_r. erewrite loop_done; [done|].
      by rewrite (bind_Ret _ _ _ _ _ Hl), Hc, E.
    + erewrite loop_next by (by rewrite (bind_Ret _ _ _ _ _ Hl), Hc, E).
      destruct Hs as (_ & _ & Hs). rewrite (IH _ s) by (done || lia).
      destruct (split_at d s) as [a b]; cbn. destruct b; [done|].
      do 2 f_equal. lia.
Qed.

Lemma skip_char_length d s : (length (skip_char d s) <= length s)%nat.
Proof. induction s as [|c s IH]; [done|]. cbn. destruct (c =? d); cbn; lia. Qed.

Lemma cstr_skip d m p s :
  cstr m p s -> cstr m (p + Z.of_nat (length s - length (skip_char d s))) (skip_char d s).
Proof.
  revert p. induction s as [|c s IH]; intros p Hs; [by rewrite Z.add_0_r|].
  cbn [skip_char]. destruct (c =? d).
  - destruct Hs as (_ & _ & Hs%IH). pose proof (skip_char_length d s). cbn [length].
    by replace (p + Z.of_nat (S (length s) - length (skip_char d s)))
      with (p + 1 + Z.of_nat (length s - length (skip_char d s))) by lia.
  - by rewrite Nat.sub_diag, Z.add_0_r.
Qed.

Lemma strtok_skip_eq fuel m q p d s :
  cstr m q [d] -> cstr m p s -> (2 <= fuel)%nat ->
  strtok_skip fuel q p m = Ret (p + (if hd 0 s =? d then 1 else 0), m).
Proof.
  intros Hq Hp Hf. destruct fuel as [|[|fuel]]; [lia..|]. unfold strtok_skip.
  destruct (cstr_head _ _ _ _ Hq) as [Hd Hd0]. pose proof (load8_hd _ _ _ Hp) as Hl.
  destruct Hq as (Hr & _ & Hn%cstr_nul).
  assert (Hskip : forall fuel' p' i, 0 < i -> i = 1 -> loop (S fuel') (i, p') (fun '(i, search) =>
    let* d := load8 (q + i) in
    if d =? 0 then ret (inr search) else
    let* b := load8 search in
    if b =? 0 then ret (inr search) else
    ret (inl (i + 1, if b =? d then search + 1 else search))) m = Ret (p', m)).
  { intros fuel' p' i _ ->. erewrite loop_done; [done|]. by rewrite (bind_Ret _ _ _ _ _ Hn). }
  destruct (hd 0 s =? 0) eqn:E0.
  - apply Z.eqb_eq in E0. erewrite loop_done.
    2: { rewrite Z.add_0_r, (bind_Ret _ _ _ _ _ Hd), Hd0, (bind_Ret _ _ _ _ _ Hl), E0. done. }
    rewrite E0. destruct (Z.eqb_spec 0 d); [lia|]. by rewrite Z.add_0_r.
  - erewrite loop_next.
    2: { rewrite Z.add_0_r, (bind_Ret _ _ _ _ _ Hd), Hd0, (bind_Ret _ _ _ _ _ Hl), E0. done. }
    rewrite Hskip by lia. destruct (hd 0 s =? d); [done|]. by rewrite Z.add_0_r.
Qed.

Lemma strtok_skip_loop fuel fuel' m q p d s :
  cstr m q [d] -> cstr m p s -> (2 <= fuel')%nat -> (length s < fuel)%nat ->
  loop fuel p (fun old =>
    let* search := strtok_skip fuel' q old in
    ret (if search =? old then inr search else inl search)) m
  = Ret (p + Z.of_nat (length s - length (skip_char d s)), m).
Proof.
  intros Hq Hp Hf. revert p s Hp. induction fuel as [|fuel IH]; intros p s Hp Hl; [lia|].
  pose proof (strtok_skip_eq fuel' m q p d s Hq Hp Hf) as Hk. revert Hk.
  destruct s as [|c s]; cbn [hd skip_char].
  - assert ((0 =? d) = false) as -> by (destruct Hq; lia). intros Hk.
    rewrite Z.add_0_r in Hk. erewrite loop_done; [by rewrite Nat.sub_diag, Z.add_0_r|].
    by rewrite (bind_Ret _ _ _ _ _ Hk), Z.eqb_refl.
  - destruct (c =? d); intros Hk.
    + erewrite loop_next.
      2: { rewrite (bind_Ret _ _ _ _ _ Hk). destruct (Z.eqb_spec (p + 1) p); [lia|done]. }
      destruct Hp as (_ & _ & Hp). cbn [length] in Hl. rewrite (IH _ s) by (done || lia).
      pose proof (skip_char_length d s). cbn [length]. do 2 f_equal. lia.
    + rewrite Z.add_0_r in Hk. erewrite loop_done; [by rewrite Nat.sub_diag, Z.add_0_r|].
      by rewrite (bind_Ret _ _ _ _ _ Hk), Z.eqb_refl.
Qed.

(** Writing a list of bytes, to build concrete memories. *)
Fixpoint put_bytes (m : mem) (p : Z) (l : list Z) : mem :=
  match l with
  | [] => m
  | b :: l' => put_bytes (<[p := b]> m) (p + 1) l'
  end.

Ltac solve_cstr := cbn; split_and!; first [lia | vm_compute; reflexivity].

(** * Properties *)

(** [strcmp] returns, with fuel beyond the first string's length, the
    lexicographic comparison of the two strings, leaves memory unchanged,
    and its result is [0] exactly on equal strings. *)
Theorem strcmp_correct fuel m p q s t :
  cstr m p s -> cstr m q t -> (length s < fuel)%nat ->
  strcmp fuel p q m = Ret (strcmp_val s t, m) /\ (strcmp_val s t = 0 <-> s = t).
Proof.
  intros Hs Ht Hf. split.
  - apply strcmp_loop; [by rewrite Z.add_0_r..|done].
  - apply strcmp_val_eq; by eapply cstr_bytes_ok.
Qed.

Lemma strcmp_correct_witness :
  let m := put_bytes (put_bytes ∅ 100 (zstr "romfs" ++ [0])) 200 (zstr "rom" ++ [0]) in
  strcmp 10 100 200 m = Ret (102, m).
Proof.
  intros m. apply (strcmp_correct 10 m 100 200 (zstr "romfs") (zstr "rom")).
  - solve_cstr.
  - solve_cstr.
  - cbn; lia.
Defined.

(** [strncmp] with a positive bound compares the first [n] bytes of the
    two strings and reads nothing it may not read. *)
Theorem strncmp_correct m p q s t n :
  cstr m p s -> cstr m q t -> 0 < n ->
  strncmp p q n m = Ret (strcmp_val (take (Z.to_nat n) s) (take (Z.to_nat n) t), m).
Proof.
  intros Hs Ht Hn. unfold strncmp. destruct (Z.eqb_spec n 0); [lia|].
  pose proof (strncmp_loop (Z.to_nat (n - 1)) m p q s t 0) as H.
  replace (0 + Z.of_nat (Z.to_nat (n - 1))) with (n - 1) in H by lia.
  rewrite H by (by rewrite Z.add_0_r).
  by replace (S (Z.to_nat (n - 1))) with (Z.to_nat n) by lia.
Qed.

Lemma strncmp_correct_witness :
  let m := put_bytes (put_bytes ∅ 100 (zstr "-rom1fs-x" ++ [0])) 200 (zstr "-rom1fs-" ++ [0]) in
  strncmp 100 200 8 m = Ret (0, m).
Proof.
  intros m. apply (strncmp_correct m 100 200 (zstr "-rom1fs-x") (zstr "-rom1fs-") 8).
  - solve_cstr.
  - solve_cstr.
  - lia.
Defined.

(** Terminating the copied bytes at [j] gives the cut string. *)
Lemma copied_terminate m m1 dest s max j :
  bytes_ok s -> 0 < max -> copied m m1 dest s (Z.min max (Z.of_nat (length s))) ->
  j = Z.min (max - 1) (Z.of_nat (length s)) ->
  cstr (<[dest + j := 0]> m1) dest (take (Z.to_nat (max - 1)) s) /\
  (forall q, ~ (dest <= q < dest + max) -> <[dest + j := 0]> m1 !! q = m !! q).
Proof.
  intros Hok Hmax [Hc Hf] ->. split.
  - apply cstr_intro; [by apply bytes_ok_take|]. intros i. rewrite length_take. intros Hi.
    destruct (decide (i = Z.min (max - 1) (Z.of_nat (length s)))) as [->|].
    + rewrite lookup_insert_eq. symmetry. f_equal. apply byte_at_ge. rewrite length_take. lia.
    + rewrite lookup_insert_ne by lia. rewrite Hc by lia. f_equal. symmetry.
      apply byte_at_take. lia.
  - intros q Hq. rewrite lookup_insert_ne by lia. apply Hf. lia.
Qed.

(** [strncpy] into a buffer of [max > 0] bytes that does not overlap the
    source leaves there the source cut to [max - 1] bytes, always terminated,
    changes no byte outside the buffer, and returns [dest]. *)
Theorem strncpy_correct m dest src max s :
  copy_pre m dest src max s -> 0 < max -> 0 <= dest -> dest + max <= 2 ^ 32 ->
  wp (strncpy dest src max) (fun r m' =>
    r = dest /\ cstr m' dest (take (Z.to_nat (max - 1)) s) /\
    (forall q, ~ (dest <= q < dest + max) -> m' !! q = m !! q)) m.
Proof.
  intros Hp Hmax Hd Hm. pose proof (cstr_bytes_ok _ _ _ (cp_src _ _ _ _ _ Hp)) as Hok.
  unfold strncpy. rewrite wp_bind. eapply wp_mono; [apply strncpy_loop; [done|lia]|].
  intros r m1 [Hc Hr]. rewrite Hr. rewrite wp_bind.
  destruct (Z.eqb_spec (Z.min max (Z.of_nat (length s))) max) as [E|E].
  - rewrite E, (u32_small (max - 1)), u32_small by lia.
    destruct (copied_dest _ _ _ _ _ _ _ (max - 1) Hp Hc) as [c Hc']; [lia|].
    replace (dest + (max - 1)) with (dest + (max - 1)) in Hc' by lia.
    rewrite (wp_store8 _ _ _ _ c) by done. rewrite wp_ret. split; [done|].
    eapply copied_terminate; eauto. lia.
  - destruct (copied_dest _ _ _ _ _ _ _ (Z.of_nat (length s)) Hp Hc) as [c Hc']; [lia|].
    rewrite Z.min_r by lia.
    rewrite (wp_store8 _ _ _ _ c) by done. rewrite wp_ret. split; [done|].
    eapply copied_terminate; eauto. lia.
Qed.

Lemma strncpy_correct_witness :
  let m := put_bytes (put_bytes ∅ 100 (zstr "trollos" ++ [0])) 200 [7; 7; 7; 7; 9] in
  wp (strncpy 200 100 4) (fun r m' =>
    r = 200 /\ cstr m' 200 (zstr "tro") /\
    (forall q, ~ (200 <= q < 204) -> m' !! q = m !! q)) m.
Proof.
  intros m. apply (strncpy_correct m 200 100 4 (zstr "trollos")); [|lia..].
  split; [solve_cstr| |cbn; lia].
  intros i Hi. assert (i = 0 \/ i = 1 \/ i = 2 \/ i = 3) as [->|[->|[->| ->]]] by lia;
    (eexists; vm_compute; reflexivity).
Defined.

(** [str_parse_int] reads at most 32 characters: a decimal prefix (the
    digits up to the first other character, modulo 2^32) when the string does
    not start with [0], the hexadecimal digits after [0x], and [0] for
    anything else; memory is unchanged. *)
Theorem str_parse_int_correct m p s :
  cstr m p s -> str_parse_int p m = Ret (parse_value s, m).
Proof. apply str_parse_int_eq. Qed.

Lemma str_parse_int_correct_witness :
  let m := put_bytes ∅ 64 (zstr "0x1aF" ++ [0]) in
  str_parse_int 64 m = Ret (431, m).
Proof.
  intros m. apply (str_parse_int_correct m 64 (zstr "0x1aF")). solve_cstr.
Defined.

(** [strtok_r] with a one-character delimiter skips the leading
    delimiters, cuts the token at the next one by overwriting that single
    byte with NUL, and returns the token with the position after the cut, or
    with [NULL] when the token was the last. *)
Theorem strtok_r_correct fuel m buff q next d s :
  cstr m q [d] -> cstr m buff s -> 0 < buff ->
  (q + 1 < buff \/ buff + Z.of_nat (length s) < q) ->
  (length s + 2 <= fuel)%nat ->
  let rest := skip_char d s in
  let tok := (split_at d rest).1 in
  let start := buff + Z.of_nat (length s - length rest) in
  let cut := start + Z.of_nat (length tok) in
  wp (strtok_r fuel buff q next) (fun r m' =>
    r.1 = start /\ cstr m' start tok /\ (d ∉ tok) /\
    match (split_at d rest).2 with
    | [] => r.2 = 0 /\ m' = m
    | _ :: tail => r.2 = cut + 1 /\ cstr m' (cut + 1) tail /\ m' = <[cut := 0]> m
    end) m.
Proof.
  intros Hq Hs Hb Hdisj Hf rest tok start cut.
  pose proof (skip_char_length d s) as Hlen. fold rest in Hlen.
  pose proof (cstr_skip d _ _ _ Hs) as Hr. fold rest in Hr. fold start in Hr.
  assert (Hd : 0 < d < 256) by (destruct Hq; lia).
  unfold strtok_r. destruct (Z.eqb_spec buff 0); [lia|]. destruct (Z.eqb_spec buff 0); [lia|].
  rewrite wp_bind. eapply wp_eq; [eapply strtok_skip_loop; [done|done|lia|lia]|].
  fold rest. fold start.
  pose proof (strchr_eq fuel m start rest d Hr ltac:(lia) Hd) as Hc.
  destruct (cstr_head _ _ _ _ Hq) as [Hl Hd0]. destruct Hq as (_ & _ & Hn%cstr_nul).
  rewrite wp_bind. eapply wp_eq.
  { destruct fuel as [|[|fuel]]; [lia..|].
    erewrite loop_next by (by rewrite (bind_Ret _ _ _ _ _ Hl), Hd0, (bind_Ret _ _ _ _ _ Hc)).
    erewrite loop_done by (by rewrite (bind_Ret _ _ _ _ _ Hn)). reflexivity. }
  cbn [orb Z.eqb]. fold tok. fold cut. clear Hc Hl Hn.
  pose proof (split_at_app d rest) as Happ. fold tok in Happ.
  pose proof (split_at_notin d rest) as Hnin. fold tok in Hnin.
  destruct (split_at d rest).2 as [|c tail] eqn:Et.
  - rewrite wp_bind, Z.eqb_refl, !wp_ret. rewrite app_nil_r in Happ. rewrite Happ in *. by split_and!.
  - destruct (Z.eqb_spec cut 0); [lia|]. rewrite <- Happ in Hr.
    apply cstr_app in Hr as (Htok & Hby & Htail). fold cut in Htail.
    destruct Htail as (_ & Hcut & Htail). rewrite wp_bind, (wp_store8 _ _ _ _ c) by done.
    rewrite wp_ret. split_and!; try done.
    + rewrite <- (app_nil_r tok). apply cstr_app. split_and!; [done| |].
      * intros i b Hi. pose proof (zget_lt_Some _ _ _ Hi).
        rewrite lookup_insert_ne by lia. by apply Hby.
      * cbn [cstr]. fold cut. by rewrite lookup_insert_eq.
    + eapply cstr_mono; [done|]. intros x Hx. rewrite lookup_insert_ne by lia. done.
Qed.

Lemma strtok_r_correct_witness :
  let m := put_bytes (put_bytes ∅ 16 (zstr "," ++ [0])) 100 (zstr ",a=1,b" ++ [0]) in
  wp (strtok_r 20 100 16 0) (fun r m' =>
    r.1 = 101 /\ cstr m' 101 (zstr "a=1") /\ (44 ∉ zstr "a=1") /\
    r.2 = 105 /\ cstr m' 105 (zstr "b") /\ m' = <[104 := 0]> m) m.
Proof.
  intros m. apply (strtok_r_correct 20 m 100 16 0 44 (zstr ",a=1,b")).
  - solve_cstr.
  - solve_cstr.
  - lia.
  - lia.
  - cbn; lia.
Defined.

(** With two delimiters of which the second does not occur, the position of
    the first is lost ([ret > new] holds for [new = NULL]): the token of
    ["a,b"] under [",;"] is the whole string. *)
Example strtok_r_second_delim_lost :
  let m := put_bytes (put_bytes ∅ 16 (zstr ",;" ++ [0])) 100 (zstr "a,b" ++ [0]) in
  strtok_r 20 100 16 0 m = Ret ((100, 0), m).
Proof. vm_compute. reflexivity. Qed.
