(* ===== verification/Types.v ===== *)
(** Shared kernel types: [include/errno.h], [include/sys/types.h],
    [include/sys/stat.h], [include/dirent.h], [include/syslimits.h]. *)

From S2P Require Import Prelude.

(** * Error numbers; a call reports failure [e] as the value [-e]. *)

Definition EPERM : Z := 1.
Definition ENOENT : Z := 2.
Definition ESRCH : Z := 3.
Definition EIO : Z := 5.
Definition EBADF : Z := 9.
Definition EAGAIN : Z := 11.
Definition ENOMEM : Z := 12.
Definition EACCES : Z := 13.
Definition EEXIST : Z := 17.
Definition ENODEV : Z := 19.
Definition ENOTDIR : Z := 20.
Definition EISDIR : Z := 21.
Definition EINVAL : Z := 22.
Definition EMFILE : Z := 24.
Definition EMLINK : Z := 31.
Definition ENOSYS : Z := 38.
Definition EWOULDBLOCK : Z := EAGAIN.

(** * Device numbers *)

Definition makedev (maj min : Z) : Z :=
  u32 (Z.lor (Z.shiftl (Z.land maj 65535) 16) (Z.land min 65535)).
Definition minor (dev : Z) : Z := Z.land dev 65535.
Definition major (dev : Z) : Z := Z.shiftr dev 16.

Definition NAME_MAX : Z := 1024.

(** * File modes *)

Definition S_IFMT : Z := 61440.     (* 0170000 *)
Definition S_IFDIR : Z := 16384.    (* 0040000 *)
Definition S_IFCHR : Z := 8192.     (* 0020000 *)
Definition S_IFBLK : Z := 24576.    (* 0060000 *)
Definition S_IFREG : Z := 32768.    (* 0100000 *)
Definition S_IFIFO : Z := 4096.     (* 0010000 *)
Definition S_IFLNK : Z := 40960.    (* 0120000 *)
Definition S_IFSOCK : Z := 49152.   (* 0140000 *)

Definition S_ISDIR (mode : Z) : bool := Z.land mode S_IFMT =? S_IFDIR.
Definition S_ISCHR (mode : Z) : bool := Z.land mode S_IFMT =? S_IFCHR.
Definition S_ISBLK (mode : Z) : bool := Z.land mode S_IFMT =? S_IFBLK.
Definition S_ISREG (mode : Z) : bool := Z.land mode S_IFMT =? S_IFREG.

Record stat : Type := Stat {
  st_dev : Z;
  st_ino : Z;
  st_mode : Z;
  st_nlink : Z;
  st_uid : Z;
  st_gid : Z;
  st_rdev : Z;
  st_size : Z;
  st_blksize : Z;
  st_blocks : Z;
  st_mtime : Z;
}.

Record dirent : Type := Dirent {
  d_ino : Z;
  d_mode : Z;
  d_name : list Z;
}.

(** * Lemmas *)

Lemma land_ones_16 a : Z.land a 65535 = a mod 2 ^ 16.
Proof. change 65535 with (Z.ones 16). by rewrite Z.land_ones. Qed.

Lemma makedev_eq maj min :
  0 <= maj < 65536 -> 0 <= min < 65536 -> makedev maj min = maj * 65536 + min.
Proof.
  intros Hj Hn. unfold makedev. rewrite !land_ones_16, !Z.mod_small by lia.
  rewrite lor_shiftl_add, u32_small by lia. lia.
Qed.

Lemma major_makedev maj min :
  0 <= maj < 65536 -> 0 <= min < 65536 -> major (makedev maj min) = maj.
Proof.
  intros Hj Hn. rewrite makedev_eq by done. unfold major. rewrite Z.shiftr_div_pow2 by lia.
  change (2 ^ 16) with 65536. rewrite Z.div_add_l, Z.div_small by lia. lia.
Qed.

Lemma minor_makedev maj min :
  0 <= maj < 65536 -> 0 <= min < 65536 -> minor (makedev maj min) = min.
Proof.
  intros Hj Hn. rewrite makedev_eq by done. unfold minor. rewrite land_ones_16.
  change (2 ^ 16) with 65536. rewrite Z.add_comm, Z.mod_add, Z.mod_small by lia. done.
Qed.

(** A mode built from one type constant and bits below it has that type. *)
Lemma land_IFMT t p : Z.land p S_IFMT = 0 -> Z.land (Z.lor t p) S_IFMT = Z.land t S_IFMT.
Proof. intros H. by rewrite Z.land_lor_distr_l, H, Z.lor_0_r. Qed.
