(* ===== verification/Process.v ===== *)
(** Processes and the scheduler: [kernel/process.c],
    [include/trollos/process.h].

    The table [_process] of pointers is a list of optional process structures;
    a pointer to a process is its slot.  The memory-management calls are the
    operations of the class [Mmu] over the state [W] of the MMU driver. *)

From S2P Require Import Prelude Types.

Definition MAX_PROCESSES : Z := 1024.
Definition MAX_PROCESS_FILES : Z := 64.

(** * The interface to the MMU *)

Class Mmu (W : Type) : Type := {
  mmu_init_userspace : M W (Z * Z);      (* result and the new handle *)
  mmu_free_userspace : Z -> M W unit;
  mmu_switch_userspace : Z -> M W Z;
  mmu_invalidate_all : M W unit;
  mmu_map_current_userspace : M W unit;
}.

(** What the process layer relies on: from a good MMU state every call
    returns, into a good state. *)
Class MmuLaws (W : Type) `{Mmu W} (inv : W -> Prop) : Prop := {
  init_userspace_ok w : inv w -> wp mmu_init_userspace (fun _ => inv) w;
  free_userspace_ok h w : inv w -> wp (mmu_free_userspace h) (fun _ => inv) w;
  switch_userspace_ok h w : inv w -> wp (mmu_switch_userspace h) (fun _ => inv) w;
  invalidate_all_ok w : inv w -> wp mmu_invalidate_all (fun _ => inv) w;
  map_current_userspace_ok w : inv w -> wp mmu_map_current_userspace (fun _ => inv) w;
}.

(** * Data *)

Inductive ProcessState : Type :=
| PROCESS_STATE_RUNNING
| PROCESS_STATE_BLOCKED
| PROCESS_STATE_ZOMBIE.

#[export] Instance ProcessState_eq_dec : EqDecision ProcessState.
Proof. solve_decision. Defined.

(** [kill_callback] is the only function stored in a callback. *)
Inductive callback_func : Type := KillCallback.

Record ProcessCallback : Type := MkCallback {
  cb_func : callback_func;
  cb_owner : Z;
}.

Record Registers : Type := MkRegisters {
  reg_status : Z;
  reg_pc : Z;
  reg_stack : Z;
  reg_general : list Z;
}.

(** [p_callback] is the linked list of callbacks. *)
Record Process : Type := MkProcess {
  p_pid : Z;
  p_parent : Z;
  p_state : ProcessState;
  p_callback : list ProcessCallback;
  p_return_value : Z;
  p_userspace : Z;
  p_user : Z;
  p_group : Z;
  p_time_started : Z;
  p_file : list Z;
  p_reg : Registers;
}.

Definition set_state (x : ProcessState) (p : Process) : Process :=
  MkProcess (p_pid p) (p_parent p) x (p_callback p) (p_return_value p) (p_userspace p)
    (p_user p) (p_group p) (p_time_started p) (p_file p) (p_reg p).
Definition set_callback (x : list ProcessCallback) (p : Process) : Process :=
  MkProcess (p_pid p) (p_parent p) (p_state p) x (p_return_value p) (p_userspace p)
    (p_user p) (p_group p) (p_time_started p) (p_file p) (p_reg p).
Definition set_return_value (x : Z) (p : Process) : Process :=
  MkProcess (p_pid p) (p_parent p) (p_state p) (p_callback p) x (p_userspace p)
    (p_user p) (p_group p) (p_time_started p) (p_file p) (p_reg p).
Definition set_file (x : list Z) (p : Process) : Process :=
  MkProcess (p_pid p) (p_parent p) (p_state p) (p_callback p) (p_return_value p) (p_userspace p)
    (p_user p) (p_group p) (p_time_started p) x (p_reg p).
Definition set_reg (x : Registers) (p : Process) : Process :=
  MkProcess (p_pid p) (p_parent p) (p_state p) (p_callback p) (p_return_value p) (p_userspace p)
    (p_user p) (p_group p) (p_time_started p) (p_file p) x.

Record Procs (W : Type) : Type := MkProcs {
  _process : list (option Process);
  _process_current : Z;
  _process_last : Z;
  pmmu : W;
}.
Arguments MkProcs {_} _ _ _ _.
Arguments _process {_} _.
Arguments _process_current {_} _.
Arguments _process_last {_} _.
Arguments pmmu {_} _.

Section ops.
Context {W : Type} `{Mmu W}.
Implicit Types pid : Z.

Definition set_process (t : list (option Process)) (s : Procs W) : Procs W :=
  MkProcs t (_process_current s) (_process_last s) (pmmu s).
Definition set_current (c : Z) (s : Procs W) : Procs W :=
  MkProcs (_process s) c (_process_last s) (pmmu s).
Definition set_last (l : Z) (s : Procs W) : Procs W :=
  MkProcs (_process s) (_process_current s) l (pmmu s).
Definition on_mmu {A} (m : M W A) : M (Procs W) A :=
  zoom pmmu (fun w s => MkProcs (_process s) (_process_current s) (_process_last s) w) m.

(** The pointer [_process[pid]]. *)
Definition process_at pid : M (Procs W) (option Process) :=
  let* t := gets _process in need (zget t pid).

(** Dereferencing it. *)
Definition process_deref pid : M (Procs W) Process :=
  let* o := process_at pid in need o.

Definition process_update pid (f : Process -> Process) : M (Procs W) unit :=
  let* p := process_deref pid in
  modify (fun s => set_process (zset (_process s) pid (Some (f p))) s).

Definition pid_valid pid : bool := negb ((pid <? 0) || (MAX_PROCESSES <=? pid)).

(** * Operations *)

Definition kill_callback (owner : Z) : M (Procs W) bool :=
  process_update owner (set_state PROCESS_STATE_RUNNING) ;; ret true.

Definition run_callback (cb : ProcessCallback) : M (Procs W) bool :=
  match cb_func cb with KillCallback => kill_callback (cb_owner cb) end.

(** The search for a free slot: [inl e] is an early return. *)
Definition find_free_pid (fuel : nat) (tried : Z) : M (Procs W) (Z + Z) :=
  loop fuel tt (fun _ =>
    let* last := gets _process_last in
    let last := s32 (last + 1) in
    modify (set_last last) ;;
    let pid := Z.rem last MAX_PROCESSES in
    if pid =? tried then ret (inr (inl (- EAGAIN))) else
    let* p := process_at pid in
    ret (match p with Some _ => inl tt | None => inr (inr pid) end)).

(** [block]: the block [kmalloc] returns, with the contents it happens to
    hold ([None] for [NULL]); the fields that the function does not set keep
    them. *)
Definition process_create (fuel : nat) (block : option Process) (uid gid : Z) : M (Procs W) Z :=
  let* tried := gets _process_last in
  let* r := find_free_pid fuel tried in
  match r with
  | inl e => ret e
  | inr pid =>
      match block with
      | None => ret (- ENOMEM)
      | Some b =>
          let* ' (_, handle) := on_mmu mmu_init_userspace in
          let proc := MkProcess pid (p_parent b) PROCESS_STATE_RUNNING (p_callback b)
                        (p_return_value b) handle uid gid 1337
                        (replicate (Z.to_nat MAX_PROCESS_FILES) (-1)) (p_reg b) in
          modify (fun s => set_process (zset (_process s) pid (Some proc)) s) ;;
          ret pid
      end
  end.

Definition process_switch_to pid : M (Procs W) unit :=
  let* p := process_deref pid in
  let* _ := on_mmu (mmu_switch_userspace (p_userspace p)) in
  on_mmu mmu_invalidate_all ;;
  on_mmu mmu_map_current_userspace ;;
  modify (set_current pid).

Definition process_current : M (Procs W) Z := gets _process_current.

Definition process_from_pid pid : M (Procs W) (option Process) :=
  if negb (pid_valid pid) then ret None else process_at pid.

(** The callback loop of [process_exit]: [callback] points to the link before
    the [k]-th callback.  After removing a callback the loop step follows
    [next] of the new value of the link, which is undefined when the
    removed callback was the last. *)
Definition exit_callback_step pid (k : nat) : M (Procs W) (nat + unit) :=
  let* p := process_deref pid in
  match p_callback p !! k with
  | None => ret (inr tt)
  | Some cb =>
      let* dead := run_callback cb in
      if dead then
        process_update pid (fun p => set_callback (delete k (p_callback p)) p) ;;
        let* p := process_deref pid in
        match p_callback p !! k with
        | None => fault
        | Some _ => ret (inl (S k))
        end
      else ret (inl (S k))
  end.

Definition exit_callbacks (fuel : nat) pid : M (Procs W) unit :=
  loop fuel 0%nat (exit_callback_step pid).

(** The first slot after [pid], cyclically, whose pointer satisfies [stop].
    After one round of [MAX_PROCESSES] slots the loop can only repeat itself,
    so [search_fuel] cuts off nothing but an endless search. *)
Definition search_fuel : nat := 1025.
Definition next_slot (fuel : nat) pid (stop : option Process -> bool) : M (Procs W) Z :=
  loop fuel (Z.rem (pid + 1) MAX_PROCESSES) (fun next =>
    let* p := process_at next in
    ret (if stop p then inr next else inl (Z.rem (next + 1) MAX_PROCESSES))).

Definition process_exit (fuel : nat) pid (return_value : Z) : M (Procs W) unit :=
  if negb (pid_valid pid) then ret tt else
  let* p := process_at pid in
  match p with
  | None => ret tt
  | Some _ =>
      if pid =? 0 then panic else
      if pid =? 1 then panic else
      exit_callbacks fuel pid ;;
      let* current := gets _process_current in
      when (current =? pid)
        (let* next := next_slot search_fuel pid (fun p => if p is Some _ then true else false) in
         process_switch_to next) ;;
      let* p := process_deref pid in
      on_mmu (mmu_free_userspace (p_userspace p)) ;;
      process_update pid (set_return_value return_value) ;;
      process_update pid (set_state PROCESS_STATE_ZOMBIE)
  end.

Definition process_set_pc pid (pc : Z) : M (Procs W) unit :=
  if negb (pid_valid pid) then ret tt else
  let* p := process_at pid in
  match p with
  | None => ret tt
  | Some _ =>
      process_update pid (fun p =>
        set_reg (MkRegisters (reg_status (p_reg p)) pc (reg_stack (p_reg p))
                             (reg_general (p_reg p))) p)
  end.

Definition process_wait pid : M (Procs W) Z :=
  if negb (pid_valid pid) then ret (- EINVAL) else
  let* o := process_at pid in
  match o with
  | None => ret (- ESRCH)
  | Some p =>
      if decide (p_state p = PROCESS_STATE_ZOMBIE) then
        modify (fun s => set_process (zset (_process s) pid None) s) ;;
        ret (p_return_value p)
      else
        let* current := gets _process_current in
        process_update pid (fun p =>
          set_callback (MkCallback KillCallback current :: p_callback p) p) ;;
        process_update current (set_state PROCESS_STATE_BLOCKED) ;;
        ret (-1000)
  end.

(** [regs] are the 15 words at [regs_tmp]. *)
Definition process_save_context (status_reg stack_pointer program_counter : Z)
    (regs : list Z) : M (Procs W) unit :=
  let* current := gets _process_current in
  process_update current (fun p =>
    set_reg (MkRegisters (Z.land status_reg 65535) program_counter stack_pointer
                         (take 15 regs)) p).

Definition schedulable (p : option Process) : bool :=
  match p with
  | None => false
  | Some p => negb (bool_decide (p_state p = PROCESS_STATE_BLOCKED))
  end.

(** The result is the slot whose registers are resumed. *)
Definition scheduler : M (Procs W) Z :=
  let* current := gets _process_current in
  let* next := next_slot search_fuel current schedulable in
  process_switch_to next ;;
  ret next.

End ops.

(** * The table invariant *)

Record process_ok (i : Z) (p : Process) : Prop := {
  ok_pid : p_pid p = i;
  ok_file : length (p_file p) = Z.to_nat MAX_PROCESS_FILES;
}.

Record procs_wf {W} (s : Procs W) : Prop := {
  wf_length : length (_process s) = Z.to_nat MAX_PROCESSES;
  wf_entry : forall i p, zget (_process s) i = Some (Some p) -> process_ok i p;
}.

Section invariant.
Context {W : Type} `{Mmu W}.
Abbreviation wf := (@procs_wf W).

Lemma wf_zset (s : Procs W) i o :
  wf s -> 0 <= i < MAX_PROCESSES -> (forall p, o = Some p -> process_ok i p) ->
  wf (set_process (zset (_process s) i o) s).
Proof.
  intros [Hl He] Hi Ho. split; cbn; [by rewrite length_zset|].
  intros j p Hj. rewrite zget_zset in Hj by (rewrite Hl; unfold MAX_PROCESSES in *; lia).
  case_decide; [subst; apply Ho; congruence|by apply He].
Qed.

Lemma wf_slot (s : Procs W) i o : wf s -> zget (_process s) i = Some o -> 0 <= i < MAX_PROCESSES.
Proof. intros Hw Hz%zget_lt_Some. rewrite (wf_length _ Hw) in Hz. unfold MAX_PROCESSES in *. lia. Qed.

Lemma preserves_update pid f :
  (forall p, process_ok pid p -> process_ok pid (f p)) -> preserves wf (process_update pid f).
Proof.
  intros Hf s a s' Hs. unfold process_update, process_deref, process_at.
  unfold bind, gets, need, modify. destruct (zget (_process s) pid) as [[p|]|] eqn:E; [|done..].
  cbn. intros [= _ <-]. apply wf_zset; [done|by eapply wf_slot|].
  intros q [= <-]. apply Hf. by eapply wf_entry.
Qed.

Lemma preserves_on_mmu {A} (m : M W A) : preserves wf (on_mmu m).
Proof. apply preserves_zoom. intros s t a [Hl He] _. by split. Qed.

Lemma on_mmu_eq {A} (m : M W A) (s : Procs W) a w : m (pmmu s) = Ret (a, w) ->
  on_mmu m s = Ret (a, MkProcs (_process s) (_process_current s) (_process_last s) w).
Proof. intros Hm. unfold on_mmu, zoom. by rewrite Hm. Qed.

Lemma preserves_set_last l : preserves wf (modify (set_last l)).
Proof. apply preserves_modify. intros s [Hl He]. by split. Qed.

Lemma preserves_set_current l : preserves wf (modify (set_current l)).
Proof. apply preserves_modify. intros s [Hl He]. by split. Qed.

Hint Resolve preserves_on_mmu preserves_set_last preserves_set_current : troll.

Lemma preserves_at pid : preserves wf (process_at pid).
Proof. unfold process_at. preserve. Qed.
Lemma preserves_deref pid : preserves wf (process_deref pid).
Proof. unfold process_deref, process_at. preserve. Qed.
Hint Resolve preserves_at preserves_deref : troll.

Lemma preserves_state pid x : preserves wf (process_update pid (set_state x)).
Proof. apply preserves_update. intros p [? ?]. by split. Qed.
Lemma preserves_return_value pid x : preserves wf (process_update pid (set_return_value x)).
Proof. apply preserves_update. intros p [? ?]. by split. Qed.
Lemma preserves_callback pid f :
  preserves wf (process_update pid (fun p => set_callback (f (p_callback p)) p)).
Proof. apply preserves_update. intros p [? ?]. by split. Qed.
Lemma preserves_reg pid f :
  preserves wf (process_update pid (fun p => set_reg (f (p_reg p)) p)).
Proof. apply preserves_update. intros p [? ?]. by split. Qed.
Hint Resolve preserves_state preserves_return_value : troll.

Lemma preserves_run_callback cb : preserves wf (run_callback cb).
Proof. unfold run_callback, kill_callback. preserve. Qed.
Lemma preserves_next_slot fuel pid stop : preserves wf (next_slot fuel pid stop).
Proof. unfold next_slot. preserve. Qed.
Lemma preserves_switch_to pid : preserves wf (process_switch_to pid).
Proof. unfold process_switch_to. preserve. Qed.
Lemma preserves_exit_callbacks fuel pid : preserves wf (exit_callbacks fuel pid).
Proof.
  unfold exit_callbacks, exit_callback_step. preserve; try apply preserves_run_callback.
  all: apply (preserves_callback _ (delete _)).
Qed.
Hint Resolve preserves_next_slot preserves_switch_to preserves_exit_callbacks : troll.

Lemma find_free_pid_inv fuel tried (s s' : Procs W) r :
  find_free_pid fuel tried s = Ret (r, s') ->
  _process s' = _process s /\ _process_current s' = _process_current s /\ pmmu s' = pmmu s /\
  match r with
  | inl e => e = - EAGAIN
  | inr pid => zget (_process s) pid = Some None
  end.
Proof.
  unfold find_free_pid. revert s. induction fuel as [|fuel IH]; intros s; [done|].
  rewrite loop_unfold. intros (a & t & Hb & Hr)%bind_Ret_inv. revert Hb.
  unfold bind at 1, gets at 1, bind at 1, modify at 1.
  set (l := s32 (_process_last s + 1)). destruct (_ =? _).
  - intros [= <- <-]. injection Hr as <- <-. done.
  - unfold process_at, bind, gets, need. cbn.
    destruct (zget (_process s) (Z.rem l MAX_PROCESSES)) as [[p|]|] eqn:E; [|..|done].
    + intros [= <- <-]. by apply IH in Hr.
    + intros [= <- <-]. injection Hr as <- <-. done.
Qed.

Lemma process_create_inv fuel block uid gid (s s' : Procs W) r :
  process_create fuel block uid gid s = Ret (r, s') ->
  (_process s' = _process s /\ (r = - EAGAIN \/ r = - ENOMEM)) \/
  exists p, zget (_process s) r = Some None /\ _process s' = zset (_process s) r (Some p) /\
    p_pid p = r /\ p_state p = PROCESS_STATE_RUNNING /\ p_user p = uid /\ p_group p = gid /\
    p_file p = replicate (Z.to_nat MAX_PROCESS_FILES) (-1).
Proof.
  unfold process_create. unfold bind at 1, gets at 1.
  intros (x & t & Hf & Hr)%bind_Ret_inv. apply find_free_pid_inv in Hf as (Ht & _ & _ & Hx).
  destruct x as [e|pid]; [injection Hr as <- <-; subst; by left; auto|].
  destruct block as [b|]; [|injection Hr as <- <-; left; auto].
  apply bind_Ret_inv in Hr as ((u & h) & t' & Hm & Hr).
  assert (_process t' = _process s) as Ht'.
  { revert Hm. unfold on_mmu, zoom. destruct (mmu_init_userspace (pmmu t)) as [[[??]?]| | |]; [|done..].
    by intros [= _ _ <-]. }
  revert Hr. unfold bind, modify, ret. intros [= <- <-]. right.
  eexists. split_and!; [done|cbn; by rewrite Ht'|done..].
Qed.

Lemma preserves_create fuel block uid gid : preserves wf (process_create fuel block uid gid).
Proof.
  intros s r s' [Hl He] Hc. apply process_create_inv in Hc as [[Hp _]|(p & Hz & Hp & Hpid & _ & _ & _ & Hf)].
  - split; by rewrite Hp.
  - split; rewrite Hp; [by rewrite length_zset|].
    pose proof (zget_lt_Some _ _ _ Hz). intros j q Hj. rewrite zget_zset in Hj by done.
    case_decide; [|by apply He]. simplify_eq. split; [done|]. by rewrite Hf, length_replicate.
Qed.

Lemma preserves_exit fuel pid rv : preserves wf (process_exit fuel pid rv).
Proof. unfold process_exit. preserve. Qed.
Lemma preserves_set_pc pid pc : preserves wf (process_set_pc pid pc).
Proof.
  unfold process_set_pc. preserve.
  apply (preserves_reg _ (fun r => MkRegisters (reg_status r) pc (reg_stack r) (reg_general r))).
Qed.
Lemma preserves_save_context a b c d : preserves wf (process_save_context a b c d).
Proof.
  unfold process_save_context. preserve.
  apply (preserves_reg _ (fun r => MkRegisters (Z.land a 65535) c b (take 15 d))).
Qed.
Lemma preserves_clear_slot pid s a :
  wf s -> zget (_process s) pid = Some a -> wf (set_process (zset (_process s) pid None) s).
Proof. intros Hw Hz. apply wf_zset; [done|by eapply wf_slot|done]. Qed.
Lemma preserves_wait pid : preserves wf (process_wait pid).
Proof.
  unfold process_wait. destruct (negb _); [apply preserves_ret|].
  intros s a s' Hw (o & t & Ho & Hr)%bind_Ret_inv.
  assert (t = s /\ zget (_process s) pid = Some o) as [-> Hz].
  { revert Ho. unfold process_at, bind, gets, need. by destruct (zget _ _); [intros [= -> ->]|]. }
  destruct o as [p|]; [|injection Hr as _ <-; done]. destruct (decide _).
  - injection Hr as _ <-. by eapply preserves_clear_slot.
  - revert Hw Hr.
    match goal with |- _ -> ?m s = _ -> _ => enough (preserves wf m) as Hp by (intros; by eapply Hp) end.
    preserve. apply (preserves_callback _ (cons _)).
Qed.
Lemma preserves_scheduler : preserves wf scheduler.
Proof. unfold scheduler. preserve. Qed.
End invariant.

(** The boot state: an empty table, [_process_last = -1]. *)
Definition procs_init {W} (w : W) : Procs W :=
  MkProcs (replicate (Z.to_nat MAX_PROCESSES) None) 0 (-1) w.

Lemma init_procs_wf {W} (w : W) : procs_wf (procs_init w).
Proof.
  split; [done|]. intros i p Hz. cbn [_process procs_init] in Hz.
  apply (Forall_zget (fun o => o = None)) in Hz; [done|]. by apply Forall_replicate.
Qed.

(** * The cyclic search *)

(** How many slots the search from [cur] passes before it looks at [p]. *)
Definition dist (cur p : Z) : Z := (p - cur - 1) mod MAX_PROCESSES.

Lemma dist_range cur p : 0 <= dist cur p < MAX_PROCESSES.
Proof. apply Z.mod_pos_bound. done. Qed.

Lemma dist_inj cur p q :
  0 <= p < MAX_PROCESSES -> 0 <= q < MAX_PROCESSES -> dist cur p = dist cur q -> p = q.
Proof. unfold dist, MAX_PROCESSES in *. mod_lia. Qed.

(** The slot the search looks at after passing [k] others. *)
Definition nth_slot (cur k : Z) : Z := (cur + 1 + k) mod MAX_PROCESSES.

Lemma dist_nth cur k : 0 <= k < MAX_PROCESSES -> dist cur (nth_slot cur k) = k.
Proof. unfold dist, nth_slot, MAX_PROCESSES in *. mod_lia. Qed.
Lemma nth_dist cur p : 0 <= p < MAX_PROCESSES -> nth_slot cur (dist cur p) = p.
Proof. unfold dist, nth_slot, MAX_PROCESSES in *. mod_lia. Qed.
Lemma nth_slot_range cur k : 0 <= nth_slot cur k < MAX_PROCESSES.
Proof. apply Z.mod_pos_bound. done. Qed.
Lemma nth_slot_next cur k :
  0 <= cur -> 0 <= k -> Z.rem (nth_slot cur k + 1) MAX_PROCESSES = nth_slot cur (k + 1).
Proof.
  intros Hc Hk. pose proof (nth_slot_range cur k).
  rewrite Z.rem_mod_nonneg by (unfold MAX_PROCESSES in *; lia).
  unfold nth_slot, MAX_PROCESSES in *. mod_lia.
Qed.

Section search.
Context {W : Type} `{Mmu W}.
Implicit Types s : Procs W.

(** Slot [q] holds a pointer that satisfies [stop]. *)
Definition stops (stop : option Process -> bool) s (q : Z) : Prop :=
  exists o, zget (_process s) q = Some o /\ stop o = true.

Lemma next_slot_from stop cur q s fuel k :
  procs_wf s -> 0 <= cur -> stops stop s q -> 0 <= k <= dist cur q ->
  (forall r, stops stop s r -> k <= dist cur r) ->
  (Z.to_nat (dist cur q - k) < fuel)%nat ->
  exists next,
    loop fuel (nth_slot cur k) (fun next =>
      let* p := process_at next in
      ret (if stop p then inr next else inl (Z.rem (next + 1) MAX_PROCESSES))) s = Ret (next, s) /\
    stops stop s next /\ forall r, stops stop s r -> dist cur next <= dist cur r.
Proof.
  intros Hw Hc (oq & Hq & Hsq) Hk Hmin Hf. revert k Hk Hmin Hf.
  induction fuel as [|fuel IH]; intros k Hk Hmin Hf; [lia|].
  pose proof (dist_range cur q) as Hd.
  destruct (zget_in_range (_process s) (nth_slot cur k)) as [o Ho].
  { rewrite (wf_length _ Hw). pose proof (nth_slot_range cur k). unfold MAX_PROCESSES in *. lia. }
  assert (Hat : process_at (nth_slot cur k) s = Ret (o, s)).
  { unfold process_at, bind, gets, need. by rewrite Ho. }
  destruct (stop o) eqn:Hs.
  - exists (nth_slot cur k). split.
    { eapply loop_done. by rewrite (bind_Ret _ _ _ _ _ Hat), Hs. }
    split; [by exists o|]. intros r Hr. rewrite dist_nth by lia. by apply Hmin.
  - assert (Hne : forall r, stops stop s r -> k <> dist cur r).
    { intros r (o' & Hr & Hs') ->.
      pose proof (zget_lt_Some _ _ _ Hr) as Hrr. rewrite (wf_length _ Hw) in Hrr.
      rewrite nth_dist in Ho by (unfold MAX_PROCESSES in *; lia). congruence. }
    pose proof (Hne q (ex_intro _ oq (conj Hq Hsq))).
    destruct (IH (k + 1)) as (next & Hl & Hst & Hm); [lia| |lia|].
    { intros r Hr. pose proof (Hmin r Hr). pose proof (Hne r Hr). lia. }
    exists next. split_and!; [|done..].
    rewrite <- Hl. erewrite loop_next; [reflexivity|].
    rewrite (bind_Ret _ _ _ _ _ Hat), Hs, nth_slot_next by lia. done.
Qed.

Lemma next_slot_eq stop cur q s :
  procs_wf s -> 0 <= cur < MAX_PROCESSES -> stops stop s q ->
  exists next, next_slot search_fuel cur stop s = Ret (next, s) /\
    stops stop s next /\ forall r, stops stop s r -> dist cur next <= dist cur r.
Proof.
  intros Hw Hc Hq. pose proof (dist_range cur q) as Hd. unfold next_slot.
  replace (Z.rem (cur + 1) MAX_PROCESSES) with (nth_slot cur 0).
  2: { unfold nth_slot. rewrite Z.rem_mod_nonneg by (unfold MAX_PROCESSES in *; lia). f_equal. lia. }
  apply (next_slot_from stop cur q); try done; try lia.
  - intros r _. apply dist_range.
  - unfold search_fuel, MAX_PROCESSES in *. lia.
Qed.

(** Without a slot to stop at the search never ends. *)
Lemma next_slot_none stop cur s fuel k :
  procs_wf s -> 0 <= cur -> 0 <= k -> (forall r, ~ stops stop s r) ->
  loop fuel (nth_slot cur k) (fun next =>
      let* p := process_at next in
      ret (if stop p then inr next else inl (Z.rem (next + 1) MAX_PROCESSES))) s = Timeout.
Proof.
  intros Hw Hc Hk Hno. revert k Hk. induction fuel as [|fuel IH]; intros k Hk; [done|].
  destruct (zget_in_range (_process s) (nth_slot cur k)) as [o Ho].
  { rewrite (wf_length _ Hw). pose proof (nth_slot_range cur k). unfold MAX_PROCESSES in *. lia. }
  erewrite loop_next; [apply (IH (k + 1)); lia|].
  assert (process_at (nth_slot cur k) s = Ret (o, s)) as Hat.
  { unfold process_at, bind, gets, need. by rewrite Ho. }
  rewrite (bind_Ret _ _ _ _ _ Hat). destruct (stop o) eqn:E; [by destruct (Hno (nth_slot cur k)); exists o|].
  by rewrite nth_slot_next.
Qed.

(** ** The search for a free slot *)

Definition is_free (o : option Process) : bool := match o with None => true | Some _ => false end.

Definition free s (q : Z) : Prop := stops is_free s q.

Lemma stops_range stop s q : procs_wf s -> stops stop s q -> 0 <= q < MAX_PROCESSES.
Proof. intros Hw (o & Hz & _). exact (wf_slot _ _ _ Hw Hz). Qed.

Lemma find_free_step L k s :
  procs_wf s -> _process_last s = L + k -> -1 <= L -> 0 <= k -> L + k + 1 < 2 ^ 31 ->
  exists o : option Process, zget (_process s) (nth_slot L k) = Some o /\
  forall tried, (let* last := gets _process_last in
    let last := s32 (last + 1) in
    modify (set_last last) ;;
    let pid := Z.rem last MAX_PROCESSES in
    if pid =? tried then ret (inr (inl (- EAGAIN))) else
    let* p := process_at pid in
    ret (match p with Some _ => inl tt | None => inr (inr pid) end)) s
  = Ret (if nth_slot L k =? tried then inr (inl (- EAGAIN))
         else match o with Some _ => inl tt | None => inr (inr (nth_slot L k)) end,
         set_last (L + (k + 1)) s).
Proof.
  intros Hw Hl HL Hk Hb.
  destruct (zget_in_range (_process s) (nth_slot L k)) as [o Ho].
  { rewrite (wf_length _ Hw). pose proof (nth_slot_range L k). unfold MAX_PROCESSES in *. lia. }
  exists o. split; [done|]. intros tried.
  unfold bind at 1, gets at 1. rewrite Hl, s32_small by lia.
  unfold bind at 1, modify at 1.
  replace (L + k + 1) with (L + (k + 1)) by lia.
  assert (Z.rem (L + (k + 1)) MAX_PROCESSES = nth_slot L k) as ->.
  { unfold nth_slot. rewrite Z.rem_mod_nonneg by (unfold MAX_PROCESSES in *; lia). f_equal. lia. }
  destruct (_ =? tried); [done|].
  unfold process_at, bind, gets, need. cbn. rewrite Ho. done.
Qed.

Lemma wf_set_last l s : procs_wf s -> procs_wf (set_last l s).
Proof. intros [? ?]. by split. Qed.

Lemma find_free_from L q fuel k s :
  procs_wf s -> _process_last s = L + k -> -1 <= L -> L + 1025 < 2 ^ 31 ->
  free s q -> q <> L -> 0 <= k <= dist L q ->
  (forall r, free s r -> k <= dist L r) -> (Z.to_nat (dist L q - k) < fuel)%nat ->
  exists pid,
    find_free_pid fuel L s = Ret (inr pid, set_last (L + 1 + dist L pid) s) /\
    free s pid /\ forall r, free s r -> dist L pid <= dist L r.
Proof.
  intros Hw Hl HL Hb Hq Hne Hk Hmin Hf. revert k s Hw Hl Hq Hk Hmin Hf.
  induction fuel as [|fuel IH]; intros k s Hw Hl Hq Hk Hmin Hf; [lia|].
  pose proof (dist_range L q) as Hd. pose proof (stops_range _ _ _ Hw Hq) as Hqr.
  destruct (find_free_step L k s) as (o & Ho & Hstep); [done|done|lia|lia|unfold MAX_PROCESSES in *; lia|].
  specialize (Hstep L).
  assert ((nth_slot L k =? L) = false) as Hnl.
  { apply Z.eqb_neq. intros E. apply Hne. unfold dist, nth_slot, MAX_PROCESSES in *. mod_lia. }
  rewrite Hnl in Hstep. destruct o as [p|].
  - assert (Hlt : forall r, free s r -> k + 1 <= dist L r).
    { intros r Hr. pose proof (Hmin r Hr). destruct (decide (k = dist L r)) as [->|]; [|lia].
      rewrite nth_dist in Ho by (by eapply stops_range). destruct Hr as (o' & Hr & Hs).
      by simplify_eq. }
    pose proof (Hlt q Hq).
    destruct (IH (k + 1) (set_last (L + (k + 1)) s)) as (pid & Hp & Hfr & Hm);
      [by apply wf_set_last|done|done|lia|done|lia|].
    exists pid. split_and!; [|done..]. unfold find_free_pid. by erewrite loop_next.
  - exists (nth_slot L k). rewrite dist_nth by lia. split_and!.
    + unfold find_free_pid. erewrite loop_done by exact Hstep. do 3 f_equal. lia.
    + by exists None.
    + done.
Qed.

(** No free slot: the search gives up when it meets [tried] again, ... *)
Lemma find_free_full_stops L fuel k s :
  procs_wf s -> _process_last s = L + k -> 0 <= L < MAX_PROCESSES -> 0 <= k < MAX_PROCESSES ->
  (forall r, ~ free s r) -> (Z.to_nat (1023 - k) < fuel)%nat ->
  exists s', find_free_pid fuel L s = Ret (inl (- EAGAIN), s') /\ _process s' = _process s.
Proof.
  intros Hw Hl HL Hk Hno Hf. revert k s Hw Hl Hk Hno Hf.
  induction fuel as [|fuel IH]; intros k s Hw Hl Hk Hno Hf; [lia|].
  destruct (find_free_step L k s) as (o & Ho & Hstep); [done|done|lia|lia|unfold MAX_PROCESSES in *; lia|].
  specialize (Hstep L). destruct (nth_slot L k =? L) eqn:E.
  - eexists. split; [unfold find_free_pid; by erewrite loop_done by exact Hstep|done].
  - destruct o as [p|]; [|destruct (Hno (nth_slot L k)); by exists None].
    assert (k <> 1023).
    { intros ->. apply Z.eqb_neq in E. apply E. unfold nth_slot, MAX_PROCESSES in *. mod_lia. }
    destruct (IH (k + 1) (set_last (L + (k + 1)) s)) as (s' & Hs' & Hp);
      [by apply wf_set_last|done|unfold MAX_PROCESSES in *; lia|done|unfold MAX_PROCESSES in *; lia|].
    exists s'. split; [|done]. unfold find_free_pid. by erewrite loop_next.
Qed.

(** ... which it never does once the counter has passed [MAX_PROCESSES]. *)
Lemma find_free_full_spins L fuel k s :
  procs_wf s -> _process_last s = L + k -> MAX_PROCESSES <= L -> 0 <= k ->
  L + k + Z.of_nat fuel < 2 ^ 31 -> (forall r, ~ free s r) ->
  find_free_pid fuel L s = Timeout.
Proof.
  intros Hw Hl HL Hk Hb Hno. revert k s Hw Hl Hk Hb Hno.
  induction fuel as [|fuel IH]; intros k s Hw Hl Hk Hb Hno; [done|].
  destruct (find_free_step L k s) as (o & Ho & Hstep);
    [done|done|unfold MAX_PROCESSES in *; lia|lia|lia|].
  specialize (Hstep L). pose proof (nth_slot_range L k).
  destruct (Z.eqb_spec (nth_slot L k) L); [lia|].
  destruct o as [p|]; [|destruct (Hno (nth_slot L k)); by exists None].
  unfold find_free_pid. erewrite loop_next by exact Hstep.
  apply (IH (k + 1)); [by apply wf_set_last|done|lia|lia|done].
Qed.

Context (inv : W -> Prop) {HL : MmuLaws W inv}.

(** Everything but the current process and the MMU is unchanged. *)
Lemma wp_switch_to s pid p :
  zget (_process s) pid = Some (Some p) -> inv (pmmu s) ->
  wp (process_switch_to pid) (fun _ s' =>
    _process s' = _process s /\ _process_last s' = _process_last s /\
    _process_current s' = pid /\ inv (pmmu s')) s.
Proof.
  intros Hz Hi. unfold process_switch_to, process_deref, process_at.
  rewrite !wp_bind, wp_gets, (wp_need _ (Some p)), (wp_need _ p) by done.
  rewrite wp_bind. unfold on_mmu. rewrite wp_zoom.
  eapply wp_mono; [by apply switch_userspace_ok|]. intros ? w Hw. cbn beta in *.
  rewrite wp_bind, wp_zoom. cbn [pmmu]. eapply wp_mono; [by apply invalidate_all_ok|].
  intros ? w2 Hw2. cbn beta in *. rewrite wp_bind, wp_zoom. cbn [pmmu].
  eapply wp_mono; [by apply map_current_userspace_ok|].
  intros ? w3 Hw3. cbn beta in *. by rewrite wp_modify.
Qed.

Lemma schedulable_process s q : stops schedulable s q -> exists p, zget (_process s) q = Some (Some p).
Proof. intros ([p|] & Hz & Hs); [eauto|done]. Qed.

Lemma wp_scheduler s q :
  procs_wf s -> 0 <= _process_current s < MAX_PROCESSES -> inv (pmmu s) -> stops schedulable s q ->
  wp scheduler (fun next s' =>
    stops schedulable s next /\
    (forall r, stops schedulable s r -> dist (_process_current s) next <= dist (_process_current s) r) /\
    _process s' = _process s /\ _process_last s' = _process_last s /\
    _process_current s' = next /\ inv (pmmu s')) s.
Proof.
  intros Hw Hc Hi Hq. unfold scheduler. rewrite wp_bind, wp_gets.
  destruct (next_slot_eq schedulable _ q s Hw Hc Hq) as (next & Hn & Hst & Hm).
  rewrite wp_bind. eapply wp_eq; [exact Hn|].
  destruct (schedulable_process _ _ Hst) as [p Hp].
  rewrite wp_bind. eapply wp_mono; [by eapply wp_switch_to|].
  intros _ s' (? & ? & ? & ?). rewrite wp_ret. by split_and!.
Qed.

(** [n] scheduling decisions in a row, with no other event in between. *)
Fixpoint schedule_n (n : nat) : M (Procs W) (list Z) :=
  match n with
  | O => ret []
  | S n' => let* p := scheduler in let* ps := schedule_n n' in ret (p :: ps)
  end.

Lemma stops_same_table s s' q : _process s' = _process s -> stops schedulable s q -> stops schedulable s' q.
Proof. intros He (o & Ho & Hs). exists o. by rewrite He. Qed.

Lemma dist_decreases cur next q :
  0 <= next < MAX_PROCESSES -> 0 <= q < MAX_PROCESSES -> next <> q ->
  dist cur next <= dist cur q -> dist next q < dist cur q.
Proof. unfold dist, MAX_PROCESSES in *. mod_lia. Qed.

Lemma wp_schedule_n n s q :
  procs_wf s -> 0 <= _process_current s < MAX_PROCESSES -> inv (pmmu s) -> stops schedulable s q ->
  wp (schedule_n n) (fun ps s' => _process s' = _process s /\
    (dist (_process_current s) q < Z.of_nat n -> q ∈ ps)) s.
Proof.
  revert s. induction n as [|n IH]; intros s Hw Hc Hi Hq.
  { cbn [schedule_n]. rewrite wp_ret. split; [done|]. pose proof (dist_range (_process_current s) q). lia. }
  cbn [schedule_n]. rewrite wp_bind. eapply wp_mono; [by eapply wp_scheduler|].
  intros next s' (Hn & Hm & Ht & _ & Hcur & Hi'). rewrite wp_bind.
  assert (Hw' : procs_wf s') by (destruct Hw as [Hl He]; split; rewrite Ht; done).
  assert (Hr : forall x, stops schedulable s x -> 0 <= x < MAX_PROCESSES).
  { intros x (o & Hx & _). exact (wf_slot _ _ _ Hw Hx). }
  pose proof (Hr _ Hn) as Hrn. pose proof (Hr _ Hq) as Hrq. pose proof (Hm _ Hq) as Hle.
  eapply wp_mono; [apply IH; [done|lia|done|by eapply stops_same_table]|].
  intros ps s2 [Ht2 Hin]. rewrite wp_ret. split; [congruence|]. intros Hd.
  destruct (decide (next = q)) as [->|Hne]; [rewrite elem_of_cons; by left|].
  rewrite elem_of_cons; right. apply Hin. rewrite Hcur.
  pose proof (dist_decreases _ _ _ Hrn Hrq Hne Hle). lia.
Qed.

(** The scheduler always decides when some process is not blocked: it
    resumes the first such slot after the current one, cyclically, and
    changes nothing but the current process and the MMU. *)
Theorem scheduler_picks_next s q :
  procs_wf s -> 0 <= _process_current s < MAX_PROCESSES -> inv (pmmu s) -> stops schedulable s q ->
  wp scheduler (fun next s' =>
    stops schedulable s next /\
    (forall r, stops schedulable s r -> dist (_process_current s) next <= dist (_process_current s) r) /\
    _process s' = _process s /\ _process_last s' = _process_last s /\
    _process_current s' = next /\ inv (pmmu s')) s.
Proof. apply wp_scheduler. Qed.

(** C16. The scheduler is fair: among [MAX_PROCESSES] decisions in a row,
    every process that is not blocked is resumed at least once. *)
Theorem scheduler_fair s q :
  procs_wf s -> 0 <= _process_current s < MAX_PROCESSES -> inv (pmmu s) -> stops schedulable s q ->
  wp (schedule_n (Z.to_nat MAX_PROCESSES)) (fun picks s' =>
    q ∈ picks /\ _process s' = _process s) s.
Proof.
  intros Hw Hc Hi Hq. eapply wp_mono; [by apply (wp_schedule_n _ s q)|].
  cbn beta. intros ps s' [Ht Hin]. split; [|done]. apply Hin.
  pose proof (dist_range (_process_current s) q). lia.
Qed.

(** ** Creation *)

(** The process that [process_create] stores. *)
Definition created (b : Process) (pid h uid gid : Z) : Process :=
  MkProcess pid (p_parent b) PROCESS_STATE_RUNNING (p_callback b) (p_return_value b) h uid gid 1337
    (replicate (Z.to_nat MAX_PROCESS_FILES) (-1)) (p_reg b).

(** With the result of [mmu_init_userspace]. *)
Lemma process_create_eq fuel b uid gid s q u h w1 :
  procs_wf s -> -1 <= _process_last s -> _process_last s + 1025 < 2 ^ 31 ->
  free s q -> q <> _process_last s -> (1024 < fuel)%nat -> mmu_init_userspace (pmmu s) = Ret ((u, h), w1) ->
  exists pid, free s pid /\ (forall r, free s r -> dist (_process_last s) pid <= dist (_process_last s) r) /\
    process_create fuel (Some b) uid gid s = Ret (pid,
      MkProcs (zset (_process s) pid (Some (created b pid h uid gid))) (_process_current s)
        (_process_last s + 1 + dist (_process_last s) pid) w1).
Proof.
  intros Hw Hl Hb Hq Hne Hf Hm. pose proof (dist_range (_process_last s) q) as Hd.
  destruct (find_free_from (_process_last s) q fuel 0 s) as (pid & Hp & Hfr & Hmin);
    [done|lia|done|done|done|done|lia|intros r _; apply dist_range|unfold MAX_PROCESSES in *; lia|].
  exists pid. split_and!; [done..|]. unfold process_create.
  rewrite (bind_Ret _ _ (_process_last s) s s) by done. rewrite (bind_Ret _ _ _ _ _ Hp).
  erewrite bind_Ret; [|apply on_mmu_eq; exact Hm]. reflexivity.
Qed.

Lemma wp_process_create fuel b uid gid s q :
  procs_wf s -> inv (pmmu s) -> -1 <= _process_last s -> _process_last s + 1025 < 2 ^ 31 ->
  free s q -> q <> _process_last s -> (1024 < fuel)%nat ->
  wp (process_create fuel (Some b) uid gid) (fun pid s' =>
    free s pid /\ (forall r, free s r -> dist (_process_last s) pid <= dist (_process_last s) r) /\
    inv (pmmu s') /\ _process_current s' = _process_current s /\
    exists h, _process s' = zset (_process s) pid (Some (created b pid h uid gid))) s.
Proof.
  intros Hw Hi Hl Hb Hq Hne Hf.
  pose proof (init_userspace_ok _ Hi) as ([u h] & w1 & Hm & Hi1)%wp_run.
  destruct (process_create_eq fuel b uid gid s q u h w1) as (pid & Hfr & Hmin & E); [done..|].
  eapply wp_eq; [exact E|]. split_and!; [done..|]. by exists h.
Qed.

(** With a free slot other than the last one tried, [process_create]
    returns the first free slot after it, cyclically, and stores there a
    running process with its own pid, the given owner and no open files; every
    other slot is unchanged.  (The counter must stay below [2^31].) *)
Theorem process_create_ok fuel b uid gid s q :
  procs_wf s -> inv (pmmu s) -> -1 <= _process_last s -> _process_last s + 1025 < 2 ^ 31 ->
  free s q -> q <> _process_last s -> (1024 < fuel)%nat ->
  wp (process_create fuel (Some b) uid gid) (fun pid s' =>
    free s pid /\ (forall r, free s r -> dist (_process_last s) pid <= dist (_process_last s) r) /\
    inv (pmmu s') /\
    exists p, _process s' = zset (_process s) pid (Some p) /\ p_pid p = pid /\
      p_state p = PROCESS_STATE_RUNNING /\ p_user p = uid /\ p_group p = gid /\
      p_file p = replicate 64 (-1)) s.
Proof.
  intros Hw Hi Hl Hb Hq Hne Hf. eapply wp_mono; [by apply (wp_process_create fuel b uid gid s q)|].
  intros pid s' (Hfr & Hm & Hi' & _ & h & Hp). split_and!; [done..|].
  exists (created b pid h uid gid). by split_and!.
Qed.

(** With every slot taken, [process_create] returns [-EAGAIN] only while
    the counter [_process_last] is below [MAX_PROCESSES]; once the counter has
    passed it, [tried] is never met again and the search spins. *)
Theorem process_create_full fuel block uid gid s :
  procs_wf s -> (forall r, ~ free s r) -> 0 <= _process_last s ->
  (_process_last s < MAX_PROCESSES -> (1024 < fuel)%nat ->
   wp (process_create fuel block uid gid) (fun r s' => r = - EAGAIN /\ _process s' = _process s) s) /\
  (MAX_PROCESSES <= _process_last s -> _process_last s + Z.of_nat fuel < 2 ^ 31 ->
   process_create fuel block uid gid s = Timeout).
Proof.
  intros Hw Hno Hl. split; [intros Hlt Hf|intros Hge Hf].
  - destruct (find_free_full_stops (_process_last s) fuel 0 s) as (s' & Hs & Hp);
      [done|lia|done|unfold MAX_PROCESSES in *; lia|done|lia|].
    unfold process_create. rewrite wp_bind, wp_gets, wp_bind. by eapply wp_eq.
  - unfold process_create, bind, gets.
    by rewrite (find_free_full_spins (_process_last s) fuel 0 s) by (done || lia).
Qed.

(** ** Exit and wait *)

Lemma process_at_eq s pid o : zget (_process s) pid = Some o -> process_at pid s = Ret (o, s).
Proof. intros Hz. unfold process_at, bind, gets, need. by rewrite Hz. Qed.
Lemma process_deref_eq s pid p :
  zget (_process s) pid = Some (Some p) -> process_deref pid s = Ret (p, s).
Proof. intros Hz. unfold process_deref. by rewrite (bind_Ret _ _ _ _ _ (process_at_eq _ _ _ Hz)). Qed.
Lemma process_update_eq s pid f p :
  zget (_process s) pid = Some (Some p) ->
  process_update pid f s = Ret (tt, set_process (zset (_process s) pid (Some (f p))) s).
Proof. intros Hz. unfold process_update. by rewrite (bind_Ret _ _ _ _ _ (process_deref_eq _ _ _ Hz)). Qed.

Definition woken (t : list (option Process)) (o : Z) : list (option Process) :=
  match zget t o with
  | Some (Some p) => zset t o (Some (set_state PROCESS_STATE_RUNNING p))
  | _ => t
  end.

(** The waiters at even and at odd positions of the callback list. *)
Fixpoint evens {A} (l : list A) : list A :=
  match l with a :: _ :: l' => a :: evens l' | [a] => [a] | [] => [] end.
Fixpoint odds {A} (l : list A) : list A :=
  match l with _ :: b :: l' => b :: odds l' | _ => [] end.
Definition live s (o : Z) : Prop := exists p, zget (_process s) o = Some (Some p).

Definition wakes (cbs : list ProcessCallback) (q : Z) : bool :=
  existsb (fun cb => cb_owner cb =? q) cbs.
Definition rouse (b : bool) (p : Process) : Process := if b then set_state PROCESS_STATE_RUNNING p else p.
Definition wake_if (b : bool) (o : option Process) : option Process := rouse b <$> o.

Lemma zget_zset_live (t : list (option Process)) o x y q :
  zget t o = Some x -> zget (zset t o y) q = if decide (o = q) then Some y else zget t q.
Proof. intros Hz. apply zget_zset. by eapply zget_lt_Some. Qed.

Lemma wake_if_twice a b o : wake_if a (wake_if b o) = wake_if (b || a) o.
Proof. by destruct a, b, o. Qed.
Lemma rouse_twice a b p : rouse a (rouse b p) = rouse (b || a) p.
Proof. by destruct a, b. Qed.
Lemma wake_if_false o : wake_if false o = o.
Proof. by destruct o. Qed.

(** The table [t] when the owners of [ws] have been woken and process [pid]
    keeps the callbacks [keep]. *)
Definition notified pid p (ws keep : list ProcessCallback) (t t' : list (option Process)) : Prop :=
  length t' = length t /\ forall q, zget t' q =
    if decide (q = pid) then Some (Some (set_callback keep (rouse (wakes ws pid) p)))
    else wake_if (wakes ws q) <$> zget t q.

Lemma notified_live pid p ws keep t t' q :
  notified pid p ws keep t t' -> (exists x, zget t q = Some (Some x)) -> exists x, zget t' q = Some (Some x).
Proof.
  intros [_ Ht] [x Hx]. rewrite Ht. case_decide; [by eexists|]. rewrite Hx. by eexists.
Qed.

(** One iteration of the loop of [process_exit]. *)
Lemma exit_callbacks_step s pid p k cb :
  live s (cb_owner cb) -> zget (_process s) pid = Some (Some p) -> p_callback p !! k = Some cb ->
  exists t2, exit_callback_step pid k s = match delete k (p_callback p) !! k with
              | None => Fault
              | Some _ => Ret (inl (S k), set_process t2 s)
              end /\
    notified pid p [cb] (delete k (p_callback p)) (_process s) t2.
Proof.
  intros [po Hpo] Hp Hk. set (o := cb_owner cb) in *.
  set (s1 := set_process (zset (_process s) o (Some (set_state PROCESS_STATE_RUNNING po))) s).
  set (p1 := rouse (o =? pid) p).
  assert (p_callback p1 = p_callback p) as Hc1 by (unfold p1; by destruct (_ =? _)).
  assert (zget (_process s1) pid = Some (Some p1)) as Hp1.
  { unfold s1, p1. cbn. erewrite zget_zset_live by done. case_decide as E.
    - rewrite E, Z.eqb_refl in *. by simplify_eq.
    - by destruct (Z.eqb_spec o pid). }
  set (t2 := zset (_process s1) pid (Some (set_callback (delete k (p_callback p1)) p1))).
  assert (zget t2 pid = Some (Some (set_callback (delete k (p_callback p1)) p1))) as Hp2.
  { unfold t2. erewrite zget_zset_live by done. by rewrite decide_True. }
  exists t2. split.
  - unfold exit_callback_step. rewrite (bind_Ret _ _ _ _ _ (process_deref_eq _ _ _ Hp)), Hk.
    unfold run_callback. destruct (cb_func cb). unfold kill_callback. rewrite bind_assoc.
    fold o. rewrite (bind_Ret _ _ _ _ _ (process_update_eq _ _ _ _ Hpo)). fold s1.
    rewrite (bind_Ret _ _ true s1 s1) by done.
    rewrite (bind_Ret _ _ _ _ _ (process_update_eq _ _ _ _ Hp1)). fold t2.
    rewrite (bind_Ret _ _ _ _ _ (process_deref_eq (set_process t2 s) _ _ Hp2)). cbn [p_callback set_callback].
    rewrite Hc1. by destruct (delete k (p_callback p) !! k).
  - split; [unfold t2, s1; cbn; by rewrite !length_zset|]. intros q. cbn [wakes existsb]. fold o.
    case_decide as E; [subst q; by rewrite Hp2, Hc1, orb_false_r|].
    unfold t2. erewrite zget_zset_live, decide_False by done. unfold s1. cbn.
    erewrite zget_zset_live, orb_false_r by done. case_decide as E'.
    + subst q. by rewrite Z.eqb_refl, Hpo.
    + destruct (Z.eqb_spec o q); [done|]. by destruct (zget (_process s) q) as [[]|].
Qed.

Lemma exit_callback_stop s pid p :
  zget (_process s) pid = Some (Some p) ->
  exit_callback_step pid (length (p_callback p)) s = Ret (inr tt, s).
Proof.
  intros Hp. unfold exit_callback_step. rewrite (bind_Ret _ _ _ _ _ (process_deref_eq _ _ _ Hp)).
  by rewrite lookup_ge_None_2.
Qed.

Lemma delete_middle {A} (dn cbs : list A) (x : A) : delete (length dn) (dn ++ x :: cbs) = dn ++ cbs.
Proof. by rewrite delete_middle. Qed.

Lemma notified_app pid p ws ws' keep keep' t t1 t2 :
  notified pid p ws keep t t1 -> notified pid (set_callback keep (rouse (wakes ws pid) p)) ws' keep' t1 t2 ->
  notified pid p (ws ++ ws') keep' t t2.
Proof.
  intros [Hl1 H1] [Hl2 H2]. split; [congruence|]. intros q. rewrite H2.
  assert (forall r, wakes (ws ++ ws') r = wakes ws r || wakes ws' r) as Hw by (intros r; apply existsb_app).
  case_decide as E; rewrite Hw.
  - rewrite <- rouse_twice. by destruct (wakes ws pid), (wakes ws' pid).
  - rewrite H1, decide_False by done. destruct (zget t q) as [o|]; [|done]. cbn. by rewrite wake_if_twice.
Qed.

Lemma exit_callbacks_from n cbs fuel dn s pid p :
  (length cbs < n)%nat ->
  Forall (fun cb => live s (cb_owner cb)) cbs -> (length cbs < fuel)%nat ->
  zget (_process s) pid = Some (Some p) -> p_callback p = dn ++ cbs ->
  if Nat.even (length cbs) then
    exists t, loop fuel (length dn) (exit_callback_step pid) s = Ret (tt, set_process t s) /\
      notified pid p (evens cbs) (dn ++ odds cbs) (_process s) t
  else loop fuel (length dn) (exit_callback_step pid) s = Fault.
Proof.
  revert cbs fuel dn s p. induction n as [|n IH]; [lia|]. intros cbs fuel dn s p Hn Hl Hf Hp Hc.
  destruct fuel as [|fuel]; [lia|].
  destruct cbs as [|cb cbs].
  - cbn [length Nat.even evens odds]. rewrite app_nil_r in *. exists (_process s). split.
    { rewrite <- Hc. erewrite loop_done by by apply exit_callback_stop. by destruct s. }
    split; [done|]. intros q. cbn [wakes existsb rouse]. case_decide as E; [subst; rewrite Hp; f_equal; f_equal; by destruct p|].
    by destruct (zget (_process s) q) as [[]|].
  - apply Forall_cons in Hl as [Hcb Hl].
    destruct (exit_callbacks_step s pid p (length dn) cb) as (t2 & Hstep & Ht2);
      [done|done|by rewrite Hc, list_lookup_middle|].
    rewrite Hc, delete_middle in Hstep, Ht2. destruct cbs as [|cb2 cbs].
    + cbn [length Nat.even]. rewrite loop_unfold. unfold bind.
      rewrite Hstep, lookup_ge_None_2; [done|]. by rewrite app_nil_r.
    + rewrite list_lookup_middle in Hstep by done. cbn [length Nat.even evens odds] in *.
      rewrite (loop_next _ _ _ _ _ _ Hstep). apply Forall_cons in Hl as [_ Hl].
      assert (zget t2 pid = Some (Some (set_callback (dn ++ cb2 :: cbs) (rouse (wakes [cb] pid) p)))) as Hp2.
      { destruct Ht2 as [_ Ht2]. by rewrite Ht2, decide_True. }
      opose proof (IH cbs fuel (dn ++ [cb2]) (set_process t2 s) _ _ _ _ Hp2 _) as IH2; [lia| |lia|by rewrite <- app_assoc|].
      * eapply Forall_impl; [done|]. intros c. cbn beta. by apply notified_live with (1 := Ht2).
      * rewrite length_app, Nat.add_1_r in IH2.
        destruct (Nat.even (length cbs)); [|done]. destruct IH2 as (t & Hr & Ht). exists t. split; [exact Hr|].
        rewrite <- app_assoc in Ht. exact (notified_app _ _ [cb] _ _ _ _ _ _ Ht2 Ht).
Qed.

(** A dying process wakes only every other one of the processes that wait
    for it (it skips the successor of each callback it removes): with an even
    number of live waiters, those at even positions of the list are running
    afterwards, the others stay in the list and their state is unchanged; with
    an odd number the loop follows the null pointer after the last one. *)
Theorem exit_callbacks_alternate fuel s pid p :
  zget (_process s) pid = Some (Some p) ->
  Forall (fun cb => live s (cb_owner cb)) (p_callback p) -> (length (p_callback p) < fuel)%nat ->
  if Nat.even (length (p_callback p)) then
    exists t, exit_callbacks fuel pid s = Ret (tt, set_process t s) /\
      notified pid p (evens (p_callback p)) (odds (p_callback p)) (_process s) t
  else exit_callbacks fuel pid s = Fault.
Proof.
  intros Hp Hl Hf. unfold exit_callbacks.
  exact (exit_callbacks_from _ _ fuel [] _ _ _ (Nat.lt_succ_diag_r _) Hl Hf Hp eq_refl).
Qed.

Lemma pid_valid_true pid : 0 <= pid < MAX_PROCESSES -> pid_valid pid = true.
Proof. intros Hp. unfold pid_valid, MAX_PROCESSES in *. apply negb_true_iff, orb_false_iff. lia. Qed.

(** Waiting for a live process: the waiter is queued and blocked. *)
Lemma process_wait_blocks s pid p q :
  0 <= pid < MAX_PROCESSES -> _process_current s <> pid ->
  zget (_process s) pid = Some (Some p) -> p_state p <> PROCESS_STATE_ZOMBIE ->
  zget (_process s) (_process_current s) = Some (Some q) ->
  exists s2, process_wait pid s = Ret (-1000, s2) /\
    zget (_process s2) pid = Some (Some (set_callback
      (MkCallback KillCallback (_process_current s) :: p_callback p) p)) /\
    zget (_process s2) (_process_current s) = Some (Some (set_state PROCESS_STATE_BLOCKED q)).
Proof.
  intros Hpid Hne Hp Hz Hq.
  set (p' := set_callback (MkCallback KillCallback (_process_current s) :: p_callback p) p).
  set (s1 := set_process (zset (_process s) pid (Some p')) s).
  assert (zget (_process s1) (_process_current s) = Some (Some q)) as Hq1.
  { unfold s1. cbn [_process set_process]. erewrite zget_zset_live by done. by rewrite decide_False. }
  assert (zget (_process s1) pid = Some (Some p')) as Hp1.
  { unfold s1. cbn [_process set_process]. erewrite zget_zset_live by done. by rewrite decide_True. }
  eexists. split_and!.
  - unfold process_wait. rewrite pid_valid_true by done. cbn [negb].
    rewrite (bind_Ret _ _ _ _ _ (process_at_eq _ _ _ Hp)), decide_False by done.
    unfold bind at 1, gets at 1. rewrite (bind_Ret _ _ _ _ _ (process_update_eq _ _ _ _ Hp)).
    fold p' s1. rewrite (bind_Ret _ _ _ _ _ (process_update_eq _ _ _ _ Hq1)). reflexivity.
  - cbn [_process set_process]. erewrite zget_zset_live by done. by rewrite decide_False.
  - cbn [_process set_process]. erewrite zget_zset_live by done. by rewrite decide_True.
Qed.

(** A process blocked in [process_wait] on another process, as its only
    waiter, is never woken: [process_exit] of the process it waits for runs
    into the null pointer. *)
Theorem wait_exit_fault fuel s pid p q rv :
  2 <= pid < MAX_PROCESSES -> _process_current s <> pid ->
  zget (_process s) pid = Some (Some p) -> p_callback p = [] ->
  p_state p <> PROCESS_STATE_ZOMBIE ->
  zget (_process s) (_process_current s) = Some (Some q) -> (1 < fuel)%nat ->
  (process_wait pid ;; process_exit fuel pid rv) s = Fault.
Proof.
  intros Hpid Hne Hp Hc Hz Hq Hf.
  destruct (process_wait_blocks s pid p q) as (s2 & Hwait & Hp2 & Hq2); [lia|done..|].
  rewrite (bind_Ret _ _ _ _ _ Hwait). unfold process_exit. rewrite pid_valid_true by lia.
  cbn [negb]. rewrite (bind_Ret _ _ _ _ _ (process_at_eq _ _ _ Hp2)).
  destruct (Z.eqb_spec pid 0); [lia|]. destruct (Z.eqb_spec pid 1); [lia|].
  enough (exit_callbacks fuel pid s2 = Fault) as HF by (unfold bind; by rewrite HF).
  refine (exit_callbacks_from 2 [MkCallback KillCallback (_process_current s)] fuel [] s2 pid _
    _ _ _ Hp2 _); [cbn; lia| |cbn; lia|cbn; by rewrite Hc].
  apply Forall_singleton. eexists. exact Hq2.
Qed.

Lemma stops_self s pid p :
  zget (_process s) pid = Some (Some p) ->
  stops (fun p => if p is Some _ then true else false) s pid.
Proof. intros Hp. by exists (Some p). Qed.

(** The end of [process_exit]. *)
Definition exit_tail pid rv : M (Procs W) unit :=
  let* p := process_deref pid in
  on_mmu (mmu_free_userspace (p_userspace p)) ;;
  process_update pid (set_return_value rv) ;;
  process_update pid (set_state PROCESS_STATE_ZOMBIE).

(** The table after the exit of [p], and the current process and MMU state
    that survive. *)
Definition dead rv p : Process :=
  set_state PROCESS_STATE_ZOMBIE (set_return_value rv (set_callback (odds (p_callback p)) p)).
Definition exited s pid p rv (s' : Procs W) : Prop :=
  (length (_process s') = length (_process s) /\ forall q, zget (_process s') q =
    if decide (q = pid) then Some (Some (dead rv p)) else wake_if (wakes (evens (p_callback p)) q) <$> zget (_process s) q) /\
  0 <= _process_current s' < MAX_PROCESSES /\ inv (pmmu s').

(** Without waiters only the slot of the process changes. *)
Lemma exited_alone s pid p rv s' : zget (_process s) pid = Some (Some p) -> p_callback p = [] -> exited s pid p rv s' ->
  _process s' = zset (_process s) pid (Some (set_state PROCESS_STATE_ZOMBIE (set_return_value rv p))).
Proof.
  intros Hp Hc [[Hl Ht] _]. apply zget_ext; [by rewrite length_zset|]. intros q _.
  rewrite Ht, (zget_zset_live _ _ _ _ _ Hp), Hc. cbn. case_decide as E.
  - rewrite decide_True by done. unfold dead. rewrite Hc. destruct p. cbn in *. by subst.
  - rewrite decide_False by done. by destruct (zget (_process s) q) as [[]|].
Qed.

(** A change of the table by [notified] keeps it well formed. *)
Lemma notified_wf pid p ws keep s t :
  procs_wf s -> zget (_process s) pid = Some (Some p) -> notified pid p ws keep (_process s) t -> procs_wf (set_process t s).
Proof.
  intros Hw Hp [Hl Ht]. split; cbn [_process set_process]; [rewrite Hl; apply Hw|].
  assert (forall i x b, zget (_process s) i = Some (Some x) -> process_ok i (rouse b x)) as Hr.
  { intros i x b Hx. destruct (wf_entry _ Hw _ _ Hx). destruct b; by split. }
  intros i x. rewrite Ht. case_decide as E.
  - intros [= <-]. subst i. destruct (Hr _ _ (wakes ws pid) Hp). by split.
  - destruct (zget (_process s) i) as [[y|]|] eqn:Ey; cbn; intros [=]; subst. by apply Hr.
Qed.

Lemma wp_exit_tail s pid p rv :
  inv (pmmu s) -> 0 <= _process_current s < MAX_PROCESSES ->
  zget (_process s) pid = Some (Some p) ->
  wp (exit_tail pid rv) (fun _ s' =>
    _process s' = zset (_process s) pid (Some (set_state PROCESS_STATE_ZOMBIE (set_return_value rv p))) /\
    0 <= _process_current s' < MAX_PROCESSES /\ inv (pmmu s')) s.
Proof.
  intros Hi Hcur Hp. unfold exit_tail. rewrite wp_bind.
  eapply wp_eq; [exact (process_deref_eq _ _ _ Hp)|].
  rewrite wp_bind. unfold on_mmu. rewrite wp_zoom.
  eapply wp_mono; [by apply free_userspace_ok|]. intros ? w Hwi. cbn beta in *.
  rewrite wp_bind. eapply wp_eq; [by apply process_update_eq|].
  eapply wp_eq.
  { apply process_update_eq. cbn [_process set_process]. erewrite zget_zset_live by done.
    by rewrite decide_True. }
  split; [|done]. cbn [_process set_process]. by rewrite zset_zset.
Qed.

(** When a process exits that runs, another slot is made current. *)
Lemma wp_exit_switch s pid p :
  procs_wf s -> inv (pmmu s) -> 0 <= _process_current s < MAX_PROCESSES -> zget (_process s) pid = Some (Some p) ->
  wp (let* current := gets _process_current in
      when (current =? pid)
        (let* next := next_slot search_fuel pid (fun p => if p is Some _ then true else false) in
         process_switch_to next)) (fun _ s' =>
    _process s' = _process s /\ 0 <= _process_current s' < MAX_PROCESSES /\ inv (pmmu s')) s.
Proof.
  intros Hw Hi Hcur Hp. pose proof (wf_slot _ _ _ Hw Hp). rewrite wp_bind, wp_gets. unfold when.
  destruct (_ =? pid); [|by rewrite wp_ret].
  destruct (next_slot_eq (fun p => if p is Some _ then true else false) pid pid s Hw)
    as (next & Hn & ([pn|] & Hpn & [=]) & _); [lia|by eapply stops_self|].
  rewrite wp_bind. eapply wp_eq; [exact Hn|]. eapply wp_mono; [by eapply wp_switch_to|].
  intros _ s' (Ht & _ & -> & Hi'). split_and!; [done| | |done]; apply (wf_slot _ _ _ Hw Hpn).
Qed.

Lemma process_exit_tail fuel pid rv (p : Process) s : 2 <= pid < MAX_PROCESSES -> zget (_process s) pid = Some (Some p) ->
  process_exit fuel pid rv s = (exit_callbacks fuel pid ;;
    (let* current := gets _process_current in
     when (current =? pid)
       (let* next := next_slot search_fuel pid (fun p => if p is Some _ then true else false) in
        process_switch_to next)) ;;
    exit_tail pid rv) s.
Proof.
  intros Hpid Hp. unfold process_exit. rewrite pid_valid_true by lia. cbn [negb].
  rewrite (bind_Ret _ _ _ _ _ (process_at_eq _ _ _ Hp)).
  destruct (Z.eqb_spec pid 0); [lia|]. destruct (Z.eqb_spec pid 1); [lia|].
  unfold bind at 1. symmetry. unfold bind at 1. destruct (exit_callbacks fuel pid s) as [[u s1]| | |]; [|done..].
  by rewrite bind_assoc.
Qed.

(** [process_exit] of a process with an even number of waiters that are all
    there leaves it a zombie with its return value. *)
Lemma wp_process_exit fuel s pid p rv :
  procs_wf s -> inv (pmmu s) -> 0 <= _process_current s < MAX_PROCESSES -> 2 <= pid < MAX_PROCESSES ->
  zget (_process s) pid = Some (Some p) -> Forall (fun cb => live s (cb_owner cb)) (p_callback p) ->
  Nat.even (length (p_callback p)) = true -> (length (p_callback p) < fuel)%nat ->
  wp (process_exit fuel pid rv) (fun _ s' => exited s pid p rv s') s.
Proof.
  intros Hw Hi Hcur Hpid Hp Hl He Hf.
  pose proof (exit_callbacks_from _ _ fuel [] s pid p (Nat.lt_succ_diag_r _) Hl Hf Hp eq_refl) as Hx.
  rewrite He in Hx. destruct Hx as (t & Hx & Ht). pose proof (notified_wf _ _ _ _ _ _ Hw Hp Ht) as Hw1.
  unfold wp. rewrite (process_exit_tail _ _ _ p) by done. rewrite (bind_Ret _ _ _ _ _ Hx).
  set (s1 := set_process t s) in *. destruct Ht as [Hlt Ht].
  pose proof (Ht pid) as Hp1. rewrite decide_True in Hp1 by done.
  match goal with |- match ?m s1 with _ => _ end => change (wp m (fun _ s' => exited s pid p rv s') s1) end.
  rewrite wp_bind. eapply wp_mono; [by apply (wp_exit_switch s1 pid _ Hw1 Hi Hcur Hp1)|].
  cbn beta. intros _ s2 (Ht2 & Hc2 & Hi2).
  eapply wp_mono; [apply wp_exit_tail; [done..|by rewrite Ht2]|]. cbn beta. intros _ s3 (Ht3 & Hc3 & Hi3).
  split; [|done]. rewrite Ht3, Ht2. split; [by rewrite length_zset|]. intros q.
  rewrite (zget_zset_live _ _ _ _ _ Hp1). case_decide as E.
  - rewrite decide_True by done. unfold dead. by destruct (wakes _ pid).
  - rewrite decide_False by done. cbn [_process set_process s1]. by rewrite Ht, decide_False.
Qed.

(** C30. Exit and wait: when an even number of processes wait for a process, its
    [process_exit] returns, and then [process_wait] for it, by whichever
    process, returns its return value and frees exactly its slot; of the
    waiters every other one is running again, and nothing else changes in the
    table.  With an odd number of waiters, so with one parent that already
    waits, [process_exit] follows a null pointer.  (Processes 0 and 1 cannot
    exit: the kernel panics.) *)
Theorem exit_wait fuel s pid p rv :
  procs_wf s -> inv (pmmu s) -> 0 <= _process_current s < MAX_PROCESSES -> 2 <= pid < MAX_PROCESSES ->
  zget (_process s) pid = Some (Some p) -> Forall (fun cb => live s (cb_owner cb)) (p_callback p) ->
  (length (p_callback p) < fuel)%nat ->
  if Nat.even (length (p_callback p)) then
    wp (process_exit fuel pid rv ;; process_wait pid) (fun r s' => r = rv /\
      forall q, zget (_process s') q =
        if decide (q = pid) then Some None else wake_if (wakes (evens (p_callback p)) q) <$> zget (_process s) q) s
  else process_exit fuel pid rv s = Fault.
Proof.
  intros Hw Hi Hcur Hpid Hp Hl Hf. destruct (Nat.even _) eqn:He.
  - rewrite wp_bind. eapply wp_mono; [by apply (wp_process_exit _ _ _ p)|]. cbn beta. intros _ s' [[_ Ht] _].
    pose proof (Ht pid) as Hz. rewrite decide_True in Hz by done.
    unfold process_wait. rewrite pid_valid_true by lia. cbn [negb]. rewrite wp_bind. eapply wp_eq; [by apply process_at_eq|].
    cbn beta iota. rewrite decide_True by done. rewrite wp_bind, wp_modify, wp_ret. split; [done|]. intros q.
    cbn [_process set_process]. rewrite (zget_zset_live _ _ _ _ _ Hz). case_decide as E.
    + by rewrite decide_True.
    + by rewrite Ht, !decide_False.
  - rewrite (process_exit_tail _ _ _ p) by done. unfold bind at 1.
    pose proof (exit_callbacks_from _ _ fuel [] s pid p (Nat.lt_succ_diag_r _) Hl Hf Hp eq_refl) as Hx.
    rewrite He in Hx. unfold exit_callbacks. cbn [length] in Hx. by rewrite Hx.
Qed.

(** A zombie is still scheduled: once a process has exited, some of the
    next [MAX_PROCESSES] scheduling decisions resumes its registers, although
    its address space has been freed. *)
Theorem zombie_scheduled fuel s pid p rv :
  procs_wf s -> inv (pmmu s) -> 0 <= _process_current s < MAX_PROCESSES ->
  2 <= pid < MAX_PROCESSES -> (0 < fuel)%nat ->
  zget (_process s) pid = Some (Some p) -> p_callback p = [] ->
  wp (process_exit fuel pid rv ;; schedule_n (Z.to_nat MAX_PROCESSES))
     (fun picks _ => pid ∈ picks) s.
Proof.
  intros Hw Hi Hcur Hpid Hf Hp Hc. rewrite wp_bind. apply wp_run.
  assert (wp (process_exit fuel pid rv) (fun _ s' => exited s pid p rv s') s) as Hex.
  { apply wp_process_exit; rewrite ?Hc; try done. }
  apply wp_run in Hex as ([] & s' & Hex & Hx). pose proof (exited_alone _ _ _ _ _ Hp Hc Hx) as Ht.
  destruct Hx as (_ & Hcur' & Hi').
  exists tt, s'. split; [done|]. eapply wp_mono; [apply (wp_schedule_n _ s' pid); try done|].
  - by eapply preserves_exit.
  - exists (Some (set_state PROCESS_STATE_ZOMBIE (set_return_value rv p))). split; [|done].
    rewrite Ht. erewrite zget_zset_live by done. by rewrite decide_True.
  - cbn beta. intros ps _ [_ Hin]. apply Hin. pose proof (dist_range (_process_current s') pid). lia.
Qed.
End search.

(** * Witnesses *)

(** An MMU whose operations only return. *)
#[local] Instance null_mmu : Mmu unit := {
  mmu_init_userspace := ret (0, 0);
  mmu_free_userspace _ := ret tt;
  mmu_switch_userspace _ := ret 0;
  mmu_invalidate_all := ret tt;
  mmu_map_current_userspace := ret tt;
}.

#[local] Instance null_mmu_laws : MmuLaws unit (fun _ => True).
Proof. split; intros; exact I. Qed.

Definition demo_process (pid : Z) (st : ProcessState) (cbs : list ProcessCallback) : Process :=
  MkProcess pid 0 st cbs 0 0 0 0 1337 (replicate 64 (-1)) (MkRegisters 0 0 0 []).

(** Slots [0 .. n-1] are taken by running processes. *)
Definition demo_table (n : nat) : list (option Process) :=
  ((fun i => Some (demo_process (Z.of_nat i) PROCESS_STATE_RUNNING [])) <$> seq 0 n) ++
  replicate (1024 - n) None.
Definition demo_state (n : nat) (current last : Z) : Procs unit :=
  MkProcs (demo_table n) current last tt.

Lemma demo_wf n current last : (n <= 1024)%nat -> procs_wf (demo_state n current last).
Proof.
  intros Hn. split; cbn [_process demo_state].
  - unfold demo_table. rewrite length_app, length_fmap, length_seq, length_replicate.
    unfold MAX_PROCESSES. lia.
  - intros i p Hz. pose proof (zget_lt_Some _ _ _ Hz) as Hr.
    unfold zget, demo_table in Hz. destruct (Z.ltb_spec i 0); [lia|].
    apply lookup_app_Some in Hz as [Hz|[_ Hz]]; [|by apply lookup_replicate in Hz as [? _]].
    rewrite list_lookup_fmap in Hz. apply fmap_Some in Hz as (j & [-> Hj]%lookup_seq & [= ->]).
    split; cbn; [lia|done].
Qed.

(** The state of the witnesses: three running processes, the last of them
    current. *)
Definition demo : Procs unit := demo_state 3 2 2.
Lemma demo_current : 0 <= _process_current demo < MAX_PROCESSES.
Proof. done. Qed.

Lemma demo_free n c l q : (n <= 1024)%nat -> free (demo_state n c l) q <-> Z.of_nat n <= q < 1024.
Proof.
  intros Hn. unfold free, stops. cbn [_process demo_state]. unfold demo_table.
  destruct (decide (0 <= q < Z.of_nat n)) as [Hq|Hq].
  - rewrite zget_app_l by (rewrite length_fmap, length_seq; lia). split; [|lia].
    intros (o & Ho & Hf). unfold zget in Ho. destruct (Z.ltb_spec q 0); [lia|].
    rewrite list_lookup_fmap in Ho. by apply fmap_Some in Ho as (j & _ & ->).
  - destruct (decide (q < 0)); [split; [|lia]|].
    { intros (o & Ho%zget_lt_Some & _). lia. }
    rewrite zget_app_r by (rewrite length_fmap, length_seq; lia). rewrite length_fmap, length_seq. split.
    + intros (o & Ho%zget_lt_Some & _). rewrite length_replicate in Ho. lia.
    + intros Hr. exists None. split; [|done]. apply zget_replicate. lia.
Qed.

Lemma scheduler_picks_next_witness :
  wp scheduler (fun next s' => stops schedulable demo next /\
    (forall r, stops schedulable demo r -> dist (_process_current demo) next <= dist (_process_current demo) r) /\
    _process s' = _process demo /\ _process_last s' = _process_last demo /\
    _process_current s' = next /\ True) demo.
Proof.
  apply (scheduler_picks_next (fun _ => True) demo 1);
    [apply demo_wf; lia|apply demo_current|exact I|by eexists].
Defined.

Lemma scheduler_fair_witness :
  wp (schedule_n 1024) (fun picks s' => 1 ∈ picks /\ _process s' = _process demo) demo.
Proof.
  apply (scheduler_fair (fun _ => True) demo 1);
    [apply demo_wf; lia|apply demo_current|exact I|by eexists].
Defined.

Lemma process_create_ok_witness :
  wp (process_create 1025 (Some (demo_process 0 PROCESS_STATE_RUNNING [])) 7 8) (fun pid s' =>
    free demo pid /\ (forall r, free demo r -> dist 2 pid <= dist 2 r) /\ True /\
    exists p, _process s' = zset (_process demo) pid (Some p) /\ p_pid p = pid /\
      p_state p = PROCESS_STATE_RUNNING /\ p_user p = 7 /\ p_group p = 8 /\
      p_file p = replicate 64 (-1)) demo.
Proof.
  apply (process_create_ok (fun _ => True) 1025 _ 7 8 demo 3);
    [apply demo_wf; lia|exact I|by cbn|by cbn|apply demo_free; lia|by cbn|lia].
Defined.

Lemma process_create_full_witness :
  (5 < MAX_PROCESSES -> (1024 < 1025)%nat ->
   wp (process_create 1025 None 0 0) (fun r s' => r = - EAGAIN /\
     _process s' = _process (demo_state 1024 2 5)) (demo_state 1024 2 5)) /\
  (MAX_PROCESSES <= 5 -> 5 + Z.of_nat 1025 < 2 ^ 31 ->
   process_create 1025 None 0 0 (demo_state 1024 2 5) = Timeout).
Proof.
  apply (process_create_full 1025 None 0 0 (demo_state 1024 2 5)).
  - apply demo_wf. lia.
  - intros r. rewrite demo_free by lia. lia.
  - by cbn.
Defined.

Lemma exit_callbacks_alternate_witness :
  let s := MkProcs (zset (demo_table 4) 3 (Some (demo_process 3 PROCESS_STATE_RUNNING
             [MkCallback KillCallback 0; MkCallback KillCallback 1]))) 2 3 tt in
  exists t, exit_callbacks 3 3 s = Ret (tt, set_process t s) /\
    notified 3 (demo_process 3 PROCESS_STATE_RUNNING [MkCallback KillCallback 0; MkCallback KillCallback 1])
      [MkCallback KillCallback 0] [MkCallback KillCallback 1] (_process s) t.
Proof.
  intros s.
  apply (exit_callbacks_alternate 3 s 3 (demo_process 3 PROCESS_STATE_RUNNING
    [MkCallback KillCallback 0; MkCallback KillCallback 1])).
  - reflexivity.
  - repeat constructor; eexists; reflexivity.
  - cbn. lia.
Defined.

Lemma wait_exit_fault_witness :
  (process_wait 2 ;; process_exit 2 2 0) (demo_state 3 1 2) = Fault.
Proof.
  eapply (wait_exit_fault 2 (demo_state 3 1 2) 2); try reflexivity; try done. lia.
Defined.

(** Two processes wait for process 3. *)
Definition two_waiters : Process :=
  demo_process 3 PROCESS_STATE_RUNNING [MkCallback KillCallback 0; MkCallback KillCallback 1].
Definition demo_waiters : Procs unit := MkProcs (zset (demo_table 4) 3 (Some two_waiters)) 2 3 tt.

Lemma demo_waiters_wf : procs_wf demo_waiters.
Proof.
  apply (wf_zset (demo_state 4 2 3)); [apply demo_wf; lia|done|]. by intros p [= <-].
Qed.

Lemma exit_wait_witness :
  wp (process_exit 3 3 42 ;; process_wait 3) (fun r s' => r = 42 /\
    forall q, zget (_process s') q =
      if decide (q = 3) then Some None else wake_if (wakes [MkCallback KillCallback 0] q) <$> zget (_process demo_waiters) q)
    demo_waiters.
Proof.
  apply (exit_wait (fun _ => True) 3 demo_waiters 3 two_waiters); try done; [apply demo_waiters_wf| |cbn; lia].
  repeat constructor; eexists; reflexivity.
Defined.

Lemma zombie_scheduled_witness :
  wp (process_exit 1 2 42 ;; schedule_n 1024) (fun picks _ => 2 ∈ picks) demo.
Proof.
  eapply (zombie_scheduled (fun _ => True) 1 demo 2);
    [apply demo_wf; lia|exact I|apply demo_current|done|lia|reflexivity|reflexivity].
Defined.
