(* ===== verification/Lifecycle.v ===== *)
(** The life of processes: an abstract process table, and the proof that the
    operations of [process.c] implement it.

    A slot of the abstract table is running, blocked or dead with a return
    value; it has waiters and an owner.  [spec_step] says what each operation
    may do to the table and what it returns; [process_table_refines] that every
    sequence of operations since the boot is a run of it.  What follows for
    the return values of processes is proved on the abstract table. *)

From S2P Require Import Prelude Types Process.

(** * The operations as steps *)

Inductive proc_op : Type :=
| OpCreate (fuel : nat) (block : option Process) (uid gid : Z)
| OpExit (fuel : nat) (pid return_value : Z)
| OpSetPc (pid pc : Z)
| OpWait (pid : Z)
| OpSwitch (pid : Z)
| OpSaveContext (status sp pc : Z) (regs : list Z)
| OpSchedule.

Section steps.
Context {W : Type} `{Mmu W}.

(** The result of an operation without one is 0. *)
Definition run_proc_op (o : proc_op) : M (Procs W) Z :=
  match o with
  | OpCreate fuel block uid gid => process_create fuel block uid gid
  | OpExit fuel pid rv => process_exit fuel pid rv ;; ret 0
  | OpSetPc pid pc => process_set_pc pid pc ;; ret 0
  | OpWait pid => process_wait pid
  | OpSwitch pid => process_switch_to pid ;; ret 0
  | OpSaveContext st sp pc regs => process_save_context st sp pc regs ;; ret 0
  | OpSchedule => scheduler
  end.

Fixpoint run_ops (ops : list proc_op) : M (Procs W) (list Z) :=
  match ops with
  | [] => ret []
  | o :: ops => let* r := run_proc_op o in let* rs := run_ops ops in ret (r :: rs)
  end.
End steps.

(** * The abstract table *)

Inductive phase : Type := Running | Blocked | Dead (v : Z).

Record slot : Type := MkSlot {
  sl_phase : phase;
  sl_waiters : list Z;
  sl_user : Z;
  sl_group : Z;
}.

(** A slot that is not in the map is free. *)
Record Table : Type := MkTable {
  t_slots : gmap Z slot;
  t_current : Z;
}.

Definition set_phase (x : phase) (sl : slot) : slot := MkSlot x (sl_waiters sl) (sl_user sl) (sl_group sl).
Definition add_waiter (q : Z) (sl : slot) : slot := MkSlot (sl_phase sl) (q :: sl_waiters sl) (sl_user sl) (sl_group sl).
Definition wake_slots (ws : list Z) (m : gmap Z slot) : gmap Z slot :=
  map_imap (fun q sl => Some (if bool_decide (q ∈ ws) then set_phase Running sl else sl)) m.

(** The first slot after [c], cyclically, with a property. *)
Definition first_after (P : slot -> Prop) (m : gmap Z slot) (c q : Z) : Prop :=
  (exists sl, m !! q = Some sl /\ P sl) /\ forall r sl, m !! r = Some sl -> P sl -> dist c q <= dist c r.

Inductive spec_step : Table -> proc_op -> Z -> Table -> Prop :=
(* a new process gets a free slot *)
| Spec_create m c fuel b uid gid pid :
    m !! pid = None -> 0 <= pid < MAX_PROCESSES ->
    spec_step (MkTable m c) (OpCreate fuel (Some b) uid gid) pid
      (MkTable (<[pid := MkSlot Running (cb_owner <$> p_callback b) uid gid]> m) c)
| Spec_create_fails t fuel block uid gid e :
    e = - EAGAIN \/ block = None /\ e = - ENOMEM ->
    spec_step t (OpCreate fuel block uid gid) e t
(* the dead keep their value; every other waiter is woken *)
| Spec_exit m c c' fuel pid rv sl :
    m !! pid = Some sl -> 2 <= pid -> Nat.even (length (sl_waiters sl)) = true ->
    (forall q, q ∈ evens (sl_waiters sl) -> is_Some (m !! q)) ->
    (if decide (c = pid) then first_after (fun _ => True) m pid c' else c' = c) ->
    spec_step (MkTable m c) (OpExit fuel pid rv) 0
      (MkTable (<[pid := MkSlot (Dead rv) (odds (sl_waiters sl)) (sl_user sl) (sl_group sl)]>
        (wake_slots (evens (sl_waiters sl)) m)) c')
| Spec_exit_nothing m c fuel pid rv :
    m !! pid = None -> spec_step (MkTable m c) (OpExit fuel pid rv) 0 (MkTable m c)
| Spec_set_pc t pid pc : spec_step t (OpSetPc pid pc) 0 t
(* waiting for the dead frees the slot, waiting for the living blocks *)
| Spec_wait_dead m c pid sl v :
    m !! pid = Some sl -> sl_phase sl = Dead v ->
    spec_step (MkTable m c) (OpWait pid) v (MkTable (delete pid m) c)
| Spec_wait m c pid sl :
    m !! pid = Some sl -> (forall v, sl_phase sl <> Dead v) -> is_Some (m !! c) ->
    spec_step (MkTable m c) (OpWait pid) (-1000)
      (MkTable (alter (set_phase Blocked) c (alter (add_waiter c) pid m)) c)
| Spec_wait_nothing m c pid :
    m !! pid = None -> spec_step (MkTable m c) (OpWait pid) (if pid_valid pid then - ESRCH else - EINVAL) (MkTable m c)
| Spec_switch m c pid :
    is_Some (m !! pid) -> spec_step (MkTable m c) (OpSwitch pid) 0 (MkTable m pid)
| Spec_save_context m c st sp pc regs :
    is_Some (m !! c) -> spec_step (MkTable m c) (OpSaveContext st sp pc regs) 0 (MkTable m c)
| Spec_schedule m c next :
    first_after (fun sl => sl_phase sl <> Blocked) m c next ->
    spec_step (MkTable m c) OpSchedule next (MkTable m next).

Inductive spec_run (t0 : Table) : list (proc_op * Z) -> Table -> Prop :=
| Run_nil : spec_run t0 [] t0
| Run_snoc tr t o r t' : spec_run t0 tr t -> spec_step t o r t' -> spec_run t0 (tr ++ [(o, r)]) t'.

(** * Abstraction *)

Definition phase_of (p : Process) : phase :=
  match p_state p with
  | PROCESS_STATE_RUNNING => Running
  | PROCESS_STATE_BLOCKED => Blocked
  | PROCESS_STATE_ZOMBIE => Dead (p_return_value p)
  end.
Definition slot_of (p : Process) : slot := MkSlot (phase_of p) (cb_owner <$> p_callback p) (p_user p) (p_group p).

Section abstraction.
Context {W : Type} `{Mmu W}.
Implicit Types (s : Procs W) (m : gmap Z slot).

Record abs s (t : Table) : Prop := {
  abs_wf : procs_wf s;
  abs_current : _process_current s = t_current t;
  abs_range : 0 <= t_current t < MAX_PROCESSES;
  abs_slot : forall i, t_slots t !! i = slot_of <$> mjoin (zget (_process s) i);
}.

Lemma abs_init w : abs (procs_init w) (MkTable ∅ 0).
Proof.
  split; [apply init_procs_wf|done|done|]. intros i. cbn [t_slots]. rewrite lookup_empty.
  destruct (zget (_process (procs_init w)) i) as [o|] eqn:E; [|done].
  apply (Forall_zget (fun o => o = None)) in E; [by subst|]. by apply Forall_replicate.
Qed.

(** What the table holds, in both directions. *)
Lemma abs_Some s m c i sl : abs s (MkTable m c) -> m !! i = Some sl ->
  exists p, zget (_process s) i = Some (Some p) /\ sl = slot_of p.
Proof.
  intros Ha Hi. rewrite (abs_slot _ _ Ha i : m !! i = _) in Hi. destruct (zget (_process s) i) as [[p|]|] eqn:E; try done.
  injection Hi as <-. by exists p.
Qed.
Lemma abs_live s m c i p : abs s (MkTable m c) -> zget (_process s) i = Some (Some p) -> m !! i = Some (slot_of p).
Proof. intros Ha Hi. rewrite (abs_slot _ _ Ha i : m !! i = _), Hi. done. Qed.
Lemma abs_free s m c i : abs s (MkTable m c) -> mjoin (zget (_process s) i) = None -> m !! i = None.
Proof. intros Ha Hi. rewrite (abs_slot _ _ Ha i : m !! i = _), Hi. done. Qed.

Lemma abs_same s s' m c c' : abs s (MkTable m c) -> _process s' = _process s -> _process_current s' = c' ->
  0 <= c' < MAX_PROCESSES -> abs s' (MkTable m c').
Proof.
  intros [Hw _ _ Hs] Ht Hc Hr. split; [|done|done|intros i; rewrite Ht; apply Hs].
  split; rewrite Ht; apply Hw.
Qed.

(** One slot changes. *)
Lemma abs_zset s m c i o o' : abs s (MkTable m c) -> zget (_process s) i = Some o ->
  (forall p, o' = Some p -> process_ok i p) ->
  abs (set_process (zset (_process s) i o') s) (MkTable (partial_alter (fun _ => slot_of <$> o') i m) c).
Proof.
  intros [Hw Hc Hr Hs] Hi Ho. split; [|done|done|].
  - apply wf_zset; [done|by eapply wf_slot|done].
  - intros j. cbn [t_slots _process set_process] in *. rewrite (zget_zset_live _ _ _ _ _ Hi).
    case_decide as E; [subst; by rewrite lookup_partial_alter_eq|]. rewrite lookup_partial_alter_ne by done. apply Hs.
Qed.
Lemma abs_update s m c i p f : abs s (MkTable m c) -> zget (_process s) i = Some (Some p) ->
  p_pid (f p) = p_pid p -> p_file (f p) = p_file p ->
  abs (set_process (zset (_process s) i (Some (f p))) s) (MkTable (<[i := slot_of (f p)]> m) c).
Proof.
  intros Ha Hi Hp Hf. eapply (abs_zset _ _ _ _ _ (Some (f p))); [done..|]. intros q [= <-].
  destruct (wf_entry _ (abs_wf _ _ Ha) _ _ Hi). split; congruence.
Qed.

(** A change that the abstract table does not see. *)
Lemma abs_stutter s m c i p f : abs s (MkTable m c) -> zget (_process s) i = Some (Some p) ->
  p_pid (f p) = p_pid p -> p_file (f p) = p_file p -> slot_of (f p) = slot_of p ->
  abs (set_process (zset (_process s) i (Some (f p))) s) (MkTable m c).
Proof.
  intros Ha Hi Hp Hf Hs. pose proof (abs_update _ _ _ _ _ f Ha Hi Hp Hf) as Hu.
  rewrite Hs, insert_id in Hu by (by eapply abs_live). exact Hu.
Qed.

(** ** Lists of waiters *)

Lemma evens_fmap {A B} (f : A -> B) n l : (length l < n)%nat -> evens (f <$> l) = f <$> evens l /\ odds (f <$> l) = f <$> odds l.
Proof.
  revert l. induction n as [|n IH]; [lia|]. intros [|a [|b l]] Hl; [done..|]. cbn [length] in Hl.
  destruct (IH l) as [He Ho]; [lia|]. cbn. split; f_equal; done.
Qed.
Lemma wakes_owners cbs q : wakes cbs q = bool_decide (q ∈ cb_owner <$> cbs).
Proof.
  induction cbs as [|cb cbs IH]; [done|]. cbn [wakes existsb]. change (existsb _ cbs) with (wakes cbs q).
  rewrite IH, fmap_cons. apply Bool.eq_iff_eq_true. rewrite orb_true_iff, Z.eqb_eq, !bool_decide_eq_true, elem_of_cons.
  split; (intros [?|?]; [left; congruence|by right]).
Qed.

(** The table after [process_exit] has run its callbacks. *)
Lemma abs_notified s m c pid p ws keep t : abs s (MkTable m c) -> zget (_process s) pid = Some (Some p) ->
  notified pid p ws keep (_process s) t ->
  abs (set_process t s) (MkTable (<[pid := MkSlot (if wakes ws pid then Running else phase_of p) (cb_owner <$> keep) (p_user p) (p_group p)]>
    (wake_slots (cb_owner <$> ws) m)) c).
Proof.
  intros Ha Hp Hn. pose proof (notified_wf _ _ _ _ _ _ (abs_wf _ _ Ha) Hp Hn) as Hw. destruct Ha as [_ Hc Hr Hs].
  destruct Hn as [_ Ht]. split; [done..|]. intros i. cbn [t_slots _process set_process] in *. rewrite Ht. case_decide as E.
  - subst i. rewrite lookup_insert_eq. cbn. by destruct (wakes ws pid).
  - rewrite lookup_insert_ne by done. unfold wake_slots. rewrite map_lookup_imap, Hs, <- wakes_owners.
    destruct (zget (_process s) i) as [[x|]|]; try done. cbn. by destruct (wakes ws i).
Qed.
End abstraction.

(** * What an operation that returns has done *)

Section returns.
Context {W : Type} `{Mmu W}.
Implicit Types s : Procs W.

Lemma on_mmu_inv {A} (m : M W A) s s' a : on_mmu m s = Ret (a, s') -> exists w, s' = MkProcs (_process s) (_process_current s) (_process_last s) w.
Proof. unfold on_mmu, zoom. destruct (m (pmmu s)) as [[b w]| | |]; [|done..]. intros [= _ <-]. by exists w. Qed.

Lemma process_deref_inv s s' pid p : process_deref pid s = Ret (p, s') -> s' = s /\ zget (_process s) pid = Some (Some p).
Proof.
  unfold process_deref, process_at, bind, gets, need. destruct (zget (_process s) pid) as [[q|]|]; [|done..]. by intros [= -> ->].
Qed.
Lemma process_update_inv s s' pid f u : process_update pid f s = Ret (u, s') ->
  exists p, zget (_process s) pid = Some (Some p) /\ s' = set_process (zset (_process s) pid (Some (f p))) s.
Proof.
  unfold process_update. intros (p & t & [-> Hp]%process_deref_inv & Hr)%bind_Ret_inv. exists p. split; [done|]. by injection Hr as _ <-.
Qed.

Lemma process_switch_to_inv s s' pid u : process_switch_to pid s = Ret (u, s') ->
  live s pid /\ _process s' = _process s /\ _process_current s' = pid.
Proof.
  unfold process_switch_to. intros (p & t & [-> Hp]%process_deref_inv & Hr)%bind_Ret_inv. split; [by exists p|].
  apply bind_Ret_inv in Hr as (? & s1 & (w1 & ->)%on_mmu_inv & Hr). apply bind_Ret_inv in Hr as (? & s2 & (w2 & ->)%on_mmu_inv & Hr).
  apply bind_Ret_inv in Hr as (? & s3 & (w3 & ->)%on_mmu_inv & Hr). by injection Hr as _ <-.
Qed.

Lemma stops_decide stop s : (exists q, stops stop s q) \/ forall q, ~ stops stop s q.
Proof.
  destruct (decide (Exists (fun o => stop o = true) (_process s))) as [He|He].
  - left. apply Exists_exists in He as (o & [i Hi]%list_elem_of_lookup & Hs). exists (Z.of_nat i), o. by rewrite zget_nat.
  - right. intros q (o & Ho & Hs). apply He. apply Exists_exists. exists o. split; [|done].
    unfold zget in Ho. destruct (q <? 0); [done|]. by eapply list_elem_of_lookup_2.
Qed.

Lemma next_slot_inv stop cur s s' next : procs_wf s -> 0 <= cur < MAX_PROCESSES -> next_slot search_fuel cur stop s = Ret (next, s') ->
  s' = s /\ stops stop s next /\ forall r, stops stop s r -> dist cur next <= dist cur r.
Proof.
  intros Hw Hc Hn. destruct (stops_decide stop s) as [[q Hq]|Hno].
  - destruct (next_slot_eq stop cur q s Hw Hc Hq) as (next' & E & Hs & Hm). rewrite E in Hn. by injection Hn as -> ->.
  - unfold next_slot in Hn. replace (Z.rem (cur + 1) MAX_PROCESSES) with (nth_slot cur 0) in Hn.
    2: { unfold nth_slot. rewrite Z.rem_mod_nonneg by (unfold MAX_PROCESSES in *; lia). f_equal. lia. }
    by rewrite next_slot_none in Hn by (done || lia).
Qed.

(** A callback loop that returns has found every process that it wakes. *)
Lemma exit_callbacks_inv n cbs fuel dn s s' pid p u :
  (length cbs < n)%nat -> zget (_process s) pid = Some (Some p) -> p_callback p = dn ++ cbs ->
  loop fuel (length dn) (exit_callback_step pid) s = Ret (u, s') ->
  Nat.even (length cbs) = true /\ Forall (fun cb => live s (cb_owner cb)) (evens cbs) /\
  exists t, s' = set_process t s /\ notified pid p (evens cbs) (dn ++ odds cbs) (_process s) t.
Proof.
  revert cbs fuel dn s p. induction n as [|n IH]; [lia|]. intros cbs fuel dn s p Hn Hp Hc Hr.
  destruct fuel as [|fuel]; [done|]. destruct cbs as [|cb cbs].
  { split; [done|]. split; [constructor|].
    pose proof (exit_callbacks_from 1 [] (S fuel) dn s pid p) as Hx. cbn in Hx.
    destruct Hx as (t & E & Ht); [lia|constructor|lia|done|done|]. exists t. split; [|done]. rewrite E in Hr. by injection Hr as _ <-. }
  assert (live s (cb_owner cb)) as Hcb.
  { rewrite loop_unfold in Hr. unfold bind at 1 in Hr. unfold exit_callback_step in Hr.
    rewrite (bind_Ret _ _ _ _ _ (process_deref_eq _ _ _ Hp)), Hc, list_lookup_middle in Hr by done.
    unfold run_callback in Hr. destruct (cb_func cb). unfold kill_callback, process_update, process_deref, process_at, bind, gets, need in Hr.
    destruct (zget (_process s) (cb_owner cb)) as [[x|]|] eqn:E; [by exists x|done..]. }
  destruct (exit_callbacks_step s pid p (length dn) cb) as (t2 & Hstep & Ht2); [done|done|by rewrite Hc, list_lookup_middle|].
  rewrite Hc, delete_middle in Hstep, Ht2. destruct cbs as [|cb2 cbs].
  { rewrite loop_unfold in Hr. unfold bind at 1 in Hr. rewrite Hstep, lookup_ge_None_2 in Hr; [done|]. by rewrite app_nil_r. }
  rewrite list_lookup_middle in Hstep by done. rewrite (loop_next _ _ _ _ _ _ Hstep) in Hr. cbn [length] in Hn.
  assert (zget t2 pid = Some (Some (set_callback (dn ++ cb2 :: cbs) (rouse (wakes [cb] pid) p)))) as Hp2.
  { destruct Ht2 as [_ Ht2]. by rewrite Ht2, decide_True. }
  opose proof (IH cbs fuel (dn ++ [cb2]) (set_process t2 s) _ _ Hp2 _ _) as (He & Hl & t & -> & Ht); [lia|by rewrite <- app_assoc| |].
  { rewrite length_app, Nat.add_1_r. exact Hr. }
  split; [done|]. split; cbn [evens odds].
  - constructor; [done|]. eapply Forall_impl; [exact Hl|]. intros c [x Hx]. destruct Ht2 as [_ Ht2]. cbn [_process set_process] in Hx.
    rewrite Ht2 in Hx. case_decide as E; [exists p; by rewrite E|].
    destruct (zget (_process s) (cb_owner c)) as [[y|]|] eqn:Ey; [by exists y|done..].
  - exists t. split; [done|]. rewrite <- app_assoc in Ht. exact (notified_app _ _ [cb] _ _ _ _ _ _ Ht2 Ht).
Qed.

Lemma exit_tail_inv s s' pid p rv u : zget (_process s) pid = Some (Some p) -> exit_tail pid rv s = Ret (u, s') ->
  _process s' = zset (_process s) pid (Some (set_state PROCESS_STATE_ZOMBIE (set_return_value rv p))) /\
  _process_current s' = _process_current s.
Proof.
  intros Hp. unfold exit_tail. rewrite (bind_Ret _ _ _ _ _ (process_deref_eq _ _ _ Hp)).
  intros (? & s1 & (w & ->)%on_mmu_inv & Hr)%bind_Ret_inv. revert Hr. set (s1 := MkProcs _ _ _ w).
  rewrite (bind_Ret _ _ _ _ _ (process_update_eq s1 _ _ _ Hp)). intros (q & Hq & ->)%process_update_inv.
  cbn [_process set_process s1] in *. rewrite (zget_zset_live _ _ _ _ _ Hp), decide_True in Hq by done. injection Hq as <-.
  split; [|done]. by rewrite zset_zset.
Qed.
End returns.

(** * The simulation *)

Section simulation.
Context {W : Type} `{Mmu W}.
Implicit Types (s : Procs W) (m : gmap Z slot).

Lemma first_after_stops s m c (stop : option Process -> bool) (P : slot -> Prop) cur next :
  abs s (MkTable m c) -> stop None = false -> (forall p, stop (Some p) = true <-> P (slot_of p)) ->
  stops stop s next -> (forall r, stops stop s r -> dist cur next <= dist cur r) -> first_after P m cur next.
Proof.
  intros Ha Hnone HP ([p|] & Hp & Hs) Hmin; [|congruence]. split.
  - exists (slot_of p). split; [by eapply abs_live|by apply HP].
  - intros r sl Hr HPr. destruct (abs_Some _ _ _ _ _ Ha Hr) as (q & Hq & ->). apply Hmin. exists (Some q). split; [done|by apply HP].
Qed.

Lemma sim_create s s' m c fuel block uid gid r : abs s (MkTable m c) ->
  process_create fuel block uid gid s = Ret (r, s') ->
  exists t', spec_step (MkTable m c) (OpCreate fuel block uid gid) r t' /\ abs s' t'.
Proof.
  intros Ha. pose proof (abs_wf _ _ Ha) as Hw. pose proof (abs_current _ _ Ha) as Hc. pose proof (abs_range _ _ Ha) as Hr. cbn in Hc, Hr.
  unfold process_create. rewrite (bind_Ret _ _ _ s s) by done.
  intros (x & t & Hf & Hx)%bind_Ret_inv. apply find_free_pid_inv in Hf as (Ht & Hct & _ & Hp).
  destruct x as [e|pid].
  { injection Hx as <- <-. subst e. eexists. split; [apply Spec_create_fails; by left|]. eapply abs_same; [done..|congruence|done]. }
  destruct block as [b|].
  2: { injection Hx as <- <-. eexists. split; [apply Spec_create_fails; by right|]. eapply abs_same; [done..|congruence|done]. }
  apply bind_Ret_inv in Hx as ([u h] & t2 & (w & ->)%on_mmu_inv & Hx). injection Hx as <- <-.
  pose proof (wf_slot _ _ _ Hw Hp) as Hpr. eexists. split.
  { apply Spec_create; [|done]. eapply abs_free; [done|]. by rewrite Hp. }
  set (s1 := MkProcs (_process t) (_process_current t) (_process_last t) w).
  assert (abs s1 (MkTable m c)) as Ha1 by (eapply abs_same; [done..|cbn; congruence|done]).
  assert (zget (_process s1) pid = Some None) as Hp1 by (cbn; by rewrite Ht).
  opose proof (abs_zset s1 m c pid None (Some (created b pid h uid gid)) Ha1 Hp1 _) as Hres; [|exact Hres].
  intros p [= <-]. by split.
Qed.

(** The table of a process that is there. *)
Definition occupied (o : option Process) : bool := if o is Some _ then true else false.

Lemma exit_switch_inv s s2 m c pid u : abs s (MkTable m c) -> 0 <= pid < MAX_PROCESSES ->
  (let* current := gets _process_current in
   when (current =? pid) (let* next := next_slot search_fuel pid occupied in process_switch_to next)) s = Ret (u, s2) ->
  _process s2 = _process s /\ 0 <= _process_current s2 < MAX_PROCESSES /\
  if decide (c = pid) then first_after (fun _ => True) m pid (_process_current s2) else _process_current s2 = c.
Proof.
  intros Ha Hpid. pose proof (abs_wf _ _ Ha) as Hw. pose proof (abs_current _ _ Ha) as Hc. pose proof (abs_range _ _ Ha) as Hr. cbn in Hc, Hr.
  rewrite (bind_Ret _ _ (_process_current s) s s) by done. rewrite Hc. unfold when.
  destruct (Z.eqb_spec c pid) as [E|E]; [rewrite decide_True by done|rewrite decide_False by done].
  - intros (next & s3 & Hn & Hsw)%bind_Ret_inv. apply next_slot_inv in Hn as (-> & Hst & Hmin); [|done|done].
    apply process_switch_to_inv in Hsw as (_ & Ht3 & ->). split; [done|]. split; [by eapply stops_range|].
    by eapply (first_after_stops _ _ _ occupied).
  - intros [= _ <-]. by rewrite Hc.
Qed.

(** The same slots are occupied before and after the callbacks. *)
Lemma first_after_keys (m1 m2 : gmap Z slot) c q : (forall i, is_Some (m1 !! i) -> is_Some (m2 !! i)) ->
  (forall i, is_Some (m2 !! i) -> is_Some (m1 !! i)) -> first_after (fun _ => True) m1 c q -> first_after (fun _ => True) m2 c q.
Proof.
  intros H12 H21 [(sl & Hsl & _) Hmin]. split.
  - destruct (H12 q) as [sl2 ?]; [by eexists|]. by exists sl2.
  - intros r sl2 Hr _. destruct (H21 r) as [sl1 ?]; [by eexists|]. by eapply Hmin.
Qed.

Lemma exit_keys m ws pid sl sl' i : m !! pid = Some sl ->
  is_Some (<[pid := sl']> (wake_slots ws m) !! i) <-> is_Some (m !! i).
Proof.
  intros Hm. destruct (decide (i = pid)) as [->|Hne]; [rewrite lookup_insert_eq, Hm; split; by eexists|].
  rewrite lookup_insert_ne by done. unfold wake_slots. rewrite map_lookup_imap. destruct (m !! i); cbn; split; intros [? [=]]; by eexists.
Qed.

Lemma exit_returns s s' fuel pid rv u : mjoin (zget (_process s) pid) = None -> process_exit fuel pid rv s = Ret (u, s') -> s' = s.
Proof.
  intros Hp. unfold process_exit. destruct (negb _); [by intros [= _ <-]|]. unfold process_at, bind, gets, need.
  destruct (zget (_process s) pid) as [[]|]; try done. by intros [= _ <-].
Qed.
Lemma exit_pid s s' fuel pid rv u p : 0 <= pid < MAX_PROCESSES -> zget (_process s) pid = Some (Some p) ->
  process_exit fuel pid rv s = Ret (u, s') -> 2 <= pid.
Proof.
  intros Hpr Hz. unfold process_exit. rewrite pid_valid_true by done. cbn [negb]. rewrite (bind_Ret _ _ _ _ _ (process_at_eq _ _ _ Hz)).
  destruct (Z.eqb_spec pid 0); [done|]. destruct (Z.eqb_spec pid 1); [done|]. lia.
Qed.

Lemma sim_exit s s' m c fuel pid rv u : abs s (MkTable m c) -> process_exit fuel pid rv s = Ret (u, s') ->
  exists t', spec_step (MkTable m c) (OpExit fuel pid rv) 0 t' /\ abs s' t'.
Proof.
  intros Ha Hr. destruct (mjoin (zget (_process s) pid)) as [p|] eqn:Hp.
  2: { rewrite (exit_returns _ _ _ _ _ _ Hp Hr). eexists. split; [apply Spec_exit_nothing; by eapply abs_free|done]. }
  assert (zget (_process s) pid = Some (Some p)) as Hz by (destruct (zget (_process s) pid) as [[]|]; try done; by injection Hp as ->).
  pose proof (wf_slot _ _ _ (abs_wf _ _ Ha) Hz) as Hpr. pose proof (exit_pid _ _ _ _ _ _ _ Hpr Hz Hr) as Hp2.
  pose proof (abs_live _ _ _ _ _ Ha Hz) as Hm.
  rewrite (process_exit_tail _ _ _ p) in Hr by (done || lia). apply bind_Ret_inv in Hr as ([] & s1 & Hx & Hr).
  apply (exit_callbacks_inv (S (length (p_callback p))) (p_callback p) fuel [] s s1 pid p) in Hx as (He & Hl & t & -> & Ht); [|apply Nat.lt_succ_diag_r|done|done].
  pose proof (abs_notified _ _ _ _ _ _ _ _ Ha Hz Ht) as Ha1. destruct Ht as [_ Ht].
  pose proof (Ht pid) as Hp1. rewrite decide_True in Hp1 by done.
  apply bind_Ret_inv in Hr as (? & s2 & Hsw & Hr). apply (exit_switch_inv _ _ _ _ _ _ Ha1 Hpr) in Hsw as (Ht2 & Hr2 & Hc2).
  destruct (evens_fmap cb_owner _ (p_callback p) (Nat.lt_succ_diag_r _)) as [Hev Hod].
  exists (MkTable (<[pid := MkSlot (Dead rv) (odds (cb_owner <$> p_callback p)) (p_user p) (p_group p)]>
    (wake_slots (evens (cb_owner <$> p_callback p)) m)) (_process_current s2)). split.
  - refine (Spec_exit m c _ fuel pid rv (slot_of p) Hm Hp2 _ _ _); [cbn; by rewrite length_fmap| |].
    + cbn [slot_of sl_waiters]. rewrite Hev. intros q (cb & -> & Hcb)%list_elem_of_fmap. rewrite Forall_forall in Hl.
      destruct (Hl _ Hcb) as [y Hy]. eexists. by eapply abs_live.
    + case_decide; [|done]. eapply first_after_keys; [..|exact Hc2]; intros i; by eapply exit_keys.
  - rewrite Hev, Hod. eapply abs_same in Ha1; [|exact Ht2|reflexivity|done].
    change (_process (set_process t s)) with t in *. rewrite <- Ht2 in Hp1.
    pose proof (exit_tail_inv _ _ _ _ _ _ Hp1 Hr) as [Ht3 Hc3].
    pose proof (abs_update _ _ _ _ _ (fun q => set_state PROCESS_STATE_ZOMBIE (set_return_value rv q)) Ha1 Hp1 eq_refl eq_refl) as Ha3.
    rewrite insert_insert_eq, <- Ht3 in Ha3. cbn [app] in Ha3. cbv beta in Ha3.
    assert (slot_of (set_state PROCESS_STATE_ZOMBIE (set_return_value rv (set_callback (odds (p_callback p)) (rouse (wakes (evens (p_callback p)) pid) p))))
      = MkSlot (Dead rv) (cb_owner <$> odds (p_callback p)) (p_user p) (p_group p)) as Hsl by by destruct (wakes _ pid).
    rewrite Hsl in Ha3. eapply abs_same; [exact Ha3|reflexivity|done|done].
Qed.

Lemma alter_Some (f : slot -> slot) m i sl : m !! i = Some sl -> alter f i m = <[i := f sl]> m.
Proof.
  intros Hm. apply map_eq. intros j. destruct (decide (i = j)) as [<-|]; [by rewrite lookup_alter_eq, lookup_insert_eq, Hm|].
  by rewrite lookup_alter_ne, lookup_insert_ne.
Qed.

Lemma sim_wait s s' m c pid r : abs s (MkTable m c) -> process_wait pid s = Ret (r, s') ->
  exists t', spec_step (MkTable m c) (OpWait pid) r t' /\ abs s' t'.
Proof.
  intros Ha. unfold process_wait. destruct (pid_valid pid) eqn:Hv; cbn [negb].
  2: { intros [= <- <-]. eexists. split; [|done]. replace (- EINVAL) with (if pid_valid pid then - ESRCH else - EINVAL) by by rewrite Hv.
       apply Spec_wait_nothing. eapply abs_free; [done|]. destruct (zget (_process s) pid) as [o|] eqn:Ho; [|done].
       rewrite pid_valid_true in Hv by (by eapply wf_slot; [apply Ha|]). done. }
  destruct (zget (_process s) pid) as [[p|]|] eqn:Hp.
  - rewrite (bind_Ret _ _ _ _ _ (process_at_eq _ _ _ Hp)). pose proof (abs_live _ _ _ _ _ Ha Hp) as Hm. case_decide as Hz.
    + intros [= <- <-]. eexists. split.
      * eapply Spec_wait_dead; [done|]. cbn. unfold phase_of. by rewrite Hz.
      * by apply (abs_zset _ _ _ _ _ None Ha Hp).
    + rewrite (bind_Ret _ _ (_process_current s) s s) by done. pose proof (abs_current _ _ Ha) as Hc. cbn in Hc. rewrite Hc.
      rewrite (bind_Ret _ _ _ _ _ (process_update_eq _ _ _ _ Hp)). set (s1 := set_process _ s).
      intros (? & s2 & (q & Hq & ->)%process_update_inv & [= <- <-])%bind_Ret_inv.
      pose proof (abs_update _ _ _ _ _ (fun p => set_callback (MkCallback KillCallback c :: p_callback p) p) Ha Hp eq_refl eq_refl) as Ha1.
      fold s1 in Ha1. pose proof (abs_update _ _ _ _ _ (set_state PROCESS_STATE_BLOCKED) Ha1 Hq eq_refl eq_refl) as Ha2.
      pose proof (abs_live _ _ _ _ _ Ha1 Hq) as Hmq. eexists. split.
      * eapply Spec_wait; [exact Hm|cbn; unfold phase_of; by destruct (p_state p)|].
        destruct (decide (c = pid)) as [->|]; [by eexists|]. rewrite lookup_insert_ne in Hmq by done. by eexists.
      * assert (alter (add_waiter c) pid m = <[pid := slot_of (set_callback (MkCallback KillCallback c :: p_callback p) p)]> m) as ->.
        { rewrite (alter_Some _ _ _ _ Hm). done. }
        rewrite (alter_Some _ _ _ _ Hmq). exact Ha2.
  - rewrite (bind_Ret _ _ _ _ _ (process_at_eq _ _ _ Hp)). intros [= <- <-]. eexists. split; [|done].
    replace (- ESRCH) with (if pid_valid pid then - ESRCH else - EINVAL) by by rewrite Hv.
    apply Spec_wait_nothing. eapply abs_free; [done|]. by rewrite Hp.
  - unfold process_at, bind, gets, need. by rewrite Hp.
Qed.

Lemma sim_op o s s' t r : abs s t -> run_proc_op o s = Ret (r, s') -> exists t', spec_step t o r t' /\ abs s' t'.
Proof.
  destruct t as [m c]. intros Ha. pose proof (abs_current _ _ Ha) as Hc. pose proof (abs_range _ _ Ha) as Hr. cbn in Hc, Hr.
  destruct o; cbn [run_proc_op].
  - by apply sim_create.
  - intros (? & s1 & Hx & [= <- <-])%bind_Ret_inv. by eapply sim_exit.
  - intros (? & s1 & Hx & [= <- <-])%bind_Ret_inv. exists (MkTable m c). split; [constructor|].
    revert Hx. unfold process_set_pc. destruct (negb _); [by intros [= _ <-]|].
    destruct (zget (_process s) pid) as [[p|]|] eqn:Hp; [|rewrite (bind_Ret _ _ _ _ _ (process_at_eq _ _ _ Hp)); by intros [= _ <-]|].
    + rewrite (bind_Ret _ _ _ _ _ (process_at_eq _ _ _ Hp)), (process_update_eq _ _ _ _ Hp). intros [= _ <-]. by eapply abs_stutter.
    + unfold process_at, bind, gets, need. by rewrite Hp.
  - by apply sim_wait.
  - intros (? & s1 & ([p Hp] & Ht & Hcur)%process_switch_to_inv & [= <- <-])%bind_Ret_inv. eexists. split.
    + apply Spec_switch. eexists. by eapply abs_live.
    + eapply abs_same; [done..|]. eapply wf_slot; [apply Ha|done].
  - intros (? & s1 & Hx & [= <- <-])%bind_Ret_inv. revert Hx. unfold process_save_context.
    rewrite (bind_Ret _ _ _ s s) by done. rewrite Hc. intros (p & Hp & ->)%process_update_inv. eexists. split.
    + apply Spec_save_context. eexists. by eapply abs_live.
    + by eapply abs_stutter.
  - unfold scheduler. rewrite (bind_Ret _ _ (_process_current s) s s) by done. rewrite Hc.
    intros (next & s1 & Hn & Hx)%bind_Ret_inv. apply next_slot_inv in Hn as (-> & Hst & Hmin); [|apply Ha|done].
    apply bind_Ret_inv in Hx as (? & s2 & (_ & Ht & Hcur)%process_switch_to_inv & [= <- <-]). eexists. split.
    + apply Spec_schedule. eapply (first_after_stops _ _ _ schedulable); [done|done| |done..].
      intros p. cbn. unfold phase_of. by destruct (p_state p).
    + eapply abs_same; [done..|]. eapply stops_range; [apply Ha|done].
Qed.

Lemma sim_ops ops t0 tr s t rs s' : spec_run t0 tr t -> abs s t -> run_ops ops s = Ret (rs, s') ->
  exists t', spec_run t0 (tr ++ zip ops rs) t' /\ abs s' t'.
Proof.
  revert tr s t rs. induction ops as [|o ops IH]; intros tr s t rs Ht Ha.
  - intros [= <- <-]. exists t. by rewrite app_nil_r.
  - cbn [run_ops]. intros (r & s1 & Ho & (rs1 & s2 & Hops & [= <- <-])%bind_Ret_inv)%bind_Ret_inv.
    destruct (sim_op _ _ _ _ _ Ha Ho) as (t1 & Hs & Ha1).
    destruct (IH (tr ++ [(o, r)]) s1 t1 rs1) as (t' & Hr & Ha'); [by econstructor|done|done|].
    exists t'. split; [|done]. by rewrite <- app_assoc in Hr.
Qed.

(** C15. The process layer implements the abstract table: every sequence of its
    operations since the boot that returns is, with its results, a run of the
    table.  So a new process only ever takes a slot that is free; a slot
    becomes free only when somebody waits for a dead process, and the value it
    died with is then the result; an exit wakes every other waiter and no one
    else; the owner of a process never changes; and the scheduler, and the
    switch after an exit, go to the next slot in the order of the table. *)
Theorem process_table_refines w ops rs s :
  run_ops ops (procs_init w) = Ret (rs, s) ->
  exists t, spec_run (MkTable ∅ 0) (zip ops rs) t /\ abs s t.
Proof. intros Hr. exact (sim_ops ops _ [] _ _ _ _ (Run_nil _) (abs_init w) Hr). Qed.
End simulation.

(** * Return values *)

(** An event that gives the slot [pid] a new process, or its process a
    return value, or that asks for it. *)
Definition concerns (pid : Z) (e : proc_op * Z) : Prop :=
  match e.1 with
  | OpCreate _ _ _ _ => e.2 = pid
  | OpExit _ p _ | OpWait p => p = pid
  | _ => False
  end.

Definition dead_with (t : Table) (pid v : Z) : Prop := exists sl, t_slots t !! pid = Some sl /\ sl_phase sl = Dead v.

Lemma dead_woken ws m pid v c : dead_with (MkTable (wake_slots ws m) c) pid v -> dead_with (MkTable m c) pid v.
Proof.
  intros (sl & Hs & Hd). cbn in Hs. unfold wake_slots in Hs. rewrite map_lookup_imap in Hs.
  destruct (m !! pid) as [x|] eqn:E; [|done]. cbn in Hs. injection Hs as <-. exists x. split; [done|]. by case_bool_decide.
Qed.

Ltac here_or_not pid q H :=
  destruct (decide (q = pid)) as [->|?];
  [rewrite ?lookup_insert_eq, ?lookup_delete_eq in H|rewrite ?lookup_insert_ne, ?lookup_delete_ne in H by done].

(** The dead stay as they are, unless the step concerns them. *)
Lemma step_dead t o r t' pid v : 0 <= pid -> spec_step t o r t' -> dead_with t' pid v ->
  (exists fuel, o = OpExit fuel pid v /\ r = 0) \/ (~ concerns pid (o, r) /\ dead_with t pid v).
Proof.
  intros Hpid Hs (sl' & Hsl & Hd). destruct Hs as [m c fuel b uid gid q Hq Hr|t fuel block uid gid e He|m c c' fuel q rv sl Hq Hr He Hw Hc|
    m c fuel q rv Hq| |m c q sl x Hq Hx|m c q sl Hq Hx Hc|m c q Hq| | |]; unfold concerns; cbn [fst snd t_slots] in *; cbv beta iota.
  - here_or_not pid q Hsl; [by injection Hsl as <-|]. right. split; [done|]. by exists sl'.
  - right. split; [|by exists sl']. unfold EAGAIN, ENOMEM in He. lia.
  - here_or_not pid q Hsl; [injection Hsl as <-; injection Hd as <-; left; by exists fuel|].
    right. split; [done|]. eapply (dead_woken _ _ _ _ c). by exists sl'.
  - right. split; [congruence|]. by exists sl'.
  - right. split; [by intros []|]. by exists sl'.
  - here_or_not pid q Hsl; [done|]. right. split; [done|]. by exists sl'.
  - rewrite lookup_alter in Hsl. case_decide as E1; [by apply fmap_Some in Hsl as (y & _ & ->)|].
    rewrite lookup_alter in Hsl. case_decide as E2; [subst q; rewrite Hq in Hsl; injection Hsl as <-; by destruct (Hx v)|].
    right. split; [done|]. by exists sl'.
  - right. split; [congruence|]. by exists sl'.
  - right. split; [by intros []|]. by exists sl'.
  - right. split; [by intros []|]. by exists sl'.
  - right. split; [by intros []|]. by exists sl'.
Qed.

Lemma run_dead t0 tr t pid v : 0 <= pid -> t_slots t0 !! pid = None -> spec_run t0 tr t -> dead_with t pid v ->
  exists before fuel after, tr = before ++ (OpExit fuel pid v, 0) :: after /\ Forall (fun e => ~ concerns pid e) after.
Proof.
  intros Hpid H0 Hr. induction Hr as [|tr t o r t' Hr IH Hs]; intros Hd.
  - destruct Hd as (sl & Hsl & _). congruence.
  - destruct (step_dead _ _ _ _ _ _ Hpid Hs Hd) as [(fuel & -> & ->)|[Hc Hd1]]; [by exists tr, fuel, []|].
    destruct (IH Hd1) as (before & fuel & after & -> & Hf). exists before, fuel, (after ++ [(o, r)]).
    rewrite <- app_assoc. split; [done|]. apply Forall_app. split; [done|]. by constructor.
Qed.

Section values.
Context {W : Type} `{Mmu W}.

(** C19. What a process returns reaches whoever waits for it: when, at any time
    after the boot, [process_wait] frees the slot of a process, its result is
    the value of an earlier [process_exit] of that process; and since that
    exit no process was created in the slot, and the process has neither
    exited again nor been waited for. *)
Theorem wait_returns_exit_value (w : W) ops rs s pid v s' :
  run_ops ops (procs_init w) = Ret (rs, s) -> process_wait pid s = Ret (v, s') ->
  live s pid -> zget (_process s') pid = Some None ->
  exists before fuel after, zip ops rs = before ++ (OpExit fuel pid v, 0) :: after /\
    Forall (fun e => ~ concerns pid e) after.
Proof.
  intros Hr Hwait [p Hp] Hfreed. destruct (sim_ops ops _ [] _ _ _ _ (Run_nil _) (abs_init w) Hr) as ([m c] & Hrun & Ha).
  pose proof (abs_live _ _ _ _ _ Ha Hp) as Hm. pose proof (wf_slot _ _ _ (abs_wf _ _ Ha) Hp) as Hpr.
  destruct (sim_wait _ _ _ _ _ _ Ha Hwait) as ([m' c'] & Hs & Ha'). eapply run_dead; [lia| |exact Hrun|]; [done|].
  assert (m' !! pid = None) as Hm' by (eapply abs_free; [exact Ha'|by rewrite Hfreed]).
  inversion Hs as [| | | | |? ? ? sl ? Hq Hx|? ? ? sl Hq Hx Hc|? ? ? Hq| | |]; subst.
  - exists sl. split; [exact Hq|done].
  - rewrite !lookup_alter, Hm in Hm'. by repeat case_decide.
  - congruence.
Qed.

(** * Operations that return *)


Context (inv : W -> Prop) {HL : MmuLaws W inv}.



End values.

(** * A history *)

#[local] Existing Instances null_mmu null_mmu_laws.

(** Four processes start; process 3 waits for process 2, as does process 0,
    process 2 exits, process 0 collects the value and a process is created. *)
Definition history : list proc_op :=
  let create := OpCreate 1025 (Some (demo_process 0 PROCESS_STATE_RUNNING [])) in
  [create 0 0; create 0 0; create 5 6; create 7 8; OpSwitch 3; OpWait 2; OpSchedule; OpWait 2; OpSchedule;
   OpExit 3 2 42; OpSwitch 0; OpWait 2; create 9 9].
Definition history_results : list Z := [0; 1; 2; 3; 0; -1000; 0; -1000; 1; 0; 0; 42; 4].

(** The state after a list of operations. *)
Definition after (ops : list proc_op) : Procs unit :=
  match run_ops ops (procs_init tt) with Ret (_, s) => s | _ => procs_init tt end.

Lemma history_runs : run_ops history (procs_init tt) = Ret (history_results, after history).
Proof. vm_compute. reflexivity. Qed.

(** The process that waited last is woken, the one before it is not. *)
Example history_ends :
  (phase_of <$> mjoin (zget (_process (after history)) 0), phase_of <$> mjoin (zget (_process (after history)) 3),
   mjoin (zget (_process (after history)) 2)) = (Some Running, Some Blocked, None).
Proof. vm_compute. reflexivity. Qed.

Lemma process_table_refines_witness :
  exists t, spec_run (MkTable ∅ 0) (zip history history_results) t /\ t_slots t !! 2 = None /\
    t_slots t !! 4 = Some (MkSlot Running [] 9 9) /\ t_current t = 0.
Proof.
  destruct (process_table_refines tt history history_results (after history) history_runs) as (t & Hr & Ha).
  exists t. split; [exact Hr|]. rewrite !(abs_slot _ _ Ha), <- (abs_current _ _ Ha). vm_compute. by split_and!.
Defined.

Lemma wait_returns_exit_value_witness :
  process_wait 2 (after (take 11 history)) = Ret (42, after (take 12 history)) /\
  exists before fuel later, zip (take 11 history) (take 11 history_results) = before ++ (OpExit fuel 2 42, 0) :: later /\
    Forall (fun e => ~ concerns 2 e) later.
Proof.
  assert (process_wait 2 (after (take 11 history)) = Ret (42, after (take 12 history))) as Hw by (vm_compute; reflexivity).
  split; [exact Hw|].
  apply (wait_returns_exit_value tt (take 11 history) (take 11 history_results) (after (take 11 history)) 2 42 (after (take 12 history)));
    [vm_compute; reflexivity|exact Hw|eexists; vm_compute; reflexivity|vm_compute; reflexivity].
Defined.


(** The callbacks of a process that exits stay where it waited: a process that
    died while it was waiting runs again when the other one exits. *)
Definition revival : list proc_op :=
  let create := OpCreate 1025 (Some (demo_process 0 PROCESS_STATE_RUNNING [])) 0 0 in
  [create; create; create; create; create; OpSwitch 4; OpWait 2; OpSwitch 3; OpWait 2; OpExit 1 3 7; OpExit 3 2 0].
Theorem dead_waiter_revived :
  (phase_of <$> mjoin (zget (_process (after (take 10 revival))) 3), phase_of <$> mjoin (zget (_process (after revival)) 3))
  = (Some (Dead 7), Some Running).
Proof. vm_compute. reflexivity. Qed.

(** The first process is process 0 and the second process 1: that one, a child
    of the first, cannot exit. *)
Theorem second_process_cannot_exit :
  let create := OpCreate 1025 (Some (demo_process 0 PROCESS_STATE_RUNNING [])) 0 0 in
  match run_ops [create; create] (procs_init tt) with
  | Ret (pids, s) => pids = [0; 1] /\ run_ops [OpExit 1025 1 0] s = Panic
  | _ => False
  end.
Proof. vm_compute. by split. Qed.
