(* ===== verification/Mmu.v ===== *)
(** The memory management of the 68040: [kernel/mmu/mmu040.c], [mmu040.h],
    and of [mmu040.S] the routines it calls.

    Physical memory is a map of 32-bit words; a word that was never written
    reads as zero.  The kernel reaches a physical page by mapping it at one of
    the [MAPPER_PAGES] pages of a window: a pointer into the window is an
    offset from its start, and an access through it goes to the page that the
    page's descriptor names at that moment.  The search of the translation
    tables that the [ptestr] instruction does is a parameter. *)

From S2P Require Import Prelude Types Process.

(** * Constants and bit fields *)

Definition ROOT_LEVEL_DESCRIPTORS : Z := 128.
Definition POINTER_LEVEL_DESCRIPTORS : Z := 128.
Definition PAGE_DESCRIPTORS : Z := 64.
Definition MAPPER_PAGES : Z := 10.
Definition MMU_PAGE_SIZE : Z := 4096.
Definition MMU_PAGE_MASK : Z := 4095.
Definition MMU_DRAM_START : Z := 2147483648.

(** A field of [width] bits whose lowest bit is bit [pos] of the word. *)
Definition field (pos width w : Z) : Z := (w / 2 ^ pos) mod 2 ^ width.
Definition set_field (pos width v w : Z) : Z := w + (v mod 2 ^ width - field pos width w) * 2 ^ pos.

Definition root_pointer (w : Z) : Z := field 9 23 w.
Definition root_table_address (w : Z) : Z := field 9 23 w.
Definition pointer_table_address (w : Z) : Z := field 7 25 w.
Definition upper_level_descriptor_type (w : Z) : Z := field 0 2 w.
Definition physical_address (w : Z) : Z := field 12 20 w.
Definition supervisor_bit (w : Z) : Z := field 7 1 w.
Definition cache_mode (w : Z) : Z := field 5 2 w.
Definition write_protected_bit (w : Z) : Z := field 2 1 w.
Definition page_descriptor_type (w : Z) : Z := field 0 2 w.

Definition MMU040_CACHE_MODE_CACHE_COPY_BACK : Z := 1.
Definition MMU040_PAGE_DESCRIPTOR_TYPE_INVALID : Z := 0.
Definition MMU040_PAGE_DESCRIPTOR_TYPE_RESIDENT : Z := 1.
Definition MMU040_PAGE_DESCRIPTOR_TYPE_RESIDENT_ALT : Z := 3.
Definition MMU040_UPPER_LEVEL_DESCRIPTOR_TYPE_INVALID : Z := 0.
Definition MMU040_UPPER_LEVEL_DESCRIPTOR_TYPE_RESIDENT : Z := 2.
Definition MMU040_UPPER_LEVEL_DESCRIPTOR_TYPE_RESIDENT_ALT : Z := 3.

Definition UDT_IS_RESIDENT (x : Z) : bool :=
  (x =? MMU040_UPPER_LEVEL_DESCRIPTOR_TYPE_RESIDENT) || (x =? MMU040_UPPER_LEVEL_DESCRIPTOR_TYPE_RESIDENT_ALT).
Definition PDT_IS_RESIDENT (x : Z) : bool :=
  (x =? MMU040_PAGE_DESCRIPTOR_TYPE_RESIDENT) || (x =? MMU040_PAGE_DESCRIPTOR_TYPE_RESIDENT_ALT).

Definition ROOT_LEVEL_ADDR_FIELD (a : Z) : Z := Z.shiftr a 9.
Definition ROOT_LEVEL_FIELD_ADDR (f : Z) : Z := u32 (Z.shiftl f 9).
Definition POINTER_LEVEL_ADDR_FIELD (a : Z) : Z := Z.shiftr a 7.
Definition POINTER_LEVEL_FIELD_ADDR (f : Z) : Z := u32 (Z.shiftl f 7).
Definition PAGE_LEVEL_ADDR_FIELD (a : Z) : Z := Z.shiftr a 12.
Definition PAGE_LEVEL_FIELD_ADDR (f : Z) : Z := u32 (Z.shiftl f 12).

(** The base [b] is a pointer into the window, page-aligned. *)
Definition REPAGE (a b : Z) : Z := (b - Z.land b MMU_PAGE_MASK) + Z.land a MMU_PAGE_MASK.

(** * Data *)

(** [mem]: word [i] of physical memory is at address [4 * i].  [table_area] is
    the physical address of the page that the loader maps at
    [MEM_MMU_TABLE_AREA], the supervisor's root table. *)
Record Mmu040 : Type := MkMmu {
  mem : gmap Z Z;
  free_frames : Z;
  total_frames : Z;
  free_frame : Z;
  page_descriptor : list Z;
  mapping : Z;
  table_area : Z;
  srp : Z;
  urp : Z;
}.

Definition set_mem (m : gmap Z Z) (s : Mmu040) : Mmu040 :=
  MkMmu m (free_frames s) (total_frames s) (free_frame s) (page_descriptor s) (mapping s) (table_area s) (srp s) (urp s).
Definition set_free_frames (n : Z) (s : Mmu040) : Mmu040 :=
  MkMmu (mem s) n (total_frames s) (free_frame s) (page_descriptor s) (mapping s) (table_area s) (srp s) (urp s).
Definition set_total_frames (n : Z) (s : Mmu040) : Mmu040 :=
  MkMmu (mem s) (free_frames s) n (free_frame s) (page_descriptor s) (mapping s) (table_area s) (srp s) (urp s).
Definition set_free_frame (f : Z) (s : Mmu040) : Mmu040 :=
  MkMmu (mem s) (free_frames s) (total_frames s) f (page_descriptor s) (mapping s) (table_area s) (srp s) (urp s).
Definition set_page_descriptor (l : list Z) (s : Mmu040) : Mmu040 :=
  MkMmu (mem s) (free_frames s) (total_frames s) (free_frame s) l (mapping s) (table_area s) (srp s) (urp s).
Definition set_mapping (n : Z) (s : Mmu040) : Mmu040 :=
  MkMmu (mem s) (free_frames s) (total_frames s) (free_frame s) (page_descriptor s) n (table_area s) (srp s) (urp s).
Definition set_urp (u : Z) (s : Mmu040) : Mmu040 :=
  MkMmu (mem s) (free_frames s) (total_frames s) (free_frame s) (page_descriptor s) (mapping s) (table_area s) (srp s) u.

(** * Memory accesses *)

Definition word_at (m : gmap Z Z) (a : Z) : Z := default 0 (m !! (a / 4)).

(** The physical address behind a pointer into the window. *)
Definition window (p : Z) : M Mmu040 Z :=
  let* l := gets page_descriptor in
  let* d := need (zget l (p / MMU_PAGE_SIZE)) in
  ret (PAGE_LEVEL_FIELD_ADDR (physical_address d) + p mod MMU_PAGE_SIZE).

Definition phys_load32 (a : Z) : M Mmu040 Z := gets (fun s => word_at (mem s) a).
Definition phys_store32 (a v : Z) : M Mmu040 unit := modify (fun s => set_mem (<[a / 4 := u32 v]> (mem s)) s).
Definition load32 (p : Z) : M Mmu040 Z := let* a := window p in phys_load32 a.
Definition store32 (p v : Z) : M Mmu040 unit := let* a := window p in phys_store32 a v.

(** Bytes of a word: the first is the most significant. *)
Definition byte_pos (a : Z) : Z := 8 * (3 - a mod 4).
Definition load8 (p : Z) : M Mmu040 Z :=
  let* a := window p in let* w := phys_load32 a in ret (field (byte_pos a) 8 w).
Definition store8 (p v : Z) : M Mmu040 unit :=
  let* a := window p in let* w := phys_load32 a in phys_store32 a (set_field (byte_pos a) 8 v w).

(** [memcpy] between two places of the window: from the last byte down. *)
Definition window_memcpy (dest src n : Z) : M Mmu040 unit :=
  for_to 0 n (fun i => let* v := load8 (src + (n - 1 - i)) in store8 (dest + (n - 1 - i)) v).
(** Four words in each turn. *)
Definition mmu040_zero_4k (p : Z) : M Mmu040 unit :=
  for_to 0 256 (fun i => store32 (p + 16 * i) 0 ;; store32 (p + 16 * i + 4) 0 ;;
    store32 (p + 16 * i + 8) 0 ;; store32 (p + 16 * i + 12) 0).

(** * The mapper stack *)

Definition _mapping_push (pa : Z) : M Mmu040 Z :=
  let* m := gets mapping in
  let desc := set_field 0 2 MMU040_PAGE_DESCRIPTOR_TYPE_RESIDENT
    (set_field 7 1 1 (set_field 12 20 (PAGE_LEVEL_ADDR_FIELD pa) 0)) in
  if MAPPER_PAGES <=? m then panic else
  let* l := gets page_descriptor in
  let* _ := need (zget l m) in
  modify (set_page_descriptor (zset l m desc)) ;;
  modify (fun s => set_mapping (mapping s + 1) s) ;;
  ret (MMU_PAGE_SIZE * m).

Definition _mapping_pop : M Mmu040 unit :=
  let* m := gets mapping in
  when (0 <? m) (modify (set_mapping (m - 1))).

Definition map_table (ph : Z) : M Mmu040 Z := let* p := _mapping_push ph in ret (REPAGE ph p).

(** * Frames *)

Definition _alloc_frame : M Mmu040 Z :=
  let* n := gets free_frames in
  if n =? 0 then ret 0 else
  modify (set_free_frames (u32 (n - 1))) ;;
  let* free := gets free_frame in
  let* frame := _mapping_push free in
  let* next := load32 frame in
  modify (set_free_frame next) ;;
  mmu040_zero_4k frame ;;
  _mapping_pop ;;
  ret free.

Definition _free_frame (frame : Z) : M Mmu040 unit :=
  let* free := _mapping_push frame in
  let* next := gets free_frame in
  store32 free next ;;
  modify (set_free_frame frame) ;;
  _mapping_pop.

(** The loops over the three levels of tables find the end of the highest
    resident page of the supervisor. *)
Definition highest_in_page_table (page_table k free : Z) : M Mmu040 Z :=
  let* d := load32 (page_table + 4 * k) in
  if negb (PDT_IS_RESIDENT (page_descriptor_type d)) then ret free else
  let ph := PAGE_LEVEL_FIELD_ADDR (physical_address d) in
  if free <=? ph then
    modify (fun s => set_free_frames (u32 (free_frames s - 1)) s) ;; ret (u32 (ph + MMU_PAGE_SIZE))
  else ret free.

(** [for (i = 0; i < n; i++)] with a local that the body updates. *)
Fixpoint for_acc {S A} (n : nat) (i : Z) (a : A) (body : Z -> A -> M S A) : M S A :=
  match n with
  | O => ret a
  | S n' => let* a' := body i a in for_acc n' (i + 1) a' body
  end.

Definition highest_in_pointer_table (pointer_table j free : Z) : M Mmu040 Z :=
  let* d := load32 (pointer_table + 4 * j) in
  if negb (UDT_IS_RESIDENT (upper_level_descriptor_type d)) then ret free else
  let* page_table := map_table (POINTER_LEVEL_FIELD_ADDR (pointer_table_address d)) in
  let* free := for_acc (Z.to_nat PAGE_DESCRIPTORS) 0 free (highest_in_page_table page_table) in
  _mapping_pop ;; ret free.

Definition highest_in_root_table (i free : Z) : M Mmu040 Z :=
  let* root_td := gets table_area in
  let* d := phys_load32 (root_td + 4 * i) in
  if negb (UDT_IS_RESIDENT (upper_level_descriptor_type d)) then ret free else
  let* pointer_table := map_table (ROOT_LEVEL_FIELD_ADDR (root_table_address d)) in
  let* free := for_acc (Z.to_nat POINTER_LEVEL_DESCRIPTORS) 0 free (highest_in_pointer_table pointer_table) in
  _mapping_pop ;; ret free.

(** The second loop ends when [free] reaches [end_]; all is unsigned. *)
Definition _build_free_frame_list : M Mmu040 Z :=
  let* free0 := for_acc (Z.to_nat ROOT_LEVEL_DESCRIPTORS) 0 MMU_DRAM_START highest_in_root_table in
  let* total := gets total_frames in
  let end_ := u32 (MMU_DRAM_START + u32 (total * MMU_PAGE_SIZE)) in
  let* _ := loop (Z.to_nat (2 ^ 20)) free0 (fun free =>
    if end_ <=? free then ret (inr tt) else
    _free_frame free ;; ret (inl (u32 (free + MMU_PAGE_SIZE)))) in
  gets free_frame.

Definition root_index (virt : Z) : Z := Z.land (Z.shiftr virt 25) 127.
Definition pointer_index (virt : Z) : Z := Z.land (Z.shiftr virt 18) 127.
Definition page_index (virt : Z) : Z := Z.land (Z.shiftr virt 12) 63.
Definition _get_table_indices (virt : Z) : Z * Z * Z := (root_index virt, pointer_index virt, page_index virt).

Definition mmu040_init : M Mmu040 unit :=
  let total := 64 * 1024 * 1024 / MMU_PAGE_SIZE in
  modify (set_total_frames total) ;;
  modify (set_free_frames total) ;;
  modify (set_free_frame 0) ;;
  _build_free_frame_list ;; ret tt.

(** * User spaces: a handle is the value for the root pointer register *)

Definition mmu040_set_urp (handle : Z) : M Mmu040 unit := modify (set_urp handle).

(** The handle is cleared first, and kept cleared when no frame is left. *)
Definition mmu040_init_userspace : M Mmu040 (Z * Z) :=
  let* directory := _alloc_frame in
  if directory =? 0 then ret (- ENOMEM, 0) else
  let handle := set_field 9 23 (Z.shiftr directory 9) 0 in
  mmu040_set_urp handle ;; ret (0, handle).

Definition root_table_ph (handle : Z) : Z := u32 (Z.shiftl (root_pointer handle) 9).

Definition clear_page (page_table k : Z) : M Mmu040 unit :=
  let* d := load32 (page_table + 4 * k) in
  when (PDT_IS_RESIDENT (page_descriptor_type d)) (_free_frame (PAGE_LEVEL_FIELD_ADDR (physical_address d))).
Definition clear_page_table (pointer_table j : Z) : M Mmu040 unit :=
  let* d := load32 (pointer_table + 4 * j) in
  when (UDT_IS_RESIDENT (upper_level_descriptor_type d))
    (let ph := POINTER_LEVEL_FIELD_ADDR (pointer_table_address d) in
     let* page_table := map_table ph in
     for_to 0 PAGE_DESCRIPTORS (clear_page page_table) ;;
     _mapping_pop ;; _free_frame ph).
Definition clear_pointer_table (root_table i : Z) : M Mmu040 unit :=
  let* d := load32 (root_table + 4 * i) in
  when (UDT_IS_RESIDENT (upper_level_descriptor_type d))
    (let ph := ROOT_LEVEL_FIELD_ADDR (root_table_address d) in
     let* pointer_table := map_table ph in
     for_to 0 POINTER_LEVEL_DESCRIPTORS (clear_page_table pointer_table) ;;
     _mapping_pop ;; _free_frame ph ;;
     let* d := load32 (root_table + 4 * i) in
     store32 (root_table + 4 * i) (set_field 0 2 MMU040_UPPER_LEVEL_DESCRIPTOR_TYPE_INVALID d)).

Definition mmu040_clear_userspace (handle : Z) : M Mmu040 unit :=
  let* root_table := map_table (root_table_ph handle) in
  for_to 0 ROOT_LEVEL_DESCRIPTORS (clear_pointer_table root_table) ;;
  _mapping_pop.

Definition mmu040_free_userspace (handle : Z) : M Mmu040 unit :=
  mmu040_clear_userspace handle ;; _free_frame (root_table_ph handle).

(** Set the address and the type of an upper level descriptor: two
    assignments to its fields. *)
Definition set_table_desc (pos p v : Z) : M Mmu040 unit :=
  let* d := load32 p in store32 p (set_field pos (32 - pos) v d) ;;
  let* d := load32 p in store32 p (set_field 0 2 MMU040_UPPER_LEVEL_DESCRIPTOR_TYPE_RESIDENT d).
Definition set_desc_type (t p : Z) : M Mmu040 unit := let* d := load32 p in store32 p (set_field 0 2 t d).

Fixpoint pops (n : nat) : M Mmu040 unit :=
  match n with O => ret tt | S n' => _mapping_pop ;; pops n' end.

Definition clone_page (page_table_from page_table_to k : Z) : M Mmu040 (option Z) :=
  let* d := load32 (page_table_from + 4 * k) in
  if negb (PDT_IS_RESIDENT (page_descriptor_type d)) then
    set_desc_type MMU040_PAGE_DESCRIPTOR_TYPE_INVALID (page_table_to + 4 * k) ;; ret None
  else
  let* ph := _alloc_frame in
  if ph =? 0 then pops 6 ;; ret (Some (- ENOMEM)) else
  let* page_to := _mapping_push ph in
  let* d := load32 (page_table_from + 4 * k) in
  store32 (page_table_to + 4 * k) d ;;
  let* d := load32 (page_table_to + 4 * k) in
  store32 (page_table_to + 4 * k) (set_field 12 20 (PAGE_LEVEL_ADDR_FIELD ph) d) ;;
  let* d := load32 (page_table_from + 4 * k) in
  let* page_from := _mapping_push (PAGE_LEVEL_FIELD_ADDR (physical_address d)) in
  window_memcpy page_to page_from MMU_PAGE_SIZE ;;
  _mapping_pop ;; _mapping_pop ;; ret None.

Definition clone_page_table (pointer_table_from pointer_table_to j : Z) : M Mmu040 (option Z) :=
  let* d := load32 (pointer_table_from + 4 * j) in
  if negb (UDT_IS_RESIDENT (upper_level_descriptor_type d)) then
    set_desc_type MMU040_UPPER_LEVEL_DESCRIPTOR_TYPE_INVALID (pointer_table_to + 4 * j) ;; ret None
  else
  let* ph := _alloc_frame in
  if ph =? 0 then pops 4 ;; ret (Some (- ENOMEM)) else
  let* page_table_to := _mapping_push ph in
  set_table_desc 7 (pointer_table_to + 4 * j) (POINTER_LEVEL_ADDR_FIELD ph) ;;
  let* d := load32 (pointer_table_from + 4 * j) in
  let* page_table_from := map_table (POINTER_LEVEL_FIELD_ADDR (pointer_table_address d)) in
  let* r := for_range (Z.to_nat PAGE_DESCRIPTORS) 0 (clone_page page_table_from page_table_to) in
  match r with
  | Some e => ret (Some e)
  | None => _mapping_pop ;; _mapping_pop ;; ret None
  end.

Definition clone_pointer_table (root_table_from root_table_to i : Z) : M Mmu040 (option Z) :=
  let* d := load32 (root_table_from + 4 * i) in
  if negb (UDT_IS_RESIDENT (upper_level_descriptor_type d)) then
    set_desc_type MMU040_UPPER_LEVEL_DESCRIPTOR_TYPE_INVALID (root_table_to + 4 * i) ;; ret None
  else
  let* ph := _alloc_frame in
  if ph =? 0 then pops 2 ;; ret (Some (- ENOMEM)) else
  let* pointer_table_to := _mapping_push ph in
  set_table_desc 9 (root_table_to + 4 * i) (ROOT_LEVEL_ADDR_FIELD ph) ;;
  let* d := load32 (root_table_from + 4 * i) in
  let* pointer_table_from := map_table (ROOT_LEVEL_FIELD_ADDR (root_table_address d)) in
  let* r := for_range (Z.to_nat POINTER_LEVEL_DESCRIPTORS) 0 (clone_page_table pointer_table_from pointer_table_to) in
  match r with
  | Some e => ret (Some e)
  | None => _mapping_pop ;; _mapping_pop ;; ret None
  end.

(** The handles are not [NULL]. *)
Definition mmu040_clone_userspace (from to : Z) : M Mmu040 Z :=
  let* root_table_from := map_table (root_table_ph from) in
  let* root_table_to := map_table (root_table_ph to) in
  let* r := for_range (Z.to_nat ROOT_LEVEL_DESCRIPTORS) 0 (clone_pointer_table root_table_from root_table_to) in
  match r with
  | Some e => ret e
  | None => _mapping_pop ;; _mapping_pop ;; ret 0
  end.

Definition mmu040_switch_userspace (handle : Z) : M Mmu040 Z := mmu040_set_urp handle ;; ret 0.

(** * Mapping a page *)

(** The table behind an upper level descriptor, allocated when there is none. *)
Definition table_behind (pos p : Z) : M Mmu040 Z :=
  let* d := load32 p in
  if UDT_IS_RESIDENT (upper_level_descriptor_type d) then
    map_table (u32 (Z.shiftl (field pos (32 - pos) d) pos))
  else
    let* ph := _alloc_frame in
    let* table := _mapping_push ph in
    set_table_desc pos p (Z.shiftr ph pos) ;; ret table.

Definition set_page_field (pos width p v : Z) : M Mmu040 unit :=
  let* d := load32 p in store32 p (set_field pos width v d).

Definition mmu040_alloc_at (virt : Z) (supervisor write_protected : bool) : M Mmu040 Z :=
  let* rp := gets (fun s => if supervisor then srp s else urp s) in
  let* root_table := map_table (root_table_ph rp) in
  let* pointer_table := table_behind 9 (root_table + 4 * root_index virt) in
  let* page_table := table_behind 7 (pointer_table + 4 * pointer_index virt) in
  let p := page_table + 4 * page_index virt in
  let* d := load32 p in
  when (PDT_IS_RESIDENT (page_descriptor_type d))
    (set_page_field 2 1 p (Z.b2z write_protected) ;;
     let* d := load32 p in
     _free_frame (PAGE_LEVEL_FIELD_ADDR (physical_address d))) ;;
  let* frame := _alloc_frame in
  set_page_field 12 20 p (PAGE_LEVEL_ADDR_FIELD frame) ;;
  set_page_field 7 1 p (Z.b2z supervisor) ;;
  set_page_field 5 2 p MMU040_CACHE_MODE_CACHE_COPY_BACK ;;
  set_page_field 2 1 p (Z.b2z write_protected) ;;
  set_page_field 0 2 p MMU040_PAGE_DESCRIPTOR_TYPE_RESIDENT ;;
  _mapping_pop ;; _mapping_pop ;; _mapping_pop ;;
  ret frame.

Definition mmu040_free_at (virt : Z) (supervisor : bool) : M Mmu040 unit := panic.

Definition mmu040_fill_frame (frame offset : Z) (src : list Z) (size : Z) : M Mmu040 unit :=
  let* map := _mapping_push frame in
  for_to 0 size (fun i => let* v := need (zget src i) in store8 (map + (i + offset)) v) ;;
  _mapping_pop.

Definition mmu040_map_current_userspace : M Mmu040 unit :=
  let* s := get in
  let* supervisor_root_table := map_table (root_table_ph (srp s)) in
  let* user_root_table := map_table (root_table_ph (urp s)) in
  for_to 0 (ROOT_LEVEL_DESCRIPTORS / 4 * 3) (fun i =>
    let* d := load32 (user_root_table + 4 * i) in store32 (supervisor_root_table + 4 * i) d) ;;
  _mapping_pop ;; _mapping_pop.

(** * User memory *)

Section user.
(** The status word that [ptestr] leaves for an address: the physical page in
    the upper 20 bits. *)
Variable ptestr : Mmu040 -> bool -> Z -> Z.

Definition mmu040_get_physical (virt : Z) (supervisor : bool) : M Mmu040 Z :=
  gets (fun s => Z.lor (Z.land (ptestr s supervisor virt) 4294963200) (Z.land virt MMU_PAGE_MASK)).

(** Map the page of a user address; the pointer to its byte. *)
Definition map_user (virt : Z) : M Mmu040 Z :=
  let* phys := mmu040_get_physical virt false in
  let* p := _mapping_push phys in
  ret (Z.lor p (Z.land phys MMU_PAGE_MASK)).

(** The pointer to the next byte, at user address [virt]. *)
Definition next_byte (virt p : Z) : M Mmu040 Z :=
  if Z.land virt MMU_PAGE_MASK =? 0 then _mapping_pop ;; map_user virt else ret (p + 1).

(** The kernel's buffer is the list of the bytes read. *)
Definition mmu040_copy_from_userspace (src size : Z) : M Mmu040 (list Z) :=
  if size =? 0 then ret [] else
  let* p := map_user src in
  let* dst := loop (Z.to_nat size) (src, p, size, []) (fun '(src, p, size, dst) =>
    let* v := load8 p in
    let dst := dst ++ [v] in
    let src := u32 (src + 1) in
    let size := size - 1 in
    if size =? 0 then ret (inr dst) else
    let* p := next_byte src p in ret (inl (src, p, size, dst))) in
  _mapping_pop ;; ret dst.

Definition mmu040_copy_to_userspace (dst : Z) (src : list Z) (size : Z) : M Mmu040 unit :=
  if size =? 0 then ret tt else
  let* p := map_user dst in
  let* _ := loop (Z.to_nat size) (dst, p, size, 0) (fun '(dst, p, size, i) =>
    let* v := need (zget src i) in
    store8 p v ;;
    let dst := u32 (dst + 1) in
    let size := size - 1 in
    if size =? 0 then ret (inr tt) else
    let* p := next_byte dst p in ret (inl (dst, p, size, i + 1))) in
  _mapping_pop.
End user.

(** The operations that the process layer calls. *)
#[export] Instance mmu040 : Mmu Mmu040 := {
  mmu_init_userspace := mmu040_init_userspace;
  mmu_free_userspace := mmu040_free_userspace;
  mmu_switch_userspace := mmu040_switch_userspace;
  mmu_invalidate_all := ret tt;
  mmu_map_current_userspace := mmu040_map_current_userspace;
}.

(** * The mapper stack is balanced *)

(** [k] pages of the window are in use. *)
Definition level (k : Z) (s : Mmu040) : Prop := mapping s = k /\ length (page_descriptor s) = 10%nat.

(** From [k] pages in use, [m] returns with a result in [P] and [k'] pages in use. *)
Definition balanced {A} (k k' : Z) (m : M Mmu040 A) (P : A -> Prop) : Prop :=
  forall s, level k s -> wp m (fun a s' => P a /\ level k' s') s.

(** A pointer into the pages of the window. *)
Definition in_window (p : Z) : Prop := 0 <= p < MMU_PAGE_SIZE * MAPPER_PAGES.

Section balanced.
Implicit Types s : Mmu040.

Lemma balanced_bind {A B} k k' k'' (m : M Mmu040 A) (f : A -> M Mmu040 B) P Q :
  balanced k k' m P -> (forall a, P a -> balanced k' k'' (f a) Q) -> balanced k k'' (bind m f) Q.
Proof.
  intros Hm Hf s Hs. rewrite wp_bind. eapply wp_mono; [by apply Hm|]. intros a s' [Ha Hs']. by apply Hf.
Qed.
Lemma balanced_weaken {A} k k' (m : M Mmu040 A) (P Q : A -> Prop) :
  balanced k k' m P -> (forall a, P a -> Q a) -> balanced k k' m Q.
Proof. intros Hm HPQ s Hs. eapply wp_mono; [by apply Hm|]. intros a s' [Ha Hs']. split; [by apply HPQ|done]. Qed.
Lemma balanced_ret {A} k (a : A) (P : A -> Prop) : P a -> balanced k k (ret a) P.
Proof. intros Ha s Hs. by rewrite wp_ret. Qed.
Lemma balanced_gets {A} k (f : Mmu040 -> A) : balanced k k (gets f) (fun _ => True).
Proof. intros s Hs. by rewrite wp_gets. Qed.
Lemma balanced_get k : balanced k k get (fun _ => True).
Proof. intros s Hs. by rewrite wp_get. Qed.
Lemma balanced_modify k f :
  (forall s, mapping (f s) = mapping s /\ page_descriptor (f s) = page_descriptor s) ->
  balanced k k (modify f) (fun _ => True).
Proof. intros Hf s [Hm Hl]. rewrite wp_modify. destruct (Hf s) as [E1 E2]. unfold level. by rewrite E1, E2. Qed.
Lemma balanced_when k b m : balanced k k m (fun _ => True) -> balanced k k (when b m) (fun _ => True).
Proof. destruct b; [done|]. intros _. by apply balanced_ret. Qed.
Lemma balanced_for_to k i0 i1 body :
  i0 <= i1 -> (forall i, i0 <= i < i1 -> balanced k k (body i) (fun _ => True)) ->
  balanced k k (for_to i0 i1 body) (fun _ => True).
Proof.
  intros Hi Hb s Hs. apply (wp_for_to (fun _ => level k)); [done|done| |done].
  intros j s' Hj Hs'. eapply wp_mono; [by apply Hb|]. by intros ? ? [? ?].
Qed.
Lemma balanced_for_range k k' n i (body : Z -> M Mmu040 (option Z)) :
  (forall j s, i <= j < i + Z.of_nat n -> level k s ->
     wp (body j) (fun r s' => match r with None => level k s' | Some _ => level k' s' end) s) ->
  forall s, level k s ->
    wp (for_range n i body) (fun r s' => match r with None => level k s' | Some _ => level k' s' end) s.
Proof.
  intros Hb s Hs. apply (wp_for_range (fun _ => level k)); [done| |done].
  intros j s' Hj Hs'. eapply wp_mono; [by apply Hb|]. by intros [x|] s2 H2.
Qed.
Lemma balanced_for_acc {A} k n i (a : A) body (P : A -> Prop) :
  P a -> (forall j a, i <= j < i + Z.of_nat n -> P a -> balanced k k (body j a) P) ->
  balanced k k (for_acc n i a body) P.
Proof.
  revert i a. induction n as [|n IH]; intros i a Ha Hb; cbn [for_acc]; [by apply balanced_ret|].
  eapply balanced_bind; [apply Hb; [lia|done]|]. intros a' Ha'. apply IH; [done|].
  intros j b Hj. apply Hb. lia.
Qed.

Lemma balanced_window k p : in_window p -> balanced k k (window p) (fun _ => True).
Proof.
  intros Hp s [Hm Hl]. unfold window. rewrite wp_bind, wp_gets.
  destruct (zget_in_range (page_descriptor s) (p / MMU_PAGE_SIZE)) as [d Hd].
  { rewrite Hl. unfold in_window, MMU_PAGE_SIZE, MAPPER_PAGES in *. split; [apply Z.div_pos; lia|].
    apply Z.div_lt_upper_bound; lia. }
  by rewrite wp_bind, (wp_need _ d), wp_ret.
Qed.
Lemma balanced_load32 k p : in_window p -> balanced k k (load32 p) (fun _ => True).
Proof. intros Hp. eapply balanced_bind; [by apply balanced_window|]. intros a _. apply balanced_gets. Qed.
Lemma balanced_store32 k p v : in_window p -> balanced k k (store32 p v) (fun _ => True).
Proof. intros Hp. eapply balanced_bind; [by apply balanced_window|]. intros a _. by apply balanced_modify. Qed.
Lemma balanced_load8 k p : in_window p -> balanced k k (load8 p) (fun _ => True).
Proof.
  intros Hp. eapply balanced_bind; [by apply balanced_window|]. intros a _.
  eapply balanced_bind; [apply balanced_gets|]. intros w _. by apply balanced_ret.
Qed.
Lemma balanced_store8 k p v : in_window p -> balanced k k (store8 p v) (fun _ => True).
Proof.
  intros Hp. eapply balanced_bind; [by apply balanced_window|]. intros a _.
  eapply balanced_bind; [apply balanced_gets|]. intros w _. by apply balanced_modify.
Qed.

Lemma balanced_push k pa : 0 <= k < MAPPER_PAGES -> balanced k (k + 1) (_mapping_push pa) (fun p => p = MMU_PAGE_SIZE * k).
Proof.
  intros Hk s [Hm Hl]. unfold _mapping_push, MAPPER_PAGES in *. rewrite wp_bind, wp_gets, Hm.
  destruct (Z.leb_spec 10 k); [lia|]. destruct (zget_in_range (page_descriptor s) k) as [d Hd]; [lia|].
  rewrite wp_bind, wp_gets, wp_bind, (wp_need _ d) by done. wp_simpl. split; [done|].
  split; cbn; [by rewrite Hm|by rewrite length_zset].
Qed.
Lemma balanced_pop k k' : 0 <= k' -> k = k' + 1 -> balanced k k' _mapping_pop (fun _ => True).
Proof.
  intros Hk -> s [Hm Hl]. unfold _mapping_pop. rewrite wp_bind, wp_gets, Hm.
  destruct (Z.ltb_spec 0 (k' + 1)); [|lia]. cbn [when]. rewrite wp_modify. split; [done|].
  split; cbn; [lia|done].
Qed.
Lemma balanced_pop_r k : 0 <= k -> balanced (k + 1) k _mapping_pop (fun _ => True).
Proof. intros Hk. by apply balanced_pop. Qed.
Lemma balanced_map_table k ph :
  0 <= k < MAPPER_PAGES ->
  balanced k (k + 1) (map_table ph) (fun p => MMU_PAGE_SIZE * k <= p < MMU_PAGE_SIZE * k + MMU_PAGE_SIZE).
Proof.
  intros Hk. eapply balanced_bind; [by apply balanced_push|]. intros p ->. apply balanced_ret.
  unfold REPAGE. assert (Z.land (MMU_PAGE_SIZE * k) MMU_PAGE_MASK = 0) as ->.
  { change MMU_PAGE_MASK with (Z.ones 12). rewrite Z.land_ones by lia. unfold MMU_PAGE_SIZE.
    rewrite Z.mul_comm. by apply Z.mod_mul. }
  change MMU_PAGE_MASK with (Z.ones 12). rewrite Z.land_ones by lia.
  pose proof (Z.mod_pos_bound ph (2 ^ 12)). unfold MMU_PAGE_SIZE. lia.
Qed.
Lemma balanced_pops k (n : nat) : Z.of_nat n <= k -> balanced k (k - Z.of_nat n) (pops n) (fun _ => True).
Proof.
  revert k. induction n as [|n IH]; intros k Hk; cbn [pops].
  - rewrite Z.sub_0_r. by apply balanced_ret.
  - eapply balanced_bind; [apply (balanced_pop k (k - 1)); lia|]. intros _ _.
    replace (k - Z.of_nat (S n)) with (k - 1 - Z.of_nat n) by lia. apply IH. lia.
Qed.
Lemma balanced_zero k p : 0 <= p -> p + MMU_PAGE_SIZE <= MMU_PAGE_SIZE * MAPPER_PAGES ->
  balanced k k (mmu040_zero_4k p) (fun _ => True).
Proof.
  intros Hp Hp'. unfold MMU_PAGE_SIZE, MAPPER_PAGES in *. apply balanced_for_to; [lia|]. intros i Hi.
  do 3 (eapply balanced_bind; [apply balanced_store32; unfold in_window, MMU_PAGE_SIZE, MAPPER_PAGES; lia|intros _ _]).
  apply balanced_store32. unfold in_window, MMU_PAGE_SIZE, MAPPER_PAGES; lia.
Qed.
End balanced.

Ltac in_win := unfold in_window, MMU_PAGE_SIZE, MAPPER_PAGES, ROOT_LEVEL_DESCRIPTORS, POINTER_LEVEL_DESCRIPTORS,
  PAGE_DESCRIPTORS in *; lia.
(** One step of a [balanced] goal along the program. *)
Ltac bal_step :=
  match goal with
  | |- balanced _ _ (load32 _) _ => apply balanced_load32; in_win
  | |- balanced _ _ (store32 _ _) _ => apply balanced_store32; in_win
  | |- balanced _ _ (gets _) _ => apply balanced_gets
  | |- balanced _ _ get _ => apply balanced_get
  | |- balanced _ _ (modify _) _ => apply balanced_modify; done
  | |- balanced _ _ (ret _) _ => apply balanced_ret; done
  | |- balanced _ _ (_mapping_push _) _ => apply balanced_push; in_win
  | |- balanced _ _ _mapping_pop _ => apply balanced_pop_r; in_win
  | |- balanced _ _ (map_table _) _ => apply balanced_map_table; in_win
  | |- balanced _ _ (when _ _) _ => apply balanced_when
  | |- balanced _ _ _ _ => solve [eauto 2 with balance]
  end.
Ltac bal := eapply balanced_bind; [bal_step|cbv beta; intros ? ?; cbv zeta; subst].

Create HintDb balance.

Section levels.
Implicit Types s : Mmu040.

Lemma balanced_alloc_frame k : 0 <= k < MAPPER_PAGES -> balanced k k _alloc_frame (fun _ => True).
Proof.
  intros Hk. unfold _alloc_frame. bal. destruct (_ =? 0); [bal_step|]. do 5 bal.
  eapply balanced_bind; [apply balanced_zero; in_win|]. intros _ _. bal. bal_step.
Qed.
Lemma balanced_free_frame k f : 0 <= k < MAPPER_PAGES -> balanced k k (_free_frame f) (fun _ => True).
Proof. intros Hk. unfold _free_frame. do 4 bal. bal_step. Qed.
Lemma balanced_set_page_field k pos width p v : in_window p -> balanced k k (set_page_field pos width p v) (fun _ => True).
Proof. intros Hp. unfold set_page_field. bal. bal_step. Qed.
Lemma balanced_set_table_desc k pos p v : in_window p -> balanced k k (set_table_desc pos p v) (fun _ => True).
Proof. intros Hp. unfold set_table_desc. do 3 bal. bal_step. Qed.
Lemma balanced_set_desc_type k t p : in_window p -> balanced k k (set_desc_type t p) (fun _ => True).
Proof. intros Hp. unfold set_desc_type. bal. bal_step. Qed.
End levels.
#[export] Hint Resolve balanced_alloc_frame balanced_free_frame : balance.
#[export] Hint Extern 5 (in_window _) => in_win : balance.
#[export] Hint Extern 5 (_ <= _ < _) => in_win : balance.
#[export] Hint Resolve balanced_set_page_field balanced_set_table_desc balanced_set_desc_type : balance.

Section spaces.
Implicit Types s : Mmu040.

(** The end of the highest page is not negative. *)
Lemma balanced_highest_page k page_table j free :
  0 <= page_table < MMU_PAGE_SIZE * 9 -> 0 <= j < PAGE_DESCRIPTORS -> 0 <= free ->
  balanced k k (highest_in_page_table page_table j free) (fun f => 0 <= f).
Proof.
  intros Hp Hj Hf. unfold highest_in_page_table. bal. case_goal; [by apply balanced_ret|].
  case_goal; [|by apply balanced_ret]. bal. apply balanced_ret, u32_range.
Qed.
Lemma balanced_highest_pointer k pointer_table j free :
  0 <= k < 9 -> 0 <= pointer_table < MMU_PAGE_SIZE * 9 -> 0 <= j < POINTER_LEVEL_DESCRIPTORS -> 0 <= free ->
  balanced k k (highest_in_pointer_table pointer_table j free) (fun f => 0 <= f).
Proof.
  intros Hk Hp Hj Hf. unfold highest_in_pointer_table. bal. case_goal; [by apply balanced_ret|]. bal.
  eapply balanced_bind; [apply (balanced_for_acc _ _ _ _ _ (fun f => 0 <= f)); [done|]; intros i f Hi Hf'; apply balanced_highest_page; (done || in_win)|].
  cbn beta. intros f Hf'. bal. by apply balanced_ret.
Qed.
Lemma balanced_highest_root k i free :
  0 <= k < 8 -> 0 <= i < ROOT_LEVEL_DESCRIPTORS -> 0 <= free -> balanced k k (highest_in_root_table i free) (fun f => 0 <= f).
Proof.
  intros Hk Hi Hf. unfold highest_in_root_table, phys_load32. do 2 bal. case_goal; [by apply balanced_ret|]. bal.
  eapply balanced_bind; [apply (balanced_for_acc _ _ _ _ _ (fun f => 0 <= f)); [done|]; intros j f Hj Hf'; apply balanced_highest_pointer; (done || in_win)|].
  cbn beta. intros f Hf'. bal. by apply balanced_ret.
Qed.

(** The loop over the frames up to [end_]: one turn for each, and one more. *)
Lemma balanced_free_all k fuel end_ free : 0 <= k < MAPPER_PAGES -> 0 <= free -> end_ + MMU_PAGE_SIZE <= 2 ^ 32 ->
  (0 < fuel)%nat -> end_ - free <= (Z.of_nat fuel - 1) * MMU_PAGE_SIZE ->
  balanced k k (loop fuel free (fun free =>
    if end_ <=? free then ret (inr tt) else _free_frame free ;; ret (inl (u32 (free + MMU_PAGE_SIZE))))) (fun _ => True).
Proof.
  intros Hk Hf He Hfuel. revert free Hf. induction fuel as [|fuel IH]; intros free Hf Hn; [lia|]. rewrite loop_unfold. cbn beta.
  destruct (Z.leb_spec end_ free) as [Hle|Hlt].
  - eapply balanced_bind; [by apply (balanced_ret _ _ (fun r => r = inr tt))|]. intros r ->. by apply balanced_ret.
  - eapply (balanced_bind _ k); [eapply balanced_bind; [by apply balanced_free_frame|]; intros _ _;
      by apply (balanced_ret _ _ (fun r => r = inl (u32 (free + MMU_PAGE_SIZE))))|].
    intros r ->. unfold MMU_PAGE_SIZE in *. rewrite u32_small by lia. apply IH; lia.
Qed.
Lemma balanced_init k : 0 <= k < 8 -> balanced k k mmu040_init (fun _ => True).
Proof.
  intros Hk. unfold mmu040_init, _build_free_frame_list. cbv zeta. eapply balanced_bind; [bal_step|intros _ _].
  do 2 (eapply balanced_bind; [bal_step|intros _ _]). eapply balanced_bind; [|intros _ _; bal_step].
  eapply balanced_bind; [apply (balanced_for_acc _ _ _ _ _ (fun f => 0 <= f)); [done|]; intros i f Hi Hf; by apply balanced_highest_root|].
  cbn beta. intros free Hfree. eapply balanced_bind; [bal_step|]. cbn beta. intros total _. cbv zeta.
  eapply (balanced_bind _ k); [|intros _ _; bal_step].
  pose proof (u32_range (MMU_DRAM_START + u32 (total * MMU_PAGE_SIZE))) as Hr.
  assert (u32 (MMU_DRAM_START + u32 (total * MMU_PAGE_SIZE)) mod MMU_PAGE_SIZE = 0) as Hm.
  { unfold u32, MMU_DRAM_START, MMU_PAGE_SIZE. mod_lia. }
  apply balanced_free_all; [unfold MAPPER_PAGES; lia|done| | |]; set (e := u32 _) in *; clearbody e; unfold MMU_PAGE_SIZE in *.
  - mod_lia.
  - lia.
  - rewrite Z2Nat.id by lia. mod_lia.
Qed.
Lemma mmu040_init_returns s : level 0 s -> wp mmu040_init (fun _ => level 0) s.
Proof. intros Hs. eapply wp_mono; [by apply (balanced_init 0)|]. by intros ? ? [_ ?]. Qed.

Lemma balanced_clear_page k page_table i :
  0 <= k < MAPPER_PAGES -> 0 <= page_table < MMU_PAGE_SIZE * 9 -> 0 <= i < PAGE_DESCRIPTORS ->
  balanced k k (clear_page page_table i) (fun _ => True).
Proof. intros Hk Hp Hi. unfold clear_page. bal. bal_step. bal_step. Qed.
Lemma balanced_clear_page_table k pointer_table j :
  0 <= k < 9 -> 0 <= pointer_table < MMU_PAGE_SIZE * 9 -> 0 <= j < POINTER_LEVEL_DESCRIPTORS ->
  balanced k k (clear_page_table pointer_table j) (fun _ => True).
Proof.
  intros Hk Hp Hj. unfold clear_page_table. bal. bal_step. bal.
  eapply balanced_bind; [apply balanced_for_to; [in_win|]; intros i Hi; apply balanced_clear_page; in_win|].
  intros _ _. bal. bal_step.
Qed.
Lemma balanced_clear_pointer_table k root_table i :
  0 <= k < 8 -> 0 <= root_table < MMU_PAGE_SIZE * 9 -> 0 <= i < ROOT_LEVEL_DESCRIPTORS ->
  balanced k k (clear_pointer_table root_table i) (fun _ => True).
Proof.
  intros Hk Hp Hi. unfold clear_pointer_table. bal. bal_step. bal.
  eapply balanced_bind; [apply balanced_for_to; [in_win|]; intros j Hj; apply balanced_clear_page_table; in_win|].
  intros _ _. bal. bal. bal. bal_step.
Qed.
Lemma balanced_clear_userspace k h : 0 <= k < 7 -> balanced k k (mmu040_clear_userspace h) (fun _ => True).
Proof.
  intros Hk. unfold mmu040_clear_userspace. bal.
  eapply balanced_bind; [apply balanced_for_to; [in_win|]; intros j Hj; apply balanced_clear_pointer_table; in_win|].
  intros _ _. bal_step.
Qed.
Lemma balanced_free_userspace k h : 0 <= k < 7 -> balanced k k (mmu040_free_userspace h) (fun _ => True).
Proof.
  intros Hk. eapply balanced_bind; [by apply balanced_clear_userspace|]. intros _ _. bal_step.
Qed.
Lemma balanced_init_userspace k : 0 <= k < 7 -> balanced k k mmu040_init_userspace (fun _ => True).
Proof.
  intros Hk. unfold mmu040_init_userspace, mmu040_set_urp. bal. case_goal; [bal_step|]. bal. bal_step.
Qed.
Lemma balanced_map_current k : 0 <= k < 7 -> balanced k k mmu040_map_current_userspace (fun _ => True).
Proof.
  intros Hk. unfold mmu040_map_current_userspace. do 3 bal.
  change (ROOT_LEVEL_DESCRIPTORS / 4 * 3) with 96. eapply balanced_bind.
  - apply balanced_for_to; [lia|]. intros i Hi. bal. bal_step.
  - intros _ _. bal. bal_step.
Qed.

Lemma balanced_table_behind k pos p :
  0 <= k < 9 -> in_window p ->
  balanced k (k + 1) (table_behind pos p) (fun p => MMU_PAGE_SIZE * k <= p < MMU_PAGE_SIZE * k + MMU_PAGE_SIZE).
Proof.
  intros Hk Hp. unfold table_behind. bal. case_goal; [bal_step|]. bal. bal. bal. apply balanced_ret. in_win.
Qed.
Lemma index_range virt n w : Z.ones w = n -> 0 <= w -> 0 <= Z.land virt n <= n.
Proof.
  intros <- Hw. rewrite Z.land_ones by done. pose proof (Z.mod_pos_bound virt (2 ^ w)).
  rewrite Z.ones_equiv. lia.
Qed.
Lemma balanced_alloc_at k virt sv wp :
  0 <= k < 7 -> balanced k k (mmu040_alloc_at virt sv wp) (fun _ => True).
Proof.
  intros Hk. unfold mmu040_alloc_at.
  pose proof (index_range (Z.shiftr virt 25) 127 7 eq_refl ltac:(lia)) as H1.
  pose proof (index_range (Z.shiftr virt 18) 127 7 eq_refl ltac:(lia)) as H2.
  pose proof (index_range (Z.shiftr virt 12) 63 6 eq_refl ltac:(lia)) as H3.
  fold (root_index virt) in H1. fold (pointer_index virt) in H2. fold (page_index virt) in H3.
  do 2 bal. eapply balanced_bind; [apply balanced_table_behind; in_win|]. cbn beta. intros pt Hpt.
  eapply balanced_bind; [apply balanced_table_behind; in_win|]. cbn beta. intros pg Hpg. cbv zeta. bal.
  eapply balanced_bind.
  { apply balanced_when. do 2 bal. bal_step. }
  intros _ _. do 9 bal. bal_step.
Qed.
Lemma balanced_fill_frame k f off src size : 0 <= k < 9 -> 0 <= off < MMU_PAGE_SIZE -> 0 <= size <= MMU_PAGE_SIZE ->
  size <= Z.of_nat (length src) -> balanced k k (mmu040_fill_frame f off src size) (fun _ => True).
Proof.
  intros Hk Ho Hs Hlen. unfold mmu040_fill_frame. bal. eapply balanced_bind; [|intros _ _; bal_step].
  apply balanced_for_to; [lia|]. intros i Hi. destruct (zget_in_range src i) as [c Hc]; [lia|]. rewrite Hc.
  eapply balanced_bind; [by apply (balanced_ret _ _ (fun _ => True))|]. intros v _. apply balanced_store8. in_win.
Qed.
End spaces.

(** [m] continues ([None]) with [k'] pages in use or gives up with [-ENOMEM]
    and only [k0] in use. *)
Definition aborts (k k' k0 : Z) (m : M Mmu040 (option Z)) : Prop :=
  forall s, level k s ->
    wp m (fun r s' => match r with None => level k' s' | Some e => e = - ENOMEM /\ level k0 s' end) s.

Section clone.
Implicit Types s : Mmu040.

Lemma aborts_bind {A} k k1 k' k0 (m : M Mmu040 A) f P :
  balanced k k1 m P -> (forall a, P a -> aborts k1 k' k0 (f a)) -> aborts k k' k0 (bind m f).
Proof.
  intros Hm Hf s Hs. rewrite wp_bind. eapply wp_mono; [by apply Hm|]. intros a s' [Ha Hs']. by apply Hf.
Qed.
Lemma aborts_none k k' k0 (m : M Mmu040 unit) :
  balanced k k' m (fun _ => True) -> aborts k k' k0 (m ;; ret None).
Proof. intros Hm. eapply aborts_bind; [exact Hm|]. intros _ _ s Hs. by rewrite wp_ret. Qed.
Lemma aborts_some k k' (n : nat) k0 :
  0 <= k0 -> k = k0 + Z.of_nat n -> aborts k k' k0 (pops n ;; ret (Some (- ENOMEM))).
Proof.
  intros H0 Hk. eapply aborts_bind; [apply balanced_pops; lia|]. intros _ _ s Hs. rewrite wp_ret.
  split; [done|]. by replace (k - Z.of_nat n) with k0 in Hs by lia.
Qed.
Lemma aborts_loop {B} k k0 n i body (after : M Mmu040 B) (ret_e : Z -> M Mmu040 B) (Q : B -> Mmu040 -> Prop) s :
  (forall j, i <= j < i + Z.of_nat n -> aborts k k k0 (body j)) ->
  level k s -> (forall s', level k s' -> wp after Q s') ->
  (forall s', level k0 s' -> wp (ret_e (- ENOMEM)) Q s') ->
  wp (let* r := for_range n i body in match r with Some e => ret_e e | None => after end) Q s.
Proof.
  intros Hb Hs Ha He. rewrite wp_bind.
  apply (wp_for_range (fun _ => level k)); [done| |by intros s' Hs'; apply Ha].
  intros j s' Hj Hs'. eapply wp_mono; [by apply Hb|]. intros [e|] s2 H2; [|done].
  destruct H2 as [-> H2]. by apply He.
Qed.
End clone.

Ltac abt := eapply aborts_bind; [bal_step|cbv beta; intros ? ?; cbv zeta; subst].

Section clone_userspace.
Implicit Types s : Mmu040.

Lemma balanced_memcpy k dest src :
  0 <= dest <= MMU_PAGE_SIZE * 9 -> 0 <= src <= MMU_PAGE_SIZE * 9 ->
  balanced k k (window_memcpy dest src MMU_PAGE_SIZE) (fun _ => True).
Proof.
  intros Hd Hsrc. apply balanced_for_to; [in_win|]. intros i Hi.
  eapply balanced_bind; [apply balanced_load8; in_win|]. intros v _. apply balanced_store8. in_win.
Qed.

Lemma aborts_clone_page k page_table_from page_table_to i :
  0 <= k < 3 -> 0 <= page_table_from < MMU_PAGE_SIZE * 9 -> 0 <= page_table_to < MMU_PAGE_SIZE * 9 ->
  0 <= i < PAGE_DESCRIPTORS -> aborts (k + 6) (k + 6) k (clone_page page_table_from page_table_to i).
Proof.
  intros Hk Hf Ht Hi. unfold clone_page. abt. case_goal; [apply aborts_none; bal_step|].
  abt. case_goal; [apply aborts_some; lia|]. do 7 abt.
  eapply aborts_bind; [apply balanced_memcpy; in_win|]. intros _ _. abt. apply aborts_none. bal_step.
Qed.

Lemma aborts_clone_page_table k pt_from pt_to j :
  0 <= k < 3 -> 0 <= pt_from < MMU_PAGE_SIZE * 9 -> 0 <= pt_to < MMU_PAGE_SIZE * 9 ->
  0 <= j < POINTER_LEVEL_DESCRIPTORS -> aborts (k + 4) (k + 4) k (clone_page_table pt_from pt_to j).
Proof.
  intros Hk Hf Ht Hj. unfold clone_page_table. abt. case_goal; [apply aborts_none; bal_step|].
  abt. case_goal; [apply aborts_some; lia|]. do 4 abt.
  intros s Hs. apply (aborts_loop (k + 6) k).
  - intros i Hi. apply aborts_clone_page; in_win.
  - replace (k + 6) with (k + 4 + 1 + 1) by lia. done.
  - replace (k + 6) with (k + 4 + 1 + 1) by lia. change (aborts (k + 4 + 1 + 1) (k + 4) k (_mapping_pop;; _mapping_pop;; ret None)).
    abt. apply aborts_none. bal_step.
  - intros s' Hs'. by rewrite wp_ret.
Qed.

Lemma aborts_clone_pointer_table k rt_from rt_to i :
  0 <= k < 3 -> 0 <= rt_from < MMU_PAGE_SIZE * 9 -> 0 <= rt_to < MMU_PAGE_SIZE * 9 ->
  0 <= i < ROOT_LEVEL_DESCRIPTORS -> aborts (k + 2) (k + 2) k (clone_pointer_table rt_from rt_to i).
Proof.
  intros Hk Hf Ht Hi. unfold clone_pointer_table. abt. case_goal; [apply aborts_none; bal_step|].
  abt. case_goal; [apply aborts_some; lia|]. do 4 abt.
  intros s Hs. apply (aborts_loop (k + 4) k).
  - intros j Hj. apply aborts_clone_page_table; in_win.
  - replace (k + 4) with (k + 2 + 1 + 1) by lia. done.
  - replace (k + 4) with (k + 2 + 1 + 1) by lia. change (aborts (k + 2 + 1 + 1) (k + 2) k (_mapping_pop;; _mapping_pop;; ret None)).
    abt. apply aborts_none. bal_step.
  - intros s' Hs'. by rewrite wp_ret.
Qed.

Lemma balanced_clone_userspace k from to :
  0 <= k < 3 -> balanced k k (mmu040_clone_userspace from to) (fun r => r = 0 \/ r = - ENOMEM).
Proof.
  intros Hk. unfold mmu040_clone_userspace. do 2 bal. intros s Hs. apply (aborts_loop (k + 2) k).
  - intros i Hi. apply aborts_clone_pointer_table; in_win.
  - replace (k + 2) with (k + 1 + 1) by lia. done.
  - replace (k + 2) with (k + 1 + 1) by lia.
    change (balanced (k + 1 + 1) k (_mapping_pop;; _mapping_pop;; ret 0) (fun r => r = 0 \/ r = - ENOMEM)).
    do 2 bal. apply balanced_ret. by left.
  - intros s' Hs'. rewrite wp_ret. split; [by right|done].
Qed.
End clone_userspace.

#[export] Instance mmu040_laws : MmuLaws Mmu040 (level 0).
Proof.
  assert (forall A (m : M Mmu040 A) P s, balanced 0 0 m P -> level 0 s -> wp m (fun _ => level 0) s) as Hb.
  { intros A m P s Hm Hs. eapply wp_mono; [by apply Hm|]. by intros ? ? [? ?]. }
  split; intros; (eapply Hb; [|done]).
  - by apply balanced_init_userspace.
  - by apply balanced_free_userspace.
  - unfold mmu_switch_userspace, mmu040, mmu040_switch_userspace, mmu040_set_urp. bal.
    by apply (balanced_ret _ _ (fun _ => True)).
  - by apply (balanced_ret _ _ (fun _ => True)).
  - by apply balanced_map_current.
Qed.

(** * Bit fields and addresses *)

Lemma field_range pos width w : 0 <= width -> 0 <= field pos width w < 2 ^ width.
Proof. intros Hw. apply Z.mod_pos_bound. by apply Z.pow_pos_nonneg. Qed.

Lemma field_testbit pos width w i :
  0 <= pos -> 0 <= width -> 0 <= i -> Z.testbit (field pos width w) i = (i <? width) && Z.testbit w (i + pos).
Proof. intros Hp Hw Hi. unfold field. rewrite Z.testbit_mod_pow2 by done. by rewrite Z.div_pow2_bits by lia. Qed.
Lemma field_u32 pos width w : 0 <= pos -> 0 <= width -> pos + width <= 32 -> field pos width (u32 w) = field pos width w.
Proof.
  intros Hp Hw Hs. apply Z.bits_inj'. intros i Hi. rewrite !field_testbit by done.
  destruct (Z.ltb_spec i width); [|done]. unfold u32. by rewrite Z.mod_pow2_bits_low by lia.
Qed.

Lemma set_field_split pos width v w :
  0 <= pos -> 0 <= width ->
  exists hi lo, 0 <= lo < 2 ^ pos /\ w = (hi * 2 ^ width + field pos width w) * 2 ^ pos + lo /\
    set_field pos width v w = (hi * 2 ^ width + v mod 2 ^ width) * 2 ^ pos + lo.
Proof.
  intros Hp Hw. exists (w / 2 ^ pos / 2 ^ width), (w mod 2 ^ pos).
  assert (0 < 2 ^ pos) as H1 by (by apply Z.pow_pos_nonneg). assert (0 < 2 ^ width) as H2 by (by apply Z.pow_pos_nonneg).
  pose proof (Z.div_mod w (2 ^ pos) ltac:(lia)) as E1.
  pose proof (Z.div_mod (w / 2 ^ pos) (2 ^ width) ltac:(lia)) as E2. fold (field pos width w) in E2.
  assert (w = (w / 2 ^ pos / 2 ^ width * 2 ^ width + field pos width w) * 2 ^ pos + w mod 2 ^ pos) as E.
  { rewrite (Z.mul_comm (w / 2 ^ pos / 2 ^ width)), <- E2, (Z.mul_comm _ (2 ^ pos)). exact E1. }
  split; [by apply Z.mod_pos_bound|]. split; [exact E|]. unfold set_field. rewrite E at 1. ring.
Qed.

Lemma field_set_same pos width v w : 0 <= pos -> 0 <= width -> field pos width (set_field pos width v w) = v mod 2 ^ width.
Proof.
  intros Hp Hw. destruct (set_field_split pos width v w Hp Hw) as (hi & lo & Hlo & _ & ->). unfold field.
  rewrite Z.div_add_l by lia. rewrite (Z.div_small lo) by lia. rewrite Z.add_0_r, Z.add_comm, Z.mod_add.
  - apply Z.mod_mod. pose proof (Z.pow_pos_nonneg 2 width). lia.
  - pose proof (Z.pow_pos_nonneg 2 width). lia.
Qed.
Lemma field_above pos width x lo pos' width' :
  0 <= pos -> 0 <= width -> pos + width <= pos' -> 0 <= width' -> 0 <= lo < 2 ^ pos -> 0 <= x < 2 ^ width ->
  forall hi, field pos' width' ((hi * 2 ^ width + x) * 2 ^ pos + lo) = field (pos' - (pos + width)) width' hi.
Proof.
  intros Hp Hw Hd Hw' Hlo Hx hi. unfold field. f_equal.
  replace pos' with ((pos + width) + (pos' - (pos + width))) at 1 by lia. rewrite Z.pow_add_r by lia.
  rewrite <- Z.div_div by (first [apply Z.pow_nonzero|apply Z.pow_pos_nonneg]; lia). f_equal.
  rewrite Z.pow_add_r by lia. replace ((hi * 2 ^ width + x) * 2 ^ pos + lo) with (hi * (2 ^ pos * 2 ^ width) + (x * 2 ^ pos + lo)) by ring.
  assert (0 <= x * 2 ^ pos + lo < 2 ^ pos * 2 ^ width) by nia.
  rewrite Z.div_add_l by lia. rewrite Z.div_small by lia. lia.
Qed.
Lemma field_below pos x lo pos' width' :
  0 <= pos' -> 0 <= width' -> pos' + width' <= pos ->
  field pos' width' (x * 2 ^ pos + lo) = field pos' width' lo.
Proof.
  intros Hp' Hw' Hd. unfold field. assert (0 < 2 ^ width') by (by apply Z.pow_pos_nonneg).
  replace pos with (pos' + (width' + (pos - pos' - width'))) by lia. rewrite !Z.pow_add_r by lia.
  replace (x * (2 ^ pos' * (2 ^ width' * 2 ^ (pos - pos' - width'))) + lo)
    with (x * 2 ^ (pos - pos' - width') * 2 ^ width' * 2 ^ pos' + lo) by ring.
  rewrite Z.div_add_l by (pose proof (Z.pow_pos_nonneg 2 pos'); lia). rewrite Z.add_comm, Z.mod_add by lia. done.
Qed.
Lemma field_set_other pos width v w pos' width' :
  0 <= pos -> 0 <= width -> 0 <= pos' -> 0 <= width' -> pos' + width' <= pos \/ pos + width <= pos' ->
  field pos' width' (set_field pos width v w) = field pos' width' w.
Proof.
  intros Hp Hw Hp' Hw' Hd. destruct (set_field_split pos width v w Hp Hw) as (hi & lo & Hlo & E & ->).
  rewrite E at 1. destruct Hd.
  - by rewrite !field_below by done.
  - rewrite !field_above; try done; [apply field_range; done|apply Z.mod_pos_bound; by apply Z.pow_pos_nonneg].
Qed.

(** * What the accesses do to memory *)

Lemma word_at_insert m a x b : word_at (<[a / 4 := x]> m) b = if decide (a / 4 = b / 4) then x else word_at m b.
Proof.
  unfold word_at. case_decide as E; [by rewrite E, lookup_insert_eq|]. by rewrite lookup_insert_ne.
Qed.

(** The pointer [p] into the window denotes the physical address [a]. *)
Definition ptr (s : Mmu040) (p a : Z) : Prop :=
  exists d, zget (page_descriptor s) (p / MMU_PAGE_SIZE) = Some d /\
    a = PAGE_LEVEL_FIELD_ADDR (physical_address d) + p mod MMU_PAGE_SIZE.

(** [s'] has the pages of the window below [k] and the registers of [s]. *)
Record same_below (k : Z) (s s' : Mmu040) : Prop := {
  sb_pages i : 0 <= i < k -> zget (page_descriptor s') i = zget (page_descriptor s) i;
  sb_total : total_frames s' = total_frames s;
  sb_area : table_area s' = table_area s;
  sb_srp : srp s' = srp s;
  sb_urp : urp s' = urp s;
}.

Section exact.
Implicit Types s : Mmu040.

Lemma same_below_refl k s : same_below k s s.
Proof. by split. Qed.
Lemma same_below_trans k s s1 s2 : same_below k s s1 -> same_below k s1 s2 -> same_below k s s2.
Proof. intros [? ? ? ? ?] [H2 ? ? ? ?]. split; try congruence. intros i Hi. rewrite H2 by done. auto. Qed.
Lemma same_below_mono k k' s s' : k' <= k -> same_below k s s' -> same_below k' s s'.
Proof. intros Hk [H ? ? ? ?]. split; try done. intros i Hi. apply H. lia. Qed.

Lemma ptr_below k s s' p a :
  same_below k s s' -> 0 <= p < MMU_PAGE_SIZE * k -> ptr s p a -> ptr s' p a.
Proof.
  intros Hs Hp (d & Hd & ->). exists d. split; [|done]. rewrite (sb_pages _ _ _ Hs); [done|].
  unfold MMU_PAGE_SIZE in *. split; [apply Z.div_pos; lia|apply Z.div_lt_upper_bound; lia].
Qed.

Lemma load32_eq s p a : ptr s p a -> load32 p s = Ret (word_at (mem s) a, s).
Proof.
  intros (d & Hd & ->). unfold load32. erewrite bind_Ret; [reflexivity|].
  unfold window. cbv [bind gets]. by rewrite Hd.
Qed.
Lemma store32_eq s p a v : ptr s p a -> store32 p v s = Ret (tt, set_mem (<[a / 4 := u32 v]> (mem s)) s).
Proof.
  intros (d & Hd & ->). unfold store32. erewrite bind_Ret; [reflexivity|].
  unfold window. cbv [bind gets]. by rewrite Hd.
Qed.

(** The base of the page of an address. *)
Definition page_base (a : Z) : Z := a - a mod MMU_PAGE_SIZE.

Lemma page_field_addr pa d : 0 <= pa < 2 ^ 32 ->
  d = set_field 0 2 MMU040_PAGE_DESCRIPTOR_TYPE_RESIDENT (set_field 7 1 1 (set_field 12 20 (PAGE_LEVEL_ADDR_FIELD pa) 0)) ->
  PAGE_LEVEL_FIELD_ADDR (physical_address d) = page_base pa.
Proof.
  intros Hpa ->. unfold physical_address. rewrite !field_set_other by lia. rewrite field_set_same by lia.
  unfold PAGE_LEVEL_FIELD_ADDR, PAGE_LEVEL_ADDR_FIELD, page_base, MMU_PAGE_SIZE.
  rewrite Z.shiftr_div_pow2, Z.shiftl_mul_pow2 by lia. rewrite (Z.mod_small (pa / 2 ^ 12)).
  - pose proof (Z.div_mod pa 4096 ltac:(lia)). change (2 ^ 12) with 4096. pose proof (Z.mod_pos_bound pa 4096).
    rewrite u32_small by lia. lia.
  - split; [apply Z.div_pos; lia|apply Z.div_lt_upper_bound; lia].
Qed.

Lemma push_eq k s pa :
  level k s -> 0 <= k < MAPPER_PAGES -> 0 <= pa < 2 ^ 32 ->
  exists s', _mapping_push pa s = Ret (MMU_PAGE_SIZE * k, s') /\ level (k + 1) s' /\ same_below k s s' /\
    mem s' = mem s /\ free_frame s' = free_frame s /\ free_frames s' = free_frames s /\
    forall off, 0 <= off < MMU_PAGE_SIZE -> ptr s' (MMU_PAGE_SIZE * k + off) (page_base pa + off).
Proof.
  intros [Hm Hl] Hk Hpa. unfold _mapping_push, MAPPER_PAGES in *. cbv [bind gets].
  rewrite Hm. destruct (Z.leb_spec 10 k); [lia|]. destruct (zget_in_range (page_descriptor s) k) as [d Hd]; [lia|].
  rewrite Hd. cbv [need ret modify]. eexists. split; [reflexivity|]. split_and!.
  - split; cbn; [lia|by rewrite length_zset].
  - split; cbn; [|done..]. intros i Hi. apply zget_zset_ne; lia.
  - done.
  - done.
  - done.
  - intros off Hoff. eexists. unfold MMU_PAGE_SIZE in *.
    rewrite (Z.mul_comm 4096 k), Z.div_add_l, Z.div_small, Z.add_0_r by lia. split.
    + cbn. apply zget_zset_eq. lia.
    + rewrite (page_field_addr pa _ Hpa eq_refl).
      rewrite (Z.add_comm (k * 4096)), Z.mod_add, Z.mod_small by lia. done.
Qed.

Lemma pop_eq k s : level k s -> 0 < k -> _mapping_pop s = Ret (tt, set_mapping (k - 1) s).
Proof.
  intros [Hm _] Hk. unfold _mapping_pop. cbv [bind gets]. rewrite Hm. by destruct (Z.ltb_spec 0 k); [|lia].
Qed.

(** Memory with the page of [f] cleared. *)
Definition page_zeroed (f : Z) (m m' : gmap Z Z) : Prop :=
  forall b, word_at m' b = if decide (b / MMU_PAGE_SIZE = f / MMU_PAGE_SIZE) then 0 else word_at m b.

Lemma zero_4k_wp s p f :
  f mod MMU_PAGE_SIZE = 0 -> (forall off, 0 <= off < MMU_PAGE_SIZE -> ptr s (p + off) (f + off)) ->
  wp (mmu040_zero_4k p) (fun _ s' => exists m, s' = set_mem m s /\ page_zeroed f (mem s) m) s.
Proof.
  intros Hf Hp. unfold MMU_PAGE_SIZE in *.
  apply (wp_for_to (fun i s' => exists m, s' = set_mem m s /\ forall b,
    word_at m b = if decide (f / 4 <= b / 4 < f / 4 + 4 * i) then 0 else word_at (mem s) b)).
  - lia.
  - exists (mem s). split; [by destruct s|]. intros b. by rewrite decide_False by lia.
  - intros i s' Hi (m & -> & Hm).
    assert (forall m' off, 0 <= off < 4096 -> ptr (set_mem m' s) (p + off) (f + off)) as Hp' by (intros m'; apply Hp).
    rewrite !wp_bind. rewrite <- !Z.add_assoc. eapply wp_eq; [apply store32_eq, Hp'; lia|]. cbn beta.
    rewrite wp_bind. eapply wp_eq; [apply store32_eq, Hp'; lia|]. cbn beta.
    rewrite wp_bind. eapply wp_eq; [apply store32_eq, Hp'; lia|]. cbn beta.
    eapply wp_eq; [apply store32_eq, Hp'; lia|]. cbn beta.
    eexists. split; [unfold set_mem; cbn; reflexivity|]. intros b. rewrite !word_at_insert. cbn [mem set_mem].
    rewrite Hm. change (u32 0) with 0.
    replace ((f + 16 * i) / 4) with (f / 4 + 4 * i) by mod_lia.
    replace ((f + (16 * i + 4)) / 4) with (f / 4 + 4 * i + 1) by mod_lia.
    replace ((f + (16 * i + 8)) / 4) with (f / 4 + 4 * i + 2) by mod_lia.
    replace ((f + (16 * i + 12)) / 4) with (f / 4 + 4 * i + 3) by mod_lia.
    repeat case_decide; try done; lia.
  - intros s' (m & -> & Hm). exists m. split; [done|]. intros b. rewrite Hm. unfold MMU_PAGE_SIZE.
    assert (f / 4 <= b / 4 < f / 4 + 4 * 256 <-> b / 4096 = f / 4096) as E.
    { assert (b / 4096 = b / 4 / 1024) as -> by (rewrite Z.div_div by lia; done).
      assert (f / 4096 = f / 4 / 1024) as -> by (rewrite Z.div_div by lia; done).
      assert (f / 4 mod 1024 = 0) by mod_lia. mod_lia. }
    case_decide as E1; case_decide as E2; try done; tauto.
Qed.
End exact.

(** * The list of free frames *)

Definition frame_ok (f : Z) : Prop := f mod MMU_PAGE_SIZE = 0 /\ 0 < f < 2 ^ 32.

(** The list linked through the first words of the frames, from [head] to 0. *)
Fixpoint chain (m : gmap Z Z) (head : Z) (l : list Z) : Prop :=
  match l with
  | [] => head = 0
  | f :: l' => head = f /\ chain m (word_at m f) l'
  end.

(** The counter never exceeds the length of the list. *)
Record free_list (l : list Z) (s : Mmu040) : Prop := {
  fl_chain : chain (mem s) (free_frame s) l;
  fl_frames : Forall frame_ok l;
  fl_nodup : NoDup l;
  fl_count : 0 <= free_frames s <= Z.of_nat (length l);
  fl_small : free_frames s < 2 ^ 32;
}.

Section frames.
Implicit Types s : Mmu040.

Lemma chain_same m m' head l : (forall f, f ∈ l -> word_at m' f = word_at m f) -> chain m head l -> chain m' head l.
Proof.
  revert head. induction l as [|f l IH]; intros head Hs; [done|]. cbn [chain]. intros [-> Hc]. split; [done|].
  rewrite Hs by set_solver. apply IH; [|done]. intros g Hg. apply Hs. set_solver.
Qed.

(** Distinct frames have distinct pages. *)
Lemma frames_pages f g : f mod MMU_PAGE_SIZE = 0 -> g mod MMU_PAGE_SIZE = 0 -> f / MMU_PAGE_SIZE = g / MMU_PAGE_SIZE -> f = g.
Proof. unfold MMU_PAGE_SIZE. intros Hf Hg H. mod_lia. Qed.

Lemma page_base_frame f : f mod MMU_PAGE_SIZE = 0 -> page_base f = f.
Proof. unfold page_base. lia. Qed.

Lemma alloc_frame_eq k s f l :
  level k s -> 0 <= k < MAPPER_PAGES -> free_list (f :: l) s -> 0 < free_frames s ->
  exists s', _alloc_frame s = Ret (f, s') /\ level k s' /\ same_below k s s' /\
    page_zeroed f (mem s) (mem s') /\ free_list l s' /\ free_frames s' = free_frames s - 1.
Proof.
  intros Hk Hkr Hl Hn. destruct (fl_chain _ _ Hl) as [Hhd Hc].
  pose proof (fl_frames _ _ Hl) as [Hf Hfs]%Forall_cons. pose proof (fl_nodup _ _ Hl) as [Hnin Hnd]%NoDup_cons.
  pose proof (fl_count _ _ Hl) as Hcnt. pose proof (fl_small _ _ Hl) as Hsmall. destruct Hf as [Hfa Hfr].
  unfold _alloc_frame. cbv [bind gets]. rewrite (proj2 (Z.eqb_neq _ _)) by lia. cbv [modify].
  set (s1 := set_free_frames (u32 (free_frames s - 1)) s). change (free_frame s1) with (free_frame s). rewrite Hhd.
  destruct (push_eq k s1 f Hk Hkr ltac:(lia)) as (s2 & -> & Hk2 & Hsb & Hm & Hff & Hfn & Hptr).
  rewrite (page_base_frame _ Hfa) in Hptr.
  rewrite (load32_eq s2 (MMU_PAGE_SIZE * k) f).
  2: { rewrite <- (Z.add_0_r (MMU_PAGE_SIZE * k)), <- (Z.add_0_r f) at 1. apply Hptr. done. }
  set (s3 := set_free_frame _ s2).
  assert (wp (mmu040_zero_4k (MMU_PAGE_SIZE * k)) (fun _ s' => exists m, s' = set_mem m s3 /\ page_zeroed f (mem s3) m) s3)
    as ([] & s4 & -> & m & -> & Hz)%wp_run by (by apply zero_4k_wp).
  rewrite (pop_eq (k + 1)) by (first [exact Hk2|lia]). rewrite Z.add_simpl_r. cbv [ret].
  eexists. split; [reflexivity|]. split_and!.
  - split; [done|apply Hk2].
  - apply (same_below_trans _ _ s1); [by split|]. by destruct Hsb.
  - change (mem s3) with (mem s2) in Hz. rewrite Hm in Hz. exact Hz.
  - split; cbn; [|done|done| |].
    + rewrite Hm. apply (chain_same (mem s)); [|exact Hc]. intros g Hg. rewrite Hz, decide_False.
      * change (mem s3) with (mem s2). by rewrite Hm.
      * intros E. apply Hnin. rewrite (frames_pages f g); [done|done| |done].
        by apply (proj1 (Forall_forall _ _) Hfs g Hg).
    + rewrite Hfn. cbn. rewrite u32_small by lia. cbn in Hcnt. lia.
    + rewrite Hfn. cbn. rewrite u32_small by lia. lia.
  - cbn. rewrite Hfn. cbn. by rewrite u32_small by lia.
Qed.

Lemma free_frame_eq k s f l :
  level k s -> 0 <= k < MAPPER_PAGES -> frame_ok f -> f ∉ l -> free_list l s ->
  exists s', _free_frame f s = Ret (tt, s') /\ level k s' /\ same_below k s s' /\
    (forall b, word_at (mem s') b = if decide (f / 4 = b / 4) then u32 (free_frame s) else word_at (mem s) b) /\
    free_list (f :: l) s' /\ free_frames s' = free_frames s.
Proof.
  intros Hk Hkr Hf Hnin Hl. destruct Hf as [Hfa Hfr]. unfold _free_frame.
  destruct (push_eq k s f Hk Hkr ltac:(lia)) as (s2 & Hpush & Hk2 & Hsb & Hm & Hff & Hfn & Hptr).
  rewrite (bind_Ret _ _ _ _ _ Hpush). rewrite (page_base_frame _ Hfa) in Hptr. cbv [bind gets].
  rewrite (store32_eq s2 (MMU_PAGE_SIZE * k) f).
  2: { rewrite <- (Z.add_0_r (MMU_PAGE_SIZE * k)), <- (Z.add_0_r f). apply Hptr. done. }
  cbv [modify]. rewrite (pop_eq (k + 1)) by (first [exact Hk2|lia]). rewrite Z.add_simpl_r.
  eexists. split; [reflexivity|].
  assert (forall b, word_at (<[f / 4 := u32 (free_frame s2)]> (mem s2)) b =
    if decide (f / 4 = b / 4) then u32 (free_frame s) else word_at (mem s) b) as Hw.
  { intros b. by rewrite word_at_insert, Hm, Hff. }
  split_and!.
  - split; [done|apply Hk2].
  - by destruct Hsb.
  - exact Hw.
  - split; cbn.
    + split; [done|]. rewrite Hw, decide_True by done.
      assert (u32 (free_frame s) = free_frame s) as ->.
      { pose proof (fl_chain _ _ Hl) as Hc. pose proof (fl_frames _ _ Hl) as Hfs. apply u32_small.
        destruct l as [|g l]; cbn in Hc; [lia|]. destruct Hc as [-> _]. apply Forall_cons in Hfs as [[_ ?] _]. lia. }
      apply (chain_same (mem s)); [|apply Hl]. intros g Hg. rewrite Hw, decide_False; [done|].
      intros E. apply Hnin. assert (f = g) as ->; [|done].
      destruct (proj1 (Forall_forall _ _) (fl_frames _ _ Hl) g Hg) as [Hga _].
      unfold MMU_PAGE_SIZE in *. mod_lia.
    + constructor; [done|apply Hl].
    + constructor; [done|apply Hl].
    + rewrite Hfn. pose proof (fl_count _ _ Hl). lia.
    + rewrite Hfn. apply Hl.
  - done.
Qed.

(** Allocating a frame takes the head of the list of free frames, clears
    its page, and keeps the rest of the list and of memory; with the counter at
    zero the result is 0 and nothing changes. *)
Theorem alloc_frame_correct k s f l :
  level k s -> 0 <= k < MAPPER_PAGES -> free_list (f :: l) s ->
  if free_frames s =? 0 then _alloc_frame s = Ret (0, s) else
  exists s', _alloc_frame s = Ret (f, s') /\ free_list l s' /\ free_frames s' = free_frames s - 1 /\
    level k s' /\ page_zeroed f (mem s) (mem s').
Proof.
  intros Hk Hkr Hl. destruct (Z.eqb_spec (free_frames s) 0) as [E|E].
  - unfold _alloc_frame. cbv [bind gets]. by rewrite E.
  - destruct (alloc_frame_eq k s f l Hk Hkr Hl) as (s' & Ha & Hk' & Hsb & Hz & Hl' & Hn);
      [pose proof (fl_count _ _ Hl); lia|]. by exists s'.
Qed.

(** Freeing a frame puts it at the head of the list, but the counter of
    free frames is never raised: once it is zero, allocation fails for ever,
    also directly after a frame was freed. *)
Theorem freed_frames_are_lost k s f l :
  level k s -> 0 <= k < MAPPER_PAGES -> frame_ok f -> f ∉ l -> free_list l s -> free_frames s = 0 ->
  exists s', (_free_frame f ;; _alloc_frame) s = Ret (0, s') /\ free_list (f :: l) s' /\ free_frames s' = 0.
Proof.
  intros Hk Hkr Hf Hnin Hl Hn.
  destruct (free_frame_eq k s f l Hk Hkr Hf Hnin Hl) as (s' & Hfree & _ & _ & _ & Hl' & Hn').
  exists s'. rewrite (bind_Ret _ _ _ _ _ Hfree). unfold _alloc_frame. cbv [bind gets]. rewrite Hn', Hn. by split_and!.
Qed.
End frames.

(** * Address spaces *)

(** The three indices of a virtual address. *)
Definition idx (n : nat) (v : Z) : Z :=
  match n with O => root_index v | 1%nat => pointer_index v | _ => page_index v end.
(** The lowest bit of the address field of a descriptor, by level. *)
Definition tpos (n : nat) : Z := match n with O => 9 | _ => 7 end.

Definition table_addr (pos w : Z) : option Z :=
  if UDT_IS_RESIDENT (upper_level_descriptor_type w) then Some (u32 (Z.shiftl (field pos (32 - pos) w) pos)) else None.

(** The address of the descriptor of [v] at level [n] below the root table
    [R]: root, pointer and page descriptor. *)
Fixpoint entry (m : gmap Z Z) (R : Z) (n : nat) (v : Z) : option Z :=
  match n with
  | O => Some (R + 4 * idx 0 v)
  | S n' => match entry m R n' v with
            | Some e => match table_addr (tpos n') (word_at m e) with
                        | Some T => Some (T + 4 * idx n v)
                        | None => None
                        end
            | None => None
            end
  end.

(** The page descriptor that the translation tables give for [v]. *)
Definition translate (m : gmap Z Z) (R v : Z) : option Z :=
  match entry m R 2 v with
  | Some e => let d := word_at m e in if PDT_IS_RESIDENT (page_descriptor_type d) then Some d else None
  | None => None
  end.
Definition frame_of (d : Z) : Z := PAGE_LEVEL_FIELD_ADDR (physical_address d).

Definition same_index (n : nat) (v w : Z) : Prop := forall i, (i <= n)%nat -> idx i v = idx i w.

#[export] Instance same_index_dec n v w : Decision (same_index n v w).
Proof.
  destruct (decide (Forall (fun i => idx i v = idx i w) (seq 0 (S n)))) as [H|H]; [left|right].
  - intros i Hi. apply (proj1 (Forall_forall _ _) H). apply elem_of_seq. lia.
  - intros Hs. apply H, Forall_forall. intros i [_ Hi]%elem_of_seq. apply Hs. lia.
Defined.

(** The tables of a space form a tree, are aligned and are none of the frames [l]. *)
Record space_ok (m : gmap Z Z) (R : Z) (l : list Z) : Prop := {
  so_root : R mod 512 = 0 /\ 0 <= R < 2 ^ 32;
  so_out n v e f : (n <= 2)%nat -> entry m R n v = Some e -> f ∈ l -> e / MMU_PAGE_SIZE <> f / MMU_PAGE_SIZE;
  so_inj n n' v w e : (n <= 2)%nat -> (n' <= 2)%nat -> entry m R n v = Some e -> entry m R n' w = Some e ->
    n = n' /\ same_index n v w;
  so_align v e : entry m R 2 v = Some e -> (e - 4 * page_index v) mod 256 = 0;
}.

Lemma idx_range n v : 0 <= idx n v < 128 /\ 0 <= page_index v < 64.
Proof.
  pose proof (index_range (Z.shiftr v 25) 127 7 eq_refl ltac:(lia)) as H1.
  pose proof (index_range (Z.shiftr v 18) 127 7 eq_refl ltac:(lia)) as H2.
  pose proof (index_range (Z.shiftr v 12) 63 6 eq_refl ltac:(lia)) as H3.
  split; [destruct n as [|[|]]; unfold idx, root_index, pointer_index, page_index|unfold page_index]; lia.
Qed.

Lemma table_addr_spec pos w T :
  0 <= pos < 32 -> table_addr pos w = Some T -> T mod 2 ^ pos = 0 /\ 0 <= T < 2 ^ 32.
Proof.
  intros Hp. unfold table_addr. case_goal; [|done]. intros [= <-].
  pose proof (field_range pos (32 - pos) w ltac:(lia)) as Hr. rewrite Z.shiftl_mul_pow2 by lia.
  assert (2 ^ (32 - pos) * 2 ^ pos = 2 ^ 32) as Epow by (rewrite <- Z.pow_add_r by lia; f_equal; lia).
  assert (0 < 2 ^ pos) by (apply Z.pow_pos_nonneg; lia).
  rewrite u32_small by nia. split; [apply Z.mod_mul; lia|nia].
Qed.

Section spaces_mem.
Context (m : gmap Z Z) (R : Z).

Lemma same_index_le n n' v w : (n' <= n)%nat -> same_index n v w -> same_index n' v w.
Proof. intros Hn H i Hi. apply H. lia. Qed.

Lemma entry_same_index n v w : same_index n v w -> entry m R n v = entry m R n w.
Proof.
  induction n as [|n IH]; intros H; cbn [entry].
  - by rewrite (H 0%nat).
  - rewrite IH by (by apply (same_index_le (S n)); [lia|]). by rewrite (H (S n)).
Qed.

Lemma entry_aligned n v e : R mod 512 = 0 -> entry m R n v = Some e -> e mod 4 = 0.
Proof.
  intros HR. destruct n as [|n]; cbn [entry].
  - intros [= <-]. mod_lia.
  - destruct (entry m R n v) as [e'|]; [|done]. destruct (table_addr _ _) as [T|] eqn:ET; [|done]. intros [= <-].
    apply table_addr_spec in ET; [|destruct n; cbn; lia]. destruct n as [|n]; cbn [tpos] in ET; mod_lia.
Qed.

Lemma entry_word e e' : e mod 4 = 0 -> e' mod 4 = 0 -> e / 4 = e' / 4 -> e = e'.
Proof. mod_lia. Qed.

(** Installing a new, empty table in frame [f] as the descriptor [W] of [v0]
    at level [lvl]. *)
Section install.
Context (m' : gmap Z Z) (l l' : list Z) (f W e0 v0 : Z) (lvl : nat).
Hypothesis Hok : space_ok m R l.
Hypothesis Hlvl : (lvl <= 1)%nat.
Hypothesis Hf : f ∈ l.
Hypothesis Hfa : f mod MMU_PAGE_SIZE = 0.
Hypothesis He0 : entry m R lvl v0 = Some e0.
Hypothesis Hnone : table_addr (tpos lvl) (word_at m e0) = None.
Hypothesis HW : table_addr (tpos lvl) W = Some f.
Hypothesis Hm' : forall b, word_at m' b =
  if decide (b / MMU_PAGE_SIZE = f / MMU_PAGE_SIZE) then 0 else if decide (b / 4 = e0 / 4) then W else word_at m b.

Lemma new_entry_page n v : (f + 4 * idx n v) / MMU_PAGE_SIZE = f / MMU_PAGE_SIZE.
Proof using Hfa. clear - Hfa. pose proof (idx_range n v). unfold MMU_PAGE_SIZE in *. mod_lia. Qed.

Lemma entry_install n v : (n <= 2)%nat ->
  entry m' R n v = if decide (n = S lvl /\ same_index lvl v v0) then Some (f + 4 * idx n v) else entry m R n v.
Proof.
  induction n as [|n IH]; intros Hn.
  { by rewrite decide_False by lia. }
  cbn [entry]. rewrite IH by lia. destruct (decide (n = S lvl /\ same_index lvl v v0)) as [[-> Hs]|Hne].
  - rewrite Hm', decide_True by apply new_entry_page.
    replace (table_addr (tpos (S lvl)) 0) with (@None Z) by done.
    rewrite decide_False by lia. cbn [entry]. rewrite (entry_same_index lvl v v0) by done. by rewrite He0, Hnone.
  - destruct (entry m R n v) as [e|] eqn:Ee.
    + rewrite Hm', decide_False by (apply (so_out _ _ _ Hok n v); done || lia).
      destruct (decide (e / 4 = e0 / 4)) as [E|E].
      * assert (e = e0) as ->.
        { apply entry_word; [eapply entry_aligned; [apply Hok|exact Ee]|eapply entry_aligned; [apply Hok|exact He0]|done]. }
        destruct (so_inj _ _ _ Hok n lvl v v0 e0) as [-> Hs]; [lia|lia|done|done|].
        by rewrite HW, decide_True.
      * rewrite decide_False; [done|]. intros [[= ->] Hs]. rewrite (entry_same_index lvl v v0), He0 in Ee by done. congruence.
    + rewrite decide_False; [done|]. intros [[= ->] Hs]. rewrite (entry_same_index lvl v v0), He0 in Ee by done. congruence.
Qed.

Lemma translate_install v : translate m' R v = translate m R v.
Proof.
  unfold translate. rewrite entry_install by done. case_decide as Hc.
  - destruct Hc as [E Hs]. assert (lvl = 1%nat) as -> by lia. cbn [entry].
    rewrite Hm', decide_True by apply new_entry_page.
    change (entry m R 0 v0) with (entry m R 0 v0) in He0. pose proof (entry_same_index 1 v v0 Hs) as E1.
    cbn [entry] in E1, He0. rewrite E1, He0, Hnone. done.
  - destruct (entry m R 2 v) as [e|] eqn:Ee; [|done].
    rewrite Hm', decide_False by (by apply (so_out _ _ _ Hok 2 v)). rewrite decide_False; [done|].
    intros E. assert (e = e0) as ->.
    { apply entry_word; [eapply entry_aligned; [apply Hok|exact Ee]|eapply entry_aligned; [apply Hok|exact He0]|done]. }
    destruct (so_inj _ _ _ Hok 2 lvl v v0 e0) as [Hl _]; [lia|lia|done|done|]. lia.
Qed.

Lemma space_ok_install :
  (forall g, g ∈ l' -> g ∈ l /\ g mod MMU_PAGE_SIZE = 0 /\ g <> f) -> space_ok m' R l'.
Proof.
  intros Hl'. split; [apply Hok| | |].
  - intros n v e g Hn. rewrite entry_install by done. intros He Hg. destruct (Hl' g Hg) as (Hgl & Hga & Hgf).
    case_decide as Hc; [|by eapply so_out].
    injection He as <-. rewrite new_entry_page. intros E. apply Hgf. symmetry. by apply frames_pages.
  - intros n n' v w e Hn Hn'. rewrite !entry_install by done.
    repeat case_decide; try by apply (so_inj _ _ _ Hok).
    + intros [= <-] [= E]. destruct H as [-> Hs], H0 as [-> Hs']. split; [done|]. intros i Hi.
      destruct (decide (i = S lvl)) as [->|]; [lia|]. transitivity (idx i v0); [apply Hs|symmetry; apply Hs']; lia.
    + intros [= <-] He. exfalso. eapply (so_out _ _ _ Hok n' w); [done|exact He|exact Hf|]. apply new_entry_page.
    + intros He [= <-]. exfalso. eapply (so_out _ _ _ Hok n v); [done|exact He|exact Hf|]. apply new_entry_page.
  - intros v e. rewrite entry_install by done. case_decide as Hc; [|apply (so_align _ _ _ Hok)].
    intros [= <-]. change (idx 2 v) with (page_index v). unfold MMU_PAGE_SIZE in *. mod_lia.
Qed.
End install.

(** Writing the page descriptor [W] of [v0] (and words outside of the tables). *)
Section map.
Context (m' : gmap Z Z) (l : list Z) (W e0 v0 : Z).
Hypothesis Hok : space_ok m R l.
Hypothesis He0 : entry m R 2 v0 = Some e0.
Hypothesis Hm' : forall n v e, (n <= 2)%nat -> entry m R n v = Some e ->
  word_at m' e = if decide (e = e0) then W else word_at m e.

Lemma entry_map n v : (n <= 2)%nat -> entry m' R n v = entry m R n v.
Proof.
  induction n as [|n IH]; intros Hn; [done|]. cbn [entry]. rewrite IH by lia.
  destruct (entry m R n v) as [e|] eqn:Ee; [|done]. rewrite (Hm' n v) by (done || lia).
  rewrite decide_False; [done|]. intros ->.
  destruct (so_inj _ _ _ Hok n 2 v v0 e0) as [E _]; [lia|lia|done|done|]. lia.
Qed.

Lemma translate_map v :
  translate m' R v = if decide (same_index 2 v v0)
                     then if PDT_IS_RESIDENT (page_descriptor_type W) then Some W else None
                     else translate m R v.
Proof.
  unfold translate. rewrite entry_map by done. case_decide as Hs.
  - rewrite (entry_same_index 2 v v0), He0 by done. by rewrite (Hm' 2 v0 e0), decide_True.
  - destruct (entry m R 2 v) as [e|] eqn:Ee; [|done]. rewrite (Hm' 2 v) by done.
    rewrite decide_False; [done|]. intros ->. by destruct (so_inj _ _ _ Hok 2 2 v v0 e0).
Qed.

Lemma space_ok_map : space_ok m' R l.
Proof.
  split; [apply Hok| | |].
  - intros n v e f Hn. rewrite entry_map by done. by apply (so_out _ _ _ Hok).
  - intros n n' v w e Hn Hn'. rewrite !entry_map by done. by apply (so_inj _ _ _ Hok).
  - intros v e. rewrite entry_map by done. apply (so_align _ _ _ Hok).
Qed.
End map.
End spaces_mem.

Section install_ops.
Implicit Types s : Mmu040.

Lemma map_table_eq k s ph n :
  level k s -> 0 <= k < MAPPER_PAGES -> 0 <= ph < 2 ^ 32 -> ph mod MMU_PAGE_SIZE + 4 * n <= MMU_PAGE_SIZE ->
  exists p s', map_table ph s = Ret (p, s') /\ level (k + 1) s' /\ same_below k s s' /\
    mem s' = mem s /\ free_frame s' = free_frame s /\ free_frames s' = free_frames s /\
    forall i, 0 <= i < n -> ptr s' (p + 4 * i) (ph + 4 * i) /\ 0 <= p + 4 * i < MMU_PAGE_SIZE * (k + 1).
Proof.
  intros Hk Hkr Hph Hn. destruct (push_eq k s ph Hk Hkr Hph) as (s' & Hpush & Hk' & Hsb & Hm & Hff & Hfn & Hptr).
  exists (MMU_PAGE_SIZE * k + ph mod MMU_PAGE_SIZE), s'. unfold map_table.
  rewrite (bind_Ret _ _ _ _ _ Hpush). split_and!; try done.
  - unfold ret, REPAGE. change MMU_PAGE_MASK with (Z.ones 12). rewrite !Z.land_ones by lia.
    unfold MMU_PAGE_SIZE. change (2 ^ 12) with 4096. rewrite (Z.mul_comm 4096 k), Z.mod_mul by lia. by rewrite Z.sub_0_r.
  - intros i Hi. unfold MMU_PAGE_SIZE in *. pose proof (Z.mod_pos_bound ph 4096 ltac:(lia)). split; [|lia].
    specialize (Hptr (ph mod 4096 + 4 * i) ltac:(lia)). unfold page_base, MMU_PAGE_SIZE in Hptr.
    rewrite <- Z.add_assoc. replace (ph + 4 * i) with (ph - ph mod 4096 + (ph mod 4096 + 4 * i)) by lia. exact Hptr.
Qed.

Lemma udt_field w : UDT_IS_RESIDENT (upper_level_descriptor_type (u32 (set_field 0 2 MMU040_UPPER_LEVEL_DESCRIPTOR_TYPE_RESIDENT w))) = true.
Proof. unfold upper_level_descriptor_type. rewrite field_u32, field_set_same by lia. done. Qed.

Lemma set_table_desc_eq s p a n f :
  ptr s p a -> f mod MMU_PAGE_SIZE = 0 -> 0 <= f < 2 ^ 32 ->
  exists m W, set_table_desc (tpos n) p (Z.shiftr f (tpos n)) s = Ret (tt, set_mem m s) /\
    table_addr (tpos n) W = Some f /\
    forall b, word_at m b = if decide (b / 4 = a / 4) then W else word_at (mem s) b.
Proof.
  intros Hp Hf Hfr. unfold set_table_desc. assert (7 <= tpos n <= 9) as Hpos by (destruct n; cbn; lia).
  set (pos := tpos n) in *. rewrite (bind_Ret _ _ _ _ _ (load32_eq _ _ _ Hp)).
  rewrite (bind_Ret _ _ _ _ _ (store32_eq _ _ _ _ Hp)).
  set (W1 := u32 (set_field pos (32 - pos) (Z.shiftr f pos) (word_at (mem s) a))).
  set (s1 := set_mem _ s). assert (ptr s1 p a) as Hp1 by exact Hp.
  rewrite (bind_Ret _ _ _ _ _ (load32_eq _ _ _ Hp1)). rewrite (store32_eq _ _ _ _ Hp1).
  assert (word_at (mem s1) a = W1) as -> by (cbn; rewrite word_at_insert; by rewrite decide_True).
  eexists. exists (u32 (set_field 0 2 MMU040_UPPER_LEVEL_DESCRIPTOR_TYPE_RESIDENT W1)).
  split; [reflexivity|]. split.
  - unfold table_addr. rewrite udt_field. f_equal. rewrite field_u32, field_set_other by lia. subst W1.
    rewrite field_u32, field_set_same by lia. rewrite Z.shiftr_div_pow2, Z.shiftl_mul_pow2 by lia.
    assert (0 < 2 ^ pos) by (apply Z.pow_pos_nonneg; lia).
    assert (2 ^ (32 - pos) * 2 ^ pos = 2 ^ 32) as E by (rewrite <- Z.pow_add_r by lia; f_equal; lia).
    rewrite (Z.mod_small (f / 2 ^ pos)) by (split; [apply Z.div_pos; lia|apply Z.div_lt_upper_bound; lia]).
    assert (f mod 2 ^ pos = 0).
    { unfold MMU_PAGE_SIZE in Hf. subst pos. destruct n; cbn [tpos]; mod_lia. }
    pose proof (Z.div_mod f (2 ^ pos) ltac:(lia)). rewrite u32_small; lia.
  - intros b. rewrite word_at_insert. destruct (decide (a / 4 = b / 4)), (decide (b / 4 = a / 4)); try done; try lia.
    cbn. rewrite word_at_insert. by rewrite decide_False.
Qed.

(** After [table_behind] at level [n] of the walk for [v]: there is a table
    behind the descriptor, [q] points to it, and no translation has changed. *)
Record table_ready (k R v : Z) (n : nat) (occ : list Z) (s : Mmu040) (q : Z) (s' : Mmu040) (l' : list Z) : Prop := {
  tr_level : level (k + 1) s';
  tr_below : same_below k s s';
  tr_list : free_list l' s';
  tr_count : free_frames s - 1 <= free_frames s';
  tr_nodup : NoDup (occ ++ l');
  tr_ok : space_ok (mem s') R (occ ++ l');
  tr_same w : translate (mem s') R w = translate (mem s) R w;
  tr_entry : exists T, ptr s' (q + 4 * idx (S n) v) T /\ entry (mem s') R (S n) v = Some T;
  tr_range : 0 <= q + 4 * idx (S n) v < MMU_PAGE_SIZE * (k + 1);
}.

(** The tables are aligned: an entry is in the page in which its table starts. *)
Lemma table_fits m R l n v T :
  (n <= 1)%nat -> space_ok m R l -> entry m R (S n) v = Some (T + 4 * idx (S n) v) -> T mod 2 ^ tpos n = 0 ->
  T mod MMU_PAGE_SIZE + 4 * (idx (S n) v + 1) <= MMU_PAGE_SIZE.
Proof.
  intros Hn Hm HT HTa. pose proof (idx_range (S n) v) as [Hi1 Hi2]. unfold MMU_PAGE_SIZE.
  destruct n as [|[|]]; [..|lia]; cbn [tpos] in HTa.
  - mod_lia.
  - pose proof (so_align _ _ _ Hm v _ HT) as Ha. change (idx 2 v) with (page_index v) in *.
    rewrite Z.add_simpl_r in Ha. mod_lia.
Qed.

Section behind.
Context (k R v e p : Z) (n : nat) (occ : list Z) (s : Mmu040).
Hypothesis Hk : level k s.
Hypothesis Hkr : 0 <= k < 9.
Hypothesis Hn : (n <= 1)%nat.
Hypothesis Hpr : 0 <= p < MMU_PAGE_SIZE * k.
Hypothesis He : entry (mem s) R n v = Some e.
Hypothesis Hp : ptr s p e.

Lemma table_behind_resident l T :
  free_list l s -> NoDup (occ ++ l) -> space_ok (mem s) R (occ ++ l) ->
  table_addr (tpos n) (word_at (mem s) e) = Some T ->
  exists q s', map_table T s = Ret (q, s') /\ table_ready k R v n occ s q s' l.
Proof.
  intros Hl Hnd Hok HT. pose proof (idx_range (S n) v) as [Hir _].
  assert (entry (mem s) R (S n) v = Some (T + 4 * idx (S n) v)) as HeT by (cbn [entry]; by rewrite He, HT).
  apply table_addr_spec in HT as [HTa HTr]; [|destruct n; cbn; lia].
  destruct (map_table_eq k s T (idx (S n) v + 1)) as (q & s' & Hmap & Hk' & Hsb & Hm & Hfr & Hfn & Hq);
    [done|unfold MAPPER_PAGES; lia|done|by eapply table_fits|].
  exists q, s'. split; [done|]. destruct (Hq (idx (S n) v) ltac:(lia)) as [Hqp Hqr].
  split; rewrite ?Hm, ?Hfn; try done; [|lia|].
  - destruct Hl. split; rewrite ?Hm, ?Hfr, ?Hfn; done.
  - eexists. by split.
Qed.

(** The words after the new table was installed in frame [f]. *)
Lemma install_words m m1 m2 f W :
  e / MMU_PAGE_SIZE <> f / MMU_PAGE_SIZE -> page_zeroed f m m1 ->
  (forall b, word_at m2 b = if decide (b / 4 = e / 4) then W else word_at m1 b) ->
  forall b, word_at m2 b = if decide (b / MMU_PAGE_SIZE = f / MMU_PAGE_SIZE) then 0
    else if decide (b / 4 = e / 4) then W else word_at m b.
Proof.
  clear. intros Hef Hz Hm b. rewrite Hm, Hz. destruct (decide (b / MMU_PAGE_SIZE = f / MMU_PAGE_SIZE)) as [E1|]; [|done].
  rewrite decide_False; [done|]. intros E2. apply Hef. rewrite <- E1. unfold MMU_PAGE_SIZE.
  rewrite <- !(Z.div_div _ 4 1024) by lia. by rewrite E2.
Qed.

Lemma frames_remain f l :
  Forall frame_ok occ -> Forall frame_ok l -> NoDup (occ ++ f :: l) ->
  NoDup (occ ++ l) /\ forall g, g ∈ occ ++ l -> g ∈ occ ++ f :: l /\ g mod MMU_PAGE_SIZE = 0 /\ g <> f.
Proof.
  clear. intros Ho Hl (H1 & Hd & [Hfl H2]%NoDup_cons)%NoDup_app. split.
  - apply NoDup_app. split_and!; [done| |done]. intros x Hx Hxl. apply (Hd x Hx). by right.
  - intros g [Hg|Hg]%elem_of_app; (split; [|split]).
    + apply elem_of_app. by left.
    + by apply (proj1 (Forall_forall _ _) Ho).
    + intros ->. apply (Hd f Hg). by left.
    + apply elem_of_app. right. by right.
    + by apply (proj1 (Forall_forall _ _) Hl).
    + intros ->. done.
Qed.

Lemma table_behind_new f l :
  free_list (f :: l) s -> 0 < free_frames s -> Forall frame_ok occ -> NoDup (occ ++ f :: l) ->
  space_ok (mem s) R (occ ++ f :: l) -> table_addr (tpos n) (word_at (mem s) e) = None ->
  exists q s', (let* ph := _alloc_frame in let* table := _mapping_push ph in
     set_table_desc (tpos n) p (Z.shiftr ph (tpos n)) ;; ret table) s = Ret (q, s') /\
    table_ready k R v n occ s q s' l.
Proof.
  intros Hl Hff Hocc Hnd Hok Hnone. pose proof (idx_range (S n) v) as [Hir _].
  destruct (alloc_frame_eq k s f l Hk ltac:(unfold MAPPER_PAGES; lia) Hl Hff)
    as (s1 & Ha & Hk1 & Hsb1 & Hz & Hl1 & Hn1).
  rewrite (bind_Ret _ _ _ _ _ Ha). pose proof (fl_frames _ _ Hl) as [[Hfa Hfr] Hfs]%Forall_cons.
  destruct (push_eq k s1 f Hk1 ltac:(unfold MAPPER_PAGES; lia) ltac:(lia))
    as (s2 & Hpush & Hk2 & Hsb2 & Hm2 & Hfr2 & Hfn2 & Hptr2).
  rewrite (bind_Ret _ _ _ _ _ Hpush). rewrite (page_base_frame _ Hfa) in Hptr2.
  assert (same_below k s s2) as Hsb by (by eapply same_below_trans).
  destruct (set_table_desc_eq s2 p e n f) as (m & W & Hset & HW & Hm); [by eapply ptr_below|done|lia|].
  rewrite (bind_Ret _ _ _ _ _ Hset). unfold ret. rewrite Hm2 in Hm.
  assert (f ∈ occ ++ f :: l) as Hfin by (apply elem_of_app; right; by left).
  assert (e / MMU_PAGE_SIZE <> f / MMU_PAGE_SIZE) as Hef by (apply (so_out _ _ _ Hok n v e f); [lia|done..]).
  pose proof (install_words _ _ _ f W Hef Hz Hm) as Hw.
  destruct (frames_remain f l Hocc Hfs Hnd) as [Hnd' Hsub].
  exists (MMU_PAGE_SIZE * k), (set_mem m s2). split; [done|]. split; try done; cbn [mem set_mem].
  - by destruct Hsb.
  - split; cbn; rewrite ?Hfr2, ?Hfn2; [|apply Hl1..]. apply (chain_same (mem s1)); [|apply Hl1].
    intros g Hg. rewrite Hm, decide_False; [done|]. intros E.
    apply (so_out _ _ _ Hok n v e g); [lia|done|apply elem_of_app; right; by right|].
    unfold MMU_PAGE_SIZE. rewrite <- !(Z.div_div _ 4 1024) by lia. by rewrite E.
  - cbn. rewrite Hfn2. lia.
  - by eapply (space_ok_install (mem s) R m _ _ f W e v n).
  - intros w. by eapply (translate_install (mem s) R m _ f W e v n).
  - exists (f + 4 * idx (S n) v). split.
    + apply Hptr2. unfold MMU_PAGE_SIZE. lia.
    + erewrite (entry_install (mem s) R m _ f W e v n); try done; [|lia]. by rewrite decide_True.
  - unfold MMU_PAGE_SIZE. lia.
Qed.

Lemma table_behind_eq l :
  free_list l s -> 0 < free_frames s -> Forall frame_ok occ -> NoDup (occ ++ l) -> space_ok (mem s) R (occ ++ l) ->
  exists q s' l', table_behind (tpos n) p s = Ret (q, s') /\ table_ready k R v n occ s q s' l'.
Proof.
  intros Hl Hff Hocc Hnd Hok. unfold table_behind. rewrite (bind_Ret _ _ _ _ _ (load32_eq _ _ _ Hp)).
  destruct (UDT_IS_RESIDENT (upper_level_descriptor_type (word_at (mem s) e))) eqn:Er.
  - destruct (table_behind_resident l (u32 (Z.shiftl (field (tpos n) (32 - tpos n) (word_at (mem s) e)) (tpos n))))
      as (q & s' & Hq); [done|done|done|unfold table_addr; by rewrite Er|]. by exists q, s', l.
  - destruct l as [|f l]; [pose proof (fl_count _ _ Hl); cbn in *; lia|].
    destruct (table_behind_new f l) as (q & s' & Hq); [done..|unfold table_addr; by rewrite Er|]. by exists q, s', l.
Qed.
End behind.
End install_ops.

Section alloc_at.
Implicit Types s : Mmu040.

Lemma set_page_field_eq s p a pos width v :
  ptr s p a ->
  exists m, set_page_field pos width p v s = Ret (tt, set_mem m s) /\
    forall b, word_at m b = if decide (b / 4 = a / 4) then u32 (set_field pos width v (word_at (mem s) a)) else word_at (mem s) b.
Proof.
  intros Hp. unfold set_page_field. rewrite (bind_Ret _ _ _ _ _ (load32_eq _ _ _ Hp)), (store32_eq _ _ _ _ Hp).
  eexists. split; [reflexivity|]. intros b. rewrite word_at_insert.
  destruct (decide (a / 4 = b / 4)), (decide (b / 4 = a / 4)); done || lia.
Qed.

(** The descriptor of a page of frame [f]. *)
Definition page_desc_ok (f : Z) (supervisor write_protected : bool) (d : Z) : Prop :=
  PDT_IS_RESIDENT (page_descriptor_type d) = true /\ frame_of d = page_base f /\
  supervisor_bit d = Z.b2z supervisor /\ write_protected_bit d = Z.b2z write_protected /\
  cache_mode d = MMU040_CACHE_MODE_CACHE_COPY_BACK.

(** The assignments to the fields of the page descriptor. *)
Lemma set_fields_eq s p a f sv wpb (k : M Mmu040 Z) :
  ptr s p a -> 0 <= f < 2 ^ 32 ->
  exists m W, (set_page_field 12 20 p (PAGE_LEVEL_ADDR_FIELD f) ;;
    set_page_field 7 1 p (Z.b2z sv) ;;
    set_page_field 5 2 p MMU040_CACHE_MODE_CACHE_COPY_BACK ;;
    set_page_field 2 1 p (Z.b2z wpb) ;;
    set_page_field 0 2 p MMU040_PAGE_DESCRIPTOR_TYPE_RESIDENT ;; k) s = k (set_mem m s) /\
    page_desc_ok f sv wpb W /\
    forall b, word_at m b = if decide (b / 4 = a / 4) then W else word_at (mem s) b.
Proof.
  intros Hp Hf.
  destruct (set_page_field_eq s p a 12 20 (PAGE_LEVEL_ADDR_FIELD f) Hp) as (m1 & E1 & H1).
  destruct (set_page_field_eq (set_mem m1 s) p a 7 1 (Z.b2z sv) Hp) as (m2 & E2 & H2).
  destruct (set_page_field_eq (set_mem m2 s) p a 5 2 MMU040_CACHE_MODE_CACHE_COPY_BACK Hp) as (m3 & E3 & H3).
  destruct (set_page_field_eq (set_mem m3 s) p a 2 1 (Z.b2z wpb) Hp) as (m4 & E4 & H4).
  destruct (set_page_field_eq (set_mem m4 s) p a 0 2 MMU040_PAGE_DESCRIPTOR_TYPE_RESIDENT Hp) as (m5 & E5 & H5).
  rewrite (bind_Ret _ _ _ _ _ E1), (bind_Ret _ _ _ _ _ E2), (bind_Ret _ _ _ _ _ E3), (bind_Ret _ _ _ _ _ E4),
    (bind_Ret _ _ _ _ _ E5).
  cbn [mem set_mem] in H2, H3, H4, H5.
  rewrite (H4 a), decide_True in H5 by done. rewrite (H3 a), decide_True in H5, H4 by done.
  rewrite (H2 a), decide_True in H5, H4, H3 by done. rewrite (H1 a), decide_True in H5, H4, H3, H2 by done.
  exists m5. match type of H5 with forall b, _ = if _ then ?W else _ => exists W end. split; [reflexivity|]. split.
  - unfold page_desc_ok, frame_of, page_descriptor_type, physical_address, supervisor_bit, write_protected_bit, cache_mode.
    split_and!; repeat first [rewrite field_set_same by lia|rewrite field_u32 by lia|rewrite field_set_other by lia]; try done.
    + unfold PAGE_LEVEL_FIELD_ADDR, PAGE_LEVEL_ADDR_FIELD, page_base, MMU_PAGE_SIZE.
      rewrite Z.shiftr_div_pow2, Z.shiftl_mul_pow2 by lia. rewrite (Z.mod_small (f / 2 ^ 12)) by mod_lia.
      change (2 ^ 12) with 4096. rewrite u32_small; mod_lia.
    + by destruct sv.
    + by destruct wpb.
  - intros b. rewrite H5. destruct (decide (b / 4 = a / 4)) as [|Hne]; [done|].
    by rewrite H4, decide_False, H3, decide_False, H2, decide_False, H1, decide_False.
Qed.

(** The frame that a resident page occupied goes to the free list. *)
Lemma release_eq k s p R v e l (wpb : bool) :
  let old := match translate (mem s) R v with Some d => [frame_of d] | None => [] end in
  level k s -> 3 <= k < MAPPER_PAGES -> 0 <= p < MMU_PAGE_SIZE * k -> entry (mem s) R 2 v = Some e -> ptr s p e ->
  free_list l s -> Forall frame_ok old -> NoDup (old ++ l) -> space_ok (mem s) R (old ++ l) ->
  exists s', (let* d := load32 p in
    when (PDT_IS_RESIDENT (page_descriptor_type d))
      (set_page_field 2 1 p (Z.b2z wpb) ;;
       let* d := load32 p in _free_frame (PAGE_LEVEL_FIELD_ADDR (physical_address d)))) s = Ret (tt, s') /\
    level k s' /\ same_below k s s' /\ free_list (old ++ l) s' /\ free_frames s' = free_frames s /\
    forall n w e', (n <= 2)%nat -> entry (mem s) R n w = Some e' -> e' <> e -> word_at (mem s') e' = word_at (mem s) e'.
Proof.
  intros old Hk Hkr Hpr He Hp Hl Hold Hnd Hok. rewrite (bind_Ret _ _ _ _ _ (load32_eq _ _ _ Hp)).
  subst old. unfold translate in *. rewrite He in *. cbv zeta in *.
  destruct (PDT_IS_RESIDENT (page_descriptor_type (word_at (mem s) e))) eqn:Er; cbn [when].
  2: { exists s. split; [done|]. split; [done|]. split; [by split|]. done. }
  destruct (set_page_field_eq s p e 2 1 (Z.b2z wpb) Hp) as (m & Hset & Hm).
  rewrite (bind_Ret _ _ _ _ _ Hset). assert (ptr (set_mem m s) p e) as Hp1 by exact Hp.
  rewrite (bind_Ret _ _ _ _ _ (load32_eq _ _ _ Hp1)). cbn [mem set_mem]. rewrite Hm, decide_True by done.
  unfold physical_address at 1. rewrite field_u32, field_set_other by lia.
  fold (physical_address (word_at (mem s) e)). fold (frame_of (word_at (mem s) e)) in *.
  set (old := frame_of (word_at (mem s) e)) in *. cbn [app] in *.
  apply Forall_cons in Hold as [Ho _]. apply NoDup_cons in Hnd as [Hnin Hnd].
  destruct (free_frame_eq k (set_mem m s) old l) as (s' & Hfree & Hk' & Hsb & Hw & Hl' & Hn'); [done|lia|done|done| |].
  { split; [|apply Hl..]. cbn. apply (chain_same (mem s)); [|apply Hl]. intros g Hg. rewrite Hm, decide_False; [done|].
    intros E. apply (so_out _ _ _ Hok 2 v e g); [lia|done|by right|].
    unfold MMU_PAGE_SIZE. rewrite <- !(Z.div_div _ 4 1024) by lia. by rewrite E. }
  exists s'. split_and!; [done|done| |done|done|].
  - by destruct Hsb.
  - intros n w e' Hn He' Hne. rewrite Hw. rewrite decide_False.
    + cbn. rewrite Hm, decide_False; [done|]. intros E. apply Hne. apply entry_word; [..|done].
      * eapply entry_aligned; [apply Hok|exact He'].
      * eapply entry_aligned; [apply Hok|exact He].
    + intros E. apply (so_out _ _ _ Hok n w e' old); [done|done|by left|].
      unfold MMU_PAGE_SIZE. rewrite <- !(Z.div_div _ 4 1024) by lia. by rewrite E.
Qed.
End alloc_at.

Section alloc_at_thm.
Implicit Types s : Mmu040.

Lemma idx_div v : 0 <= v < 2 ^ 32 ->
  idx 0 v = v / 2 ^ 25 /\ idx 1 v = v / 2 ^ 18 mod 2 ^ 7 /\ idx 2 v = v / 2 ^ 12 mod 2 ^ 6.
Proof.
  intros Hv. cbn [idx]. unfold root_index, pointer_index, page_index.
  change 127 with (Z.ones 7). change 63 with (Z.ones 6). rewrite !Z.land_ones, !Z.shiftr_div_pow2 by lia.
  split; [|done]. apply Z.mod_small. split; [apply Z.div_pos; lia|apply Z.div_lt_upper_bound; lia].
Qed.

(** Two addresses have the same indices when they are in the same page. *)
Lemma same_index_page v w : 0 <= v < 2 ^ 32 -> 0 <= w < 2 ^ 32 ->
  same_index 2 v w <-> v / MMU_PAGE_SIZE = w / MMU_PAGE_SIZE.
Proof.
  intros Hv Hw. destruct (idx_div v Hv) as (V0 & V1 & V2), (idx_div w Hw) as (W0 & W1 & W2).
  assert (forall x, x / 2 ^ 25 = x / 2 ^ 12 / 2 ^ 13 /\ x / 2 ^ 18 = x / 2 ^ 12 / 2 ^ 6) as Hd
    by (intros x; rewrite !Z.div_div by lia; done).
  destruct (Hd v) as [Dv1 Dv2], (Hd w) as [Dw1 Dw2]. rewrite Dv1 in V0. rewrite Dv2 in V1. rewrite Dw1 in W0. rewrite Dw2 in W1.
  change MMU_PAGE_SIZE with (2 ^ 12). split.
  - intros H. pose proof (H 0%nat ltac:(lia)) as H0. pose proof (H 1%nat ltac:(lia)) as H1. pose proof (H 2%nat ltac:(lia)) as H2.
    rewrite V0, W0 in H0. rewrite V1, W1 in H1. rewrite V2, W2 in H2. mod_lia.
  - intros E i Hi. destruct i as [|[|[|]]]; [..|lia].
    + by rewrite V0, W0, E.
    + by rewrite V1, W1, E.
    + by rewrite V2, W2, E.
Qed.

Lemma level_pops3 k s : level (k + 3) s -> 0 <= k -> forall f : Z,
  (_mapping_pop ;; _mapping_pop ;; _mapping_pop ;; ret f) s = Ret (f, set_mapping k s).
Proof.
  intros Hk Hk0 f. rewrite (bind_Ret _ _ _ _ _ (pop_eq (k + 3) s Hk ltac:(lia))).
  erewrite bind_Ret; [|apply (pop_eq (k + 3 - 1)); [split; [done|apply Hk]|lia]].
  erewrite bind_Ret; [|apply (pop_eq (k + 3 - 1 - 1)); [split; [done|apply Hk]|lia]].
  unfold ret, set_mapping. cbn. do 2 f_equal. f_equal. lia.
Qed.

(** The page part of [alloc_at]: the descriptor at [p] gets a new frame. *)
Lemma map_page_eq k s p R v e l (sv wpb : bool) :
  let old := match translate (mem s) R v with Some d => [frame_of d] | None => [] end in
  level (k + 3) s -> 0 <= k < 7 -> 0 <= p < MMU_PAGE_SIZE * (k + 3) -> entry (mem s) R 2 v = Some e -> ptr s p e ->
  free_list l s -> 0 < free_frames s -> Forall frame_ok old -> NoDup (old ++ l) -> space_ok (mem s) R (old ++ l) ->
  exists f l' s', ((let* d := load32 p in
    when (PDT_IS_RESIDENT (page_descriptor_type d))
      (set_page_field 2 1 p (Z.b2z wpb) ;;
       let* d := load32 p in _free_frame (PAGE_LEVEL_FIELD_ADDR (physical_address d)))) ;;
    let* frame := _alloc_frame in
    set_page_field 12 20 p (PAGE_LEVEL_ADDR_FIELD frame) ;;
    set_page_field 7 1 p (Z.b2z sv) ;;
    set_page_field 5 2 p MMU040_CACHE_MODE_CACHE_COPY_BACK ;;
    set_page_field 2 1 p (Z.b2z wpb) ;;
    set_page_field 0 2 p MMU040_PAGE_DESCRIPTOR_TYPE_RESIDENT ;;
    _mapping_pop ;; _mapping_pop ;; _mapping_pop ;; ret frame) s = Ret (f, s') /\
    level k s' /\ same_below k s s' /\ free_list l' s' /\ space_ok (mem s') R (f :: l') /\ frame_ok f /\
    (exists d, translate (mem s') R v = Some d /\ page_desc_ok f sv wpb d) /\
    (forall w, ~ same_index 2 w v -> translate (mem s') R w = translate (mem s) R w) /\
    (forall b, b / MMU_PAGE_SIZE = f / MMU_PAGE_SIZE -> word_at (mem s') b = 0) /\
    NoDup (f :: l') /\ free_frames s - 1 <= free_frames s'.
Proof.
  intros old Hk Hkr Hpr He Hp Hl Hff Hold Hnd Hok.
  destruct (release_eq (k + 3) s p R v e l wpb Hk ltac:(unfold MAPPER_PAGES; lia) Hpr He Hp Hl Hold Hnd Hok)
    as (s1 & Hrel & Hk1 & Hsb1 & Hl1 & Hn1 & Hw1). fold old in Hl1.
  rewrite (bind_Ret _ _ _ _ _ Hrel). clear Hrel.
  destruct (old ++ l) as [|f l'] eqn:El; [pose proof (fl_count _ _ Hl1); cbn in *; lia|].
  destruct (alloc_frame_eq (k + 3) s1 f l' Hk1 ltac:(unfold MAPPER_PAGES; lia) Hl1 ltac:(lia))
    as (s2 & Ha & Hk2 & Hsb2 & Hz & Hl2 & Hn2).
  rewrite (bind_Ret _ _ _ _ _ Ha). clear Ha.
  pose proof (fl_frames _ _ Hl1) as [[Hfa Hfr] _]%Forall_cons.
  assert (ptr s2 p e) as Hp2 by (apply (ptr_below (k + 3) s); [by apply (same_below_trans _ _ s1)|done|done]).
  destruct (set_fields_eq s2 p e f sv wpb (_mapping_pop ;; _mapping_pop ;; _mapping_pop ;; ret f) Hp2 ltac:(lia))
    as (m & W & -> & HW & Hm).
  rewrite (level_pops3 k (set_mem m s2) Hk2 ltac:(lia)).
  assert (forall n w e', (n <= 2)%nat -> entry (mem s) R n w = Some e' ->
    word_at m e' = if decide (e' = e) then W else word_at (mem s) e') as Hwords.
  { intros n w e' Hn He'. rewrite Hm. case_decide as E1; case_decide as E2; [done| | |].
    - exfalso. apply E2. apply entry_word; [..|done]; eapply entry_aligned; [apply Hok|exact He'|apply Hok|exact He].
    - by subst.
    - rewrite Hz, decide_False; [by apply (Hw1 n w)|]. apply (so_out _ _ _ Hok n w); [done|done|by left]. }
  exists f, l', (set_mapping k (set_mem m s2)). split; [done|]. cbn [mem set_mapping set_mem]. split_and!.
  - split; [done|apply Hk2].
  - apply (same_below_mono (k + 3)); [lia|]. apply (same_below_trans _ _ s1); [done|]. by destruct Hsb2.
  - split; cbn; [|apply Hl2..]. apply (chain_same (mem s2)); [|apply Hl2]. intros g Hg. rewrite Hm, decide_False; [done|].
    intros E. apply (so_out _ _ _ Hok 2 v e g); [lia|done|by right|].
    unfold MMU_PAGE_SIZE. rewrite <- !(Z.div_div _ 4 1024) by lia. by rewrite E.
  - by eapply (space_ok_map (mem s) R m _ W e v).
  - by split.
  - exists W. split; [|done]. rewrite (translate_map (mem s) R m _ W e v Hok He Hwords v).
    rewrite decide_True by done. by rewrite (proj1 HW).
  - intros w Hne. rewrite (translate_map (mem s) R m _ W e v Hok He Hwords w). by rewrite decide_False.
  - intros b Hb. rewrite Hm, decide_False; [by rewrite Hz, decide_True|]. intros E.
    apply (so_out _ _ _ Hok 2 v e f); [lia|done|by left|]. rewrite <- Hb.
    unfold MMU_PAGE_SIZE. rewrite <- !(Z.div_div _ 4 1024) by lia. by rewrite E.
  - done.
  - cbn [free_frames set_mapping set_mem]. lia.
Qed.

Lemma alloc_at_eq k s virt sv wpb l :
  let R := root_table_ph (if (sv : bool) then srp s else urp s) in
  let old := match translate (mem s) R virt with Some d => [frame_of d] | None => [] end in
  0 <= k < 7 -> level k s -> 0 <= virt < 2 ^ 32 -> free_list l s -> 3 <= free_frames s ->
  Forall frame_ok old -> NoDup (old ++ l) -> space_ok (mem s) R (old ++ l) ->
  exists f l' s', mmu040_alloc_at virt sv wpb s = Ret (f, s') /\ level k s' /\ same_below k s s' /\
    free_list l' s' /\ space_ok (mem s') R (f :: l') /\ frame_ok f /\
    (exists d, translate (mem s') R virt = Some d /\ page_desc_ok f sv wpb d) /\
    (forall v, 0 <= v < 2 ^ 32 -> v / MMU_PAGE_SIZE <> virt / MMU_PAGE_SIZE ->
       translate (mem s') R v = translate (mem s) R v) /\
    (forall b, b / MMU_PAGE_SIZE = f / MMU_PAGE_SIZE -> word_at (mem s') b = 0) /\
    NoDup (f :: l') /\ free_frames s - 3 <= free_frames s'.
Proof.
  intros R old Hkr Hk Hv Hl Hn Hold Hnd Hok. unfold mmu040_alloc_at. rewrite (bind_Ret _ _ _ s s) by (unfold gets; done).
  fold R. destruct (so_root _ _ _ Hok) as [HR HRr]. pose proof (idx_range 0 virt) as [Hi _].
  destruct (map_table_eq k s R 128 Hk ltac:(unfold MAPPER_PAGES; lia) HRr ltac:(unfold MMU_PAGE_SIZE; mod_lia))
    as (p0 & s0 & Hmap & Hk0 & Hsb0 & Hm0 & Hff0 & Hfn0 & Hp0).
  rewrite (bind_Ret _ _ _ _ _ Hmap). destruct (Hp0 (root_index virt) ltac:(cbn in Hi; lia)) as [Hptr0 Hr0].
  assert (free_list l s0) as Hl0 by (destruct Hl; split; rewrite ?Hm0, ?Hff0, ?Hfn0; done).
  destruct (table_behind_eq (k + 1) R virt (R + 4 * root_index virt) (p0 + 4 * root_index virt) 0 old s0
    Hk0 ltac:(lia) ltac:(lia) ltac:(lia) eq_refl Hptr0 l Hl0 ltac:(lia) Hold Hnd ltac:(by rewrite Hm0))
    as (p1 & s1 & l1 & Ht1 & [Hk1 Hsb1 Hl1 Hn1 Hnd1 Hok1 Htr1 (T1 & Hptr1 & He1) Hr1]).
  cbn [tpos] in Ht1. rewrite (bind_Ret _ _ _ _ _ Ht1). change (idx 1 virt) with (pointer_index virt) in *.
  destruct (table_behind_eq (k + 1 + 1) R virt T1 (p1 + 4 * pointer_index virt) 1 old s1
    Hk1 ltac:(lia) ltac:(lia) ltac:(lia) He1 Hptr1 l1 Hl1 ltac:(lia) Hold Hnd1 Hok1)
    as (p2 & s2 & l2 & Ht2 & [Hk2 Hsb2 Hl2 Hn2 Hnd2 Hok2 Htr2 (T2 & Hptr2 & He2) Hr2]).
  cbn [tpos] in Ht2. rewrite (bind_Ret _ _ _ _ _ Ht2). change (idx 2 virt) with (page_index virt) in *. cbv zeta.
  assert (forall w, translate (mem s2) R w = translate (mem s) R w) as Htr by (intros w; rewrite Htr2, Htr1; by rewrite Hm0).
  replace (k + 1 + 1 + 1) with (k + 3) in * by lia.
  destruct (map_page_eq k s2 (p2 + 4 * page_index virt) R virt T2 l2 sv wpb) as (f & l' & s' & Heq & Hrest);
    rewrite ?Htr; try done; [lia|].
  exists f, l', s'. split; [rewrite <- Heq; by rewrite bind_assoc|].
  destruct Hrest as (? & Hsb & ? & ? & ? & ? & Hother & ? & ? & ?). split_and!; try done; [| |lia].
  { apply (same_below_trans _ _ s0); [done|]. apply (same_below_trans _ _ s1); [by apply (same_below_mono (k + 1)); [lia|]|].
    apply (same_below_trans _ _ s2); [by apply (same_below_mono (k + 1 + 1)); [lia|]|done]. }
  intros v Hvr Hne. rewrite Hother, Htr; [done|]. by rewrite same_index_page.
Qed.

(** C7. Mapping a page: with three free frames and tables that form a tree,
    [mmu040_alloc_at] leaves a resident descriptor with the wanted protection
    for the address, to a cleared frame that is neither in the free list nor a
    table; the translation of every address in another page is unchanged, and
    the tables still form a tree.  A page that was mapped before is released. *)
Theorem alloc_at_maps_page k s virt sv wpb l :
  let R := root_table_ph (if (sv : bool) then srp s else urp s) in
  let old := match translate (mem s) R virt with Some d => [frame_of d] | None => [] end in
  0 <= k < 7 -> level k s -> 0 <= virt < 2 ^ 32 -> free_list l s -> 3 <= free_frames s ->
  Forall frame_ok old -> NoDup (old ++ l) -> space_ok (mem s) R (old ++ l) ->
  exists f l' s', mmu040_alloc_at virt sv wpb s = Ret (f, s') /\ level k s' /\
    free_list l' s' /\ space_ok (mem s') R (f :: l') /\ frame_ok f /\
    (exists d, translate (mem s') R virt = Some d /\ page_desc_ok f sv wpb d) /\
    (forall v, 0 <= v < 2 ^ 32 -> v / MMU_PAGE_SIZE <> virt / MMU_PAGE_SIZE ->
       translate (mem s') R v = translate (mem s) R v) /\
    (forall b, b / MMU_PAGE_SIZE = f / MMU_PAGE_SIZE -> word_at (mem s') b = 0).
Proof.
  intros R old Hkr Hk Hv Hl Hn Hold Hnd Hok.
  destruct (alloc_at_eq k s virt sv wpb l Hkr Hk Hv Hl Hn Hold Hnd Hok) as (f & l' & s' & ? & ? & _ & ? & ? & ? & ? & ? & ? & _).
  by exists f, l', s'.
Qed.
End alloc_at_thm.

(** * The interface to the process layer, and the mapper stack *)

(** C18. The mapper stack never overflows and is balanced: from any state with
    fewer than three pages of the window in use, whatever the tables hold and
    however many frames are left, the start of the driver and every operation
    on a user space return (no panic) with as many pages in use as before;
    cloning, which holds six to eight of the ten, returns 0 or [-ENOMEM]. *)
Theorem mapper_stack_balanced k :
  0 <= k < 3 ->
  balanced k k mmu040_init (fun _ => True) /\
  balanced k k mmu040_init_userspace (fun _ => True) /\
  (forall h, balanced k k (mmu040_clear_userspace h) (fun _ => True)) /\
  (forall h, balanced k k (mmu040_free_userspace h) (fun _ => True)) /\
  (forall from to, balanced k k (mmu040_clone_userspace from to) (fun r => r = 0 \/ r = - ENOMEM)) /\
  (forall virt sv wpb, balanced k k (mmu040_alloc_at virt sv wpb) (fun _ => True)) /\
  (forall f off src size, 0 <= off < MMU_PAGE_SIZE -> 0 <= size <= MMU_PAGE_SIZE -> size <= Z.of_nat (length src) ->
    balanced k k (mmu040_fill_frame f off src size) (fun _ => True)) /\
  balanced k k mmu040_map_current_userspace (fun _ => True).
Proof.
  intros Hk. split_and!; intros.
  - apply balanced_init. lia.
  - apply balanced_init_userspace. lia.
  - apply balanced_clear_userspace. lia.
  - apply balanced_free_userspace. lia.
  - by apply balanced_clone_userspace.
  - apply balanced_alloc_at. lia.
  - apply balanced_fill_frame; (done || lia).
  - apply balanced_map_current. lia.
Qed.

(** * Reading user memory *)

Definition byte_of (m : gmap Z Z) (a : Z) : Z := field (byte_pos a) 8 (word_at m a).

(** The byte at a user address, through the tables. *)
Definition user_byte (s : Mmu040) (v : Z) : option Z :=
  match translate (mem s) (root_table_ph (urp s)) v with
  | Some d => Some (byte_of (mem s) (frame_of d + v mod MMU_PAGE_SIZE))
  | None => None
  end.

Section copy.
Context (ptestr : Mmu040 -> bool -> Z -> Z).
(** [ptestr] does the search that the tables define. *)
Hypothesis ptestr_walks : forall s v d,
  translate (mem s) (root_table_ph (urp s)) v = Some d -> field 12 20 (ptestr s false v) = physical_address d.

Lemma window_load8_eq s p a : ptr s p a -> load8 p s = Ret (byte_of (mem s) a, s).
Proof.
  intros (d & Hd & ->). unfold load8. erewrite bind_Ret; [reflexivity|].
  unfold window. cbv [bind gets]. by rewrite Hd.
Qed.

Lemma page_bits f off : f mod MMU_PAGE_SIZE = 0 -> 0 <= off < MMU_PAGE_SIZE -> Z.lor f off = f + off.
Proof.
  unfold MMU_PAGE_SIZE. intros Hf Ho. pose proof (lor_shiftl_add (f / 4096) off 12 ltac:(lia) Ho) as H.
  rewrite Z.shiftl_mul_pow2 in H by lia. change (2 ^ 12) with 4096 in H.
  replace (f / 4096 * 4096) with f in H by mod_lia. exact H.
Qed.

Lemma frame_of_range d : frame_of d mod MMU_PAGE_SIZE = 0 /\ 0 <= frame_of d < 2 ^ 32.
Proof.
  unfold frame_of, PAGE_LEVEL_FIELD_ADDR, physical_address, MMU_PAGE_SIZE.
  pose proof (field_range 12 20 d ltac:(lia)). rewrite Z.shiftl_mul_pow2 by lia. rewrite u32_small by lia.
  split; [apply Z.mod_mul; lia|lia].
Qed.

Lemma get_physical_eq s v d :
  0 <= v -> translate (mem s) (root_table_ph (urp s)) v = Some d ->
  mmu040_get_physical ptestr v false s = Ret (frame_of d + v mod MMU_PAGE_SIZE, s).
Proof.
  intros Hv Hd. unfold mmu040_get_physical, gets. do 2 f_equal.
  change MMU_PAGE_MASK with (Z.ones 12). rewrite Z.land_ones by lia. change (2 ^ 12) with MMU_PAGE_SIZE.
  rewrite <- page_bits; [|apply frame_of_range|unfold MMU_PAGE_SIZE; apply Z.mod_pos_bound; lia]. f_equal.
  unfold frame_of, PAGE_LEVEL_FIELD_ADDR. rewrite <- (ptestr_walks s v d Hd).
  pose proof (field_range 12 20 (ptestr s false v) ltac:(lia)).
  apply Z.bits_inj'. intros i Hi. rewrite Z.land_spec, u32_small by (rewrite Z.shiftl_mul_pow2; lia).
  change 4294963200 with (Z.shiftl (Z.ones 20) 12). rewrite !Z.shiftl_spec by lia.
  destruct (decide (i < 12)).
  - rewrite !(Z.testbit_neg_r _ (i - 12)) by lia. by rewrite andb_false_r.
  - rewrite field_testbit, Z.testbit_ones_nonneg by lia. replace (i - 12 + 12) with i by lia. by rewrite andb_comm.
Qed.

Lemma map_user_eq k s v d :
  level k s -> 0 <= k < MAPPER_PAGES -> 0 <= v -> translate (mem s) (root_table_ph (urp s)) v = Some d ->
  exists s', map_user ptestr v s = Ret (MMU_PAGE_SIZE * k + v mod MMU_PAGE_SIZE, s') /\ level (k + 1) s' /\
    mem s' = mem s /\ urp s' = urp s /\
    forall off, 0 <= off < MMU_PAGE_SIZE -> ptr s' (MMU_PAGE_SIZE * k + off) (frame_of d + off).
Proof.
  intros Hk Hkr Hv Hd. unfold map_user. rewrite (bind_Ret _ _ _ _ _ (get_physical_eq s v d Hv Hd)).
  destruct (frame_of_range d) as [Hfa Hfr].
  assert (0 <= v mod MMU_PAGE_SIZE < MMU_PAGE_SIZE) as Ho by (apply Z.mod_pos_bound; done).
  assert ((frame_of d + v mod MMU_PAGE_SIZE) mod MMU_PAGE_SIZE = v mod MMU_PAGE_SIZE) as Hmod
    by (unfold MMU_PAGE_SIZE in *; mod_lia).
  destruct (push_eq k s (frame_of d + v mod MMU_PAGE_SIZE)) as (s' & Hpush & Hk' & Hsb & Hm & _ & _ & Hptr);
    [done|done|unfold MMU_PAGE_SIZE in *; mod_lia|].
  rewrite (bind_Ret _ _ _ _ _ Hpush). exists s'. split_and!; [|done|done|apply Hsb|].
  - unfold ret. do 2 f_equal. change MMU_PAGE_MASK with (Z.ones 12). rewrite Z.land_ones by lia.
    change (2 ^ 12) with MMU_PAGE_SIZE. rewrite Hmod. apply page_bits; [|done].
    unfold MMU_PAGE_SIZE. rewrite Z.mul_comm. by apply Z.mod_mul.
  - intros off Hoff. replace (frame_of d + off) with (page_base (frame_of d + v mod MMU_PAGE_SIZE) + off); [by apply Hptr|].
    unfold page_base. rewrite Hmod. lia.
Qed.

Lemma translate_page m R v w : 0 <= v < 2 ^ 32 -> 0 <= w < 2 ^ 32 -> v / MMU_PAGE_SIZE = w / MMU_PAGE_SIZE ->
  translate m R v = translate m R w.
Proof.
  intros Hv Hw E. unfold translate. by rewrite (entry_same_index m R 2 v w) by (by apply same_index_page).
Qed.

Section copy_from.
Context (k : Z) (s : Mmu040) (src size : Z) (bytes : list Z).
Hypothesis Hkr : 0 <= k < MAPPER_PAGES.
Hypothesis Hsrc : 0 <= src.
Hypothesis Hend : src + size <= 2 ^ 32.
Hypothesis Hlen : Z.of_nat (length bytes) = size.
Hypothesis Hb : forall i, 0 <= i < size -> user_byte s (src + i) = zget bytes i.

Lemma user_byte_desc i : 0 <= i < size -> exists d,
  translate (mem s) (root_table_ph (urp s)) (src + i) = Some d /\
  zget bytes i = Some (byte_of (mem s) (frame_of d + (src + i) mod MMU_PAGE_SIZE)).
Proof.
  intros Hi. pose proof (Hb i Hi) as Hu. unfold user_byte in Hu.
  destruct (translate _ _ _) as [d|] eqn:Ed; [by exists d|]. symmetry in Hu. apply zget_None in Hu. lia.
Qed.

(** After [i] bytes: the pointer is at the byte of [src + i]. *)
Definition copying (a : Z * Z * Z * list Z) (s' : Mmu040) : Prop :=
  let '(src', p, size', dst) := a in
  exists i d, 0 <= i < size /\ src' = src + i /\ size' = size - i /\
    p = MMU_PAGE_SIZE * k + src' mod MMU_PAGE_SIZE /\ dst = take (Z.to_nat i) bytes /\ level (k + 1) s' /\
    mem s' = mem s /\ urp s' = urp s /\ translate (mem s) (root_table_ph (urp s)) src' = Some d /\
    forall off, 0 <= off < MMU_PAGE_SIZE -> ptr s' (MMU_PAGE_SIZE * k + off) (frame_of d + off).

Lemma copying_start s0 : level k s0 -> mem s0 = mem s -> urp s0 = urp s -> 0 < size ->
  exists p s1, map_user ptestr src s0 = Ret (p, s1) /\ copying (src, p, size, []) s1.
Proof.
  intros Hk Hm Hu Hsz. destruct (user_byte_desc 0) as (d & Hd & _); [lia|]. rewrite Z.add_0_r in Hd.
  destruct (map_user_eq k s0 src d Hk Hkr Hsrc) as (s1 & Hmap & Hk1 & Hm1 & Hu1 & Hptr1); [by rewrite Hm, Hu|].
  eexists _, s1. split; [exact Hmap|]. exists 0, d. rewrite Z.add_0_r, Z.sub_0_r. split_and!; congruence || lia || done.
Qed.

(** Moving on to the next byte. *)
Lemma copying_next s' i d :
  0 <= i -> i + 1 < size -> level (k + 1) s' -> mem s' = mem s -> urp s' = urp s ->
  translate (mem s) (root_table_ph (urp s)) (src + i) = Some d ->
  (forall off, 0 <= off < MMU_PAGE_SIZE -> ptr s' (MMU_PAGE_SIZE * k + off) (frame_of d + off)) ->
  wp (next_byte ptestr (src + (i + 1)) (MMU_PAGE_SIZE * k + (src + i) mod MMU_PAGE_SIZE))
    (fun p s'' => copying (src + (i + 1), p, size - i - 1, take (Z.to_nat (i + 1)) bytes) s'') s'.
Proof.
  intros Hi Hi1 Hk' Hm' Hu' Htr Hptr. unfold next_byte.
  change MMU_PAGE_MASK with (Z.ones 12). rewrite Z.land_ones by lia. change (2 ^ 12) with MMU_PAGE_SIZE.
  destruct (user_byte_desc (i + 1)) as (d2 & Hd2 & _); [lia|].
  destruct (Z.eqb_spec ((src + (i + 1)) mod MMU_PAGE_SIZE) 0) as [E|E].
  - rewrite wp_bind. eapply wp_eq; [apply pop_eq; [exact Hk'|lia]|]. rewrite Z.add_simpl_r.
    destruct (map_user_eq k (set_mapping k s') (src + (i + 1)) d2) as (s2 & Hmap2 & Hk2 & Hm2 & Hu2 & Hptr2);
      [split; [done|apply Hk']|done|lia|cbn; by rewrite Hm', Hu'|].
    eapply wp_eq; [exact Hmap2|]. cbn in Hm2, Hu2. exists (i + 1), d2. split_and!; congruence || lia || done.
  - rewrite wp_ret. exists (i + 1), d. unfold MMU_PAGE_SIZE in *. split_and!; try done; try lia; [mod_lia|].
    rewrite <- Htr. apply translate_page; [lia|lia|]. unfold MMU_PAGE_SIZE. mod_lia.
Qed.

Lemma copying_byte i d : 0 <= i < size -> translate (mem s) (root_table_ph (urp s)) (src + i) = Some d ->
  take (Z.to_nat i) bytes ++ [byte_of (mem s) (frame_of d + (src + i) mod MMU_PAGE_SIZE)] = take (Z.to_nat (i + 1)) bytes.
Proof.
  intros Hi Hd. destruct (user_byte_desc i Hi) as (d' & Hd' & Hbyte). assert (d' = d) as -> by congruence.
  replace (Z.to_nat (i + 1)) with (S (Z.to_nat i)) by lia. symmetry. apply take_S_r.
  rewrite <- zget_nat. by rewrite Z2Nat.id by lia.
Qed.
End copy_from.

(** C31. Reading user memory: [mmu040_copy_from_userspace] returns the bytes
    that the user's tables give for the addresses of the range, in order and
    across page boundaries, changes nothing in memory, and gives the window
    back. *)
Theorem copy_from_userspace_correct k s src size bytes :
  level k s -> 0 <= k < MAPPER_PAGES -> 0 <= src -> src + size <= 2 ^ 32 ->
  Z.of_nat (length bytes) = size ->
  (forall i, 0 <= i < size -> user_byte s (src + i) = zget bytes i) ->
  wp (mmu040_copy_from_userspace ptestr src size) (fun r s' => r = bytes /\ level k s' /\ mem s' = mem s) s.
Proof.
  intros Hk Hkr Hsrc Hend Hlen Hb. unfold mmu040_copy_from_userspace.
  destruct (Z.eqb_spec size 0) as [->|Hne]; [by destruct bytes|].
  destruct (copying_start k s src size bytes Hkr Hsrc Hlen Hb s Hk) as (p0 & s0 & Hmap & Hc); [done|done|lia|].
  rewrite wp_bind. eapply wp_eq; [exact Hmap|]. rewrite wp_bind.
  apply (wp_loop (copying k s src size bytes) (fun '(_, _, size', _) _ => Z.to_nat (size' - 1))); [done|lia|].
  intros [[[src' p] size'] dst] s' (i & d & Hi & -> & -> & -> & -> & Hk' & Hm' & Hu' & Htr & Hptr).
  assert (0 <= (src + i) mod MMU_PAGE_SIZE < MMU_PAGE_SIZE) as Ho by (apply Z.mod_pos_bound; done).
  rewrite wp_bind. eapply wp_eq; [apply window_load8_eq, Hptr; done|]. cbv beta zeta.
  rewrite Hm', (copying_byte s src size bytes Hlen Hb i d Hi Htr). destruct (Z.eqb_spec (size - i - 1) 0).
  - rewrite wp_ret, wp_bind. eapply wp_eq; [apply pop_eq; [exact Hk'|lia]|]. rewrite wp_ret.
    split_and!; [apply take_ge; lia| |done]. split; [cbn; lia|apply Hk'].
  - rewrite u32_small by lia. rewrite <- Z.add_assoc, wp_bind.
    eapply wp_mono; [apply (copying_next k s src size bytes) with (d := d); done || lia|].
    intros q s2 Hq. rewrite wp_ret. split; [exact Hq|lia].
Qed.
End copy.

(** * Filling a frame *)

Lemma window_store8_eq s p a v : ptr s p a ->
  store8 p v s = Ret (tt, set_mem (<[a / 4 := u32 (set_field (byte_pos a) 8 v (word_at (mem s) a))]> (mem s)) s).
Proof.
  intros (d & Hd & ->). unfold store8. erewrite bind_Ret; [reflexivity|].
  unfold window. cbv [bind gets]. by rewrite Hd.
Qed.

Lemma byte_of_store m a v b :
  byte_of (<[a / 4 := u32 (set_field (byte_pos a) 8 v (word_at m a))]> m) b =
  if decide (b = a) then v mod 256 else byte_of m b.
Proof.
  unfold byte_of, byte_pos. rewrite word_at_insert. pose proof (Z.mod_pos_bound a 4). pose proof (Z.mod_pos_bound b 4).
  destruct (decide (b = a)) as [->|Hne].
  - rewrite decide_True by done. rewrite field_u32 by lia. by rewrite field_set_same by lia.
  - destruct (decide (a / 4 = b / 4)) as [E|E]; [|done]. rewrite field_u32 by lia.
    assert (a mod 4 <> b mod 4) by mod_lia.
    assert (word_at m a = word_at m b) as -> by (unfold word_at; by rewrite E). apply field_set_other; lia.
Qed.

(** Memory after the bytes [l] were stored at [a]. *)
Record bytes_stored (m : gmap Z Z) (a : Z) (l : list Z) (m' : gmap Z Z) : Prop := {
  bs_bytes b : byte_of m' b = if decide (a <= b < a + Z.of_nat (length l)) then default 0 (zget l (b - a)) mod 256 else byte_of m b;
  bs_words b : (forall i, 0 <= i < Z.of_nat (length l) -> (a + i) / 4 <> b / 4) -> word_at m' b = word_at m b;
}.

Lemma bytes_stored_snoc m a l c m' : bytes_stored m a l m' ->
  bytes_stored m a (l ++ [c]) (<[(a + Z.of_nat (length l)) / 4 :=
    u32 (set_field (byte_pos (a + Z.of_nat (length l))) 8 c (word_at m' (a + Z.of_nat (length l))))]> m').
Proof.
  intros [Hb Hw]. split; intros b; rewrite length_app; cbn [length].
  - rewrite byte_of_store, Hb. repeat case_decide; try lia.
    + subst. rewrite zget_app_r by lia. by rewrite Z.add_simpl_l, Z.sub_diag.
    + by rewrite zget_app_l by lia.
  - intros H. rewrite word_at_insert, decide_False; [|apply H; lia]. apply Hw. intros i Hi. apply H. lia.
Qed.

Lemma fill_frame_eq k s f off src size :
  level k s -> 0 <= k < MAPPER_PAGES -> frame_ok f -> 0 <= off -> 0 <= size -> off + size <= MMU_PAGE_SIZE ->
  size <= Z.of_nat (length src) ->
  exists s', mmu040_fill_frame f off src size s = Ret (tt, s') /\ level k s' /\ same_below k s s' /\
    free_frame s' = free_frame s /\ free_frames s' = free_frames s /\
    bytes_stored (mem s) (f + off) (take (Z.to_nat size) src) (mem s').
Proof.
  intros Hk Hkr [Hfa Hfr] Ho Hs Hend Hlen. unfold mmu040_fill_frame.
  destruct (push_eq k s f Hk Hkr ltac:(lia)) as (s1 & Hpush & Hk1 & Hsb & Hm & Hff & Hfn & Hptr).
  rewrite (page_base_frame _ Hfa) in Hptr.
  enough (wp (for_to 0 size (fun i => let* v := need (zget src i) in store8 (MMU_PAGE_SIZE * k + (i + off)) v))
    (fun _ s2 => exists m, s2 = set_mem m s1 /\ bytes_stored (mem s1) (f + off) (take (Z.to_nat size) src) m) s1)
    as ([] & s2 & Hfor & m & -> & Hbs)%wp_run.
  - exists (set_mapping k (set_mem m s1)). rewrite (bind_Ret _ _ _ _ _ Hpush), (bind_Ret _ _ _ _ _ Hfor).
    rewrite (pop_eq (k + 1)) by (first [exact Hk1|lia]). rewrite Z.add_simpl_r. split_and!; try done.
    + split; [done|apply Hk1].
    + by destruct Hsb.
    + cbn. by rewrite <- Hm.
  - apply (wp_for_to (fun i s2 => exists m, s2 = set_mem m s1 /\ bytes_stored (mem s1) (f + off) (take (Z.to_nat i) src) m));
      [done| | |done].
    + exists (mem s1). split; [by destruct s1|]. change (take (Z.to_nat 0) src) with (@nil Z). split; intros b; [|done]; cbn [length].
      by rewrite decide_False by lia.
    + intros j s2 Hj (m & -> & Hbs). destruct (zget_in_range src j) as [c Hc]; [lia|].
      rewrite wp_bind, (wp_need _ c) by done.
      assert (ptr (set_mem m s1) (MMU_PAGE_SIZE * k + (j + off)) (f + (j + off))) as Hp by (apply Hptr; lia).
      eapply wp_eq; [by apply window_store8_eq|]. eexists. split; [reflexivity|]. cbn [mem set_mem].
      assert (take (Z.to_nat (j + 1)) src = take (Z.to_nat j) src ++ [c]) as ->.
      { replace (Z.to_nat (j + 1)) with (S (Z.to_nat j)) by lia. apply take_S_r. rewrite <- zget_nat. by rewrite Z2Nat.id by lia. }
      pose proof (bytes_stored_snoc _ _ _ c _ Hbs) as Hsn. rewrite length_take in Hsn.
      by replace (f + off + Z.of_nat (Z.to_nat j `min` length src)) with (f + (j + off)) in Hsn by lia.
Qed.

(** * A small memory *)

(** Three free frames, an empty root table at the page before. *)
Definition toy_root : Z := 2147487744.
Definition toy_mem : gmap Z Z :=
  <[2147553280 / 4 := 2147557376]> (<[2147557376 / 4 := 2147561472]> (<[2147561472 / 4 := 0]> ∅)).
Definition toy_mmu (n : Z) : Mmu040 :=
  MkMmu toy_mem n 16384 2147553280 (replicate 10 0) 0 toy_root toy_root toy_root.
Definition toy_frames : list Z := [2147553280; 2147557376; 2147561472].

Lemma toy_free_list n : 0 <= n <= 3 -> free_list toy_frames (toy_mmu n).
Proof.
  intros Hn. split; cbn [free_frames toy_mmu].
  - vm_compute. done.
  - repeat constructor.
  - apply (bool_decide_unpack _). by vm_compute.
  - cbn. lia.
  - lia.
Qed.

Lemma toy_word a : 2147487744 <= a < 2147491840 -> word_at toy_mem a = 0.
Proof.
  intros Ha. unfold word_at, toy_mem. rewrite !lookup_insert_ne by mod_lia. done.
Qed.
Lemma toy_entry n v : (n <= 2)%nat -> entry toy_mem toy_root n v = match n with O => Some (toy_root + 4 * idx 0 v) | _ => None end.
Proof.
  induction n as [|n IH]; intros Hn; [done|]. cbn [entry]. rewrite IH by lia.
  destruct n; [|done]. pose proof (idx_range 0 v). rewrite toy_word by (unfold toy_root; lia). done.
Qed.
Lemma toy_space_ok : space_ok toy_mem toy_root toy_frames.
Proof.
  split.
  - split; [done|]. unfold toy_root. lia.
  - intros n v e f Hn. rewrite toy_entry by done. destruct n; [|done]. intros [= <-] Hf.
    pose proof (idx_range 0 v) as [Hr _]. change (idx 0 v) with (root_index v) in Hr. unfold toy_root, MMU_PAGE_SIZE.
    assert (Forall (fun f => 2147553280 <= f) toy_frames) as Hall by (repeat constructor; lia).
    pose proof (proj1 (Forall_forall _ _) Hall f Hf) as Hle. cbv beta in Hle. mod_lia.
  - intros n n' v w e Hn Hn'. rewrite !toy_entry by done. destruct n, n'; try done. intros [= <-] [= E].
    split; [done|]. intros i Hi. assert (i = O) as -> by lia. cbn [idx] in *. lia.
  - intros v e. by rewrite toy_entry.
Qed.

Lemma alloc_frame_correct_witness :
  exists s', _alloc_frame (toy_mmu 3) = Ret (2147553280, s') /\ free_list [2147557376; 2147561472] s' /\
    free_frames s' = 2 /\ level 0 s' /\ page_zeroed 2147553280 toy_mem (mem s').
Proof.
  apply (alloc_frame_correct 0 (toy_mmu 3) 2147553280 [2147557376; 2147561472]);
    [done|by unfold MAPPER_PAGES|by apply toy_free_list].
Defined.

Lemma freed_frames_are_lost_witness :
  exists s', (_free_frame 2147549184 ;; _alloc_frame) (toy_mmu 0) = Ret (0, s') /\
    free_list (2147549184 :: toy_frames) s' /\ free_frames s' = 0.
Proof.
  apply (freed_frames_are_lost 0 (toy_mmu 0) 2147549184 toy_frames);
    [done|by unfold MAPPER_PAGES|done| |by apply toy_free_list|done].
  apply (bool_decide_unpack _). by vm_compute.
Defined.

Lemma alloc_at_maps_page_witness :
  exists f l' s', mmu040_alloc_at 3221229568 false true (toy_mmu 3) = Ret (f, s') /\ level 0 s' /\
    free_list l' s' /\ space_ok (mem s') toy_root (f :: l') /\ frame_ok f /\
    (exists d, translate (mem s') toy_root 3221229568 = Some d /\ page_desc_ok f false true d) /\
    (forall v, 0 <= v < 2 ^ 32 -> v / MMU_PAGE_SIZE <> 3221229568 / MMU_PAGE_SIZE ->
       translate (mem s') toy_root v = translate toy_mem toy_root v) /\
    (forall b, b / MMU_PAGE_SIZE = f / MMU_PAGE_SIZE -> word_at (mem s') b = 0).
Proof.
  assert (translate toy_mem toy_root 3221229568 = None) as Htr by (by vm_compute).
  pose proof (alloc_at_maps_page 0 (toy_mmu 3) 3221229568 false true toy_frames) as H.
  cbv zeta in H. change (root_table_ph (if false then srp (toy_mmu 3) else urp (toy_mmu 3))) with toy_root in H.
  change (mem (toy_mmu 3)) with toy_mem in H. rewrite Htr in H. apply H.
  - lia.
  - done.
  - lia.
  - by apply toy_free_list.
  - done.
  - done.
  - apply (toy_free_list 3). lia.
  - apply toy_space_ok.
Defined.

(** Two user pages in frames [0x80020000] and [0x80030000]. *)
Definition toy_user_mem : gmap Z Z := list_to_map
  [(toy_root / 4, 2147491840 + 2); (2147491840 / 4, 2147495936 + 2);
   (2147495936 / 4, 2147614720 + 1); (2147495936 / 4 + 1, 2147680256 + 1);
   (2147614720 / 4 + 1023, 16909060); (2147680256 / 4, 84281096)].
Definition toy_user : Mmu040 := MkMmu toy_user_mem 0 16384 0 (replicate 10 0) 0 toy_root toy_root toy_root.
(** A processor that searches the tables. *)
Definition toy_ptestr (s : Mmu040) (supervisor : bool) (v : Z) : Z :=
  default 0 (translate (mem s) (root_table_ph (if supervisor then srp s else urp s)) v).

Lemma copy_from_userspace_correct_witness :
  wp (mmu040_copy_from_userspace toy_ptestr 4094 4)
    (fun r s' => r = [3; 4; 5; 6] /\ level 0 s' /\ mem s' = toy_user_mem) toy_user.
Proof.
  apply (copy_from_userspace_correct toy_ptestr); [|done|done|lia|lia|done|].
  - intros s v d Hd. unfold toy_ptestr. by rewrite Hd.
  - intros i Hi. assert (i = 0 \/ i = 1 \/ i = 2 \/ i = 3) as [-> | [-> | [-> | ->]]] by lia; by vm_compute.
Defined.

Lemma mapper_stack_balanced_witness : balanced 0 0 (mmu040_clone_userspace 0 0) (fun r => r = 0 \/ r = - ENOMEM).
Proof. destruct (mapper_stack_balanced 0 ltac:(lia)) as (_ & _ & _ & _ & H & _). apply H. Defined.
