(* ===== verification/Device.v ===== *)
(** The device table: [kernel/device.c], [include/device.h].

    The kernel's table maps a major number to a named pointer.  The device
    structures themselves are in a store from pointers to structures, whose
    function pointers are functions on the drivers' state [D]. *)

From Stdlib Require Import String.
From S2P Require Import Prelude CString Types.

Definition DEVICE_MAX : Z := 256.
Definition DEVICE_NAME_LEN : Z := 32.

(** * Data *)

Inductive DeviceType : Type :=
| DEVICE_TYPE_INVALID
| DEVICE_TYPE_CHAR
| DEVICE_TYPE_BLOCK.

#[export] Instance DeviceType_eq_dec : EqDecision DeviceType.
Proof. solve_decision. Defined.

(** A read takes the byte count and gives the result and the bytes written to
    the buffer; a write takes the bytes.  [None] is a null pointer.  The queue
    of waiting processes is the linked list of their pids. *)
Record CharDev (D : Type) : Type := MkCharDev {
  cd_read : option (Z -> M D (Z * list Z));
  cd_write : option (list Z -> M D Z);
  queue_read : list Z;
}.
Arguments MkCharDev {_} _ _ _.
Arguments cd_read {_} _.
Arguments cd_write {_} _.
Arguments queue_read {_} _.

Record BlockDev (D : Type) : Type := MkBlockDev {
  bd_read : option (Z -> Z -> Z -> M D (Z * list Z));   (* device, pos, count *)
  bd_write : option (list Z -> M D Z);
  bd_size : option (Z -> M D Z);
  bd_blksize : option (Z -> M D Z);
}.
Arguments MkBlockDev {_} _ _ _ _.
Arguments bd_read {_} _.
Arguments bd_write {_} _.
Arguments bd_size {_} _.
Arguments bd_blksize {_} _.

(** The tagged union of [struct Device]; using a member that is not the one
    in place is undefined. *)
Inductive Device (D : Type) : Type :=
| InvalidDevice
| Chardev (c : CharDev D)
| Blockdev (b : BlockDev D).
Arguments InvalidDevice {_}.
Arguments Chardev {_} _.
Arguments Blockdev {_} _.

Definition dev_type {D} (d : Device D) : DeviceType :=
  match d with
  | InvalidDevice => DEVICE_TYPE_INVALID
  | Chardev _ => DEVICE_TYPE_CHAR
  | Blockdev _ => DEVICE_TYPE_BLOCK
  end.

Record RegisteredDevice : Type := MkRegistered {
  rd_name : list Z;
  rd_device : Z;          (* the pointer *)
}.

Record DeviceRegistration : Type := MkRegistration {
  dr_name : list Z;
  dr_device : Z;
  dr_type : DeviceType;
}.

Record Devices (D : Type) : Type := MkDevices {
  _device_registered : list (option RegisteredDevice);
  major_free : Z;
  dev_store : gmap Z (Device D);
  drivers : D;
}.
Arguments MkDevices {_} _ _ _ _.
Arguments _device_registered {_} _.
Arguments major_free {_} _.
Arguments dev_store {_} _.
Arguments drivers {_} _.

Section ops.
Context {D : Type}.
Implicit Types s : Devices D.

Definition set_registered (t : list (option RegisteredDevice)) s : Devices D :=
  MkDevices t (major_free s) (dev_store s) (drivers s).
Definition set_major_free (n : Z) s : Devices D :=
  MkDevices (_device_registered s) n (dev_store s) (drivers s).
Definition set_store (d : gmap Z (Device D)) s : Devices D :=
  MkDevices (_device_registered s) (major_free s) d (drivers s).
Definition set_drivers (d : D) s : Devices D :=
  MkDevices (_device_registered s) (major_free s) (dev_store s) d.

(** The structure a pointer refers to. *)
Definition device_deref (p : Z) : M (Devices D) (Device D) :=
  let* t := gets dev_store in need (t !! p).

(** Calling a driver function. *)
Definition call {A} (m : M D A) : M (Devices D) A := zoom drivers set_drivers m.

Definition registered_at (i : Z) : M (Devices D) (option RegisteredDevice) :=
  let* t := gets _device_registered in need (zget t i).

(** * Operations *)

(** The loop of [device_register] over the table: [Some e] is an early
    return.  Note the test of [_device_registered[major(devno)]]. *)
Definition register_check (name : list Z) (device devno i : Z) : M (Devices D) (option Z) :=
  let* r := registered_at (major devno) in
  match r with
  | None => ret None
  | Some _ =>
      let* r := registered_at i in
      let* d := need r in
      if strcmp_val (rd_name d) name =? 0 then ret (Some (-1)) else
      if device =? rd_device d then ret (Some (-1)) else ret None
  end.

(** [block]: does [kmalloc] return a block?  The result is the return value
    and [*device_number_out].  Copying a name that does not fit its field is
    undefined. *)
Definition device_register (block : bool) (name : list Z) (device : Z) : M (Devices D) (Z * Z) :=
  let* mf := gets major_free in
  let devno := u32 (Z.lor (Z.shiftl mf 16) 1) in
  let* r := for_range (Z.to_nat DEVICE_MAX) 0 (register_check name device devno) in
  match r with
  | Some e => ret (e, devno)
  | None =>
      if negb block then ret (- ENOMEM, devno) else
      if DEVICE_NAME_LEN <=? Z.of_nat (length name) then fault else
      let* _ := registered_at mf in
      modify (fun s => set_registered
        (zset (_device_registered s) mf (Some (MkRegistered name device))) s) ;;
      modify (set_major_free (u16 (mf + 1))) ;;
      ret (0, devno)
  end.

(** [None] is [NULL]. *)
Definition device_lookup (device_number : Z) : M (Devices D) (option Z) :=
  let* r := registered_at (major device_number) in
  ret (option_map rd_device r).

(** The result and [*device]. *)
Definition device_lookup_name (name : list Z) : M (Devices D) (Z * option Z) :=
  let* r := for_range (Z.to_nat DEVICE_MAX) 0 (fun i =>
    let* r := registered_at i in
    ret (match r with
         | Some d => if strcmp_val (rd_name d) name =? 0
                     then Some (makedev i 1, Some (rd_device d)) else None
         | None => None
         end)) in
  ret (default (0, None) r).

(** [dr] is the address of the output structure; the function returns it when
    it succeeds. *)
Definition device_list (dr id : Z) : M (Devices D) (Z * option DeviceRegistration) :=
  if id <? DEVICE_MAX then ret (- ENOENT, None) else
  let* r := registered_at id in
  match r with
  | Some d =>
      let* dev := device_deref (rd_device d) in
      ret (dr, Some (MkRegistration (take (Z.to_nat (DEVICE_NAME_LEN - 1)) (rd_name d))
                       (makedev id 1) (dev_type dev)))
  | None => ret (- ENOENT, None)
  end.

Definition device_max : Z := DEVICE_MAX.

End ops.

(** * The table invariant *)

(** The slots handed out are those below [major_free], starting at 1. *)
Record devices_wf {D} (s : Devices D) : Prop := {
  dwf_length : length (_device_registered s) = Z.to_nat DEVICE_MAX;
  dwf_major : 1 <= major_free s <= DEVICE_MAX;
  dwf_used i : 1 <= i < major_free s ->
    exists d, zget (_device_registered s) i = Some (Some d) /\
      bytes_ok (rd_name d) /\ Z.of_nat (length (rd_name d)) < DEVICE_NAME_LEN;
  dwf_free i : 0 <= i < DEVICE_MAX -> ~ (1 <= i < major_free s) ->
    zget (_device_registered s) i = Some None;
}.

(** The boot state. *)
Definition devices_init {D} (d : D) : Devices D :=
  MkDevices (replicate (Z.to_nat DEVICE_MAX) None) 1 ∅ d.

Lemma devices_init_wf {D} (d : D) : devices_wf (devices_init d).
Proof.
  split; cbn [_device_registered major_free devices_init]; unfold DEVICE_MAX.
  - done.
  - lia.
  - intros i. lia.
  - intros i Hi _. by apply zget_replicate.
Qed.

Section proofs.
Context {D : Type}.
Implicit Types s : Devices D.

Lemma registered_at_eq s i o :
  zget (_device_registered s) i = Some o -> registered_at i s = Ret (o, s).
Proof. intros Hz. unfold registered_at, bind, gets, need. by rewrite Hz. Qed.

Lemma registered_at_out s i : devices_wf s -> DEVICE_MAX <= i -> registered_at i s = Fault.
Proof.
  intros Hw Hi. unfold registered_at, bind, gets. rewrite (proj2 (zget_None _ _)); [done|].
  rewrite (dwf_length _ Hw). unfold DEVICE_MAX in *. lia.
Qed.

Lemma devno_eq n : 0 <= n <= DEVICE_MAX -> u32 (Z.lor (Z.shiftl n 16) 1) = makedev n 1.
Proof.
  unfold DEVICE_MAX. intros Hn. rewrite makedev_eq by lia.
  rewrite lor_shiftl_add, u32_small by lia. lia.
Qed.

Lemma dwf_range s i o :
  devices_wf s -> zget (_device_registered s) i = Some o -> 0 <= i < DEVICE_MAX.
Proof.
  intros Hw Hz%zget_lt_Some. rewrite (dwf_length _ Hw) in Hz. unfold DEVICE_MAX in *. lia.
Qed.

(** The scan never rejects anything: it tests the free slot it is about to
    hand out. *)
Lemma register_scan s name device n i :
  devices_wf s -> major_free s < DEVICE_MAX ->
  for_range n i (register_check name device (makedev (major_free s) 1)) s = Ret (None, s).
Proof.
  intros Hw Hm. pose proof (dwf_major _ Hw) as Hj. revert i. induction n as [|n IH]; intros i; [done|].
  erewrite for_range_next; [apply IH|].
  unfold register_check. rewrite major_makedev by (unfold DEVICE_MAX in *; lia).
  assert (zget (_device_registered s) (major_free s) = Some None) as Hz
    by (apply (dwf_free _ Hw); unfold DEVICE_MAX in *; lia).
  by rewrite (bind_Ret _ _ _ _ _ (registered_at_eq _ _ _ Hz)).
Qed.

Definition registered s (name : list Z) (device : Z) : Devices D :=
  set_major_free (major_free s + 1) (set_registered
    (zset (_device_registered s) (major_free s) (Some (MkRegistered name device))) s).

Lemma device_register_eq s name device :
  devices_wf s -> major_free s < DEVICE_MAX -> Z.of_nat (length name) < DEVICE_NAME_LEN ->
  device_register true name device s =
    Ret ((0, makedev (major_free s) 1), registered s name device).
Proof.
  intros Hw Hm Hn. pose proof (dwf_major _ Hw) as Hj. unfold device_register.
  unfold bind at 1, gets at 1. rewrite devno_eq by lia.
  rewrite (bind_Ret _ _ _ _ _ (register_scan _ _ _ _ _ Hw Hm)).
  cbn [negb]. destruct (Z.leb_spec DEVICE_NAME_LEN (Z.of_nat (length name))); [lia|].
  assert (zget (_device_registered s) (major_free s) = Some None) as Hz
    by (apply (dwf_free _ Hw); unfold DEVICE_MAX in *; lia).
  rewrite (bind_Ret _ _ _ _ _ (registered_at_eq _ _ _ Hz)).
  unfold bind, modify, ret. rewrite u16_small by (unfold DEVICE_MAX in *; lia). done.
Qed.

Lemma registered_wf s name device :
  devices_wf s -> major_free s < DEVICE_MAX -> bytes_ok name ->
  Z.of_nat (length name) < DEVICE_NAME_LEN -> devices_wf (registered s name device).
Proof.
  intros Hw Hm Hb Hn. destruct Hw as [Hl Hj Hu Hf]. unfold registered.
  split; cbn [_device_registered major_free set_major_free set_registered]; [by rewrite length_zset|lia|..].
  - intros i Hi. rewrite zget_zset by (rewrite Hl; unfold DEVICE_MAX in *; lia).
    case_decide; [by eexists|]. apply Hu. lia.
  - intros i Hi Hni. rewrite zget_zset by (rewrite Hl; unfold DEVICE_MAX in *; lia).
    rewrite decide_False by lia. apply Hf; lia.
Qed.

Lemma device_lookup_eq s i d :
  0 <= i < 65536 -> zget (_device_registered s) i = Some (Some d) ->
  device_lookup (makedev i 1) s = Ret (Some (rd_device d), s).
Proof.
  intros Hi Hz. unfold device_lookup. rewrite major_makedev by lia.
  by rewrite (bind_Ret _ _ _ _ _ (registered_at_eq _ _ _ Hz)).
Qed.

Definition has_name s (name : list Z) (i : Z) : Prop :=
  exists d, zget (_device_registered s) i = Some (Some d) /\ rd_name d = name.

Lemma device_lookup_name_eq s name :
  devices_wf s -> bytes_ok name ->
  (exists i d, has_name s name i /\ (forall j, j < i -> ~ has_name s name j) /\
     zget (_device_registered s) i = Some (Some d) /\
     device_lookup_name name s = Ret ((makedev i 1, Some (rd_device d)), s)) \/
  ((forall i, ~ has_name s name i) /\ device_lookup_name name s = Ret ((0, None), s)).
Proof.
  intros Hw Hb. unfold device_lookup_name.
  set (f := fun i => match zget (_device_registered s) i with
    | Some (Some d) => if strcmp_val (rd_name d) name =? 0
                       then Some (makedev i 1, Some (rd_device d)) else None
    | _ => None end).
  assert (Hf : for_range (Z.to_nat DEVICE_MAX) 0 (fun i =>
    let* r := registered_at i in
    ret (match r with
         | Some d => if strcmp_val (rd_name d) name =? 0
                     then Some (makedev i 1, Some (rd_device d)) else None
         | None => None
         end)) s = Ret (find_from (Z.to_nat DEVICE_MAX) 0 f, s)).
  { apply for_range_find. intros j Hj. destruct (zget_in_range (_device_registered s) j) as [o Ho].
    { rewrite (dwf_length _ Hw). lia. }
    rewrite (bind_Ret _ _ _ _ _ (registered_at_eq _ _ _ Ho)). unfold f. by rewrite Ho. }
  rewrite (bind_Ret _ _ _ _ _ Hf).
  assert (Hname : forall i d, zget (_device_registered s) i = Some (Some d) ->
    (strcmp_val (rd_name d) name =? 0) = bool_decide (rd_name d = name)).
  { intros i d Hz. pose proof (dwf_range _ _ _ Hw Hz) as Hr.
    destruct (decide (1 <= i < major_free s)) as [Hi|Hi].
    - destruct (dwf_used _ Hw i Hi) as (d' & Hz' & Hd & _). simplify_eq.
      apply eq_bool_prop_intro. rewrite bool_decide_spec, Is_true_true, Z.eqb_eq.
      by apply strcmp_val_eq.
    - rewrite (dwf_free _ Hw i) in Hz by done. done. }
  destruct (find_from _ _ _) as [x|] eqn:E.
  - apply find_from_Some in E as (i & Hi & Hfi & Hk). left. unfold f in Hfi.
    destruct (zget (_device_registered s) i) as [[d|]|] eqn:Hz; try done.
    rewrite (Hname i d Hz) in Hfi. case_bool_decide as Hn; [|done]. exists i, d. injection Hfi as <-.
    split_and!; [by exists d| |done|done].
    intros j Hj (d' & Hz' & Hn'). pose proof (dwf_range _ _ _ Hw Hz') as Hr.
    specialize (Hk j ltac:(lia)). unfold f in Hk.
    by rewrite Hz', (Hname j d' Hz'), bool_decide_true in Hk.
  - right. split; [|done]. intros i (d & Hz & Hn). pose proof (dwf_range _ _ _ Hw Hz) as Hr.
    rewrite find_from_None in E. specialize (E i ltac:(unfold DEVICE_MAX in *; lia)). unfold f in E.
    by rewrite Hz, (Hname i d Hz), bool_decide_true in E.
Qed.

(** * Block devices and their contents *)

(** What a read of the device's [contents] returns. *)
Definition read_result (contents : list Z) (pos count : Z) : Z * list Z :=
  if (pos <? 0) || (Z.of_nat (length contents) <? pos) then (- EIO, [])
  else let l := take (Z.to_nat count) (drop (Z.to_nat pos) contents) in
       (Z.of_nat (length l), l).

(** What a file system relies on: the device number names a block device that
    serves exactly the bytes [contents], in blocks of [blk] bytes. *)
Definition block_contents s (devno : Z) (contents : list Z) (blk : Z) : Prop :=
  0 < blk < 2 ^ 30 /\ exists r b read blksize,
    zget (_device_registered s) (major devno) = Some (Some r) /\
    dev_store s !! rd_device r = Some (Blockdev b) /\
    bd_read b = Some read /\ bd_blksize b = Some blksize /\
    blksize devno (drivers s) = Ret (blk, drivers s) /\
    forall pos count, - 2 ^ 62 <= pos < 2 ^ 62 -> 0 <= count < 2 ^ 32 ->
      read devno pos count (drivers s) = Ret (read_result contents pos count, drivers s).

Lemma call_eq_id {A} (m : M D A) s a : m (drivers s) = Ret (a, drivers s) -> call m s = Ret (a, s).
Proof. intros Hm. unfold call, zoom. rewrite Hm. by destruct s. Qed.

(** * Properties *)

(** [device_register] with a free major number, a block from [kmalloc] and
    a name that fits returns 0 and the device number made of the major number
    and minor 1, under which [device_lookup] then finds the device; every
    device registered before is still found; the table stays well formed. *)
Theorem device_register_lookup s name device :
  devices_wf s -> major_free s < DEVICE_MAX -> bytes_ok name ->
  Z.of_nat (length name) < DEVICE_NAME_LEN ->
  wp (device_register true name device) (fun '(r, devno) s' =>
    r = 0 /\ devno = makedev (major_free s) 1 /\ devices_wf s' /\
    device_lookup devno s' = Ret (Some device, s') /\
    forall i, 0 <= i < DEVICE_MAX -> i <> major_free s -> forall p,
      device_lookup (makedev i 1) s = Ret (p, s) -> device_lookup (makedev i 1) s' = Ret (p, s')) s.
Proof.
  intros Hw Hm Hb Hn. eapply wp_eq; [by apply device_register_eq|].
  pose proof (dwf_major _ Hw) as Hj. pose proof (dwf_length _ Hw) as Hl.
  assert (0 <= major_free s < Z.of_nat (length (_device_registered s))) as Hr by lia.
  split_and!; [done|done|by apply registered_wf| |].
  - apply (device_lookup_eq _ _ (MkRegistered name device)); [unfold DEVICE_MAX in *; lia|].
    by apply zget_zset_eq.
  - intros i Hi Hne p. unfold device_lookup. rewrite !major_makedev by (unfold DEVICE_MAX in *; lia).
    destruct (zget_in_range (_device_registered s) i) as [o Ho]; [lia|].
    rewrite (bind_Ret _ _ _ _ _ (registered_at_eq _ _ _ Ho)). intros [= <-].
    erewrite bind_Ret; [reflexivity|]. apply registered_at_eq. cbn.
    rewrite zget_zset_ne by lia. done.
Qed.

(** [device_lookup_name] returns the device number and the device of the
    first slot with that name, and 0 when no device has it. *)
Theorem device_lookup_name_correct s name :
  devices_wf s -> bytes_ok name ->
  wp (device_lookup_name name) (fun '(devno, device) s' => s' = s /\
    ((exists i d, has_name s name i /\ (forall j, j < i -> ~ has_name s name j) /\
        zget (_device_registered s) i = Some (Some d) /\
        devno = makedev i 1 /\ device = Some (rd_device d)) \/
     ((forall i, ~ has_name s name i) /\ devno = 0 /\ device = None))) s.
Proof.
  intros Hw Hb. destruct (device_lookup_name_eq s name Hw Hb) as
    [(i & d & Hn & Hm & Hz & He)|[Hno He]]; (eapply wp_eq; [exact He|]); split; try done.
  - left. by exists i, d.
  - by right.
Qed.

(** The uniqueness check of [device_register] tests the free slot instead
    of the slot it looks at, so a name (and a device) that is already
    registered is accepted again; a lookup by name keeps finding the first
    registration. *)
Theorem device_register_duplicate s name device i d :
  devices_wf s -> major_free s < DEVICE_MAX -> bytes_ok name ->
  Z.of_nat (length name) < DEVICE_NAME_LEN ->
  zget (_device_registered s) i = Some (Some d) -> rd_name d = name ->
  (forall j, j < i -> ~ has_name s name j) ->
  wp (device_register true name device ;; device_lookup_name name) (fun '(_, p) _ =>
    p = Some (rd_device d)) s.
Proof.
  intros Hw Hm Hb Hlen Hz Hn Hfirst. pose proof (dwf_range _ _ _ Hw Hz) as Hr.
  pose proof (dwf_length _ Hw) as Hl. pose proof (dwf_major _ Hw) as Hj.
  rewrite wp_bind. eapply wp_eq; [by apply device_register_eq|].
  assert (i <> major_free s) as Hne.
  { intros ->. rewrite (dwf_free _ Hw) in Hz; [done|done|lia]. }
  assert (i < major_free s) as Hlt.
  { destruct (decide (1 <= i < major_free s)) as [|Hni]; [lia|].
    rewrite (dwf_free _ Hw) in Hz by done. done. }
  assert (Hget : forall j, j <> major_free s ->
    zget (_device_registered (registered s name device)) j = zget (_device_registered s) j).
  { intros j Hji. cbn. rewrite zget_zset_ne by lia. done. }
  assert (has_name (registered s name device) name i) as Hi by (exists d; by rewrite Hget).
  destruct (device_lookup_name_eq (registered s name device) name) as
    [(k & dk & Hk & Hmin & Hzk & He)|[Hno _]]; [by apply registered_wf|done| |by destruct (Hno i)].
  eapply wp_eq; [exact He|]. cbn beta iota.
  assert (k = i) as ->.
  { destruct (Z.lt_trichotomy k i) as [Hlt'|[|Hgt]]; [|done|by destruct (Hmin i Hgt)].
    destruct Hk as (d' & Hd' & Hn'). rewrite Hget in Hd' by lia.
    destruct (Hfirst k Hlt'). by exists d'. }
  rewrite Hget in Hzk by done. congruence.
Qed.

(** When all major numbers are used, [device_register] reads past the end
    of the table. *)
Theorem device_register_full s block name device :
  devices_wf s -> major_free s = DEVICE_MAX -> device_register block name device s = Fault.
Proof.
  intros Hw Hm. unfold device_register. unfold bind at 1, gets. rewrite Hm, devno_eq by done.
  apply bind_Fault. change (Z.to_nat DEVICE_MAX) with (S 255). apply for_range_Fault.
  unfold register_check. apply bind_Fault, registered_at_out; [done|]. by rewrite major_makedev.
Qed.

(** [device_list] never lists a device: it refuses every identifier in the
    table and reads past its end for every other one. *)
Theorem device_list_never s dr id :
  devices_wf s ->
  device_list dr id s = if id <? DEVICE_MAX then Ret ((- ENOENT, None), s) else Fault.
Proof.
  intros Hw. unfold device_list. destruct (Z.ltb_spec id DEVICE_MAX); [done|].
  apply bind_Fault. by apply registered_at_out.
Qed.

End proofs.

(** * Witnesses *)

Definition demo_devices : Devices unit := devices_init tt.

Lemma demo_devices_wf : devices_wf demo_devices.
Proof. apply devices_init_wf. Qed.

Lemma tty_ok : bytes_ok (zstr "tty").
Proof. repeat constructor. Qed.

Lemma device_register_lookup_witness :
  wp (device_register true (zstr "tty") 4096) (fun '(r, devno) s' =>
    r = 0 /\ devno = makedev 1 1 /\ devices_wf s' /\
    device_lookup devno s' = Ret (Some 4096, s') /\
    forall i, 0 <= i < DEVICE_MAX -> i <> 1 -> forall p,
      device_lookup (makedev i 1) demo_devices = Ret (p, demo_devices) ->
      device_lookup (makedev i 1) s' = Ret (p, s')) demo_devices.
Proof. apply (device_register_lookup demo_devices); [apply demo_devices_wf|done|apply tty_ok|done]. Defined.

Lemma device_lookup_name_correct_witness :
  wp (device_lookup_name (zstr "tty")) (fun '(devno, device) s' => s' = demo_devices /\
    ((exists i d, has_name demo_devices (zstr "tty") i /\
        (forall j, j < i -> ~ has_name demo_devices (zstr "tty") j) /\
        zget (_device_registered demo_devices) i = Some (Some d) /\
        devno = makedev i 1 /\ device = Some (rd_device d)) \/
     ((forall i, ~ has_name demo_devices (zstr "tty") i) /\ devno = 0 /\ device = None))) demo_devices.
Proof. apply (device_lookup_name_correct demo_devices); [apply demo_devices_wf|apply tty_ok]. Defined.

(** One registered device, at major number 1. *)
Definition demo_devices1 : Devices unit := registered demo_devices (zstr "tty") 4096.

Lemma device_register_duplicate_witness :
  wp (device_register true (zstr "tty") 8192 ;; device_lookup_name (zstr "tty"))
     (fun '(_, p) _ => p = Some 4096) demo_devices1.
Proof.
  apply (device_register_duplicate demo_devices1 (zstr "tty") 8192 1 (MkRegistered (zstr "tty") 4096)).
  - apply registered_wf; [apply demo_devices_wf|done|apply tty_ok|done].
  - done.
  - apply tty_ok.
  - done.
  - done.
  - done.
  - intros j Hj (d & Hd & _). unfold demo_devices1 in Hd. cbn in Hd.
    rewrite zget_zset_ne in Hd by lia.
    pose proof (zget_lt_Some _ _ _ Hd) as Hr. rewrite length_replicate in Hr.
    by rewrite zget_replicate in Hd.
Defined.

Lemma device_register_full_witness :
  let s := MkDevices (None :: replicate 255 (Some (MkRegistered [] 0))) 256 ∅ tt in
  device_register true (zstr "tty") 0 s = Fault.
Proof.
  intros s. apply (device_register_full s); [|done]. split.
  - done.
  - done.
  - intros i Hi. cbn in Hi. exists (MkRegistered [] 0). split; [|by split; [constructor|]].
    unfold s. cbn [_device_registered].
    change (zget ([None] ++ replicate 255 (Some (MkRegistered [] 0))) i = Some (Some (MkRegistered [] 0))).
    rewrite zget_app_r by (cbn; lia). apply zget_replicate. cbn. lia.
  - intros i Hi Hni. cbn in Hni. assert (i = 0) as -> by (unfold DEVICE_MAX in *; lia). done.
Defined.

Lemma device_list_never_witness :
  device_list 4096 5 demo_devices = Ret ((- ENOENT, None), demo_devices).
Proof. exact (device_list_never demo_devices 4096 5 demo_devices_wf). Defined.
