(* ===== verification/Chardev.v ===== *)
(** Blocking reads of character devices: [kernel/modules/chardev.c].

    The functions work on the device table and on the process table together;
    [Io] is the pair of the two. *)

From S2P Require Import Prelude Types Process Device.

Record Io (D W : Type) : Type := MkIo {
  io_devices : Devices D;
  io_procs : Procs W;
}.
Arguments MkIo {_ _} _ _.
Arguments io_devices {_ _} _.
Arguments io_procs {_ _} _.

#[export] Instance io_devices_lens {D W} : Lens (Io D W) (Devices D) :=
  { lget := io_devices; lset d s := MkIo d (io_procs s) }.
#[export] Instance io_procs_lens {D W} : Lens (Io D W) (Procs W) :=
  { lget := io_procs; lset p s := MkIo (io_devices s) p }.
#[export] Instance io_devices_laws {D W} : LensLaws (Io D W) (Devices D).
Proof. split; try done. by intros []. Qed.
#[export] Instance io_procs_laws {D W} : LensLaws (Io D W) (Procs W).
Proof. split; try done. by intros []. Qed.

Section ops.
Context {D W : Type}.
Implicit Types s : Io D W.

(** The character device at pointer [p]. *)
Definition chardev_deref (p : Z) : M (Io D W) (CharDev D) :=
  let* d := on (device_deref p) in
  match d with Chardev c => ret c | _ => fault end.

Definition set_queue_read (p : Z) (q : list Z) : M (Io D W) unit :=
  let* c := chardev_deref p in
  on (modify (fun t => set_store (<[p := Chardev (MkCharDev (cd_read c) (cd_write c) q)]> (dev_store t)) t)).

(** [block]: does [kmalloc] return a block? *)
Definition _queue_enqueue (block : bool) (p pid : Z) : M (Io D W) Z :=
  if negb block then ret (- ENOMEM) else
  let* c := chardev_deref p in
  set_queue_read p (queue_read c ++ [pid]) ;;
  ret 0.

(** The item taken from the queue; the queue is emptied. *)
Definition _queue_dequeue (p : Z) : M (Io D W) (option Z) :=
  let* c := chardev_deref p in
  match queue_read c with
  | [] => ret None
  | pid :: _ => set_queue_read p [] ;; ret (Some pid)
  end.

(** [item] is used without having been assigned. *)
Definition _read_callback (p : Z) : M (Io D W) Z :=
  let* item := _queue_dequeue p in
  match item with
  | None => ret 0
  | Some _ => fault
  end.

(** The result and the bytes written to the buffer. *)
Definition chardev_read (block : bool) (p count : Z) : M (Io D W) (Z * list Z) :=
  let* d := on (device_deref p) in
  if negb (bool_decide (dev_type d = DEVICE_TYPE_CHAR)) then ret (- ENOSYS, []) else
  let* c := chardev_deref p in
  match cd_read c with
  | None => ret (- ENOSYS, [])
  | Some rd =>
      let* ' (r, bytes) := on (call (rd count)) in
      if r =? - EWOULDBLOCK then
        let* current := on process_current in
        let* e := _queue_enqueue block p current in
        if e <? 0 then ret (- ENOMEM, bytes) else
        let* proc := on (process_from_pid current) in
        let* _ := need proc in
        on (process_update current (set_state PROCESS_STATE_BLOCKED)) ;;
        ret (r, bytes)
      else ret (r, bytes)
  end.

Definition chardev_write (p : Z) (buf : list Z) : M (Io D W) Z :=
  let* d := on (device_deref p) in
  if negb (bool_decide (dev_type d = DEVICE_TYPE_CHAR)) then ret (- ENOSYS) else
  let* c := chardev_deref p in
  match cd_write c with
  | Some wr => on (call (wr buf))
  | None => ret (- ENOSYS)
  end.

Definition chardev_ioctl (p : Z) : M (Io D W) Z :=
  let* d := on (device_deref p) in
  if negb (bool_decide (dev_type d = DEVICE_TYPE_CHAR)) then ret (- ENOSYS) else ret 0.

(** * Properties *)

Lemma device_deref_eq s p d :
  dev_store (io_devices s) !! p = Some d -> on (device_deref p) s = Ret (d, s).
Proof. intros Hd. apply on_eq_id. unfold device_deref, bind, gets, need. cbn. by rewrite Hd. Qed.

Lemma chardev_deref_eq s p c :
  dev_store (io_devices s) !! p = Some (Chardev c) -> chardev_deref p s = Ret (c, s).
Proof. intros Hd. unfold chardev_deref. by rewrite (bind_Ret _ _ _ _ _ (device_deref_eq _ _ _ Hd)). Qed.

Definition with_queue s (p : Z) (c : CharDev D) (q : list Z) : Io D W :=
  MkIo (set_store (<[p := Chardev (MkCharDev (cd_read c) (cd_write c) q)]>
         (dev_store (io_devices s))) (io_devices s)) (io_procs s).

Lemma set_queue_read_eq s p c q :
  dev_store (io_devices s) !! p = Some (Chardev c) ->
  set_queue_read p q s = Ret (tt, with_queue s p c q).
Proof.
  intros Hd. unfold set_queue_read. rewrite (bind_Ret _ _ _ _ _ (chardev_deref_eq _ _ _ Hd)).
  reflexivity.
Qed.

(** A read that the driver cannot serve yet puts the reader at the end of
    the device's queue, blocks the current process (and no other) and returns
    [-EWOULDBLOCK]; a failing allocation is reported and blocks nobody. *)
Theorem chardev_read_blocks block s p c rd count d' bytes q :
  dev_store (io_devices s) !! p = Some (Chardev c) -> cd_read c = Some rd ->
  rd count (drivers (io_devices s)) = Ret ((- EWOULDBLOCK, bytes), d') ->
  0 <= _process_current (io_procs s) < MAX_PROCESSES ->
  zget (_process (io_procs s)) (_process_current (io_procs s)) = Some (Some q) ->
  wp (chardev_read block p count) (fun '(r, _) s' =>
    drivers (io_devices s') = d' /\
    if block then
      r = - EWOULDBLOCK /\
      dev_store (io_devices s') = <[p := Chardev (MkCharDev (cd_read c) (cd_write c)
        (queue_read c ++ [_process_current (io_procs s)]))]> (dev_store (io_devices s)) /\
      _process (io_procs s') = zset (_process (io_procs s)) (_process_current (io_procs s))
        (Some (set_state PROCESS_STATE_BLOCKED q))
    else r = - ENOMEM /\ dev_store (io_devices s') = dev_store (io_devices s) /\
      io_procs s' = io_procs s) s.
Proof.
  intros Hd Hrd Hr Hcur Hq. unfold chardev_read.
  rewrite wp_bind. eapply wp_eq; [by apply device_deref_eq|]. cbn [dev_type].
  rewrite bool_decide_true by done. cbn [negb]. rewrite wp_bind.
  eapply wp_eq; [by apply chardev_deref_eq|]. rewrite Hrd, wp_bind.
  set (s1 := MkIo (set_drivers d' (io_devices s)) (io_procs s)).
  eapply (wp_eq _ _ s1). { unfold on, call, zoom. cbn. by rewrite Hr. }
  cbn beta iota. rewrite (proj2 (Z.eqb_eq _ _)) by done. rewrite wp_bind.
  eapply (wp_eq _ _ s1); [reflexivity|]. rewrite wp_bind.
  assert (dev_store (io_devices s1) !! p = Some (Chardev c)) as Hd1 by exact Hd.
  unfold _queue_enqueue. destruct block; cbn [negb]; [|by rewrite wp_ret].
  rewrite wp_bind. eapply wp_eq; [by apply chardev_deref_eq|]. rewrite wp_bind.
  eapply wp_eq; [by apply set_queue_read_eq|]. rewrite wp_ret.
  change (0 <? 0) with false. rewrite wp_bind, wp_on. cbn [lget io_procs_lens io_procs with_queue s1].
  unfold process_from_pid. rewrite pid_valid_true by done. cbn [negb].
  eapply wp_eq; [by apply process_at_eq|]. rewrite wp_bind, (wp_need _ q) by done.
  rewrite wp_bind, wp_on. eapply wp_eq; [by apply process_update_eq|]. rewrite wp_ret.
  unfold with_queue. rewrite Hrd. split_and!; reflexivity.
Qed.

(** Waking the readers fails: [_read_callback] of a device with a reader in
    its queue dereferences a pointer it never assigned, and with an empty
    queue it does nothing. *)
Theorem read_callback_faults s p c :
  dev_store (io_devices s) !! p = Some (Chardev c) ->
  _read_callback p s = match queue_read c with [] => Ret (0, s) | _ :: _ => Fault end.
Proof.
  intros Hd. unfold _read_callback, _queue_dequeue. rewrite bind_assoc.
  rewrite (bind_Ret _ _ _ _ _ (chardev_deref_eq _ _ _ Hd)).
  destruct (queue_read c) as [|pid q]; [done|]. rewrite bind_assoc.
  by rewrite (bind_Ret _ _ _ _ _ (set_queue_read_eq _ _ _ [] Hd)).
Qed.

(** Enqueueing a reader and dequeueing it again returns the reader that has
    waited longest, and loses all the others. *)
Theorem queue_fifo_loses s p c pid :
  dev_store (io_devices s) !! p = Some (Chardev c) ->
  wp (let* e := _queue_enqueue true p pid in let* o := _queue_dequeue p in ret (e, o))
    (fun '(e, o) s' => e = 0 /\ o = head (queue_read c ++ [pid]) /\
       dev_store (io_devices s') !! p = Some (Chardev (MkCharDev (cd_read c) (cd_write c) []))) s.
Proof.
  intros Hd. unfold _queue_enqueue. cbn [negb]. rewrite !wp_bind.
  eapply wp_eq; [by apply chardev_deref_eq|]. rewrite wp_bind.
  eapply wp_eq; [by apply set_queue_read_eq|]. rewrite wp_ret, wp_bind.
  set (c1 := MkCharDev (cd_read c) (cd_write c) (queue_read c ++ [pid])).
  set (s1 := with_queue s p c (queue_read c ++ [pid])).
  assert (dev_store (io_devices s1) !! p = Some (Chardev c1)) as Hd1
    by (cbn; by rewrite lookup_insert_eq).
  unfold _queue_dequeue. rewrite wp_bind. eapply wp_eq; [by apply chardev_deref_eq|].
  cbn [queue_read c1]. destruct (queue_read c ++ [pid]) as [|x q] eqn:E; [by destruct (queue_read c)|].
  rewrite wp_bind. eapply wp_eq; [by apply set_queue_read_eq|]. rewrite !wp_ret.
  split_and!; [done|done|]. cbn. by rewrite lookup_insert_eq.
Qed.

End ops.

(** * Witnesses *)

(** A character device that is never ready, at pointer 4096. *)
Definition demo_io : Io unit unit :=
  MkIo (MkDevices [] 1 {[ 4096 := Chardev (MkCharDev (Some (fun _ => ret (- EWOULDBLOCK, []))) None [7; 8]) ]} tt)
       demo.

Lemma chardev_read_blocks_witness :
  wp (chardev_read true 4096 5) (fun '(r, _) s' =>
    drivers (io_devices s') = tt /\
    r = - EWOULDBLOCK /\
    dev_store (io_devices s') = <[4096 := Chardev (MkCharDev (Some (fun _ => ret (- EWOULDBLOCK, []))) None
      [7; 8; 2])]> (dev_store (io_devices demo_io)) /\
    _process (io_procs s') = zset (_process demo) 2
      (Some (set_state PROCESS_STATE_BLOCKED (demo_process 2 PROCESS_STATE_RUNNING [])))) demo_io.
Proof.
  apply (chardev_read_blocks true demo_io 4096
    (MkCharDev (Some (fun _ => ret (- EWOULDBLOCK, []))) None [7; 8]) (fun _ => ret (- EWOULDBLOCK, []))
    5 tt [] (demo_process 2 PROCESS_STATE_RUNNING [])); [reflexivity..|done|reflexivity].
Defined.

Lemma read_callback_faults_witness : _read_callback 4096 demo_io = Fault.
Proof. apply (read_callback_faults demo_io 4096 (MkCharDev (Some (fun _ => ret (- EWOULDBLOCK, []))) None [7; 8])). reflexivity. Defined.

Lemma queue_fifo_loses_witness :
  wp (let* e := _queue_enqueue true 4096 9 in let* o := _queue_dequeue 4096 in ret (e, o))
    (fun '(e, o) s' => e = 0 /\ o = Some 7 /\
       dev_store (io_devices s') !! 4096 =
         Some (Chardev (MkCharDev (Some (fun _ => ret (- EWOULDBLOCK, []))) None []))) demo_io.
Proof.
  apply (queue_fifo_loses demo_io 4096 (MkCharDev (Some (fun _ => ret (- EWOULDBLOCK, []))) None [7; 8])).
  reflexivity.
Defined.
