(* ===== verification/Memblk.v ===== *)
(** Memory block devices: [kernel/modules/blockdev/memblk.c].

    The driver's static state and the memory its blocks are in. *)

From Stdlib Require Import String.
From S2P Require Import Prelude CString Types Device.

Definition MAX_MEMBLK : Z := 4.
Definition INT_MAX : Z := 2147483647.

(** * Data *)

Record MemblkDescriptor : Type := MkMemblk {
  mb_addr : Z;
  mb_len : Z;       (* int64_t, negative when the descriptor is free *)
  mb_device : Z;
}.

Record Memblk : Type := MkMemblkState {
  memblk : list MemblkDescriptor;
  ram : mem;
}.

Definition set_memblk (t : list MemblkDescriptor) (s : Memblk) : Memblk := MkMemblkState t (ram s).

Definition set_len (x : Z) (b : MemblkDescriptor) := MkMemblk (mb_addr b) x (mb_device b).
Definition set_addr (x : Z) (b : MemblkDescriptor) := MkMemblk x (mb_len b) (mb_device b).
Definition set_device (x : Z) (b : MemblkDescriptor) := MkMemblk (mb_addr b) (mb_len b) x.

Definition memblk_at (i : Z) : M Memblk MemblkDescriptor :=
  let* t := gets memblk in need (zget t i).
Definition memblk_update (i : Z) (f : MemblkDescriptor -> MemblkDescriptor) : M Memblk unit :=
  let* b := memblk_at i in modify (fun s => set_memblk (zset (memblk s) i (f b)) s).

(** * Operations *)

Definition locate_device (device : Z) : M Memblk Z :=
  let* r := for_range (Z.to_nat MAX_MEMBLK) 0 (fun i =>
    let* b := memblk_at i in
    ret (if (0 <=? mb_len b) && (mb_device b =? device) then Some i else None)) in
  ret (default (- ENOENT) r).

Definition memblk_alloc : M Memblk Z :=
  let* r := for_range (Z.to_nat MAX_MEMBLK) 0 (fun i =>
    let* b := memblk_at i in
    ret (if mb_len b <? 0 then Some i else None)) in
  ret (default (- ENOENT) r).

Definition memblk_return (d : Z) : M Memblk unit :=
  if (d <? 0) || (MAX_MEMBLK <=? d) then ret tt else memblk_update d (set_len (-1)).

Definition memblk_init : M Memblk Z :=
  let* _ := for_range (R := unit) (Z.to_nat MAX_MEMBLK) 0 (fun i => memblk_return i ;; ret None) in
  ret 0.

Definition memblk_write (uid blk : Z) (buf : list Z) : M Memblk Z := ret (- EBADF).

(** The result and the bytes written to the buffer. *)
Definition memblk_read (device pos count : Z) : M Memblk (Z * list Z) :=
  let* blk := locate_device device in
  if blk <? 0 then ret (blk, []) else
  let* b := memblk_at blk in
  if (mb_len b <? s64 (pos + count)) && (mb_len b <? pos) then ret (- EIO, []) else
  let count := if mb_len b <? s64 (pos + count) then u32 (mb_len b - pos) else count in
  if pos <? 0 then ret (- EIO, []) else
  let* bytes := zoom ram (fun m s => MkMemblkState (memblk s) m)
                  (load_bytes (Z.to_nat count) (u32 (mb_addr b + pos))) in
  ret (s32 count, bytes).

Definition memblk_blksize (device : Z) : M Memblk Z := ret 512.

Definition memblk_devsize (device : Z) : M Memblk Z :=
  let* blk := locate_device device in
  if blk <? 0 then ret blk else
  let* b := memblk_at blk in
  ret (s32 (mb_len b)).

(** Within the drivers' state [D]. *)
Section open.
Context {D : Type} `{Lens D Memblk}.

(** The static structure [dev]. *)
Definition memblk_dev : Device D :=
  Blockdev (MkBlockDev (Some (fun device pos count => on (memblk_read device pos count))) None
    (Some (fun device => on (memblk_devsize device)))
    (Some (fun device => on (memblk_blksize device)))).

(** [dev] is the address of that structure, [block] the answer of [kmalloc]. *)
Definition memblk_open (block : bool) (dev ptr length : Z) : M (Devices D) Z :=
  if INT_MAX <=? length then ret (- EINVAL) else
  let* d := call (on memblk_alloc) in
  call (on (memblk_update d (set_len length))) ;;
  call (on (memblk_update d (set_addr ptr))) ;;
  modify (fun s => set_store (<[dev := memblk_dev]> (dev_store s)) s) ;;
  let* ' (r, devno) := device_register block (zstr "memblk0") dev in
  call (on (memblk_update d (set_device devno))) ;;
  ret r.

End open.

(** * Properties *)

Record memblk_wf (s : Memblk) : Prop := {
  mwf_length : length (memblk s) = Z.to_nat MAX_MEMBLK;
  mwf_len i b : zget (memblk s) i = Some b -> -1 <= mb_len b < INT_MAX;
}.

(** The block that a device number names: the first one in use with it. *)
Definition block_of (s : Memblk) (device i : Z) (b : MemblkDescriptor) : Prop :=
  zget (memblk s) i = Some b /\ 0 <= mb_len b /\ mb_device b = device /\
  forall j b', j < i -> zget (memblk s) j = Some b' -> 0 <= mb_len b' -> mb_device b' <> device.

Lemma memblk_at_eq s i b : zget (memblk s) i = Some b -> memblk_at i s = Ret (b, s).
Proof. intros Hz. unfold memblk_at, bind, gets, need. by rewrite Hz. Qed.

Lemma memblk_find {R} (f : Z -> MemblkDescriptor -> option R) s :
  memblk_wf s ->
  for_range (Z.to_nat MAX_MEMBLK) 0 (fun i => let* b := memblk_at i in ret (f i b)) s
  = Ret (find_from (Z.to_nat MAX_MEMBLK) 0 (fun i => zget (memblk s) i ≫= f i), s).
Proof.
  intros Hw. apply for_range_find. intros j Hj.
  destruct (zget_in_range (memblk s) j) as [b Hb]; [rewrite (mwf_length _ Hw); lia|].
  by rewrite (bind_Ret _ _ _ _ _ (memblk_at_eq _ _ _ Hb)), Hb.
Qed.

Lemma mwf_range s i b : memblk_wf s -> zget (memblk s) i = Some b -> 0 <= i < MAX_MEMBLK.
Proof. intros Hw Hz%zget_lt_Some. rewrite (mwf_length _ Hw) in Hz. unfold MAX_MEMBLK in *. lia. Qed.

Lemma locate_device_eq s device i b :
  memblk_wf s -> block_of s device i b -> locate_device device s = Ret (i, s).
Proof.
  intros Hw (Hz & Hl & Hd & Hfirst). unfold locate_device.
  rewrite (bind_Ret _ _ _ _ _ (memblk_find (fun i b => if (0 <=? mb_len b) && (mb_device b =? device)
    then Some i else None) s Hw)).
  pose proof (mwf_range _ _ _ Hw Hz) as Hr. unfold ret. do 2 f_equal.
  destruct (find_from _ _ _) as [k|] eqn:E.
  - apply find_from_Some in E as (j & Hj & Hfj & Hk).
    destruct (zget (memblk s) j) as [b'|] eqn:Hzj; [|done]. cbn in Hfj.
    destruct (Z.leb_spec 0 (mb_len b')); [|done]. destruct (Z.eqb_spec (mb_device b') device); [|done].
    injection Hfj as <-. cbn. destruct (Z.lt_trichotomy j i) as [Hlt|[|Hgt]]; [|done|].
    + by destruct (Hfirst j b' Hlt Hzj).
    + specialize (Hk i ltac:(lia)). rewrite Hz in Hk. cbn in Hk.
      by rewrite (proj2 (Z.leb_le _ _) Hl), (proj2 (Z.eqb_eq _ _) Hd) in Hk.
  - rewrite find_from_None in E. specialize (E i ltac:(lia)). rewrite Hz in E. cbn in E.
    by rewrite (proj2 (Z.leb_le _ _) Hl), (proj2 (Z.eqb_eq _ _) Hd) in E.
Qed.

Lemma memblk_read_eq s device i b contents pos count :
  memblk_wf s -> block_of s device i b -> bytes_at (ram s) (mb_addr b) contents ->
  mb_len b = Z.of_nat (length contents) -> 0 <= mb_addr b -> mb_addr b + mb_len b < 2 ^ 32 ->
  0 <= count < 2 ^ 32 -> - 2 ^ 62 <= pos < 2 ^ 62 ->
  memblk_read device pos count s = Ret (read_result contents pos count, s).
Proof.
  intros Hw Hb Hbytes Hlen Ha Hal Hc Hp. unfold memblk_read.
  rewrite (bind_Ret _ _ _ _ _ (locate_device_eq _ _ _ _ Hw Hb)). destruct Hb as (Hz & Hl & Hd & _).
  pose proof (mwf_range _ _ _ Hw Hz) as Hr. destruct (Z.ltb_spec i 0); [lia|].
  rewrite (bind_Ret _ _ _ _ _ (memblk_at_eq _ _ _ Hz)).
  pose proof (mwf_len _ Hw _ _ Hz) as Hb. unfold INT_MAX in Hb. rewrite s64_small by lia.
  unfold read_result. rewrite <- Hlen.
  destruct (Z.ltb_spec (mb_len b) pos).
  { destruct (Z.ltb_spec (mb_len b) (pos + count)); [|lia]. by rewrite orb_true_r. }
  rewrite andb_false_r, orb_false_r. destruct (Z.ltb_spec pos 0); [done|].
  rewrite (u32_small (mb_addr b + pos)) by lia.
  set (n := if mb_len b <? pos + count then u32 (mb_len b - pos) else count).
  assert (Hn : 0 <= n <= mb_len b - pos /\ (n = count \/ n < count /\ n = mb_len b - pos)).
  { unfold n. destruct (Z.ltb_spec (mb_len b) (pos + count)); [rewrite u32_small by lia|]; lia. }
  assert (bytes_at (ram s) (mb_addr b + pos) (drop (Z.to_nat pos) contents)) as Hdrop.
  { rewrite <- (Z2Nat.id pos) at 1 by lia. by apply bytes_at_drop. }
  assert (length (drop (Z.to_nat pos) contents) = Z.to_nat (mb_len b - pos)) as Hdl
    by (rewrite length_drop; lia).
  erewrite bind_Ret.
  2: { unfold zoom. rewrite (load_bytes_eq _ _ _ (Z.to_nat n) Hdrop) by (rewrite Hdl; lia). done. }
  rewrite s32_small by lia. unfold ret. destruct s. f_equal. f_equal.
  destruct Hn as [Hn [->|[Hlt Hnb]]].
  - f_equal. rewrite length_take, Hdl. lia.
  - rewrite !take_ge by (rewrite Hdl; lia). f_equal. rewrite Hdl. lia.
Qed.

(** A read from a block in use returns exactly the bytes of the block from
    [pos] on, as many as were asked for or as there are, and [-EIO] for a
    position outside the block; the driver's state is unchanged. *)
Theorem memblk_read_correct s device i b contents pos count :
  memblk_wf s -> block_of s device i b -> bytes_at (ram s) (mb_addr b) contents ->
  mb_len b = Z.of_nat (length contents) -> 0 <= mb_addr b -> mb_addr b + mb_len b < 2 ^ 32 ->
  0 <= count < 2 ^ 32 -> - 2 ^ 62 <= pos < 2 ^ 62 ->
  memblk_read device pos count s = Ret (read_result contents pos count, s).
Proof. apply memblk_read_eq. Qed.

Section opening.
Context {D : Type} `{LensLaws D Memblk}.
Implicit Types s : Devices D.

(** The driver's state within the device layer. *)
Definition mb_of s : Memblk := lget (drivers s).

(** The free descriptor [memblk_alloc] takes. *)
Definition first_free (t : list MemblkDescriptor) (d : Z) : Prop :=
  (exists b, zget t d = Some b /\ mb_len b < 0) /\
  forall j b, j < d -> zget t j = Some b -> 0 <= mb_len b.

Lemma memblk_alloc_eq (s : Memblk) d :
  memblk_wf s -> first_free (memblk s) d -> memblk_alloc s = Ret (d, s).
Proof.
  intros Hw [(b & Hz & Hl) Hfirst]. unfold memblk_alloc.
  rewrite (bind_Ret _ _ _ _ _ (memblk_find (fun i b => if mb_len b <? 0 then Some i else None) s Hw)).
  pose proof (mwf_range _ _ _ Hw Hz) as Hr. unfold ret. do 2 f_equal.
  destruct (find_from _ _ _) as [k|] eqn:E.
  - apply find_from_Some in E as (j & Hj & Hfj & Hk).
    destruct (zget (memblk s) j) as [b'|] eqn:Hzj; [|done]. cbn in Hfj.
    destruct (Z.ltb_spec (mb_len b') 0); [|done]. injection Hfj as <-. cbn.
    destruct (Z.lt_trichotomy j d) as [Hlt|[|Hgt]]; [|done|].
    + specialize (Hfirst j b' Hlt Hzj). lia.
    + specialize (Hk d ltac:(lia)). rewrite Hz in Hk. cbn in Hk.
      by rewrite (proj2 (Z.ltb_lt _ _) Hl) in Hk.
  - rewrite find_from_None in E. specialize (E d ltac:(lia)). rewrite Hz in E. cbn in E.
    by rewrite (proj2 (Z.ltb_lt _ _) Hl) in E.
Qed.

Lemma memblk_alloc_none (s : Memblk) :
  memblk_wf s -> (forall i b, zget (memblk s) i = Some b -> 0 <= mb_len b) ->
  memblk_alloc s = Ret (- ENOENT, s).
Proof.
  intros Hw Hno. unfold memblk_alloc.
  rewrite (bind_Ret _ _ _ _ _ (memblk_find (fun i b => if mb_len b <? 0 then Some i else None) s Hw)).
  rewrite (proj2 (find_from_None _ _ _)); [done|]. intros j Hj.
  destruct (zget (memblk s) j) as [b|] eqn:Hz; [|done]. cbn. specialize (Hno _ _ Hz).
  by rewrite (proj2 (Z.ltb_ge _ _) Hno).
Qed.

Lemma call_on_eq {A} (m : M Memblk A) s a t :
  m (mb_of s) = Ret (a, t) -> call (on m) s = Ret (a, set_drivers (lset t (drivers s)) s).
Proof. intros Hm. unfold call, zoom. by rewrite (on_eq _ _ _ _ Hm). Qed.

Lemma memblk_update_eq (s : Memblk) i b f :
  zget (memblk s) i = Some b ->
  memblk_update i f s = Ret (tt, set_memblk (zset (memblk s) i (f b)) s).
Proof. intros Hz. unfold memblk_update. by rewrite (bind_Ret _ _ _ _ _ (memblk_at_eq _ _ _ Hz)). Qed.

(** The state after a successful [memblk_open]. *)
Definition opened_block s (d ptr len : Z) : list MemblkDescriptor :=
  zset (memblk (mb_of s)) d (MkMemblk ptr len (makedev (major_free s) 1)).
Definition opened s (d dev ptr len : Z) : Devices D :=
  MkDevices (zset (_device_registered s) (major_free s) (Some (MkRegistered (zstr "memblk0") dev)))
    (major_free s + 1) (<[dev := memblk_dev]> (dev_store s))
    (lset (set_memblk (opened_block s d ptr len) (mb_of s)) (drivers s)).

(** An update of the descriptor, run in the device layer. *)
Lemma call_update_eq s d b f :
  zget (memblk (mb_of s)) d = Some b ->
  call (on (memblk_update d f)) s =
    Ret (tt, set_drivers (lset (set_memblk (zset (memblk (mb_of s)) d (f b)) (mb_of s)) (drivers s)) s).
Proof. intros Hz. by rewrite (call_on_eq _ _ _ _ (memblk_update_eq _ _ _ _ Hz)). Qed.

Lemma mb_of_set s m : mb_of (set_drivers (lset m (drivers s)) s) = m.
Proof. unfold mb_of. cbn. apply lget_lset. Qed.

Lemma set_drivers_twice s m m' :
  set_drivers (lset m (drivers (set_drivers (lset m' (drivers s)) s))) (set_drivers (lset m' (drivers s)) s)
  = set_drivers (lset m (drivers s)) s.
Proof. unfold set_drivers. cbn. by rewrite lset_lset. Qed.

Lemma memblk_open_eq s d dev ptr len :
  devices_wf s -> memblk_wf (mb_of s) -> major_free s < DEVICE_MAX ->
  first_free (memblk (mb_of s)) d -> len < INT_MAX ->
  memblk_open true dev ptr len s = Ret (0, opened s d dev ptr len).
Proof.
  intros Hdw Hw Hm Hfree Hlen. unfold memblk_open.
  destruct (Z.leb_spec INT_MAX len); [lia|].
  erewrite bind_Ret; [|by apply call_on_eq, memblk_alloc_eq].
  assert (set_drivers (lset (mb_of s) (drivers s)) s = s) as ->
    by (unfold set_drivers, mb_of; rewrite lset_lget; by destruct s).
  destruct Hfree as [(b & Hz & _) _].
  assert (Hin : forall (t : list MemblkDescriptor) x, length t = length (memblk (mb_of s)) -> zget (zset t d x) d = Some x).
  { intros t x Ht. apply zget_zset_eq. rewrite Ht. by eapply zget_lt_Some. }
  erewrite bind_Ret; [|by apply call_update_eq].
  erewrite bind_Ret; [|eapply call_update_eq; rewrite mb_of_set; by apply Hin].
  rewrite set_drivers_twice, mb_of_set. cbn [memblk set_memblk].
  unfold bind at 1, modify at 1.
  erewrite bind_Ret; [|apply device_register_eq; [by destruct Hdw|done|done]].
  cbn beta iota. erewrite bind_Ret; [|eapply call_update_eq; unfold mb_of; cbn; rewrite lget_lset; apply Hin, length_zset].
  unfold ret, opened, opened_block, mb_of. cbn. rewrite lget_lset, lset_lset. cbn. unfold zset.
  by rewrite !list_insert_insert_eq.
Qed.

(** A client that looks up a device number and reads from the block device. *)
Definition read_device (devno pos count : Z) : M (Devices D) (Z * list Z) :=
  let* p := device_lookup devno in
  let* p := need p in
  let* d := device_deref p in
  match d with
  | Blockdev b => let* read := need (bd_read b) in call (read devno pos count)
  | _ => fault
  end.

(** Opening a block of memory when a descriptor and a major number are free
    registers it as a block device: the returned value is 0, and looking up
    its device number gives the driver's device structure, whose read function
    returns the bytes of that memory.  All other descriptors are unchanged. *)
Theorem memblk_open_read s d dev ptr contents pos count :
  devices_wf s -> memblk_wf (mb_of s) -> major_free s < DEVICE_MAX ->
  first_free (memblk (mb_of s)) d ->
  (forall i b, zget (memblk (mb_of s)) i = Some b -> 0 <= mb_len b ->
     mb_device b <> makedev (major_free s) 1) ->
  bytes_at (ram (mb_of s)) ptr contents -> 0 <= ptr ->
  ptr + Z.of_nat (length contents) < 2 ^ 32 -> Z.of_nat (length contents) < INT_MAX ->
  0 <= count < 2 ^ 32 -> - 2 ^ 62 <= pos < 2 ^ 62 ->
  wp (memblk_open true dev ptr (Z.of_nat (length contents)) ;;
      read_device (makedev (major_free s) 1) pos count)
     (fun r s' => r = read_result contents pos count /\
        exists b, memblk (mb_of s') = zset (memblk (mb_of s)) d b) s.
Proof.
  intros Hdw Hw Hm Hfree Hnew Hbytes Hp Hpl Hlen Hc Hpos.
  pose proof (dwf_major _ Hdw) as Hj. destruct Hfree as [(b0 & Hz & Hl0) Hff].
  rewrite wp_bind. eapply wp_eq.
  { apply memblk_open_eq; [done..|split; [by exists b0|done]|done]. }
  unfold read_device. rewrite wp_bind. eapply wp_eq.
  { apply (device_lookup_eq _ _ (MkRegistered (zstr "memblk0") dev)); [unfold DEVICE_MAX in *; lia|].
    apply zget_zset_eq. rewrite (dwf_length _ Hdw). unfold DEVICE_MAX in *. lia. }
  rewrite wp_bind, (wp_need _ dev) by done. rewrite wp_bind. eapply wp_eq.
  { unfold device_deref, bind, gets, need. cbn [dev_store opened]. by rewrite lookup_insert_eq. }
  cbn beta iota. unfold memblk_dev. rewrite wp_bind.
  cbn [bd_read]. rewrite wp_need by reflexivity. eapply wp_eq.
  { apply call_on_eq. unfold mb_of. cbn [drivers opened]. rewrite lget_lset.
    apply (memblk_read_eq _ _ d (MkMemblk ptr (Z.of_nat (length contents)) (makedev (major_free s) 1)));
      try done.
    - split; cbn; [unfold opened_block; rewrite length_zset; apply (mwf_length _ Hw)|].
      intros i b. unfold opened_block. rewrite zget_zset by (by eapply zget_lt_Some).
      case_decide; [intros [= <-]; cbn; lia|apply (mwf_len _ Hw)].
    - split_and!; cbn; [|lia|done|].
      + unfold opened_block. apply zget_zset_eq. by eapply zget_lt_Some.
      + intros j b Hjd. unfold opened_block. pose proof (zget_lt_Some _ _ _ Hz).
        rewrite zget_zset, decide_False by lia. intros Hb. by eapply Hnew. }
  split; [done|]. eexists. unfold mb_of. cbn [drivers opened set_drivers]. by rewrite !lget_lset.
Qed.

(** With all four descriptors in use [memblk_open] does not report the
    error of its allocator but writes in front of the table. *)
Theorem memblk_open_full s block dev ptr length :
  memblk_wf (mb_of s) -> length < INT_MAX ->
  (forall i b, zget (memblk (mb_of s)) i = Some b -> 0 <= mb_len b) ->
  memblk_open block dev ptr length s = Fault.
Proof.
  intros Hw Hlen Hno. unfold memblk_open. destruct (Z.leb_spec INT_MAX length); [lia|].
  erewrite bind_Ret; [|by apply call_on_eq, memblk_alloc_none]. reflexivity.
Qed.
End opening.

(** * Witnesses *)

#[local] Instance memblk_self : Lens Memblk Memblk := { lget s := s; lset t _ := t }.
#[local] Instance memblk_self_laws : LensLaws Memblk Memblk.
Proof. by split. Qed.

(** Four bytes of memory at 65536, and the state [memblk_init] leaves. *)
Definition demo_ram : mem :=
  <[65536 := 1]> (<[65537 := 2]> (<[65538 := 3]> (<[65539 := 4]> ∅))).
Definition demo_memblk : Memblk :=
  MkMemblkState (replicate 4 (MkMemblk 0 (-1) 0)) demo_ram.
Definition demo_memblk1 : Memblk :=
  MkMemblkState (MkMemblk 65536 4 65537 :: replicate 3 (MkMemblk 0 (-1) 0)) demo_ram.
Definition demo_memblk4 : Memblk := MkMemblkState (replicate 4 (MkMemblk 0 0 0)) ∅.

Lemma memblk_init_demo : memblk_init (MkMemblkState (replicate 4 (MkMemblk 0 0 0)) demo_ram) = Ret (0, demo_memblk).
Proof. reflexivity. Qed.

Lemma demo_bytes : bytes_at demo_ram 65536 [1; 2; 3; 4].
Proof.
  intros i b Hi. pose proof (zget_lt_Some _ _ _ Hi). cbn in *.
  assert (i = 0 \/ i = 1 \/ i = 2 \/ i = 3) as [->|[->|[->| ->]]] by lia; by injection Hi as <-.
Qed.

(** A lookup in a short table is one of its entries. *)
Lemma zget_elem {A} (l : list A) i x : zget l i = Some x -> x ∈ l.
Proof.
  unfold zget. destruct (Z.ltb_spec i 0); [done|]. intros Hl. by eapply list_elem_of_lookup_2.
Qed.

Lemma demo_memblk_wf : memblk_wf demo_memblk.
Proof.
  split; [done|]. intros i b Hb%zget_elem. apply elem_of_replicate in Hb as [-> _]. done.
Qed.
Lemma demo_memblk1_wf : memblk_wf demo_memblk1.
Proof.
  split; [done|]. intros i b Hb%zget_elem. apply elem_of_cons in Hb as [->|Hb]; [done|].
  apply elem_of_replicate in Hb as [-> _]. done.
Qed.

Lemma memblk_read_correct_witness :
  memblk_read 65537 1 10 demo_memblk1 = Ret ((3, [2; 3; 4]), demo_memblk1).
Proof.
  apply (memblk_read_correct demo_memblk1 65537 0 (MkMemblk 65536 4 65537) [1; 2; 3; 4]); try done.
  - apply demo_memblk1_wf.
  - split_and!; try done. intros j b Hj Hb%zget_lt_Some. lia.
  - apply demo_bytes.
Defined.

Lemma memblk_open_read_witness :
  wp (memblk_open true 4096 65536 4 ;; read_device 65537 1 10)
     (fun r s' => r = read_result [1; 2; 3; 4] 1 10 /\
        exists b, memblk (mb_of s') = zset (memblk (mb_of (devices_init demo_memblk))) 0 b)
     (devices_init demo_memblk).
Proof.
  refine (memblk_open_read (devices_init demo_memblk) 0 4096 65536 [1; 2; 3; 4] 1 10 _ _ _ _ _ _ _ _ _ _ _); try done.
  - apply devices_init_wf.
  - apply demo_memblk_wf.
  - split; [by eexists|]. intros j b Hj Hb%zget_lt_Some. lia.
  - intros i b Hb%zget_elem Hl. apply elem_of_replicate in Hb as [-> _]. done.
  - apply demo_bytes.
Defined.

Lemma memblk_open_full_witness :
  memblk_open true 4096 65536 4 (devices_init demo_memblk4) = Fault.
Proof.
  apply (memblk_open_full (devices_init demo_memblk4)).
  - split; [done|]. intros i b Hb%zget_elem. apply elem_of_replicate in Hb as [-> _]. done.
  - done.
  - intros i b Hb%zget_elem. apply elem_of_replicate in Hb as [-> _]. done.
Defined.
