(* ===== verification/Romfs.v ===== *)
(** The ROM file system: [kernel/modules/fs/romfs.c].

    A buffer on the stack is a list of bytes whose initial contents are an
    argument of the operations ([stk]).  A read overwrites a prefix of it. *)

From Stdlib Require Import String.
From S2P Require Import Prelude CString Types Device.

Definition MAX_ROMFS : Z := 2.
(** [sizeof(struct dirent)] *)
Definition sizeof_dirent : Z := 1032.

(** * Data *)

Record Instance : Type := MkInstance {
  used : Z;
  device : Z;
  root_inode : Z;
}.

Record Romfs (D : Type) : Type := MkRomfs {
  _instance : list Instance;
  rf_devices : Devices D;
}.
Arguments MkRomfs {_} _ _.
Arguments _instance {_} _.
Arguments rf_devices {_} _.

#[export] Instance romfs_devices {D} : Lens (Romfs D) (Devices D) :=
  { lget := rf_devices; lset d s := MkRomfs (_instance s) d }.
#[export] Instance romfs_devices_laws {D} : LensLaws (Romfs D) (Devices D).
Proof. split; try done. by intros []. Qed.

(** The macro: the most significant byte is shifted into the sign. *)
Definition MAKE_INT (buf : list Z) (p : Z) : Z :=
  s32 (Z.lor (Z.lor (Z.lor (Z.shiftl (byte_at buf p) 24) (Z.shiftl (byte_at buf (p + 1)) 16))
                    (Z.shiftl (byte_at buf (p + 2)) 8)) (byte_at buf (p + 3))).

(** The C string at the start of a list of bytes, and what [strncpy] and
    [strncmp] make of it. *)
Fixpoint c_string (l : list Z) : list Z :=
  match l with
  | [] => []
  | b :: l' => if b =? 0 then [] else b :: c_string l'
  end.
Definition strncpy_val (max : nat) (l : list Z) : list Z := take (max - 1) (c_string l).
Definition strncmp_val (n : nat) (s t : list Z) : Z := strcmp_val (take n s) (take n t).

Section ops.
Context {D : Type}.

Definition instance_at (q : Z) : M (Romfs D) Instance :=
  let* t := gets _instance in need (zget t q).
Definition instance_update (q : Z) (f : Instance -> Instance) : M (Romfs D) unit :=
  let* i := instance_at q in
  modify (fun s => MkRomfs (zset (_instance s) q (f i)) (rf_devices s)).

(** * Operations *)

(** [d->blockdev] of the pointer [device_lookup] returns. *)
Definition deref_blockdev (o : option Z) : M (Romfs D) (BlockDev D) :=
  let* p := need o in
  let* d := on (device_deref p) in
  match d with Blockdev b => ret b | _ => fault end.

(** The result and the bytes written to the buffer. *)
Definition _read_unaligned (dev bytes offset : Z) : M (Romfs D) (Z * list Z) :=
  if offset <? 0 then ret (- EINVAL, []) else
  if bytes =? 0 then ret (0, []) else
  let* d := on (device_lookup dev) in
  let* b := deref_blockdev d in
  let* read := need (bd_read b) in
  let* ' (_, data) := on (call (read dev offset (u32 bytes))) in
  ret (0, data).

(** [_read_unaligned] into a local buffer; writing past its end is undefined. *)
Definition read_buf (buf : list Z) (dev bytes offset : Z) : M (Romfs D) (list Z) :=
  let* ' (_, data) := _read_unaligned dev bytes offset in
  if (length data <=? length buf)%nat then ret (data ++ drop (length data) buf) else fault.

(** The mode, and the value assigned to [*rdev] if there is one. *)
Definition _byte_to_mode (byte special : Z) : Z * option Z :=
  let t := Z.land byte 7 in
  let '(mode, rdev) :=
    if t =? 1 then (Z.lor S_IFDIR 292, None)
    else if t =? 2 then (Z.lor S_IFREG 292, None)
    else if t =? 3 then (Z.lor S_IFLNK 292, None)
    else if t =? 4 then (S_IFBLK, Some (makedev (Z.shiftr special 16) (Z.land special 65535)))
    else if t =? 5 then (S_IFCHR, Some (makedev (Z.shiftr special 16) (Z.land special 65535)))
    else if t =? 6 then (Z.lor S_IFSOCK 292, None)
    else (Z.lor S_IFIFO 292, None) in
  (if negb (Z.land byte 8 =? 0) then Z.lor mode 73 else mode, rdev).

Definition inode_offset (inode : Z) : Z := u32 (inode * 16).
Definition next_inode (buf : list Z) (p : Z) : Z := u32 (Z.shiftr (MAKE_INT buf p) 4).

(** The loop over the entries of a directory: the entry's inode and buffer. *)
Definition directory_entry (fuel : nat) (dev pos inode : Z) (buf : list Z) :
    M (Romfs D) (Z * list Z) :=
  loop fuel (0, inode, buf) (fun '(i, inode, buf) =>
    if inode =? 0 then ret (inr (0, buf)) else
    let* buf := read_buf buf dev (16 + NAME_MAX + 1) (inode_offset inode) in
    ret (if i =? pos then inr (inode, buf) else inl (i + 1, next_inode buf 0, buf))).

(** The result and the entry written to [*de]. *)
Definition fs_romfs_read_directory (fuel : nat) (stk : list Z) (instance inode pos : Z) :
    M (Romfs D) (Z * option dirent) :=
  let* inst := instance_at instance in
  let inode := u32 (inode + root_inode inst) in
  if pos <? 0 then ret (- EINVAL, None) else
  let* buf := read_buf stk (device inst) 16 (inode_offset inode) in
  let is_root := inode =? root_inode inst in
  if negb is_root && negb (Z.land (byte_at buf 3) 7 =? 1) then ret (- ENOTDIR, None) else
  let inode := if is_root then inode else next_inode buf 4 in
  let* ' (inode, buf) := directory_entry fuel (device inst) pos inode buf in
  if inode =? 0 then ret (0, None) else
  ret (sizeof_dirent,
       Some (Dirent (u32 (inode - root_inode inst))
                    (fst (_byte_to_mode (byte_at buf 3) (u32 (MAKE_INT buf 4))))
                    (strncpy_val (Z.to_nat NAME_MAX) (drop 16 buf)))).

(** The number of the first of the 16 blocks after the header that has a zero
    byte, 16 when there is none. *)
Definition find_data (dev inode : Z) (node : list Z) : M (Romfs D) Z :=
  loop 17 (0, node) (fun '(i, node) =>
    if 16 <=? i then ret (inr i) else
    let* node := read_buf node dev 16 (u32 (inode * 16 + 16 + i * 16)) in
    ret (if forallb (fun b => negb (b =? 0)) node then inl (i + 1, node) else inr i)).

(** The result and the bytes written to [data]. *)
Definition fs_romfs_read (stk : list Z) (instance inode bytes offset : Z) :
    M (Romfs D) (Z * list Z) :=
  let* inst := instance_at instance in
  let inode := u32 (inode + root_inode inst) in
  let* node := read_buf stk (device inst) 16 (inode_offset inode) in
  let size := MAKE_INT node 8 in
  let bytes := if size <? s64 (offset + bytes) then u32 (size - offset) else bytes in
  let* i := find_data (device inst) inode node in
  let i := i + 1 in
  let* ' (_, data) := _read_unaligned (device inst) (s32 bytes)
                        (s64 (u32 (inode * 16 + 16 + i * 16) + offset)) in
  ret (s32 bytes, data).

Definition fs_romfs_stat_inode (stk : list Z) (instance inode : Z) (s : stat) :
    M (Romfs D) (Z * stat) :=
  let* inst := instance_at instance in
  let* d := on (device_lookup (device inst)) in
  let inode := u32 (inode + root_inode inst) in
  let* buf := read_buf stk (device inst) 16 (inode_offset inode) in
  let '(mode, rdev) := _byte_to_mode (byte_at buf 3) (u32 (MAKE_INT buf 4)) in
  let size := MAKE_INT buf 8 in
  let* b := deref_blockdev d in
  let* blksize := need (bd_blksize b) in
  let* bs := on (call (blksize (device inst))) in
  let* bs1 := on (call (blksize (device inst))) in
  let* bs2 := on (call (blksize (device inst))) in
  if bs2 =? 0 then fault else
  ret (0, Stat (device inst) (u32 (inode - root_inode inst)) mode 1 0 0 (default 0 rdev) size
            (u32 bs) (Z.quot (s32 (s32 (size + bs1) - 1)) bs2 mod 2 ^ 64) 0).

(** The search along the chain of siblings: the inode with that name. *)
Definition find_name (fuel : nat) (dev inode : Z) (fname buf : list Z) :
    M (Romfs D) (option Z) :=
  loop fuel (inode, buf) (fun '(inode, buf) =>
    if inode =? 0 then ret (inr None) else
    let* buf := read_buf buf dev (16 + NAME_MAX + 1) (inode_offset inode) in
    ret (if strncmp_val (Z.to_nat NAME_MAX) fname (c_string (drop 16 buf)) =? 0
         then inr (Some inode) else inl (next_inode buf 0, buf))).

Definition fs_romfs_stat (fuel : nat) (stk stk2 : list Z) (instance inode : Z) (fname : list Z)
    (s : stat) : M (Romfs D) (Z * stat) :=
  let* inst := instance_at instance in
  let inode := u32 (inode + root_inode inst) in
  let* buf := read_buf stk (device inst) (16 + NAME_MAX + 1) (inode_offset inode) in
  let stat_it inode := fs_romfs_stat_inode stk2 instance (u32 (inode - root_inode inst)) s in
  if (length fname =? 0)%nat then stat_it inode else
  let is_root := inode =? root_inode inst in
  if negb is_root && negb (Z.land (byte_at buf 3) 7 =? 1) then ret (- ENOTDIR, s) else
  let inode := if is_root then inode else next_inode buf 4 in
  let* r := find_name fuel (device inst) inode fname buf in
  match r with
  | Some inode => stat_it inode
  | None => ret (- ENOENT, s)
  end.

Definition set_inst_device (d : Z) (i : Instance) : Instance := MkInstance (used i) d (root_inode i).
Definition set_inst_root (r : Z) (i : Instance) : Instance := MkInstance (used i) (device i) r.
Definition set_used (u : Z) (i : Instance) : Instance := MkInstance u (device i) (root_inode i).

(** The index of the first zero byte at or after 16, or 512. *)
Definition volume_end (buf : list Z) : Z :=
  default 512 (find_from 496 16 (fun i => if byte_at buf i =? 0 then Some i else None)).

(** The result and the value assigned to [*root_inode]. *)
Definition fs_romfs_mount (stk : list Z) (dev : Z) : M (Romfs D) (Z * option Z) :=
  let* r := for_range (Z.to_nat MAX_ROMFS) 0 (fun q =>
    let* inst := instance_at q in ret (if used inst =? 0 then Some q else None)) in
  let q := default MAX_ROMFS r in
  if q =? MAX_ROMFS then ret (- ENOMEM, None) else
  instance_update q (set_inst_device dev) ;;
  let* buf := read_buf stk dev 512 0 in
  if negb (strncmp_val 8 (zstr "-rom1fs-") (c_string buf) =? 0) then ret (- EINVAL, None) else
  let i := volume_end buf in
  if i =? 512 then ret (- EINVAL, None) else
  instance_update q (set_inst_root (Z.quot (i + 16) 16)) ;;
  instance_update q (set_used 1) ;;
  ret (q, Some 0).

End ops.

(** * The image *)

(** The file headers of an image: the inode is the header's address divided
    by 16. *)
Section image.
Variable img : list Z.

Definition img_next (n : Z) : Z := next_inode img (16 * n).
Definition img_child (n : Z) : Z := next_inode img (16 * n + 4).
Definition img_type (n : Z) : Z := byte_at img (16 * n + 3).
Definition img_special (n : Z) : Z := u32 (MAKE_INT img (16 * n + 4)).
Definition img_size (n : Z) : Z := MAKE_INT img (16 * n + 8).
Definition img_name (n : Z) : list Z := c_string (drop (Z.to_nat (16 * n + 16)) img).

(** The header is in the image, and so is a name that fits. *)
Record node_ok (n : Z) : Prop := {
  node_range : 0 < n < 2 ^ 28;
  node_size : 0 <= img_size n < 2 ^ 30;
  node_name : Z.of_nat (length (img_name n)) < NAME_MAX;
  node_end : 16 * n + 16 + Z.of_nat (length (img_name n)) < Z.of_nat (length img);
}.

(** The list of siblings that starts with inode [n]. *)
Inductive chain : Z -> list Z -> Prop :=
| chain_nil : chain 0 []
| chain_cons n l : node_ok n -> chain (img_next n) l -> chain n (n :: l).

Lemma chain_node_ok n l m : chain n l -> m ∈ l -> node_ok m.
Proof.
  induction 1 as [|n l Hn _ IH]; rewrite ?elem_of_cons; [by intros ?%not_elem_of_nil|].
  intros [->|Hin]; auto.
Qed.

Definition by_name (fname : list Z) (l : list Z) : option Z :=
  find (fun n => bool_decide (fname = img_name n)) l.
End image.

Definition img_ok (img : list Z) : Prop :=
  Forall (fun b => 0 <= b < 256) img /\ Z.of_nat (length img) < 2 ^ 31.

(** ** Bytes of buffers *)

Lemma byte_at_app_l l k i : 0 <= i < Z.of_nat (length l) -> byte_at (l ++ k) i = byte_at l i.
Proof. intros Hi. unfold byte_at. by rewrite zget_app_l. Qed.

Lemma byte_at_take_drop l n m i :
  0 <= i -> (Z.to_nat i < m)%nat -> byte_at (take m (drop n l)) i = byte_at l (Z.of_nat n + i).
Proof.
  intros Hi Hm. unfold byte_at, zget. destruct (Z.ltb_spec i 0); [lia|].
  destruct (Z.ltb_spec (Z.of_nat n + i) 0); [lia|].
  rewrite lookup_take, lookup_drop. rewrite decide_True by lia. do 2 f_equal. lia.
Qed.

Lemma MAKE_INT_ext l k p q :
  (forall i, 0 <= i < 4 -> byte_at l (p + i) = byte_at k (q + i)) -> MAKE_INT l p = MAKE_INT k q.
Proof.
  intros H. unfold MAKE_INT. rewrite (H 1), (H 2), (H 3) by lia.
  specialize (H 0). rewrite !Z.add_0_r in H. by rewrite H.
Qed.

Lemma next_inode_ext l k p q :
  (forall i, 0 <= i < 4 -> byte_at l (p + i) = byte_at k (q + i)) -> next_inode l p = next_inode k q.
Proof. intros H. unfold next_inode. by rewrite (MAKE_INT_ext _ _ _ _ H). Qed.

Lemma c_string_app l k : (length (c_string l) < length l)%nat -> c_string (l ++ k) = c_string l.
Proof.
  induction l as [|b l IH]; cbn; [lia|]. destruct (b =? 0); [done|]. cbn. intros H. rewrite IH; [done|lia].
Qed.

Lemma c_string_length l : (length (c_string l) <= length l)%nat.
Proof. induction l as [|b l IH]; cbn; [lia|]. destruct (b =? 0); cbn; lia. Qed.

Lemma c_string_take l n : (length (c_string l) < n)%nat -> c_string (take n l) = c_string l.
Proof.
  revert n. induction l as [|b l IH]; intros n Hn; [by rewrite take_nil|].
  destruct n as [|n]; [lia|]. cbn [c_string take] in *. destruct (b =? 0); [done|].
  cbn in Hn. rewrite IH by lia. done.
Qed.

Lemma c_string_bytes_ok l : Forall (fun b => 0 <= b < 256) l -> bytes_ok (c_string l).
Proof.
  induction 1 as [|b l Hb Hl IH]; [constructor|]. cbn. destruct (Z.eqb_spec b 0); constructor; [lia|done].
Qed.

Lemma c_string_nonzero l i :
  (i < length (c_string l))%nat -> exists b, l !! i = Some b /\ b <> 0.
Proof.
  revert i. induction l as [|b l IH]; cbn [c_string]; [cbn; lia|].
  destruct (Z.eqb_spec b 0); [cbn; lia|]. intros [|i] Hi; [by exists b|]. apply IH. cbn in Hi. lia.
Qed.

Lemma c_string_end l : (length (c_string l) < length l)%nat -> l !! length (c_string l) = Some 0.
Proof.
  induction l as [|b l IH]; cbn; [lia|]. destruct (Z.eqb_spec b 0) as [->|]; [done|].
  cbn. intros H. apply IH. lia.
Qed.

Lemma no_zero_byte l :
  forallb (fun b => negb (b =? 0)) l = true <->
  forall i, 0 <= i < Z.of_nat (length l) -> byte_at l i <> 0.
Proof.
  rewrite forallb_forall. split.
  - intros Hl i Hi. destruct (zget_in_range l i Hi) as [b Hb]. unfold byte_at. rewrite Hb. cbn.
    apply Z.eqb_neq, negb_true_iff, Hl, list_elem_of_In.
    unfold zget in Hb. destruct (Z.ltb_spec i 0); [done|]. by eapply list_elem_of_lookup_2.
  - intros H b [i Hi]%list_elem_of_In%list_elem_of_lookup. apply negb_true_iff, Z.eqb_neq.
    pose proof (lookup_lt_Some _ _ _ Hi). specialize (H (Z.of_nat i) ltac:(lia)).
    unfold byte_at in H. by rewrite zget_nat, Hi in H.
Qed.

(** ** Reading from the device *)

Definition overlay (l buf : list Z) : list Z := l ++ drop (length l) buf.
Definition window (img : list Z) (off bytes : Z) : list Z :=
  take (Z.to_nat bytes) (drop (Z.to_nat off) img).

Lemma length_overlay l buf : (length l <= length buf)%nat -> length (overlay l buf) = length buf.
Proof. intros H. unfold overlay. rewrite length_app, length_drop. lia. Qed.

Lemma length_window img off bytes : (length (window img off bytes) <= Z.to_nat bytes)%nat.
Proof. unfold window. rewrite length_take. lia. Qed.

Section reading.
Context {D : Type} (s : Romfs D) (dev : Z) (img : list Z) (blk : Z).
Hypothesis Hserve : block_contents (rf_devices s) dev img blk.
Hypothesis Himg : img_ok img.

Lemma lookup_blockdev_eq :
  exists b read blksize,
    (forall A (k : BlockDev D -> M (Romfs D) A),
       (let* d := on (device_lookup dev) in let* b := deref_blockdev d in k b) s = k b s) /\
    (exists d, on (device_lookup dev) s = Ret (d, s) /\ deref_blockdev d s = Ret (b, s)) /\
    bd_read b = Some read /\ bd_blksize b = Some blksize /\
    on (call (blksize dev)) s = Ret (blk, s) /\
    forall pos count, - 2 ^ 62 <= pos < 2 ^ 62 -> 0 <= count < 2 ^ 32 ->
      on (call (read dev pos count)) s = Ret (read_result img pos count, s).
Proof.
  destruct Hserve as (_ & r & b & read & blksize & Hz & Hd & Hr & Hbs & Hblk & Hread).
  assert (on (device_lookup dev) s = Ret (Some (rd_device r), s)) as Hl.
  { apply on_eq_id. unfold device_lookup. cbn [lget romfs_devices].
    by rewrite (bind_Ret _ _ _ _ _ (registered_at_eq _ _ _ Hz)). }
  assert (deref_blockdev (Some (rd_device r)) s = Ret (b, s)) as Hb.
  { unfold deref_blockdev. rewrite (bind_Ret _ _ (rd_device r) s s) by done.
    erewrite bind_Ret; [|apply on_eq_id; unfold device_deref, bind, gets, need; cbn; by rewrite Hd].
    done. }
  exists b, read, blksize. split_and!; [|by eexists|done|done| |].
  - intros A k. rewrite (bind_Ret _ _ _ _ _ Hl), (bind_Ret _ _ _ _ _ Hb). done.
  - apply on_eq_id. apply call_eq_id, Hblk.
  - intros pos count Hp Hc. apply on_eq_id, call_eq_id. by apply Hread.
Qed.

Lemma read_unaligned_eq bytes off :
  0 <= off < 2 ^ 62 -> - 2 ^ 31 <= bytes < 2 ^ 31 ->
  _read_unaligned dev bytes off s = Ret ((0, window img off (u32 bytes)), s).
Proof.
  intros Hoff Hb. unfold _read_unaligned. destruct (Z.ltb_spec off 0); [lia|].
  destruct (Z.eqb_spec bytes 0) as [->|]; [done|].
  destruct lookup_blockdev_eq as (b & read & blksize & Hk & _ & Hr & _ & _ & Hread).
  rewrite Hk, Hr. rewrite (bind_Ret _ _ read s s) by done.
  rewrite (bind_Ret _ _ _ _ _ (Hread off (u32 bytes) ltac:(lia) (u32_range _))).
  unfold read_result, window. destruct (Z.ltb_spec off 0); [lia|]. cbn [orb].
  destruct (Z.ltb_spec (Z.of_nat (length img)) off); [|done].
  rewrite drop_ge by lia. by rewrite take_nil.
Qed.

Lemma read_buf_eq buf bytes off :
  0 <= off < 2 ^ 62 -> 0 <= bytes < 2 ^ 31 -> bytes <= Z.of_nat (length buf) ->
  read_buf buf dev bytes off s = Ret (overlay (window img off bytes) buf, s).
Proof.
  intros Hoff Hb Hl. unfold read_buf.
  rewrite (bind_Ret _ _ _ _ _ (read_unaligned_eq bytes off Hoff ltac:(lia))).
  rewrite u32_small by lia. pose proof (length_window img off bytes).
  destruct (Nat.leb_spec (length (window img off bytes)) (length buf)); [done|lia].
Qed.

(** The bytes of a header, and the name after it, in a buffer filled from it. *)
Lemma overlay_byte buf n bytes i :
  0 <= n -> 16 * n + i < Z.of_nat (length img) -> 0 <= i < bytes ->
  byte_at (overlay (window img (16 * n) bytes) buf) i = byte_at img (16 * n + i).
Proof.
  intros Hn Hi Hb. unfold overlay. rewrite byte_at_app_l.
  - unfold window. rewrite byte_at_take_drop by lia. f_equal. lia.
  - unfold window. rewrite length_take, length_drop. lia.
Qed.

Lemma overlay_name buf n :
  node_ok img n ->
  c_string (drop 16 (overlay (window img (16 * n) (16 + NAME_MAX + 1)) buf)) = img_name img n.
Proof.
  intros [Hr _ Hn He]. unfold overlay, window, img_name in *. unfold NAME_MAX in *.
  rewrite drop_app_le by (rewrite length_take, length_drop; lia).
  change (Z.to_nat (16 + 1024 + 1)) with (16 + 1025)%nat. rewrite <- take_drop_commute.
  rewrite drop_drop. replace (Z.to_nat (16 * n) + 16)%nat with (Z.to_nat (16 * n + 16)) by lia.
  set (X := drop (Z.to_nat (16 * n + 16)) img) in *.
  assert (length X = (length img - Z.to_nat (16 * n + 16))%nat) as HX by apply length_drop.
  assert (c_string (take 1025 X) = c_string X) as HcX by (apply c_string_take; lia).
  rewrite c_string_app; [done|]. rewrite HcX, length_take. lia.
Qed.

Lemma inode_offset_eq n : 0 <= n < 2 ^ 28 -> inode_offset n = 16 * n.
Proof. intros Hn. unfold inode_offset. rewrite u32_small; lia. Qed.

Lemma MAKE_INT_overlay buf n bytes p :
  0 <= n -> 0 <= p -> p + 4 <= bytes -> 16 * n + p + 4 <= Z.of_nat (length img) ->
  MAKE_INT (overlay (window img (16 * n) bytes) buf) p = MAKE_INT img (16 * n + p).
Proof.
  intros Hn Hp Hb Hl. apply MAKE_INT_ext. intros i Hi. rewrite overlay_byte by lia. f_equal. lia.
Qed.

Lemma next_inode_overlay buf n bytes p :
  0 <= n -> 0 <= p -> p + 4 <= bytes -> 16 * n + p + 4 <= Z.of_nat (length img) ->
  next_inode (overlay (window img (16 * n) bytes) buf) p = next_inode img (16 * n + p).
Proof. intros. unfold next_inode. by rewrite MAKE_INT_overlay. Qed.

End reading.

(** * The operations on a well-formed image *)

(** The mounted instance [q] at an image [img] whose chain of headers in the
    root directory begins at inode [root]. *)
Record mounted {D} (s : Romfs D) (q dev root blk : Z) (img : list Z) : Prop := {
  mt_instance : exists u, zget (_instance s) q = Some (MkInstance u dev root);
  mt_device : block_contents (rf_devices s) dev img blk;
  mt_img : img_ok img;
  mt_root : 0 < root < 2 ^ 28;
}.

(** What a directory entry's [stat] is. *)
Definition node_stat (dev root blk : Z) (img : list Z) (n : Z) : stat :=
  Stat dev (u32 (n - root)) (fst (_byte_to_mode (img_type img n) (img_special img n))) 1 0 0
    (default 0 (snd (_byte_to_mode (img_type img n) (img_special img n))))
    (img_size img n) blk ((img_size img n + blk - 1) / blk) 0.

(** [l] are the entries of the directory [n], which is the root (the virtual
    directory whose first entry is [root]) or a directory header. *)
Definition dir_entries (img : list Z) (root n : Z) (l : list Z) : Prop :=
  node_ok img n /\
  if n =? root then chain img root l
  else Z.land (img_type img n) 7 = 1 /\ chain img (img_child img n) l.

Section correct.
Context {D : Type} (s : Romfs D) (q dev root blk : Z) (img : list Z).
Hypothesis Hm : mounted s q dev root blk img.

Lemma instance_at_eq : exists u, instance_at q s = Ret (MkInstance u dev root, s).
Proof.
  destruct (mt_instance _ _ _ _ _ _ Hm) as [u Hz]. exists u.
  unfold instance_at, bind, gets, need. by rewrite Hz.
Qed.

Lemma node_in n : node_ok img n -> 0 <= n < 2 ^ 28 /\ 16 * n + 16 < Z.of_nat (length img).
Proof. intros [? ? ? ?]. lia. Qed.

(** A header read into a buffer that is large enough. *)
Lemma read_header buf n bytes :
  node_ok img n -> 16 <= bytes < 2 ^ 31 -> bytes <= Z.of_nat (length buf) ->
  read_buf buf dev bytes (inode_offset n) s = Ret (overlay (window img (16 * n) bytes) buf, s).
Proof.
  intros [? ?]%node_in Hb Hl. rewrite inode_offset_eq by lia.
  apply (read_buf_eq s dev img blk (mt_device _ _ _ _ _ _ Hm)); lia.
Qed.

Lemma header_bytes buf n bytes :
  node_ok img n -> 16 <= bytes ->
  let b := overlay (window img (16 * n) bytes) buf in
  byte_at b 3 = img_type img n /\ next_inode b 0 = img_next img n /\
  next_inode b 4 = img_child img n /\ u32 (MAKE_INT b 4) = img_special img n /\
  MAKE_INT b 8 = img_size img n.
Proof.
  intros [? ?]%node_in Hb b. unfold b, img_next, img_type, img_child, img_special, img_size.
  rewrite overlay_byte by lia. rewrite !next_inode_overlay, !MAKE_INT_overlay by lia.
  by rewrite Z.add_0_r.
Qed.

Lemma stat_inode_eq stk n st :
  node_ok img n -> length stk = 16%nat -> 0 <= root ->
  fs_romfs_stat_inode stk q (u32 (n - root)) st s = Ret ((0, node_stat dev root blk img n), s).
Proof.
  intros Hn Hstk Hroot. pose proof (mt_root _ _ _ _ _ _ Hm) as Hr. destruct (node_in _ Hn) as [Hnr _].
  unfold fs_romfs_stat_inode. destruct instance_at_eq as [u Hu].
  rewrite (bind_Ret _ _ _ _ _ Hu). cbn [device root_inode].
  destruct (lookup_blockdev_eq s dev img blk (mt_device _ _ _ _ _ _ Hm))
    as (b & read & blksize & _ & (d & Hd & Hb) & _ & Hbs & Hblk & _).
  rewrite (bind_Ret _ _ _ _ _ Hd).
  assert (u32 (u32 (n - root) + root) = n) as ->.
  { unfold u32. rewrite Z.add_mod_idemp_l by lia. rewrite Z.mod_small by lia. lia. }
  rewrite (bind_Ret _ _ _ _ _ (read_header stk n 16 Hn ltac:(lia) ltac:(lia))).
  destruct (header_bytes stk n 16 Hn ltac:(lia)) as (Hty & _ & _ & Hsp & Hsz).
  rewrite Hty, Hsp, Hsz. destruct (_byte_to_mode _ _) as [mode rdev] eqn:E.
  rewrite (bind_Ret _ _ _ _ _ Hb), Hbs. rewrite (bind_Ret _ _ blksize s s) by done.
  rewrite (bind_Ret _ _ _ _ _ Hblk), (bind_Ret _ _ _ _ _ Hblk), (bind_Ret _ _ _ _ _ Hblk).
  destruct (mt_device _ _ _ _ _ _ Hm) as [Hblkp _]. pose proof (node_size _ _ Hn) as Hsize.
  destruct (Z.eqb_spec blk 0); [lia|]. unfold ret, node_stat. rewrite E. cbn [fst snd].
  rewrite (s32_small (img_size img n + blk)), s32_small by lia. rewrite (u32_small blk) by lia.
  rewrite Z.quot_div_nonneg by lia. rewrite (Z.mod_small (_ / _)); [done|].
  split; [apply Z.div_pos; lia|]. apply Z.div_lt_upper_bound; [lia|]. nia.
Qed.

Lemma strncmp_name fname n :
  bytes_ok fname -> Z.of_nat (length fname) <= NAME_MAX -> node_ok img n ->
  (strncmp_val (Z.to_nat NAME_MAX) fname (img_name img n) =? 0) = bool_decide (fname = img_name img n).
Proof.
  intros Hf Hl [_ _ Hn _]. unfold strncmp_val. rewrite !take_ge by lia.
  apply eq_bool_prop_intro. rewrite bool_decide_spec, Is_true_true, Z.eqb_eq.
  apply strcmp_val_eq; [done|]. apply c_string_bytes_ok, Forall_drop.
  by destruct (mt_img _ _ _ _ _ _ Hm).
Qed.

Lemma find_name_eq fuel n l fname buf :
  chain img n l -> bytes_ok fname -> Z.of_nat (length fname) <= NAME_MAX ->
  length buf = Z.to_nat (16 + NAME_MAX + 1) -> (length l < fuel)%nat ->
  find_name fuel dev n fname buf s = Ret (by_name img fname l, s).
Proof.
  intros Hc Hf Hl. revert fuel buf. induction Hc as [|n l Hn Hc IH]; intros fuel buf Hbuf Hfuel.
  - destruct fuel; [lia|]. unfold find_name. by erewrite loop_done.
  - destruct fuel as [|fuel]; [cbn in Hfuel; lia|]. unfold find_name.
    destruct (node_in _ Hn) as [Hnr Hend]. pose proof (node_range _ _ Hn) as Hn0.
    pose proof (read_header buf n (16 + NAME_MAX + 1) Hn ltac:(unfold NAME_MAX; lia) ltac:(lia)) as Hrd.
    set (buf' := overlay _ _) in Hrd.
    assert (length buf' = Z.to_nat (16 + NAME_MAX + 1)) as Hbuf'.
    { unfold buf'. rewrite length_overlay; [done|]. pose proof (length_window img (16 * n) (16 + NAME_MAX + 1)). lia. }
    destruct (header_bytes buf n (16 + NAME_MAX + 1) Hn ltac:(unfold NAME_MAX; lia)) as (_ & Hnext & _).
    cbn [by_name find]. unfold by_name. cbn [find].
    destruct (bool_decide (fname = img_name img n)) eqn:E.
    + erewrite loop_done; [reflexivity|]. destruct (Z.eqb_spec n 0); [lia|].
      rewrite (bind_Ret _ _ _ _ _ Hrd). fold buf'. unfold buf' at 1.
      rewrite (overlay_name img) by done. by rewrite strncmp_name, E by done.
    + erewrite loop_next; [apply (IH fuel buf' Hbuf'); cbn in Hfuel; lia|].
      destruct (Z.eqb_spec n 0); [lia|]. rewrite (bind_Ret _ _ _ _ _ Hrd). unfold buf'.
      rewrite (overlay_name img), strncmp_name, E, Hnext by done. done.
Qed.

Lemma dir_entries_eq fuel stk n l fname :
  dir_entries img root n l -> bytes_ok fname -> Z.of_nat (length fname) <= NAME_MAX ->
  length stk = Z.to_nat (16 + NAME_MAX + 1) -> (length l < fuel)%nat ->
  exists buf, read_buf stk dev (16 + NAME_MAX + 1) (inode_offset n) s = Ret (buf, s) /\
    length buf = Z.to_nat (16 + NAME_MAX + 1) /\
    negb (n =? root) && negb (Z.land (byte_at buf 3) 7 =? 1) = false /\
    find_name fuel dev (if n =? root then n else next_inode buf 4) fname buf s =
      Ret (by_name img fname l, s).
Proof.
  intros [Hn Hc] Hf Hl Hstk Hfuel.
  pose proof (read_header stk n (16 + NAME_MAX + 1) Hn ltac:(unfold NAME_MAX; lia) ltac:(lia)) as Hrd.
  set (buf := overlay _ _) in Hrd. exists buf. split; [done|].
  assert (length buf = Z.to_nat (16 + NAME_MAX + 1)) as Hbuf.
  { unfold buf. rewrite length_overlay; [done|]. pose proof (length_window img (16 * n) (16 + NAME_MAX + 1)). lia. }
  split; [done|].
  destruct (header_bytes stk n (16 + NAME_MAX + 1) Hn ltac:(unfold NAME_MAX; lia)) as (Hty & _ & Hch & _).
  fold buf in Hty, Hch. destruct (Z.eqb_spec n root) as [->|Hne].
  - split; [done|]. by apply find_name_eq.
  - destruct Hc as [Ht Hc]. rewrite Hty, Hch, Ht. split; [done|]. by apply find_name_eq.
Qed.

Lemma romfs_stat_correct_lemma fuel stk stk2 ino l fname st :
  dir_entries img root (u32 (ino + root)) l -> fname <> [] -> bytes_ok fname ->
  Z.of_nat (length fname) <= NAME_MAX ->
  length stk = Z.to_nat (16 + NAME_MAX + 1) -> length stk2 = 16%nat -> (length l < fuel)%nat ->
  fs_romfs_stat fuel stk stk2 q ino fname st s =
    Ret (match by_name img fname l with
         | Some n => (0, node_stat dev root blk img n)
         | None => (- ENOENT, st)
         end, s).
Proof.
  intros Hd Hne Hf Hl Hstk Hstk2 Hfuel. unfold fs_romfs_stat. destruct instance_at_eq as [u Hu].
  rewrite (bind_Ret _ _ _ _ _ Hu). cbn [device root_inode].
  destruct (dir_entries_eq fuel stk _ l fname Hd Hf Hl Hstk Hfuel) as (buf & Hrd & _ & Hdir & Hfind).
  rewrite (bind_Ret _ _ _ _ _ Hrd). destruct fname as [|c fname]; [done|]. cbn [length Nat.eqb].
  rewrite Hdir, (bind_Ret _ _ _ _ _ Hfind).
  destruct (by_name img (c :: fname) l) as [n|] eqn:E; [|done].
  apply find_some in E as [Hin _]. pose proof (mt_root _ _ _ _ _ _ Hm).
  apply stat_inode_eq; [|done|lia]. destruct Hd as [_ Hd]. apply list_elem_of_In in Hin.
  destruct (_ =? root); [|destruct Hd as [_ Hd]]; by eapply chain_node_ok.
Qed.

(** Looking up a name in a directory of a well-formed image finds the first
    entry of the directory with exactly that name and returns its [stat]; a
    name that no entry has gives [-ENOENT].  The search ends as soon as the
    fuel exceeds the number of entries. *)
Theorem romfs_stat_correct fuel stk stk2 ino l fname st :
  dir_entries img root (u32 (ino + root)) l -> fname <> [] -> bytes_ok fname ->
  Z.of_nat (length fname) <= NAME_MAX ->
  length stk = Z.to_nat (16 + NAME_MAX + 1) -> length stk2 = 16%nat -> (length l < fuel)%nat ->
  fs_romfs_stat fuel stk stk2 q ino fname st s =
    Ret (match by_name img fname l with
         | Some n => (0, node_stat dev root blk img n)
         | None => (- ENOENT, st)
         end, s).
Proof. apply romfs_stat_correct_lemma. Qed.

(** [fs_romfs_stat] of the empty name is the [stat] of the inode itself. *)
Theorem romfs_stat_self fuel stk stk2 n st :
  node_ok img n -> length stk = Z.to_nat (16 + NAME_MAX + 1) -> length stk2 = 16%nat ->
  fs_romfs_stat fuel stk stk2 q (u32 (n - root)) [] st s = Ret ((0, node_stat dev root blk img n), s).
Proof.
  intros Hn Hstk Hstk2. unfold fs_romfs_stat. destruct instance_at_eq as [u Hu].
  rewrite (bind_Ret _ _ _ _ _ Hu). cbn [device root_inode]. destruct (node_in _ Hn) as [Hnr _].
  assert (u32 (u32 (n - root) + root) = n) as ->.
  { unfold u32. rewrite Z.add_mod_idemp_l by lia. rewrite Z.mod_small by lia. lia. }
  rewrite (bind_Ret _ _ _ _ _ (read_header stk n (16 + NAME_MAX + 1) Hn
    ltac:(unfold NAME_MAX; lia) ltac:(lia))). cbn [length Nat.eqb].
  pose proof (mt_root _ _ _ _ _ _ Hm). apply stat_inode_eq; [done|done|lia].
Qed.

(** ** Directories *)

Lemma directory_entry_eq fuel n l k pos buf :
  chain img n l -> length buf = Z.to_nat (16 + NAME_MAX + 1) -> (length l < fuel)%nat ->
  0 <= k <= pos ->
  exists buf', loop fuel (k, n, buf) (fun '(i, inode, buf) =>
    if inode =? 0 then ret (inr (0, buf)) else
    let* buf := read_buf buf dev (16 + NAME_MAX + 1) (inode_offset inode) in
    ret (if i =? pos then inr (inode, buf) else inl (i + 1, next_inode buf 0, buf))) s
  = Ret ((match l !! Z.to_nat (pos - k) with Some m => m | None => 0 end, buf'), s) /\
  match l !! Z.to_nat (pos - k) with
  | Some m => node_ok img m /\
              exists b, buf' = overlay (window img (16 * m) (16 + NAME_MAX + 1)) b
  | None => True
  end.
Proof.
  intros Hc. revert fuel k buf. induction Hc as [|n l Hn Hc IH]; intros fuel k buf Hbuf Hfuel Hk.
  - destruct fuel; [lia|]. exists buf. split; [by erewrite loop_done|done].
  - destruct fuel as [|fuel]; [cbn in Hfuel; lia|]. pose proof (node_range _ _ Hn) as Hn0.
    pose proof (read_header buf n (16 + NAME_MAX + 1) Hn ltac:(unfold NAME_MAX; lia) ltac:(lia)) as Hrd.
    destruct (header_bytes buf n (16 + NAME_MAX + 1) Hn ltac:(unfold NAME_MAX; lia)) as (_ & Hnext & _).
    set (buf1 := overlay _ _) in *.
    assert (length buf1 = Z.to_nat (16 + NAME_MAX + 1)) as Hbuf1.
    { unfold buf1. rewrite length_overlay; [done|]. pose proof (length_window img (16 * n) (16 + NAME_MAX + 1)). lia. }
    destruct (Z.eqb_spec k pos) as [->|Hne].
    + exists buf1. rewrite Z.sub_diag. cbn [Z.to_nat lookup list_lookup]. split; [|split; [done|by eexists]].
      erewrite loop_done; [reflexivity|]. destruct (Z.eqb_spec n 0); [lia|].
      by rewrite (bind_Ret _ _ _ _ _ Hrd), Z.eqb_refl.
    + destruct (IH fuel (k + 1) buf1 Hbuf1) as (buf' & Hl & Hx); [cbn in Hfuel; lia|lia|].
      exists buf'. replace (Z.to_nat (pos - k)) with (S (Z.to_nat (pos - (k + 1)))) by lia.
      change ((n :: l) !! S (Z.to_nat (pos - (k + 1)))) with (l !! Z.to_nat (pos - (k + 1))).
      split; [|done]. etransitivity; [|exact Hl]. erewrite loop_next; [reflexivity|].
      destruct (Z.eqb_spec n 0); [lia|]. rewrite (bind_Ret _ _ _ _ _ Hrd).
      by rewrite (proj2 (Z.eqb_neq _ _) Hne), Hnext.
Qed.

(** [fs_romfs_read_directory] returns the [pos]-th entry of the directory,
    with its inode, mode and name, and 0 after the last entry. *)
Theorem romfs_read_directory_correct fuel stk ino l pos :
  dir_entries img root (u32 (ino + root)) l -> 0 <= pos ->
  length stk = Z.to_nat (16 + NAME_MAX + 1) -> (length l < fuel)%nat ->
  fs_romfs_read_directory fuel stk q ino pos s =
    Ret (match l !! Z.to_nat pos with
         | Some n => (sizeof_dirent,
             Some (Dirent (u32 (n - root))
                     (fst (_byte_to_mode (img_type img n) (img_special img n))) (img_name img n)))
         | None => (0, None)
         end, s).
Proof.
  intros [Hn Hc] Hpos Hstk Hfuel. unfold fs_romfs_read_directory. destruct instance_at_eq as [u Hu].
  rewrite (bind_Ret _ _ _ _ _ Hu). cbn [device root_inode]. destruct (Z.ltb_spec pos 0); [lia|].
  set (n := u32 (ino + root)) in *.
  rewrite (bind_Ret _ _ _ _ _ (read_header stk n 16 Hn ltac:(lia) ltac:(unfold NAME_MAX in *; lia))).
  destruct (header_bytes stk n 16 Hn ltac:(lia)) as (Hty & _ & Hch & _).
  set (buf := overlay _ _) in *. rewrite Hty, Hch.
  assert (length buf = Z.to_nat (16 + NAME_MAX + 1)) as Hbuf.
  { unfold buf. rewrite length_overlay; [done|]. pose proof (length_window img (16 * n) 16).
    unfold NAME_MAX in *. lia. }
  assert (negb (n =? root) && negb (Z.land (img_type img n) 7 =? 1) = false /\
          chain img (if n =? root then n else img_child img n) l) as [-> Hch'].
  { destruct (Z.eqb_spec n root) as [->|]; [done|]. destruct Hc as [-> Hc]. done. }
  destruct (directory_entry_eq fuel _ l 0 pos buf Hch' Hbuf Hfuel ltac:(lia)) as (buf' & Hl & Hx).
  rewrite Z.sub_0_r in Hl, Hx. unfold directory_entry. rewrite (bind_Ret _ _ _ _ _ Hl).
  destruct (l !! Z.to_nat pos) as [m|]; [|done]. destruct Hx as [Hmok [b ->]].
  pose proof (node_range _ _ Hmok). destruct (Z.eqb_spec m 0); [lia|].
  destruct (header_bytes b m (16 + NAME_MAX + 1) Hmok ltac:(unfold NAME_MAX; lia)) as (Htm & _ & _ & Hsp & _).
  unfold strncpy_val. rewrite Htm, Hsp, (overlay_name img) by done.
  rewrite take_ge; [done|]. pose proof (node_name _ _ Hmok). unfold NAME_MAX in *. lia.
Qed.

(** ** Files *)

Definition data_start (n : Z) : Z :=
  16 * (n + 2 + Z.of_nat (length (img_name img n)) / 16).
Definition file_data (n : Z) : list Z := window img (data_start n) (img_size img n).

Lemma name_byte n i :
  node_ok img n -> 0 <= i < Z.of_nat (length (img_name img n)) ->
  byte_at img (16 * n + 16 + i) <> 0.
Proof.
  intros [Hr _ _ He] Hi. unfold img_name in *.
  destruct (c_string_nonzero (drop (Z.to_nat (16 * n + 16)) img) (Z.to_nat i)) as (b & Hb & Hnz); [lia|].
  rewrite lookup_drop in Hb. unfold byte_at, zget. destruct (Z.ltb_spec (16 * n + 16 + i) 0); [lia|].
  replace (Z.to_nat (16 * n + 16 + i)) with (Z.to_nat (16 * n + 16) + Z.to_nat i)%nat by lia.
  by rewrite Hb.
Qed.

Lemma name_nul n :
  node_ok img n -> byte_at img (16 * n + 16 + Z.of_nat (length (img_name img n))) = 0.
Proof.
  intros [Hr _ _ He]. unfold img_name in *. set (X := drop _ img) in *.
  assert (length X = (length img - Z.to_nat (16 * n + 16))%nat) as HX by apply length_drop.
  assert (drop (Z.to_nat (16 * n + 16)) img !! length (c_string X) = Some 0) as Hz
    by (apply (c_string_end X); lia).
  rewrite lookup_drop in Hz.
  unfold byte_at, zget. destruct (Z.ltb_spec (16 * n + 16 + Z.of_nat (length (c_string X))) 0); [lia|].
  replace (Z.to_nat (16 * n + 16 + Z.of_nat (length (c_string X))))
    with (Z.to_nat (16 * n + 16) + length (c_string X))%nat by lia.
  by rewrite Hz.
Qed.

(** The scan over the 16-byte blocks of the name. *)
Lemma find_data_eq n fuel i node :
  node_ok img n -> length node = 16%nat -> Z.of_nat (length (img_name img n)) < 256 ->
  let m := Z.of_nat (length (img_name img n)) / 16 in
  0 <= i <= m -> (Z.to_nat (m - i) < fuel)%nat ->
  loop fuel (i, node) (fun '(i, node) =>
    if 16 <=? i then ret (inr i) else
    let* node := read_buf node dev 16 (u32 (n * 16 + 16 + i * 16)) in
    ret (if forallb (fun b => negb (b =? 0)) node then inl (i + 1, node) else inr i)) s
  = Ret (m, s).
Proof.
  intros Hn Hnode HL m. revert i node Hnode. set (L := Z.of_nat (length (img_name img n))) in *.
  pose proof (Z.div_mod L 16 ltac:(lia)) as Hdm. pose proof (Z.mod_pos_bound L 16 ltac:(lia)) as Hmb.
  fold m in Hdm. pose proof (mt_img _ _ _ _ _ _ Hm) as [_ Himg].
  pose proof (node_end _ _ Hn) as He. pose proof (node_range _ _ Hn) as Hr. fold L in He.
  induction fuel as [|fuel IH]; intros i node Hnode Hi Hf; [lia|].
  assert (u32 (n * 16 + 16 + i * 16) = 16 * (n + 1 + i)) as Hoff by (rewrite u32_small; lia).
  pose proof (read_buf_eq s dev img blk (mt_device _ _ _ _ _ _ Hm) node 16 (16 * (n + 1 + i))
    ltac:(lia) ltac:(lia) ltac:(lia)) as Hrd.
  set (node' := overlay _ _) in Hrd.
  assert (length node' = 16%nat) as Hnode'.
  { unfold node'. rewrite length_overlay; [done|]. pose proof (length_window img (16 * (n + 1 + i)) 16). lia. }
  destruct (decide (i = m)) as [->|Hne].
  - erewrite loop_done; [reflexivity|]. destruct (Z.leb_spec 16 m); [lia|].
    rewrite Hoff, (bind_Ret _ _ _ _ _ Hrd).
    destruct (forallb _ node') eqn:E; [|done]. rewrite no_zero_byte, Hnode' in E.
    destruct (E (L mod 16)); [lia|]. unfold node'. rewrite overlay_byte by lia.
    replace (16 * (n + 1 + m) + L mod 16) with (16 * n + 16 + L) by lia. by apply name_nul.
  - erewrite loop_next; [apply (IH (i + 1) node' Hnode'); lia|].
    destruct (Z.leb_spec 16 i); [lia|]. rewrite Hoff, (bind_Ret _ _ _ _ _ Hrd).
    rewrite (proj2 (no_zero_byte node')); [done|]. rewrite Hnode'. intros j Hj. unfold node'.
    rewrite overlay_byte by lia.
    replace (16 * (n + 1 + i) + j) with (16 * n + 16 + (16 * i + j)) by lia.
    apply name_byte; [done|]. fold L. lia.
Qed.

(** The common part of a read: the header, then the data at its place. *)
Lemma romfs_read_eq stk ino n bytes offset :
  u32 (ino + root) = n -> node_ok img n -> length stk = 16%nat ->
  Z.of_nat (length (img_name img n)) < 256 -> 0 <= offset < 2 ^ 31 -> 0 <= bytes < 2 ^ 31 ->
  let count := if img_size img n <? offset + bytes then s32 (img_size img n - offset) else bytes in
  fs_romfs_read stk q ino bytes offset s =
    Ret ((count, window img (data_start n + offset) (u32 count)), s).
Proof.
  intros Hino Hn Hstk HL Hoff Hb count. unfold fs_romfs_read. destruct instance_at_eq as [u Hu].
  rewrite (bind_Ret _ _ _ _ _ Hu). cbn [device root_inode]. rewrite Hino.
  rewrite (bind_Ret _ _ _ _ _ (read_header stk n 16 Hn ltac:(lia) ltac:(lia))).
  destruct (header_bytes stk n 16 Hn ltac:(lia)) as (_ & _ & _ & _ & Hsz). rewrite Hsz.
  rewrite s64_small by lia.
  set (node := overlay _ _).
  assert (length node = 16%nat) as Hnode.
  { unfold node. rewrite length_overlay; [done|]. pose proof (length_window img (16 * n) 16). lia. }
  unfold find_data. set (m := Z.of_nat (length (img_name img n)) / 16).
  pose proof (Z.div_lt_upper_bound (Z.of_nat (length (img_name img n))) 16 16 ltac:(lia) ltac:(lia)).
  pose proof (Z.div_pos (Z.of_nat (length (img_name img n))) 16 ltac:(lia) ltac:(lia)).
  rewrite (bind_Ret _ _ _ _ _ (find_data_eq n 17 0 node Hn Hnode HL ltac:(lia) ltac:(lia))).
  fold m. pose proof (mt_img _ _ _ _ _ _ Hm) as [_ Himg]. pose proof (node_in _ Hn) as [Hnr Hend].
  assert (u32 (n * 16 + 16 + (m + 1) * 16) = data_start n) as ->.
  { unfold data_start. fold m. rewrite u32_small; lia. }
  assert (0 <= data_start n < 2 ^ 33) as Hds by (unfold data_start; fold m; lia).
  rewrite s64_small by lia.
  assert (s32 (if img_size img n <? offset + bytes then u32 (img_size img n - offset) else bytes) = count) as ->.
  { unfold count. destruct (_ <? _); [|by rewrite s32_small by lia].
    pose proof (node_size _ _ Hn). unfold s32, u32. rewrite Z.add_mod_idemp_l by lia. done. }
  assert (- 2 ^ 31 <= count < 2 ^ 31) as Hc.
  { unfold count. destruct (_ <? _); [apply s32_range|lia]. }
  rewrite (bind_Ret _ _ _ _ _ (read_unaligned_eq s dev img blk (mt_device _ _ _ _ _ _ Hm) count
    (data_start n + offset) ltac:(lia) ltac:(lia))). done.
Qed.

Lemma romfs_read_correct_lemma stk ino n bytes offset :
  u32 (ino + root) = n -> node_ok img n -> length stk = 16%nat ->
  Z.of_nat (length (img_name img n)) < 256 ->
  data_start n + img_size img n <= Z.of_nat (length img) ->
  0 <= offset <= img_size img n -> 0 <= bytes < 2 ^ 31 ->
  let l := take (Z.to_nat bytes) (drop (Z.to_nat offset) (file_data n)) in
  fs_romfs_read stk q ino bytes offset s = Ret ((Z.of_nat (length l), l), s).
Proof.
  intros Hino Hn Hstk HL Hend Hoff Hb l. pose proof (node_size _ _ Hn) as Hsz.
  rewrite (romfs_read_eq stk ino n) by (done || lia).
  assert (0 <= data_start n) by (unfold data_start; pose proof (node_range _ _ Hn);
    pose proof (Z.div_pos (Z.of_nat (length (img_name img n))) 16); lia).
  set (size := img_size img n) in *.
  set (count := if size <? offset + bytes then s32 (size - offset) else bytes).
  assert (count = Z.min bytes (size - offset)) as Hc.
  { unfold count. destruct (Z.ltb_spec size (offset + bytes)); [rewrite s32_small by lia|]; lia. }
  assert (window img (data_start n + offset) (u32 count) = l) as ->.
  { unfold l, file_data, window. rewrite u32_small by lia. fold size.
    rewrite skipn_firstn_comm, drop_drop, take_take.
    replace (Z.to_nat (data_start n + offset)) with (Z.to_nat (data_start n) + Z.to_nat offset)%nat by lia.
    f_equal. lia. }
  assert (Z.of_nat (length l) = count) as ->; [|done].
  unfold l, file_data, window. fold size. rewrite length_take, length_drop, length_take, length_drop. lia.
Qed.

(** C20. A read inside a file returns exactly the file's bytes from the offset
    on, as many as were asked for or as are left, and their number. *)
Theorem romfs_read_correct stk ino n bytes offset :
  u32 (ino + root) = n -> node_ok img n -> length stk = 16%nat ->
  Z.of_nat (length (img_name img n)) < 256 ->
  data_start n + img_size img n <= Z.of_nat (length img) ->
  0 <= offset <= img_size img n -> 0 <= bytes < 2 ^ 31 ->
  let l := take (Z.to_nat bytes) (drop (Z.to_nat offset) (file_data n)) in
  fs_romfs_read stk q ino bytes offset s = Ret ((Z.of_nat (length l), l), s).
Proof. apply romfs_read_correct_lemma. Qed.

(** A read that starts after the end of the file is not refused: its count
    wraps around, so that all bytes of the image from there to its end are
    copied to the caller's buffer, however short, and the result is the
    negative distance to the end of the file. *)
Theorem romfs_read_past_end stk ino n bytes offset :
  u32 (ino + root) = n -> node_ok img n -> length stk = 16%nat ->
  Z.of_nat (length (img_name img n)) < 256 ->
  img_size img n < offset < 2 ^ 30 -> 0 <= bytes < 2 ^ 31 ->
  fs_romfs_read stk q ino bytes offset s =
    Ret ((img_size img n - offset, drop (Z.to_nat (data_start n + offset)) img), s).
Proof.
  intros Hino Hn Hstk HL Hoff Hb. pose proof (node_size _ _ Hn) as Hsz.
  rewrite (romfs_read_eq stk ino n) by (done || lia).
  destruct (Z.ltb_spec (img_size img n) (offset + bytes)); [|lia]. rewrite s32_small by lia.
  pose proof (mt_img _ _ _ _ _ _ Hm) as [_ Himg]. unfold window. rewrite take_ge; [done|].
  rewrite length_drop. unfold u32.
  rewrite (Z.mod_eq (img_size img n - offset)) by lia.
  rewrite <- (Z.div_unique (img_size img n - offset) (2 ^ 32) (-1) (img_size img n - offset + 2 ^ 32));
    lia.
Qed.

End correct.

(** ** Mounting *)

Lemma c_string_nonzero_app l k :
  Forall (fun b => b <> 0) l -> c_string (l ++ k) = l ++ c_string k.
Proof.
  induction 1 as [|b l Hb _ IH]; [done|]. cbn. destruct (Z.eqb_spec b 0); [done|]. by rewrite IH.
Qed.

Lemma volume_end_eq buf n :
  0 <= n < 496 -> byte_at buf (16 + n) = 0 ->
  (forall i, 0 <= i < n -> byte_at buf (16 + i) <> 0) -> volume_end buf = 16 + n.
Proof.
  intros Hn Hz Hnz. unfold volume_end. destruct (find_from _ _ _) as [x|] eqn:E.
  - apply find_from_Some in E as (j & Hj & Hfj & Hk). destruct (Z.eqb_spec (byte_at buf j) 0); [|done].
    injection Hfj as <-. cbn. destruct (Z.lt_trichotomy j (16 + n)) as [Hlt|[|Hgt]]; [|done|].
    + destruct (Hnz (j - 16)); [lia|]. by replace (16 + (j - 16)) with j by lia.
    + specialize (Hk (16 + n) ltac:(lia)). by rewrite Hz in Hk.
  - rewrite find_from_None in E. specialize (E (16 + n) ltac:(lia)). by rewrite Hz in E.
Qed.

(** The first unused instance. *)
Definition first_unused (t : list Instance) (q : Z) : Prop :=
  (exists i, zget t q = Some i /\ used i = 0) /\
  forall j i, j < q -> zget t j = Some i -> used i <> 0.

Section mounting.
Context {D : Type}.
Implicit Types s : Romfs D.

Lemma instance_at_get s q i : zget (_instance s) q = Some i -> instance_at q s = Ret (i, s).
Proof. intros Hz. unfold instance_at, bind, gets, need. by rewrite Hz. Qed.

Lemma instance_update_eq s q i f :
  zget (_instance s) q = Some i ->
  instance_update q f s = Ret (tt, MkRomfs (zset (_instance s) q (f i)) (rf_devices s)).
Proof. intros Hz. unfold instance_update. by rewrite (bind_Ret _ _ _ _ _ (instance_at_get _ _ _ Hz)). Qed.

Lemma find_unused s q :
  length (_instance s) = Z.to_nat MAX_ROMFS -> first_unused (_instance s) q ->
  for_range (Z.to_nat MAX_ROMFS) 0 (fun q =>
    let* inst := instance_at q in ret (if used inst =? 0 then Some q else None)) s = Ret (Some q, s).
Proof.
  intros Hl [(i & Hz & Hi) Hfirst].
  rewrite (for_range_find _ _ _ (fun j => zget (_instance s) j ≫= fun i =>
    if used i =? 0 then Some j else None)).
  - pose proof (zget_lt_Some _ _ _ Hz) as Hr. rewrite Hl in Hr. do 2 f_equal.
    destruct (find_from _ _ _) as [x|] eqn:E.
    + apply find_from_Some in E as (j & Hj & Hfj & Hk).
      destruct (zget (_instance s) j) as [i'|] eqn:Hzj; [|done]. cbn in Hfj.
      destruct (Z.eqb_spec (used i') 0); [|done]. injection Hfj as <-. f_equal.
      destruct (Z.lt_trichotomy j q) as [Hlt|[|Hgt]]; [|done|]; [by destruct (Hfirst j i' Hlt Hzj)|].
      specialize (Hk q ltac:(lia)). rewrite Hz in Hk. cbn in Hk. by rewrite Hi in Hk.
    + rewrite find_from_None in E. specialize (E q ltac:(lia)). rewrite Hz in E. cbn in E.
      by rewrite Hi in E.
  - intros j Hj. destruct (zget_in_range (_instance s) j) as [i' Hi']; [lia|].
    by rewrite (bind_Ret _ _ _ _ _ (instance_at_get _ _ _ Hi')), Hi'.
Qed.

(** Mounting a device that holds an image (magic, eight bytes, a volume
    name that ends in the first 512 bytes) takes the first unused instance and
    records the inode of the first header after the name, which is at the next
    multiple of 16; no other instance changes. *)
Theorem romfs_mount_correct s stk dev img blk q w vol rest :
  length (_instance s) = Z.to_nat MAX_ROMFS -> first_unused (_instance s) q ->
  block_contents (rf_devices s) dev img blk -> img_ok img ->
  img = zstr "-rom1fs-" ++ w ++ vol ++ 0 :: rest -> length w = 8%nat ->
  Forall (fun b => b <> 0) vol -> Z.of_nat (length vol) < 496 -> length stk = 512%nat ->
  fs_romfs_mount stk dev s =
    Ret ((q, Some 0), MkRomfs (zset (_instance s) q
           (MkInstance 1 dev (2 + Z.of_nat (length vol) / 16))) (rf_devices s)).
Proof.
  intros Hl Hfree Hdev Himg Hi Hw Hvol Hvl Hstk. unfold fs_romfs_mount.
  rewrite (bind_Ret _ _ _ _ _ (find_unused s q Hl Hfree)). cbn [default option_map from_option id].
  destruct Hfree as [(i & Hz & _) _]. pose proof (zget_lt_Some _ _ _ Hz) as Hr. rewrite Hl in Hr.
  destruct (Z.eqb_spec q MAX_ROMFS); [unfold MAX_ROMFS in *; lia|].
  rewrite (bind_Ret _ _ _ _ _ (instance_update_eq _ _ _ _ Hz)). set (s1 := MkRomfs _ _).
  pose proof (read_buf_eq s1 dev img blk Hdev stk 512 0 ltac:(lia) ltac:(lia) ltac:(lia)) as Hrd.
  rewrite (bind_Ret _ _ _ _ _ Hrd). clear Hrd.
  set (buf := overlay _ _).
  assert (forall j, 0 <= j < 512 -> j < Z.of_nat (length img) -> byte_at buf j = byte_at img j) as Hbyte.
  { intros j Hj Hji. exact (overlay_byte img stk 0 512 j ltac:(lia) ltac:(lia) Hj). }
  assert (length img = (16 + length vol + 1 + length rest)%nat) as Hlen.
  { rewrite Hi. rewrite !length_app. cbn [length]. rewrite Hw. cbn. lia. }
  assert (exists k, buf = zstr "-rom1fs-" ++ k) as [k Hk].
  { unfold buf, overlay, window. rewrite Hi. change (Z.to_nat 0) with 0%nat. rewrite drop_0.
    rewrite take_app_ge by (cbn; lia). rewrite <- app_assoc. by eexists. }
  assert ((strncmp_val 8 (zstr "-rom1fs-") (c_string buf) =? 0) = true) as ->.
  { rewrite Hk, c_string_nonzero_app by (repeat constructor; done). unfold strncmp_val.
    rewrite take_app_le by done. by vm_compute. }
  assert (volume_end buf = 16 + Z.of_nat (length vol)) as ->.
  { apply volume_end_eq; [lia| |].
    - rewrite Hbyte by lia. rewrite Hi. unfold byte_at.
      rewrite zget_app_r, zget_app_r, zget_app_r by (rewrite ?length_app, ?Hw; cbn; lia).
      rewrite Hw. cbn [length zstr]. replace (_ - _ - _ - _) with 0 by lia. done.
    - intros j Hj. rewrite Hbyte by lia. rewrite Hi. unfold byte_at.
      rewrite zget_app_r, zget_app_r, zget_app_l by (rewrite ?length_app, ?Hw; cbn; lia).
      rewrite Hw. cbn [length zstr]. replace (16 + j - _ - _) with j by lia.
      destruct (zget_in_range vol j Hj) as [b Hb]. rewrite Hb. by apply (Forall_zget _ _ _ _ Hvol Hb). }
  cbn [negb]. destruct (Z.eqb_spec (16 + Z.of_nat (length vol)) 512); [lia|].
  assert (forall (t : list Instance) x, length t = length (_instance s) -> zget (zset t q x) q = Some x) as Hin.
  { intros t x Ht. apply zget_zset_eq. rewrite Ht, Hl. lia. }
  rewrite (bind_Ret _ _ _ _ _ (instance_update_eq s1 q _ _ (Hin _ _ eq_refl))).
  erewrite bind_Ret; [|apply instance_update_eq; apply Hin; cbn; by rewrite length_zset].
  unfold ret. cbn [_instance rf_devices s1 set_used set_inst_root set_inst_device device root_inode].
  do 2 f_equal. unfold zset. rewrite !list_insert_insert_eq. do 2 f_equal.
  unfold set_used, set_inst_root, set_inst_device. cbn [device root_inode]. f_equal.
  rewrite Z.quot_div_nonneg by lia.
  replace (16 + Z.of_nat (length vol) + 16) with (2 * 16 + Z.of_nat (length vol)) by lia.
  by rewrite Z.div_add_l by lia.
Qed.

End mounting.

(** An image whose chain of headers has a cycle makes a lookup of an absent
    name run forever. *)
Theorem romfs_cycle_spins {D} (s : Romfs D) q dev root blk img fuel stk stk2 fname st :
  mounted s q dev root blk img -> node_ok img root -> img_next img root = root ->
  fname <> [] -> bytes_ok fname -> Z.of_nat (length fname) <= NAME_MAX -> fname <> img_name img root ->
  length stk = Z.to_nat (16 + NAME_MAX + 1) ->
  fs_romfs_stat fuel stk stk2 q 0 fname st s = Timeout.
Proof.
  intros Hm Hn Hcyc Hne Hf Hl Hname Hstk. pose proof (mt_root _ _ _ _ _ _ Hm) as Hroot.
  unfold fs_romfs_stat. destruct (instance_at_eq s q dev root blk img Hm) as [u Hu].
  rewrite (bind_Ret _ _ _ _ _ Hu). cbn [device root_inode].
  rewrite Z.add_0_l, (u32_small root) by lia.
  rewrite (bind_Ret _ _ _ _ _ (read_header s q dev root blk img Hm stk root (16 + NAME_MAX + 1) Hn
    ltac:(unfold NAME_MAX; lia) ltac:(lia))).
  destruct fname as [|c fname]; [done|]. cbn [length Nat.eqb]. rewrite Z.eqb_refl. cbn [negb andb].
  enough (forall buf, length buf = Z.to_nat (16 + NAME_MAX + 1) ->
    find_name fuel dev root (c :: fname) buf s = Timeout) as HT.
  { unfold bind at 1. rewrite HT; [done|]. rewrite length_overlay; [done|].
    pose proof (length_window img (16 * root) (16 + NAME_MAX + 1)). lia. }
  unfold find_name. induction fuel as [|fuel IH]; intros buf Hbuf; [done|].
  pose proof (read_header s q dev root blk img Hm buf root (16 + NAME_MAX + 1) Hn
    ltac:(unfold NAME_MAX; lia) ltac:(lia)) as Hrd.
  destruct (header_bytes img buf root (16 + NAME_MAX + 1) Hn ltac:(unfold NAME_MAX; lia)) as (_ & Hnext & _).
  erewrite loop_next; cycle 1.
  - destruct (Z.eqb_spec root 0); [lia|]. rewrite (bind_Ret _ _ _ _ _ Hrd).
    rewrite (overlay_name img), (strncmp_name s q dev root blk img Hm), bool_decide_false by done.
    rewrite Hnext, Hcyc. reflexivity.
  - apply IH. rewrite length_overlay; [exact Hbuf|].
    pose proof (length_window img (16 * root) (16 + NAME_MAX + 1)). lia.
Qed.

(** * Witnesses *)

(** An image with the volume name "v" and one regular file "a" that holds
    "hello"; its header is at inode 2. *)
Definition demo_img : list Z :=
  zstr "-rom1fs-" ++ [0; 0; 0; 96; 0; 0; 0; 0] ++ zstr "v" ++ 0 :: (replicate 14 0 ++
  [0; 0; 0; 2; 0; 0; 0; 0; 0; 0; 0; 5; 0; 0; 0; 0] ++
  zstr "a" ++ replicate 15 0 ++ zstr "hello" ++ replicate 11 0).

(** The same with the file's header as its own successor. *)
Definition demo_cycle : list Z := zset demo_img 35 34.

Definition rom_read (img : list Z) (dev pos count : Z) : M unit (Z * list Z) :=
  ret (read_result img pos count).
Definition rom_device (img : list Z) : Devices unit :=
  MkDevices [None; Some (MkRegistered (zstr "memblk0") 4096)] 2
    {[ 4096 := Blockdev (MkBlockDev (Some (rom_read img)) None None (Some (fun _ => ret 512))) ]} tt.

Definition demo_romfs (img : list Z) : Romfs unit :=
  MkRomfs [MkInstance 1 65537 2; MkInstance 0 0 0] (rom_device img).

Lemma rom_device_contents img : block_contents (rom_device img) 65537 img 512.
Proof.
  split; [lia|]. exists (MkRegistered (zstr "memblk0") 4096),
    (MkBlockDev (Some (rom_read img)) None None (Some (fun _ => ret 512))),
    (rom_read img), (fun _ => ret 512). by split_and!.
Qed.

(** Facts about a concrete image, by evaluation. *)
Definition img_okb (img : list Z) : bool :=
  forallb (fun b => (0 <=? b) && (b <? 256)) img && (Z.of_nat (length img) <? 2 ^ 31).
Definition node_okb (img : list Z) (n : Z) : bool :=
  (0 <? n) && (n <? 2 ^ 28) && ((0 <=? img_size img n) && (img_size img n <? 2 ^ 30)) &&
  (Z.of_nat (length (img_name img n)) <? NAME_MAX) &&
  (16 * n + 16 + Z.of_nat (length (img_name img n)) <? Z.of_nat (length img)).

Lemma img_okb_ok img : img_okb img = true -> img_ok img.
Proof.
  unfold img_okb. intros [Hf Hl]%andb_true_iff. split; [|lia].
  apply Is_true_true in Hf. rewrite forallb_True in Hf. eapply Forall_impl; [exact Hf|].
  cbn. intros b Hb%Is_true_true. lia.
Qed.

Lemma node_okb_ok img n : node_okb img n = true -> node_ok img n.
Proof. unfold node_okb. intros H. split; lia. Qed.

Lemma demo_mounted img : img_okb img = true -> mounted (demo_romfs img) 0 65537 2 512 img.
Proof.
  intros Hi. split; [by eexists|apply rom_device_contents|by apply img_okb_ok|lia].
Qed.

Lemma demo_node : node_ok demo_img 2.
Proof. apply node_okb_ok. by vm_compute. Qed.

Lemma demo_dir : dir_entries demo_img 2 (u32 (0 + 2)) [2].
Proof.
  split; [apply demo_node|]. change (u32 (0 + 2) =? 2) with true. constructor; [apply demo_node|].
  replace (img_next demo_img 2) with 0 by (by vm_compute). constructor.
Qed.

Lemma a_ok : bytes_ok (zstr "a") /\ bytes_ok (zstr "b").
Proof. split; repeat constructor. Qed.

Definition stk (n : nat) : list Z := replicate n 170.
Definition no_stat : stat := Stat 0 0 0 0 0 0 0 0 0 0 0.

Lemma romfs_stat_correct_witness :
  fs_romfs_stat 2 (stk 1041) (stk 16) 0 0 (zstr "a") no_stat (demo_romfs demo_img) =
    Ret ((0, node_stat 65537 2 512 demo_img 2), demo_romfs demo_img).
Proof.
  rewrite (romfs_stat_correct (demo_romfs demo_img) 0 65537 2 512 demo_img
    (demo_mounted demo_img eq_refl) 2 (stk 1041) (stk 16) 0 [2] (zstr "a") no_stat); try done.
  - apply demo_dir.
  - apply a_ok.
  - cbn. lia.
Defined.

Lemma romfs_stat_self_witness :
  fs_romfs_stat 0 (stk 1041) (stk 16) 0 (u32 (2 - 2)) [] no_stat (demo_romfs demo_img) =
    Ret ((0, node_stat 65537 2 512 demo_img 2), demo_romfs demo_img).
Proof.
  apply (romfs_stat_self (demo_romfs demo_img) 0 65537 2 512 demo_img (demo_mounted demo_img eq_refl));
    [apply demo_node|done|done].
Defined.

Lemma romfs_read_directory_correct_witness :
  fs_romfs_read_directory 2 (stk 1041) 0 0 0 (demo_romfs demo_img) =
    Ret ((1032, Some (Dirent 0 33060 (zstr "a"))), demo_romfs demo_img).
Proof.
  rewrite (romfs_read_directory_correct (demo_romfs demo_img) 0 65537 2 512 demo_img
    (demo_mounted demo_img eq_refl) 2 (stk 1041) 0 [2] 0); [by vm_compute|apply demo_dir|done|done|].
  cbn. lia.
Defined.

Lemma romfs_read_correct_witness :
  fs_romfs_read (stk 16) 0 0 10 1 (demo_romfs demo_img) = Ret ((4, zstr "ello"), demo_romfs demo_img).
Proof.
  rewrite (romfs_read_correct (demo_romfs demo_img) 0 65537 2 512 demo_img
    (demo_mounted demo_img eq_refl) (stk 16) 0 2 10 1); [by vm_compute|done|apply demo_node|done|..].
  - by vm_compute.
  - by vm_compute.
  - split; by vm_compute.
  - lia.
Defined.

Lemma romfs_read_past_end_witness :
  fs_romfs_read (stk 16) 0 0 1 7 (demo_romfs demo_img) =
    Ret ((-2, replicate 9 0), demo_romfs demo_img).
Proof.
  rewrite (romfs_read_past_end (demo_romfs demo_img) 0 65537 2 512 demo_img
    (demo_mounted demo_img eq_refl) (stk 16) 0 2 1 7); [by vm_compute|done|apply demo_node|done|..].
  - by vm_compute.
  - split; by vm_compute.
  - lia.
Defined.

Lemma romfs_mount_correct_witness :
  fs_romfs_mount (stk 512) 65537 (MkRomfs [MkInstance 0 0 0; MkInstance 0 0 0] (rom_device demo_img)) =
    Ret ((0, Some 0), demo_romfs demo_img).
Proof.
  eapply (romfs_mount_correct (MkRomfs [MkInstance 0 0 0; MkInstance 0 0 0] (rom_device demo_img))
    (stk 512) 65537 demo_img 512 0 [0; 0; 0; 96; 0; 0; 0; 0] (zstr "v")); try done.
  - split; [by eexists|]. intros j i Hj Hz%zget_lt_Some. lia.
  - apply rom_device_contents.
  - by apply img_okb_ok.
  - by repeat constructor.
Defined.

Lemma romfs_cycle_spins_witness :
  fs_romfs_stat 1000 (stk 1041) (stk 16) 0 0 (zstr "b") no_stat (demo_romfs demo_cycle) = Timeout.
Proof.
  apply (romfs_cycle_spins (demo_romfs demo_cycle) 0 65537 2 512 demo_cycle); try done.
  - by apply demo_mounted.
  - apply a_ok.
Defined.
