(* ===== verification/Vfs.v ===== *)
(** The virtual file system: [kernel/vfs.c], [include/trollos/vfs.h].

    File system types are records of functions on the state [F] of the file
    systems, which contains the devices and processes ([Io]).  A path is the
    list of its characters, without the terminating NUL. *)

From S2P Require Import Prelude CString Types Process Device Chardev.

Definition MAX_GLOBAL_FILES : Z := 1024.
Definition MAX_MOUNT_POINTS : Z := 16.
Definition MAX_FILE_SYSTEMS : Z := 4.
Definition SLASH : Z := 47.
(** [~0] in a 32-bit unsigned field. *)
Definition ALL_ONES : Z := 4294967295.

(** * Data *)

(** The functions a file system supplies: each gives its result and what it
    writes through its pointer argument. *)
Record VFSFSType (F : Type) : Type := MkFSType {
  fs_name : list Z;
  _mount : Z -> M F (Z * option Z);                        (* device *)
  _stat : Z -> Z -> list Z -> stat -> M F (Z * stat);      (* instance, inode, name, *s *)
  _stat_inode : Z -> Z -> stat -> M F (Z * stat);          (* instance, inode, *s *)
  _read : Z -> Z -> Z -> Z -> M F (Z * list Z);            (* instance, inode, bytes, offset *)
  _read_directory : Z -> Z -> Z -> M F (Z * option dirent); (* instance, inode, pos *)
}.
Arguments MkFSType {_} _ _ _ _ _ _.
Arguments fs_name {_} _.
Arguments _mount {_} _.
Arguments _stat {_} _.
Arguments _stat_inode {_} _.
Arguments _read {_} _.
Arguments _read_directory {_} _.

(** [data_word] is the first word of the union: the device number of a device
    file, the mount point of any other; [data_inode] follows it. *)
Record VFSFileEntry : Type := MkFile {
  is_used : bool;
  is_device : bool;
  f_read : bool;
  f_write : bool;
  f_directory : bool;
  f_unsupported : bool;
  f_pos : Z;
  f_ref : Z;
  f_mode : Z;
  data_word : Z;
  data_inode : Z;
}.

Definition data_dev (f : VFSFileEntry) : Z := u32 (data_word f).
Definition data_instance (f : VFSFileEntry) : Z := s32 (data_word f).

Record VFSMountPoint : Type := MkMount {
  mp_used : Z;
  open_files : Z;
  mp_dev : Z;
  mp_inode : Z;
  mounted_fs : Z;
  mounted_instance : Z;
  mounted_dev : Z;
  mounted_ino : Z;
}.

(** A slot of [_vfs_type] that is not used has no functions. *)
Record Vfs (F : Type) : Type := MkVfs {
  vfs_file : list VFSFileEntry;
  _vfs_type : list (option (VFSFSType F));
  _vfs_mount : list VFSMountPoint;
  fsw : F;
}.
Arguments MkVfs {_} _ _ _ _.
Arguments vfs_file {_} _.
Arguments _vfs_type {_} _.
Arguments _vfs_mount {_} _.
Arguments fsw {_} _.

Definition set_pos (x : Z) (f : VFSFileEntry) : VFSFileEntry :=
  MkFile (is_used f) (is_device f) (f_read f) (f_write f) (f_directory f) (f_unsupported f)
    x (f_ref f) (f_mode f) (data_word f) (data_inode f).
Definition set_ref (x : Z) (f : VFSFileEntry) : VFSFileEntry :=
  MkFile (is_used f) (is_device f) (f_read f) (f_write f) (f_directory f) (f_unsupported f)
    (f_pos f) x (f_mode f) (data_word f) (data_inode f).
Definition set_is_used (x : bool) (f : VFSFileEntry) : VFSFileEntry :=
  MkFile x (is_device f) (f_read f) (f_write f) (f_directory f) (f_unsupported f)
    (f_pos f) (f_ref f) (f_mode f) (data_word f) (data_inode f).
Definition set_open_files (x : Z) (m : VFSMountPoint) : VFSMountPoint :=
  MkMount (mp_used m) x (mp_dev m) (mp_inode m) (mounted_fs m) (mounted_instance m)
    (mounted_dev m) (mounted_ino m).
Definition set_mp_at (dev inode : Z) (m : VFSMountPoint) : VFSMountPoint :=
  MkMount (mp_used m) (open_files m) dev inode (mounted_fs m) (mounted_instance m)
    (mounted_dev m) (mounted_ino m).
Definition set_mounted_instance (x : Z) (ino : option Z) (m : VFSMountPoint) : VFSMountPoint :=
  MkMount (mp_used m) (open_files m) (mp_dev m) (mp_inode m) (mounted_fs m) x
    (mounted_dev m) (default (mounted_ino m) ino).

(** * Operations *)

Section ops.
Context {F D W : Type} `{Lens F (Io D W)}.

Definition set_files (t : list VFSFileEntry) (s : Vfs F) : Vfs F :=
  MkVfs t (_vfs_type s) (_vfs_mount s) (fsw s).
Definition set_types (t : list (option (VFSFSType F))) (s : Vfs F) : Vfs F :=
  MkVfs (vfs_file s) t (_vfs_mount s) (fsw s).
Definition set_mounts (t : list VFSMountPoint) (s : Vfs F) : Vfs F :=
  MkVfs (vfs_file s) (_vfs_type s) t (fsw s).
Definition set_fsw (w : F) (s : Vfs F) : Vfs F :=
  MkVfs (vfs_file s) (_vfs_type s) (_vfs_mount s) w.

Definition fs_call {A} (m : M F A) : M (Vfs F) A := zoom fsw set_fsw m.
Definition io_call {A} (m : M (Io D W) A) : M (Vfs F) A := fs_call (on m).
Definition dev_call {A} (m : M (Devices D) A) : M (Vfs F) A := io_call (on m).

Definition file_at (fd : Z) : M (Vfs F) VFSFileEntry :=
  let* t := gets vfs_file in need (zget t fd).
Definition file_update (fd : Z) (f : VFSFileEntry -> VFSFileEntry) : M (Vfs F) unit :=
  let* x := file_at fd in modify (fun s => set_files (zset (vfs_file s) fd (f x)) s).
Definition mount_at (mp : Z) : M (Vfs F) VFSMountPoint :=
  let* t := gets _vfs_mount in need (zget t mp).
Definition mount_update (mp : Z) (f : VFSMountPoint -> VFSMountPoint) : M (Vfs F) unit :=
  let* x := mount_at mp in modify (fun s => set_mounts (zset (_vfs_mount s) mp (f x)) s).
Definition type_at (i : Z) : M (Vfs F) (option (VFSFSType F)) :=
  let* t := gets _vfs_type in need (zget t i).

(** The file system mounted at a mount point, and its instance. *)
Definition mounted_type (mp : Z) : M (Vfs F) (VFSFSType F * Z) :=
  let* m := mount_at mp in
  let* t := type_at (mounted_fs m) in
  let* t := need t in
  ret (t, mounted_instance m).

Definition _alloc_file : M (Vfs F) Z :=
  let* r := for_range (Z.to_nat MAX_GLOBAL_FILES) 0 (fun i =>
    let* f := file_at i in
    if is_used f then ret None else file_update i (set_is_used true) ;; ret (Some i)) in
  ret (default (- EMFILE) r).

(** The number of characters consumed, and the component. *)
Definition _extract_component (str : list Z) : Z * list Z :=
  let i := default NAME_MAX (find_from (Z.to_nat NAME_MAX) 0 (fun i =>
             let c := byte_at str i in if (c =? 0) || (c =? SLASH) then Some i else None)) in
  (if byte_at str i =? 0 then i else i + 1, take (Z.to_nat i) str).

Definition _is_mountpoint (dev ino : Z) : M (Vfs F) Z :=
  let* r := for_range (Z.to_nat MAX_MOUNT_POINTS) 0 (fun i =>
    let* m := mount_at i in
    ret (if mp_used m =? 0 then None
         else if (mp_dev m =? dev) && (mp_inode m =? ino) then Some i else None)) in
  ret (default (-1) r).

(** The mount point of the root directory, or [MAX_MOUNT_POINTS]. *)
Definition find_root : M (Vfs F) Z :=
  let* r := for_range (Z.to_nat MAX_MOUNT_POINTS) 0 (fun i =>
    let* m := mount_at i in
    ret (if mp_used m =? 0 then None
         else if negb (mp_dev m =? ALL_ONES) || negb (mp_inode m =? ALL_ONES) then None
         else Some i)) in
  ret (default MAX_MOUNT_POINTS r).

Definition skip_slashes (fuel : nat) (path : list Z) (pos : Z) : M (Vfs F) Z :=
  loop fuel pos (fun pos => ret (if byte_at path pos =? SLASH then inl (pos + 1) else inr pos)).

Definition path_from (path : list Z) (pos : Z) : list Z := drop (Z.to_nat pos) path.

(** One iteration of the walk: the locals are [cur_fs], [cur_fsi], [dir],
    [pos], [c] and [s]. *)
Definition walk_state : Type := Z * Z * Z * Z * list Z * stat.
Definition walk_step (path : list Z) (l : walk_state) :
    M (Vfs F) (walk_state + (Z + walk_state)) :=
  let '(cur_fs, cur_fsi, dir, pos, c, s) := l in
  if byte_at path pos =? 0 then ret (inr (inr l)) else
  let* t := type_at cur_fs in
  let* t := need t in
  let* m := mount_at cur_fsi in
  let* ' (err, s) := fs_call (_stat t (mounted_instance m) dir c s) in
  if err <? 0 then ret (inr (inl err)) else
  let* mp := _is_mountpoint (st_dev s) (st_ino s) in
  if 0 <=? mp then
    let* m := mount_at mp in
    let '(n, c) := _extract_component (path_from path pos) in
    ret (inl (mounted_fs m, mp, mounted_ino m, pos + n, c, s))
  else if S_ISDIR (st_mode s) then
    let '(n, c) := _extract_component (path_from path pos) in
    ret (inl (cur_fs, cur_fsi, st_ino s, pos + n, c, s))
  else ret (inr (inl (- ENOTDIR))).

(** The result, and the values of [*mp_out] and [*ino]; [s0] is what the local
    [s] happens to hold. *)
Definition _resolv_ino (fuel : nat) (s0 : stat) (path : list Z) (link : Z) :
    M (Vfs F) (Z * option (Z * Z)) :=
  if 32 <=? link then ret (- EMLINK, None) else
  if byte_at path 0 =? 0 then ret (- EINVAL, None) else
  if negb (byte_at path 0 =? SLASH) then ret (- ENOENT, None) else
  let* i := find_root in
  if i =? MAX_MOUNT_POINTS then ret (- ENOENT, None) else
  let* m := mount_at i in
  let '(n, c) := _extract_component (path_from path 1) in
  let* pos := skip_slashes fuel path (n + 1) in
  let* r := loop fuel (mounted_fs m, i, 0, pos, c, s0) (walk_step path) in
  match r with
  | inl err => ret (err, None)
  | inr (cur_fs, cur_fsi, dir, pos, c, s) =>
      let* t := type_at cur_fs in
      let* t := need t in
      let* m := mount_at cur_fsi in
      let* ' (err, s) := fs_call (_stat t (mounted_instance m) dir c s) in
      if err <? 0 then ret (err, None) else ret (0, Some (cur_fsi, st_ino s))
  end.

(** The result, [*mp_out] and [*s]. *)
Definition vfs_stat (fuel : nat) (s0 : stat) (path : list Z) (s : stat) :
    M (Vfs F) (Z * option Z * stat) :=
  let* ' (err, r) := _resolv_ino fuel s0 path 0 in
  if err <? 0 then ret (err, None, s) else
  let* ' (mp, ino) := need r in
  let* ' (t, inst) := mounted_type mp in
  let* ' (err, s) := fs_call (_stat_inode t inst ino s) in
  if err <? 0 then ret (err, None, s) else ret (0, Some mp, s).

Definition vfs_stat_inode (instance ino : Z) (s : stat) : M (Vfs F) (Z * stat) :=
  let* ' (t, inst) := mounted_type instance in
  fs_call (_stat_inode t inst ino s).

Definition vfs_tell (fd : Z) : M (Vfs F) Z :=
  let* f := file_at fd in ret (f_pos f).

Definition vfs_seek (s0 : stat) (fd offset whence : Z) : M (Vfs F) Z :=
  if whence =? 0 then file_update fd (set_pos offset) ;; ret 0
  else if whence =? 1 then
    let* f := file_at fd in
    file_update fd (set_pos (s64 (f_pos f + offset))) ;; ret 0
  else if whence =? 2 then
    let* f := file_at fd in
    let* ' (_, s) := vfs_stat_inode (data_instance f) (data_inode f) s0 in
    file_update fd (set_pos (s64 (st_size s + offset))) ;; ret 0
  else ret (- EINVAL).

Definition vfs_write (fd : Z) (buf : list Z) : M (Vfs F) Z :=
  let* f := file_at fd in
  if negb (is_device f) then ret (- EPERM) else
  let* o := dev_call (device_lookup (data_dev f)) in
  let* p := need o in
  let* d := dev_call (device_deref p) in
  match d with
  | Blockdev b => match bd_write b with
                  | Some wr => dev_call (call (wr buf))
                  | None => ret (- ENOSYS)
                  end
  | Chardev _ => io_call (chardev_write p buf)
  | InvalidDevice => ret (- ENOSYS)
  end.

(** The position after a transfer of [err] bytes. *)
Definition advance (fd err : Z) : M (Vfs F) unit :=
  when (0 <? err) (let* f := file_at fd in file_update fd (set_pos (s64 (f_pos f + err)))).

(** The result and the bytes written to the buffer. *)
Definition vfs_read (block : bool) (fd count : Z) : M (Vfs F) (Z * list Z) :=
  if (fd <? -1) || (MAX_GLOBAL_FILES <=? fd) then ret (- EBADF, []) else
  let* f := file_at fd in
  if negb (is_used f) then ret (- EBADF, []) else
  let mp := data_instance f in
  if is_device f then
    let* o := dev_call (device_lookup (data_dev f)) in
    match o with
    | None => ret (- ENODEV, [])
    | Some p =>
        let* d := dev_call (device_deref p) in
        match d with
        | Chardev _ => io_call (chardev_read block p count)
        | Blockdev b =>
            match bd_read b with
            | None => ret (- ENOSYS, [])
            | Some rd =>
                let* ' (err, bytes) := dev_call (call (rd (data_dev f) (f_pos f) count)) in
                advance fd err ;; ret (err, bytes)
            end
        | InvalidDevice => fault
        end
    end
  else
    if f_directory f then ret (- EISDIR, []) else
    if negb (f_read f) then ret (- EACCES, []) else
    let* ' (t, inst) := mounted_type mp in
    let* ' (err, bytes) := fs_call (_read t inst (data_inode f) count (f_pos f)) in
    advance fd err ;; ret (err, bytes).

(** The result and the entries written to [de]. *)
Definition vfs_read_directory (fd dirs : Z) : M (Vfs F) (Z * list dirent) :=
  if (fd <? 0) || (MAX_GLOBAL_FILES <=? fd) then ret (- EBADF, []) else
  let* f := file_at fd in
  if is_device f then ret (- ENOTDIR, []) else
  if negb (f_directory f) then ret (- ENOTDIR, []) else
  let mp := data_instance f in
  loop (S (Z.to_nat dirs)) (0, []) (fun '(i, de) =>
    if dirs <=? i then ret (inr (i, de)) else
    let* ' (t, inst) := mounted_type mp in
    let* f := file_at fd in
    let* ' (err, tde) := fs_call (_read_directory t inst (data_inode f) (f_pos f)) in
    if err <? 0 then ret (inr (err, de)) else
    if err =? 0 then ret (inr (i, de)) else
    let* tde := need tde in
    ret (inl (i + 1, de ++ [tde]))).

(** The entry [vfs_open] fills in: the union's words for a device file keep the
    inode stored before. *)
Definition open_entry (mp : Z) (s : stat) : VFSFileEntry :=
  let dev := S_ISBLK (st_mode s) || S_ISCHR (st_mode s) in
  MkFile true dev true dev (negb dev && S_ISDIR (st_mode s)) false 0 1 (st_mode s)
    (if dev then st_rdev s else mp) (st_ino s).

Definition vfs_open (fuel : nat) (s0 s : stat) (path : list Z) (flags : Z) : M (Vfs F) Z :=
  let* ' (err, mp, s) := vfs_stat fuel s0 path s in
  if err <? 0 then ret err else
  let* mp := need mp in
  let* fd := _alloc_file in
  if fd <? 0 then ret fd else
  file_update fd (fun _ => open_entry mp s) ;;
  mount_update mp (fun m => set_open_files (s32 (open_files m + 1)) m) ;;
  ret fd.

Definition vfs_open_device (device flags : Z) : M (Vfs F) Z :=
  let* fd := _alloc_file in
  if fd <? 0 then ret fd else
  file_update fd (fun _ => MkFile true true true true false false 0 1 0 device (u32 (-1))) ;;
  ret fd.

Definition vfs_close (fd : Z) : M (Vfs F) Z :=
  if (fd <? 0) || (MAX_GLOBAL_FILES <=? fd) then ret (- EBADF) else
  file_update fd (fun f => set_ref (s32 (f_ref f - 1)) f) ;;
  let* f := file_at fd in
  (if f_ref f =? 0 then
     file_update fd (set_is_used false) ;;
     mount_update (data_instance f) (fun m => set_open_files (s32 (open_files m - 1)) m)
   else ret tt) ;;
  ret 0.

(** The loop of [vfs_fs_register]: the last free slot, or an early return. *)
Definition register_slot (name : list Z) : M (Vfs F) (Z + Z) :=
  loop (S (Z.to_nat MAX_FILE_SYSTEMS)) (0, -1) (fun '(i, q) =>
    if MAX_FILE_SYSTEMS <=? i then ret (inr (inr q)) else
    let* t := type_at i in
    ret (match t with
         | Some t => if strcmp_val (fs_name t) name =? 0 then inr (inl (- EEXIST)) else inl (i + 1, q)
         | None => inl (i + 1, i)
         end)).

Definition vfs_fs_register (fs : VFSFSType F) : M (Vfs F) Z :=
  let name := take 15 (fs_name fs) in
  let fs := MkFSType name (_mount fs) (_stat fs) (_stat_inode fs) (_read fs) (_read_directory fs) in
  let* r := register_slot name in
  match r with
  | inl e => ret e
  | inr q =>
      if q <? 0 then ret (- ENOMEM) else
      modify (fun s => set_types (zset (_vfs_type s) q (Some fs)) s) ;;
      ret q
  end.

Definition find_type (fs : list Z) : M (Vfs F) Z :=
  let* r := for_range (Z.to_nat MAX_FILE_SYSTEMS) 0 (fun i =>
    let* t := type_at i in
    ret (match t with
         | Some t => if strcmp_val (fs_name t) fs =? 0 then Some i else None
         | None => None
         end)) in
  ret (default MAX_FILE_SYSTEMS r).

Definition free_mount : M (Vfs F) Z :=
  let* r := for_range (Z.to_nat MAX_MOUNT_POINTS) 0 (fun i =>
    let* m := mount_at i in ret (if mp_used m =? 0 then Some i else None)) in
  ret (default MAX_MOUNT_POINTS r).

(** Where to mount: the error of [vfs_stat], or nothing. *)
Definition mount_place (fuel : nat) (s0 s : stat) (path : list Z) (instance : Z) : M (Vfs F) (option Z) :=
  if (byte_at path 0 =? SLASH) && (byte_at path 1 =? 0) then
    mount_update instance (set_mp_at ALL_ONES ALL_ONES) ;; ret None
  else
    let* ' (err, parent, s) := vfs_stat fuel s0 path s in
    if err <? 0 then ret (Some err) else
    mount_update instance (set_mp_at (st_dev s) (st_ino s)) ;;
    let* parent := need parent in
    mount_update parent (fun m => set_open_files (s32 (open_files m + 1)) m) ;;
    ret None.

Definition vfs_mount (fuel : nat) (s0 s : stat) (dev : Z) (path fs : list Z) : M (Vfs F) Z :=
  let* i := find_type fs in
  if i =? MAX_FILE_SYSTEMS then ret (- EINVAL) else
  let* instance := free_mount in
  if instance =? MAX_MOUNT_POINTS then ret (- ENOMEM) else
  let* e := mount_place fuel s0 s path instance in
  match e with
  | Some err => ret err
  | None =>
      let* t := type_at i in
      let* t := need t in
      let* ' (r, ino) := fs_call (_mount t dev) in
      mount_update instance (set_mounted_instance r ino) ;;
      if r <? 0 then ret r else
      mount_update instance (fun m =>
        MkMount 1 0 (mp_dev m) (mp_inode m) i (mounted_instance m) dev (mounted_ino m)) ;;
      ret 0
  end.

End ops.

(** * Paths *)

(** A component: not empty, no longer than a name may be, without slashes or
    NULs. *)
Definition component_ok (c : list Z) : Prop :=
  c <> [] /\ Z.of_nat (length c) <= NAME_MAX /\ Forall (fun b => b <> 0 /\ b <> SLASH) c.

(** The path with the components [cs]: each with a slash before it. *)
Definition render (cs : list (list Z)) : list Z := concat (map (cons SLASH) cs).
(** The path from a component on, without the slash before it. *)
Definition body (cs : list (list Z)) : list Z := tail (render cs).

Lemma body_cons c cs : body (c :: cs) = c ++ render cs.
Proof. reflexivity. Qed.

Lemma byte_at_app_r l k i :
  Z.of_nat (length l) <= i -> byte_at (l ++ k) i = byte_at k (i - Z.of_nat (length l)).
Proof. intros Hi. unfold byte_at. by rewrite zget_app_r. Qed.

Lemma extract_component_eq c r :
  component_ok c -> (r = [] \/ exists r', r = SLASH :: r') ->
  _extract_component (c ++ r) = (Z.of_nat (length c) + (if r is [] then 0 else 1), c).
Proof.
  intros (_ & Hl & Hc) Hr. unfold _extract_component.
  set (i := default NAME_MAX _).
  assert (i = Z.of_nat (length c)) as ->.
  { unfold i. assert (Hstop : byte_at (c ++ r) (Z.of_nat (length c)) = 0 \/
                              byte_at (c ++ r) (Z.of_nat (length c)) = SLASH).
    { unfold byte_at. rewrite zget_app_r, Z.sub_diag by lia. destruct Hr as [->|[r' ->]]; auto. }
    assert (Hgo : forall j, 0 <= j < Z.of_nat (length c) ->
      (byte_at (c ++ r) j =? 0) || (byte_at (c ++ r) j =? SLASH) = false).
    { intros j Hj. unfold byte_at. rewrite zget_app_l by done.
      destruct (zget_in_range c j Hj) as [b Hb]. rewrite Hb. cbn.
      destruct (Forall_zget _ _ _ _ Hc Hb). by rewrite !(proj2 (Z.eqb_neq _ _)). }
    destruct (find_from _ _ _) as [x|] eqn:E.
    - apply find_from_Some in E as (j & Hj & Hfj & Hk). cbn.
      destruct (_ || _) eqn:Ej; [|done]. injection Hfj as <-.
      destruct (Z.lt_trichotomy j (Z.of_nat (length c))) as [Hlt|[|Hgt]]; [|done|].
      + by rewrite Hgo in Ej by lia.
      + specialize (Hk (Z.of_nat (length c)) ltac:(lia)).
        destruct Hstop as [Hs|Hs]; rewrite Hs in Hk; done.
    - rewrite find_from_None in E. cbn. unfold NAME_MAX in *.
      destruct (decide (Z.of_nat (length c) = 1024)) as [|Hne]; [done|].
      specialize (E (Z.of_nat (length c)) ltac:(lia)).
      destruct Hstop as [Hs|Hs]; rewrite Hs in E; done. }
  rewrite Nat2Z.id, take_app_length. f_equal. unfold byte_at.
  rewrite zget_app_r, Z.sub_diag by lia. destruct Hr as [->|[r' ->]]; [by rewrite Z.add_0_r|done].
Qed.

Lemma render_shape cs : render cs = [] /\ cs = [] \/ exists r, render cs = SLASH :: r.
Proof. destruct cs as [|c cs]; [by left|right]. by exists (c ++ render cs). Qed.

Lemma extract_body c cs :
  component_ok c ->
  exists n, _extract_component (body (c :: cs)) = (n, c) /\ 0 <= n /\
    drop (Z.to_nat n) (body (c :: cs)) = body cs.
Proof.
  intros Hc. rewrite body_cons. rewrite extract_component_eq; [|done|].
  - eexists. split; [done|]. destruct (render_shape cs) as [[Hr ->]|[r Hr]]; unfold body; rewrite Hr.
    + split; [lia|]. rewrite app_nil_r, Z.add_0_r, Nat2Z.id. by rewrite drop_ge by lia.
    + split; [lia|]. replace (Z.to_nat (Z.of_nat (length c) + 1)) with (length c + 1)%nat by lia.
      by rewrite drop_app_add.
  - destruct (render_shape cs) as [[-> _]|[r ->]]; eauto.
Qed.

Lemma body_nil_iff cs : Forall component_ok cs -> (byte_at (body cs) 0 =? 0) = bool_decide (cs = []).
Proof.
  intros [|c cs' (Hne & _ & Hc) _]; [done|]. rewrite body_cons. destruct c as [|b c]; [done|].
  rewrite bool_decide_false by done. apply Z.eqb_neq.
  apply Forall_cons in Hc as [[Hb _] _]. exact Hb.
Qed.

Lemma byte_at_drop l n : byte_at (drop n l) 0 = byte_at l (Z.of_nat n).
Proof.
  unfold byte_at, zget. destruct (Z.ltb_spec (Z.of_nat n) 0); [lia|]. cbn.
  rewrite lookup_drop, Nat2Z.id. do 2 f_equal. lia.
Qed.

(** * The walk along a path *)

Section walk.
Context {F D W : Type} `{Lens F (Io D W)}.
Implicit Types s : Vfs F.

Record vfs_wf s : Prop := {
  vwf_files : length (vfs_file s) = Z.to_nat MAX_GLOBAL_FILES;
  vwf_types : length (_vfs_type s) = Z.to_nat MAX_FILE_SYSTEMS;
  vwf_mounts : length (_vfs_mount s) = Z.to_nat MAX_MOUNT_POINTS;
}.

Lemma file_at_eq s fd f : zget (vfs_file s) fd = Some f -> file_at fd s = Ret (f, s).
Proof. intros Hz. unfold file_at, bind, gets, need. by rewrite Hz. Qed.
Lemma file_update_eq s fd f g :
  zget (vfs_file s) fd = Some f ->
  file_update fd g s = Ret (tt, set_files (zset (vfs_file s) fd (g f)) s).
Proof. intros Hz. unfold file_update. by rewrite (bind_Ret _ _ _ _ _ (file_at_eq _ _ _ Hz)). Qed.
Lemma mount_at_eq s mp m : zget (_vfs_mount s) mp = Some m -> mount_at mp s = Ret (m, s).
Proof. intros Hz. unfold mount_at, bind, gets, need. by rewrite Hz. Qed.
Lemma mount_update_eq s mp m g :
  zget (_vfs_mount s) mp = Some m ->
  mount_update mp g s = Ret (tt, set_mounts (zset (_vfs_mount s) mp (g m)) s).
Proof. intros Hz. unfold mount_update. by rewrite (bind_Ret _ _ _ _ _ (mount_at_eq _ _ _ Hz)). Qed.
Lemma type_at_eq s i t : zget (_vfs_type s) i = Some t -> type_at i s = Ret (t, s).
Proof. intros Hz. unfold type_at, bind, gets, need. by rewrite Hz. Qed.
Lemma fs_call_eq_id {A} (m : M F A) s a : m (fsw s) = Ret (a, fsw s) -> fs_call m s = Ret (a, s).
Proof. intros Hm. unfold fs_call, zoom. rewrite Hm. by destruct s. Qed.

(** The first mount point with a property. *)
Definition find_mount (p : VFSMountPoint -> bool) s : option Z :=
  find_from (Z.to_nat MAX_MOUNT_POINTS) 0 (fun i =>
    zget (_vfs_mount s) i ≫= fun m => if p m then Some i else None).

Lemma find_mount_eq (p : VFSMountPoint -> bool) s body :
  vfs_wf s -> (forall i m, zget (_vfs_mount s) i = Some m ->
    body i s = Ret (if p m then Some i else None, s)) ->
  for_range (Z.to_nat MAX_MOUNT_POINTS) 0 body s = Ret (find_mount p s, s).
Proof.
  intros Hw Hb. apply for_range_find. intros j Hj.
  destruct (zget_in_range (_vfs_mount s) j) as [m Hz]; [rewrite (vwf_mounts _ Hw); lia|].
  rewrite (Hb _ _ Hz), Hz. done.
Qed.

Lemma find_mount_Some p s i :
  find_mount p s = Some i -> exists m, zget (_vfs_mount s) i = Some m /\ p m = true.
Proof.
  intros (j & Hj & Hf & _)%find_from_Some. destruct (zget (_vfs_mount s) j) as [m|] eqn:Hz; [|done].
  cbn in Hf. destruct (p m) eqn:E; [|done]. injection Hf as <-. eauto.
Qed.

Definition is_root (m : VFSMountPoint) : bool :=
  negb (mp_used m =? 0) && (mp_dev m =? ALL_ONES) && (mp_inode m =? ALL_ONES).
Definition is_mount_of (dev ino : Z) (m : VFSMountPoint) : bool :=
  negb (mp_used m =? 0) && ((mp_dev m =? dev) && (mp_inode m =? ino)).

Lemma find_root_eq s : vfs_wf s -> find_root s = Ret (default MAX_MOUNT_POINTS (find_mount is_root s), s).
Proof.
  intros Hw. unfold find_root. erewrite bind_Ret; [reflexivity|]. apply find_mount_eq; [done|].
  intros i m Hz. rewrite (bind_Ret _ _ _ _ _ (mount_at_eq _ _ _ Hz)). unfold is_root.
  destruct (mp_used m =? 0), (mp_dev m =? ALL_ONES), (mp_inode m =? ALL_ONES); done.
Qed.

Lemma is_mountpoint_eq s dev ino :
  vfs_wf s -> _is_mountpoint dev ino s = Ret (default (-1) (find_mount (is_mount_of dev ino) s), s).
Proof.
  intros Hw. unfold _is_mountpoint. erewrite bind_Ret; [reflexivity|]. apply find_mount_eq; [done|].
  intros i m Hz. rewrite (bind_Ret _ _ _ _ _ (mount_at_eq _ _ _ Hz)). unfold is_mount_of.
  by destruct (mp_used m =? 0).
Qed.

(** What the file systems answer: the [stat] of a name in a directory of a
    mounted file system, or a negative error; [None] where nothing is known. *)
Definition lookup_fun : Type := Z -> Z -> list Z -> option (Z + stat).

(** In state [s] the mounted file systems answer as [f] says, and stay as they
    are. *)
Definition answers s (f : lookup_fun) : Prop :=
  forall mp m, zget (_vfs_mount s) mp = Some m -> mp_used m <> 0 ->
  exists t, zget (_vfs_type s) (mounted_fs m) = Some (Some t) /\
    forall dir c st, match f mp dir c with
      | Some (inl e) =>
          e < 0 /\ exists st', _stat t (mounted_instance m) dir c st (fsw s) = Ret ((e, st'), fsw s)
      | Some (inr x) => _stat t (mounted_instance m) dir c st (fsw s) = Ret ((0, x), fsw s)
      | None => True
      end.

(** The specification: walk from directory [dir] of mount point [cur] along the
    components, crossing into whatever is mounted on a directory passed. *)
Fixpoint walk s (f : lookup_fun) (cur dir : Z) (c : list Z) (cs : list (list Z)) : option (Z + (Z * stat)) :=
  match f cur dir c with
  | None => None
  | Some (inl e) => Some (inl e)
  | Some (inr x) =>
      match cs with
      | [] => Some (inr (cur, x))
      | c' :: cs' =>
          match find_mount (is_mount_of (st_dev x) (st_ino x)) s with
          | Some mp => walk s f mp (default 0 (mounted_ino <$> zget (_vfs_mount s) mp)) c' cs'
          | None => if S_ISDIR (st_mode x) then walk s f cur (st_ino x) c' cs'
                    else Some (inl (- ENOTDIR))
          end
      end
  end.

Definition resolved (r : Z + (Z * stat)) : Z * option (Z * Z) :=
  match r with inl e => (e, None) | inr (mp, x) => (0, Some (mp, st_ino x)) end.

(** The end of [_resolv_ino]. *)
Definition resolve_last (r : Z + walk_state) : M (Vfs F) (Z * option (Z * Z)) :=
  match r with
  | inl err => ret (err, None)
  | inr (cur_fs, cur_fsi, dir, pos, c, s) =>
      let* t := type_at cur_fs in
      let* t := need t in
      let* m := mount_at cur_fsi in
      let* ' (err, s) := fs_call (_stat t (mounted_instance m) dir c s) in
      if err <? 0 then ret (err, None) else ret (0, Some (cur_fsi, st_ino s))
  end.

Lemma stat_call s f cur m dir c st :
  answers s f -> zget (_vfs_mount s) cur = Some m -> mp_used m <> 0 ->
  exists t, type_at (mounted_fs m) s = Ret (Some t, s) /\ mount_at cur s = Ret (m, s) /\
    match f cur dir c with
    | Some (inl e) => (e <? 0) = true /\
        exists st', fs_call (_stat t (mounted_instance m) dir c st) s = Ret ((e, st'), s)
    | Some (inr x) => fs_call (_stat t (mounted_instance m) dir c st) s = Ret ((0, x), s)
    | None => True
    end.
Proof.
  intros Ha Hz Hu. destruct (Ha _ _ Hz Hu) as (t & Ht & Hst). exists t.
  split; [by apply type_at_eq|]. split; [by apply mount_at_eq|]. specialize (Hst dir c st).
  destruct (f cur dir c) as [[e|x]|]; [..|done].
  - destruct Hst as [He [st' Hs]]. split; [lia|]. exists st'. by apply fs_call_eq_id.
  - by apply fs_call_eq_id.
Qed.

Lemma walk_loop s f path cs fuel cur m dir c st pos r :
  walk s f cur dir c cs = Some r -> vfs_wf s -> answers s f -> zget (_vfs_mount s) cur = Some m -> mp_used m <> 0 ->
  Forall component_ok cs -> 0 <= pos -> path_from path pos = body cs -> (length cs < fuel)%nat ->
  (let* r := loop fuel (mounted_fs m, cur, dir, pos, c, st) (walk_step path) in resolve_last r) s
  = Ret (resolved r, s).
Proof.
  intros Hwalk Hw Ha. revert fuel cur m dir c st pos Hwalk.
  induction cs as [|c' cs IH]; intros fuel cur m dir c st pos Hwalk Hz Hu Hcs Hpos Hp Hf;
    (destruct fuel as [|fuel]; [lia|]);
    pose proof (body_nil_iff _ Hcs) as Hend; rewrite <- Hp in Hend;
    unfold path_from in Hend; rewrite byte_at_drop, Z2Nat.id in Hend by done;
    destruct (stat_call s f cur m dir c st Ha Hz Hu) as (t & Ht & Hma & Hst).
  - rewrite bool_decide_true in Hend by done.
    erewrite bind_Ret; [|eapply loop_done; unfold walk_step; by rewrite Hend].
    unfold resolve_last. rewrite (bind_Ret _ _ _ _ _ Ht), (bind_Ret _ _ t s s), (bind_Ret _ _ _ _ _ Hma) by done.
    cbn [walk] in Hwalk. destruct (f cur dir c) as [[e|x]|]; [injection Hwalk as <-..|done].
    + destruct Hst as [He [st' Hst]]. rewrite (bind_Ret _ _ _ _ _ Hst), He. done.
    + by rewrite (bind_Ret _ _ _ _ _ Hst).
  - rewrite bool_decide_false in Hend by done. apply Forall_cons in Hcs as [Hc Hcs].
    destruct (extract_body c' cs Hc) as (n & Hex & Hn & Hdrop).
    assert (path_from path (pos + n) = body cs) as Hp'.
    { unfold path_from in *. by rewrite Z2Nat.inj_add, <- drop_drop, Hp, Hdrop by lia. }
    cbn [walk] in Hwalk. destruct (f cur dir c) as [ex|] eqn:Efx; [|done].
    assert (Hstep : walk_step path (mounted_fs m, cur, dir, pos, c, st) s = Ret (
      match ex with
      | inl e => inr (inl e)
      | inr x => match find_mount (is_mount_of (st_dev x) (st_ino x)) s with
        | Some mp => match zget (_vfs_mount s) mp with
                     | Some m' => inl (mounted_fs m', mp, mounted_ino m', pos + n, c', x)
                     | None => inr (inl 0)
                     end
        | None => if S_ISDIR (st_mode x) then inl (mounted_fs m, cur, st_ino x, pos + n, c', x)
                  else inr (inl (- ENOTDIR))
        end
      end, s)).
    { unfold walk_step. rewrite Hend.
      rewrite (bind_Ret _ _ _ _ _ Ht), (bind_Ret _ _ t s s), (bind_Ret _ _ _ _ _ Hma) by done.
      destruct ex as [e|x].
      - destruct Hst as [He [st' Hst]]. rewrite (bind_Ret _ _ _ _ _ Hst), He. done.
      - rewrite (bind_Ret _ _ _ _ _ Hst). change (0 <? 0) with false. cbn iota.
        rewrite (bind_Ret _ _ _ _ _ (is_mountpoint_eq _ _ _ Hw)), Hp, Hex.
        destruct (find_mount _ s) as [mp|] eqn:Emp; cbn [default from_option id].
        + pose proof (find_mount_Some _ _ _ Emp) as (m' & Hz' & _).
          pose proof (zget_lt_Some _ _ _ Hz'). destruct (Z.leb_spec 0 mp); [|lia].
          by rewrite (bind_Ret _ _ _ _ _ (mount_at_eq _ _ _ Hz')), Hz'.
        + cbn. by destruct (S_ISDIR (st_mode x)). }
    destruct ex as [e|x].
    + injection Hwalk as <-. by erewrite bind_Ret by (eapply loop_done; exact Hstep).
    + destruct (find_mount _ s) as [mp|] eqn:Emp.
      * pose proof (find_mount_Some _ _ _ Emp) as (m' & Hz' & Hm').
        rewrite Hz' in Hstep, Hwalk. cbn [fmap option_fmap option_map default from_option id] in Hwalk.
        rewrite <- (IH fuel mp m' (mounted_ino m') c' x (pos + n)); [|done|done| |done|lia|done|cbn in Hf; lia].
        -- unfold bind at 1. by rewrite (loop_next _ _ _ _ _ _ Hstep).
        -- unfold is_mount_of in Hm'. destruct (Z.eqb_spec (mp_used m') 0); [done|done].
      * destruct (S_ISDIR (st_mode x)).
        -- rewrite <- (IH fuel cur m (st_ino x) c' x (pos + n)); [|done|done|done|done|lia|done|cbn in Hf; lia].
           unfold bind at 1. by rewrite (loop_next _ _ _ _ _ _ Hstep).
        -- injection Hwalk as <-. by erewrite bind_Ret by (eapply loop_done; exact Hstep).
Qed.
(** Resolving a rendered path is the walk from the root directory. *)
Lemma resolv_ino_eq s f fuel (s0 : stat) c cs root r :
  vfs_wf s -> answers s f -> find_mount is_root s = Some root ->
  Forall component_ok (c :: cs) -> (length cs < fuel)%nat ->
  walk s f root 0 c cs = Some r ->
  _resolv_ino fuel s0 (render (c :: cs)) 0 s = Ret (resolved r, s).
Proof.
  intros Hw Ha Hr Hcs Hf Hwalk. pose proof Hcs as Hall. apply Forall_cons in Hcs as [Hc Hcs].
  destruct (find_mount_Some _ _ _ Hr) as (m & Hz & Hm). pose proof (zget_lt_Some _ _ _ Hz) as Hrange.
  rewrite (vwf_mounts _ Hw) in Hrange.
  unfold _resolv_ino. change (32 <=? 0) with false. cbn iota.
  change (byte_at (render (c :: cs)) 0) with SLASH. cbn [Z.eqb SLASH Pos.eqb negb].
  rewrite (bind_Ret _ _ _ _ _ (find_root_eq _ Hw)), Hr. cbn [default from_option id].
  destruct (Z.eqb_spec root MAX_MOUNT_POINTS) as [|_]; [lia|].
  rewrite (bind_Ret _ _ _ _ _ (mount_at_eq _ _ _ Hz)).
  change (path_from (render (c :: cs)) 1) with (body (c :: cs)).
  destruct (extract_body c cs Hc) as (n & Hex & Hn & Hdrop). rewrite Hex.
  assert (path_from (render (c :: cs)) (n + 1) = body cs) as Hp.
  { unfold path_from. replace (Z.to_nat (n + 1)) with (1 + Z.to_nat n)%nat by lia.
    rewrite <- drop_drop. exact Hdrop. }
  assert (skip_slashes fuel (render (c :: cs)) (n + 1) s = Ret (n + 1, s)) as Hskip.
  { destruct fuel as [|fuel]; [lia|]. apply loop_done. unfold ret.
    assert (byte_at (render (c :: cs)) (n + 1) <> SLASH) as Hns.
    { replace (n + 1) with (Z.of_nat (Z.to_nat (n + 1))) by lia. rewrite <- byte_at_drop.
      unfold path_from in Hp. rewrite Hp. destruct cs as [|c2 cs]; [done|].
      apply Forall_cons in Hcs as [(Hne & _ & Hc2) _]. rewrite body_cons.
      destruct c2 as [|b c2]; [done|]. apply Forall_cons in Hc2 as [[_ Hb] _]. exact Hb. }
    by rewrite (proj2 (Z.eqb_neq _ _) Hns). }
  rewrite (bind_Ret _ _ _ _ _ Hskip).
  rewrite <- (walk_loop s f (render (c :: cs)) cs fuel root m 0 c s0 (n + 1)); try done; [|lia].
  unfold is_root in Hm. destruct (Z.eqb_spec (mp_used m) 0); done.
Qed.

(** C17. Path resolution refines its specification: for an absolute path made of
    components that fit, [_resolv_ino] returns what walking the components from
    the root directory gives, crossing mount points on the way, with the errors
    of the file systems and [-ENOTDIR] for a component that is not a directory.
    It changes nothing, and ends when the fuel exceeds the number of
    components. *)
Theorem resolv_ino_walk s f fuel (s0 : stat) c cs root r :
  vfs_wf s -> answers s f -> find_mount is_root s = Some root ->
  Forall component_ok (c :: cs) -> (length cs < fuel)%nat ->
  walk s f root 0 c cs = Some r ->
  _resolv_ino fuel s0 (render (c :: cs)) 0 s = Ret (resolved r, s).
Proof. apply resolv_ino_eq. Qed.

(** Path resolution refuses the empty path, a path that does not begin with
    a slash, and every path while no root file system is mounted. *)
Theorem resolv_ino_refuses s fuel (s0 : stat) path :
  vfs_wf s ->
  _resolv_ino fuel s0 [] 0 s = Ret ((- EINVAL, None), s) /\
  (byte_at path 0 <> 0 -> byte_at path 0 <> SLASH ->
     _resolv_ino fuel s0 path 0 s = Ret ((- ENOENT, None), s)) /\
  (find_mount is_root s = None -> byte_at path 0 = SLASH ->
     _resolv_ino fuel s0 path 0 s = Ret ((- ENOENT, None), s)).
Proof.
  intros Hw. split_and!; [done|..].
  - intros Hnz Hns. unfold _resolv_ino. change (32 <=? 0) with false. cbn iota.
    by rewrite (proj2 (Z.eqb_neq _ _) Hnz), (proj2 (Z.eqb_neq _ _) Hns).
  - intros Hr Hs. unfold _resolv_ino. change (32 <=? 0) with false. cbn iota. rewrite Hs.
    cbn [Z.eqb SLASH Pos.eqb negb]. by rewrite (bind_Ret _ _ _ _ _ (find_root_eq _ Hw)), Hr.
Qed.

(** ** Files *)

(** The first file that is not used. *)
Definition first_free_file s (fd : Z) : Prop :=
  (exists f, zget (vfs_file s) fd = Some f /\ is_used f = false) /\
  forall j f, j < fd -> zget (vfs_file s) j = Some f -> is_used f = true.

Lemma alloc_file_eq s fd f :
  vfs_wf s -> first_free_file s fd -> zget (vfs_file s) fd = Some f ->
  _alloc_file s = Ret (fd, set_files (zset (vfs_file s) fd (set_is_used true f)) s).
Proof.
  intros Hw [(f' & Hz & Hu) Hfirst] Hf. assert (f' = f) as -> by congruence.
  pose proof (zget_lt_Some _ _ _ Hf) as Hr.
  unfold _alloc_file. enough (forall n i, 0 <= i <= fd -> fd < i + Z.of_nat n ->
    for_range n i (fun i => let* f := file_at i in
      if is_used f then ret None else file_update i (set_is_used true) ;; ret (Some i)) s
    = Ret (Some fd, set_files (zset (vfs_file s) fd (set_is_used true f)) s)) as HL.
  { rewrite (vwf_files _ Hw) in Hr. rewrite (bind_Ret _ _ _ _ _ (HL (Z.to_nat MAX_GLOBAL_FILES) 0 ltac:(lia) ltac:(lia))).
    done. }
  induction n as [|n IH]; intros i Hi Hn; [lia|]. destruct (decide (i = fd)) as [->|Hne].
  - apply for_range_done. rewrite (bind_Ret _ _ _ _ _ (file_at_eq _ _ _ Hf)), Hu.
    by rewrite (bind_Ret _ _ _ _ _ (file_update_eq _ _ _ _ Hf)).
  - destruct (zget_in_range (vfs_file s) i) as [fi Hfi]; [lia|].
    erewrite for_range_next; [apply IH; lia|].
    by rewrite (bind_Ret _ _ _ _ _ (file_at_eq _ _ _ Hfi)), (Hfirst i fi ltac:(lia) Hfi).
Qed.

Lemma alloc_file_full s :
  vfs_wf s -> (forall j f, zget (vfs_file s) j = Some f -> is_used f = true) ->
  _alloc_file s = Ret (- EMFILE, s).
Proof.
  intros Hw Hall. unfold _alloc_file. rewrite (bind_Ret _ _ (None : option Z) s s); [done|].
  rewrite (for_range_find _ _ _ (fun _ => None)).
  - reflexivity.
  - intros j Hj. destruct (zget_in_range (vfs_file s) j) as [f Hf]; [rewrite (vwf_files _ Hw); lia|].
    by rewrite (bind_Ret _ _ _ _ _ (file_at_eq _ _ _ Hf)), (Hall _ _ Hf).
Qed.

(** The answer of the file system at a mount point for an inode. *)
Definition inode_answer s (mp ino : Z) (x : stat) : Prop :=
  exists m t, zget (_vfs_mount s) mp = Some m /\ zget (_vfs_type s) (mounted_fs m) = Some (Some t) /\
    forall st, _stat_inode t (mounted_instance m) ino st (fsw s) = Ret ((0, x), fsw s).

Definition opened_file s (fd mp : Z) (x : stat) (m : VFSMountPoint) : Vfs F :=
  set_mounts (zset (_vfs_mount s) mp (set_open_files (s32 (open_files m + 1)) m))
    (set_files (zset (vfs_file s) fd (open_entry mp x)) s).

Lemma vfs_open_eq s f fuel (s0 st0 : stat) c cs root flags mp x x' m fd :
  vfs_wf s -> answers s f -> find_mount is_root s = Some root ->
  Forall component_ok (c :: cs) -> (length cs < fuel)%nat ->
  walk s f root 0 c cs = Some (inr (mp, x)) -> inode_answer s mp (st_ino x) x' ->
  zget (_vfs_mount s) mp = Some m -> first_free_file s fd ->
  vfs_open fuel s0 st0 (render (c :: cs)) flags s = Ret (fd, opened_file s fd mp x' m).
Proof.
  intros Hw Ha Hr Hcs Hf Hwalk (m' & t & Hm' & Ht & Hst) Hm Hfree. simplify_eq.
  unfold vfs_open, vfs_stat. rewrite bind_assoc.
  rewrite (bind_Ret _ _ _ _ _ (resolv_ino_eq s f fuel s0 c cs root _ Hw Ha Hr Hcs Hf Hwalk)).
  cbn [resolved]. change (0 <? 0) with false. cbn iota. rewrite bind_assoc.
  rewrite (bind_Ret _ _ (mp, st_ino x) s s) by done. cbn iota. rewrite bind_assoc.
  assert (mounted_type mp s = Ret ((t, mounted_instance m'), s)) as Hmt.
  { unfold mounted_type. rewrite (bind_Ret _ _ _ _ _ (mount_at_eq _ _ _ Hm')).
    by rewrite (bind_Ret _ _ _ _ _ (type_at_eq _ _ _ Ht)). }
  rewrite (bind_Ret _ _ _ _ _ Hmt). cbn iota. rewrite bind_assoc.
  rewrite (bind_Ret _ _ _ _ _ (fs_call_eq_id _ _ _ (Hst st0))). cbn iota.
  change (0 <? 0) with false. cbn iota. unfold bind at 1, ret at 1. change (0 <? 0) with false. cbn iota.
  rewrite (bind_Ret _ _ mp s s) by done. pose proof Hfree as [(fx & Hfx & _) _].
  pose proof (zget_lt_Some _ _ _ Hfx) as Hrange.
  rewrite (bind_Ret _ _ _ _ _ (alloc_file_eq _ _ _ Hw Hfree Hfx)).
  destruct (Z.ltb_spec fd 0); [lia|].
  erewrite bind_Ret; [|apply file_update_eq; cbn; by apply zget_zset_eq].
  erewrite bind_Ret; [|apply mount_update_eq; exact Hm'].
  unfold ret, opened_file, set_mounts, set_files. cbn. unfold zset. by rewrite list_insert_insert_eq.
Qed.

(** Opening a path that resolves takes the lowest unused descriptor, fills
    it in from the [stat] of the inode (position 0, one reference, a device
    file exactly when the mode says so), counts the open file at its mount
    point, and changes nothing else. *)
Theorem vfs_open_correct s f fuel (s0 st0 : stat) c cs root flags mp x x' m fd :
  vfs_wf s -> answers s f -> find_mount is_root s = Some root ->
  Forall component_ok (c :: cs) -> (length cs < fuel)%nat ->
  walk s f root 0 c cs = Some (inr (mp, x)) -> inode_answer s mp (st_ino x) x' ->
  zget (_vfs_mount s) mp = Some m -> first_free_file s fd ->
  vfs_open fuel s0 st0 (render (c :: cs)) flags s = Ret (fd, opened_file s fd mp x' m).
Proof. apply vfs_open_eq. Qed.

(** Opening a path and closing it again gives back the descriptor and the
    count of open files of the mount point, for every file that is not a
    device. *)
Theorem vfs_open_close s f fuel (s0 st0 : stat) c cs root flags mp x x' m fd :
  vfs_wf s -> answers s f -> find_mount is_root s = Some root ->
  Forall component_ok (c :: cs) -> (length cs < fuel)%nat ->
  walk s f root 0 c cs = Some (inr (mp, x)) -> inode_answer s mp (st_ino x) x' ->
  zget (_vfs_mount s) mp = Some m -> first_free_file s fd -> -1 <= open_files m < 2 ^ 31 - 1 ->
  S_ISBLK (st_mode x') || S_ISCHR (st_mode x') = false ->
  wp (let* fd := vfs_open fuel s0 st0 (render (c :: cs)) flags in vfs_close fd)
     (fun r s' => r = 0 /\ first_free_file s' fd /\ _vfs_mount s' = _vfs_mount s /\
        forall j, j <> fd -> zget (vfs_file s') j = zget (vfs_file s) j) s.
Proof.
  intros Hw Ha Hr Hcs Hf Hwalk Hino Hm Hfree Hof Hdev. rewrite wp_bind.
  eapply wp_eq; [by eapply vfs_open_eq|]. destruct Hfree as [(fx & Hfx & _) Hfirst].
  pose proof (zget_lt_Some _ _ _ Hfx) as Hrange. pose proof (zget_lt_Some _ _ _ Hm) as Hmr.
  set (s1 := opened_file s fd mp x' m).
  assert (zget (vfs_file s1) fd = Some (open_entry mp x')) as HF1 by (cbn; by apply zget_zset_eq).
  unfold vfs_close. rewrite (vwf_files _ Hw) in Hrange.
  destruct (Z.ltb_spec fd 0); [lia|]. destruct (Z.leb_spec MAX_GLOBAL_FILES fd); [lia|]. cbn [orb].
  rewrite wp_bind. eapply wp_eq; [by apply file_update_eq|].
  set (s2 := set_files (zset (vfs_file s1) fd (set_ref (s32 (1 - 1)) (open_entry mp x'))) s1).
  assert (zget (vfs_file s2) fd = Some (set_ref (s32 (1 - 1)) (open_entry mp x'))) as HF2.
  { unfold s2. cbn [vfs_file set_files]. apply zget_zset_eq. by eapply zget_lt_Some. }
  rewrite wp_bind. eapply wp_eq; [exact (file_at_eq _ _ _ HF2)|]. cbn [f_ref set_ref].
  change (s32 (1 - 1) =? 0) with true. cbn iota. rewrite !wp_bind.
  eapply wp_eq; [exact (file_update_eq _ _ _ _ HF2)|].
  assert (data_instance (set_ref (s32 (1 - 1)) (open_entry mp x')) = mp) as ->.
  { unfold data_instance. cbn. rewrite Hdev. rewrite (vwf_mounts _ Hw) in Hmr.
    unfold MAX_MOUNT_POINTS in *. by rewrite s32_small by lia. }
  eapply wp_eq.
  { apply mount_update_eq. cbn. by apply zget_zset_eq. }
  rewrite wp_ret. split_and!; [done| | |].
  - split.
    + eexists. cbn. split; [apply zget_zset_eq; rewrite !length_zset, (vwf_files _ Hw); lia|done].
    + intros j fj Hj. cbn. rewrite !zget_zset_ne by lia. by apply Hfirst.
  - cbn. unfold zset. rewrite list_insert_insert_eq.
    rewrite (s32_small (open_files m + 1)), s32_small by lia.
    replace (set_open_files (open_files m + 1 - 1) _) with m; [by apply zset_id|].
    unfold set_open_files. cbn. destruct m. cbn. f_equal. lia.
  - intros j Hj. cbn. by rewrite !zget_zset_ne by lia.
Qed.

(** Closing the last reference of a device file decrements the counter of
    the mount point whose number is the device number stored over it: for every
    device number from 16 on this is an access outside the mount table. *)
Theorem vfs_close_device_fault s fd f device flags :
  vfs_wf s -> first_free_file s fd -> zget (vfs_file s) fd = Some f ->
  MAX_MOUNT_POINTS <= device < 2 ^ 31 ->
  (let* fd := vfs_open_device device flags in vfs_close fd) s = Fault.
Proof.
  intros Hw Hfree Hf Hdev. pose proof (zget_lt_Some _ _ _ Hf) as Hrange.
  unfold vfs_open_device. rewrite bind_assoc.
  rewrite (bind_Ret _ _ _ _ _ (alloc_file_eq _ _ _ Hw Hfree Hf)).
  destruct (Z.ltb_spec fd 0); [lia|]. rewrite bind_assoc.
  set (s1 := set_files (zset (vfs_file s) fd (set_is_used true f)) s).
  assert (zget (vfs_file s1) fd = Some (set_is_used true f)) as HF1 by (cbn; by apply zget_zset_eq).
  rewrite (bind_Ret _ _ _ _ _ (file_update_eq s1 fd _ _ HF1)).
  set (e := MkFile true true true true false false 0 1 0 device (u32 (-1))).
  set (s2 := set_files (zset (vfs_file s1) fd e) s1).
  assert (zget (vfs_file s2) fd = Some e) as HF2.
  { cbn. apply zget_zset_eq. by rewrite length_zset. }
  unfold bind at 1, ret at 1. unfold vfs_close. rewrite (vwf_files _ Hw) in Hrange.
  destruct (Z.ltb_spec fd 0); [lia|]. destruct (Z.leb_spec MAX_GLOBAL_FILES fd); [lia|]. cbn [orb].
  rewrite (bind_Ret _ _ _ _ _ (file_update_eq s2 fd _ _ HF2)).
  set (e0 := set_ref (s32 (f_ref e - 1)) e). set (s3 := set_files (zset (vfs_file s2) fd e0) s2).
  assert (zget (vfs_file s3) fd = Some e0) as HF3.
  { cbn. apply zget_zset_eq. by rewrite !length_zset, (vwf_files _ Hw). }
  rewrite (bind_Ret _ _ _ _ _ (file_at_eq _ _ _ HF3)).
  change (f_ref e0 =? 0) with true. cbn iota. apply bind_Fault.
  rewrite (bind_Ret _ _ _ _ _ (file_update_eq s3 fd _ _ HF3)).
  unfold mount_update. apply bind_Fault. unfold mount_at, bind, gets, need.
  change (data_instance e0) with (s32 device). rewrite s32_small by (unfold MAX_MOUNT_POINTS in *; lia).
  cbn. rewrite (proj2 (zget_None _ _)); [done|]. rewrite (vwf_mounts _ Hw). lia.
Qed.
(** ** Reading *)

(** What a read of [count] bytes at [off] gives. *)
Definition slice (contents : list Z) (off count : Z) : list Z :=
  take (Z.to_nat count) (drop (Z.to_nat off) contents).

(** The open file [f] is a readable regular file on a mounted file system that
    serves the bytes [contents] for it. *)
Definition regular s (f : VFSFileEntry) (contents : list Z) : Prop :=
  is_used f = true /\ is_device f = false /\ f_directory f = false /\ f_read f = true /\
  exists m t, zget (_vfs_mount s) (data_instance f) = Some m /\
    zget (_vfs_type s) (mounted_fs m) = Some (Some t) /\
    forall count off, 0 <= count < 2 ^ 31 -> 0 <= off <= Z.of_nat (length contents) ->
      _read t (mounted_instance m) (data_inode f) count off (fsw s) =
        Ret ((Z.of_nat (length (slice contents off count)), slice contents off count), fsw s).

Lemma mounted_type_eq s mp m t :
  zget (_vfs_mount s) mp = Some m -> zget (_vfs_type s) (mounted_fs m) = Some (Some t) ->
  mounted_type mp s = Ret ((t, mounted_instance m), s).
Proof.
  intros Hm Ht. unfold mounted_type. rewrite (bind_Ret _ _ _ _ _ (mount_at_eq _ _ _ Hm)).
  by rewrite (bind_Ret _ _ _ _ _ (type_at_eq _ _ _ Ht)).
Qed.

Lemma length_slice contents off count :
  0 <= off <= Z.of_nat (length contents) -> 0 <= count ->
  0 <= Z.of_nat (length (slice contents off count)) <= count /\
  off + Z.of_nat (length (slice contents off count)) <= Z.of_nat (length contents).
Proof. intros Ho Hc. unfold slice. rewrite length_take, length_drop. lia. Qed.

Lemma set_pos_id f : set_pos (f_pos f) f = f.
Proof. by destruct f. Qed.

Lemma set_files_id s t : t = vfs_file s -> set_files t s = s.
Proof. intros ->. by destruct s. Qed.

Lemma vfs_read_eq block s fd f contents count :
  vfs_wf s -> zget (vfs_file s) fd = Some f -> regular s f contents ->
  0 <= f_pos f <= Z.of_nat (length contents) -> Z.of_nat (length contents) < 2 ^ 31 ->
  0 <= count < 2 ^ 31 ->
  let l := slice contents (f_pos f) count in
  vfs_read block fd count s = Ret ((Z.of_nat (length l), l),
    set_files (zset (vfs_file s) fd (set_pos (f_pos f + Z.of_nat (length l)) f)) s).
Proof.
  intros Hw Hf (Hu & Hd & Hdir & Hrd & m & t & Hm & Ht & Hread) Hpos Hlen Hc l.
  pose proof (zget_lt_Some _ _ _ Hf) as Hr. rewrite (vwf_files _ Hw) in Hr.
  unfold vfs_read. destruct (Z.ltb_spec fd (-1)); [lia|].
  destruct (Z.leb_spec MAX_GLOBAL_FILES fd); [lia|]. cbn [orb].
  rewrite (bind_Ret _ _ _ _ _ (file_at_eq _ _ _ Hf)), Hu, Hd, Hdir, Hrd. cbn [negb].
  rewrite (bind_Ret _ _ _ _ _ (mounted_type_eq _ _ _ _ Hm Ht)). cbn iota.
  rewrite (bind_Ret _ _ _ _ _ (fs_call_eq_id _ _ _ (Hread count (f_pos f) Hc Hpos))). cbn iota.
  fold l. pose proof (length_slice contents (f_pos f) count Hpos ltac:(lia)) as [Hl1 Hl2]. fold l in Hl1, Hl2.
  unfold advance, when. destruct (Z.ltb_spec 0 (Z.of_nat (length l))).
  - rewrite bind_assoc, (bind_Ret _ _ _ _ _ (file_at_eq _ _ _ Hf)).
    rewrite (bind_Ret _ _ _ _ _ (file_update_eq _ _ _ _ Hf)). by rewrite s64_small by lia.
  - replace (Z.of_nat (length l)) with 0 by lia. unfold bind, ret. rewrite Z.add_0_r, set_pos_id.
    by rewrite set_files_id by (by apply zset_id).
Qed.

(** Reading an open regular file returns the bytes from the file's position
    on, as many as were asked for or as are left, and moves the position past
    them; nothing else changes. *)
Theorem vfs_read_correct block s fd f contents count :
  vfs_wf s -> zget (vfs_file s) fd = Some f -> regular s f contents ->
  0 <= f_pos f <= Z.of_nat (length contents) -> Z.of_nat (length contents) < 2 ^ 31 ->
  0 <= count < 2 ^ 31 ->
  let l := slice contents (f_pos f) count in
  vfs_read block fd count s = Ret ((Z.of_nat (length l), l),
    set_files (zset (vfs_file s) fd (set_pos (f_pos f + Z.of_nat (length l)) f)) s).
Proof. apply vfs_read_eq. Qed.

Lemma slice_slice contents off a b :
  0 <= off -> 0 <= a -> 0 <= b -> off <= Z.of_nat (length contents) ->
  slice contents off a ++ slice contents (off + Z.of_nat (length (slice contents off a))) b
  = slice contents off (a + b).
Proof.
  intros Ho Ha Hb Hl. unfold slice. rewrite length_take, length_drop.
  replace (Z.to_nat (a + b)) with (Z.to_nat a + Z.to_nat b)%nat by lia.
  rewrite <- (take_take_drop _ (Z.to_nat a) (Z.to_nat b)), drop_drop.
  destruct (decide (Z.to_nat a <= length contents - Z.to_nat off)%nat).
  - replace (Z.to_nat (off + Z.of_nat (Nat.min (Z.to_nat a) (length contents - Z.to_nat off))))
      with (Z.to_nat off + Z.to_nat a)%nat by lia. done.
  - f_equal. by rewrite !drop_ge by lia.
Qed.

(** C29. Reading in two steps is reading once: two reads in a row return the two
    parts of what one read of both counts returns, and leave the same state. *)
Theorem vfs_read_sequential block s fd f contents a b :
  vfs_wf s -> zget (vfs_file s) fd = Some f -> regular s f contents ->
  0 <= f_pos f <= Z.of_nat (length contents) -> Z.of_nat (length contents) < 2 ^ 31 ->
  0 <= a -> 0 <= b -> a + b < 2 ^ 31 ->
  (let* ' (n1, l1) := vfs_read block fd a in
   let* ' (n2, l2) := vfs_read block fd b in ret (n1 + n2, l1 ++ l2)) s
  = vfs_read block fd (a + b) s.
Proof.
  intros Hw Hf Hreg Hpos Hlen Ha Hb Hab.
  rewrite (bind_Ret _ _ _ _ _ (vfs_read_eq block s fd f contents a Hw Hf Hreg Hpos Hlen ltac:(lia))).
  cbn iota. set (l1 := slice contents (f_pos f) a). set (f1 := set_pos _ f). set (s1 := set_files _ s).
  pose proof (length_slice contents (f_pos f) a Hpos ltac:(lia)) as [Hl1 Hl2]. fold l1 in Hl1, Hl2.
  assert (vfs_wf s1) as Hw1 by (destruct Hw; split; cbn; [by rewrite length_zset|done|done]).
  assert (zget (vfs_file s1) fd = Some f1) as Hf1 by (cbn; apply zget_zset_eq; by eapply zget_lt_Some).
  rewrite (bind_Ret _ _ _ _ _ (vfs_read_eq block s1 fd f1 contents b Hw1 Hf1 Hreg ltac:(cbn; lia) Hlen ltac:(lia))).
  cbn iota. rewrite (vfs_read_eq block s fd f contents (a + b) Hw Hf Hreg Hpos Hlen ltac:(lia)).
  cbn zeta. cbn [f1 f_pos set_pos]. rewrite <- (slice_slice contents (f_pos f) a b) by lia. fold l1.
  unfold ret. rewrite length_app, Nat2Z.inj_add. do 2 f_equal.
  unfold s1, set_files. cbn. unfold zset. rewrite list_insert_insert_eq. do 2 f_equal.
  unfold f1, set_pos. cbn. f_equal. lia.
Qed.

(** Reading a directory does not move its position: when an entry is there,
    every one of the [dirs] entries returned is that same entry. *)
Theorem vfs_read_directory_repeats s fd f dirs m t r e :
  vfs_wf s -> zget (vfs_file s) fd = Some f -> is_device f = false -> f_directory f = true ->
  zget (_vfs_mount s) (data_instance f) = Some m ->
  zget (_vfs_type s) (mounted_fs m) = Some (Some t) -> 0 < r ->
  _read_directory t (mounted_instance m) (data_inode f) (f_pos f) (fsw s) = Ret ((r, Some e), fsw s) ->
  0 <= dirs ->
  vfs_read_directory fd dirs s = Ret ((dirs, replicate (Z.to_nat dirs) e), s).
Proof.
  intros Hw Hf Hd Hdir Hm Ht Hr Hread Hdirs.
  pose proof (zget_lt_Some _ _ _ Hf) as Hrange. rewrite (vwf_files _ Hw) in Hrange.
  unfold vfs_read_directory. destruct (Z.ltb_spec fd 0); [lia|].
  destruct (Z.leb_spec MAX_GLOBAL_FILES fd); [lia|]. cbn [orb].
  rewrite (bind_Ret _ _ _ _ _ (file_at_eq _ _ _ Hf)), Hd, Hdir. cbn [negb].
  enough (forall n i, 0 <= i <= dirs -> (Z.to_nat (dirs - i) < n)%nat ->
    loop n (i, replicate (Z.to_nat i) e) (fun '(i, de) =>
      if dirs <=? i then ret (inr (i, de)) else
      let* ' (t, inst) := mounted_type (data_instance f) in
      let* f := file_at fd in
      let* ' (err, tde) := fs_call (_read_directory t inst (data_inode f) (f_pos f)) in
      if err <? 0 then ret (inr (err, de)) else
      if err =? 0 then ret (inr (i, de)) else
      let* tde := need tde in
      ret (inl (i + 1, de ++ [tde]))) s = Ret ((dirs, replicate (Z.to_nat dirs) e), s)) as HL
    by (apply (HL _ 0); lia).
  induction n as [|n IH]; intros i Hi Hn; [lia|]. destruct (decide (i = dirs)) as [->|Hne].
  - apply loop_done. by rewrite Z.leb_refl.
  - erewrite loop_next; [apply (IH (i + 1)); lia|]. destruct (Z.leb_spec dirs i); [lia|].
    rewrite (bind_Ret _ _ _ _ _ (mounted_type_eq _ _ _ _ Hm Ht)). cbn iota.
    rewrite (bind_Ret _ _ _ _ _ (file_at_eq _ _ _ Hf)).
    rewrite (bind_Ret _ _ _ _ _ (fs_call_eq_id _ _ _ Hread)). cbn iota.
    destruct (Z.ltb_spec r 0); [lia|]. destruct (Z.eqb_spec r 0); [lia|].
    rewrite (bind_Ret _ _ e s s) by done. unfold ret. do 3 f_equal.
    replace (Z.to_nat (i + 1)) with (S (Z.to_nat i)) by lia. by rewrite replicate_S_end.
Qed.

(** Descriptor -1 passes the range check of [vfs_read] and is then used as
    an index. *)
Theorem vfs_read_minus_one block s count : vfs_read block (-1) count s = Fault.
Proof. reflexivity. Qed.

(** ** Registration *)

Definition has_type s (name : list Z) : Prop :=
  exists i t, zget (_vfs_type s) i = Some (Some t) /\ strcmp_val (fs_name t) name = 0.

Lemma register_slot_eq s name :
  vfs_wf s ->
  (has_type s name /\ register_slot name s = Ret (inl (- EEXIST), s)) \/
  (~ has_type s name /\ exists q, register_slot name s = Ret (inr q, s) /\
     ((q = -1 /\ forall i, zget (_vfs_type s) i <> Some None) \/ zget (_vfs_type s) q = Some None)).
Proof.
  intros Hw. unfold register_slot.
  enough (forall n i q, 0 <= i <= MAX_FILE_SYSTEMS -> (Z.to_nat (MAX_FILE_SYSTEMS - i) < n)%nat ->
    (q = -1 /\ (forall j, j < i -> zget (_vfs_type s) j <> Some None) \/ zget (_vfs_type s) q = Some None) ->
    (forall j t, j < i -> zget (_vfs_type s) j = Some (Some t) -> strcmp_val (fs_name t) name <> 0) ->
    (has_type s name /\ loop n (i, q) (fun '(i, q) =>
      if MAX_FILE_SYSTEMS <=? i then ret (inr (inr q)) else
      let* t := type_at i in
      ret (match t with
           | Some t => if strcmp_val (fs_name t) name =? 0 then inr (inl (- EEXIST)) else inl (i + 1, q)
           | None => inl (i + 1, i)
           end)) s = Ret (inl (- EEXIST), s)) \/
    (~ has_type s name /\ exists q', loop n (i, q) (fun '(i, q) =>
      if MAX_FILE_SYSTEMS <=? i then ret (inr (inr q)) else
      let* t := type_at i in
      ret (match t with
           | Some t => if strcmp_val (fs_name t) name =? 0 then inr (inl (- EEXIST)) else inl (i + 1, q)
           | None => inl (i + 1, i)
           end)) s = Ret (inr q', s) /\
     ((q' = -1 /\ forall j, zget (_vfs_type s) j <> Some None) \/ zget (_vfs_type s) q' = Some None))) as HL.
  { apply (HL _ 0 (-1)); unfold MAX_FILE_SYSTEMS; [lia|lia| |].
    - left. split; [done|]. intros j Hj Hz%zget_lt_Some. lia.
    - intros j t Hj Hz%zget_lt_Some. lia. }
  induction n as [|n IH]; intros i q Hi Hn Hq Hno; [lia|].
  destruct (decide (i = MAX_FILE_SYSTEMS)) as [->|Hne].
  - right. assert (Hall : forall j o, zget (_vfs_type s) j = Some o -> j < MAX_FILE_SYSTEMS).
    { intros j o Hz%zget_lt_Some. rewrite (vwf_types _ Hw) in Hz. unfold MAX_FILE_SYSTEMS in *. lia. }
    split; [intros (j & t & Hz & Hs); by apply (Hno j t (Hall _ _ Hz) Hz)|].
    exists q. split; [apply loop_done; by rewrite Z.leb_refl|].
    destruct Hq as [[-> Hq]|Hq]; [left|by right]. split; [done|]. intros j Hz. by apply (Hq j (Hall _ _ Hz)).
  - destruct (zget_in_range (_vfs_type s) i) as [o Ho]; [rewrite (vwf_types _ Hw); unfold MAX_FILE_SYSTEMS in *; lia|].
    rewrite loop_unfold. destruct (Z.leb_spec MAX_FILE_SYSTEMS i); [lia|]. rewrite bind_assoc.
    rewrite (bind_Ret _ _ _ _ _ (type_at_eq _ _ _ Ho)). unfold bind at 1 2, ret at 1 2.
    destruct o as [t|]; [destruct (Z.eqb_spec (strcmp_val (fs_name t) name) 0)|].
    + left. split; [by exists i, t|done].
    + apply IH; [lia|lia| |].
      * destruct Hq as [[-> Hq]|Hq]; [left|by right]. split; [done|]. intros j Hj.
        destruct (decide (j = i)) as [->|]; [congruence|apply Hq; lia].
      * intros j t' Hj Hz. destruct (decide (j = i)) as [->|]; [congruence|apply (Hno j); [lia|done]].
    + apply IH; [lia|lia|by right|].
      intros j t' Hj Hz. destruct (decide (j = i)) as [->|]; [congruence|apply (Hno j); [lia|done]].
Qed.

(** Registering a file system type: a name already there gives [-EEXIST], a
    full table [-ENOMEM]; otherwise the type goes to the returned slot, which
    was unused, and the other slots are unchanged. *)
Theorem vfs_fs_register_correct s fs :
  vfs_wf s ->
  wp (vfs_fs_register fs) (fun r s' =>
    (has_type s (take 15 (fs_name fs)) /\ r = - EEXIST /\ s' = s) \/
    (~ has_type s (take 15 (fs_name fs)) /\ (forall i, zget (_vfs_type s) i <> Some None) /\
       r = - ENOMEM /\ s' = s) \/
    (~ has_type s (take 15 (fs_name fs)) /\ zget (_vfs_type s) r = Some None /\
       s' = set_types (zset (_vfs_type s) r (Some (MkFSType (take 15 (fs_name fs)) (_mount fs)
              (_stat fs) (_stat_inode fs) (_read fs) (_read_directory fs)))) s)) s.
Proof.
  intros Hw. unfold vfs_fs_register. cbn zeta. rewrite wp_bind.
  destruct (register_slot_eq s (take 15 (fs_name fs)) Hw) as [[Hh Hr]|[Hn (q & Hr & Hq)]];
    (eapply wp_eq; [exact Hr|]); cbn iota.
  - rewrite wp_ret. by left.
  - destruct Hq as [[-> Hq]|Hq].
    + change (-1 <? 0) with true. rewrite wp_ret. right. by left.
    + pose proof (zget_lt_Some _ _ _ Hq). destruct (Z.ltb_spec q 0); [lia|].
      rewrite wp_bind, wp_modify, wp_ret. right. by right.
Qed.

End walk.

(** * Witnesses *)

(** A file system with a directory "d" (inode 2) that holds a file "f"
    (inode 5) of three bytes, mounted as the root. *)
Definition toy_node (ino mode : Z) : stat := Stat 65537 ino mode 1 0 0 0 3 512 1 0.
Definition toy_lookup (dir : Z) (name : list Z) : Z + stat :=
  if (dir =? 0) && bool_decide (name = [100]) then inr (toy_node 2 S_IFDIR)
  else if (dir =? 2) && bool_decide (name = [102]) then inr (toy_node 5 S_IFREG)
  else inl (- ENOENT).
Definition toy_type : VFSFSType (Io unit unit) :=
  MkFSType [116; 111; 121] (fun _ => ret (0, Some 0))
    (fun _ dir name st => ret (match toy_lookup dir name with inl e => (e, st) | inr x => (0, x) end))
    (fun _ ino _ => ret (0, toy_node ino (if ino =? 5 then S_IFREG else S_IFDIR)))
    (fun _ _ count off => ret (Z.of_nat (length (slice [10; 20; 30] off count)), slice [10; 20; 30] off count))
    (fun _ _ pos => ret (1032, Some (Dirent 5 S_IFREG [102]))).

#[local] Instance io_self : Lens (Io unit unit) (Io unit unit) := { lget s := s; lset t _ := t }.

Definition no_file : VFSFileEntry := MkFile false false false false false false 0 0 0 0 0.
Definition toy_mount : VFSMountPoint := MkMount 1 0 ALL_ONES ALL_ONES 0 0 65537 0.
Definition no_mount : VFSMountPoint := MkMount 0 0 0 0 0 0 0 0.
Definition toy_vfs : Vfs (Io unit unit) :=
  MkVfs (replicate 1024 no_file) [Some toy_type; None; None; None]
    (toy_mount :: replicate 15 no_mount) demo_io.
Definition toy_answer : lookup_fun := fun _ dir name => Some (toy_lookup dir name).

Lemma toy_wf : vfs_wf toy_vfs.
Proof. by split. Qed.

Lemma toy_mounts i m : zget (_vfs_mount toy_vfs) i = Some m -> m = toy_mount /\ i = 0 \/ m = no_mount.
Proof.
  unfold zget. destruct (Z.ltb_spec i 0); [done|]. cbn. destruct (Z.to_nat i) as [|n] eqn:E.
  - intros [= <-]. left. split; [done|lia].
  - intros Hl. right. change (replicate 15 no_mount !! n = Some m) in Hl.
    by apply lookup_replicate in Hl as [-> _].
Qed.

Lemma toy_answers : answers toy_vfs toy_answer.
Proof.
  intros i m Hz Hu. destruct (toy_mounts _ _ Hz) as [[-> _]| ->]; [|done].
  exists toy_type. split; [done|]. intros dir c st. cbn. unfold toy_lookup.
  destruct (_ && _); [done|]. destruct (_ && _); [done|]. split; [done|]. by exists st.
Qed.

Lemma toy_path : Forall component_ok [[100]; [102]].
Proof. repeat constructor; done. Qed.

Lemma toy_root : find_mount is_root toy_vfs = Some 0.
Proof. reflexivity. Qed.

Lemma toy_walk : walk toy_vfs toy_answer 0 0 [100] [[102]] = Some (inr (0, toy_node 5 S_IFREG)).
Proof. by vm_compute. Qed.

Lemma toy_inode : inode_answer toy_vfs 0 5 (toy_node 5 S_IFREG).
Proof. exists toy_mount, toy_type. by split_and!. Qed.

Lemma toy_free : first_free_file toy_vfs 0.
Proof. split; [by exists no_file|]. intros j f Hj Hz%zget_lt_Some. lia. Qed.

Lemma resolv_ino_walk_witness :
  _resolv_ino 2 (toy_node 0 0) (render [[100]; [102]]) 0 toy_vfs = Ret ((0, Some (0, 5)), toy_vfs).
Proof.
  apply (resolv_ino_walk toy_vfs toy_answer 2 (toy_node 0 0) [100] [[102]] 0
    (inr (0, toy_node 5 S_IFREG)) toy_wf toy_answers toy_root toy_path); [cbn; lia|apply toy_walk].
Defined.

Lemma resolv_ino_refuses_witness :
  _resolv_ino 2 (toy_node 0 0) [] 0 toy_vfs = Ret ((- EINVAL, None), toy_vfs) /\
  (byte_at [100] 0 <> 0 -> byte_at [100] 0 <> SLASH ->
     _resolv_ino 2 (toy_node 0 0) [100] 0 toy_vfs = Ret ((- ENOENT, None), toy_vfs)) /\
  (find_mount is_root toy_vfs = None -> byte_at [100] 0 = SLASH ->
     _resolv_ino 2 (toy_node 0 0) [100] 0 toy_vfs = Ret ((- ENOENT, None), toy_vfs)).
Proof. apply (resolv_ino_refuses toy_vfs 2 (toy_node 0 0) [100] toy_wf). Defined.

Lemma vfs_open_correct_witness :
  vfs_open 2 (toy_node 0 0) (toy_node 0 0) (render [[100]; [102]]) 0 toy_vfs =
    Ret (0, opened_file toy_vfs 0 0 (toy_node 5 S_IFREG) toy_mount).
Proof.
  apply (vfs_open_correct toy_vfs toy_answer 2 (toy_node 0 0) (toy_node 0 0) [100] [[102]] 0 0 0
    (toy_node 5 S_IFREG) (toy_node 5 S_IFREG) toy_mount 0 toy_wf toy_answers toy_root toy_path);
    [cbn; lia|apply toy_walk|apply toy_inode|done|apply toy_free].
Defined.

Lemma vfs_open_close_witness :
  wp (let* fd := vfs_open 2 (toy_node 0 0) (toy_node 0 0) (render [[100]; [102]]) 0 in vfs_close fd)
     (fun r s' => r = 0 /\ first_free_file s' 0 /\ _vfs_mount s' = _vfs_mount toy_vfs /\
        forall j, j <> 0 -> zget (vfs_file s') j = zget (vfs_file toy_vfs) j) toy_vfs.
Proof.
  apply (vfs_open_close toy_vfs toy_answer 2 (toy_node 0 0) (toy_node 0 0) [100] [[102]] 0 0 0
    (toy_node 5 S_IFREG) (toy_node 5 S_IFREG) toy_mount 0 toy_wf toy_answers toy_root toy_path);
    [cbn; lia|apply toy_walk|apply toy_inode|done|apply toy_free|cbn; lia|done].
Defined.

Lemma vfs_close_device_fault_witness :
  (let* fd := vfs_open_device 65537 0 in vfs_close fd) toy_vfs = Fault.
Proof.
  apply (vfs_close_device_fault toy_vfs 0 no_file 65537 0 toy_wf toy_free); [done|].
  unfold MAX_MOUNT_POINTS. lia.
Defined.

(** The state with "/d/f" open as file 0, and with "/d" open as file 0. *)
Definition toy_open : Vfs (Io unit unit) := opened_file toy_vfs 0 0 (toy_node 5 S_IFREG) toy_mount.
Definition toy_open_dir : Vfs (Io unit unit) := opened_file toy_vfs 0 0 (toy_node 2 S_IFDIR) toy_mount.

Lemma toy_open_wf x : vfs_wf (opened_file toy_vfs 0 0 x toy_mount).
Proof. by split. Qed.

Lemma toy_regular : regular toy_open (open_entry 0 (toy_node 5 S_IFREG)) [10; 20; 30].
Proof.
  split_and!; try done. exists (set_open_files 1 toy_mount), toy_type. by split_and!.
Qed.

Lemma vfs_read_correct_witness :
  vfs_read true 0 2 toy_open = Ret ((2, [10; 20]),
    set_files (zset (vfs_file toy_open) 0 (set_pos 2 (open_entry 0 (toy_node 5 S_IFREG)))) toy_open).
Proof.
  apply (vfs_read_correct true toy_open 0 _ [10; 20; 30] 2 (toy_open_wf _) eq_refl toy_regular); cbn; lia.
Defined.

Lemma vfs_read_sequential_witness :
  (let* ' (n1, l1) := vfs_read true 0 2 in
   let* ' (n2, l2) := vfs_read true 0 5 in ret (n1 + n2, l1 ++ l2)) toy_open
  = vfs_read true 0 7 toy_open.
Proof.
  apply (vfs_read_sequential true toy_open 0 _ [10; 20; 30] 2 5 (toy_open_wf _) eq_refl toy_regular);
    cbn; lia.
Defined.

Lemma vfs_read_directory_repeats_witness :
  vfs_read_directory 0 2 toy_open_dir =
    Ret ((2, [Dirent 5 S_IFREG [102]; Dirent 5 S_IFREG [102]]), toy_open_dir).
Proof.
  apply (vfs_read_directory_repeats toy_open_dir 0 (open_entry 0 (toy_node 2 S_IFDIR)) 2
    (set_open_files 1 toy_mount) toy_type 1032 (Dirent 5 S_IFREG [102]) (toy_open_wf _)); done.
Defined.

Lemma vfs_fs_register_correct_witness :
  wp (vfs_fs_register toy_type) (fun r s' =>
    (has_type toy_vfs [116; 111; 121] /\ r = - EEXIST /\ s' = toy_vfs) \/
    (~ has_type toy_vfs [116; 111; 121] /\ (forall i, zget (_vfs_type toy_vfs) i <> Some None) /\
       r = - ENOMEM /\ s' = toy_vfs) \/
    (~ has_type toy_vfs [116; 111; 121] /\ zget (_vfs_type toy_vfs) r = Some None /\
       s' = set_types (zset (_vfs_type toy_vfs) r (Some toy_type)) toy_vfs)) toy_vfs.
Proof. apply (vfs_fs_register_correct toy_vfs toy_type toy_wf). Defined.
