(* ===== verification/RootFs.v ===== *)
(** The ROM file system under the VFS: [fs_romfs_init] of
    [kernel/modules/fs/romfs.c], which registers the operations of [Romfs] as a
    file system type of [Vfs], and what a client of the VFS then sees of an
    image. *)

From Stdlib Require Import String.
From S2P Require Import Prelude CString Types Process Device Chardev Romfs Vfs.

(** * The state below the VFS *)

Record Kfs (D W : Type) : Type := MkKfs {
  k_romfs : list Instance;
  k_io : Io D W;
}.
Arguments MkKfs {_ _} _ _.
Arguments k_romfs {_ _} _.
Arguments k_io {_ _} _.

#[export] Instance kfs_io {D W} : Lens (Kfs D W) (Io D W) :=
  { lget := k_io; lset i k := MkKfs (k_romfs k) i }.
#[export] Instance kfs_romfs {D W} : Lens (Kfs D W) (Romfs D) :=
  { lget k := MkRomfs (k_romfs k) (io_devices (k_io k));
    lset r k := MkKfs (_instance r) (MkIo (rf_devices r) (io_procs (k_io k))) }.
#[export] Instance kfs_io_laws {D W} : LensLaws (Kfs D W) (Io D W).
Proof. split; try done. by intros []. Qed.
#[export] Instance kfs_romfs_laws {D W} : LensLaws (Kfs D W) (Romfs D).
Proof. split; [by intros [] ?|done|by intros [? []]]. Qed.

Section init.
Context {D W : Type}.

(** [stk n] is what a buffer of [n] bytes on the stack happens to hold. *)
Definition romfs_type (fuel : nat) (stk : nat -> list Z) : VFSFSType (Kfs D W) :=
  MkFSType (zstr "romfs")
    (fun dev => on (fs_romfs_mount (stk 512%nat) dev))
    (fun instance inode fname s =>
       on (fs_romfs_stat fuel (stk 1041%nat) (stk 16%nat) instance inode fname s))
    (fun instance inode s => on (fs_romfs_stat_inode (stk 16%nat) instance inode s))
    (fun instance inode bytes offset => on (fs_romfs_read (stk 16%nat) instance inode bytes offset))
    (fun instance inode pos =>
       on (fs_romfs_read_directory fuel (stk 1041%nat) instance inode pos)).

Definition fs_romfs_init (fuel : nat) (stk : nat -> list Z) : M (Vfs (Kfs D W)) Z :=
  vfs_fs_register (romfs_type fuel stk).

End init.

(** * What the VFS sees of an image *)

Definition name_ok (c : list Z) : Prop :=
  c <> [] /\ bytes_ok c /\ Z.of_nat (length c) <= NAME_MAX.
#[export] Instance name_ok_dec c : Decision (name_ok c).
Proof. unfold name_ok, bytes_ok. apply _. Defined.

(** A file of the image that can be read: a regular file with a short name
    whose data are in the image. *)
Record file_ok (img : list Z) (n : Z) : Prop := {
  file_node : node_ok img n;
  file_type : Z.land (img_type img n) 7 = 2;
  file_name : Z.of_nat (length (img_name img n)) < 256;
  file_end : data_start img n + img_size img n <= Z.of_nat (length img);
}.

Lemma regular_mode byte special :
  Z.land byte 7 = 2 ->
  let m := fst (_byte_to_mode byte special) in
  S_ISBLK m || S_ISCHR m = false /\ S_ISDIR m = false /\ S_ISREG m = true.
Proof. intros Hb. unfold _byte_to_mode. rewrite Hb. cbn -[Z.lor Z.land]. by destruct (negb _). Qed.

Section image.
Context {D W : Type}.
Variables (fuel : nat) (stk : nat -> list Z).
Hypothesis Hstk : forall n, length (stk n) = n.
Implicit Types s : Vfs (Kfs D W).

Variables (q dev root blk : Z) (img : list Z).
(** The entries of the directories that are known to be well formed. *)
Variable dirs : Z -> option (list Z).
Hypothesis Hdirs : forall dir l,
  dirs dir = Some l -> dir_entries img root (u32 (dir + root)) l /\ (length l < fuel)%nat.

(** Mount point [mp] holds the image's file system. *)
Record rom_mounted s (mp : Z) : Prop := {
  rm_wf : vfs_wf s;
  rm_image : mounted (lget (fsw s)) q dev root blk img;
  rm_types : forall j m, zget (_vfs_mount s) j = Some m -> mp_used m <> 0 ->
    exists t, zget (_vfs_type s) (mounted_fs m) = Some (Some t);
  rm_mount : exists m, zget (_vfs_mount s) mp = Some m /\ mounted_instance m = q /\
    zget (_vfs_type s) (mounted_fs m) = Some (Some (romfs_type fuel stk));
}.

(** The answers that follow from the image. *)
Definition rom_answer (mp : Z) : lookup_fun := fun j dir c =>
  if decide (j = mp /\ name_ok c) then
    l ← dirs dir;
    Some (match by_name img c l with
          | Some n => inr (node_stat dev root blk img n)
          | None => inl (- ENOENT)
          end)
  else None.

Lemma rom_answers s mp : rom_mounted s mp -> answers s (rom_answer mp).
Proof.
  intros [Hw Himg Ht (m0 & Hm0 & Hq & Ht0)] j m Hz Hu. unfold rom_answer.
  destruct (decide (j = mp)) as [->|Hj].
  - assert (m0 = m) as -> by congruence. exists (romfs_type fuel stk). split; [done|].
    intros dir c st. destruct (decide _) as [[_ (Hne & Hb & Hl)]|]; [|done].
    destruct (dirs dir) as [l|] eqn:Hd; [|done]. cbn [mbind option_bind].
    pose proof (Hdirs _ _ Hd) as Hd'. destruct Hd' as [Hde Hf]. cbn [_stat romfs_type]. rewrite Hq.
    pose proof (romfs_stat_correct_lemma (lget (fsw s)) q dev root blk img Himg fuel (stk 1041%nat)
      (stk 16%nat) dir l c st Hde Hne Hb Hl (Hstk _) (Hstk _) Hf) as Hs.
    destruct (by_name img c l) as [n|].
    + apply on_eq_id. exact Hs.
    + split; [done|]. exists st. apply on_eq_id. exact Hs.
  - destruct (Ht _ _ Hz Hu) as [t Ht']. exists t. split; [done|]. intros dir c st.
    rewrite decide_False by (by intros [? _]). done.
Qed.

(** What a regular file of the image is to the VFS. *)
Lemma rom_file s mp n : rom_mounted s mp -> file_ok img n ->
  let x := node_stat dev root blk img n in
  S_ISBLK (st_mode x) || S_ISCHR (st_mode x) = false /\ inode_answer s mp (st_ino x) x /\
  st_size x = Z.of_nat (length (file_data img n)) /\ st_size x < 2 ^ 30.
Proof.
  intros [Hw Himg Ht (m & Hm & Hq & Ht0)] [Hn Hty Hnl Hend] x. pose proof (node_size _ _ Hn) as Hsz.
  destruct (regular_mode (img_type img n) (img_special img n) Hty) as (Hdev & _ & _).
  split; [exact Hdev|]. split; [|split; [|apply Hsz]].
  - exists m, (romfs_type fuel stk). split_and!; [done|done|]. intros st. rewrite Hq.
    pose proof (mt_root _ _ _ _ _ _ Himg). apply on_eq_id, stat_inode_eq; [done|done|apply Hstk|lia].
  - cbn [st_size x node_stat]. unfold file_data, window. rewrite length_take, length_drop.
    assert (0 <= data_start img n).
    { unfold data_start. pose proof (node_range _ _ Hn).
      pose proof (Z.div_pos (Z.of_nat (length (img_name img n))) 16). lia. }
    lia.
Qed.

(** An open file of the image; opening changes the tables of the VFS, but not
    what is mounted. *)
Lemma rom_regular s s1 mp n m1 : rom_mounted s mp -> file_ok img n -> 0 <= root ->
  fsw s1 = fsw s -> _vfs_type s1 = _vfs_type s -> zget (_vfs_mount s1) mp = Some m1 ->
  (forall m, zget (_vfs_mount s) mp = Some m -> mounted_fs m1 = mounted_fs m /\ mounted_instance m1 = mounted_instance m) ->
  regular s1 (open_entry mp (node_stat dev root blk img n)) (file_data img n).
Proof.
  intros Hrm Hfile Hr Hfs Hty1 Hm1 Hsame. destruct (rom_file s mp n Hrm Hfile) as (Hdev & _ & Hlen & Hsz).
  destruct Hrm as [Hw Himg Ht (m & Hm & Hq & Ht0)]. destruct Hfile as [Hn Hty Hnl Hend].
  destruct (Hsame m Hm) as [Hmf Hmi]. pose proof (mt_img _ _ _ _ _ _ Himg) as [_ Himglen].
  destruct (regular_mode (img_type img n) (img_special img n) Hty) as (_ & Hdir & _).
  set (x := node_stat dev root blk img n) in *. change (fst _) with (st_mode x) in Hdir.
  pose proof (zget_lt_Some _ _ _ Hm) as Hmr. rewrite (vwf_mounts _ Hw) in Hmr.
  assert (data_instance (open_entry mp x) = mp) as Hinst.
  { unfold data_instance, open_entry. cbn [data_word]. rewrite Hdev. unfold MAX_MOUNT_POINTS in *.
    by rewrite s32_small by lia. }
  unfold regular. rewrite Hinst. split; [done|]. split; [exact Hdev|]. split.
  { unfold open_entry. cbn [f_directory]. by rewrite Hdev, Hdir. }
  split; [done|]. exists m1, (romfs_type fuel stk). rewrite Hmf, Hty1. split_and!; [done|done|].
  intros cnt off Hcnt Hoff. cbn [_read romfs_type]. rewrite Hmi, Hq, Hfs.
  apply on_eq_id. apply (romfs_read_correct_lemma _ q dev root blk img Himg); try done; [|cbn in Hsz, Hlen; lia].
  unfold x. cbn [data_inode open_entry st_ino node_stat]. unfold u32. rewrite Z.add_mod_idemp_l by lia.
  pose proof (node_range _ _ Hn). rewrite Z.mod_small; lia.
Qed.

(** C8. Reading a file of the image through the VFS: when the walk along a path
    ends at a regular file of the image, opening the path and reading [count]
    bytes from the new descriptor returns the first [count] bytes of the
    file's data in the image. *)
Theorem rootfs_open_read s mp c cs n st0 st1 block flags fd count :
  rom_mounted s mp -> find_mount is_root s = Some mp -> 0 <= root -> 
  Forall component_ok (c :: cs) -> (length cs < fuel)%nat ->
  walk s (rom_answer mp) mp 0 c cs = Some (inr (mp, node_stat dev root blk img n)) ->
  file_ok img n -> first_free_file s fd -> 0 <= count < 2 ^ 31 ->
  wp (let* fd := vfs_open fuel st0 st1 (render (c :: cs)) flags in vfs_read block fd count)
     (fun '(r, bytes) _ =>
        bytes = take (Z.to_nat count) (file_data img n) /\ r = Z.of_nat (length bytes)) s.
Proof.
  intros Hrm Hroot Hr Hcs Hf Hwalk Hfile Hfree Hcount.
  pose proof (rom_answers s mp Hrm) as Ha. destruct (rom_file s mp n Hrm Hfile) as (Hdev & Hino & Hlen & Hsz).
  set (x := node_stat dev root blk img n) in *.
  pose proof Hrm as [Hw _ _ (m & Hm & _)]. rewrite wp_bind. eapply wp_eq; [by eapply vfs_open_eq|].
  pose proof Hfree as [(fx & Hfx & _) _]. set (s1 := opened_file s fd mp x m).
  assert (vfs_wf s1) as Hw1.
  { destruct Hw as [Hw1 Hw2 Hw3]. split; cbn; [by rewrite length_zset|done|by rewrite length_zset]. }
  assert (zget (vfs_file s1) fd = Some (open_entry mp x)) as Hfd by (cbn; by eapply zget_zset_eq, zget_lt_Some).
  assert (regular s1 (open_entry mp x) (file_data img n)) as Hreg.
  { eapply (rom_regular s s1 mp n); try done; [cbn; by eapply zget_zset_eq, zget_lt_Some|].
    intros m' Hm'. assert (m' = m) as -> by congruence. done. }
  eapply wp_eq; [apply (vfs_read_eq block s1 fd (open_entry mp x) (file_data img n)); try done; cbn; lia|].
  cbn zeta. cbn [f_pos open_entry]. split; [|done]. unfold slice. cbn [Z.to_nat]. by rewrite drop_0.
Qed.

End image.

(** * Witness *)

(** The image of [Romfs] on a ROM device, mounted as the root. *)
Definition demo_kfs : Kfs unit unit :=
  MkKfs (_instance (demo_romfs demo_img)) (MkIo (rom_device demo_img) demo).
Definition demo_rootfs : Vfs (Kfs unit unit) :=
  MkVfs (replicate 1024 no_file) [Some (romfs_type 3 stk); None; None; None]
    (MkMount 1 0 ALL_ONES ALL_ONES 0 0 65537 0 :: replicate 15 no_mount) demo_kfs.
Definition demo_dirs (dir : Z) : option (list Z) := if dir =? 0 then Some [2] else None.

Lemma demo_mounts i m :
  zget (_vfs_mount demo_rootfs) i = Some m -> mp_used m <> 0 -> m = MkMount 1 0 ALL_ONES ALL_ONES 0 0 65537 0.
Proof.
  unfold zget. destruct (Z.ltb_spec i 0); [done|]. destruct (Z.to_nat i) as [|n] eqn:E.
  - by intros [= <-].
  - intros Hl. change (replicate 15 no_mount !! n = Some m) in Hl. by apply lookup_replicate in Hl as [-> _].
Qed.

Lemma demo_rom_mounted : rom_mounted 3 stk 0 65537 2 512 demo_img demo_rootfs 0.
Proof.
  split.
  - by split.
  - exact (demo_mounted demo_img eq_refl).
  - intros j m Hz Hu. rewrite (demo_mounts _ _ Hz Hu). by eexists.
  - eexists. by split_and!.
Qed.

Lemma rootfs_open_read_witness :
  wp (let* fd := vfs_open 3 (toy_node 0 0) (toy_node 0 0) (render [zstr "a"]) 0 in vfs_read true fd 100)
     (fun '(r, bytes) _ => bytes = take (Z.to_nat 100) (file_data demo_img 2) /\ r = Z.of_nat (length bytes))
     demo_rootfs.
Proof.
  apply (rootfs_open_read 3 stk (fun n => length_replicate n 170) 0 65537 2 512 demo_img demo_dirs)
    with (mp := 0) (fd := 0).
  - intros dir l. unfold demo_dirs. destruct (Z.eqb_spec dir 0) as [->|]; [|done]. intros [= <-].
    split; [apply demo_dir|cbn; lia].
  - apply demo_rom_mounted.
  - reflexivity.
  - done.
  - repeat constructor; done.
  - cbn. lia.
  - by vm_compute.
  - split; [apply demo_node|by vm_compute..].
  - split; [by eexists|]. intros j f Hj Hz%zget_lt_Some. lia.
  - done.
Defined.

Example demo_file_data : file_data demo_img 2 = zstr "hello".
Proof. by vm_compute. Qed.
