(* ===== verification/Console.v ===== *)
(** The console and its escape sequences: [kernel/modules/chardev/console.c],
    [console.h].

    The output device is a [ConsoleBackend], a record of operations on a state
    [B]; the frame buffer of [FbCon] is one. *)

From S2P Require Import Prelude CString.

(** * Data *)

Inductive ParseState : Type :=
| PARSE_STATE_ASCII
| PARSE_STATE_ESC
| PARSE_STATE_CSI
| PARSE_STATE_CSI_ARG.

Definition CONSOLE_COLOR_BLACK : Z := 0.
Definition CONSOLE_COLOR_LIGHT_GRAY : Z := 7.

Inductive ConsoleClearDirection : Type :=
| CONSOLE_CLEAR_DIRECTION_FORWARD
| CONSOLE_CLEAR_DIRECTION_BACKWARD
| CONSOLE_CLEAR_DIRECTION_BOTH.

Record ConsoleBackend (B : Type) : Type := MkBackend {
  be_putc : Z -> Z -> Z -> M B unit;
  be_set_cursor : Z -> Z -> M B unit;
  be_get_cursor : M B (Z * Z);
  be_clear_lines : ConsoleClearDirection -> M B unit;
  be_clear_on_line : ConsoleClearDirection -> M B unit;
  be_scroll_up : Z -> M B unit;
  be_scroll_down : Z -> M B unit;
}.
Arguments MkBackend {_} _ _ _ _ _ _ _.
Arguments be_putc {_} _ _ _ _.
Arguments be_set_cursor {_} _ _ _.
Arguments be_get_cursor {_} _.
Arguments be_clear_lines {_} _ _.
Arguments be_clear_on_line {_} _ _.
Arguments be_scroll_up {_} _ _.
Arguments be_scroll_down {_} _ _.

(** [parse_state]: [arg] has ten entries. *)
Record Parse : Type := MkParse {
  state : ParseState;
  arg : list Z;
  argc : Z;
  acc : Z;                 (* a *)
}.

Record Attr : Type := MkAttr {
  bold : bool;
  color_fg : Z;
  color_bg : Z;
}.

Record Console (B : Type) : Type := MkConsole {
  parse_state : Parse;
  backend : option (ConsoleBackend B);
  attr : Attr;
  saved_cursor : Z * Z;
  out : B;
}.
Arguments MkConsole {_} _ _ _ _ _.
Arguments parse_state {_} _.
Arguments backend {_} _.
Arguments attr {_} _.
Arguments saved_cursor {_} _.
Arguments out {_} _.

Section ops.
Context {B : Type}.
Implicit Types s : Console B.

Definition set_parse (p : Parse) s : Console B :=
  MkConsole p (backend s) (attr s) (saved_cursor s) (out s).
Definition set_attr (a : Attr) s : Console B :=
  MkConsole (parse_state s) (backend s) a (saved_cursor s) (out s).
Definition set_saved (c : Z * Z) s : Console B :=
  MkConsole (parse_state s) (backend s) (attr s) c (out s).
Definition set_out (b : B) s : Console B :=
  MkConsole (parse_state s) (backend s) (attr s) (saved_cursor s) b.

(** A call through [_console.backend]. *)
Definition be_call {A} (f : ConsoleBackend B -> M B A) : M (Console B) A :=
  let* o := gets backend in
  let* be := need o in
  zoom out set_out (f be).

(** * Control sequences *)

(** One argument of the attribute command. *)
Definition sgr (x : Z) (a : Attr) : Attr :=
  if x =? 0 then MkAttr false CONSOLE_COLOR_LIGHT_GRAY CONSOLE_COLOR_BLACK
  else if x =? 1 then MkAttr true (color_fg a) (color_bg a)
  else if x =? 22 then MkAttr false (color_fg a) (color_bg a)
  else if (30 <? x) && (x <? 38) then MkAttr (bold a) (x - 30) (color_bg a)
  else if x =? 39 then MkAttr (bold a) CONSOLE_COLOR_LIGHT_GRAY (color_bg a)
  else if (40 <? x) && (x <? 48) then MkAttr (bold a) (color_fg a) (x - 40)
  else if x =? 49 then MkAttr (bold a) (color_fg a) CONSOLE_COLOR_BLACK
  else a.

(** The direction that the argument of an erase command selects. *)
Definition erase_direction (argc arg0 : Z) : ConsoleClearDirection :=
  if (argc =? 0) || (arg0 =? 0) then CONSOLE_CLEAR_DIRECTION_FORWARD
  else if arg0 =? 1 then CONSOLE_CLEAR_DIRECTION_BACKWARD
  else CONSOLE_CLEAR_DIRECTION_BOTH.

Definition _csi (cmd argc : Z) (arg : list Z) : M (Console B) unit :=
  let* arg0 := need (zget arg 0) in
  let delta := if (0 <? argc) && (0 <? arg0) then arg0 else 1 in
  let* ' (x, y) := be_call be_get_cursor in
  let set_cursor x y := be_call (fun be => be_set_cursor be (u32 x) (u32 y)) in
  if cmd =? 65 (* A *) then when (negb (y =? 0)) (set_cursor x (y - delta))
  else if cmd =? 66 (* B *) then set_cursor x (y + delta)
  else if cmd =? 67 (* C *) then set_cursor (x + delta) y
  else if cmd =? 68 (* D *) then when (negb (x =? 0)) (set_cursor (x - delta) y)
  else if cmd =? 69 (* E *) then set_cursor 0 (y + delta)
  else if cmd =? 70 (* F *) then
    let y := if y =? 0 then 1 else y in set_cursor 0 (y - delta)
  else if cmd =? 71 (* G *) then set_cursor (delta - 1) y
  else if (cmd =? 102) || (cmd =? 72) (* f H *) then
    when (argc =? 0) (set_cursor 1 1) ;;
    if argc =? 1 then set_cursor x (delta - 1)
    else let* arg1 := need (zget arg 1) in
         set_cursor (if 0 <? arg1 then arg1 - 1 else 0) (delta - 1)
  else if cmd =? 74 (* J *) then be_call (fun be => be_clear_lines be (erase_direction argc arg0))
  else if cmd =? 75 (* K *) then be_call (fun be => be_clear_on_line be (erase_direction argc arg0))
  else if cmd =? 83 (* S *) then be_call (fun be => be_scroll_up be delta)
  else if cmd =? 84 (* T *) then be_call (fun be => be_scroll_down be delta)
  else if cmd =? 115 (* s *) then modify (set_saved (x, y))
  else if cmd =? 117 (* u *) then
    let* c := gets saved_cursor in set_cursor (fst c) (snd c)
  else if cmd =? 109 (* m *) then
    if argc =? 0 then
      modify (set_attr (MkAttr false CONSOLE_COLOR_LIGHT_GRAY CONSOLE_COLOR_BLACK))
    else
      let* _ := for_range (R := unit) (Z.to_nat argc) 0 (fun i =>
        let* x := need (zget arg i) in
        let* a := gets attr in
        modify (set_attr (sgr x a)) ;; ret None) in
      ret tt
  else ret tt.

(** * The parser *)

Definition set_parse_state (x : ParseState) : M (Console B) unit :=
  modify (fun s => let p := parse_state s in set_parse (MkParse x (arg p) (argc p) (acc p)) s).

(** [arg[argc] = v; if (argc < 10) argc++; a = 0].  A store to [arg[10]] is out
    of bounds. *)
Definition push_arg (v : Z) : M (Console B) unit :=
  let* p := gets parse_state in
  let* _ := need (zget (arg p) (argc p)) in
  modify (set_parse (MkParse (state p) (zset (arg p) (argc p) v)
            (if argc p <? 10 then argc p + 1 else argc p) 0)).

(** The end of a control sequence with the command [c]. *)
Definition run_csi (c : Z) : M (Console B) unit :=
  set_parse_state PARSE_STATE_ASCII ;;
  let* p := gets parse_state in _csi c (argc p) (arg p).

Definition csi_arg_char (c : Z) : M (Console B) unit :=
  let* p := gets parse_state in
  if c =? 59 (* ; *) then push_arg (acc p) ;; set_parse_state PARSE_STATE_CSI
  else if isdigit c =? 0 then push_arg (acc p) ;; run_csi c
  else modify (set_parse (MkParse (state p) (arg p) (argc p) (s32 (s32 (acc p * 10) + (c - 48))))).

(** One iteration of [_write]; [b] is the byte, [c] the [char]. *)
Definition write_char (b : Z) : M (Console B) unit :=
  let c := s8 b in
  let* p := gets parse_state in
  match state p with
  | PARSE_STATE_ASCII =>
      if c =? 27 then set_parse_state PARSE_STATE_ESC else
      let* a := gets attr in
      be_call (fun be => be_putc be c (u32 (color_fg a + (if bold a then 8 else 0))) (color_bg a))
  | PARSE_STATE_ESC =>
      if c =? 91 (* [ *) then modify (set_parse (MkParse PARSE_STATE_CSI (arg p) 0 0))
      else set_parse_state PARSE_STATE_ASCII
  | PARSE_STATE_CSI =>
      if c =? 59 then push_arg (-1)
      else if isdigit c =? 0 then push_arg (-1) ;; run_csi c
      else set_parse_state PARSE_STATE_CSI_ARG ;; csi_arg_char c
  | PARSE_STATE_CSI_ARG => csi_arg_char c
  end.

Fixpoint _write (buf : list Z) : M (Console B) Z :=
  match buf with
  | [] => ret 0
  | b :: buf' => write_char b ;; let* n := _write buf' in ret (n + 1)
  end.

Definition console_init (be : ConsoleBackend B) : M (Console B) unit :=
  modify (fun s => MkConsole (parse_state s) (Some be) (attr s) (saved_cursor s) (out s)).

End ops.

(** * Rendered sequences *)

(** The decimal digits of a number. *)
Definition digit_chars (ds : list Z) : list Z := (fun d => d + 48) <$> ds.
Definition digits_value (ds : list Z) : Z := fold_left (fun a d => a * 10 + d) ds 0.

(** A parameter: its digits, none for an empty parameter. *)
Definition param_value (ds : list Z) : Z := match ds with [] => -1 | _ => digits_value ds end.
Definition param_ok (ds : list Z) : Prop :=
  Forall (fun d => 0 <= d <= 9) ds /\ (length ds <= 9)%nat.

(** "p1;p2;...;pn" and the whole sequence. *)
Fixpoint params_text (ps : list (list Z)) : list Z :=
  match ps with
  | [] => []
  | [p] => digit_chars p
  | p :: ps' => digit_chars p ++ 59 :: params_text ps'
  end.
Definition sequence (ps : list (list Z)) (cmd : Z) : list Z := 27 :: 91 :: params_text ps ++ [cmd].

(** A final character: an ASCII character that is neither a digit nor [;]. *)
Definition final_ok (cmd : Z) : Prop := 0 <= cmd < 128 /\ isdigit cmd = 0 /\ cmd <> 59.

(** * The parser on rendered sequences *)

Section correct.
Context {B : Type}.
Implicit Types s : Console B.

(** [_write] without its result. *)
Fixpoint write_all (buf : list Z) : M (Console B) unit :=
  match buf with
  | [] => ret tt
  | b :: buf' => write_char b ;; write_all buf'
  end.

Lemma write_all_app a b s : write_all (a ++ b) s = (write_all a ;; write_all b) s.
Proof.
  revert s. induction a as [|c a IH]; intros s; [done|]. cbn [write_all app]. rewrite bind_assoc.
  unfold bind at 1 2. destruct (write_char c s) as [[[] s']| | |]; [apply IH|done..].
Qed.

Lemma write_eq buf s : _write buf s = (write_all buf ;; ret (Z.of_nat (length buf))) s.
Proof.
  revert s. induction buf as [|b buf IH]; intros s; [done|]. cbn [_write write_all length].
  rewrite bind_assoc. unfold bind at 1 3. destruct (write_char b s) as [[[] s']| | |]; [|done..].
  unfold bind at 1. rewrite IH. unfold bind. destruct (write_all buf s') as [[[] s2]| | |]; [|done..].
  unfold ret. do 2 f_equal. lia.
Qed.

(** The state in the middle of a control sequence. *)
Definition at_parse s (st : ParseState) (arg : list Z) (n a : Z) : Console B :=
  set_parse (MkParse st arg n a) s.

Lemma at_parse_twice s st arg n a st' arg' n' a' :
  at_parse (at_parse s st arg n a) st' arg' n' a' = at_parse s st' arg' n' a'.
Proof. reflexivity. Qed.

Lemma csi_digit d : 0 <= d <= 9 -> s8 (d + 48) = d + 48 /\ isdigit (d + 48) = 1 /\ (d + 48 =? 59) = false.
Proof.
  intros Hd. split; [|split].
  - unfold s8. rewrite Z.mod_small; lia.
  - unfold isdigit. destruct (Z.leb_spec 48 (d + 48)), (Z.leb_spec (d + 48) 57); try lia. done.
  - lia.
Qed.

Definition value_from (a : Z) (ds : list Z) : Z := fold_left (fun a d => a * 10 + d) ds a.

Lemma value_from_range k ds a :
  Forall (fun d => 0 <= d <= 9) ds -> 0 <= a < 10 ^ Z.of_nat k ->
  0 <= value_from a ds < 10 ^ Z.of_nat (k + length ds).
Proof.
  intros Hds. revert k a. induction Hds as [|d ds Hd _ IH]; intros k a Ha; cbn [length].
  - by rewrite Nat.add_0_r.
  - rewrite <- Nat.add_succ_comm. apply (IH (S k)).
    rewrite Nat2Z.inj_succ, Z.pow_succ_r by lia. lia.
Qed.

(** Digits are accumulated. *)
Lemma write_digits k ds a st arg n s :
  Forall (fun d => 0 <= d <= 9) ds -> 0 <= a < 10 ^ Z.of_nat k -> (k + length ds <= 9)%nat ->
  st = PARSE_STATE_CSI_ARG \/ (st = PARSE_STATE_CSI /\ ds <> []) ->
  write_all (digit_chars ds) (at_parse s st arg n a) =
    Ret (tt, at_parse s PARSE_STATE_CSI_ARG arg n (value_from a ds)).
Proof.
  intros Hds. revert k a st. induction Hds as [|d ds Hd Hds IH]; intros k a st Ha Hk Hst.
  - destruct Hst as [->|[_ ?]]; done.
  - destruct (csi_digit d Hd) as (H8 & Hdig & H59). cbn [digit_chars fmap list_fmap write_all].
    assert (write_char (d + 48) (at_parse s st arg n a) =
      Ret (tt, at_parse s PARSE_STATE_CSI_ARG arg n (a * 10 + d))) as Hc.
    { assert (10 ^ Z.of_nat k <= 10 ^ 8) as Hp by (apply Z.pow_le_mono_r; cbn in Hk; lia).
      assert (s32 (s32 (a * 10) + (d + 48 - 48)) = a * 10 + d) as Hv
        by (rewrite (s32_small (a * 10)), s32_small by lia; lia).
      unfold write_char. rewrite H8.
      destruct Hst as [->|[-> _]]; unfold bind at 1, gets at 1; cbn [parse_state at_parse set_parse Console.state].
      - unfold csi_arg_char, bind, gets. rewrite H59, Hdig. cbn. by rewrite Hv.
      - rewrite H59, Hdig. cbn. unfold csi_arg_char, bind, gets. rewrite H59, Hdig. cbn. by rewrite Hv. }
    rewrite (bind_Ret _ _ _ _ _ Hc). apply (IH (S k)); [|cbn in Hk; lia|by left].
    rewrite Nat2Z.inj_succ, Z.pow_succ_r by lia. lia.
Qed.

Lemma zset_push (vs old : list Z) v :
  (length vs < length old)%nat ->
  zset (vs ++ drop (length vs) old) (Z.of_nat (length vs)) v = (vs ++ [v]) ++ drop (length (vs ++ [v])) old.
Proof.
  intros Hl. unfold zset. rewrite Nat2Z.id, insert_app_r_alt, Nat.sub_diag by lia.
  rewrite length_app. cbn [length]. rewrite <- app_assoc. f_equal.
  destruct (drop (length vs) old) as [|x r] eqn:E.
  - apply (f_equal length) in E. rewrite length_drop in E. cbn in E. lia.
  - cbn. f_equal. rewrite <- drop_drop, E. done.
Qed.

Lemma push_arg_eq s st (vs old : list Z) a v :
  length old = 10%nat -> (length vs < 10)%nat ->
  push_arg v (at_parse s st (vs ++ drop (length vs) old) (Z.of_nat (length vs)) a) =
    Ret (tt, at_parse s st ((vs ++ [v]) ++ drop (length (vs ++ [v])) old) (Z.of_nat (length (vs ++ [v]))) 0).
Proof.
  intros Ho Hv. unfold push_arg, bind, gets. cbn [parse_state at_parse set_parse arg argc Console.state].
  destruct (zget_in_range (vs ++ drop (length vs) old) (Z.of_nat (length vs))) as [x Hx].
  { rewrite length_app, length_drop. lia. }
  rewrite Hx. cbn [need]. unfold ret, modify. rewrite zset_push by lia.
  destruct (Z.ltb_spec (Z.of_nat (length vs)) 10); [|lia].
  rewrite length_app. cbn [length]. replace (Z.of_nat (length vs) + 1) with (Z.of_nat (length vs + 1)) by lia.
  done.
Qed.

Lemma push_arg_full s st (arg : list Z) a v :
  length arg = 10%nat -> push_arg v (at_parse s st arg 10 a) = Fault.
Proof.
  intros Ha. unfold push_arg, bind, gets. cbn [parse_state at_parse set_parse Console.arg argc].
  rewrite (proj2 (zget_None _ _)); [done|]. lia.
Qed.

(** A parameter and the character after it: the value is pushed. *)
Lemma write_param ds c (vs old : list Z) s (k : M (Console B) unit) :
  param_ok ds -> length old = 10%nat -> (length vs < 10)%nat -> 0 <= c < 128 -> isdigit c = 0 ->
  k = (if c =? 59 then set_parse_state PARSE_STATE_CSI else run_csi c) ->
  write_all (digit_chars ds ++ [c])
    (at_parse s PARSE_STATE_CSI (vs ++ drop (length vs) old) (Z.of_nat (length vs)) 0) =
  (k ;; ret tt) (at_parse s (match ds with [] => PARSE_STATE_CSI | _ => PARSE_STATE_CSI_ARG end)
    ((vs ++ [param_value ds]) ++ drop (length (vs ++ [param_value ds])) old)
    (Z.of_nat (length (vs ++ [param_value ds]))) 0).
Proof.
  intros [Hds Hl] Ho Hv Hc Hnd ->. rewrite write_all_app.
  assert (s8 c = c) as H8 by (unfold s8; rewrite Z.mod_small; lia).
  destruct ds as [|d ds].
  - unfold bind at 1. cbn [digit_chars fmap list_fmap write_all ret].
    unfold write_char. rewrite H8. rewrite bind_assoc. unfold bind at 1, gets at 1.
    cbn [parse_state at_parse set_parse Console.state]. rewrite Hnd. cbn [Z.eqb].
    destruct (Z.eqb_spec c 59) as [->|Hne].
    + rewrite (bind_Ret _ _ _ _ _ (push_arg_eq s _ vs old 0 (-1) Ho Hv)). reflexivity.
    + rewrite bind_assoc, (bind_Ret _ _ _ _ _ (push_arg_eq s _ vs old 0 (-1) Ho Hv)). reflexivity.
  - rewrite (bind_Ret _ _ _ _ _ (write_digits 0 (d :: ds) 0 PARSE_STATE_CSI
      (vs ++ drop (length vs) old) (Z.of_nat (length vs)) s Hds ltac:(cbn; lia) ltac:(cbn in *; lia)
      ltac:(right; done))).
    cbn [write_all]. unfold write_char. rewrite H8. rewrite bind_assoc. unfold bind at 1, gets at 1.
    cbn [parse_state at_parse set_parse Console.state]. unfold csi_arg_char. rewrite bind_assoc.
    unfold bind at 1, gets at 1. cbn [parse_state at_parse set_parse acc]. rewrite Hnd. cbn [Z.eqb].
    destruct (Z.eqb_spec c 59) as [->|Hne].
    + rewrite bind_assoc, (bind_Ret _ _ _ _ _ (push_arg_eq s _ vs old _ _ Ho Hv)). reflexivity.
    + rewrite bind_assoc, (bind_Ret _ _ _ _ _ (push_arg_eq s _ vs old _ _ Ho Hv)). reflexivity.
Qed.

(** The arguments a sequence passes to its command. *)
Definition seq_args (ps : list (list Z)) (old : list Z) : list Z :=
  (param_value <$> ps) ++ drop (length ps) old.

Lemma write_params ps cmd (vs old : list Z) s :
  ps <> [] -> Forall param_ok ps -> final_ok cmd -> length old = 10%nat ->
  (length vs + length ps <= 10)%nat ->
  write_all (params_text ps ++ [cmd])
    (at_parse s PARSE_STATE_CSI (vs ++ drop (length vs) old) (Z.of_nat (length vs)) 0) =
  (let vs' := vs ++ (param_value <$> ps) in
   let args := vs' ++ drop (length vs') old in
   (_csi cmd (Z.of_nat (length vs')) args ;; ret tt)
     (at_parse s PARSE_STATE_ASCII args (Z.of_nat (length vs')) 0)).
Proof.
  intros Hne Hps (Hc & Hnd & H59) Ho. revert vs. induction Hps as [|p ps Hp Hps IH]; intros vs Hl; [done|].
  cbn [length] in Hl. destruct ps as [|p2 ps].
  - cbn [params_text]. rewrite (write_param p cmd vs old s _ Hp Ho ltac:(lia) Hc Hnd eq_refl).
    rewrite (proj2 (Z.eqb_neq _ _) H59). unfold run_csi. rewrite !bind_assoc. reflexivity.
  - change (params_text (p :: p2 :: ps)) with (digit_chars p ++ 59 :: params_text (p2 :: ps)).
    replace ((digit_chars p ++ 59 :: params_text (p2 :: ps)) ++ [cmd])
      with ((digit_chars p ++ [59]) ++ (params_text (p2 :: ps) ++ [cmd])) by (by rewrite <- !app_assoc).
    rewrite write_all_app.
    rewrite (bind_Ret _ _ tt _ (at_parse s PARSE_STATE_CSI ((vs ++ [param_value p]) ++
      drop (length (vs ++ [param_value p])) old) (Z.of_nat (length (vs ++ [param_value p]))) 0)).
    + cbn zeta in IH. rewrite (IH ltac:(done) (vs ++ [param_value p])); [|rewrite length_app; cbn in *; lia].
      cbn zeta. by rewrite <- !app_assoc.
    + rewrite (write_param p 59 vs old s _ Hp Ho ltac:(lia) ltac:(lia) eq_refl eq_refl). reflexivity.
Qed.

Lemma write_start s :
  Console.state (parse_state s) = PARSE_STATE_ASCII ->
  write_all [27; 91] s = Ret (tt, at_parse s PARSE_STATE_CSI (arg (parse_state s)) 0 0).
Proof. intros Hs. cbn [write_all]. unfold write_char at 1, bind, gets. rewrite Hs. reflexivity. Qed.

Lemma write_sequence ps cmd s :
  Console.state (parse_state s) = PARSE_STATE_ASCII -> length (arg (parse_state s)) = 10%nat ->
  ps <> [] -> Forall param_ok ps -> (length ps <= 10)%nat -> final_ok cmd ->
  _write (sequence ps cmd) s =
    (let args := seq_args ps (arg (parse_state s)) in
     (_csi cmd (Z.of_nat (length ps)) args ;; ret (Z.of_nat (length (sequence ps cmd))))
       (at_parse s PARSE_STATE_ASCII args (Z.of_nat (length ps)) 0)).
Proof.
  intros Hs Hl Hne Hps Hlen Hf. rewrite write_eq. set (n := Z.of_nat (length (sequence ps cmd))).
  change (sequence ps cmd) with ([27; 91] ++ (params_text ps ++ [cmd])).
  pose proof (write_params ps cmd [] (arg (parse_state s)) s Hne Hps Hf Hl ltac:(cbn; lia)) as Hp.
  cbn [app length] in Hp. rewrite drop_0, length_fmap in Hp. change (Z.of_nat 0) with 0 in Hp.
  unfold bind at 1. rewrite write_all_app, (bind_Ret _ _ _ _ _ (write_start s Hs)), Hp.
  fold (seq_args ps (arg (parse_state s))). cbn zeta. unfold bind.
  by destruct (_csi _ _ _ _) as [[[] ?]| | |].
Qed.

(** C21. The parser inverts the printer of control sequences: writing the text
    of a sequence with one to ten parameters runs its command exactly once,
    with the number of parameters and their values (-1 for an empty one), and
    ends ready for the next character. *)
Theorem write_sequence_correct ps cmd s :
  Console.state (parse_state s) = PARSE_STATE_ASCII -> length (arg (parse_state s)) = 10%nat ->
  ps <> [] -> Forall param_ok ps -> (length ps <= 10)%nat -> final_ok cmd ->
  _write (sequence ps cmd) s =
    (let args := seq_args ps (arg (parse_state s)) in
     (_csi cmd (Z.of_nat (length ps)) args ;; ret (Z.of_nat (length (sequence ps cmd))))
       (at_parse s PARSE_STATE_ASCII args (Z.of_nat (length ps)) 0)).
Proof. apply write_sequence. Qed.

(** Eleven parameters: the last is stored behind the array. *)
Lemma write_params_overflow ps cmd (vs old : list Z) s :
  Forall param_ok ps -> final_ok cmd -> length old = 10%nat ->
  (length vs <= 10)%nat -> (10 < length vs + length ps)%nat ->
  write_all (params_text ps ++ [cmd])
    (at_parse s PARSE_STATE_CSI (vs ++ drop (length vs) old) (Z.of_nat (length vs)) 0) = Fault.
Proof.
  intros Hps (Hc & Hnd & H59) Ho. revert vs. induction Hps as [|p ps [Hds Hdl] Hps IH]; intros vs Hv Hl.
  { cbn in Hl. lia. }
  destruct (decide (length vs = 10%nat)) as [H10|Hn10].
  - assert (exists c rest, params_text (p :: ps) ++ [cmd] = (digit_chars p ++ [c]) ++ rest /\
      s8 c = c /\ isdigit c = 0) as (c & rest & -> & H8 & Hcd).
    { destruct ps as [|p2 ps].
      - exists cmd, []. cbn [params_text]. rewrite app_nil_r. split_and!; [done| |done].
        unfold s8. rewrite Z.mod_small; lia.
      - exists 59, (params_text (p2 :: ps) ++ [cmd]). split_and!; [|done|done].
        change (params_text (p :: p2 :: ps)) with (digit_chars p ++ 59 :: params_text (p2 :: ps)).
        by rewrite <- !app_assoc. }
    rewrite write_all_app. apply bind_Fault. rewrite write_all_app, H10.
    set (args := vs ++ drop 10 old).
    assert (length args = 10%nat) as Ha by (unfold args; rewrite length_app, length_drop; lia).
    destruct p as [|d p].
    + unfold bind at 1. cbn [digit_chars fmap list_fmap write_all ret]. apply bind_Fault.
      unfold write_char. rewrite H8. unfold bind at 1, gets at 1.
      cbn [parse_state at_parse set_parse Console.state]. rewrite Hcd. cbn [Z.eqb].
      destruct (c =? 59); [|apply bind_Fault]; by apply push_arg_full.
    + rewrite (bind_Ret _ _ _ _ _ (write_digits 0 (d :: p) 0 PARSE_STATE_CSI args 10 s Hds
        ltac:(cbn; lia) ltac:(cbn in *; lia) ltac:(right; done))).
      cbn [write_all]. apply bind_Fault. unfold write_char. rewrite H8. unfold bind at 1, gets at 1.
      cbn [parse_state at_parse set_parse Console.state]. unfold csi_arg_char, bind at 1, gets at 1.
      rewrite Hcd. cbn [Z.eqb]. destruct (c =? 59); apply bind_Fault; by apply push_arg_full.
  - destruct ps as [|p2 ps]; [cbn in Hl; lia|].
    change (params_text (p :: p2 :: ps)) with (digit_chars p ++ 59 :: params_text (p2 :: ps)).
    replace ((digit_chars p ++ 59 :: params_text (p2 :: ps)) ++ [cmd])
      with ((digit_chars p ++ [59]) ++ (params_text (p2 :: ps) ++ [cmd])) by (by rewrite <- !app_assoc).
    rewrite write_all_app.
    rewrite (bind_Ret _ _ tt _ (at_parse s PARSE_STATE_CSI ((vs ++ [param_value p]) ++
      drop (length (vs ++ [param_value p])) old) (Z.of_nat (length (vs ++ [param_value p]))) 0)).
    + apply IH; rewrite length_app; cbn in *; lia.
    + rewrite (write_param p 59 vs old s _ (conj Hds Hdl) Ho ltac:(lia) ltac:(lia) eq_refl eq_refl).
      reflexivity.
Qed.

(** A control sequence with more than ten parameters writes behind the
    parameter array. *)
Theorem write_sequence_overflow ps cmd s :
  Console.state (parse_state s) = PARSE_STATE_ASCII -> length (arg (parse_state s)) = 10%nat ->
  Forall param_ok ps -> (10 < length ps)%nat -> final_ok cmd -> _write (sequence ps cmd) s = Fault.
Proof.
  intros Hs Hl Hps Hlen Hf. rewrite write_eq. apply bind_Fault.
  change (sequence ps cmd) with ([27; 91] ++ (params_text ps ++ [cmd])).
  rewrite write_all_app, (bind_Ret _ _ _ _ _ (write_start s Hs)).
  exact (write_params_overflow ps cmd [] (arg (parse_state s)) s Hps Hf Hl ltac:(cbn; lia) ltac:(cbn; lia)).
Qed.

(** A command without parameters does not get its default: the parser
    always passes at least one argument, -1, so that "reset attributes" changes
    nothing, "erase to the end" erases everything and "home" keeps the
    column. *)
Theorem csi_defaults s be x y b :
  Console.state (parse_state s) = PARSE_STATE_ASCII -> length (arg (parse_state s)) = 10%nat ->
  backend s = Some be -> be_get_cursor be (out s) = Ret ((x, y), out s) ->
  be_clear_lines be CONSOLE_CLEAR_DIRECTION_BOTH (out s) = Ret (tt, b) ->
  wp (_write (sequence [[]] 109)) (fun _ s' => attr s' = attr s) s /\
  wp (_write (sequence [[]] 74)) (fun _ s' => out s' = b) s /\
  (forall b', be_set_cursor be (u32 x) 0 (out s) = Ret (tt, b') ->
     wp (_write (sequence [[]] 72)) (fun _ s' => out s' = b') s).
Proof.
  intros Hs Hl Hb Hcur Hclr.
  assert (Hseq : forall cmd, final_ok cmd -> _write (sequence [[]] cmd) s =
    (_csi cmd 1 (seq_args [[]] (arg (parse_state s))) ;; ret 3)
      (at_parse s PARSE_STATE_ASCII (seq_args [[]] (arg (parse_state s))) 1 0)).
  { intros cmd Hcmd. rewrite write_sequence; [done|done|done|done| |cbn; lia|done].
    repeat constructor; cbn; lia. }
  destruct (arg (parse_state s)) as [|a0 args] eqn:Ea; [done|].
  set (args1 := seq_args [[]] (a0 :: args)) in *.
  set (s1 := at_parse s PARSE_STATE_ASCII args1 1 0).
  assert (be_call be_get_cursor s1 = Ret ((x, y), s1)) as Hc.
  { unfold be_call, bind, gets. cbn. rewrite Hb. cbn. unfold zoom. cbn. rewrite Hcur. done. }
  assert (forall f b', f be (out s) = Ret (tt, b') ->
    be_call f s1 = Ret (tt, set_out b' s1)) as Hcall.
  { intros f b' Hf. unfold be_call, bind, gets. cbn. rewrite Hb. cbn. unfold zoom. cbn. by rewrite Hf. }
  split_and!.
  - unfold wp. rewrite Hseq by done. unfold _csi. rewrite bind_assoc.
    rewrite (bind_Ret _ _ (-1) s1 s1), bind_assoc, (bind_Ret _ _ _ _ _ Hc) by done. reflexivity.
  - unfold wp. rewrite Hseq by done. unfold _csi. rewrite bind_assoc.
    rewrite (bind_Ret _ _ (-1) s1 s1), bind_assoc, (bind_Ret _ _ _ _ _ Hc) by done.
    cbn [Z.eqb Pos.eqb orb negb]. by rewrite (bind_Ret _ _ _ _ _ (Hcall _ _ Hclr)).
  - intros b' Hset. unfold wp. rewrite Hseq by done. unfold _csi. rewrite bind_assoc.
    rewrite (bind_Ret _ _ (-1) s1 s1), bind_assoc, (bind_Ret _ _ _ _ _ Hc) by done.
    cbn [Z.eqb Pos.eqb orb negb when]. rewrite bind_assoc, (bind_Ret _ _ tt s1 s1) by done.
    by rewrite (bind_Ret _ _ _ _ _ (Hcall (fun be => be_set_cursor be (u32 x) (u32 (1 - 1))) _ Hset)).
Qed.

(** Outside of control sequences every character goes to the backend once,
    in order, with the current colours (bold adds 8 to the foreground). *)
Theorem write_text buf s be :
  Console.state (parse_state s) = PARSE_STATE_ASCII -> backend s = Some be ->
  Forall (fun b => s8 b <> 27) buf ->
  _write buf s =
    zoom out set_out (fold_right (fun b m =>
        let a := attr s in
        be_putc be (s8 b) (u32 (color_fg a + (if bold a then 8 else 0))) (color_bg a) ;; m)
      (ret (Z.of_nat (length buf))) buf) s.
Proof.
  intros Hs Hb Hbuf. rewrite write_eq. generalize (Z.of_nat (length buf)) as n. intros n.
  revert s Hs Hb. induction Hbuf as [|b buf Hc Hbuf IH]; intros s Hs Hb.
  - unfold zoom. cbn. by destruct s.
  - cbn [write_all fold_right]. cbn zeta. rewrite bind_assoc.
    assert (write_char b s = zoom out set_out (be_putc be (s8 b)
      (u32 (color_fg (attr s) + (if bold (attr s) then 8 else 0))) (color_bg (attr s))) s) as Hw.
    { unfold write_char, bind at 1, gets at 1. rewrite Hs, (proj2 (Z.eqb_neq _ _) Hc).
      unfold be_call, bind, gets. by rewrite Hb. }
    pose proof (fun b' => IH (set_out b' s) Hs Hb) as IH'. clear IH. cbn zeta in IH'.
    set (k := (write_all buf ;; ret n)) in *. set (r := fold_right _ _ _) in *.
    unfold bind at 1. rewrite Hw. unfold zoom, bind.
    destruct (be_putc _ _ _ _ (out s)) as [[[] b']| | |]; [|done..].
    rewrite IH'. unfold zoom. cbn. unfold r. by destruct (fold_right _ (ret n) buf b') as [[? ?]| | |].
Qed.

End correct.

(** * Witnesses *)

(** A backend that logs what it is asked to do. *)
Definition log_backend : ConsoleBackend (list (list Z)) :=
  MkBackend (fun c fg bg => modify (cons [c; fg; bg])) (fun x y => modify (cons [x; y]))
    (fun b => Ret ((3, 5), b)) (fun d => modify (cons [match d with
       | CONSOLE_CLEAR_DIRECTION_FORWARD => 0 | CONSOLE_CLEAR_DIRECTION_BACKWARD => 1
       | CONSOLE_CLEAR_DIRECTION_BOTH => 2 end])) (fun _ => ret tt)
    (fun n => ret tt) (fun n => ret tt).
Definition demo_console : Console (list (list Z)) :=
  MkConsole (MkParse PARSE_STATE_ASCII (replicate 10 0) 0 0) (Some log_backend)
    (MkAttr false 7 0) (0, 0) [].

Lemma write_sequence_correct_witness :
  _write (sequence [[1]; []; [4; 2]] 109) demo_console =
    (_csi 109 3 [1; -1; 42; 0; 0; 0; 0; 0; 0; 0] ;; ret 8)
      (at_parse demo_console PARSE_STATE_ASCII [1; -1; 42; 0; 0; 0; 0; 0; 0; 0] 3 0).
Proof.
  rewrite (write_sequence_correct [[1]; []; [4; 2]] 109 demo_console); try done.
  - repeat constructor; cbn; lia.
  - cbn. lia.
Defined.

Lemma write_sequence_overflow_witness :
  _write (sequence (replicate 11 [7]) 109) demo_console = Fault.
Proof.
  apply (write_sequence_overflow (replicate 11 [7]) 109 demo_console); try done.
  - repeat constructor; cbn; lia.
  - cbn. lia.
Defined.

Lemma csi_defaults_witness :
  wp (_write (sequence [[]] 109)) (fun _ s' => attr s' = attr demo_console) demo_console /\
  wp (_write (sequence [[]] 74)) (fun _ s' => out s' = [[2]]) demo_console /\
  (forall b', be_set_cursor log_backend (u32 3) 0 [] = Ret (tt, b') ->
     wp (_write (sequence [[]] 72)) (fun _ s' => out s' = b') demo_console).
Proof. apply (csi_defaults demo_console log_backend 3 5 [[2]]); reflexivity. Defined.

Lemma write_text_witness :
  _write [72; 105] demo_console = Ret (2, set_out [[105; 7; 0]; [72; 7; 0]] demo_console).
Proof.
  rewrite (write_text [72; 105] demo_console log_backend); [reflexivity|done|done|].
  by repeat constructor.
Defined.
