(* ===== verification/FbCon.v ===== *)
(** The frame buffer console: [kernel/modules/chardev/console-fb.c].

    The frame buffer is the list of its [w_pixels * h_pixels] bytes; accesses
    outside of it are undefined.  The scrolling functions access it as 32-bit
    words: word [i] is the bytes [4i] to [4i+3]. *)

From S2P Require Import Prelude CString Console.

(** * Data *)

Record FbCon : Type := MkFbCon {
  fb_mem : list Z;
  font : list Z;
  w_pixels : Z;
  h_pixels : Z;
  w_chars : Z;
  h_chars : Z;
  w_font : Z;
  h_font : Z;
  cursor_x : Z;
  cursor_y : Z;
  cmap : list Z;
}.

Definition set_fb (m : list Z) (s : FbCon) : FbCon :=
  MkFbCon m (font s) (w_pixels s) (h_pixels s) (w_chars s) (h_chars s) (w_font s) (h_font s)
    (cursor_x s) (cursor_y s) (cmap s).
Definition set_cursor_x (x : Z) (s : FbCon) : FbCon :=
  MkFbCon (fb_mem s) (font s) (w_pixels s) (h_pixels s) (w_chars s) (h_chars s) (w_font s) (h_font s)
    x (cursor_y s) (cmap s).
Definition set_cursor_y (y : Z) (s : FbCon) : FbCon :=
  MkFbCon (fb_mem s) (font s) (w_pixels s) (h_pixels s) (w_chars s) (h_chars s) (w_font s) (h_font s)
    (cursor_x s) y (cmap s).

Definition byte_store (i v : Z) : M FbCon unit :=
  let* m := gets fb_mem in
  let* _ := need (zget m i) in
  modify (set_fb (zset m i v)).
Definition fb_store (i v : Z) : M FbCon unit := byte_store i (u8 v).

Definition word_load (i : Z) : M FbCon (list Z) :=
  let* m := gets fb_mem in
  let* a := need (zget m (4 * i)) in
  let* b := need (zget m (4 * i + 1)) in
  let* c := need (zget m (4 * i + 2)) in
  let* d := need (zget m (4 * i + 3)) in
  ret [a; b; c; d].
Definition word_store (i : Z) (w : list Z) : M FbCon unit :=
  byte_store (4 * i) (byte_at w 0) ;; byte_store (4 * i + 1) (byte_at w 1) ;;
  byte_store (4 * i + 2) (byte_at w 2) ;; byte_store (4 * i + 3) (byte_at w 3).

(** * Operations *)

Definition _clear_lines (dir : ConsoleClearDirection) : M FbCon unit :=
  let* s := get in
  let total := u32 (w_pixels s * h_pixels s) in
  let here := u32 (u32 (cursor_y s * h_font s) * w_pixels s) in
  let start := match dir with CONSOLE_CLEAR_DIRECTION_FORWARD => here | _ => 0 end in
  let end_ := match dir with CONSOLE_CLEAR_DIRECTION_BACKWARD => here | _ => total end in
  for_to start end_ (fun i => fb_store i 0).

Definition _clear_on_line (dir : ConsoleClearDirection) : M FbCon unit := ret tt.

Definition scroll_offset (lines : Z) (s : FbCon) : Z := u32 (u32 (lines * h_font s) * w_pixels s) / 4.
Definition total_words (s : FbCon) : Z := u32 (w_pixels s * h_pixels s) / 4.

(** The loop counter is unsigned: the first loop is left when it is less than
    [offset]. *)
Definition _scroll_down (lines : Z) : M FbCon unit :=
  let* s := get in
  let offset := scroll_offset lines s in
  let* _ := loop (S (S (Z.to_nat (total_words s)))) (u32 (total_words s - 1)) (fun i =>
    if i <? offset then ret (inr tt) else
    let* w := word_load (i - offset) in word_store i w ;; ret (inl (u32 (i - 1)))) in
  for_to 0 offset (fun i => word_store i [0; 0; 0; 0]).

Definition _scroll_up (lines : Z) : M FbCon unit :=
  let* s := get in
  let offset := scroll_offset lines s in
  let total := total_words s in
  for_to offset total (fun i => let* w := word_load i in word_store (i - offset) w) ;;
  for_to (u32 (total - offset)) total (fun i => word_store i [0; 0; 0; 0]).

(** A row of the glyph: [data] is shifted right in each step. *)
Definition draw_row (row col i fg bg data : Z) : M FbCon unit :=
  let* s := get in
  for_to 0 (w_font s) (fun j =>
    let* v := need (zget (cmap s) (if Z.testbit data j then fg else bg)) in
    fb_store (u32 (u32 ((row + i) * w_pixels s) + col + j)) v).

Definition draw_glyph (c fg bg : Z) : M FbCon unit :=
  let* s := get in
  let col := s32 (cursor_x s * w_font s) in
  let row := s32 (cursor_y s * h_font s) in
  for_to 0 (h_font s) (fun i =>
    let* data := need (zget (font s) (u32 (c * h_font s + i))) in
    draw_row row col i fg bg data).

Definition _putc_raw (c fg bg : Z) : M FbCon unit :=
  draw_glyph c fg bg ;;
  modify (fun s => set_cursor_x (u32 (cursor_x s + 1)) s) ;;
  let* s := get in
  when (w_chars s <=? cursor_x s)
    (modify (fun s => set_cursor_y (u32 (cursor_y s + 1)) s) ;; modify (set_cursor_x 0)) ;;
  let* s := get in
  when (h_chars s <=? cursor_y s)
    (_scroll_up 1 ;; modify (fun s => set_cursor_y (u32 (h_chars s - 1)) s)).

Definition _putc (c fg bg : Z) : M FbCon unit :=
  if c =? 10 (* '\n' *) then
    modify (set_cursor_x 0) ;;
    modify (fun s => set_cursor_y (u32 (cursor_y s + 1)) s) ;;
    let* s := get in
    when (cursor_y s =? h_chars s)
      (_scroll_up 1 ;; modify (fun s => set_cursor_y (u32 (cursor_y s - 1)) s))
  else if c =? 13 (* '\r' *) then modify (set_cursor_x 0)
  else _putc_raw c fg bg.

Definition _set_cursor (x y : Z) : M FbCon unit :=
  modify (fun s => set_cursor_x (x mod u32 (w_chars s + 1)) s) ;;
  modify (fun s => set_cursor_y (y mod u32 (h_chars s + 1)) s).

Definition _get_cursor : M FbCon (Z * Z) := gets (fun s => (cursor_x s, cursor_y s)).

(** Division by a font size of zero is undefined; [cm] is [None] for [NULL]. *)
Definition console_fb_init (mem : list Z) (w h : Z) (fnt : list Z) (fw fh : Z) (cm : option (list Z)) :
    M FbCon unit :=
  if (fw =? 0) || (fh =? 0) then fault else
  modify (fun s => MkFbCon mem fnt w h (w / fw) (h / fh) fw fh (cursor_x s) (cursor_y s)
                     (match cm with Some l => take 16 l | None => cmap s end)).

Definition console_fb : ConsoleBackend FbCon :=
  MkBackend _putc _set_cursor _get_cursor _clear_lines _clear_on_line _scroll_up _scroll_down.

(** * The geometry invariant *)

(** A screen: the character cells fit into the frame buffer, the font has 256
    glyphs, and the rows are whole words. *)
Record screen (s : FbCon) : Prop := {
  sc_size : Z.of_nat (length (fb_mem s)) = w_pixels s * h_pixels s;
  sc_small : 0 < w_pixels s * h_pixels s < 2 ^ 30;
  sc_w : 0 < w_pixels s /\ w_pixels s mod 4 = 0 /\ 0 < w_font s <= 32 /\ 0 < w_chars s /\ w_chars s * w_font s <= w_pixels s;
  sc_h : 0 < h_pixels s /\ 0 < h_font s <= 2 ^ 16 /\ 0 < h_chars s /\ h_chars s * h_font s <= h_pixels s;
  sc_font : Z.of_nat (length (font s)) = 256 * h_font s;
  sc_cmap : length (cmap s) = 16%nat;
}.

(** The cursor is on a character cell. *)
Definition cursor_ok (s : FbCon) : Prop :=
  0 <= cursor_x s < w_chars s /\ 0 <= cursor_y s < h_chars s.

(** Two states with the same geometry. *)
Definition same_geometry (s s' : FbCon) : Prop :=
  font s' = font s /\ w_pixels s' = w_pixels s /\ h_pixels s' = h_pixels s /\
  w_chars s' = w_chars s /\ h_chars s' = h_chars s /\ w_font s' = w_font s /\
  h_font s' = h_font s /\ cmap s' = cmap s /\ length (fb_mem s') = length (fb_mem s).

Lemma screen_same s s' : screen s -> same_geometry s s' -> screen s'.
Proof.
  intros [? ? ? ? ? ?] (Hf & Hw & Hh & Hwc & Hhc & Hwf & Hhf & Hc & Hl).
  split; rewrite ?Hf, ?Hw, ?Hh, ?Hwc, ?Hhc, ?Hwf, ?Hhf, ?Hc, ?Hl; done.
Qed.

Lemma same_geometry_refl s : same_geometry s s.
Proof. by split_and!. Qed.
Lemma same_geometry_trans s s' s2 : same_geometry s s' -> same_geometry s' s2 -> same_geometry s s2.
Proof. unfold same_geometry. intuition congruence. Qed.
Lemma same_geometry_fb s m : length m = length (fb_mem s) -> same_geometry s (set_fb m s).
Proof. intros Hm. by split_and!. Qed.

(** * Stores *)

Lemma byte_store_eq s i v :
  0 <= i < Z.of_nat (length (fb_mem s)) ->
  byte_store i v s = Ret (tt, set_fb (zset (fb_mem s) i v) s).
Proof. intros Hi. destruct (zget_in_range _ _ Hi) as [x Hx]. cbv [byte_store bind gets need]. by rewrite Hx. Qed.
Lemma wp_fb_store s i v (Q : unit -> FbCon -> Prop) :
  0 <= i < Z.of_nat (length (fb_mem s)) ->
  Q tt (set_fb (zset (fb_mem s) i (u8 v)) s) -> wp (fb_store i v) Q s.
Proof. intros Hi HQ. eapply wp_eq; [by apply byte_store_eq|done]. Qed.

(** * Drawing a glyph *)

(** The colour of pixel [j] of a glyph row. *)
Definition pixel (s : FbCon) (fg bg data j : Z) : Z :=
  u8 (default 0 (zget (cmap s) (if Z.testbit data j then fg else bg))).

(** [m] is [m0] with the pixels of glyph [c] drawn in the cells of the rows
    before [i] and, of row [i], in the columns before [j]. *)
Definition drawn (s : FbCon) (c fg bg i j : Z) (m0 m : list Z) : Prop :=
  length m = length m0 /\
  forall y x, 0 <= x < w_pixels s -> 0 <= y ->
    zget m (y * w_pixels s + x) =
      let dy := y - cursor_y s * h_font s in
      let dx := x - cursor_x s * w_font s in
      if ((0 <=? dy) && (0 <=? dx) && (((dy <? i) && (dx <? w_font s)) || ((dy =? i) && (dx <? j))))
      then Some (pixel s fg bg (byte_at (font s) (c * h_font s + dy)) dx)
      else zget m0 (y * w_pixels s + x).

Section draw.
Variable (s : FbCon).
Hypothesis Hs : screen s.
Hypothesis Hcur : cursor_ok s.

Lemma cell_col : 0 <= cursor_x s * w_font s /\ cursor_x s * w_font s + w_font s <= w_pixels s.
Proof. destruct (sc_w _ Hs) as (? & _ & ? & ? & ?), Hcur as [? ?]. nia. Qed.
Lemma cell_row : 0 <= cursor_y s * h_font s /\ cursor_y s * h_font s + h_font s <= h_pixels s.
Proof. destruct (sc_h _ Hs) as (? & ? & ?), Hcur as [? ?]. nia. Qed.

Lemma pixel_index y x :
  0 <= y < h_pixels s -> 0 <= x < w_pixels s ->
  0 <= y * w_pixels s + x < Z.of_nat (length (fb_mem s)) /\ y * w_pixels s + x < 2 ^ 30.
Proof.
  intros Hy Hx. rewrite (sc_size _ Hs). pose proof (sc_small _ Hs).
  assert (y * w_pixels s <= (h_pixels s - 1) * w_pixels s) by (apply Z.mul_le_mono_nonneg_r; lia).
  assert (0 <= y * w_pixels s) by (apply Z.mul_nonneg_nonneg; lia). lia.
Qed.

Lemma div_mod_inj w y x y' x' :
  0 <= x < w -> 0 <= x' < w -> y * w + x = y' * w + x' -> y = y' /\ x = x'.
Proof.
  intros Hx Hx' He. assert (y = y') as ->; [|lia].
  apply (f_equal (fun z => z / w)) in He.
  rewrite !Z.div_add_l, !Z.div_small in He by lia. lia.
Qed.

Lemma drawn_step c fg bg i j m :
  0 <= i < h_font s -> 0 <= j < w_font s -> drawn s c fg bg i j (fb_mem s) m ->
  drawn s c fg bg i (j + 1) (fb_mem s)
    (zset m ((cursor_y s * h_font s + i) * w_pixels s + (cursor_x s * w_font s + j))
       (pixel s fg bg (byte_at (font s) (c * h_font s + i)) j)).
Proof.
  intros Hi Hj [Hl Hm]. pose proof cell_col. pose proof cell_row. split; [by rewrite length_zset|].
  intros y x Hx Hy. set (dy := y - cursor_y s * h_font s). set (dx := x - cursor_x s * w_font s). cbn zeta.
  destruct (pixel_index (cursor_y s * h_font s + i) (cursor_x s * w_font s + j)) as [Hidx _]; [lia|lia|].
  rewrite zget_zset by (rewrite Hl; lia).
  destruct (decide (dy = i /\ dx = j)) as [[Hdy Hdx]|Hne].
  - rewrite decide_True by (f_equal; [f_equal; lia|lia]).
    replace (_ && _) with true; [by rewrite Hdy, Hdx|]. symmetry.
    rewrite Hdy, Hdx, Z.eqb_refl. destruct (Z.leb_spec 0 i), (Z.leb_spec 0 j), (Z.ltb_spec i i), (Z.ltb_spec j (j + 1)); lia.
  - rewrite decide_False.
    + rewrite (Hm y x Hx Hy). cbn zeta. fold dy dx.
      replace ((0 <=? dy) && (0 <=? dx) && ((dy <? i) && (dx <? w_font s) || (dy =? i) && (dx <? j + 1)))
        with ((0 <=? dy) && (0 <=? dx) && ((dy <? i) && (dx <? w_font s) || (dy =? i) && (dx <? j)));
        [done|]. f_equal. f_equal. destruct (Z.eqb_spec dy i); [|done].
      destruct (Z.ltb_spec dx j), (Z.ltb_spec dx (j + 1)); try done; lia.
    + intros [? ?]%div_mod_inj; [|lia|lia]. apply Hne. lia.
Qed.

Lemma wp_draw_row c fg bg i m :
  0 <= i < h_font s -> 0 <= fg < 16 -> 0 <= bg < 16 -> drawn s c fg bg i 0 (fb_mem s) m ->
  wp (draw_row (cursor_y s * h_font s) (cursor_x s * w_font s) i fg bg
       (byte_at (font s) (c * h_font s + i)))
     (fun _ s' => exists m', s' = set_fb m' s /\ drawn s c fg bg (i + 1) 0 (fb_mem s) m') (set_fb m s).
Proof.
  intros Hi Hfg Hbg Hm. pose proof cell_col. pose proof cell_row. destruct (sc_w _ Hs) as (? & _ & ? & _).
  unfold draw_row. rewrite wp_bind, wp_get. cbn [w_font w_pixels cmap set_fb].
  apply (wp_for_to (fun j s' => exists m', s' = set_fb m' s /\ drawn s c fg bg i j (fb_mem s) m')).
  - lia.
  - by exists m.
  - intros j s' Hj (m' & -> & Hd). destruct (zget_in_range (cmap s) (if Z.testbit
      (byte_at (font s) (c * h_font s + i)) j then fg else bg)) as [v Hv].
    { rewrite (sc_cmap _ Hs). destruct (Z.testbit _ _); lia. }
    rewrite wp_bind, (wp_need _ v) by done.
    destruct (pixel_index (cursor_y s * h_font s + i) (cursor_x s * w_font s + j)) as [Hidx Hsm]; [lia|lia|].
    assert (u32 (u32 ((cursor_y s * h_font s + i) * w_pixels s) + cursor_x s * w_font s + j) =
      (cursor_y s * h_font s + i) * w_pixels s + (cursor_x s * w_font s + j)) as ->.
    { rewrite (u32_small (_ * w_pixels s)) by nia. rewrite u32_small by lia. lia. }
    destruct Hd as [Hl Hd]. apply wp_fb_store; [cbn; lia|].
    eexists. split; [reflexivity|]. cbn [fb_mem set_fb].
    pose proof (drawn_step c fg bg i j m' Hi Hj (conj Hl Hd)) as Hstep.
    unfold pixel in Hstep. by rewrite Hv in Hstep.
  - intros s' (m' & -> & Hl & Hd). exists m'. split; [done|]. split; [done|].
    intros y x Hx Hy. rewrite (Hd y x Hx Hy). cbn zeta.
    set (dy := y - _). set (dx := x - _).
    replace ((0 <=? dy) && (0 <=? dx) && ((dy <? i + 1) && (dx <? w_font s) || (dy =? i + 1) && (dx <? 0)))
      with ((0 <=? dy) && (0 <=? dx) && ((dy <? i) && (dx <? w_font s) || (dy =? i) && (dx <? w_font s)));
      [done|]. destruct (Z.leb_spec 0 dx); [|by rewrite andb_false_r]. f_equal.
    destruct (Z.ltb_spec dx 0), (Z.ltb_spec dx (w_font s)), (Z.ltb_spec dy i), (Z.eqb_spec dy i),
      (Z.ltb_spec dy (i + 1)), (Z.eqb_spec dy (i + 1)); try done; lia.
Qed.

Lemma wp_draw_glyph c fg bg :
  0 <= c < 256 -> 0 <= fg < 16 -> 0 <= bg < 16 ->
  wp (draw_glyph c fg bg) (fun _ s' => exists m', s' = set_fb m' s /\
     drawn s c fg bg (h_font s) 0 (fb_mem s) m') s.
Proof.
  intros Hc Hfg Hbg. pose proof cell_col. pose proof cell_row. pose proof (sc_small _ Hs).
  destruct (sc_w _ Hs) as (? & _ & ? & _), (sc_h _ Hs) as (? & ? & _).
  unfold draw_glyph. rewrite wp_bind, wp_get. rewrite !s32_small by nia.
  apply (wp_for_to (fun i s' => exists m', s' = set_fb m' s /\ drawn s c fg bg i 0 (fb_mem s) m')).
  - lia.
  - exists (fb_mem s). split; [by destruct s|]. split; [done|]. intros y x Hx Hy. cbn zeta.
    replace (_ && _) with false; [done|]. symmetry.
    set (dy := y - _). set (dx := x - _).
    destruct (Z.leb_spec 0 dy), (Z.leb_spec 0 dx); cbn [andb]; try done.
    destruct (Z.ltb_spec dy 0), (Z.ltb_spec dx 0); lia.
  - intros i s' Hi (m' & -> & Hd).
    assert (0 <= c * h_font s + i < 256 * h_font s) as Hidx by nia.
    destruct (zget_in_range (font s) (c * h_font s + i)) as [d Hdata]; [rewrite (sc_font _ Hs); lia|].
    rewrite wp_bind, (wp_need _ d) by (rewrite u32_small by lia; done).
    assert (d = byte_at (font s) (c * h_font s + i)) as -> by (unfold byte_at; by rewrite Hdata).
    by apply wp_draw_row.
  - intros s' Hd. exact Hd.
Qed.
End draw.

(** * Words *)

Lemma word_load_eq m s i :
  0 <= i -> 4 * i + 4 <= Z.of_nat (length m) ->
  word_load i (set_fb m s) =
    Ret ([byte_at m (4 * i); byte_at m (4 * i + 1); byte_at m (4 * i + 2); byte_at m (4 * i + 3)], set_fb m s).
Proof.
  intros Hi Hl. unfold byte_at.
  destruct (zget_in_range m (4 * i)) as [a Ha], (zget_in_range m (4 * i + 1)) as [b Hb],
    (zget_in_range m (4 * i + 2)) as [c Hc], (zget_in_range m (4 * i + 3)) as [d Hd]; try lia.
  cbv [word_load bind gets fb_mem set_fb]. by rewrite Ha, Hb, Hc, Hd.
Qed.

(** [m'] is [m] with the word [w] at index [i]. *)
Definition word_set (i : Z) (w m m' : list Z) : Prop :=
  length m' = length m /\
  forall k, 0 <= k -> zget m' k = if decide (4 * i <= k < 4 * i + 4) then Some (byte_at w (k - 4 * i)) else zget m k.

Lemma word_store_eq m s i w :
  0 <= i -> 4 * i + 4 <= Z.of_nat (length m) ->
  exists m', word_store i w (set_fb m s) = Ret (tt, set_fb m' s) /\ word_set i w m m'.
Proof.
  intros Hi Hl. eexists. split.
  - unfold word_store. do 3 (erewrite bind_Ret; [|apply byte_store_eq; cbn; rewrite ?length_zset; lia]).
    rewrite byte_store_eq by (cbn; rewrite !length_zset; lia). unfold set_fb. cbn. reflexivity.
  - split; [by rewrite !length_zset|]. intros k Hk.
    rewrite !zget_zset by (rewrite ?length_zset; lia).
    repeat case_decide; subst; try lia; try done; f_equal; f_equal; lia.
Qed.

(** Copying a word; [zget] of the result. *)
Lemma wp_word_copy m s i j :
  0 <= i -> 0 <= j -> 4 * i + 4 <= Z.of_nat (length m) -> 4 * j + 4 <= Z.of_nat (length m) ->
  wp (let* w := word_load i in word_store j w)
    (fun _ s' => exists m', s' = set_fb m' s /\ length m' = length m /\
       forall k, 0 <= k -> zget m' k = if decide (4 * j <= k < 4 * j + 4) then zget m (4 * (i - j) + k) else zget m k)
    (set_fb m s).
Proof.
  intros Hi Hj Hli Hlj. rewrite wp_bind. eapply wp_eq; [by apply word_load_eq|].
  destruct (word_store_eq m s j [byte_at m (4 * i); byte_at m (4 * i + 1); byte_at m (4 * i + 2);
    byte_at m (4 * i + 3)]) as (m' & Hst & Hl & Hm); [done..|].
  eapply wp_eq; [exact Hst|]. exists m'. split_and!; [done..|]. intros k Hk. rewrite (Hm k Hk).
  case_decide as Hin; [|done].
  assert (forall t, 0 <= t < 4 -> Some (byte_at m (4 * i + t)) = zget m (4 * i + t)) as Hb.
  { intros t Ht. unfold byte_at. destruct (zget_in_range m (4 * i + t)) as [x ->]; [lia|done]. }
  replace (4 * (i - j) + k) with (4 * i + (k - 4 * j)) by lia. rewrite <- Hb by lia. f_equal.
  assert (k - 4 * j = 0 \/ k - 4 * j = 1 \/ k - 4 * j = 2 \/ k - 4 * j = 3) as [E|[E|[E|E]]] by lia;
    rewrite E, ?Z.add_0_r; reflexivity.
Qed.

(** * Scrolling *)

(** The number of bytes of some rows of characters. *)
Definition rows (s : FbCon) (lines : Z) : Z := lines * h_font s * w_pixels s.

Lemma scroll_words s lines :
  screen s -> 0 <= lines -> rows s lines <= w_pixels s * h_pixels s ->
  4 * scroll_offset lines s = rows s lines /\ 4 * total_words s = w_pixels s * h_pixels s.
Proof.
  intros Hs Hl Hr. unfold scroll_offset, total_words. pose proof (sc_small _ Hs).
  destruct (sc_w _ Hs) as (Hw & Hw4 & _), (sc_h _ Hs) as (Hh & Hhf & _). unfold rows in *.
  assert (lines * h_font s <= lines * h_font s * w_pixels s) by nia.
  rewrite (u32_small (lines * h_font s)) by nia. rewrite !u32_small by nia.
  apply Z.div_exact in Hw4; [|lia]. rewrite Hw4. split.
  - replace (lines * h_font s * (4 * (w_pixels s / 4))) with ((lines * h_font s * (w_pixels s / 4)) * 4) by ring.
    rewrite Z.div_mul; lia.
  - replace (4 * (w_pixels s / 4) * h_pixels s) with (w_pixels s / 4 * h_pixels s * 4) by ring.
    rewrite Z.div_mul; lia.
Qed.

(** Clearing a range of words. *)
Lemma wp_words_clear m s i0 i1 :
  0 <= i0 <= i1 -> 4 * i1 <= Z.of_nat (length m) ->
  wp (for_to i0 i1 (fun i => word_store i [0; 0; 0; 0]))
    (fun _ s' => exists m', s' = set_fb m' s /\ length m' = length m /\
       forall k, 0 <= k -> zget m' k = if decide (4 * i0 <= k < 4 * i1) then Some 0 else zget m k)
    (set_fb m s).
Proof.
  intros Hi Hl.
  apply (wp_for_to (fun i s' => exists m', s' = set_fb m' s /\ length m' = length m /\
       forall k, 0 <= k -> zget m' k = if decide (4 * i0 <= k < 4 * i) then Some 0 else zget m k)).
  - lia.
  - exists m. split_and!; [done..|]. intros k Hk. by rewrite decide_False by lia.
  - intros i s' Hi' (m1 & -> & Hl1 & Hm1).
    destruct (word_store_eq m1 s i [0; 0; 0; 0]) as (m2 & Hst & Hl2 & Hm2); [lia..|].
    eapply wp_eq; [exact Hst|]. exists m2. split_and!; [done|lia|]. intros k Hk.
    rewrite (Hm2 k Hk), (Hm1 k Hk). destruct (decide (4 * i <= k < 4 * i + 4)).
    + rewrite decide_True by lia.
      assert (k - 4 * i = 0 \/ k - 4 * i = 1 \/ k - 4 * i = 2 \/ k - 4 * i = 3) as [E|[E|[E|E]]] by lia;
        by rewrite E.
    + destruct (decide (4 * i0 <= k < 4 * i)); [rewrite decide_True by lia; done|by rewrite decide_False by lia].
  - intros s' H. exact H.
Qed.

(** Moving the words from [off] up to the start. *)
Lemma wp_words_up m s off tot :
  0 <= off <= tot -> 4 * tot <= Z.of_nat (length m) ->
  wp (for_to off tot (fun i => let* w := word_load i in word_store (i - off) w))
    (fun _ s' => exists m', s' = set_fb m' s /\ length m' = length m /\
       forall k, 0 <= k -> zget m' k = if decide (k < 4 * (tot - off)) then zget m (k + 4 * off) else zget m k)
    (set_fb m s).
Proof.
  intros Hi Hl.
  apply (wp_for_to (fun i s' => exists m', s' = set_fb m' s /\ length m' = length m /\ forall k, 0 <= k ->
      zget m' k = if decide (k < 4 * (i - off)) then zget m (k + 4 * off) else zget m k)).
  - lia.
  - exists m. split_and!; [done..|]. intros k Hk. by rewrite decide_False by lia.
  - intros i s' Hi' (m1 & -> & Hl1 & Hm1). eapply wp_mono; [apply wp_word_copy; lia|].
    intros [] s2 (m2 & -> & Hl2 & Hm2). exists m2. split_and!; [done|lia|]. intros k Hk.
    rewrite (Hm2 k Hk), !Hm1 by lia. destruct (decide (4 * (i - off) <= k < 4 * (i - off) + 4)).
    + rewrite decide_False, decide_True by lia. f_equal. lia.
    + destruct (decide (k < 4 * (i - off))); [rewrite decide_True by lia; done|by rewrite decide_False by lia].
  - intros s' H. exact H.
Qed.

(** Scrolling up removes the first rows and adds black ones at the end. *)
Lemma scroll_up_eq s lines :
  screen s -> 0 <= lines -> rows s lines <= w_pixels s * h_pixels s ->
  _scroll_up lines s =
    Ret (tt, set_fb (drop (Z.to_nat (rows s lines)) (fb_mem s) ++ replicate (Z.to_nat (rows s lines)) 0) s).
Proof.
  intros Hs Hl Hr. destruct (scroll_words s lines Hs Hl Hr) as [Hoff Htot].
  pose proof (sc_size _ Hs) as Hsz. pose proof (sc_small _ Hs).
  assert (0 <= rows s lines) by (destruct (sc_w _ Hs), (sc_h _ Hs); unfold rows; nia).
  set (off := scroll_offset lines s) in *. set (tot := total_words s) in *. set (m0 := fb_mem s) in *.
  eapply (wp_eq' (fun _ s' => exists m, s' = set_fb m s /\ length m = length m0 /\ forall k, 0 <= k ->
      zget m k = if decide (4 * (tot - off) <= k < 4 * tot) then Some 0 else
                 if decide (k < 4 * (tot - off)) then zget m0 (k + 4 * off) else zget m0 k)).
  - unfold _scroll_up. rewrite wp_bind, wp_get. cbv zeta. fold off tot. rewrite wp_bind.
    replace s with (set_fb m0 s) at 1 by (by destruct s).
    eapply wp_mono; [apply wp_words_up; lia|]. intros [] s' (m1 & -> & Hl1 & Hm1).
    rewrite u32_small by lia. eapply wp_mono; [apply wp_words_clear; lia|].
    intros [] s2 (m2 & -> & Hl2 & Hm2). exists m2. split_and!; [done|lia|]. intros k Hk.
    by rewrite (Hm2 k Hk), (Hm1 k Hk).
  - intros [] s' (m & -> & Hlen & Hm). split; [done|]. f_equal. apply zget_ext.
    { rewrite length_app, length_drop, length_replicate. lia. }
    intros k Hk. rewrite Hm by lia. case_decide.
    + rewrite zget_app_r by (rewrite length_drop; lia). rewrite zget_replicate; [done|].
      rewrite length_drop. lia.
    + rewrite decide_True by lia. rewrite zget_app_l by (rewrite length_drop; lia). unfold zget.
      destruct (Z.ltb_spec (k + 4 * off) 0), (Z.ltb_spec k 0); try lia. rewrite lookup_drop. f_equal. lia.
Qed.

(** * Writing a character *)

(** Scrolled up by a row of characters. *)
Definition scrolled (s : FbCon) : FbCon :=
  set_fb (drop (Z.to_nat (rows s 1)) (fb_mem s) ++ replicate (Z.to_nat (rows s 1)) 0) s.

(** The start of the next line; the last line scrolls. *)
Definition next_line (s : FbCon) : FbCon :=
  if cursor_y s + 1 =? h_chars s then scrolled (set_cursor_x 0 s)
  else set_cursor_y (cursor_y s + 1) (set_cursor_x 0 s).
(** The next character cell. *)
Definition next_cell (s : FbCon) : FbCon :=
  if cursor_x s + 1 =? w_chars s then next_line s else set_cursor_x (cursor_x s + 1) s.

Lemma rows_fit s : screen s -> 0 <= rows s 1 <= w_pixels s * h_pixels s.
Proof.
  intros Hs. destruct (sc_w _ Hs) as (? & _ & ? & ? & ?), (sc_h _ Hs) as (? & ? & ? & ?). unfold rows.
  assert (h_font s <= h_chars s * h_font s) by nia. nia.
Qed.

Lemma chars_small s : screen s -> w_chars s < 2 ^ 30 /\ h_chars s < 2 ^ 30.
Proof.
  intros Hs. pose proof (sc_small _ Hs). destruct (sc_w _ Hs) as (? & _ & ? & ? & ?), (sc_h _ Hs) as (? & ? & ? & ?).
  assert (w_chars s <= w_chars s * w_font s) by nia. assert (h_chars s <= h_chars s * h_font s) by nia. nia.
Qed.

Lemma same_geometry_scrolled s : screen s -> same_geometry s (scrolled s).
Proof.
  intros Hs. pose proof (rows_fit s Hs). pose proof (sc_size _ Hs). apply same_geometry_fb.
  rewrite length_app, length_drop, length_replicate. lia.
Qed.

Lemma next_line_ok s :
  screen s -> 0 <= cursor_y s < h_chars s -> same_geometry s (next_line s) /\ cursor_ok (next_line s).
Proof.
  intros Hs Hy. destruct (sc_w _ Hs) as (_ & _ & _ & Hw & _). unfold next_line.
  destruct (Z.eqb_spec (cursor_y s + 1) (h_chars s)).
  - split; [|split; cbn; lia].
    apply (same_geometry_scrolled (set_cursor_x 0 s)). apply (screen_same s); [done|by split_and!].
  - split; [by split_and!|]. split; cbn; lia.
Qed.
Lemma next_cell_ok s : screen s -> cursor_ok s -> same_geometry s (next_cell s) /\ cursor_ok (next_cell s).
Proof.
  intros Hs [Hx Hy]. unfold next_cell. destruct (Z.eqb_spec (cursor_x s + 1) (w_chars s)).
  - by apply next_line_ok.
  - split; [by split_and!|]. split; cbn; lia.
Qed.

Lemma putc_newline_eq s fg bg :
  screen s -> cursor_ok s -> _putc 10 fg bg s = Ret (tt, next_line s).
Proof.
  intros Hs [Hx Hy]. pose proof (chars_small s Hs). unfold _putc, next_line. cbn [Z.eqb Pos.eqb].
  cbv [bind modify get when]. cbn [cursor_y h_chars set_cursor_y set_cursor_x].
  rewrite u32_small by lia. destruct (Z.eqb_spec (cursor_y s + 1) (h_chars s)); [|done].
  pose proof (rows_fit s Hs). fold (set_cursor_x 0 s).
  rewrite (scroll_up_eq _ 1); [|apply (screen_same s); [done|by split_and!]|lia|exact (proj2 (rows_fit s Hs))].
  unfold scrolled. cbn. rewrite u32_small by lia. by rewrite Z.add_simpl_r.
Qed.

(** What [_putc_raw] does after drawing. *)
Lemma putc_advance_eq s :
  screen s -> cursor_ok s ->
  (modify (fun s => set_cursor_x (u32 (cursor_x s + 1)) s) ;;
   let* s := get in
   when (w_chars s <=? cursor_x s)
     (modify (fun s => set_cursor_y (u32 (cursor_y s + 1)) s) ;; modify (set_cursor_x 0)) ;;
   let* s := get in
   when (h_chars s <=? cursor_y s)
     (_scroll_up 1 ;; modify (fun s => set_cursor_y (u32 (h_chars s - 1)) s))) s = Ret (tt, next_cell s).
Proof.
  intros Hs [Hx Hy]. pose proof (chars_small s Hs). pose proof (rows_fit s Hs). unfold next_cell, next_line.
  cbv [bind modify get when]. cbn [cursor_x cursor_y w_chars h_chars set_cursor_y set_cursor_x].
  rewrite u32_small by lia.
  destruct (Z.leb_spec (w_chars s) (cursor_x s + 1)), (Z.eqb_spec (cursor_x s + 1) (w_chars s)); try lia.
  - cbn [cursor_y h_chars ret set_cursor_x set_cursor_y]. rewrite u32_small by lia.
    destruct (Z.leb_spec (h_chars s) (cursor_y s + 1)), (Z.eqb_spec (cursor_y s + 1) (h_chars s)); try lia; [|done].
    rewrite (scroll_up_eq _ 1); [|apply (screen_same s); [done|by split_and!]|lia|exact (proj2 (rows_fit s Hs))].
    unfold scrolled. cbn. rewrite u32_small by lia. do 2 f_equal. unfold set_cursor_y, set_fb. cbn. f_equal; lia.
  - cbn [cursor_y h_chars ret set_cursor_x]. destruct (Z.leb_spec (h_chars s) (cursor_y s)); [lia|done].
Qed.

(** C22. Writing a printable character draws exactly its glyph: the pixels of
    the cursor's cell become the foreground colour where the font's row has the
    bit of the column set and the background colour elsewhere, every other
    pixel stays; the cursor then moves to the next cell, wrapping at the end of
    the line and scrolling at the end of the last one. *)
Theorem putc_draws_glyph s c fg bg :
  screen s -> cursor_ok s -> 0 <= c < 256 -> c <> 10 -> c <> 13 -> 0 <= fg < 16 -> 0 <= bg < 16 ->
  exists m, drawn s c fg bg (h_font s) 0 (fb_mem s) m /\
    _putc c fg bg s = Ret (tt, next_cell (set_fb m s)).
Proof.
  intros Hs Hc Hr Hn Hcr Hfg Hbg.
  destruct (proj1 (wp_run _ _ _) (wp_draw_glyph s Hs Hc c fg bg Hr Hfg Hbg)) as ([] & s' & Hd & m & -> & Hm).
  exists m. split; [done|]. unfold _putc. rewrite (proj2 (Z.eqb_neq _ _) Hn), (proj2 (Z.eqb_neq _ _) Hcr).
  unfold _putc_raw. rewrite (bind_Ret _ _ _ _ _ Hd). apply putc_advance_eq; [|done].
  apply (screen_same s); [done|]. apply same_geometry_fb, Hm.
Qed.

Lemma putc_safe_lemma s c fg bg :
  screen s -> cursor_ok s -> 0 <= c < 256 -> 0 <= fg < 16 -> 0 <= bg < 16 ->
  wp (_putc c fg bg) (fun _ s' => same_geometry s s' /\ cursor_ok s') s.
Proof.
  intros Hs Hc Hr Hfg Hbg. destruct (decide (c = 10)) as [->|Hn].
  { eapply wp_eq; [by apply putc_newline_eq|]. apply next_line_ok; [done|apply Hc]. }
  destruct (decide (c = 13)) as [->|Hcr].
  { destruct (sc_w _ Hs) as (_ & _ & _ & Hw & _). unfold _putc. cbn [Z.eqb Pos.eqb]. rewrite wp_modify.
    split; [by split_and!|]. split; cbn; [lia|apply Hc]. }
  destruct (proj1 (wp_run _ _ _) (wp_draw_glyph s Hs Hc c fg bg Hr Hfg Hbg)) as ([] & s' & Hd & m & -> & Hm).
  unfold _putc. rewrite (proj2 (Z.eqb_neq _ _) Hn), (proj2 (Z.eqb_neq _ _) Hcr). unfold _putc_raw.
  assert (same_geometry s (set_fb m s)) as Hg by (apply same_geometry_fb, Hm).
  assert (screen (set_fb m s)) as Hs' by (by apply (screen_same s)).
  rewrite wp_bind. eapply wp_eq; [exact Hd|]. cbv beta. eapply wp_eq; [by apply putc_advance_eq|].
  destruct (next_cell_ok (set_fb m s) Hs' Hc) as [Hg' Hc']. split; [|done].
  by eapply same_geometry_trans.
Qed.

(** Writing a list of characters. *)
Fixpoint putc_all (fg bg : Z) (cs : list Z) : M FbCon unit :=
  match cs with
  | [] => ret tt
  | c :: cs => _putc c fg bg ;; putc_all fg bg cs
  end.

Lemma putc_all_safe s cs fg bg :
  screen s -> cursor_ok s -> Forall (fun c => 0 <= c < 256) cs -> 0 <= fg < 16 -> 0 <= bg < 16 ->
  wp (putc_all fg bg cs) (fun _ s' => same_geometry s s' /\ cursor_ok s') s.
Proof.
  intros Hs Hc Hcs Hfg Hbg. revert s Hs Hc. induction Hcs as [|c cs Hr Hcs IH]; intros s Hs Hc; cbn [putc_all].
  - rewrite wp_ret. split; [apply same_geometry_refl|done].
  - rewrite wp_bind. eapply wp_mono; [by apply putc_safe_lemma|]. intros [] s' [Hg Hc'].
    eapply wp_mono; [apply IH; [by eapply screen_same|done]|]. intros [] s2 [Hg2 Hc2].
    split; [by eapply same_geometry_trans|done].
Qed.

(** A negative character has no glyph. *)
Lemma putc_negative s c fg bg : screen s -> -128 <= c < 0 -> _putc c fg bg s = Fault.
Proof.
  intros Hs Hc. destruct (sc_h _ Hs) as (_ & Hf & _). pose proof (sc_font _ Hs) as Hl.
  unfold _putc. rewrite (proj2 (Z.eqb_neq c 10)), (proj2 (Z.eqb_neq c 13)) by lia. apply bind_Fault. unfold draw_glyph.
  rewrite (bind_Ret _ _ s s s) by done. apply for_to_Fault; [lia|]. rewrite Z.add_0_r. apply bind_Fault. unfold need.
  assert (u32 (c * h_font s) = c * h_font s + 2 ^ 32) as ->.
  { unfold u32. symmetry. apply (Z.mod_unique_pos _ _ (-1)); nia. }
  by rewrite (proj2 (zget_None _ _)) by nia.
Qed.

(** C23. Writing a text of bytes, which [console.c] passes on as signed
    characters: from a cursor inside the screen a text without bytes from 128
    on keeps all accesses inside the frame buffer, the font and the colour map
    (line feeds, wrapping and scrolling included) and leaves the cursor inside
    the screen and the geometry as it was; a text with such a byte does not, a
    negative character is looked for before the start of the font. *)
Theorem putc_stays_on_screen s text fg bg :
  screen s -> cursor_ok s -> Forall (fun b => 0 <= b < 256) text -> 0 <= fg < 16 -> 0 <= bg < 16 ->
  if forallb (fun b => b <? 128) text then
    wp (putc_all fg bg (s8 <$> text)) (fun _ s' => same_geometry s s' /\ cursor_ok s') s
  else putc_all fg bg (s8 <$> text) s = Fault.
Proof.
  intros Hs Hc Ht Hfg Hbg. destruct (forallb _ text) eqn:Hall.
  - apply putc_all_safe; [done..| |done|done]. rewrite forallb_forall in Hall. apply Forall_fmap, Forall_forall. intros b Hb.
    pose proof (Hall b (proj1 (list_elem_of_In _ _) Hb)). rewrite Forall_forall in Ht. specialize (Ht b Hb). cbn. unfold s8.
    rewrite Z.mod_small; lia.
  - revert s Hs Hc Hall. induction Ht as [|b text Hb Ht IH]; intros s Hs Hc Hall; [done|]. cbn [forallb] in Hall. cbn [fmap list_fmap putc_all].
    destruct (Z.ltb_spec b 128) as [Hlow|Hhigh].
    + assert (s8 b = b) as -> by (unfold s8; rewrite Z.mod_small; lia).
      pose proof (putc_safe_lemma s b fg bg Hs Hc Hb Hfg Hbg) as ([] & s1 & E & Hg & Hc1)%wp_run.
      rewrite (bind_Ret _ _ _ _ _ E). apply IH; [by eapply screen_same|done|done].
    + apply bind_Fault. apply putc_negative; [done|]. assert (s8 b = b - 256) as ->; [|lia].
      unfold s8. rewrite <- (Z.mod_unique_pos (b + 2 ^ 7) (2 ^ 8) 1 (b - 128)); lia.
Qed.

(** * Clearing and scrolling down *)

(** Clearing lines blackens, and only blackens, the pixels from the start
    of the cursor's line to the end of the screen, from the start of the screen
    to the cursor's line (the cursor's own line not included), or all of them. *)
Theorem clear_lines_correct s dir :
  screen s -> 0 <= cursor_y s <= h_chars s ->
  let here := rows s (cursor_y s) in
  wp (_clear_lines dir) (fun _ s' => exists m, s' = set_fb m s /\ length m = length (fb_mem s) /\
    forall k, 0 <= k < w_pixels s * h_pixels s ->
      zget m k = if match dir with
                    | CONSOLE_CLEAR_DIRECTION_FORWARD => here <=? k
                    | CONSOLE_CLEAR_DIRECTION_BACKWARD => k <? here
                    | _ => true
                    end then Some 0 else zget (fb_mem s) k) s.
Proof.
  intros Hs Hy here. destruct (sc_w _ Hs) as (? & _ & _), (sc_h _ Hs) as (? & ? & ? & ?).
  pose proof (sc_small _ Hs). pose proof (sc_size _ Hs).
  assert (0 <= cursor_y s * h_font s <= h_pixels s) by nia.
  assert (0 <= here <= w_pixels s * h_pixels s) by (subst here; unfold rows; nia).
  assert (h_pixels s < 2 ^ 30) by nia.
  unfold _clear_lines. rewrite wp_bind, wp_get. cbv zeta.
  rewrite (u32_small (cursor_y s * h_font s)) by lia. fold (rows s (cursor_y s)) here. rewrite !u32_small by lia.
  set (i0 := match dir with CONSOLE_CLEAR_DIRECTION_FORWARD => here | _ => 0 end).
  set (i1 := match dir with CONSOLE_CLEAR_DIRECTION_BACKWARD => here | _ => w_pixels s * h_pixels s end).
  assert (0 <= i0 <= i1 /\ i1 <= w_pixels s * h_pixels s) as Hi by (subst i0 i1; destruct dir; lia).
  apply (wp_for_to (fun i s' => exists m, s' = set_fb m s /\ length m = length (fb_mem s) /\
    forall k, 0 <= k -> zget m k = if decide (i0 <= k < i) then Some 0 else zget (fb_mem s) k)).
  - lia.
  - exists (fb_mem s). split; [by destruct s|]. split; [done|]. intros k Hk. by rewrite decide_False by lia.
  - intros i s' Hi' (m & -> & Hl & Hm). apply wp_fb_store; [cbn; lia|]. eexists. split; [reflexivity|].
    cbn [fb_mem set_fb]. split; [by rewrite length_zset|]. intros k Hk. rewrite zget_zset by lia.
    case_decide as E; [subst; by rewrite decide_True by lia|]. rewrite Hm by lia.
    destruct (decide (i0 <= k < i)); [by rewrite decide_True by lia|by rewrite decide_False by lia].
  - intros s' (m & -> & Hl & Hm). exists m. split_and!; [done..|]. intros k Hk. rewrite Hm by lia.
    subst i0 i1. destruct dir; cbn; case_decide; try case_goal; bool_prop; try done; lia.
Qed.

(** Scrolling down by one line or more, up to the height of the screen,
    moves the picture down by that many rows of characters: the rows that leave
    the screen are lost and black ones appear at the top. *)
Theorem scroll_down_correct s lines :
  screen s -> 1 <= lines -> rows s lines <= w_pixels s * h_pixels s ->
  let n := Z.to_nat (rows s lines) in
  _scroll_down lines s =
    Ret (tt, set_fb (replicate n 0 ++ take (length (fb_mem s) - n) (fb_mem s)) s).
Proof.
  intros Hs Hl Hr n. destruct (scroll_words s lines Hs ltac:(lia) Hr) as [Hoff Htot].
  pose proof (sc_size _ Hs) as Hsz. pose proof (sc_small _ Hs).
  assert (1 <= rows s lines) by (destruct (sc_w _ Hs), (sc_h _ Hs); unfold rows; nia).
  set (off := scroll_offset lines s) in *. set (tot := total_words s) in *. set (m0 := fb_mem s) in *.
  eapply (wp_eq' (fun _ s' => exists m, s' = set_fb m s /\ length m = length m0 /\ forall k, 0 <= k < 4 * tot ->
      zget m k = if decide (k < 4 * off) then Some 0 else zget m0 (k - 4 * off))).
  - unfold _scroll_down. rewrite wp_bind, wp_get. cbv zeta. fold off tot. rewrite wp_bind.
    rewrite u32_small by lia.
    apply (wp_loop (fun i s' => off - 1 <= i < tot /\ exists m, s' = set_fb m s /\ length m = length m0 /\
        forall k, 0 <= k < 4 * tot -> zget m k = if decide (4 * (i + 1) <= k) then zget m0 (k - 4 * off) else zget m0 k)
      (fun i _ => Z.to_nat (i + 1))); [|lia|].
    + split; [lia|]. exists m0. split; [by destruct s|]. split; [done|]. intros k Hk. by rewrite decide_False by lia.
    + intros i s' (Hi & m & -> & Hlen & Hm). destruct (Z.ltb_spec i off).
      * rewrite wp_ret. eapply wp_mono; [apply wp_words_clear; lia|]. intros [] s2 (m2 & -> & Hl2 & Hm2).
        exists m2. split_and!; [done|lia|]. intros k Hk. rewrite (Hm2 k), (Hm k) by lia.
        destruct (decide (k < 4 * off)); [by rewrite decide_True by lia|].
        rewrite decide_False by lia. by rewrite decide_True by lia.
      * rewrite wp_bind_assoc, wp_bind. eapply wp_mono; [apply wp_word_copy; lia|].
        intros [] s2 (m2 & -> & Hl2 & Hm2). rewrite wp_ret, u32_small by lia. split; [|lia].
        split; [lia|]. exists m2. split_and!; [done|lia|]. intros k Hk. rewrite (Hm2 k) by lia.
        destruct (decide (4 * i <= k < 4 * i + 4)).
        -- rewrite Hm by lia. rewrite decide_False, decide_True by lia. f_equal. lia.
        -- rewrite Hm by lia. destruct (decide (4 * (i + 1) <= k)); [by rewrite decide_True by lia|by rewrite decide_False by lia].
  - intros [] s' (m & -> & Hlen & Hm). split; [done|]. f_equal. apply zget_ext.
    { rewrite length_app, length_take, length_replicate. lia. }
    intros k Hk. rewrite Hm by lia. case_decide.
    + rewrite zget_app_l by (rewrite length_replicate; lia). rewrite zget_replicate; [done|lia].
    + rewrite zget_app_r by (rewrite length_replicate; lia). rewrite length_replicate. unfold zget.
      do 2 case_goal; bool_prop; try lia. rewrite lookup_take_lt by lia. f_equal. lia.
Qed.

(** * Where the driver leaves the screen *)

(** [_set_cursor] reduces the coordinates modulo one more than the number
    of lines: line [h_chars], below the last one, is accepted, and where the
    lines fill the screen the next character written is drawn outside of the
    frame buffer. *)
Theorem set_cursor_below_screen s x c fg bg :
  screen s -> h_chars s * h_font s = h_pixels s -> 0 <= x <= w_chars s ->
  32 <= c < 256 -> 0 <= fg < 16 -> 0 <= bg < 16 ->
  (_set_cursor x (h_chars s) ;; _putc c fg bg) s = Fault.
Proof.
  intros Hs Hh Hx Hc Hfg Hbg. pose proof (chars_small s Hs). pose proof (sc_small _ Hs).
  destruct (sc_w _ Hs) as (? & _ & ? & ? & ?), (sc_h _ Hs) as (? & ? & ? & ?).
  unfold _set_cursor. cbv [modify]. rewrite bind_assoc.
  rewrite (bind_Ret _ _ tt _ (set_cursor_x x s)) by (rewrite u32_small, Z.mod_small by lia; done).
  rewrite (bind_Ret _ _ tt _ (set_cursor_y (h_chars s) (set_cursor_x x s)))
    by (rewrite u32_small by (cbn; lia); rewrite Z.mod_small by (cbn; lia); done).
  unfold _putc. rewrite (proj2 (Z.eqb_neq c 10)), (proj2 (Z.eqb_neq c 13)) by lia.
  unfold _putc_raw. apply bind_Fault. unfold draw_glyph. cbv [bind get]. cbn.
  destruct (zget_in_range (font s) (c * h_font s)) as [d Hd]; [rewrite (sc_font _ Hs); nia|].
  destruct (zget_in_range (cmap s) (if Z.testbit d 0 then fg else bg)) as [v Hv].
  { rewrite (sc_cmap _ Hs). destruct (Z.testbit d 0); lia. }
  apply for_to_Fault; [lia|]. rewrite Z.add_0_r, u32_small by nia. cbv [bind]. rewrite Hd. cbn [need ret].
  unfold draw_row. cbv [bind get]. cbn [w_font w_pixels cmap set_cursor_x set_cursor_y].
  apply for_to_Fault; [lia|]. cbv [bind]. rewrite Hv. cbn [need ret]. unfold fb_store, byte_store.
  cbv [bind gets]. cbn [fb_mem set_cursor_x set_cursor_y].
  rewrite (proj2 (zget_None _ _)); [done|]. rewrite (sc_size _ Hs).
  assert (x * w_font s <= w_pixels s) by nia. assert (w_pixels s < 2 ^ 30) by nia.
  rewrite s32_small by nia. rewrite Hh, !Z.add_0_r. rewrite s32_small by nia.
  rewrite (u32_small (h_pixels s * w_pixels s)) by nia. rewrite u32_small by nia. nia.
Qed.

(** * A small screen *)

(** Four by two pixels, a font of two by one pixels (the row of a character is
    its own code), two by two cells. *)
Definition toy_screen (x y : Z) : FbCon :=
  MkFbCon (replicate 8 7) (map Z.of_nat (seq 0 256)) 4 2 2 2 2 1 x y (map Z.of_nat (seq 0 16)).

Lemma toy_screen_ok x y : screen (toy_screen x y).
Proof. split; repeat split; cbv; congruence. Qed.
Lemma toy_cursor_ok x y : 0 <= x < 2 -> 0 <= y < 2 -> cursor_ok (toy_screen x y).
Proof. done. Qed.

Example putc_last_cell :
  match _putc 65 1 2 (toy_screen 1 1) with
  | Ret (_, s') => (fb_mem s', cursor_x s', cursor_y s') = ([7; 7; 1; 2; 0; 0; 0; 0], 0, 1)
  | _ => False
  end.
Proof. by vm_compute. Qed.

Lemma putc_draws_glyph_witness :
  exists m, drawn (toy_screen 1 1) 65 1 2 1 0 (replicate 8 7) m /\
    _putc 65 1 2 (toy_screen 1 1) = Ret (tt, next_cell (set_fb m (toy_screen 1 1))).
Proof.
  apply (putc_draws_glyph (toy_screen 1 1) 65 1 2); [apply toy_screen_ok|by apply toy_cursor_ok|lia..].
Defined.

Lemma putc_stays_on_screen_witness :
  wp (putc_all 1 2 (s8 <$> [65; 66; 10; 13; 126])) (fun _ s' => same_geometry (toy_screen 1 0) s' /\ cursor_ok s') (toy_screen 1 0) /\
  putc_all 1 2 (s8 <$> [65; 200]) (toy_screen 1 0) = Fault.
Proof.
  assert (forall l, Forall (fun b => 0 <= b < 256) l ->
    if forallb (fun b => b <? 128) l then
      wp (putc_all 1 2 (s8 <$> l)) (fun _ s' => same_geometry (toy_screen 1 0) s' /\ cursor_ok s') (toy_screen 1 0)
    else putc_all 1 2 (s8 <$> l) (toy_screen 1 0) = Fault) as H.
  { intros l Hl. apply putc_stays_on_screen; [apply toy_screen_ok|by apply toy_cursor_ok|exact Hl|lia..]. }
  assert (Forall (fun b => 0 <= b < 256) [65; 66; 10; 13; 126] /\ Forall (fun b => 0 <= b < 256) [65; 200]) as [Hl1 Hl2] by (split; repeat (apply Forall_cons; split; [lia|]); apply Forall_nil; exact I).
  pose proof (H _ Hl1) as H1. pose proof (H _ Hl2) as H2. clear H.
  replace (forallb (fun b => b <? 128) [65; 66; 10; 13; 126]) with true in H1 by reflexivity.
  replace (forallb (fun b => b <? 128) [65; 200]) with false in H2 by reflexivity. exact (conj H1 H2).
Defined.

Lemma clear_lines_correct_witness :
  wp (_clear_lines CONSOLE_CLEAR_DIRECTION_BACKWARD)
    (fun _ s' => exists m, s' = set_fb m (toy_screen 0 1) /\ length m = 8%nat /\
      forall k, 0 <= k < 8 -> zget m k = if k <? 4 then Some 0 else zget (replicate 8 7) k) (toy_screen 0 1).
Proof.
  apply (clear_lines_correct (toy_screen 0 1) CONSOLE_CLEAR_DIRECTION_BACKWARD); [apply toy_screen_ok|cbn; lia].
Defined.

Lemma scroll_down_correct_witness :
  _scroll_down 1 (toy_screen 0 1) = Ret (tt, set_fb ([0; 0; 0; 0] ++ replicate 4 7) (toy_screen 0 1)).
Proof. apply (scroll_down_correct (toy_screen 0 1) 1); [apply toy_screen_ok|lia|cbv; congruence]. Defined.

Lemma set_cursor_below_screen_witness :
  (_set_cursor 0 2 ;; _putc 65 1 2) (toy_screen 0 0) = Fault.
Proof. apply (set_cursor_below_screen (toy_screen 0 0) 0 65 1 2); [apply toy_screen_ok|cbn; lia..]. Defined.
