(* ===== verification/Gdb.v ===== *)
(** The stub of the remote debugger: [kernel/gdb-stub.c], over the debug port
    of [kernel/debug.c].

    The port is a pair of byte streams, from and to the host.  Memory that the
    host reads and writes is the map of the bytes that exist; an access to
    another address is a bus error, which the stub answers with [E03].  What
    the stub prints about itself when [remote_debug] is set is not modelled.
    A command that resumes the program ends the session with the registers that
    it resumes with; the exception frames are in [GdbFrames]. *)

From S2P Require Import Prelude CString.

Definition BUFMAX : Z := 400.
Definition NUMREGBYTES : Z := 180.
(** The registers that the stub changes, by their number. *)
Definition PS : Z := 16.
Definition PC : Z := 17.

Record Gdb : Type := MkGdb {
  rx : list Z;
  tx : list Z;
  remcomInBuffer : list Z;
  remcomOutBuffer : list Z;
  registers : list Z;
  target : gmap Z Z;
  remote_debug : bool;
}.

Definition set_rx (l : list Z) (s : Gdb) : Gdb :=
  MkGdb l (tx s) (remcomInBuffer s) (remcomOutBuffer s) (registers s) (target s) (remote_debug s).
Definition set_tx (l : list Z) (s : Gdb) : Gdb :=
  MkGdb (rx s) l (remcomInBuffer s) (remcomOutBuffer s) (registers s) (target s) (remote_debug s).
Definition set_in (l : list Z) (s : Gdb) : Gdb :=
  MkGdb (rx s) (tx s) l (remcomOutBuffer s) (registers s) (target s) (remote_debug s).
Definition set_outbuf (l : list Z) (s : Gdb) : Gdb :=
  MkGdb (rx s) (tx s) (remcomInBuffer s) l (registers s) (target s) (remote_debug s).
Definition set_registers (l : list Z) (s : Gdb) : Gdb :=
  MkGdb (rx s) (tx s) (remcomInBuffer s) (remcomOutBuffer s) l (target s) (remote_debug s).
Definition set_target (m : gmap Z Z) (s : Gdb) : Gdb :=
  MkGdb (rx s) (tx s) (remcomInBuffer s) (remcomOutBuffer s) (registers s) m (remote_debug s).
Definition set_debug (b : bool) (s : Gdb) : Gdb :=
  MkGdb (rx s) (tx s) (remcomInBuffer s) (remcomOutBuffer s) (registers s) (target s) b.

(** * The port *)

(** When the host sends nothing more the stub waits: the model gives up. *)
Definition debug_get_byte : M Gdb Z :=
  let* l := gets rx in
  match l with
  | [] => timeout
  | b :: l' => modify (set_rx l') ;; ret b
  end.
Definition debug_put_byte (b : Z) : M Gdb unit := modify (fun s => set_tx (tx s ++ [u8 b]) s).

(** * Hexadecimal digits *)

(** "0123456789abcdef" *)
Definition hexchars : list Z := [48; 49; 50; 51; 52; 53; 54; 55; 56; 57; 97; 98; 99; 100; 101; 102].
Definition hexchar (n : Z) : M Gdb Z := need (zget hexchars n).

Definition hex (ch : Z) : Z :=
  if (97 <=? ch) && (ch <=? 102) then ch - 97 + 10
  else if (48 <=? ch) && (ch <=? 57) then ch - 48
  else if (65 <=? ch) && (ch <=? 70) then ch - 65 + 10
  else -1.

(** * The buffers *)

Definition in_char (i : Z) : M Gdb Z := let* l := gets remcomInBuffer in need (zget l i).
Definition put_in (i v : Z) : M Gdb unit :=
  let* l := gets remcomInBuffer in
  let* _ := need (zget l i) in
  modify (set_in (zset l i (u8 v))).
Definition out_char (i : Z) : M Gdb Z := let* l := gets remcomOutBuffer in need (zget l i).
Definition put_out (i v : Z) : M Gdb unit :=
  let* l := gets remcomOutBuffer in
  let* _ := need (zget l i) in
  modify (set_outbuf (zset l i (u8 v))).

(** [strcpy] of a literal to the reply. *)
Fixpoint put_reply (i : Z) (l : list Z) : M Gdb unit :=
  match l with
  | [] => put_out i 0
  | c :: l' => put_out i c ;; put_reply (i + 1) l'
  end.

(** * Packets *)

(** Wait for the start character. *)
Definition start_char (_ : unit) : M Gdb (unit + unit) :=
  let* b := debug_get_byte in
  if s8 b =? 36 (* $ *) then ret (inr tt) else ret (inl tt).

(** Read to the end of the packet or of the buffer: the checksum, the number of
    characters and whether the end was found.  A start character starts anew. *)
Definition data_char (a : Z * Z) : M Gdb (Z * Z + Z * Z * bool) :=
  let '(checksum, count) := a in
  if count <? BUFMAX - 1 then
    let* b := debug_get_byte in
    let ch := s8 b in
    if ch =? 36 then ret (inl (0, 0))
    else if ch =? 35 (* # *) then ret (inr (checksum, count, true))
    else put_in count ch ;; ret (inl (u8 (checksum + ch), count + 1))
  else ret (inr (checksum, count, false)).

(** The two digits of the checksum, and the answer to it: the offset of the
    packet's data in the buffer, or none. *)
Definition end_packet (checksum : Z) : M Gdb (option Z) :=
  let* b := debug_get_byte in
  let xmitcsum := u8 (hex (s8 b) * 16) in
  let* b := debug_get_byte in
  let xmitcsum := u8 (xmitcsum + hex (s8 b)) in
  if negb (checksum =? xmitcsum) then debug_put_byte 45 (* - *) ;; ret None
  else
    debug_put_byte 43 (* + *) ;;
    let* c := in_char 2 in
    if c =? 58 (* : *) then
      let* c0 := in_char 0 in debug_put_byte c0 ;;
      let* c1 := in_char 1 in debug_put_byte c1 ;;
      ret (Some 3)
    else ret (Some 0).

Definition receive (fuel : nat) (_ : unit) : M Gdb (unit + Z) :=
  loop fuel tt start_char ;;
  let* ' (checksum, count, found) := loop fuel (0, 0) data_char in
  put_in count 0 ;;
  if (found : bool) then
    let* o := end_packet checksum in
    match o with Some p => ret (inr p) | None => ret (inl tt) end
  else ret (inl tt).

(** Every turn reads a character: [fuel] one more than the characters that come
    is enough. *)
Definition getpacket (fuel : nat) : M Gdb Z := loop fuel tt (receive fuel).

(** A character of the reply. *)
Definition send_char (a : Z * Z) : M Gdb (Z * Z + Z) :=
  let '(checksum, count) := a in
  let* ch := out_char count in
  if ch =? 0 then ret (inr checksum)
  else debug_put_byte ch ;; ret (inl (u8 (checksum + s8 ch), count + 1)).

Definition send (_ : unit) : M Gdb (unit + unit) :=
  debug_put_byte 36 ;;
  let* checksum := loop (S (Z.to_nat BUFMAX)) (0, 0) send_char in
  debug_put_byte 35 ;;
  let* c := hexchar (Z.shiftr checksum 4) in debug_put_byte c ;;
  let* c := hexchar (checksum mod 16) in debug_put_byte c ;;
  let* a := debug_get_byte in
  if a =? 43 then ret (inr tt) else ret (inl tt).

(** Send the reply until the host acknowledges it. *)
Definition putpacket (fuel : nat) : M Gdb unit := loop fuel tt send.

(** * Conversions *)

(** [mem2hex] of [count] bytes to the reply; [rd] reads the byte at an offset,
    [None] is a bus error.  The result is whether there was none. *)
Definition mem2hex (rd : Z -> M Gdb (option Z)) (count : Z) : M Gdb bool :=
  let* r := for_range (R := unit) (Z.to_nat count) 0 (fun i =>
    let* o := rd i in
    match o with
    | None => ret (Some tt)
    | Some ch =>
        let* c := hexchar (Z.shiftr ch 4) in put_out (2 * i) c ;;
        let* c := hexchar (ch mod 16) in put_out (2 * i + 1) c ;;
        ret None
    end) in
  match r with
  | Some _ => ret false
  | None => put_out (2 * Z.max 0 count) 0 ;; ret true
  end.

(** [hex2mem] from the packet at [buf]; [wr] writes the byte at an offset. *)
Definition hex2mem (buf : Z) (wr : Z -> Z -> M Gdb bool) (count : Z) : M Gdb bool :=
  let* r := for_range (R := unit) (Z.to_nat count) 0 (fun i =>
    let* c := in_char (buf + 2 * i) in
    let ch := u8 (hex (s8 c) * 16) in
    let* c := in_char (buf + 2 * i + 1) in
    let ch := u8 (ch + hex (s8 c)) in
    let* ok := wr i ch in
    ret (if (ok : bool) then None else Some tt)) in
  ret (match r with Some _ => false | None => true end).

(** The digits are read up to the first other character: how many, the place
    after them and the value. *)
Definition hex_digit (a : Z * Z * Z) : M Gdb (Z * Z * Z + Z * Z * Z) :=
  let '(n, p, v) := a in
  let* c := in_char p in
  if c =? 0 then ret (inr (n, p, v)) else
  let h := hex (s8 c) in
  if 0 <=? h then ret (inl (n + 1, p + 1, s32 (Z.lor (Z.shiftl v 4) h)))
  else ret (inr (n, p, v)).
Definition hexToInt (ptr : Z) : M Gdb (Z * Z * Z) := loop (S (Z.to_nat BUFMAX)) (0, ptr, 0) hex_digit.

(** * Commands *)

Definition computeSignal (exceptionVector : Z) : Z :=
  match exceptionVector with
  | 2 | 3 => 10 | 4 => 4 | 5 | 6 | 7 => 8 | 8 => 11 | 9 => 5 | 10 | 11 => 4 | 13 => 10 | 31 => 2 | 33 => 5
  | 40 | 48 | 49 | 50 | 51 | 52 | 53 | 54 => 8
  | _ => 7
  end.

Definition read_register (i : Z) : M Gdb (option Z) :=
  let* l := gets registers in let* b := need (zget l i) in ret (Some b).
Definition write_register (i v : Z) : M Gdb bool :=
  let* l := gets registers in
  let* _ := need (zget l i) in
  modify (set_registers (zset l i v)) ;; ret true.
Definition read_target (addr i : Z) : M Gdb (option Z) := gets (fun s => target s !! u32 (addr + i)).
Definition write_target (addr i v : Z) : M Gdb bool :=
  let* m := gets target in
  match m !! u32 (addr + i) with
  | None => ret false
  | Some _ => modify (set_target (<[u32 (addr + i) := v]> m)) ;; ret true
  end.

(** Register [n] as a word. *)
Definition get_reg (n : Z) : M Gdb Z :=
  let* l := gets registers in
  let* b0 := need (zget l (4 * n)) in
  let* b1 := need (zget l (4 * n + 1)) in
  let* b2 := need (zget l (4 * n + 2)) in
  let* b3 := need (zget l (4 * n + 3)) in
  ret (((b0 * 256 + b1) * 256 + b2) * 256 + b3).
Definition set_reg (n v : Z) : M Gdb unit :=
  let v := u32 v in
  write_register (4 * n) (v / 2 ^ 24) ;; write_register (4 * n + 1) (v / 2 ^ 16 mod 256) ;;
  write_register (4 * n + 2) (v / 2 ^ 8 mod 256) ;; write_register (4 * n + 3) (v mod 256) ;; ret tt.

(** The reply that names the signal. *)
Definition reply_signal (sigval : Z) : M Gdb unit :=
  put_out 0 83 (* S *) ;;
  let* c := hexchar (Z.shiftr sigval 4) in put_out 1 c ;;
  let* c := hexchar (sigval mod 16) in put_out 2 c ;;
  put_out 3 0.

(** Read [AA..AA,LLLL] at [ptr]: the address, the length and the place after
    them. *)
Definition parse_range (ptr : Z) : M Gdb (option (Z * Z * Z)) :=
  let* ' (n, ptr, addr) := hexToInt ptr in
  if n =? 0 then ret None else
  let* c := in_char ptr in
  if negb (c =? 44 (* , *)) then ret None else
  let* ' (n, ptr, length) := hexToInt (ptr + 1) in
  if n =? 0 then ret None else ret (Some (addr, length, ptr)).

Definition read_memory (ptr : Z) : M Gdb unit :=
  let* r := parse_range ptr in
  match r with
  | None => put_reply 0 [69; 48; 49] (* E01 *)
  | Some (addr, length, _) =>
      let* ok := mem2hex (read_target addr) length in
      if (ok : bool) then ret tt else put_reply 0 [69; 48; 51] (* E03 *)
  end.

Definition write_memory (ptr : Z) : M Gdb unit :=
  let* r := parse_range ptr in
  match r with
  | None => put_reply 0 [69; 48; 50] (* E02 *)
  | Some (addr, length, ptr) =>
      let* c := in_char ptr in
      if negb (c =? 58) then put_reply 0 [69; 48; 50] else
      let* ok := hex2mem (ptr + 1) (write_target addr) length in
      if (ok : bool) then put_reply 0 [79; 75] (* OK *) else put_reply 0 [69; 48; 51]
  end.

(** The registers with which the program is resumed. *)
Definition resume (stepping : bool) (ptr : Z) : M Gdb Z :=
  let* ' (n, _, addr) := hexToInt ptr in
  when (negb (n =? 0)) (set_reg PC addr) ;;
  let* newPC := get_reg PC in
  let* ps := get_reg PS in
  let ps := Z.land ps 32767 in
  set_reg PS (if stepping then Z.lor ps 32768 else ps) ;;
  ret newPC.

(** A command of the host; the result is the address to resume at, if it is a
    command that resumes the program. *)
Definition handle_command (fuel : nat) (sigval : Z) : M Gdb (option Z) :=
  put_out 0 0 ;;
  let* ptr := getpacket fuel in
  let* c := in_char ptr in
  let ptr := ptr + 1 in
  if c =? 63 (* ? *) then reply_signal sigval ;; ret None
  else if c =? 100 (* d *) then modify (fun s => set_debug (negb (remote_debug s)) s) ;; ret None
  else if c =? 103 (* g *) then mem2hex read_register NUMREGBYTES ;; ret None
  else if c =? 71 (* G *) then hex2mem ptr write_register NUMREGBYTES ;; put_reply 0 [79; 75] ;; ret None
  else if c =? 109 (* m *) then read_memory ptr ;; ret None
  else if c =? 77 (* M *) then write_memory ptr ;; ret None
  else if c =? 115 (* s *) then let* pc := resume true ptr in ret (Some pc)
  else if c =? 99 (* c *) then let* pc := resume false ptr in ret (Some pc)
  else ret None.

(** [stepping] stays set after a command that steps, which ends the session. *)
Definition handle_exception (fuel : nat) (exceptionVector : Z) : M Gdb Z :=
  let sigval := computeSignal exceptionVector in
  reply_signal sigval ;;
  putpacket fuel ;;
  loop fuel tt (fun _ =>
    let* r := handle_command fuel sigval in
    match r with
    | Some pc => ret (inr pc)
    | None => putpacket fuel ;; ret (inl tt)
    end).

(** * Texts *)

(** The sum of some characters, as [char]s in an [unsigned char]. *)
Definition sum_from (a : Z) (l : list Z) : Z := fold_left (fun a c => u8 (a + s8 c)) l a.
Definition hexchar_of (n : Z) : Z := byte_at hexchars n.
(** A byte as two digits. *)
Definition hex2 (b : Z) : list Z := [hexchar_of (Z.shiftr b 4); hexchar_of (b mod 16)].
Definition hex_text (l : list Z) : list Z := l ≫= hex2.
(** A packet: [$<data>#<checksum>]. *)
Definition packet (l : list Z) : list Z := 36 :: l ++ 35 :: hex2 (sum_from 0 l).

(** A character that data can have. *)
Definition data_ok (c : Z) : Prop := 0 < c < 256 /\ c <> 36 /\ c <> 35.

(** [l] with [c] at and after [i]. *)
Fixpoint store_at (i : Z) (c : list Z) (l : list Z) : list Z :=
  match c with
  | [] => l
  | b :: c' => store_at (i + 1) c' (zset l i b)
  end.

Definition buffers_ok (s : Gdb) : Prop :=
  length (remcomInBuffer s) = Z.to_nat BUFMAX /\ length (remcomOutBuffer s) = Z.to_nat BUFMAX.

Lemma length_store_at i c l : length (store_at i c l) = length l.
Proof. revert i l. induction c as [|b c IH]; intros i l; [done|]. cbn. by rewrite IH, length_zset. Qed.

Lemma zget_store_at c i l k : 0 <= i -> i + Z.of_nat (length c) <= Z.of_nat (length l) ->
  zget (store_at i c l) k = if decide (i <= k < i + Z.of_nat (length c)) then zget c (k - i) else zget l k.
Proof.
  revert i l. induction c as [|b c IH]; intros i l Hi Hl; cbn [store_at length] in *.
  - by rewrite decide_False by lia.
  - rewrite IH by (rewrite ?length_zset; lia). repeat case_decide; try lia.
    + unfold zget. destruct (Z.ltb_spec (k - (i + 1)) 0), (Z.ltb_spec (k - i) 0); try lia.
      replace (Z.to_nat (k - i)) with (S (Z.to_nat (k - (i + 1)))) by lia. done.
    + assert (k = i) as -> by lia. rewrite Z.sub_diag. rewrite zget_zset_eq by lia. done.
    + by rewrite zget_zset_ne by lia.
Qed.

(** * The digits *)

Lemma hexchars_range n : 0 <= n < 16 -> zget hexchars n = Some (hexchar_of n) /\ hex (hexchar_of n) = n /\
  0 < hexchar_of n < 128.
Proof.
  intros Hn. assert (Forall (fun n => zget hexchars n = Some (hexchar_of n) /\ hex (hexchar_of n) = n /\
    0 < hexchar_of n < 128) (seqZ 0 16)) as H by by repeat constructor.
  rewrite Forall_forall in H. by apply H, elem_of_seqZ.
Qed.

Lemma nibbles b : 0 <= b < 256 -> 0 <= Z.shiftr b 4 < 16 /\ 0 <= b mod 16 < 16 /\ Z.shiftr b 4 * 16 + b mod 16 = b.
Proof. intros Hb. rewrite Z.shiftr_div_pow2 by lia. change (2 ^ 4) with 16. mod_lia. Qed.

Lemma s8_low c : 0 <= c < 128 -> s8 c = c.
Proof. intros Hc. unfold s8. rewrite Z.mod_small; lia. Qed.

Lemma sum_range l a : 0 <= a < 256 -> 0 <= sum_from a l < 256.
Proof. revert a. induction l as [|c l IH]; intros a Ha; [done|]. apply IH, u8_range. Qed.

Lemma put_in_eq s i v : 0 <= i < Z.of_nat (length (remcomInBuffer s)) ->
  put_in i v s = Ret (tt, set_in (zset (remcomInBuffer s) i (u8 v)) s).
Proof. intros Hi. destruct (zget_in_range _ _ Hi) as [x Hx]. cbv [put_in bind gets need]. by rewrite Hx. Qed.
Lemma in_char_eq s i c : zget (remcomInBuffer s) i = Some c -> in_char i s = Ret (c, s).
Proof. intros Hc. cbv [in_char bind gets need]. by rewrite Hc. Qed.
Lemma out_char_eq s i c : zget (remcomOutBuffer s) i = Some c -> out_char i s = Ret (c, s).
Proof. intros Hc. cbv [out_char bind gets need]. by rewrite Hc. Qed.
Lemma put_out_eq s i v : 0 <= i < Z.of_nat (length (remcomOutBuffer s)) ->
  put_out i v s = Ret (tt, set_outbuf (zset (remcomOutBuffer s) i (u8 v)) s).
Proof. intros Hi. destruct (zget_in_range _ _ Hi) as [x Hx]. cbv [put_out bind gets need]. by rewrite Hx. Qed.
Lemma get_byte_eq s b l : rx s = b :: l -> debug_get_byte s = Ret (b, set_rx l s).
Proof. intros Hl. cbv [debug_get_byte bind gets]. by rewrite Hl. Qed.
Lemma hexchar_eq n s : 0 <= n < 16 -> hexchar n s = Ret (hexchar_of n, s).
Proof. intros Hn. unfold hexchar. by rewrite (proj1 (hexchars_range n Hn)). Qed.
Lemma u8_s8 c : 0 <= c < 256 -> u8 (s8 c) = c.
Proof. intros Hc. unfold u8, s8. rewrite Zminus_mod, Z.mod_mod, <- Zminus_mod by lia. rewrite Z.add_simpl_r. apply Z.mod_small. lia. Qed.

(** * Receiving a packet *)

Lemma wait_start_eq junk s rest fuel :
  rx s = junk ++ 36 :: rest -> Forall (fun c => 0 <= c < 256 /\ c <> 36) junk -> (length junk < fuel)%nat ->
  loop fuel tt start_char s = Ret (tt, set_rx rest s).
Proof.
  intros Hrx Hj. revert s fuel Hrx. induction Hj as [|c junk [Hc Hne] Hj IH]; intros s fuel Hrx Hf;
    (destruct fuel as [|fuel]; [cbn in Hf; lia|]).
  - apply loop_done. unfold start_char. by rewrite (bind_Ret _ _ _ _ _ (get_byte_eq _ _ _ Hrx)).
  - rewrite (loop_next _ tt tt start_char s (set_rx (junk ++ 36 :: rest) s)).
    + rewrite (IH (set_rx (junk ++ 36 :: rest) s)); [done|done|cbn in Hf; lia].
    + unfold start_char. rewrite (bind_Ret _ _ _ _ _ (get_byte_eq _ _ _ Hrx)).
      destruct (Z.eqb_spec (s8 c) 36) as [E|]; [|done]. exfalso. apply Hne.
      apply s8_inj; [lia|lia|]. by rewrite E.
Qed.

Lemma data_chars_eq l s rest fuel sum count :
  rx s = l ++ 35 :: rest -> Forall data_ok l -> (length l < fuel)%nat ->
  length (remcomInBuffer s) = Z.to_nat BUFMAX -> 0 <= count -> count + Z.of_nat (length l) < BUFMAX - 1 ->
  loop fuel (sum, count) data_char s =
    Ret ((sum_from sum l, count + Z.of_nat (length l), true),
         set_rx rest (set_in (store_at count l (remcomInBuffer s)) s)).
Proof.
  unfold BUFMAX. intros Hrx Hl. revert s fuel sum count Hrx.
  induction Hl as [|c l (Hc & H36 & H35) Hl IH]; intros s fuel sum count Hrx Hf Hlen H0 Hcnt;
    (destruct fuel as [|fuel]; [cbn in Hf; lia|]).
  - apply loop_done. unfold data_char, BUFMAX. cbn in Hcnt. rewrite (proj2 (Z.ltb_lt count (400 - 1))) by lia.
    rewrite (bind_Ret _ _ _ _ _ (get_byte_eq _ _ _ Hrx)). cbn. rewrite Z.add_0_r. done.
  - cbn [length] in *. rewrite (loop_next _ _ (u8 (sum + s8 c), count + 1) data_char s
      (set_in (zset (remcomInBuffer s) count c) (set_rx (l ++ 35 :: rest) s))).
    + rewrite IH; [|done|lia|cbn; by rewrite length_zset|lia|lia]. cbn [sum_from fold_left store_at].
      unfold set_rx, set_in. cbn. do 3 f_equal. f_equal. lia.
    + unfold data_char, BUFMAX. rewrite (proj2 (Z.ltb_lt count (400 - 1))) by lia.
      rewrite (bind_Ret _ _ _ _ _ (get_byte_eq _ _ _ Hrx)).
      destruct (Z.eqb_spec (s8 c) 36) as [E|]; [exfalso; apply H36, s8_inj; [lia|lia|by rewrite E]|].
      destruct (Z.eqb_spec (s8 c) 35) as [E|]; [exfalso; apply H35, s8_inj; [lia|lia|by rewrite E]|].
      rewrite (bind_Ret _ _ tt _ (set_in (zset (remcomInBuffer s) count c) (set_rx (l ++ 35 :: rest) s))); [done|].
      rewrite put_in_eq by (cbn; lia). cbn. by rewrite u8_s8 by lia.
Qed.

Lemma checksum_digits a b hi lo : a = hexchar_of hi -> b = hexchar_of lo -> 0 <= hi < 16 -> 0 <= lo < 16 ->
  u8 (u8 (hex (s8 a) * 16) + hex (s8 b)) = hi * 16 + lo.
Proof.
  intros -> -> Hhi Hlo. destruct (hexchars_range hi Hhi) as (_ & H1 & H2), (hexchars_range lo Hlo) as (_ & H3 & H4).
  rewrite !s8_low by lia. rewrite H1, H3. rewrite (u8_small (hi * 16)) by lia. apply u8_small. lia.
Qed.

(** The buffer after a packet. *)
Definition received (l : list Z) (buf : list Z) : list Z := zset (store_at 0 l buf) (Z.of_nat (length l)) 0.

Lemma receive_data_eq junk l s rest fuel :
  rx s = junk ++ 36 :: l ++ 35 :: rest -> Forall (fun c => 0 <= c < 256 /\ c <> 36) junk -> Forall data_ok l ->
  (length (rx s) < fuel)%nat -> length (remcomInBuffer s) = Z.to_nat BUFMAX -> Z.of_nat (length l) < BUFMAX - 1 ->
  receive fuel tt s = (let* o := end_packet (sum_from 0 l) in
    match o with Some p => ret (inr p) | None => ret (inl tt) end)
    (set_rx rest (set_in (received l (remcomInBuffer s)) s)).
Proof.
  intros Hrx Hj Hl Hf Hlen Hn. unfold BUFMAX in *. rewrite Hrx, length_app in Hf. cbn in Hf. rewrite length_app in Hf. cbn in Hf.
  unfold receive. rewrite (bind_Ret _ _ _ _ _ (wait_start_eq junk s (l ++ 35 :: rest) fuel Hrx Hj ltac:(lia))).
  erewrite bind_Ret; [|apply (data_chars_eq l _ rest); [done|done|lia|done|lia|unfold BUFMAX; lia]].
  cbv beta iota. erewrite bind_Ret; [|apply put_in_eq; cbn; rewrite length_store_at; lia]. done.
Qed.

(** Data that does not look like one with a sequence number. *)
Definition no_sequence (buf : list Z) : Prop := zget buf 2 <> Some 58.

Lemma end_packet_good s l rest :
  rx s = hex2 (sum_from 0 l) ++ rest -> length (remcomInBuffer s) = Z.to_nat BUFMAX -> no_sequence (remcomInBuffer s) ->
  end_packet (sum_from 0 l) s = Ret (Some 0, set_tx (tx s ++ [43]) (set_rx rest s)).
Proof.
  intros Hrx Hlen Hseq. unfold end_packet. destruct (nibbles (sum_from 0 l)) as (Hhi & Hlo & Hsum); [by apply sum_range|].
  rewrite (bind_Ret _ _ _ _ _ (get_byte_eq s _ _ Hrx)).
  rewrite (bind_Ret _ _ _ _ _ (get_byte_eq (set_rx _ s) _ rest eq_refl)).
  cbv zeta. erewrite checksum_digits; [|reflexivity|reflexivity|done|done]. rewrite Hsum, Z.eqb_refl. cbn [negb].
  rewrite (bind_Ret _ _ tt _ (set_tx (tx s ++ [43]) (set_rx rest s))) by done.
  destruct (zget_in_range (remcomInBuffer s) 2) as [c Hc]; [rewrite Hlen; unfold BUFMAX; lia|].
  erewrite bind_Ret; [|apply in_char_eq; exact Hc]. destruct (Z.eqb_spec c 58) as [->|]; [|done]. by destruct Hseq.
Qed.

Lemma end_packet_bad s sum a b rest :
  rx s = a :: b :: rest -> sum <> u8 (u8 (hex (s8 a) * 16) + hex (s8 b)) ->
  end_packet sum s = Ret (None, set_tx (tx s ++ [45]) (set_rx rest s)).
Proof.
  intros Hrx Hne. unfold end_packet. rewrite (bind_Ret _ _ _ _ _ (get_byte_eq s _ _ Hrx)).
  rewrite (bind_Ret _ _ _ _ _ (get_byte_eq (set_rx _ s) _ rest eq_refl)). cbv zeta.
  destruct (Z.eqb_spec sum (u8 (u8 (hex (s8 a) * 16) + hex (s8 b)))); [done|]. done.
Qed.

Lemma getpacket_good junk l s rest fuel k :
  rx s = junk ++ packet l ++ rest -> Forall (fun c => 0 <= c < 256 /\ c <> 36) junk -> Forall data_ok l ->
  (length (rx s) < fuel)%nat -> length (remcomInBuffer s) = Z.to_nat BUFMAX -> Z.of_nat (length l) < BUFMAX - 1 ->
  no_sequence (received l (remcomInBuffer s)) ->
  loop (S k) tt (receive fuel) s = Ret (0, set_tx (tx s ++ [43]) (set_rx rest (set_in (received l (remcomInBuffer s)) s))).
Proof.
  intros Hrx Hj Hl Hf Hlen Hn Hseq. apply loop_done.
  rewrite (receive_data_eq junk l s (hex2 (sum_from 0 l) ++ rest)); try done; cycle 1.
  { rewrite Hrx. unfold packet. cbn. by rewrite <- app_assoc. }
  erewrite bind_Ret; [|apply end_packet_good; [reflexivity| |exact Hseq]]; [done|].
  cbn. unfold received. by rewrite length_zset, length_store_at.
Qed.

(** * Sending a packet *)

Definition holds (buf : list Z) (i : Z) (l : list Z) : Prop :=
  forall k, 0 <= k < Z.of_nat (length l) -> zget buf (i + k) = zget l k.

Lemma holds_cons buf i c l : holds buf i (c :: l) -> zget buf i = Some c /\ holds buf (i + 1) l.
Proof.
  intros H. split.
  - rewrite <- (Z.add_0_r i). apply (H 0). cbn. lia.
  - intros k Hk. rewrite <- Z.add_assoc, (Z.add_comm 1). rewrite H by (cbn; lia). unfold zget.
    destruct (Z.ltb_spec (k + 1) 0), (Z.ltb_spec k 0); try lia.
    by replace (Z.to_nat (k + 1)) with (S (Z.to_nat k)) by lia.
Qed.
Lemma holds_store i c l : 0 <= i -> i + Z.of_nat (length c) <= Z.of_nat (length l) -> holds (store_at i c l) i c.
Proof.
  intros Hi Hl k Hk. rewrite zget_store_at by done. rewrite decide_True by lia. f_equal. lia.
Qed.

Lemma send_chars_eq l s sum count fuel :
  holds (remcomOutBuffer s) count (l ++ [0]) -> Forall (fun c => 0 < c < 256) l -> (length l < fuel)%nat ->
  loop fuel (sum, count) send_char s = Ret (sum_from sum l, set_tx (tx s ++ l) s).
Proof.
  intros Hh Hl. revert s sum count fuel Hh. induction Hl as [|c l Hc Hl IH]; intros s sum count fuel Hh Hf;
    (destruct fuel as [|fuel]; [cbn in Hf; lia|]); cbn [app] in Hh; apply holds_cons in Hh as [H0 Hh].
  - apply loop_done. unfold send_char. rewrite (bind_Ret _ _ _ _ _ (out_char_eq _ _ _ H0)). cbn.
    rewrite app_nil_r. by destruct s.
  - rewrite (loop_next _ _ (u8 (sum + s8 c), count + 1) send_char s (set_tx (tx s ++ [c]) s)).
    + rewrite (IH (set_tx (tx s ++ [c]) s)); [|done|cbn in Hf; lia]. cbn. by rewrite <- app_assoc.
    + unfold send_char. rewrite (bind_Ret _ _ _ _ _ (out_char_eq _ _ _ H0)).
      rewrite (proj2 (Z.eqb_neq c 0)) by lia. unfold debug_put_byte, bind, modify. cbn. by rewrite (u8_small c) by lia.
Qed.

Lemma u8_hexchar n : 0 <= n < 16 -> u8 (hexchar_of n) = hexchar_of n.
Proof. intros Hn. destruct (hexchars_range n Hn) as (_ & _ & ?). apply u8_small. lia. Qed.

Lemma send_eq l s a rest :
  holds (remcomOutBuffer s) 0 (l ++ [0]) -> Forall (fun c => 0 < c < 256) l -> Z.of_nat (length l) < BUFMAX ->
  rx s = a :: rest ->
  send tt s = Ret ((if a =? 43 then inr tt else inl tt), set_tx (tx s ++ packet l) (set_rx rest s)).
Proof.
  intros Hh Hl Hn Hrx. unfold BUFMAX in Hn. unfold send.
  rewrite (bind_Ret _ _ tt _ (set_tx (tx s ++ [36]) s)) by done.
  erewrite bind_Ret; [|apply (send_chars_eq l); [exact Hh|done|unfold BUFMAX; lia]]. cbn [tx set_tx].
  destruct (nibbles (sum_from 0 l)) as (Hhi & Hlo & Hsum); [by apply sum_range|].
  rewrite (bind_Ret _ _ tt _ (set_tx (((tx s ++ [36]) ++ l) ++ [35]) s)) by done.
  erewrite bind_Ret; [|by apply hexchar_eq]. unfold debug_put_byte.
  erewrite bind_Ret; [|unfold modify; rewrite u8_hexchar by done; reflexivity].
  erewrite bind_Ret; [|by apply hexchar_eq].
  erewrite bind_Ret; [|unfold modify; rewrite u8_hexchar by done; reflexivity].
  erewrite bind_Ret; [|apply get_byte_eq; cbn; exact Hrx].
  unfold set_tx, set_rx, packet, hex2. cbn. rewrite <- !app_assoc. cbn. by destruct (a =? 43).
Qed.

Lemma putpacket_eq l naks s rest fuel :
  holds (remcomOutBuffer s) 0 (l ++ [0]) -> Forall (fun c => 0 < c < 256) l -> Z.of_nat (length l) < BUFMAX ->
  rx s = naks ++ 43 :: rest -> Forall (fun c => c <> 43) naks -> (length naks < fuel)%nat ->
  putpacket fuel s =
    Ret (tt, set_tx (tx s ++ concat (replicate (S (length naks)) (packet l))) (set_rx rest s)).
Proof.
  intros Hh Hl Hn Hrx Hk. revert s fuel Hh Hrx. induction Hk as [|a naks Ha Hk IH]; intros s fuel Hh Hrx Hf;
    (destruct fuel as [|fuel]; [cbn in Hf; lia|]); unfold putpacket.
  - apply loop_done. rewrite (send_eq l s 43 rest); [|done..]. cbn. by rewrite app_nil_r.
  - rewrite (loop_next _ tt tt _ s (set_tx (tx s ++ packet l) (set_rx (naks ++ 43 :: rest) s))).
    + fold (putpacket fuel). rewrite IH; [|done|done|cbn in Hf; lia]. cbn [length]. unfold set_tx, set_rx.
      cbn [tx rx remcomInBuffer remcomOutBuffer registers target remote_debug replicate concat].
      by rewrite <- !app_assoc.
    + rewrite (send_eq l s a (naks ++ 43 :: rest)); [|done..]. by rewrite (proj2 (Z.eqb_neq a 43)).
Qed.

Lemma received_holds l buf :
  length buf = Z.to_nat BUFMAX -> Z.of_nat (length l) < BUFMAX -> holds (received l buf) 0 (l ++ [0]).
Proof.
  unfold BUFMAX. intros Hbl Hl k Hk. rewrite length_app in Hk. cbn in Hk. rewrite Z.add_0_l. unfold received.
  rewrite zget_zset by (rewrite length_store_at; lia). case_decide as E.
  - subst. rewrite zget_app_r by lia. by rewrite Z.sub_diag.
  - rewrite zget_store_at by lia. rewrite decide_True by lia. rewrite zget_app_l by lia. f_equal. lia.
Qed.

(** * The packet layer *)

(** C25. Receiving: whatever comes before the start character is ignored, a
    packet with a wrong checksum is answered with [-] and dropped, and the packet that
    follows it is acknowledged with [+] and delivered: its data stands at the
    start of the buffer, followed by zero, and nothing after the packet was
    read. *)
Theorem getpacket_recovers s junk bad a b junk2 l rest fuel :
  rx s = junk ++ (36 :: bad ++ [35; a; b]) ++ junk2 ++ packet l ++ rest ->
  Forall (fun c => 0 <= c < 256 /\ c <> 36) junk -> Forall (fun c => 0 <= c < 256 /\ c <> 36) junk2 ->
  Forall data_ok bad -> Forall data_ok l ->
  Z.of_nat (length bad) < BUFMAX - 1 -> Z.of_nat (length l) < BUFMAX - 1 ->
  sum_from 0 bad <> u8 (u8 (hex (s8 a) * 16) + hex (s8 b)) ->
  (length (rx s) < fuel)%nat -> length (remcomInBuffer s) = Z.to_nat BUFMAX ->
  no_sequence (received l (received bad (remcomInBuffer s))) ->
  wp (getpacket fuel) (fun p s' => p = 0 /\ rx s' = rest /\ tx s' = tx s ++ [45; 43] /\
    holds (remcomInBuffer s') 0 (l ++ [0])) s.
Proof.
  unfold BUFMAX. intros Hrx Hj Hj2 Hbad Hl Hnb Hn Hsum Hf Hlen Hseq. unfold getpacket.
  assert (length (rx s) = length junk + (3 + (length bad + (1 + (length (junk2 ++ packet l ++ rest))))))%nat as Hrl.
  { rewrite Hrx, !length_app. cbn [length]. rewrite length_app. cbn. lia. }
  destruct fuel as [|[|fuel]]; [lia|lia|]. set (fl := S (S fuel)) in *.
  assert (receive fl tt s = Ret (inl tt, set_tx (tx s ++ [45]) (set_rx (junk2 ++ packet l ++ rest)
    (set_in (received bad (remcomInBuffer s)) s)))) as Hfirst.
  { rewrite (receive_data_eq junk bad s (a :: b :: junk2 ++ packet l ++ rest)); try done; cycle 1.
    { rewrite Hrx. cbn. by rewrite <- app_assoc. }
    by rewrite (bind_Ret _ _ _ _ _ (end_packet_bad (set_rx (a :: b :: _) _) _ a b _ eq_refl Hsum)). }
  eapply wp_loop_next; [exact Hfirst|]. eapply wp_eq.
  { apply (getpacket_good junk2 l _ rest); try done.
    - cbn [rx set_tx set_rx]. lia.
    - cbn. unfold received. by rewrite length_zset, length_store_at. }
  cbn. split_and!; [done|done|by rewrite <- app_assoc|].
  apply received_holds; [|unfold BUFMAX; lia]. unfold received. by rewrite length_zset, length_store_at.
Qed.

(** C24. What one stub sends another receives: the bytes that [putpacket] writes
    for a reply (once more for every answer that is not [+]) are, to the stub
    at the other end, a packet with exactly the characters of the reply. *)
Theorem packet_roundtrip s1 s2 l naks rest1 rest2 fuel1 fuel2 :
  holds (remcomOutBuffer s1) 0 (l ++ [0]) -> Forall data_ok l -> Z.of_nat (length l) < BUFMAX - 1 ->
  rx s1 = naks ++ 43 :: rest1 -> Forall (fun c => c <> 43) naks -> (length naks < fuel1)%nat -> tx s1 = [] ->
  length (remcomInBuffer s2) = Z.to_nat BUFMAX -> no_sequence (received l (remcomInBuffer s2)) ->
  wp (putpacket fuel1) (fun _ s1' =>
    rx s1' = rest1 /\
    (rx s2 = tx s1' ++ rest2 -> (length (rx s2) < fuel2)%nat ->
     wp (getpacket fuel2) (fun p s2' => p = 0 /\ holds (remcomInBuffer s2') 0 (l ++ [0]) /\
       rx s2' = concat (replicate (length naks) (packet l)) ++ rest2) s2)) s1.
Proof.
  unfold BUFMAX. intros Hh Hl Hn Hrx Hk Hf Htx Hlen Hseq. eapply wp_eq.
  { apply (putpacket_eq l naks s1 rest1); try done; [|unfold BUFMAX; lia].
    eapply Forall_impl; [exact Hl|]. by intros c (? & _). }
  cbn [rx tx set_tx set_rx]. split; [done|]. rewrite Htx. cbn [app replicate concat]. rewrite <- app_assoc.
  intros Hrx2 Hf2. destruct fuel2 as [|fuel2]; [lia|]. unfold getpacket. eapply wp_eq.
  { apply (getpacket_good [] l s2 (concat (replicate (length naks) (packet l)) ++ rest2)); try done. }
  cbn. split; [done|]. split; [|done]. apply received_holds; [done|unfold BUFMAX; lia].
Qed.

(** * Bytes and digits *)

Lemma length_hex_text l : length (hex_text l) = (2 * length l)%nat.
Proof. unfold hex_text. induction l as [|b l IH]; [done|]. cbn. cbn in IH. rewrite IH. lia. Qed.

Lemma hex_text_cons b l : hex_text (b :: l) = hexchar_of (Z.shiftr b 4) :: hexchar_of (b mod 16) :: hex_text l.
Proof. done. Qed.

(** [rd] reads [l], whatever stands in the reply. *)
Definition reads (rd : Z -> M Gdb (option Z)) (l : list Z) (s : Gdb) : Prop :=
  forall o i, 0 <= i < Z.of_nat (length l) -> rd i (set_outbuf o s) = Ret (zget l i, set_outbuf o s).

Lemma reads_cons rd b l s : reads rd (b :: l) s -> rd 0 s = Ret (Some b, s) /\ reads (fun i => rd (i + 1)) l s.
Proof.
  intros H. split.
  - pose proof (H (remcomOutBuffer s) 0 ltac:(cbn; lia)) as H0. by destruct s.
  - intros o i Hi. rewrite H by (cbn; lia). unfold zget. destruct (Z.ltb_spec (i + 1) 0), (Z.ltb_spec i 0); try lia.
    by replace (Z.to_nat (i + 1)) with (S (Z.to_nat i)) by lia.
Qed.

(** One byte of [mem2hex]. *)
Definition hex_byte (rd : Z -> M Gdb (option Z)) (i : Z) : M Gdb (option unit) :=
  let* o := rd i in
  match o with
  | None => ret (Some tt)
  | Some ch =>
      let* c := hexchar (Z.shiftr ch 4) in put_out (2 * i) c ;;
      let* c := hexchar (ch mod 16) in put_out (2 * i + 1) c ;;
      ret None
  end.

Lemma hex_byte_eq rd i b s :
  rd i s = Ret (Some b, s) -> 0 <= b < 256 -> 0 <= i -> 2 * i + 2 <= Z.of_nat (length (remcomOutBuffer s)) ->
  hex_byte rd i s = Ret (None, set_outbuf (store_at (2 * i) (hex2 b) (remcomOutBuffer s)) s).
Proof.
  intros Hrd Hb Hi Hl. unfold hex_byte. rewrite (bind_Ret _ _ _ _ _ Hrd).
  destruct (nibbles b Hb) as (Hhi & Hlo & _).
  erewrite bind_Ret; [|by apply hexchar_eq]. erewrite bind_Ret; [|apply put_out_eq; lia].
  erewrite bind_Ret; [|by apply hexchar_eq]. erewrite bind_Ret; [|apply put_out_eq; cbn; rewrite length_zset; lia].
  rewrite !u8_hexchar by done. done.
Qed.

Lemma store_at_app i a b l : store_at i (a ++ b) l = store_at (i + Z.of_nat (length a)) b (store_at i a l).
Proof.
  revert i l. induction a as [|c a IH]; intros i l; cbn [app store_at length].
  - by rewrite Z.add_0_r.
  - rewrite IH. f_equal. lia.
Qed.

Lemma take_zget (l : list Z) j b : 0 <= j -> zget l j = Some b -> take (Z.to_nat (j + 1)) l = take (Z.to_nat j) l ++ [b].
Proof.
  intros Hj Hb. replace (Z.to_nat (j + 1)) with (S (Z.to_nat j)) by lia. apply take_S_r.
  rewrite <- zget_nat. by rewrite Z2Nat.id by lia.
Qed.

(** The loop over the bytes [l]. *)
Lemma hex_bytes_eq rd l s n :
  reads rd l s -> Forall (fun b => 0 <= b < 256) l -> 2 * Z.of_nat (length l) <= Z.of_nat (length (remcomOutBuffer s)) ->
  (n <= length l)%nat ->
  for_range n 0 (hex_byte rd) s =
    Ret (None, set_outbuf (store_at 0 (hex_text (take n l)) (remcomOutBuffer s)) s).
Proof.
  intros Hrd Hl Hlen Hn.
  eapply (wp_eq' (fun r s' => r = None /\ s' = set_outbuf (store_at 0 (hex_text (take n l)) (remcomOutBuffer s)) s));
    [|by intros r t [-> ->]].
  apply (wp_for_range (fun i s' => s' = set_outbuf (store_at 0 (hex_text (take (Z.to_nat i) l)) (remcomOutBuffer s)) s)).
  - by destruct s.
  - intros j s' Hj ->. destruct (zget_in_range l j) as [b Hb]; [lia|].
    eapply wp_eq.
    + apply (hex_byte_eq rd j b).
      * rewrite Hrd by lia. by rewrite Hb.
      * by apply (Forall_zget _ _ _ _ Hl Hb).
      * lia.
      * cbn. rewrite length_store_at. lia.
    + cbv beta iota. unfold set_outbuf. cbn. f_equal. rewrite (take_zget l j b) by (done || lia).
      assert (hex_text (take (Z.to_nat j) l ++ [b]) = hex_text (take (Z.to_nat j) l) ++ hex2 b) as ->
        by (unfold hex_text; rewrite bind_app; cbn; done).
      rewrite store_at_app, length_hex_text, length_take.
      by replace (0 + Z.of_nat (2 * (Z.to_nat j `min` length l))) with (2 * j) by lia.
  - intros s' ->. split; [done|]. by rewrite Z.add_0_l, Nat2Z.id.
Qed.

(** The reply after [mem2hex] of [l]. *)
Definition hex_reply (l : list Z) (buf : list Z) : list Z :=
  zset (store_at 0 (hex_text l) buf) (2 * Z.of_nat (length l)) 0.

Lemma mem2hex_eq rd l s :
  reads rd l s -> Forall (fun b => 0 <= b < 256) l -> length (remcomOutBuffer s) = Z.to_nat BUFMAX ->
  2 * Z.of_nat (length l) < BUFMAX ->
  mem2hex rd (Z.of_nat (length l)) s = Ret (true, set_outbuf (hex_reply l (remcomOutBuffer s)) s).
Proof.
  unfold BUFMAX. intros Hrd Hl Hlen Hn. unfold mem2hex. rewrite Nat2Z.id. fold (hex_byte rd).
  rewrite (bind_Ret _ _ _ _ _ (hex_bytes_eq rd l s (length l) Hrd Hl ltac:(lia) ltac:(lia))).
  erewrite bind_Ret; [|apply put_out_eq; cbn; rewrite length_store_at; lia]. unfold ret.
  rewrite firstn_all. unfold hex_reply. cbn. by replace (Z.max 0 (Z.of_nat (length l))) with (Z.of_nat (length l)) by lia.
Qed.

Lemma hex_reply_holds l buf :
  length buf = Z.to_nat BUFMAX -> 2 * Z.of_nat (length l) < BUFMAX -> holds (hex_reply l buf) 0 (hex_text l ++ [0]).
Proof.
  unfold BUFMAX. intros Hb Hl. unfold hex_reply. pose proof (received_holds (hex_text l) buf Hb) as H.
  unfold received in H. rewrite length_hex_text in H. unfold BUFMAX in H.
  replace (Z.of_nat (2 * length l)) with (2 * Z.of_nat (length l)) in H by lia. apply H. lia.
Qed.

(** * Reading the digits back *)

Lemma holds_hex_cons buf i b l : holds buf i (hex_text (b :: l)) ->
  zget buf i = Some (hexchar_of (Z.shiftr b 4)) /\ zget buf (i + 1) = Some (hexchar_of (b mod 16)) /\
  holds buf (i + 2) (hex_text l).
Proof.
  rewrite hex_text_cons. intros [H0 [H1 H2]%holds_cons]%holds_cons. split_and!; [done..|].
  by replace (i + 2) with (i + 1 + 1) by lia.
Qed.

Lemma holds_hex_at buf i l j b : holds buf i (hex_text l) -> 0 <= j -> zget l j = Some b ->
  zget buf (i + 2 * j) = Some (hexchar_of (Z.shiftr b 4)) /\ zget buf (i + 2 * j + 1) = Some (hexchar_of (b mod 16)).
Proof.
  revert i j. induction l as [|c l IH]; intros i j Hh Hj Hb.
  - unfold zget in Hb. destruct (j <? 0); done.
  - apply holds_hex_cons in Hh as (H0 & H1 & H2). destruct (decide (j = 0)) as [->|Hne].
    + injection Hb as ->. by rewrite !Z.add_0_r.
    + assert (zget l (j - 1) = Some b) as Hb'.
      { unfold zget in *. destruct (Z.ltb_spec j 0), (Z.ltb_spec (j - 1) 0); try lia.
        by replace (Z.to_nat j) with (S (Z.to_nat (j - 1))) in Hb by lia. }
      destruct (IH (i + 2) (j - 1) H2 ltac:(lia) Hb') as [E1 E2]. split.
      * rewrite <- E1. f_equal. lia.
      * rewrite <- E2. f_equal. lia.
Qed.

(** [wr] takes the state through [st] as it stores the bytes [l]. *)
Lemma hex2mem_eq (st : nat -> Gdb) buf wr l inb :
  holds inb buf (hex_text l) -> Forall (fun b => 0 <= b < 256) l ->
  (forall i, remcomInBuffer (st i) = inb) ->
  (forall i b, l !! i = Some b -> wr (Z.of_nat i) b (st i) = Ret (true, st (S i))) ->
  hex2mem buf wr (Z.of_nat (length l)) (st 0%nat) = Ret (true, st (length l)).
Proof.
  intros Hh Hl Hin Hwr. unfold hex2mem. rewrite Nat2Z.id.
  eapply (wp_eq' (fun r s' => r = true /\ s' = st (length l))); [|by intros r t [-> ->]]. rewrite wp_bind.
  apply (wp_for_range (fun i s' => s' = st (Z.to_nat i))); [done| |].
  - intros j s' Hj ->. destruct (zget_in_range l j) as [b Hb]; [lia|].
    destruct (holds_hex_at _ _ l j b Hh ltac:(lia) Hb) as [H0 H1].
    destruct (nibbles b) as (Hhi & Hlo & Hsum); [by apply (Forall_zget _ _ _ _ Hl Hb)|].
    rewrite wp_bind. eapply wp_eq; [apply in_char_eq; rewrite Hin; exact H0|]. cbv beta zeta.
    rewrite wp_bind. eapply wp_eq; [apply in_char_eq; rewrite Hin; exact H1|]. cbv beta zeta.
    rewrite (checksum_digits _ _ (Z.shiftr b 4) (b mod 16)), Hsum by done.
    rewrite wp_bind. eapply wp_eq.
    + replace (wr j b) with (wr (Z.of_nat (Z.to_nat j)) b) by (f_equal; lia).
      apply Hwr. rewrite <- zget_nat. by rewrite Z2Nat.id by lia.
    + rewrite wp_ret. by replace (Z.to_nat (j + 1)) with (S (Z.to_nat j)) by lia.
  - intros s' ->. rewrite wp_ret. by rewrite Z.add_0_l, Nat2Z.id.
Qed.

Lemma hex2mem_registers l s buf :
  holds (remcomInBuffer s) buf (hex_text l) -> Forall (fun b => 0 <= b < 256) l ->
  length (registers s) = length l ->
  hex2mem buf write_register (Z.of_nat (length l)) s = Ret (true, set_registers l s).
Proof.
  intros Hh Hl Hlen.
  pose proof (hex2mem_eq (fun i => set_registers (take i l ++ drop i (registers s)) s) buf write_register l
    (remcomInBuffer s) Hh Hl ltac:(done)) as H.
  cbv beta in H. rewrite firstn_all, (drop_ge (registers s) (length l)), app_nil_r in H by lia.
  change (set_registers (take 0 l ++ drop 0 (registers s)) s) with (set_registers (registers s) s) in H.
  replace (set_registers (registers s) s) with s in H by by destruct s.
  apply H. clear H.
  intros i b Hb. pose proof (lookup_lt_Some _ _ _ Hb) as Hi.
  assert (length (take i l) = i) as Hlt by (rewrite length_take; lia).
  destruct (lookup_lt_is_Some_2 (registers s) i) as [y Hy]; [lia|].
  assert (zget (take i l ++ drop i (registers s)) (Z.of_nat i) = Some y) as Hz.
  { rewrite zget_nat, lookup_app_r, Hlt, Nat.sub_diag by lia. by rewrite (drop_S _ _ _ Hy). }
  unfold write_register, bind, gets, need, modify, ret. cbn [registers set_registers]. rewrite Hz.
  unfold set_registers. cbn. do 3 f_equal. unfold zset. rewrite Nat2Z.id.
  rewrite insert_app_r_alt by lia. rewrite Hlt, Nat.sub_diag, (drop_S _ _ _ Hy). cbn.
  rewrite (take_S_r _ _ _ Hb). by rewrite <- app_assoc.
Qed.

(** * Properties of the conversions *)

(** C26. Saving and restoring the registers: what the command [g] answers is,
    as the data of the command [G], a request that restores exactly these
    registers in whatever state the stub is by then. *)
Theorem registers_roundtrip s l s2 p :
  registers s = l -> length l = Z.to_nat NUMREGBYTES -> Forall (fun b => 0 <= b < 256) l -> buffers_ok s ->
  length (registers s2) = Z.to_nat NUMREGBYTES ->
  wp (mem2hex read_register NUMREGBYTES) (fun ok s' => ok = true /\
    exists text, holds (remcomOutBuffer s') 0 (text ++ [0]) /\ length text = 360%nat /\
      (holds (remcomInBuffer s2) p text ->
       hex2mem p write_register NUMREGBYTES s2 = Ret (true, set_registers l s2))) s.
Proof.
  unfold NUMREGBYTES. intros Hr Hlen Hl [_ Hob] Hlen2. replace 180 with (Z.of_nat (length l)) by lia.
  eapply wp_eq; [apply mem2hex_eq; [|done|done|unfold BUFMAX; lia]|].
  - intros o i Hi. unfold read_register. cbv [bind gets]. cbn [registers set_outbuf]. rewrite Hr.
    destruct (zget_in_range l i Hi) as [b Hb]. by rewrite Hb.
  - split; [done|]. exists (hex_text l). split_and!.
    + apply hex_reply_holds; [done|unfold BUFMAX; lia].
    + rewrite length_hex_text. lia.
    + intros Hh. apply hex2mem_registers; [done|done|lia].
Qed.

(** The value of the digits [l] after those with the value [v]. *)
Definition value_from (v : Z) (l : list Z) : Z := fold_left (fun v c => s32 (Z.lor (Z.shiftl v 4) (hex c))) l v.
Definition is_digit (c : Z) : Prop := 0 < c < 128 /\ 0 <= hex c.

Lemma hex_digits_eq l s n p v c fuel :
  holds (remcomInBuffer s) p (l ++ [c]) -> Forall is_digit l -> 0 <= c < 128 -> c = 0 \/ hex c < 0 ->
  (length l < fuel)%nat ->
  loop fuel (n, p, v) hex_digit s =
    Ret ((n + Z.of_nat (length l), p + Z.of_nat (length l), value_from v l), s).
Proof.
  intros Hh Hl Hc Hstop. revert n p v fuel Hh. induction Hl as [|d l [Hd Hdig] Hl IH]; intros n p v fuel Hh Hf;
    (destruct fuel as [|fuel]; [cbn in Hf; lia|]); cbn [app length] in Hh, Hf; apply holds_cons in Hh as [H0 Hh].
  - cbn [length value_from fold_left]. rewrite !Z.add_0_r. apply loop_done. unfold hex_digit.
    rewrite (bind_Ret _ _ _ _ _ (in_char_eq _ _ _ H0)). destruct (Z.eqb_spec c 0); [done|].
    rewrite s8_low by done. destruct (Z.leb_spec 0 (hex c)); [lia|done].
  - rewrite (loop_next _ _ (n + 1, p + 1, s32 (Z.lor (Z.shiftl v 4) (hex d))) hex_digit s s).
    + rewrite IH by (done || lia). cbn [length value_from fold_left].
      replace (n + 1 + Z.of_nat (length l)) with (n + Z.of_nat (S (length l))) by lia.
      by replace (p + 1 + Z.of_nat (length l)) with (p + Z.of_nat (S (length l))) by lia.
    + unfold hex_digit. rewrite (bind_Ret _ _ _ _ _ (in_char_eq _ _ _ H0)).
      rewrite (proj2 (Z.eqb_neq d 0)), s8_low by lia. by rewrite (proj2 (Z.leb_le 0 (hex d))).
Qed.

Lemma hexToInt_eq l s p c :
  holds (remcomInBuffer s) p (l ++ [c]) -> Forall is_digit l -> 0 <= c < 128 -> c = 0 \/ hex c < 0 ->
  Z.of_nat (length l) <= BUFMAX ->
  hexToInt p s = Ret ((Z.of_nat (length l), p + Z.of_nat (length l), value_from 0 l), s).
Proof. unfold hexToInt, BUFMAX. intros Hh Hl Hc Hs Hn. by rewrite (hex_digits_eq l s 0 p 0 c) by (done || lia). Qed.

Lemma holds_app buf i l l' : holds buf i (l ++ l') -> holds buf i l /\ holds buf (i + Z.of_nat (length l)) l'.
Proof.
  intros H. split; intros k Hk.
  - rewrite H by (rewrite length_app; lia). apply zget_app_l. lia.
  - rewrite <- Z.add_assoc, H by (rewrite length_app; lia). rewrite zget_app_r by lia. f_equal. lia.
Qed.

(** The text [<addr>,<length>] at [p], ended by [c]. *)
Definition range_text (buf : list Z) (p : Z) (a n : list Z) (c : Z) : Prop :=
  holds buf p (a ++ [44] ++ n ++ [c]) /\ Forall is_digit a /\ Forall is_digit n /\ a <> [] /\ n <> [] /\
  0 <= c < 128 /\ (c = 0 \/ hex c < 0) /\ Z.of_nat (length a) + Z.of_nat (length n) <= BUFMAX.

Lemma parse_range_eq s p a n c : range_text (remcomInBuffer s) p a n c ->
  parse_range p s = Ret (Some (value_from 0 a, value_from 0 n, p + Z.of_nat (length a) + 1 + Z.of_nat (length n)), s).
Proof.
  intros (Hh & Ha & Hn & Hane & Hnne & Hc & Hstop & Hlen). unfold parse_range.
  destruct (holds_app _ _ _ _ Hh) as [H1 H2]. cbn [app] in H2. destruct (holds_cons _ _ _ _ H2) as [Hcomma H3].
  assert (holds (remcomInBuffer s) p (a ++ [44])) as Hacomma.
  { rewrite app_assoc in Hh. by destruct (holds_app _ _ _ _ Hh). }
  rewrite (bind_Ret _ _ _ _ _ (hexToInt_eq a s p 44 Hacomma Ha ltac:(lia) ltac:(right; vm_compute; done) ltac:(lia))).
  cbv beta iota. destruct a as [|a0 a]; [done|]. rewrite (proj2 (Z.eqb_neq (Z.of_nat (length (a0 :: a))) 0)) by (cbn; lia).
  rewrite (bind_Ret _ _ _ _ _ (in_char_eq _ _ _ Hcomma)). cbn [negb Z.eqb Pos.eqb].
  rewrite (bind_Ret _ _ _ _ _ (hexToInt_eq n s _ c H3 Hn Hc Hstop ltac:(lia))). cbv beta iota.
  destruct n as [|n0 n]; [done|]. by rewrite (proj2 (Z.eqb_neq (Z.of_nat (length (n0 :: n))) 0)) by (cbn; lia).
Qed.

Lemma put_reply_eq l s i :
  0 <= i -> i + Z.of_nat (length l) < Z.of_nat (length (remcomOutBuffer s)) -> Forall (fun c => 0 <= c < 256) l ->
  put_reply i l s = Ret (tt, set_outbuf (zset (store_at i l (remcomOutBuffer s)) (i + Z.of_nat (length l)) 0) s).
Proof.
  intros Hi Hlen Hl. revert s i Hi Hlen. induction Hl as [|c l Hc Hl IH]; intros s i Hi Hlen; cbn [put_reply length store_at] in *.
  - rewrite put_out_eq by lia. by rewrite Z.add_0_r.
  - rewrite (bind_Ret _ _ _ _ _ (put_out_eq s i c ltac:(lia))). rewrite u8_small by done.
    rewrite IH by (cbn; rewrite ?length_zset; lia). unfold set_outbuf. cbn.
    by replace (i + 1 + Z.of_nat (length l)) with (i + Z.of_nat (S (length l))) by lia.
Qed.

Lemma reply_text l s : buffers_ok s -> Z.of_nat (length l) < BUFMAX -> Forall (fun c => 0 <= c < 256) l ->
  wp (put_reply 0 l) (fun _ s' => s' = set_outbuf (received l (remcomOutBuffer s)) s /\
    holds (remcomOutBuffer s') 0 (l ++ [0])) s.
Proof.
  unfold BUFMAX. intros [_ Ho] Hn Hl. unfold BUFMAX in Ho. eapply wp_eq; [apply put_reply_eq; [done|lia|done]|].
  split; [done|]. cbn. apply received_holds; [done|unfold BUFMAX; lia].
Qed.

(** The bytes at [addr]. *)
Definition target_holds (m : gmap Z Z) (addr : Z) (l : list Z) : Prop :=
  forall i, 0 <= i < Z.of_nat (length l) -> m !! u32 (addr + i) = zget l i.

Lemma reads_target addr l s : target_holds (target s) addr l -> reads (read_target addr) l s.
Proof. intros H o i Hi. unfold read_target, gets. cbn. by rewrite H. Qed.

(** What stops [mem2hex] after the bytes [l]. *)
Lemma mem2hex_stops rd l s m r s' :
  reads rd l s -> Forall (fun b => 0 <= b < 256) l -> 2 * Z.of_nat (length l) <= Z.of_nat (length (remcomOutBuffer s)) ->
  s' = set_outbuf (store_at 0 (hex_text l) (remcomOutBuffer s)) s ->
  for_range m (Z.of_nat (length l)) (hex_byte rd) s' = r ->
  for_range (length l + m) 0 (hex_byte rd) s = r.
Proof.
  intros Hrd Hl Hlen -> Hr. rewrite (for_range_split _ _ _ _ _ _ (hex_bytes_eq rd l s (length l) Hrd Hl Hlen ltac:(lia))).
  by rewrite firstn_all.
Qed.

(** * Properties of the memory commands *)

Section memory.
Context (s : Gdb) (p c : Z) (a n l : list Z).
Hypothesis Hrange : range_text (remcomInBuffer s) p a n c.
Hypothesis Hok : buffers_ok s.
Hypothesis Hl : Forall (fun b => 0 <= b < 256) l.
Abbreviation addr := (value_from 0 a).
Abbreviation len := (value_from 0 n).

Lemma read_memory_complete : target_holds (target s) addr l -> Z.max 0 len = Z.of_nat (length l) -> len < 200 ->
  read_memory p s = Ret (tt, set_outbuf (hex_reply l (remcomOutBuffer s)) s).
Proof.
  intros Hm Hlen Hn. unfold read_memory. rewrite (bind_Ret _ _ _ _ _ (parse_range_eq s p a n c Hrange)). cbv beta iota.
  pose proof Hok as [_ Ho].
  rewrite (bind_Ret _ _ true _ (set_outbuf (hex_reply l (remcomOutBuffer s)) s)); [done|].
  pose proof (mem2hex_eq (read_target addr) l s (reads_target _ _ _ Hm) Hl Ho ltac:(unfold BUFMAX; lia)) as H.
  unfold mem2hex in *. replace (Z.to_nat len) with (Z.to_nat (Z.of_nat (length l))) by lia.
  rewrite <- H. rewrite Hlen. by replace (Z.max 0 (Z.of_nat (length l))) with (Z.of_nat (length l)) by lia.
Qed.

Lemma read_memory_stops m r : target_holds (target s) addr l -> Z.to_nat len = (length l + m)%nat -> (length l <= 200)%nat ->
  for_range m (Z.of_nat (length l)) (hex_byte (read_target addr))
    (set_outbuf (store_at 0 (hex_text l) (remcomOutBuffer s)) s) = r ->
  for_range (Z.to_nat len) 0 (hex_byte (read_target addr)) s = r.
Proof.
  intros Hm -> Hn <-. pose proof Hok as [_ Ho]. unfold BUFMAX in Ho. eapply mem2hex_stops; [by apply reads_target|done|lia|done|done].
Qed.

(** Reading memory: for fewer than 200 bytes that all exist the reply is
    their hexadecimal text, and a length that is not positive gives the empty
    reply; when a byte within the first 200 and the length is missing, the
    reply is [E03].  Memory, the registers and the link are left alone. *)
Theorem read_memory_correct : target_holds (target s) addr l ->
  (Z.max 0 len = Z.of_nat (length l) /\ len < 200 \/
   Z.of_nat (length l) < len /\ (length l <= 200)%nat /\ target s !! u32 (addr + Z.of_nat (length l)) = None) ->
  wp (read_memory p) (fun _ s' => s' = set_outbuf (remcomOutBuffer s') s /\
    holds (remcomOutBuffer s') 0 ((if len <=? Z.of_nat (length l) then hex_text l else [69; 48; 51]) ++ [0])) s.
Proof.
  intros Hm [(Hlen & Hn) | (Hlen & Hn & Hmiss)]; pose proof Hok as [_ Ho].
  - eapply wp_eq; [by apply read_memory_complete|]. split; [done|]. rewrite (proj2 (Z.leb_le _ _)) by lia.
    apply hex_reply_holds; [done|unfold BUFMAX; lia].
  - rewrite (proj2 (Z.leb_gt _ _)) by lia.
    unfold read_memory. rewrite wp_bind. eapply wp_eq; [exact (parse_range_eq s p a n c Hrange)|]. cbv beta iota.
    rewrite wp_bind. unfold mem2hex. fold (hex_byte (read_target addr)). rewrite wp_bind. eapply wp_eq.
    + apply (read_memory_stops (S (Z.to_nat len - length l - 1)) _ Hm); [lia|done|].
      apply (for_range_done _ _ tt). unfold hex_byte, read_target, bind, gets. cbn. by rewrite Hmiss.
    + rewrite wp_ret. eapply wp_mono; [apply (reply_text [69; 48; 51]); [|done|by repeat constructor]|].
      * split; [apply Hok|]. cbn. by rewrite length_store_at.
      * intros [] s' [-> Hs']. by split.
Qed.

(** The reply is not bounded: reading 200 bytes of memory writes the end of
    the reply after the buffer, and reading more writes digits there. *)
Theorem read_memory_overflows : target_holds (target s) addr l -> 200 <= len -> Z.of_nat (length l) = Z.min len 201 ->
  read_memory p s = Fault.
Proof.
  intros Hm Hlen Hn. pose proof Hok as [_ Ho]. unfold BUFMAX in Ho. unfold read_memory.
  rewrite (bind_Ret _ _ _ _ _ (parse_range_eq s p a n c Hrange)). cbv beta iota.
  apply bind_Fault. unfold mem2hex. fold (hex_byte (read_target addr)).
  assert (Forall (fun b => 0 <= b < 256) (take 200 l)) as Hl' by by apply Forall_take.
  assert (length (take 200 l) = 200%nat) as Hlt by (rewrite length_take; lia).
  assert (reads (read_target addr) (take 200 l) s) as Hrd.
  { intros o i Hi. rewrite (reads_target addr l s Hm) by lia. f_equal. f_equal. unfold zget.
    destruct (i <? 0); [done|]. rewrite lookup_take_lt by lia. done. }
  assert (zget (remcomOutBuffer s) 400 = None) as Hend.
  { unfold zget. cbn. apply lookup_ge_None. lia. }
  set (s1 := set_outbuf (store_at 0 (hex_text (take 200 l)) (remcomOutBuffer s)) s).
  assert (forall v, put_out 400 v s1 = Fault) as Hout.
  { intros v. unfold put_out. cbv [bind gets need]. subst s1. cbn [remcomOutBuffer set_outbuf].
    unfold zget. cbn [Z.ltb Z.compare]. by rewrite (proj2 (lookup_ge_None _ _)) by (rewrite length_store_at; lia). }
  destruct (Z.eqb_spec len 200) as [->|Hne].
  - replace (Z.to_nat 200) with (length (take 200 l) + 0)%nat by lia. rewrite (bind_Ret _ _ None _ s1); cycle 1.
    { by apply (mem2hex_stops _ _ _ _ _ s1 Hrd Hl'); [rewrite Hlt; lia|..]. }
    cbv beta iota. apply bind_Fault. apply Hout.
  - apply bind_Fault. replace (Z.to_nat len) with (length (take 200 l) + S (Z.to_nat len - 201))%nat by lia.
    apply (mem2hex_stops _ _ _ _ _ s1 Hrd Hl'); [rewrite Hlt; lia|done|].
    apply for_range_Fault. rewrite Hlt. unfold hex_byte.
    destruct (zget_in_range l 200) as [b Hb]; [lia|].
    rewrite (bind_Ret _ _ (Some b) _ s1).
    + assert (0 <= b < 256) as Hbr by by apply (Forall_zget _ _ _ _ Hl Hb).
      destruct (nibbles b Hbr) as (Hhi & _ & _). erewrite bind_Ret; [|by apply hexchar_eq]. apply bind_Fault. apply Hout.
    + change (Z.of_nat 200) with 200. unfold read_target, gets. cbn. rewrite Hm by lia. by rewrite Hb.
Qed.
End memory.

(** Memory with the bytes [l] written at [addr]. *)
Definition written (addr : Z) (l : list Z) (m : gmap Z Z) : gmap Z Z :=
  foldl (fun m x => <[x.1 := x.2]> m) m (imap (fun i b => (u32 (addr + Z.of_nat i), b)) l).

Lemma written_snoc addr l b m :
  written addr (l ++ [b]) m = <[u32 (addr + Z.of_nat (length l)) := b]> (written addr l m).
Proof. unfold written. rewrite imap_app, foldl_app. cbn. by rewrite Nat.add_0_r. Qed.

Lemma u32_add_inj a i j : 0 <= i < 2 ^ 32 -> 0 <= j < 2 ^ 32 -> u32 (a + i) = u32 (a + j) -> i = j.
Proof. unfold u32. intros Hi Hj H. mod_lia. Qed.

Lemma written_other addr l m k : (forall i, 0 <= i < Z.of_nat (length l) -> k <> u32 (addr + i)) ->
  written addr l m !! k = m !! k.
Proof.
  induction l as [|b l IH] using rev_ind; intros H; [done|]. rewrite written_snoc, length_app in *. cbn in H.
  rewrite lookup_insert_ne by (intros E; by apply (H (Z.of_nat (length l))); [lia|]).
  apply IH. intros i Hi. apply H. lia.
Qed.

Lemma written_holds addr l m : Z.of_nat (length l) < 2 ^ 32 -> target_holds (written addr l m) addr l.
Proof.
  induction l as [|b l IH] using rev_ind; intros Hlen i Hi; [cbn in Hi; lia|].
  rewrite written_snoc. rewrite length_app in *. cbn in *. destruct (decide (i = Z.of_nat (length l))) as [->|Hne].
  - rewrite lookup_insert_eq, zget_app_r by lia. by rewrite Z.sub_diag.
  - rewrite lookup_insert_ne by (intros E%u32_add_inj; lia). rewrite zget_app_l by lia. apply IH; lia.
Qed.

Lemma written_exists addr l m k : is_Some (m !! k) -> is_Some (written addr l m !! k).
Proof.
  intros Hk. induction l as [|b l IH] using rev_ind; [done|]. rewrite written_snoc.
  destruct (decide (u32 (addr + Z.of_nat (length l)) = k)) as [->|Hne]; [rewrite lookup_insert_eq; by eexists|].
  by rewrite lookup_insert_ne.
Qed.

Lemma hex2mem_target l s buf addr :
  holds (remcomInBuffer s) buf (hex_text l) -> Forall (fun b => 0 <= b < 256) l ->
  (forall i, 0 <= i < Z.of_nat (length l) -> is_Some (target s !! u32 (addr + i))) ->
  hex2mem buf (write_target addr) (Z.of_nat (length l)) s = Ret (true, set_target (written addr l (target s)) s).
Proof.
  intros Hh Hl Hex.
  pose proof (hex2mem_eq (fun i => set_target (written addr (take i l) (target s)) s) buf (write_target addr) l
    (remcomInBuffer s) Hh Hl ltac:(done)) as H. cbv beta in H. rewrite firstn_all in H.
  replace (set_target (written addr (take 0 l) (target s)) s) with s in H by by destruct s.
  apply H. intros i b Hb. pose proof (lookup_lt_Some _ _ _ Hb) as Hi.
  unfold write_target, bind, gets. cbn [target set_target].
  destruct (written_exists addr (take i l) (target s) (u32 (addr + Z.of_nat i))) as [x ->]; [apply Hex; lia|].
  unfold modify, ret. rewrite (take_S_r _ _ _ Hb), written_snoc, length_take. unfold set_target. cbn.
  by replace (i `min` length l)%nat with i by lia.
Qed.

(** Writing memory: when every byte of the range exists, the bytes that the
    command spells are those that memory holds at the range afterwards, every
    other address keeps its byte, and the reply is [OK]. *)
Theorem write_memory_correct s p a n l :
  let addr := value_from 0 a in
  range_text (remcomInBuffer s) p a n 58 -> buffers_ok s -> value_from 0 n = Z.of_nat (length l) ->
  holds (remcomInBuffer s) (p + Z.of_nat (length a) + 1 + Z.of_nat (length n) + 1) (hex_text l) ->
  Forall (fun b => 0 <= b < 256) l -> Z.of_nat (length l) < 2 ^ 31 ->
  (forall i, 0 <= i < Z.of_nat (length l) -> is_Some (target s !! u32 (addr + i))) ->
  wp (write_memory p) (fun _ s' => target_holds (target s') addr l /\
    (forall k, (forall i, 0 <= i < Z.of_nat (length l) -> k <> u32 (addr + i)) -> target s' !! k = target s !! k) /\
    registers s' = registers s /\ rx s' = rx s /\ tx s' = tx s /\
    holds (remcomOutBuffer s') 0 ([79; 75] ++ [0])) s.
Proof.
  intros addr Hr Hok Hn Hh Hl Hlen Hex. unfold write_memory.
  rewrite wp_bind. eapply wp_eq; [exact (parse_range_eq s p a n 58 Hr)|]. cbv beta iota.
  assert (zget (remcomInBuffer s) (p + Z.of_nat (length a) + 1 + Z.of_nat (length n)) = Some 58) as Hc.
  { destruct Hr as (Hr & _). apply holds_app in Hr as [_ Hr]. cbn [app] in Hr. apply holds_cons in Hr as [_ Hr].
    apply holds_app in Hr as [_ Hr]. by apply holds_cons in Hr as [Hr _]. }
  rewrite wp_bind. eapply wp_eq; [apply in_char_eq; exact Hc|]. cbn [Z.eqb Pos.eqb negb].
  rewrite wp_bind, Hn. eapply wp_eq; [by apply hex2mem_target|]. cbv beta iota.
  eapply wp_mono; [apply (reply_text [79; 75]); [done|done|by repeat constructor]|].
  intros [] s' [-> Hs']. cbn. split_and!; [apply written_holds; lia| |done..]. by apply written_other.
Qed.

(** * Witnesses *)

(** A stub with [req] in its buffer and [reply] as its reply. *)
Definition toy_stub (link req reply : list Z) : Gdb :=
  MkGdb link [] (req ++ replicate (400 - length req) 0) (reply ++ replicate (400 - length reply) 0)
    (replicate 180 7) (list_to_map [(16, 171); (17, 205); (18, 0)]) false.

Ltac concrete := first [reflexivity | lia | (vm_compute; done)
  | (repeat constructor; first [lia | done | (vm_compute; discriminate)])].

Theorem getpacket_recovers_witness :
  let s := toy_stub ([1] ++ (36 :: [120] ++ [35; 48; 48]) ++ [] ++ packet [63] ++ [5]) [] [] in
  wp (getpacket 30) (fun p s' => p = 0 /\ rx s' = [5] /\ tx s' = tx s ++ [45; 43] /\
    holds (remcomInBuffer s') 0 ([63] ++ [0])) s.
Proof.
  cbv zeta. apply (getpacket_recovers _ [1] [120] 48 48 [] [63] [5] 30); concrete.
Defined.

Theorem packet_roundtrip_witness :
  let s1 := toy_stub [45; 43; 9] [] [79; 75] in
  let s2 := toy_stub ((packet [79; 75] ++ packet [79; 75]) ++ []) [] [] in
  wp (putpacket 3) (fun _ s1' =>
    rx s1' = [9] /\
    (rx s2 = tx s1' ++ [] -> (length (rx s2) < 30)%nat ->
     wp (getpacket 30) (fun p s2' => p = 0 /\ holds (remcomInBuffer s2') 0 ([79; 75] ++ [0]) /\
       rx s2' = concat (replicate (length [45]) (packet [79; 75])) ++ []) s2)) s1.
Proof.
  cbv zeta. apply (packet_roundtrip _ _ [79; 75] [45] [9] [] 3 30); try concrete.
  intros k Hk. cbn in Hk. assert (k = 0 \/ k = 1 \/ k = 2) as [-> | [-> | ->]] by lia; reflexivity.
Defined.

Theorem registers_roundtrip_witness :
  let s := toy_stub [] [] [] in
  wp (mem2hex read_register NUMREGBYTES) (fun ok s' => ok = true /\
    exists text, holds (remcomOutBuffer s') 0 (text ++ [0]) /\ length text = 360%nat /\
      (holds (remcomInBuffer s) 0 text ->
       hex2mem 0 write_register NUMREGBYTES s = Ret (true, set_registers (replicate 180 7) s))) s.
Proof.
  cbv zeta. apply (registers_roundtrip _ (replicate 180 7) _ 0); try concrete.
Defined.

Lemma toy_range req reply link a n c rest :
  req = a ++ [44] ++ n ++ [c] ++ rest -> Forall is_digit a -> Forall is_digit n -> a <> [] -> n <> [] ->
  0 <= c < 128 -> c = 0 \/ hex c < 0 -> Z.of_nat (length a) + Z.of_nat (length n) <= BUFMAX ->
  range_text (remcomInBuffer (toy_stub link req reply)) 0 a n c.
Proof.
  intros -> Ha Hn Hane Hnne Hc Hstop Hlen. unfold range_text. split_and!; try (done || lia). intros k Hk. cbn [remcomInBuffer toy_stub].
  rewrite Z.add_0_l. set (tail := replicate _ _). rewrite !app_assoc. rewrite <- !app_assoc.
  replace (a ++ [44] ++ n ++ [c] ++ rest ++ tail) with ((a ++ [44] ++ n ++ [c]) ++ rest ++ tail)
    by by rewrite <- !app_assoc.
  by rewrite zget_app_l by lia.
Qed.

(** [10,2]: two bytes, and [12,2]: one, then a missing one. *)
Theorem read_memory_correct_witness :
  let s := toy_stub [] [49; 48; 44; 50; 0] [] in
  let s2 := toy_stub [] [49; 50; 44; 50; 0] [] in
  wp (read_memory 0) (fun _ s' => s' = set_outbuf (remcomOutBuffer s') s /\
    holds (remcomOutBuffer s') 0 ([97; 98; 99; 100] ++ [0])) s /\
  wp (read_memory 0) (fun _ s' => s' = set_outbuf (remcomOutBuffer s') s2 /\
    holds (remcomOutBuffer s') 0 ([69; 48; 51] ++ [0])) s2.
Proof.
  cbv zeta. split.
  - change [97; 98; 99; 100] with
      (if value_from 0 [50] <=? Z.of_nat (length [171; 205]) then hex_text [171; 205] else [69; 48; 51]).
    apply (read_memory_correct _ 0 0 [49; 48] [50] [171; 205]).
    + apply (toy_range _ _ _ _ _ 0 []); concrete.
    + by split.
    + concrete.
    + intros i Hi. cbn in Hi. assert (i = 0 \/ i = 1) as [-> | ->] by lia; reflexivity.
    + left. by split.
  - change [69; 48; 51] with (if value_from 0 [50] <=? Z.of_nat (length [0]) then hex_text [0] else [69; 48; 51]).
    apply (read_memory_correct _ 0 0 [49; 50] [50] [0]).
    + apply (toy_range _ _ _ _ _ 0 []); concrete.
    + by split.
    + concrete.
    + intros i Hi. cbn in Hi. assert (i = 0) as -> by lia; reflexivity.
    + right. split_and!; concrete.
Defined.

(** [10,2:0aff] *)
Theorem write_memory_correct_witness :
  let s := toy_stub [] [49; 48; 44; 50; 58; 48; 97; 102; 102] [] in
  wp (write_memory 0) (fun _ s' => target_holds (target s') 16 [10; 255] /\
    (forall k, (forall i, 0 <= i < Z.of_nat (length [10; 255]) -> k <> u32 (16 + i)) -> target s' !! k = target s !! k) /\
    registers s' = registers s /\ rx s' = rx s /\ tx s' = tx s /\
    holds (remcomOutBuffer s') 0 ([79; 75] ++ [0])) s.
Proof.
  cbv zeta. apply (write_memory_correct _ 0 [49; 48] [50] [10; 255]).
  - apply (toy_range _ _ _ _ _ 58 [48; 97; 102; 102]); concrete.
  - by split.
  - done.
  - intros k Hk. cbn in Hk. assert (k = 0 \/ k = 1 \/ k = 2 \/ k = 3) as [-> | [-> | [-> | ->]]] by lia; reflexivity.
  - concrete.
  - done.
  - intros i Hi. cbn in Hi. assert (i = 0 \/ i = 1) as [-> | ->] by lia; by eexists.
Defined.

(** [0,c8] where the first 201 bytes exist. *)
Example read_memory_overflow_example :
  let s := set_target (list_to_map ((fun i => (Z.of_nat i, 0)) <$> seq 0 201))
    (toy_stub [] [48; 44; 99; 56; 0] []) in
  read_memory 0 s = Fault.
Proof. vm_compute. reflexivity. Qed.
