(* ===== verification/GdbFrames.v ===== *)
(** The exception frames of the remote debugger: [kernel/gdb-stub.c].

    The frames are kept in the array [gdbFrameStack], each below the one before
    it, and are named by their addresses; neighbours are at least the size of
    the structure apart, so that every frame keeps its own fields.  An
    exception pushes a frame, in assembly; the commands that resume the program
    look for the frame to return with, and returning pops it. *)

From S2P Require Import Prelude CString Gdb.

Definition FRAMESIZE : Z := 500.
(** [sizeof(Frame)]: words are aligned to two bytes. *)
Definition FRAME_BYTES : Z := 26.
(** The words of a CPU frame, by its format. *)
Definition exceptionSize : list Z := [4; 4; 6; 6; 8; 0; 0; 30; 0; 0; 0; 0; 0; 0; 0; 0; 0].

Record Frame : Type := MkFrame {
  previous : Z;
  exceptionPC : Z;
  exceptionVector : Z;
  frameSize : Z;
  fr_sr : Z;
  fr_pc : Z;
  format : Z;
  fsaveHeader : Z;
}.

(** The hooks that are installed: none, the empty [_hook] or [remcomHandler]. *)
Inductive ExceptionHook : Type := NoHook | _hook | remcomHandler.

Record Debugger : Type := MkDebugger {
  frames : gmap Z Frame;
  lastFrame : Z;
  stub : Gdb;
  oldExceptionHook : ExceptionHook;
  exceptionHook : ExceptionHook;
}.

Definition set_frames (m : gmap Z Frame) (s : Debugger) : Debugger :=
  MkDebugger m (lastFrame s) (stub s) (oldExceptionHook s) (exceptionHook s).
Definition set_lastFrame (p : Z) (s : Debugger) : Debugger :=
  MkDebugger (frames s) p (stub s) (oldExceptionHook s) (exceptionHook s).
Definition set_stub (g : Gdb) (s : Debugger) : Debugger :=
  MkDebugger (frames s) (lastFrame s) g (oldExceptionHook s) (exceptionHook s).
Definition set_hooks (old new : ExceptionHook) (s : Debugger) : Debugger :=
  MkDebugger (frames s) (lastFrame s) (stub s) old new.

#[export] Instance debugger_stub : Lens Debugger Gdb := { lget := stub; lset := set_stub }.
#[export] Instance debugger_stub_laws : LensLaws Debugger Gdb.
Proof. split; try done. by intros []. Qed.

Definition no_frame : Frame := MkFrame 0 0 0 0 0 0 0 0.
Definition set_previous (p : Z) (f : Frame) : Frame :=
  MkFrame p (exceptionPC f) (exceptionVector f) (frameSize f) (fr_sr f) (fr_pc f) (format f) (fsaveHeader f).
Definition set_sizes (size fmt header : Z) (f : Frame) : Frame :=
  MkFrame (previous f) (exceptionPC f) (exceptionVector f) size (fr_sr f) (fr_pc f) fmt header.
Definition set_context (sr pc : Z) (f : Frame) : Frame :=
  MkFrame (previous f) (exceptionPC f) (exceptionVector f) (frameSize f) sr pc (format f) (fsaveHeader f).

Definition frame_at (p : Z) : M Debugger Frame := let* m := gets frames in need (m !! p).
(** Writing to fields of a frame; the array is zero at first. *)
Definition frame_update (p : Z) (f : Frame -> Frame) : M Debugger unit :=
  modify (fun s => set_frames (<[p := f (default no_frame (frames s !! p))]> (frames s)) s).

Section ops.
(** The address of the array, what [remcomHandler] does when it is called as
    the old hook, and the size of the state that the FPU pushes. *)
Variables (gdbFrameStack : Z) (call_remcomHandler : Z -> M Debugger unit) (fsave : Z).

Definition top_frame : Z := gdbFrameStack + 4 * (FRAMESIZE - 1) - FRAME_BYTES.

Definition initializeRemcomErrorFrame : M Debugger unit :=
  modify (set_lastFrame top_frame) ;; frame_update top_frame (set_previous top_frame).

(** The hooks, at the end of [set_debug_traps]. *)
Definition install_hooks : M Debugger unit :=
  let* s := get in
  match oldExceptionHook s with
  | remcomHandler => ret tt
  | _ => put (set_hooks (exceptionHook s) remcomHandler s)
  end.

(** [_catchException]: an exception with the CPU frame [sr], [pc], [fmt] and
    the number of its vector.  With a format whose size is not in the table
    the copy would run through the memory. *)
Definition _catchException (sr pc fmt vector header : Z) : M Debugger unit :=
  let* words := need (zget exceptionSize fmt) in
  if words =? 0 then fault else
  on (write_register 66 (sr / 256 mod 256) ;; write_register 67 (sr mod 256) ;; set_reg PC pc) ;;
  let* last := gets lastFrame in
  let p := u32 (last - fsave - 2 * words - 14) in
  frame_update p (fun _ => MkFrame last pc vector words sr pc fmt header) ;;
  modify (set_lastFrame p).

(** The search for the frame of [newPC], 0 for none; the trap instruction of a
    breakpoint (vector 33) leaves a program counter behind it. *)
Definition is_frame_of (newPC : Z) (f : Frame) : bool :=
  (exceptionPC f =? newPC) || ((exceptionVector f =? 33) && (exceptionPC f =? u32 (newPC + 2))).
Definition find_frame (fuel : nat) (newPC : Z) : M Debugger Z :=
  let* last := gets lastFrame in
  loop fuel last (fun frame =>
    if frame =? 0 then ret (inr 0) else
    let* f := frame_at frame in
    if is_frame_of newPC f then ret (inr frame)
    else if frame =? previous f then ret (inr 0)
    else ret (inl (previous f))).

(** The end in assembly pops the frame and returns with what the CPU frame
    holds: the result, with whether it is the mode of the supervisor. *)
Definition return_to_any (supervisor : bool) : M Debugger (Z * Z * bool) :=
  let* last := gets lastFrame in
  let* f := frame_at last in
  modify (set_lastFrame (previous f)) ;;
  ret (fr_sr f, fr_pc f, supervisor).

Definition _returnFromException (frame : Z) : M Debugger (Z * Z * bool) :=
  let* last := gets lastFrame in
  let* frame := (if frame =? 0 then frame_update last (set_sizes 4 0 (-1)) ;; ret last else ret frame) in
  modify (set_lastFrame frame) ;;
  let* ps := on (get_reg PS) in
  let* pc := on (get_reg PC) in
  frame_update frame (set_context (s16 ps) pc) ;;
  return_to_any (negb (Z.land ps 8192 =? 0)).

(** A new frame below the last one; without room for two more the stack is
    started anew. *)
Definition new_frame : M Debugger unit :=
  let* last := gets lastFrame in
  let frame := u32 (last - FRAME_BYTES) in
  let* frame := (if u32 (frame - 2 * FRAME_BYTES) <? gdbFrameStack then initializeRemcomErrorFrame ;; gets lastFrame
                 else ret frame) in
  let* last := gets lastFrame in
  frame_update frame (set_previous last) ;;
  modify (set_lastFrame frame).

Definition call_hook (vector : Z) : M Debugger unit :=
  let* s := get in
  match oldExceptionHook s with
  | remcomHandler => call_remcomHandler vector
  | _ => ret tt
  end.

(** The end of a command that resumes the program. *)
Definition resume_frame (fuel : nat) (newPC : Z) : M Debugger (Z * Z * bool) :=
  let* frame := find_frame fuel newPC in
  let* done := (if frame =? 0 then ret None else
    let* f := frame_at frame in
    if (exceptionVector f =? 9) || (exceptionVector f =? 31) || (exceptionVector f =? 33) then ret None else
    call_hook (exceptionVector f) ;;
    let* newPC := on (get_reg PC) in
    if newPC =? exceptionPC f then ret None else
    let* r := _returnFromException 0 in ret (Some r)) in
  match done with
  | Some r => ret r
  | None => when (frame =? 0) new_frame ;; _returnFromException frame
  end.

(** An exception: the frame is pushed, the host gives its commands, and the
    program is resumed. *)
Definition debug_exception (fuel : nat) (sr pc fmt vector header : Z) : M Debugger (Z * Z * bool) :=
  _catchException sr pc fmt vector header ;;
  let* newPC := on (handle_exception fuel vector) in
  resume_frame fuel newPC.
End ops.

(** * The stack of frames *)

(** The frames from [p] up to the one at the top, which is its own
    predecessor. *)
Inductive stacked (m : gmap Z Frame) (top : Z) : Z -> list Z -> Prop :=
| stacked_top f : m !! top = Some f -> previous f = top -> stacked m top top [top]
| stacked_push p f l : m !! p = Some f -> p + FRAME_BYTES <= previous f -> stacked m top (previous f) l ->
    stacked m top p (p :: l).

(** What is left of the list when its first frame is popped. *)
Definition popped (l : list Z) : list Z := match l with [p] => [p] | _ :: l' => l' | [] => [] end.

Lemma stacked_range m top p l q : stacked m top p l -> q ∈ l -> p <= q <= top.
Proof.
  intros Hs. revert q. induction Hs as [f Hf Hp|p f l Hf Hp Hs IH]; intros q.
  - intros ->%list_elem_of_singleton. lia.
  - unfold FRAME_BYTES in Hp. rewrite elem_of_cons. intros [->|Hq]; [|specialize (IH q Hq); lia].
    assert (previous f ∈ l) as Hin by (destruct Hs; left). specialize (IH _ Hin). lia.
Qed.
Lemma stacked_head m top p l : stacked m top p l -> exists f l', m !! p = Some f /\ l = p :: l' /\ p <= top.
Proof.
  intros Hs. pose proof (stacked_range _ _ _ _ p Hs) as Hr. destruct Hs as [f Hf Hp|p f l Hf Hp Hs]; [by exists f, []|].
  exists f, l. split; [done|]. split; [done|]. apply Hr. left.
Qed.
Lemma stacked_length m top p l : stacked m top p l -> FRAME_BYTES * (Z.of_nat (length l) - 1) <= top - p.
Proof. induction 1 as [f Hf Hp|p f l Hf Hp Hs IH]; cbn [length]; unfold FRAME_BYTES in *; lia. Qed.

(** Frames below, and changes that keep the link, do not matter. *)
Lemma stacked_below m top p l q f : stacked m top p l -> q < p -> stacked (<[q := f]> m) top p l.
Proof.
  intros Hs Hq. induction Hs as [f0 Hf Hp|p f0 l Hf Hp Hs IH].
  - eapply stacked_top; [|done]. by rewrite lookup_insert_ne by lia.
  - unfold FRAME_BYTES in Hp. eapply stacked_push; [by rewrite lookup_insert_ne by lia|unfold FRAME_BYTES; lia|]. apply IH. lia.
Qed.
Lemma stacked_keep m top p l q f f' : stacked m top p l -> m !! q = Some f -> previous f' = previous f ->
  stacked (<[q := f']> m) top p l.
Proof.
  intros Hs Hq Hf'. induction Hs as [f0 Hf Hp|p f0 l Hf Hp Hs IH].
  - destruct (decide (q = top)) as [->|Hne].
    + eapply stacked_top; [apply lookup_insert_eq|]. congruence.
    + eapply stacked_top; [by rewrite lookup_insert_ne by done|done].
  - destruct (decide (q = p)) as [->|Hne].
    + assert (f0 = f) as -> by congruence. rewrite <- Hf' in *. eapply stacked_push; [apply lookup_insert_eq|done|done].
    + eapply stacked_push; [by rewrite lookup_insert_ne by done|done|done].
Qed.
Lemma stacked_pop m top p l f : stacked m top p l -> m !! p = Some f -> stacked m top (previous f) (popped l).
Proof.
  intros Hs Hf. destruct Hs as [f0 Hf0 Hp|p f0 l Hf0 Hp Hs]; assert (f0 = f) as -> by congruence.
  - rewrite Hp. by eapply stacked_top.
  - destruct (stacked_head _ _ _ _ Hs) as (f1 & l' & _ & -> & _). exact Hs.
Qed.
Lemma stacked_from m top p l q : stacked m top p l -> q ∈ l -> exists l', stacked m top q l'.
Proof.
  intros Hs. induction Hs as [f Hf Hp|p f l Hf Hp Hs IH].
  - intros ->%list_elem_of_singleton. exists [top]. by eapply stacked_top.
  - rewrite elem_of_cons. intros [->|Hq]; [|by apply IH]. exists (p :: l). by eapply stacked_push.
Qed.

(** The frame that the search finds. *)
Definition frame_of (m : gmap Z Frame) (newPC : Z) (l : list Z) : option Z :=
  List.find (fun p => match m !! p with Some f => is_frame_of newPC f | None => false end) l.

Lemma find_frame_eq fuel newPC s top l : stacked (frames s) top (lastFrame s) l -> 0 < lastFrame s -> (length l <= fuel)%nat ->
  find_frame fuel newPC s = Ret (default 0 (frame_of (frames s) newPC l), s).
Proof.
  intros Hs Hpos Hfuel. unfold find_frame. rewrite (bind_Ret _ _ (lastFrame s) s s) by done. unfold frame_of.
  revert fuel Hpos Hfuel. induction Hs as [f Hf Hp|p f l Hf Hp Hs IH]; intros fuel Hpos Hfuel; (destruct fuel as [|fuel]; [cbn in Hfuel; lia|]).
  - apply loop_done. rewrite (proj2 (Z.eqb_neq top 0)) by lia. unfold frame_at. cbn [List.find]. rewrite Hf.
    rewrite (bind_Ret _ _ f s s) by (unfold bind, gets, need; by rewrite Hf). destruct (is_frame_of newPC f); [done|].
    by rewrite Hp, Z.eqb_refl.
  - assert (frame_at p s = Ret (f, s)) as Hat by (unfold frame_at, bind, gets, need; by rewrite Hf).
    unfold FRAME_BYTES in Hp. cbn [List.find]. rewrite Hf. destruct (is_frame_of newPC f) eqn:Em.
    + apply loop_done. rewrite (proj2 (Z.eqb_neq p 0)), (bind_Ret _ _ _ _ _ Hat) by lia. by rewrite Em.
    + erewrite loop_next; [apply IH; [lia|cbn in Hfuel; lia]|].
      rewrite (proj2 (Z.eqb_neq p 0)), (bind_Ret _ _ _ _ _ Hat) by lia. rewrite Em. by rewrite (proj2 (Z.eqb_neq p (previous f))) by lia.
Qed.

(** * Exceptions and returns *)

(** Register [n] of the host's view. *)
Definition reg_value (g : Gdb) (n : Z) : Z :=
  ((byte_at (registers g) (4 * n) * 256 + byte_at (registers g) (4 * n + 1)) * 256 + byte_at (registers g) (4 * n + 2)) * 256
    + byte_at (registers g) (4 * n + 3).
Lemma get_reg_eq g n : length (registers g) = Z.to_nat NUMREGBYTES -> 0 <= n < 45 -> get_reg n g = Ret (reg_value g n, g).
Proof.
  intros Hl Hn. unfold NUMREGBYTES in Hl. unfold get_reg, reg_value, byte_at, bind, gets, need.
  destruct (zget_in_range (registers g) (4 * n)) as [b0 H0]; [lia|].
  destruct (zget_in_range (registers g) (4 * n + 1)) as [b1 H1]; [lia|].
  destruct (zget_in_range (registers g) (4 * n + 2)) as [b2 H2]; [lia|].
  destruct (zget_in_range (registers g) (4 * n + 3)) as [b3 H3]; [lia|].
  by rewrite H0, H1, H2, H3.
Qed.

(** What the program is resumed with. *)
Definition resumed (g : Gdb) : Z * Z * bool :=
  (s16 (reg_value g PS), reg_value g PC, negb (Z.land (reg_value g PS) 8192 =? 0)).

Section stack.
Context (base : Z) (call_remcomHandler : Z -> M Debugger unit).
Hypothesis Hbase : 78 <= base /\ base + 2000 <= 2 ^ 32.
Implicit Types s : Debugger.
Abbreviation top := (top_frame base).

(** The state while the last frame is at least [room] bytes above the start of
    the array: the frames form a stack from the last one to the top, no frame
    is outside of the array, and the old hook is not the debugger itself. *)
Record stack_ok (room : Z) (l : list Z) s : Prop := {
  so_list : stacked (frames s) top (lastFrame s) l;
  so_room : base + room <= lastFrame s;
  so_array p f : frames s !! p = Some f -> base <= p <= top;
  so_hook : oldExceptionHook s <> remcomHandler;
  so_regs : length (registers (stub s)) = Z.to_nat NUMREGBYTES;
}.

Lemma top_value : top = base + 1970.
Proof. unfold top_frame, FRAMESIZE, FRAME_BYTES. lia. Qed.

Lemma stack_range room l s p : stack_ok room l s -> p ∈ l -> base + room <= p <= top.
Proof.
  intros Hs Hp. pose proof (stacked_range _ _ _ _ _ (so_list _ _ _ Hs) Hp). pose proof (so_room _ _ _ Hs). lia.
Qed.

Lemma frame_at_eq s p f : frames s !! p = Some f -> frame_at p s = Ret (f, s).
Proof. intros Hf. unfold frame_at, bind, gets, need. by rewrite Hf. Qed.

(** Returning with the frame [q] of the list, or with the last one. *)
Lemma return_eq room l s q lq : stack_ok room l s -> q = 0 /\ lq = l \/ 0 < q /\ q ∈ l /\ stacked (frames s) top q lq -> 0 <= room ->
  wp (_returnFromException q) (fun r s' => r = resumed (stub s) /\ stack_ok room (popped lq) s' /\ stub s' = stub s /\
    exists p f, frames s !! p = Some f /\ lastFrame s' = previous f /\ p = (if q =? 0 then lastFrame s else q)) s.
Proof.
  intros Hs Hq Hroom. unfold _returnFromException. rewrite wp_bind, wp_gets, wp_bind.
  assert (exists p s1 f, (if q =? 0 then frame_update (lastFrame s) (set_sizes 4 0 (-1)) ;; ret (lastFrame s) else ret q) s = Ret (p, s1) /\
    stack_ok room l s1 /\ stacked (frames s1) top p lq /\ stub s1 = stub s /\ p ∈ l /\
    p = (if q =? 0 then lastFrame s else q) /\ frames s !! p = Some f /\ forall f1, frames s1 !! p = Some f1 -> previous f1 = previous f)
    as (p & s1 & f & Hrun & Hs1 & Hp & Hstub & Hin & Hpq & Hf & Hf1).
  { destruct Hq as [[-> ->]|(Hq & Hin & Hlq)].
    - destruct Hs as [Hl Hr Ha Hh Hg]. destruct (stacked_head _ _ _ _ Hl) as (f & l' & Hf & -> & Hle).
      exists (lastFrame s), (set_frames (<[lastFrame s := set_sizes 4 0 (-1) f]> (frames s)) s), f.
      assert (stacked (<[lastFrame s := set_sizes 4 0 (-1) f]> (frames s)) top (lastFrame s) (lastFrame s :: l')) as Hl' by by eapply stacked_keep.
      change (0 =? 0) with true. cbn iota. split; [unfold frame_update, bind, modify, ret; by rewrite Hf|]. split; [split; [done|done| |done|done]|].
      { intros p f1. destruct (decide (p = lastFrame s)) as [->|Hne]; [intros _; lia|].
        cbn. rewrite lookup_insert_ne by done. apply Ha. }
      split; [done|]. split; [done|]. split; [left|]. split; [done|]. split; [done|]. cbn. rewrite lookup_insert_eq. by intros f1 [= <-].
    - rewrite (proj2 (Z.eqb_neq q 0)) by lia. destruct (stacked_head _ _ _ _ Hlq) as (f & l' & Hf & _ & _).
      exists q, s, f. split_and!; try done. intros f1 Hf1. by assert (f1 = f) as -> by congruence. }
  eapply wp_eq; [exact Hrun|]. cbn beta. rewrite wp_bind, wp_modify. set (s2 := set_lastFrame p s1).
  assert (length (registers (stub s2)) = Z.to_nat NUMREGBYTES) as Hg by apply (so_regs _ _ _ Hs1).
  rewrite wp_bind. eapply wp_eq; [apply (on_eq_id (S := Debugger)), get_reg_eq; [exact Hg|by unfold PS]|].
  rewrite wp_bind. eapply wp_eq; [apply (on_eq_id (S := Debugger)), get_reg_eq; [exact Hg|by unfold PC]|].
  destruct (stacked_head _ _ _ _ Hp) as (f1 & l' & Hf1' & _ & Hle).
  rewrite wp_bind. unfold frame_update. rewrite wp_modify. change (frames s2) with (frames s1). rewrite Hf1'. cbn [default from_option id].
  unfold return_to_any. rewrite wp_bind, wp_gets, wp_bind.
  set (s3 := set_frames _ s2). eapply wp_eq; [apply (frame_at_eq s3); cbn; apply lookup_insert_eq|].
  rewrite wp_bind, wp_modify, wp_ret. cbn [fr_sr fr_pc set_context previous lget debugger_stub].
  change (stub s2) with (stub s1). rewrite Hstub. pose proof (Hf1 _ Hf1') as Hprev.
  destruct Hs1 as [Hl Hr Ha Hh Hg1].
  assert (stacked (frames s3) top (previous f1) (popped lq)) as Hpop.
  { apply (stacked_pop _ _ p lq (set_context (s16 (reg_value (lget s2) PS)) (reg_value (lget s2) PC) f1)); [|cbn; apply lookup_insert_eq].
    cbn. by eapply stacked_keep. }
  split; [done|]. split; [|split; [done|]].
  - split; [exact Hpop| | |exact Hh|exact Hg1].
    + cbn. pose proof (stacked_range _ _ _ _ _ Hl Hin). destruct (stacked_head _ _ _ _ Hpop) as (? & ? & _ & _ & ?).
      destruct Hp as [f2 Hf2 Hp2|p f2 lq Hf2 Hp2 _]; assert (f2 = f1) as -> by congruence; unfold FRAME_BYTES in *; lia.
    + intros p0 f0. cbn. destruct (decide (p0 = p)) as [->|Hne]; [|rewrite lookup_insert_ne by done; apply Ha].
      intros _. by apply (Ha p f1).
  - exists p, f. cbn. by rewrite Hprev.
Qed.

Lemma stack_room room room' l s : stack_ok room l s -> base + room' <= lastFrame s -> stack_ok room' l s.
Proof. intros [H1 _ H3 H4 H5] Hr. by split. Qed.

Lemma new_frame_eq l s : stack_ok 0 l s ->
  wp (new_frame base) (fun _ s' => stub s' = stub s /\ exists l', stack_ok 52 l' s' /\ (popped l' = l /\ l' <> [] \/ l' = [top]) /\
    forall f, frames s' !! lastFrame s' = Some f -> base + 78 <= previous f /\ (l' <> [top] -> previous f = lastFrame s)) s.
Proof.
  intros Hs. pose proof Hs as [Hl Hr Ha Hh Hg]. destruct (stacked_head _ _ _ _ Hl) as (f & l0 & Hf & -> & Hle). pose proof top_value as Ht.
  unfold new_frame. rewrite wp_bind, wp_gets. unfold FRAME_BYTES. rewrite (u32_small (lastFrame s - 26)) by lia. rewrite u32_small by lia.
  destruct (Z.ltb_spec (lastFrame s - 26 - 2 * 26) base) as [Hlow|Hhigh].
  - rewrite wp_bind. unfold initializeRemcomErrorFrame. rewrite !wp_bind, wp_modify. unfold frame_update at 1. rewrite wp_modify, wp_gets.
    rewrite wp_bind, wp_gets. cbn [lastFrame set_lastFrame set_frames frames].
    rewrite wp_bind. unfold frame_update. rewrite wp_modify. cbn [frames set_frames set_lastFrame]. rewrite lookup_insert_eq, wp_modify.
    cbn [default from_option id]. split; [done|]. exists [top]. split; [|split; [by right|]].
    + split; cbn; [|lia| |done|done].
      * eapply stacked_top; [apply lookup_insert_eq|done].
      * intros p f0. destruct (decide (p = top)) as [->|Hne]; [lia|]. rewrite !lookup_insert_ne by done. apply Ha.
    + cbn. rewrite lookup_insert_eq. intros f0 [= <-]. cbn. split; [lia|done].
  - rewrite wp_bind, wp_ret, wp_bind, wp_gets, wp_bind. unfold frame_update. rewrite !wp_modify. split; [done|].
    exists ((lastFrame s - 26) :: lastFrame s :: l0). split; [|split; [by left|]].
    + split; cbn; [|lia| |done|done].
      * eapply stacked_push; [apply lookup_insert_eq|cbn; unfold FRAME_BYTES; lia|]. cbn. apply stacked_below; [done|lia].
      * intros p f0. destruct (decide (p = lastFrame s - 26)) as [->|Hne]; [lia|]. rewrite lookup_insert_ne by done. apply Ha.
    + cbn. rewrite lookup_insert_eq. intros f0 [= <-]. cbn. split; [lia|done].
Qed.

(** Resuming the program: with the frame that the search finds, with a new one
    for its program counter, or with a new stack when there is no room. *)
Lemma resume_eq fuel l s : stack_ok 0 l s -> (77 <= fuel)%nat ->
  (forall q f, q ∈ l -> frames s !! q = Some f -> base + 78 <= previous f) ->
  wp (resume_frame base call_remcomHandler fuel (reg_value (stub s) PC)) (fun r s' => r = resumed (stub s) /\ stub s' = stub s /\
    (exists l', stack_ok 78 l' s') /\
    match frame_of (frames s) (reg_value (stub s) PC) l with
    | Some q => exists f, frames s !! q = Some f /\ lastFrame s' = previous f
    | None => lastFrame s' = lastFrame s \/ lastFrame s' = top
    end) s.
Proof.
  intros Hs Hfuel Hprev. pose proof Hs as [Hl Hr Ha Hh Hg]. pose proof (stacked_length _ _ _ _ Hl) as Hlen. pose proof top_value as Ht.
  unfold FRAME_BYTES in Hlen. unfold resume_frame. rewrite wp_bind. eapply wp_eq.
  { apply (find_frame_eq fuel _ s top l); [done|lia|lia]. }
  destruct (frame_of (frames s) (reg_value (stub s) PC) l) as [q|] eqn:Efind; cbn [default from_option id].
  - unfold frame_of in Efind. apply find_some in Efind as [Hin%list_elem_of_In Hm].
    destruct (frames s !! q) as [f|] eqn:Ef; [|done]. pose proof (stack_range _ _ _ _ Hs Hin) as Hq.
    rewrite (proj2 (Z.eqb_neq q 0)) by lia. cbn [when].
    rewrite wp_bind. eapply (wp_eq _ None).
    { rewrite (bind_Ret _ _ _ _ _ (frame_at_eq _ _ _ Ef)). destruct (_ || _) eqn:Ev; [reflexivity|].
      rewrite (bind_Ret _ _ tt s s); [|unfold call_hook, bind, get; by destruct (oldExceptionHook s)].
      erewrite bind_Ret; [|apply (on_eq_id (S := Debugger)), get_reg_eq; [exact Hg|by unfold PC]].
      unfold is_frame_of in Hm. bool_prop. assert (exceptionPC f = reg_value (stub s) PC) as Hpc by lia.
      change (lget s) with (stub s). by rewrite Hpc, Z.eqb_refl. }
    cbn beta iota. rewrite wp_bind, wp_ret. destruct (stacked_from _ _ _ _ _ Hl Hin) as [lq Hlq].
    eapply wp_mono; [apply (return_eq 0 l s q lq Hs); [right; split_and!; done || lia|done]|].
    cbn beta. intros r s' (-> & Hs' & Hstub & p & f' & Hf' & Hlast & ->). rewrite (proj2 (Z.eqb_neq q 0)) in Hf' by lia.
    assert (f' = f) as -> by congruence. split_and!; [done|done| |by exists f].
    exists (popped lq). eapply stack_room; [exact Hs'|]. rewrite Hlast. by eapply Hprev.
  - change (0 =? 0) with true. cbn iota. rewrite wp_bind, wp_ret. cbn [when]. rewrite wp_bind.
    eapply wp_mono; [by apply new_frame_eq|]. cbn beta. intros _ s1 (Hstub1 & l1 & Hs1 & Hcase & Hprev1).
    eapply wp_mono; [apply (return_eq 52 l1 s1 0 l1 Hs1); [by left|done]|].
    cbn beta. intros r s' (-> & Hs' & Hstub & p & f & Hf & Hlast & ->). cbn [Z.eqb] in Hf. destruct (Hprev1 _ Hf) as [Hroom Hl1].
    rewrite Hstub, Hstub1. split_and!; [done|done| |].
    + exists (popped l1). eapply stack_room; [exact Hs'|]. by rewrite Hlast.
    + rewrite Hlast. destruct (decide (l1 = [top])) as [->|Hne]; [right|left; by apply Hl1].
      pose proof (so_list _ _ _ Hs1) as Hst. inversion Hst; subst; [congruence|].
      match goal with H : stacked _ _ _ [] |- _ => inversion H end.
Qed.

Abbreviation has_registers g := (length (registers g) = Z.to_nat NUMREGBYTES).
Lemma wp_write_register g i v : has_registers g -> 0 <= i < NUMREGBYTES -> wp (write_register i v) (fun _ g' => has_registers g') g.
Proof.
  intros Hg Hi. destruct (zget_in_range (registers g) i) as [b Hb]; [lia|]. unfold write_register.
  rewrite wp_bind, wp_gets, wp_bind, (wp_need _ b) by done. rewrite wp_bind, wp_modify, wp_ret. cbn. by rewrite length_zset.
Qed.
Lemma wp_set_reg g n v : has_registers g -> 0 <= n < 45 -> wp (set_reg n v) (fun _ g' => has_registers g') g.
Proof.
  intros Hg Hn. unfold set_reg. cbv zeta.
  do 4 (rewrite wp_bind; eapply wp_mono; [apply wp_write_register; [assumption|unfold NUMREGBYTES; lia]|]; cbn beta; intros ? ? ?).
  by apply wp_ret.
Qed.

(** The frames of the CPU that the stub knows. *)
Definition format_ok (fmt : Z) : Prop := exists w, zget exceptionSize fmt = Some w /\ w <> 0.
Lemma format_words fmt : format_ok fmt -> exists w, zget exceptionSize fmt = Some w /\ 4 <= w <= 30.
Proof.
  intros (w & Hw & Hne). exists w. split; [done|].
  apply (Forall_zget (fun w => w = 0 \/ 4 <= w <= 30)) in Hw; [lia|]. apply (bool_decide_unpack _). by vm_compute.
Qed.

(** The frame of an exception, with [fsave] bytes of FPU state, is in the room
    that is kept for it. *)
Definition frame_fits (fsave fmt : Z) : Prop :=
  4 <= fsave /\ forall w, zget exceptionSize fmt = Some w -> fsave + 2 * w + 14 <= 78.

(** The state of an idle FPU, one word, always is. *)
Lemma idle_fits fmt : frame_fits 4 fmt.
Proof.
  split; [lia|]. intros w Hw. apply (Forall_zget (fun w => w <= 30)) in Hw; [lia|]. apply (bool_decide_unpack _). by vm_compute.
Qed.

(** An exception pushes a frame. *)
Lemma catch_eq fsave l s sr pc fmt vector header : stack_ok 78 l s -> format_ok fmt -> frame_fits fsave fmt ->
  wp (_catchException fsave sr pc fmt vector header) (fun _ s' => stack_ok 0 (lastFrame s' :: l) s' /\
    exists f, frames s' !! lastFrame s' = Some f /\ previous f = lastFrame s /\ exceptionPC f = pc /\
      forall q, q ∈ l -> frames s' !! q = frames s !! q) s.
Proof.
  intros [Hl Hr Ha Hh Hg] Hfmt [Hfs Hfit]. destruct (format_words _ Hfmt) as (w & Hw & Hwr). specialize (Hfit w Hw).
  destruct (stacked_head _ _ _ _ Hl) as (f & l0 & Hf & -> & Hle). pose proof top_value as Ht.
  unfold _catchException. rewrite wp_bind, (wp_need _ w) by done. rewrite (proj2 (Z.eqb_neq w 0)) by lia.
  rewrite wp_bind, wp_on.
  do 2 (rewrite wp_bind; eapply wp_mono; [apply wp_write_register; [eassumption|unfold NUMREGBYTES; lia]|]; cbn beta; intros ? ? ?).
  eapply wp_mono; [apply wp_set_reg; [eassumption|unfold PC; lia]|]. cbn beta. intros _ g Hlen. rewrite wp_bind, wp_gets. cbn [lastFrame lset debugger_stub set_stub].
  rewrite u32_small by lia. rewrite wp_bind. unfold frame_update. rewrite !wp_modify. cbn [lastFrame set_lastFrame set_frames frames lset debugger_stub set_stub].
  split; [|eexists; split; [apply lookup_insert_eq|split; [done|split; [done|]]]].
  - split; cbn; [|lia| |done|].
    + eapply stacked_push; [apply lookup_insert_eq|cbn; unfold FRAME_BYTES; lia|]. cbn. apply stacked_below; [done|lia].
    + intros p f0. destruct (decide (p = lastFrame s - fsave - 2 * w - 14)) as [->|Hne]; [lia|]. rewrite lookup_insert_ne by done. apply Ha.
    + exact Hlen.
  - intros q Hq. pose proof (stacked_range _ _ _ _ _ Hl Hq). rewrite lookup_insert_ne by lia. done.
Qed.

(** * Sessions *)

(** An exception, with the size of the FPU state that is saved, and the state in which the host leaves the registers when it
    resumes the program. *)
Record Session : Type := MkSession {
  ss_fsave : Z; ss_sr : Z; ss_pc : Z; ss_format : Z; ss_vector : Z; ss_header : Z;
  ss_host : Gdb;
}.
Definition session_ok (e : Session) : Prop :=
  format_ok (ss_format e) /\ frame_fits (ss_fsave e) (ss_format e) /\ length (registers (ss_host e)) = Z.to_nat NUMREGBYTES.

Definition session (fuel : nat) (e : Session) : M Debugger (Z * Z * bool) :=
  _catchException (ss_fsave e) (ss_sr e) (ss_pc e) (ss_format e) (ss_vector e) (ss_header e) ;;
  modify (set_stub (ss_host e)) ;;
  resume_frame base call_remcomHandler fuel (reg_value (ss_host e) PC).

Lemma session_eq fuel e l s : stack_ok 78 l s -> session_ok e -> (77 <= fuel)%nat ->
  wp (session fuel e) (fun r s' => r = resumed (ss_host e) /\ (exists l', stack_ok 78 l' s') /\
    (reg_value (ss_host e) PC = ss_pc e -> lastFrame s' = lastFrame s)) s.
Proof.
  intros Hs (Hfmt & Hfit & Hg) Hfuel. unfold session. rewrite wp_bind. eapply wp_mono; [by apply catch_eq|].
  cbn beta. intros _ s1 (Hs1 & f & Hf & Hprev & Hpc & Hsame). rewrite wp_bind, wp_modify.
  set (s2 := set_stub (ss_host e) s1). assert (stack_ok 0 (lastFrame s2 :: l) s2) as Hs2 by (destruct Hs1; by split).
  pose proof (so_list _ _ _ Hs2) as Hl2.
  eapply wp_mono; [apply (resume_eq fuel _ s2 Hs2 Hfuel)|].
  - intros q fq Hq Hfq. apply elem_of_cons in Hq as [->|Hq].
    + assert (fq = f) as -> by (cbn in Hfq; congruence). rewrite Hprev. apply (so_room _ _ _ Hs).
    + cbn in Hfq. rewrite Hsame in Hfq by done. pose proof (stack_range _ _ _ _ Hs Hq).
      destruct (stacked_from _ _ _ _ _ (so_list _ _ _ Hs) Hq) as [lq Hlq].
      destruct Hlq as [f0 Hf0 Hp0|q f0 lq Hf0 Hp0 Hlq]; assert (f0 = fq) as -> by congruence; [rewrite Hp0; lia|unfold FRAME_BYTES in Hp0; lia].
  - cbn beta. intros r s' (-> & _ & Hok & Hlast). split_and!; [done|done|]. intros Hsame_pc. cbn [stub set_stub s2] in Hlast.
    unfold frame_of in Hlast. cbn [List.find] in Hlast. change (frames s2) with (frames s1) in Hlast. change (lastFrame s2) with (lastFrame s1) in Hlast.
    rewrite Hf in Hlast. unfold is_frame_of in Hlast at 1. rewrite Hpc, Hsame_pc, Z.eqb_refl in Hlast. cbn [orb] in Hlast.
    destruct Hlast as (f' & Hf' & ->). by assert (f' = f) as -> by congruence.
Qed.

(** Several exceptions, one after the other. *)
Fixpoint run_sessions (fuel : nat) (l : list Session) : M Debugger (list (Z * Z * bool)) :=
  match l with
  | [] => ret []
  | e :: l' => let* r := session fuel e in let* rs := run_sessions fuel l' in ret (r :: rs)
  end.
End stack.

(** C28. The stack of exception frames does not leave its array as long as no
    exception frame is larger than the 78 bytes kept for it, with the state
    of the FPU that is saved in it; all frames of an idle FPU are that small.
    Then, whatever the exceptions and wherever the host resumes the program,
    every search ends, no frame is ever outside of [gdbFrameStack], and every
    time the program continues with the status and the program counter that the
    host left.  (Larger frames leave the array: [large_frame_leaves_array].) *)
Theorem frames_stay_in_array base hook fuel es : 78 <= base /\ base + 2000 <= 2 ^ 32 -> (77 <= fuel)%nat -> Forall session_ok es ->
  forall l s, stack_ok base 78 l s ->
  wp (run_sessions base hook fuel es) (fun rs s' => rs = (resumed ∘ ss_host) <$> es /\
    (exists l', stacked (frames s') (top_frame base) (lastFrame s') l' /\ (length l' <= 77)%nat) /\
    forall p f, frames s' !! p = Some f -> base <= p /\ p + FRAME_BYTES <= base + 4 * FRAMESIZE) s.
Proof.
  intros Hbase Hfuel Hes. induction Hes as [|e es He Hes IH]; intros l s Hs; cbn [run_sessions].
  - rewrite wp_ret. split; [done|]. pose proof (top_value base) as Ht. split.
    + exists l. split; [apply (so_list _ _ _ _ Hs)|]. pose proof (stacked_length _ _ _ _ (so_list _ _ _ _ Hs)) as Hlen.
      pose proof (so_room _ _ _ _ Hs). unfold FRAME_BYTES in Hlen. lia.
    + intros p f Hf. pose proof (so_array _ _ _ _ Hs p f Hf). unfold FRAME_BYTES, FRAMESIZE. lia.
  - rewrite wp_bind. eapply wp_mono; [by eapply session_eq|]. cbn beta. intros r s1 (-> & [l1 Hs1] & _).
    rewrite wp_bind. eapply wp_mono; [exact (IH l1 s1 Hs1)|]. cbn beta. intros rs s2 (-> & H2 & H3). rewrite wp_ret. by split_and!.
Qed.

(** * Witness and examples *)

Definition toy_debugger : Debugger := MkDebugger ∅ 0 (MkGdb [] [] [] [] (replicate 180 0) ∅ false) NoHook _hook.

(** The start: the frame at the top is its own predecessor. *)
Definition started : Debugger :=
  MkDebugger {[ top_frame 4096 := set_previous (top_frame 4096) no_frame ]} (top_frame 4096) (stub toy_debugger) _hook remcomHandler.
Lemma start_stack : (initializeRemcomErrorFrame 4096 ;; install_hooks) toy_debugger = Ret (tt, started) /\ stack_ok 4096 78 [top_frame 4096] started.
Proof.
  split; [by vm_compute|]. split; [|by vm_compute| |done|done].
  - eapply stacked_top; [apply lookup_singleton_eq|done].
  - intros p f Hp. cbn [frames started] in Hp. apply lookup_singleton_Some in Hp as [<- _]. by vm_compute.
Qed.

(** A bus error and a breakpoint; the host continues elsewhere. *)
Definition toy_sessions : list Session :=
  [MkSession 4 8192 1000 7 2 0 (stub toy_debugger); MkSession 56 0 2000 0 33 0 (set_registers (zset (replicate 180 0) 70 9) (stub toy_debugger))].

Lemma frames_stay_in_array_witness :
  wp (run_sessions 4096 (fun _ => ret tt) 77 toy_sessions) (fun rs s' => rs = [(0, 0, false); (0, 2304, false)] /\
    forall p f, frames s' !! p = Some f -> 4096 <= p /\ p + 26 <= 6096) started.
Proof.
  eapply wp_mono; [apply (frames_stay_in_array 4096 (fun _ => ret tt) 77 toy_sessions) with (l := [top_frame 4096])|].
  - lia.
  - lia.
  - apply Forall_cons; split; [|apply Forall_cons; split; [|by apply Forall_nil]]; (split; [|split; [|done]]).
    + by exists 30.
    + apply idle_fits.
    + by exists 4.
    + split; [by cbn|]. by intros w [= <-].
  - apply start_stack.
  - intros rs s' (-> & _ & H). split; [by vm_compute|exact H].
Defined.

(** A larger frame leaves the array when no more than the room that
    [handle_exception] keeps is left: the frame begins before it. *)
Theorem large_frame_leaves_array base fsave sr pc fmt vector header w s :
  zget exceptionSize fmt = Some w -> w <> 0 -> 78 < fsave + 2 * w + 14 < base -> base + 78 < 2 ^ 32 ->
  lastFrame s = base + 78 -> length (registers (stub s)) = Z.to_nat NUMREGBYTES ->
  wp (_catchException fsave sr pc fmt vector header) (fun _ s' => lastFrame s' < base) s.
Proof.
  intros Hw Hne Hbig Hb Hl Hg. unfold _catchException. rewrite wp_bind, (wp_need _ w) by done. rewrite (proj2 (Z.eqb_neq w 0)) by done.
  rewrite wp_bind, wp_on.
  do 2 (rewrite wp_bind; eapply wp_mono; [apply wp_write_register; [eassumption|unfold NUMREGBYTES; lia]|]; cbn beta; intros ? ? ?).
  eapply wp_mono; [apply wp_set_reg; [eassumption|unfold PC; lia]|]. cbn beta. intros _ g Hlen. rewrite wp_bind, wp_gets.
  cbn [lastFrame lset debugger_stub set_stub]. rewrite Hl.
  apply (Forall_zget (fun w => 0 <= w <= 30)) in Hw; [|apply (bool_decide_unpack _); by vm_compute].
  rewrite u32_small by lia. rewrite wp_bind. unfold frame_update. rewrite !wp_modify. cbn. lia.
Qed.

(** So does the frame of a bus error with the state of a busy FPU of 100
    bytes. *)
Example busy_fpu_leaves_array :
  let s := MkDebugger {[ 4174 := set_previous (top_frame 4096) no_frame; top_frame 4096 := set_previous (top_frame 4096) no_frame ]}
             4174 (stub toy_debugger) _hook remcomHandler in
  lastFrame <$> match _catchException 100 0 1000 7 2 0 s with Ret (_, s') => Some s' | _ => None end = Some 4000.
Proof. by vm_compute. Qed.

(** Setting the traps twice makes the debugger its own old hook. *)
Lemma hooks_set_twice :
  match (install_hooks ;; install_hooks) toy_debugger with Ret (_, s) => oldExceptionHook s | _ => NoHook end = remcomHandler.
Proof. done. Qed.
