(* ===== verification/Elf.v ===== *)
(** The program loader: [kernel/modules/binformat/elf.c].

    The file stands in memory at the address [E], its bytes are [elf]; a read
    outside of it is an undefined access.  The loader maps pages through the
    interface [UserMmu], which the driver of [Mmu] implements. *)

From S2P Require Import Prelude CString Types Process Mmu.

(** What the system calls use of the MMU besides [Process.Mmu]. *)
Class UserMmu (W : Type) : Type := {
  mmu_clear_userspace : Z -> M W unit;
  mmu_clone_userspace : Z -> Z -> M W Z;                 (* from, to *)
  mmu_alloc_at : Z -> bool -> bool -> M W Z;             (* virt, supervisor, write protected *)
  mmu_fill_frame : Z -> Z -> list Z -> Z -> M W unit;    (* frame, offset, what stands at src, size *)
}.

#[export] Instance mmu040_user : UserMmu Mmu040 := {
  mmu_clear_userspace := mmu040_clear_userspace;
  mmu_clone_userspace := mmu040_clone_userspace;
  mmu_alloc_at := mmu040_alloc_at;
  mmu_fill_frame := mmu040_fill_frame;
}.

Definition ELF_MAGIC : list Z := [127; 69; 76; 70].
Definition ELF_CLASS_32BIT : Z := 1.
Definition ELF_ENDIAN_BIG : Z := 2.
Definition ELF_TYPE_EXEC : Z := 2.
Definition ELF_MACHINE_M68K : Z := 4.
Definition ELF_SECTION_HEADER_FLAG_WRITE : Z := 1.
Definition ELF_SECTION_HEADER_FLAG_ALLOC : Z := 2.
Definition ELF_SECTION_HEADER_TYPE_PROGRAM_NOBITS : Z := 8.

Section ops.
Context {W : Type} `{UserMmu W}.
Variables (E : Z) (elf : list Z).

(** * Fields *)

Definition elf8 (off : Z) : M W Z := need (zget elf off).
Definition elf16 (off : Z) : M W Z :=
  let* a := elf8 off in let* b := elf8 (off + 1) in ret (a * 256 + b).
Definition elf32 (off : Z) : M W Z :=
  let* a := elf16 off in let* b := elf16 (off + 2) in ret (a * 65536 + b).

(** * Loading *)

(** What stands at the address [data]: the file from there on; below the file
    there is nothing to read. *)
Definition file_bytes_at (data : Z) : list Z := if data <? E then [] else drop (Z.to_nat (data - E)) elf.

(** [data] is an address, 0 for [NULL]. *)
Definition alloc (virt : Z) (write_protect : bool) (data size : Z) : M W unit :=
  let base := virt - Z.land virt MMU_PAGE_MASK in
  let count := u32 (size + (MMU_PAGE_SIZE - 1)) / MMU_PAGE_SIZE in
  let offset := Z.land virt MMU_PAGE_MASK in
  let* _ := for_acc (Z.to_nat count) 0 (data, size, offset) (fun i '(data, size, offset) =>
    let p := u32 (base + i * MMU_PAGE_SIZE) in
    let* frame := mmu_alloc_at p false write_protect in
    if data =? 0 then ret (data, size, offset) else
    mmu_fill_frame frame offset (file_bytes_at data) (Z.land size MMU_PAGE_MASK) ;;
    ret (u32 (data - Z.land data MMU_PAGE_MASK + MMU_PAGE_SIZE), u32 (size - (MMU_PAGE_SIZE - offset)), 0)) in
  ret tt.

(** An iteration of the loop over the section headers: the one at [off]. *)
Definition load_section (off : Z) : M W unit :=
  let* address := elf32 (off + 12) in
  if address =? 0 then ret tt else
  let* type := elf32 (off + 4) in
  if type =? 0 then ret tt else
  let* flags := elf32 (off + 8) in
  if Z.land flags ELF_SECTION_HEADER_FLAG_ALLOC =? 0 then ret tt else
  let write_protect := Z.land flags ELF_SECTION_HEADER_FLAG_WRITE =? 0 in
  let* size := elf32 (off + 20) in
  if type =? ELF_SECTION_HEADER_TYPE_PROGRAM_NOBITS then alloc address false 0 size
  else let* offset := elf32 (off + 16) in alloc address write_protect (u32 (E + offset)) size.

(** The comparisons with the magic number end at the first that fails. *)
Fixpoint check_magic (i : Z) (l : list Z) : M W bool :=
  match l with
  | [] => ret true
  | m :: l' => let* c := elf8 i in if c =? m then check_magic (i + 1) l' else ret false
  end.

(** The result is the entry point, 0 for [NULL]. *)
Definition elf_load : M W Z :=
  let* magic := check_magic 0 ELF_MAGIC in
  if negb magic then ret 0 else
  let* class := elf8 4 in
  if negb (class =? ELF_CLASS_32BIT) then ret 0 else
  let* endian := elf8 5 in
  if negb (endian =? ELF_ENDIAN_BIG) then ret 0 else
  let* type := elf16 16 in
  if negb (type =? ELF_TYPE_EXEC) then ret 0 else
  let* machine := elf16 18 in
  if negb (machine =? ELF_MACHINE_M68K) then ret 0 else
  let* entry := elf32 24 in
  if entry =? 0 then ret 0 else
  let* section_header := elf32 32 in
  let* count := elf16 48 in
  let* size := elf16 46 in
  let* _ := for_acc (Z.to_nat count) 0 section_header (fun _ off => load_section off ;; ret (off + size)) in
  alloc (u32 (- MMU_PAGE_SIZE)) false 0 MMU_PAGE_SIZE ;;
  ret entry.
End ops.

(** * The file format *)

(** Big-endian words of a file; a byte that is missing counts as zero. *)
Definition half (elf : list Z) (off : Z) : Z := byte_at elf off * 256 + byte_at elf (off + 1).
Definition word (elf : list Z) (off : Z) : Z := half elf off * 65536 + half elf (off + 2).

Record ElfHeader : Type := MkElfHeader {
  eh_ident : list Z;
  eh_type : Z;
  eh_machine : Z;
  eh_version : Z;
  eh_entry : Z;
  eh_program_header_offset : Z;
  eh_section_header_offset : Z;
  eh_flags : Z;
  eh_header_size : Z;
  eh_program_header_entry_size : Z;
  eh_program_header_entry_count : Z;
  eh_section_header_entry_size : Z;
  eh_section_header_entry_count : Z;
  eh_section_index_string : Z;
}.
(** The header of a file. *)
Definition elf_header (elf : list Z) : ElfHeader :=
  MkElfHeader (take 16 elf) (half elf 16) (half elf 18) (word elf 20) (word elf 24) (word elf 28) (word elf 32) (word elf 36)
    (half elf 40) (half elf 42) (half elf 44) (half elf 46) (half elf 48) (half elf 50).

(** A header that the loader accepts. *)
Definition header_ok (elf : list Z) : bool :=
  bool_decide (take 4 elf = ELF_MAGIC) && (byte_at elf 4 =? ELF_CLASS_32BIT) && (byte_at elf 5 =? ELF_ENDIAN_BIG)
  && (half elf 16 =? ELF_TYPE_EXEC) && (half elf 18 =? ELF_MACHINE_M68K) && negb (word elf 24 =? 0).

Record ElfSectionHeader : Type := MkSection {
  sh_type : Z;
  sh_flags : Z;
  sh_address : Z;
  sh_offset : Z;
  sh_size : Z;
}.
Definition section_at (elf : list Z) (off : Z) : ElfSectionHeader :=
  MkSection (word elf (off + 4)) (word elf (off + 8)) (word elf (off + 12)) (word elf (off + 16)) (word elf (off + 20)).

(** The section headers of a file. *)
Definition section_offset (elf : list Z) (i : nat) : Z := word elf 32 + Z.of_nat i * half elf 46.
Definition sections (elf : list Z) : list ElfSectionHeader :=
  (fun i => section_at elf (section_offset elf i)) <$> seq 0 (Z.to_nat (half elf 48)).

Definition loadable (h : ElfSectionHeader) : Prop :=
  sh_address h <> 0 /\ sh_type h <> 0 /\ Z.land (sh_flags h) ELF_SECTION_HEADER_FLAG_ALLOC <> 0.
#[export] Instance loadable_dec h : Decision (loadable h).
Proof. unfold loadable. apply _. Defined.

Section load.
Context {W : Type} `{UserMmu W}.

(** What the loader does for a section: a page for each part of it. *)
Definition load (E : Z) (elf : list Z) (h : ElfSectionHeader) : M W unit :=
  if sh_type h =? ELF_SECTION_HEADER_TYPE_PROGRAM_NOBITS then alloc E elf (sh_address h) false 0 (sh_size h)
  else alloc E elf (sh_address h) (Z.land (sh_flags h) ELF_SECTION_HEADER_FLAG_WRITE =? 0) (u32 (E + sh_offset h)) (sh_size h).
Definition load_all (E : Z) (elf : list Z) (l : list ElfSectionHeader) : M W unit :=
  foldr (fun h m => load E elf h ;; m) (ret tt) l.
End load.

Section format.
Context {W : Type} `{UserMmu W}.
Implicit Types (E : Z) (elf : list Z) (s : W).

Lemma elf8_eq elf off s : 0 <= off < Z.of_nat (length elf) -> elf8 elf off s = Ret (byte_at elf off, s).
Proof.
  intros Ho. unfold elf8. destruct (zget_in_range elf off Ho) as [c Hc]. unfold need, byte_at. by rewrite Hc.
Qed.
Lemma elf16_eq elf off s : 0 <= off -> off + 2 <= Z.of_nat (length elf) -> elf16 elf off s = Ret (half elf off, s).
Proof.
  intros H0 H1. unfold elf16. rewrite (bind_Ret _ _ _ _ _ (elf8_eq elf off s ltac:(lia))).
  by rewrite (bind_Ret _ _ _ _ _ (elf8_eq elf (off + 1) s ltac:(lia))).
Qed.
Lemma elf32_eq elf off s : 0 <= off -> off + 4 <= Z.of_nat (length elf) -> elf32 elf off s = Ret (word elf off, s).
Proof.
  intros H0 H1. unfold elf32. rewrite (bind_Ret _ _ _ _ _ (elf16_eq elf off s H0 ltac:(lia))).
  by rewrite (bind_Ret _ _ _ _ _ (elf16_eq elf (off + 2) s ltac:(lia) ltac:(lia))).
Qed.

Lemma load_section_eq E elf off s : 0 <= off -> off + 24 <= Z.of_nat (length elf) ->
  load_section E elf off s =
    (if decide (loadable (section_at elf off)) then load E elf (section_at elf off) else ret tt) s.
Proof.
  intros H0 H1. unfold load_section, load. cbn [sh_address sh_type sh_flags sh_offset sh_size section_at].
  rewrite (bind_Ret _ _ _ _ _ (elf32_eq elf (off + 12) s ltac:(lia) ltac:(lia))).
  destruct (Z.eqb_spec (word elf (off + 12)) 0); [by rewrite decide_False by (intros (Hc & _); by apply Hc)|].
  rewrite (bind_Ret _ _ _ _ _ (elf32_eq elf (off + 4) s ltac:(lia) ltac:(lia))).
  destruct (Z.eqb_spec (word elf (off + 4)) 0); [by rewrite decide_False by (intros (_ & Hc & _); by apply Hc)|].
  rewrite (bind_Ret _ _ _ _ _ (elf32_eq elf (off + 8) s ltac:(lia) ltac:(lia))).
  destruct (Z.eqb_spec (Z.land (word elf (off + 8)) ELF_SECTION_HEADER_FLAG_ALLOC) 0);
    [by rewrite decide_False by (intros (_ & _ & Hc); by apply Hc)|].
  rewrite decide_True by done. cbv zeta.
  rewrite (bind_Ret _ _ _ _ _ (elf32_eq elf (off + 20) s ltac:(lia) ltac:(lia))).
  destruct (_ =? ELF_SECTION_HEADER_TYPE_PROGRAM_NOBITS); [done|].
  by rewrite (bind_Ret _ _ _ _ _ (elf32_eq elf (off + 16) s ltac:(lia) ltac:(lia))).
Qed.

(** The loop over [n] headers from the one at [off]. *)
Lemma load_sections_eq E elf size n i off s :
  0 <= size -> 0 <= off -> off + Z.of_nat n * size + 24 <= Z.of_nat (length elf) + size ->
  (let* _ := for_acc n i off (fun _ off => load_section E elf off ;; ret (off + size)) in ret tt) s =
  load_all E elf (filter loadable ((fun j => section_at elf (off + Z.of_nat j * size)) <$> seq 0 n)) s.
Proof.
  intros Hsize. revert i off s. induction n as [|n IH]; intros i off s Hoff Hend; [done|].
  cbn [for_acc]. rewrite <- cons_seq, <- fmap_S_seq. cbn [fmap list_fmap]. rewrite Z.mul_0_l, Z.add_0_r.
  rewrite <- list_fmap_compose.
  rewrite (list_fmap_ext _ (fun j => section_at elf (off + size + Z.of_nat j * size)) (seq 0 n)); cycle 1.
  { intros j x _. unfold compose. f_equal. lia. }
  rewrite !bind_assoc, filter_cons.
  destruct (decide (loadable (section_at elf off))) as [Hl|Hl].
  - apply bind_cong; [rewrite load_section_eq by lia; by rewrite decide_True|]. intros [] s' _.
    etransitivity; [apply (IH (i + 1) (off + size) s'); lia|done].
  - erewrite bind_Ret; [|rewrite load_section_eq by lia; by rewrite decide_False].
    etransitivity; [apply (IH (i + 1) (off + size) s); lia|done].
Qed.

Lemma check_magic_eq elf s i l : 0 <= i -> i + Z.of_nat (length l) <= Z.of_nat (length elf) ->
  check_magic elf i l s = Ret (bool_decide (take (length l) (drop (Z.to_nat i) elf) = l), s).
Proof.
  revert i. induction l as [|m l IH]; intros i H0 H1; [done|]. cbn [check_magic length] in *.
  destruct (zget_in_range elf i) as [c Hc]; [lia|].
  rewrite (bind_Ret _ _ _ _ _ (elf8_eq elf i s ltac:(lia))). unfold byte_at. rewrite Hc. cbn [default from_option id].
  assert (drop (Z.to_nat i) elf = c :: drop (Z.to_nat (i + 1)) elf) as ->.
  { replace (Z.to_nat (i + 1)) with (S (Z.to_nat i)) by lia. apply drop_S. rewrite <- zget_nat. by rewrite Z2Nat.id. }
  cbn [take]. destruct (Z.eqb_spec c m) as [->|Hne].
  - rewrite IH by lia. unfold ret. do 2 f_equal. apply bool_decide_ext. split; [by intros ->|by intros [=]].
  - unfold ret. do 2 f_equal. symmetry. apply bool_decide_eq_false. by intros [= ? _].
Qed.

(** The loader on a file that contains a whole header. *)
Lemma elf_load_eq E elf s : 52 <= Z.of_nat (length elf) ->
  elf_load E elf s =
    if header_ok elf then
      (let* _ := for_acc (Z.to_nat (half elf 48)) 0 (word elf 32)
         (fun _ off => load_section E elf off ;; ret (off + half elf 46)) in
       alloc E elf (u32 (- MMU_PAGE_SIZE)) false 0 MMU_PAGE_SIZE ;; ret (word elf 24)) s
    else Ret (0, s).
Proof.
  intros Hlen. unfold elf_load, header_ok.
  erewrite bind_Ret; [|apply (check_magic_eq elf s 0 ELF_MAGIC); cbn; lia]. cbn [length ELF_MAGIC Z.to_nat drop].
  fold ELF_MAGIC. destruct (bool_decide _); [|done]. cbn [negb andb].
  rewrite (bind_Ret _ _ _ _ _ (elf8_eq elf 4 s ltac:(lia))). destruct (byte_at elf 4 =? _); [|done]. cbn [negb andb].
  rewrite (bind_Ret _ _ _ _ _ (elf8_eq elf 5 s ltac:(lia))). destruct (byte_at elf 5 =? _); [|done]. cbn [negb andb].
  rewrite (bind_Ret _ _ _ _ _ (elf16_eq elf 16 s ltac:(lia) ltac:(lia))). destruct (half elf 16 =? _); [|done]. cbn [negb andb].
  rewrite (bind_Ret _ _ _ _ _ (elf16_eq elf 18 s ltac:(lia) ltac:(lia))). destruct (half elf 18 =? _); [|done]. cbn [negb andb].
  rewrite (bind_Ret _ _ _ _ _ (elf32_eq elf 24 s ltac:(lia) ltac:(lia))). destruct (word elf 24 =? 0); [done|]. cbn [negb].
  rewrite (bind_Ret _ _ _ _ _ (elf32_eq elf 32 s ltac:(lia) ltac:(lia))).
  rewrite (bind_Ret _ _ _ _ _ (elf16_eq elf 48 s ltac:(lia) ltac:(lia))).
  by rewrite (bind_Ret _ _ _ _ _ (elf16_eq elf 46 s ltac:(lia) ltac:(lia))).
Qed.

(** A file whose header is not that of an executable for this machine is
    refused, before anything is mapped. *)
Theorem elf_load_refuses E elf s : 52 <= Z.of_nat (length elf) -> header_ok elf = false -> elf_load E elf s = Ret (0, s).
Proof. intros Hlen Hh. rewrite elf_load_eq by done. by rewrite Hh. Qed.

Lemma elf_load_sections E elf s :
  Forall (fun b => 0 <= b < 256) elf -> 52 <= Z.of_nat (length elf) -> header_ok elf = true ->
  word elf 32 + half elf 48 * half elf 46 + 24 <= Z.of_nat (length elf) + half elf 46 ->
  elf_load E elf s =
    (load_all E elf (filter loadable (sections elf)) ;;
     alloc E elf (u32 (- MMU_PAGE_SIZE)) false 0 MMU_PAGE_SIZE ;;
     ret (word elf 24)) s.
Proof.
  intros Hb Hlen Hh Hend. rewrite elf_load_eq, Hh by done.
  assert (forall i, 0 <= byte_at elf i) as Hbyte.
  { intros i. unfold byte_at. destruct (zget elf i) as [c|] eqn:Ec; [|done]. cbn. by apply (Forall_zget _ _ _ _ Hb Ec). }
  assert (forall i, 0 <= half elf i) as Hhalf by (intros i; unfold half; pose proof (Hbyte i); pose proof (Hbyte (i + 1)); lia).
  assert (0 <= word elf 32) by (unfold word; pose proof (Hhalf 32); pose proof (Hhalf (32 + 2)); lia).
  pose proof (Hhalf 46). pose proof (Hhalf 48).
  pose proof (load_sections_eq E elf (half elf 46) (Z.to_nat (half elf 48)) 0 (word elf 32) s
    ltac:(done) ltac:(done) ltac:(lia)) as Hl.
  symmetry. etransitivity; [exact (bind_cong _ _ _ _ s (eq_sym Hl) (fun a t _ => eq_refl))|].
  by rewrite bind_assoc.
Qed.

(** C12. Loading a file: the effect is that of mapping, in the order of their
    headers, exactly the sections that have an address and a type and are to be
    allocated, and after them one page for the stack at the end of the address
    space; the result is the entry point. *)
Theorem elf_load_correct E elf s : let h := elf_header elf in
  Forall (fun b => 0 <= b < 256) elf -> 52 <= Z.of_nat (length elf) -> header_ok elf = true ->
  eh_section_header_offset h + eh_section_header_entry_count h * eh_section_header_entry_size h + 24 <=
    Z.of_nat (length elf) + eh_section_header_entry_size h ->
  elf_load E elf s =
    (load_all E elf (filter loadable (sections elf)) ;;
     alloc E elf (u32 (- MMU_PAGE_SIZE)) false 0 MMU_PAGE_SIZE ;;
     ret (eh_entry h)) s.
Proof. cbv zeta. apply elf_load_sections. Qed.
End format.

(** * Sections on the 68040 *)

(** The tables of a space say the same after a change outside of them. *)
Lemma entry_same m m' R n v : (forall n w e, (n <= 2)%nat -> entry m R n w = Some e -> word_at m' e = word_at m e) ->
  (n <= 2)%nat -> entry m' R n v = entry m R n v.
Proof.
  intros Hw. induction n as [|n IH]; intros Hn; [done|]. cbn [entry]. rewrite IH by lia.
  destruct (entry m R n v) as [e|] eqn:Ee; [|done]. by rewrite (Hw n v e) by (done || lia).
Qed.
Lemma translate_same m m' R v : (forall n w e, (n <= 2)%nat -> entry m R n w = Some e -> word_at m' e = word_at m e) ->
  translate m' R v = translate m R v.
Proof.
  intros Hw. unfold translate. rewrite (entry_same m m' R 2 v Hw) by lia.
  destruct (entry m R 2 v) as [e|] eqn:Ee; [|done]. by rewrite (Hw 2%nat v e) by (done || lia).
Qed.

Lemma page_of_base v : 0 <= v -> (v - Z.land v MMU_PAGE_MASK) = v - v mod MMU_PAGE_SIZE /\
  (v - v mod MMU_PAGE_SIZE) / MMU_PAGE_SIZE = v / MMU_PAGE_SIZE.
Proof.
  intros Hv. change MMU_PAGE_MASK with (Z.ones 12). rewrite Z.land_ones by lia. change (2 ^ 12) with MMU_PAGE_SIZE.
  split; [done|]. unfold MMU_PAGE_SIZE. mod_lia.
Qed.

Section on_mmu.
Implicit Types s : Mmu040.

(** A byte of a page that was cleared and then filled. *)
Lemma filled_byte m a l m' b : bytes_stored m a l m' -> word_at m b = 0 -> Forall (fun c => 0 <= c < 256) l ->
  byte_of m' b = if decide (a <= b < a + Z.of_nat (length l)) then default 0 (zget l (b - a)) else 0.
Proof.
  intros [Hb _] Hz Hl. rewrite Hb. destruct (decide _) as [Hr|Hr].
  - destruct (zget_in_range l (b - a)) as [c Hc]; [lia|]. rewrite Hc. cbn. apply Z.mod_small.
    by apply (Forall_zget _ _ _ _ Hl Hc).
  - unfold byte_of, field. by rewrite Hz, Z.div_0_l, Z.mod_0_l by (try apply Z.pow_nonzero; unfold byte_pos; pose proof (Z.mod_pos_bound b 4); lia).
Qed.

Section section.
Context (k : Z) (s : Mmu040) (E : Z) (elf : list Z) (virt : Z) (wpb : bool) (data size : Z) (l : list Z).
Abbreviation R := (root_table_ph (urp s)).
Abbreviation old := (match translate (mem s) R virt with Some d => [frame_of d] | None => [] end).
Hypothesis Hkr : 0 <= k < 7.
Hypothesis Hk : level k s.
Hypothesis Hv : 0 <= virt < 2 ^ 32.
Hypothesis Hl : free_list l s.
Hypothesis Hn : 3 <= free_frames s.
Hypothesis Hold : Forall frame_ok old.
Hypothesis Hnd : NoDup (old ++ l).
Hypothesis Hok : space_ok (mem s) R (old ++ l).
Hypothesis Helf : Forall (fun c => 0 <= c < 256) elf.
Hypothesis Hdata : 0 < data /\ E <= data.

(** A section in one page: [size mod MMU_PAGE_SIZE] bytes are copied. *)
Lemma alloc_in_page : let copied := size mod MMU_PAGE_SIZE in
  0 < size <= MMU_PAGE_SIZE -> virt mod MMU_PAGE_SIZE + size <= MMU_PAGE_SIZE ->
  data - E + copied <= Z.of_nat (length elf) ->
  wp (alloc E elf virt wpb data size) (fun _ s' => level k s' /\
    (forall v, 0 <= v < 2 ^ 32 -> v / MMU_PAGE_SIZE = virt / MMU_PAGE_SIZE ->
       user_byte s' v = Some (if decide (virt <= v < virt + copied) then byte_at elf (data - E + (v - virt)) else 0)) /\
    (exists d, translate (mem s') R virt = Some d /\ write_protected_bit d = Z.b2z wpb /\ supervisor_bit d = 0) /\
    (forall v, 0 <= v < 2 ^ 32 -> v / MMU_PAGE_SIZE <> virt / MMU_PAGE_SIZE ->
       translate (mem s') R v = translate (mem s) R v)) s.
Proof.
  intros copied Hsize Hfit Hfile.
  assert (0 <= copied <= size) as Hcop by (unfold copied, MMU_PAGE_SIZE in *; split; [apply Z.mod_pos_bound; lia|apply Z.mod_le; lia]).
  set (off := virt mod MMU_PAGE_SIZE) in *.
  assert (0 <= off < MMU_PAGE_SIZE) as Hoff by by apply Z.mod_pos_bound.
  assert (off <= virt) as Hov by (apply Z.mod_le; lia).
  destruct (page_of_base virt ltac:(lia)) as [Hbase Hpage]. fold off in Hbase, Hpage.
  assert (Z.land virt MMU_PAGE_MASK = off) as Hmask by lia.
  unfold alloc. rewrite Hbase, Hmask. rewrite u32_small by (unfold MMU_PAGE_SIZE in *; lia).
  replace ((size + (MMU_PAGE_SIZE - 1)) / MMU_PAGE_SIZE) with 1 by (unfold MMU_PAGE_SIZE in *; mod_lia).
  change (Z.to_nat 1) with 1%nat. cbn [for_acc]. rewrite Z.mul_0_l, Z.add_0_r, u32_small by lia.
  set (base := virt - off) in *.
  assert (0 <= base < 2 ^ 32) as Hbr by (unfold base; lia).
  assert (translate (mem s) R base = translate (mem s) R virt) as Htb by by apply translate_page.
  destruct (alloc_at_eq k s base false wpb l Hkr Hk Hbr Hl Hn) as
    (f & l' & s1 & Ha & Hk1 & Hsb1 & Hl1 & Hok1 & Hf & (d & Hd & Hdesc) & Hother & Hz); [by rewrite Htb..|].
  rewrite !wp_bind. eapply wp_eq; [exact Ha|]. rewrite (proj2 (Z.eqb_neq data 0)) by lia.
  assert (Z.land size MMU_PAGE_MASK = copied) as ->.
  { change MMU_PAGE_MASK with (Z.ones 12). by rewrite Z.land_ones by lia. }
  assert (file_bytes_at E elf data = drop (Z.to_nat (data - E)) elf) as -> by (unfold file_bytes_at; by rewrite (proj2 (Z.ltb_ge _ _)) by lia).
  set (src := drop (Z.to_nat (data - E)) elf).
  assert (Z.of_nat (length src) = Z.of_nat (length elf) - (data - E)) as Hsl by (unfold src; rewrite length_drop; lia).
  destruct (fill_frame_eq k s1 f off src copied Hk1 ltac:(unfold MAPPER_PAGES; lia) Hf ltac:(lia) ltac:(lia) ltac:(lia) ltac:(lia))
    as (s2 & Hfill & Hk2 & Hsb2 & _ & _ & Hbs).
  rewrite wp_bind. eapply wp_eq; [exact Hfill|]. cbn [for_acc]. rewrite !wp_ret.
  pose proof (sb_urp _ _ _ Hsb1) as Hu1. pose proof (sb_urp _ _ _ Hsb2) as Hu2.
  cbn [negb] in Hd, Hother, Hok1. destruct Hdesc as (Hres & Hframe & Hsup & Hwp & _).
  rewrite (page_base_frame f) in Hframe by apply Hf.
  assert (length (take (Z.to_nat copied) src) = Z.to_nat copied) as Htl by (rewrite length_take; lia).
  assert (forall v, translate (mem s2) R v = translate (mem s1) R v) as Htr.
  { intros v. apply translate_same. intros n w e Hnle He. apply (bs_words _ _ _ _ Hbs). intros i Hi Eq. rewrite Htl in Hi.
    apply (so_out _ _ _ Hok1 n w e f Hnle He ltac:(by left)). destruct Hf as [Hfa _].
    unfold MMU_PAGE_SIZE in *. mod_lia. }
  split; [done|]. split; [|split].
  - intros v Hvr Hvp. unfold user_byte. rewrite Hu2, Hu1, Htr.
    rewrite (translate_page (mem s1) R v base) by (done || congruence). rewrite Hd. f_equal.
    rewrite Hframe. destruct Hf as [Hfa Hfr].
    assert (v - virt = v mod MMU_PAGE_SIZE - off) as Hvv by (unfold off, MMU_PAGE_SIZE in *; mod_lia).
    rewrite (filled_byte _ _ _ _ _ Hbs); [| |by apply Forall_take, Forall_drop].
    + rewrite Htl. destruct (decide (virt <= v < virt + copied)) as [Hr|Hr].
      * rewrite decide_True by lia. unfold byte_at, zget.
        rewrite (proj2 (Z.ltb_ge _ _)), (proj2 (Z.ltb_ge _ _)) by lia.
        rewrite lookup_take_lt by lia. unfold src. rewrite lookup_drop. do 2 f_equal. lia.
      * by rewrite decide_False by lia.
    + apply Hz. pose proof (Z.mod_pos_bound v MMU_PAGE_SIZE). unfold MMU_PAGE_SIZE in *. mod_lia.
  - exists d. rewrite Htr, <- (translate_page (mem s1) R base virt) by done. by split_and!.
  - intros v Hvr Hvp. rewrite Htr. apply Hother; [done|]. by rewrite Hpage.
Qed.

(** C13. Loading a section that lies inside one page and is shorter than it: the
    bytes that the program then sees at the addresses of the section are those
    of the file, the rest of the page reads as zero, the page is protected
    against writing as wanted and is not the supervisor's, and no other page
    changes its translation. *)
Theorem alloc_loads_section :
  0 < size < MMU_PAGE_SIZE -> virt mod MMU_PAGE_SIZE + size <= MMU_PAGE_SIZE ->
  data - E + size <= Z.of_nat (length elf) ->
  wp (alloc E elf virt wpb data size) (fun _ s' => level k s' /\
    (forall v, 0 <= v < 2 ^ 32 -> v / MMU_PAGE_SIZE = virt / MMU_PAGE_SIZE ->
       user_byte s' v = Some (if decide (virt <= v < virt + size) then byte_at elf (data - E + (v - virt)) else 0)) /\
    (exists d, translate (mem s') R virt = Some d /\ write_protected_bit d = Z.b2z wpb /\ supervisor_bit d = 0) /\
    (forall v, 0 <= v < 2 ^ 32 -> v / MMU_PAGE_SIZE <> virt / MMU_PAGE_SIZE ->
       translate (mem s') R v = translate (mem s) R v)) s.
Proof.
  intros Hsize Hfit Hfile. pose proof alloc_in_page as H. cbv zeta in H. rewrite (Z.mod_small size) in H by lia.
  apply H; lia.
Qed.

(** A section of a whole page is mapped, but none of its bytes are copied:
    the size that [alloc] passes on is the remainder modulo the page size. *)
Theorem alloc_whole_page_empty :
  virt mod MMU_PAGE_SIZE = 0 -> size = MMU_PAGE_SIZE -> data - E <= Z.of_nat (length elf) ->
  wp (alloc E elf virt wpb data size) (fun _ s' => level k s' /\
    (forall v, 0 <= v < 2 ^ 32 -> v / MMU_PAGE_SIZE = virt / MMU_PAGE_SIZE -> user_byte s' v = Some 0)) s.
Proof.
  intros Hv0 Hsize Hfile. pose proof alloc_in_page as H. cbv zeta in H. rewrite Hv0, Hsize, Z.mod_same in H by done.
  rewrite Hsize.   eapply wp_mono; [apply H; unfold MMU_PAGE_SIZE; lia|]. intros [] s' (Hk' & Hu & _). split; [done|].
  intros v Hvr Hvp. rewrite Hu by done. by rewrite decide_False by lia.
Qed.
End section.
End on_mmu.

(** * The loader returns on the 68040 *)

(** What the loader reads for a section lies in the file: the addresses agree
    within a page, or one page is enough. *)
Definition section_fits (E : Z) (elf : list Z) (h : ElfSectionHeader) : Prop :=
  sh_type h = ELF_SECTION_HEADER_TYPE_PROGRAM_NOBITS \/
  sh_offset h + sh_size h <= Z.of_nat (length elf) /\
  (sh_size h <= MMU_PAGE_SIZE \/ (E + sh_offset h) mod MMU_PAGE_SIZE = sh_address h mod MMU_PAGE_SIZE).
#[export] Instance section_fits_dec E elf h : Decision (section_fits E elf h).
Proof. unfold section_fits. apply _. Defined.

Section returns.
Context (E : Z) (elf : list Z).
Hypothesis HE : 0 < E /\ E + Z.of_nat (length elf) + MMU_PAGE_SIZE <= 2 ^ 32.
Hypothesis Helf : Forall (fun c => 0 <= c < 256) elf.

Lemma mask_mod x : Z.land x MMU_PAGE_MASK = x mod MMU_PAGE_SIZE.
Proof. change MMU_PAGE_MASK with (Z.ones 12). by rewrite Z.land_ones. Qed.

(** [n] more pages: [size] bytes at [data] go to [offset] and on. *)
Lemma balanced_alloc k virt wpb data size :
  0 <= k < 7 -> 0 <= size < 2 ^ 32 ->
  data = 0 \/ E <= data /\ data + size <= E + Z.of_nat (length elf) /\ (size <= MMU_PAGE_SIZE \/ data mod MMU_PAGE_SIZE = virt mod MMU_PAGE_SIZE) ->
  balanced k k (alloc E elf virt wpb data size) (fun _ => True).
Proof.
  intros Hk Hsz Hd. unfold alloc. rewrite !mask_mod. cbv zeta.
  eapply (balanced_bind _ k _ _ _ (fun _ => True)); [|intros _ _; by apply balanced_ret].
  set (count := u32 (size + (MMU_PAGE_SIZE - 1)) / MMU_PAGE_SIZE). set (off := virt mod MMU_PAGE_SIZE).
  assert (0 <= off < MMU_PAGE_SIZE) as Hoff by (apply Z.mod_pos_bound; done).
  assert (data = 0 \/ Z.to_nat count = 0%nat \/ E <= data /\ data + size <= E + Z.of_nat (length elf) /\ 0 <= size /\
    (Z.to_nat count = 1%nat \/ data mod MMU_PAGE_SIZE = off /\ (Z.of_nat (Z.to_nat count) - 1) * MMU_PAGE_SIZE < size + off)) as Hinv.
  { destruct Hd as [->|(H1 & H2 & H3)]; [by left|right]. unfold MMU_PAGE_SIZE in *.
    assert (count = (size + (4096 - 1)) / 4096) as Ec by (unfold count; rewrite u32_small by lia; done).
    destruct (Z.to_nat count) as [|[|n]] eqn:En; [by left|right; split_and!; (done || lia || by left)|].
    pose proof (Z.div_mod (size + (4096 - 1)) 4096 ltac:(done)) as Hdm. pose proof (Z.mod_pos_bound (size + (4096 - 1)) 4096 ltac:(done)).
    rewrite <- Ec in Hdm. right. split_and!; lia. }
  clear Hd Hsz. clearbody count. set (base := virt - off). clearbody base off. set (body := fun _ _ => _). generalize 0 as i.
  revert data size off Hoff Hinv. generalize (Z.to_nat count) as n.
  induction n as [|n IH]; intros data size off Hoff Hinv i; cbn [for_acc]; [by apply balanced_ret|]. unfold body at 1.
  eapply (balanced_bind _ k _ _ _ (fun '(data', size', off') => 0 <= off' < MMU_PAGE_SIZE /\
    (data' = 0 \/ n = 0%nat \/ E <= data' /\ data' + size' <= E + Z.of_nat (length elf) /\ 0 <= size' /\
      (n = 1%nat \/ data' mod MMU_PAGE_SIZE = off' /\ (Z.of_nat n - 1) * MMU_PAGE_SIZE < size' + off')))).
  - eapply balanced_bind; [by apply balanced_alloc_at|]. cbn beta. intros frame _.
    destruct (Z.eqb_spec data 0) as [->|Hne]; [apply balanced_ret; by split; [|left]|].
    destruct Hinv as [?|[?|(H1 & H2 & H3 & H4)]]; [done..|]. rewrite !mask_mod. pose proof (Z.mod_pos_bound size MMU_PAGE_SIZE eq_refl) as Hm.
    assert (size mod MMU_PAGE_SIZE <= size) as Hms by (apply Z.mod_le; done).
    eapply balanced_bind; [apply balanced_fill_frame; [lia|done|lia|unfold file_bytes_at; rewrite (proj2 (Z.ltb_ge _ _)), length_drop by lia; lia]|]. intros _ _.
    apply balanced_ret. split; [done|]. destruct n as [|n]; [right; by left|]. do 2 right. destruct H4 as [H4|[H4 H5]]; [done|].
    unfold MMU_PAGE_SIZE in *. rewrite H4, !u32_small by lia. split_and!; try lia. right. split; [mod_lia|lia].
  - intros [[data' size'] off'] [Ho' Hi']. by apply IH.
Qed.

Lemma balanced_load k h : 0 <= k < 7 -> 0 <= sh_size h < 2 ^ 32 -> 0 <= sh_offset h -> section_fits E elf h ->
  balanced k k (load E elf h) (fun _ => True).
Proof.
  intros Hk Hs Ho Hf. unfold load. destruct (Z.eqb_spec (sh_type h) ELF_SECTION_HEADER_TYPE_PROGRAM_NOBITS) as [|Hne].
  - apply balanced_alloc; [done..|by left].
  - destruct Hf as [?|[H1 H2]]; [done|]. rewrite u32_small by (unfold MMU_PAGE_SIZE in *; lia). apply balanced_alloc; [done..|].
    right. split_and!; [lia|lia|done].
Qed.

Lemma word_range off : 0 <= word elf off < 2 ^ 32.
Proof.
  assert (forall i, 0 <= byte_at elf i < 256) as Hb.
  { intros i. unfold byte_at. destruct (zget elf i) as [c|] eqn:Ec; [|done]. cbn. by apply (Forall_zget _ _ _ _ Helf Ec). }
  unfold word, half. pose proof (Hb off). pose proof (Hb (off + 1)). pose proof (Hb (off + 2)). pose proof (Hb (off + 2 + 1)). lia.
Qed.

(** On the 68040, whatever stands in the tables and however many frames are
    left, loading an executable whose sections lie in the file returns: it
    neither leaves the file nor the window of mapped pages, and gives the
    entry point. *)
Theorem elf_load_returns k :
  0 <= k < 7 -> 52 <= Z.of_nat (length elf) -> header_ok elf = true ->
  word elf 32 + half elf 48 * half elf 46 + 24 <= Z.of_nat (length elf) + half elf 46 ->
  Forall (section_fits E elf) (filter loadable (sections elf)) ->
  balanced k k (elf_load E elf) (fun entry => entry = word elf 24).
Proof.
  intros Hk Hlen Hh Hend Hfit s Hs. unfold wp. rewrite elf_load_sections by done. revert s Hs.
  change (balanced k k (load_all E elf (filter loadable (sections elf)) ;;
    alloc E elf (u32 (- MMU_PAGE_SIZE)) false 0 MMU_PAGE_SIZE ;; ret (word elf 24)) (fun entry => entry = word elf 24)).
  eapply (balanced_bind _ k _ _ _ (fun _ => True)); [|intros _ _; eapply (balanced_bind _ k _ _ _ (fun _ => True));
    [apply balanced_alloc; [done|done|by left]|intros _ _; by apply balanced_ret]].
  assert (Forall (fun h => 0 <= sh_size h < 2 ^ 32 /\ 0 <= sh_offset h) (filter loadable (sections elf))) as Hr.
  { apply Forall_forall. intros h [_ Hi]%list_elem_of_filter. unfold sections in Hi. apply list_elem_of_fmap in Hi as (i & -> & _).
    cbn. split; apply word_range. }
  induction Hfit as [|h l Hh' Hl IH]; [by apply balanced_ret|]. apply Forall_cons in Hr as [[Hr1 Hr2] Hr].
  eapply (balanced_bind _ k _ _ _ (fun _ => True)); [by apply balanced_load|intros _ _; by apply IH].
Qed.
End returns.

(** * Witnesses *)

(** A file with one section of three bytes at the address [0xC0001010]. *)
Definition toy_elf : list Z :=
  [127; 69; 76; 70; 1; 2; 1; 0] ++ replicate 8 0 ++ [0; 2; 0; 4; 0; 0; 0; 1] ++ [192; 0; 16; 16] ++ [0; 0; 0; 0] ++
  [0; 0; 0; 52] ++ [0; 0; 0; 0] ++ [0; 52; 0; 0; 0; 0; 0; 40; 0; 1; 0; 0] ++
  [0; 0; 0; 0; 0; 0; 0; 1; 0; 0; 0; 2; 192; 0; 16; 16; 0; 0; 0; 92; 0; 0; 0; 3] ++ replicate 16 0 ++ [171; 205; 239].

Lemma toy_elf_bytes : Forall (fun b => 0 <= b < 256) toy_elf.
Proof. apply (bool_decide_unpack _). by vm_compute. Qed.

Example toy_elf_sections : filter loadable (sections toy_elf) = [MkSection 1 2 3221229584 92 3].
Proof. by vm_compute. Qed.

Lemma elf_load_refuses_witness : elf_load 4096 (0 :: toy_elf) (toy_mmu 3) = Ret (0, toy_mmu 3).
Proof. apply elf_load_refuses; by vm_compute. Defined.

Lemma elf_load_correct_witness :
  elf_load 4096 toy_elf (toy_mmu 3) =
    (load_all 4096 toy_elf (filter loadable (sections toy_elf)) ;;
     alloc 4096 toy_elf (u32 (- MMU_PAGE_SIZE)) false 0 MMU_PAGE_SIZE ;;
     ret (eh_entry (elf_header toy_elf))) (toy_mmu 3).
Proof. apply elf_load_correct; [apply toy_elf_bytes|by vm_compute..]. Defined.

Lemma alloc_loads_section_witness :
  wp (alloc 4096 toy_elf 3221229584 true 4188 3) (fun _ s' => level 0 s' /\
    (forall v, 0 <= v < 2 ^ 32 -> v / MMU_PAGE_SIZE = 3221229584 / MMU_PAGE_SIZE ->
       user_byte s' v = Some (if decide (3221229584 <= v < 3221229584 + 3)
                              then byte_at toy_elf (4188 - 4096 + (v - 3221229584)) else 0)) /\
    (exists d, translate (mem s') toy_root 3221229584 = Some d /\ write_protected_bit d = 1 /\ supervisor_bit d = 0) /\
    (forall v, 0 <= v < 2 ^ 32 -> v / MMU_PAGE_SIZE <> 3221229584 / MMU_PAGE_SIZE ->
       translate (mem s') toy_root v = translate toy_mem toy_root v)) (toy_mmu 3).
Proof.
  assert (translate toy_mem toy_root 3221229584 = None) as Htr by (by vm_compute).
  pose proof (alloc_loads_section 0 (toy_mmu 3) 4096 toy_elf 3221229584 true 4188 3 toy_frames) as H.
  change (root_table_ph (urp (toy_mmu 3))) with toy_root in H.
  change (mem (toy_mmu 3)) with toy_mem in H. rewrite Htr in H. apply H; clear H Htr.
  - lia.
  - done.
  - lia.
  - by apply toy_free_list.
  - done.
  - done.
  - apply (toy_free_list 3). lia.
  - apply toy_space_ok.
  - apply toy_elf_bytes.
  - lia.
  - unfold MMU_PAGE_SIZE. lia.
  - by vm_compute.
  - by vm_compute.
Defined.

(** The bytes that the program sees, by running the loader. *)
Example toy_elf_loaded :
  match elf_load 4096 toy_elf (set_free_frames 3 (set_mem (<[3489660928 / 4 := 0]> toy_mem) (toy_mmu 3))) with
  | Ret (entry, s) => entry = 3221229584 /\ map (user_byte s) [3221229583; 3221229584; 3221229586; 3221229587] =
      [Some 0; Some 171; Some 239; Some 0]
  | _ => False
  end.
Proof. vm_compute. done. Qed.

Lemma elf_load_returns_witness : balanced 0 0 (elf_load 4096 toy_elf) (fun entry => entry = 3221229584).
Proof.
  apply (elf_load_returns 4096 toy_elf); [lia || by split|apply toy_elf_bytes|lia|by vm_compute..|].
  apply (bool_decide_unpack _). by vm_compute.
Defined.

(** The number of pages leaves out where in its page a section begins: of three
    bytes at the end of a page the last has none.  It is written to the next
    page of the window, where the loader has just changed the tables, over
    the descriptor of the page table: after that neither page is mapped. *)
Theorem alloc_straddling_unmaps :
  match alloc 4096 toy_elf 3221233662 true 4188 3 (toy_mmu 3) with
  | Ret (_, s') => 3221233662 mod MMU_PAGE_SIZE = 4094 /\ translate (mem s') toy_root 3221233662 = None /\
      translate (mem s') toy_root (3221233662 + 2) = None
  | _ => False
  end.
Proof. by vm_compute. Qed.
