(* ===== verification/Syscall.v ===== *)
(** The system calls: [kernel/syscall.c] and [kernel/syscall/*.c], over the
    process table, the virtual file system, the program loader and the MMU.

    A handler's arguments are the words of the caller's registers.  What the
    caller's memory holds during the call is given by two functions, the
    string and the bytes at an address; a handler's result comes with the
    bytes that it writes to the caller's memory at its second argument. *)

From S2P Require Import Prelude CString Types Process Mmu Device Chardev Vfs Elf.

Definition SYSCALLS : Z := 19.

(** * State *)

Record Sys (F : Type) : Type := MkSys {
  sys_vfs : Vfs F;
  syscall_context_switch_flag : Z;
}.
Arguments MkSys {_} _ _.
Arguments sys_vfs {_} _.
Arguments syscall_context_switch_flag {_} _.

#[export] Instance sys_vfs_lens {F} : Lens (Sys F) (Vfs F) :=
  { lget := sys_vfs; lset v s := MkSys v (syscall_context_switch_flag s) }.
#[export] Instance sys_vfs_laws {F} : LensLaws (Sys F) (Vfs F).
Proof. split; try done. by intros []. Qed.

#[export] Instance sys_procs_lens {F D W} `{Lens F (Io D W)} : Lens (Sys F) (Procs W) :=
  { lget s := io_procs (lget (fsw (sys_vfs s)));
    lset p s := MkSys (set_fsw (lset (MkIo (io_devices (lget (fsw (sys_vfs s)))) p) (fsw (sys_vfs s))) (sys_vfs s))
                  (syscall_context_switch_flag s) }.
#[export] Instance sys_procs_laws {F D W} `{LensLaws F (Io D W)} : LensLaws (Sys F) (Procs W).
Proof.
  split.
  - intros t s. cbn. by rewrite (lget_lset (S:=F) (T:=Io D W)).
  - intros t u s. cbn. rewrite (lget_lset (S:=F) (T:=Io D W)). unfold set_fsw. cbn.
    by rewrite (lset_lset (S:=F) (T:=Io D W)).
  - intros [[? ? ? f] ?]. cbn. unfold set_fsw. cbn. destruct (lget f) as [d p] eqn:E. cbn. rewrite <- E.
    by rewrite (lset_lget (S:=F) (T:=Io D W)).
Qed.

Definition set_parent (x : Z) (p : Process) : Process :=
  MkProcess (p_pid p) x (p_state p) (p_callback p) (p_return_value p) (p_userspace p)
    (p_user p) (p_group p) (p_time_started p) (p_file p) (p_reg p).

Section ops.
Context {F D W : Type} `{Lens F (Io D W)} `{Mmu W} `{UserMmu W}.

(** A call of the process layer. *)
Definition proc_call {A} (m : M (Procs W) A) : M (Sys F) A := on m.
Definition user_call {A} (m : M W A) : M (Sys F) A := proc_call (on_mmu m).

Definition syscall_trigger_context_switch : M (Sys F) unit :=
  modify (fun s => MkSys (sys_vfs s) 1).

(** The process that runs, with its pid. *)
Definition current_process : M (Sys F) (Z * option Process) :=
  let* pid := proc_call process_current in
  let* p := proc_call (process_from_pid pid) in ret (pid, p).

(** What the stack, [kmalloc] and the caller's memory happen to give: bounds
    for the loops without one, the uninitialised [stat] structures of the
    walk, whether there is a queue element, the block for a process and the
    address and the contents of the block for a program. *)
Variables (fuel : nat) (s0 st : stat) (queue_block : bool) (process_block : option Process)
  (exe_block : option (Z * list Z)) (user_string : Z -> list Z) (user_bytes : Z -> Z -> list Z).

(** * Handlers *)

Definition _open (filename flags : Z) : M (Sys F) Z :=
  if filename =? 0 then ret (- EINVAL) else
  let* ' (pid, proc) := current_process in
  match proc with
  | None => ret (- EINVAL)
  | Some _ =>
      let* global_fd := on (vfs_open fuel s0 st (user_string filename) flags) in
      if global_fd <? 0 then ret global_fd else
      let* r := for_range (Z.to_nat MAX_PROCESS_FILES) 0 (fun fd =>
        let* proc := proc_call (process_deref pid) in
        let* g := need (zget (p_file proc) fd) in
        if g <? 0 then
          proc_call (process_update pid (fun p => set_file (zset (p_file p) fd global_fd) p)) ;; ret (Some fd)
        else ret None) in
      ret (default (- EMFILE) r)
  end.

(** The global descriptor behind the process's descriptor [fd]. *)
Definition global_file (fd : Z) : M (Sys F) (Z + Z) :=
  if (fd <? 0) || (MAX_PROCESS_FILES <=? fd) then ret (inl (- EBADF)) else
  let* ' (_, proc) := current_process in
  match proc with
  | None => ret (inl (- EINVAL))
  | Some proc =>
      let* global_fd := need (zget (p_file proc) fd) in
      ret (if global_fd <? 0 then inl (- EBADF) else inr global_fd)
  end.

Definition _read (fd count : Z) : M (Sys F) (Z * list Z) :=
  let* g := global_file fd in
  match g with
  | inl e => ret (e, [])
  | inr global_fd => on (vfs_read queue_block global_fd count)
  end.

Definition _write (fd buf count : Z) : M (Sys F) Z :=
  let* g := global_file fd in
  match g with
  | inl e => ret e
  | inr global_fd => on (vfs_write global_fd (user_bytes buf count))
  end.

Definition _fork : M (Sys F) Z :=
  let* ' (cpid, current) := current_process in
  match current with
  | None => ret (- EAGAIN)
  | Some current =>
      let* pid := proc_call (process_create fuel process_block (p_user current) (p_group current)) in
      if pid <? 0 then ret (- EAGAIN) else
      let* new := proc_call (process_from_pid pid) in
      match new with
      | None => ret (- EAGAIN)
      | Some new =>
          let* e := user_call (mmu_clone_userspace (p_userspace current) (p_userspace new)) in
          if e <? 0 then
            proc_call (process_exit fuel pid 1) ;;
            proc_call (process_update pid (set_state PROCESS_STATE_ZOMBIE)) ;;
            proc_call (process_wait pid) ;;
            ret (- ENOMEM)
          else
            let* current := proc_call (process_deref cpid) in
            let reg := p_reg current in
            proc_call (process_update pid (fun p =>
              set_reg (MkRegisters (reg_status (p_reg p)) (reg_pc reg) (reg_stack reg) (reg_general reg)) p)) ;;
            proc_call (process_update pid (set_file (p_file current))) ;;
            proc_call (process_update pid (fun p =>
              set_reg (MkRegisters (reg_status (p_reg p)) (reg_pc (p_reg p)) (reg_stack (p_reg p))
                                   (zset (reg_general (p_reg p)) 0 0)) p)) ;;
            proc_call (process_update pid (set_parent (p_pid current))) ;;
            let* new := proc_call (process_deref pid) in
            ret (p_pid new)
      end
  end.

(** [SEEK_SET] is 0, [SEEK_END] is 2. *)
Definition _execve (filename : Z) : M (Sys F) Z :=
  if filename =? 0 then ret (- EINVAL) else
  let* ' (pid, proc) := current_process in
  match proc with
  | None => ret (- EINVAL)
  | Some _ =>
      let* fd := on (vfs_open fuel s0 st (user_string filename) 0) in
      on (vfs_seek st fd 0 2) ;;
      let* pos := on (vfs_tell fd) in
      let exe_size := u32 pos in
      on (vfs_seek st fd 0 0) ;;
      let* ' (_, bytes) := on (vfs_read queue_block fd exe_size) in
      on (vfs_close fd) ;;
      let* ' (exe, contents) := need exe_block in
      let* proc := proc_call (process_deref pid) in
      user_call (mmu_clear_userspace (p_userspace proc)) ;;
      let* entry := user_call (elf_load exe (bytes ++ drop (length bytes) contents)) in
      proc_call (process_set_pc pid entry) ;;
      syscall_trigger_context_switch ;;
      ret 0
  end.

(** A call gives its result and the bytes it writes at [arg1]. *)
Definition result (m : M (Sys F) Z) : M (Sys F) (Z * list Z) := let* r := m in ret (s32 r, []).

Definition syscall_exit (arg0 : Z) : M (Sys F) Z :=
  let* pid := proc_call process_current in proc_call (process_exit fuel pid (s32 arg0)) ;; ret 0.
Definition syscall_getpid : M (Sys F) Z := proc_call process_current.
(** The calls without a body. *)
Definition syscall_nothing : M (Sys F) Z := ret 0.

(** [syscall_handler], in the order of [Syscall]. *)
Definition syscall_handler : list (Z -> Z -> Z -> M (Sys F) (Z * list Z)) := [
  (fun arg0 _ _ => result (syscall_exit arg0));
  (fun _ _ _ => result _fork);
  (fun arg0 _ arg2 => let* ' (r, bytes) := _read (s32 arg0) arg2 in ret (s32 r, bytes));
  (fun arg0 arg1 arg2 => result (_write (s32 arg0) arg1 arg2));
  (fun arg0 arg1 _ => result (_open arg0 (s32 arg1)));
  (fun _ _ _ => result syscall_nothing);   (* close *)
  (fun _ _ _ => result syscall_nothing);   (* waitpid *)
  (fun _ _ _ => result syscall_nothing);   (* creat *)
  (fun _ _ _ => result syscall_nothing);   (* link *)
  (fun _ _ _ => result syscall_nothing);   (* unlink *)
  (fun arg0 _ _ => result (_execve arg0));
  (fun _ _ _ => result syscall_nothing);   (* chdir *)
  (fun _ _ _ => result syscall_nothing);   (* time *)
  (fun _ _ _ => result syscall_nothing);   (* mknod *)
  (fun _ _ _ => result syscall_nothing);   (* chmod *)
  (fun _ _ _ => result syscall_nothing);   (* lchown *)
  (fun _ _ _ => result syscall_nothing);   (* stat *)
  (fun _ _ _ => result syscall_nothing);   (* lseek *)
  (fun _ _ _ => result syscall_getpid)
].

(** The arguments that no handler uses are left out. *)
Definition syscall_stub (syscall arg0 arg1 arg2 : Z) : M (Sys F) (Z * list Z) :=
  if SYSCALLS <? syscall then ret (- EINVAL, []) else
  let* call := need (zget syscall_handler syscall) in
  call arg0 arg1 arg2.
End ops.

(** * What the handlers rely on *)

(** Duplicating and clearing an address space: from a good MMU state both
    return, into a good state. *)
Class UserMmuLaws (W : Type) `{UserMmu W} (inv : W -> Prop) : Prop := {
  clone_userspace_ok from to w : inv w -> wp (mmu_clone_userspace from to) (fun _ => inv) w;
  clear_userspace_ok h w : inv w -> wp (mmu_clear_userspace h) (fun _ => inv) w;
}.

#[export] Instance mmu040_user_laws : UserMmuLaws Mmu040 (level 0).
Proof.
  split.
  - intros from to w Hw. eapply wp_mono; [by apply (balanced_clone_userspace 0 from to)|]. by intros ? ? [? ?].
  - intros h w Hw. eapply wp_mono; [by apply (balanced_clear_userspace 0 h)|]. by intros ? ? [? ?].
Qed.

(** * Processes *)

Section processes.
Context {F D W : Type} `{LensLaws F (Io D W)} `{Mmu W} `{UserMmu W}.
Context (inv : W -> Prop) `{!MmuLaws W inv} `{!UserMmuLaws W inv}.
Implicit Types (s : Sys F) (ps : Procs W).

(** The process table of the system. *)
Definition procs s : Procs W := lget s.

Lemma wp_proc_call {A} (m : M (Procs W) A) (Q : A -> Sys F -> Prop) s :
  wp (proc_call m) Q s <-> wp m (fun a ps => Q a (lset ps s)) (procs s).
Proof. apply wp_on. Qed.
Lemma procs_set ps s : procs (lset ps s) = ps.
Proof. apply lget_lset. Qed.

Lemma proc_call_eq {A} (m : M (Procs W) A) s a ps : m (procs s) = Ret (a, ps) -> proc_call m s = Ret (a, lset ps s).
Proof. apply on_eq. Qed.
Lemma proc_call_id {A} (m : M (Procs W) A) s a : m (procs s) = Ret (a, procs s) -> proc_call m s = Ret (a, s).
Proof. apply on_eq_id. Qed.

Lemma proc_call_Fault {A} (m : M (Procs W) A) s : m (procs s) = Fault -> proc_call m s = Fault.
Proof. unfold procs. intros E. unfold proc_call, on, zoom. by rewrite E. Qed.
Lemma proc_call_Panic {A} (m : M (Procs W) A) s : m (procs s) = Panic -> proc_call m s = Panic.
Proof. unfold procs. intros E. unfold proc_call, on, zoom. by rewrite E. Qed.

Lemma current_process_eq s p :
  procs_wf (procs s) -> zget (_process (procs s)) (_process_current (procs s)) = Some (Some p) ->
  current_process s = Ret ((_process_current (procs s), Some p), s).
Proof.
  intros Hw Hp. unfold current_process.
  rewrite (bind_Ret _ _ (_process_current (procs s)) s s) by (by apply proc_call_id).
  erewrite bind_Ret; [|apply (proc_call_id _ _ (Some p))]; [done|].
  pose proof (wf_slot _ _ _ Hw Hp). unfold process_from_pid. rewrite pid_valid_true by done. by apply process_at_eq.
Qed.

(** One update of the entry of a process, in a sequence of calls. *)
Lemma wp_proc_update {A} pid f p (k : M (Sys F) A) (Q : A -> Sys F -> Prop) s :
  zget (_process (procs s)) pid = Some (Some p) ->
  wp k Q (lset (set_process (zset (_process (procs s)) pid (Some (f p))) (procs s)) s) ->
  wp (proc_call (process_update pid f) ;; k) Q s.
Proof.
  intros Hp Hk. rewrite wp_bind. eapply wp_eq; [apply proc_call_eq; by apply process_update_eq|]. exact Hk.
Qed.

(** * Fork *)

(** The child of [p]. *)
Definition child (b p : Process) (pid h : Z) : Process :=
  MkProcess pid (p_pid p) PROCESS_STATE_RUNNING (p_callback b) (p_return_value b) h (p_user p) (p_group p) 1337
    (p_file p)
    (MkRegisters (reg_status (p_reg b)) (reg_pc (p_reg p)) (reg_stack (p_reg p)) (zset (reg_general (p_reg p)) 0 0)).

(** The end of [_fork], when the address space was copied and when not. *)
Definition fork_child (cpid pid : Z) : M (Sys F) Z :=
  let* current := proc_call (process_deref cpid) in
  let reg := p_reg current in
  proc_call (process_update pid (fun p =>
    set_reg (MkRegisters (reg_status (p_reg p)) (reg_pc reg) (reg_stack reg) (reg_general reg)) p)) ;;
  proc_call (process_update pid (set_file (p_file current))) ;;
  proc_call (process_update pid (fun p =>
    set_reg (MkRegisters (reg_status (p_reg p)) (reg_pc (p_reg p)) (reg_stack (p_reg p))
                         (zset (reg_general (p_reg p)) 0 0)) p)) ;;
  proc_call (process_update pid (set_parent (p_pid current))) ;;
  let* new := proc_call (process_deref pid) in
  ret (p_pid new).
Definition fork_undo (fuel : nat) (pid : Z) : M (Sys F) Z :=
  proc_call (process_exit fuel pid 1) ;;
  proc_call (process_update pid (set_state PROCESS_STATE_ZOMBIE)) ;;
  proc_call (process_wait pid) ;;
  ret (- ENOMEM).

(** The assignments to the child's entry. *)
Lemma wp_fork_child s cpid p pid b h :
  cpid <> pid -> zget (_process (procs s)) cpid = Some (Some p) ->
  zget (_process (procs s)) pid = Some (Some (created b pid h (p_user p) (p_group p))) ->
  wp (fork_child cpid pid)
     (fun r s' => r = pid /\
        s' = lset (set_process (zset (_process (procs s)) pid (Some (child b p pid h))) (procs s)) s) s.
Proof.
  intros Hne Hp Hn. unfold fork_child. rewrite wp_bind. eapply wp_eq; [apply proc_call_id; by apply process_deref_eq|]. cbv zeta.
  assert (forall (x : option Process), zget (zset (_process (procs s)) pid x) pid = Some x) as Hz.
  { intros x. rewrite (zget_zset_live _ _ _ _ _ Hn). by rewrite decide_True. }
  do 4 (eapply wp_proc_update;
    [rewrite ?procs_set; cbn [_process set_process]; rewrite ?zset_zset; first [exact Hn|apply Hz]|]).
  rewrite !procs_set. cbn [_process set_process].
  rewrite wp_bind. eapply wp_eq.
  { apply proc_call_id. apply process_deref_eq. rewrite procs_set. cbn [_process set_process]. rewrite !zset_zset. apply Hz. }
  rewrite wp_ret. split; [done|]. rewrite !lset_lset. f_equal. cbn [_process set_process]. rewrite !zset_zset. by destruct (procs s).
Qed.

(** A fresh process that could not be given an address space is removed. *)
Lemma wp_fork_undo fuel s p pid :
  procs_wf (procs s) -> inv (pmmu (procs s)) -> 0 <= _process_current (procs s) < MAX_PROCESSES ->
  2 <= pid < MAX_PROCESSES -> zget (_process (procs s)) pid = Some (Some p) ->
  Forall (fun cb => live (procs s) (cb_owner cb)) (p_callback p) -> Nat.even (length (p_callback p)) = true ->
  (length (p_callback p) < fuel)%nat ->
  wp (fork_undo fuel pid)
     (fun r s' => r = - ENOMEM /\ s' = lset (procs s') s /\ forall q, zget (_process (procs s')) q =
        if decide (q = pid) then Some None else wake_if (wakes (evens (p_callback p)) q) <$> zget (_process (procs s)) q) s.
Proof.
  intros Hw Hi Hcur Hpid Hp Hl He Hf. unfold fork_undo. rewrite wp_bind, wp_proc_call.
  eapply wp_mono; [by apply (wp_process_exit inv fuel (procs s) pid p 1)|]. intros [] ps [[_ Ht] _].
  pose proof (Ht pid) as Hz. rewrite decide_True in Hz by done.
  eapply wp_proc_update; [by rewrite procs_set|]. rewrite !procs_set. rewrite wp_bind, wp_proc_call, procs_set.
  unfold process_wait. rewrite pid_valid_true by lia. cbn [negb]. rewrite wp_bind. eapply wp_eq.
  { apply process_at_eq. cbn [_process set_process]. rewrite (zget_zset_live _ _ _ _ _ Hz). by rewrite decide_True. }
  cbn beta iota. rewrite decide_True by done. rewrite wp_bind, wp_modify, !wp_ret. split; [done|].
  rewrite procs_set. split; [by rewrite !lset_lset|]. intros q. cbn [_process set_process]. rewrite zset_zset.
  rewrite (zget_zset_live _ _ _ _ _ Hz). case_decide as E; [by rewrite decide_True|]. by rewrite Ht, !decide_False.
Qed.

(** Without an even number of waiters, or as process 0 or 1, it is not. *)
Lemma fork_undo_panics fuel s p pid :
  0 <= pid < 2 -> zget (_process (procs s)) pid = Some (Some p) -> fork_undo fuel pid s = Panic.
Proof.
  intros Hpid Hp. assert (process_exit fuel pid 1 (procs s) = Panic) as Hx.
  { unfold process_exit. rewrite pid_valid_true by (unfold MAX_PROCESSES; lia). cbn [negb].
    rewrite (bind_Ret _ _ _ _ _ (process_at_eq _ _ _ Hp)).
    destruct (Z.eqb_spec pid 0); [done|]. destruct (Z.eqb_spec pid 1); [done|lia]. }
  unfold fork_undo, bind at 1. by rewrite (proc_call_Panic _ _ Hx).
Qed.
Lemma fork_undo_faults fuel s p pid :
  2 <= pid < MAX_PROCESSES -> zget (_process (procs s)) pid = Some (Some p) ->
  Forall (fun cb => live (procs s) (cb_owner cb)) (p_callback p) -> Nat.even (length (p_callback p)) = false ->
  (length (p_callback p) < fuel)%nat -> fork_undo fuel pid s = Fault.
Proof.
  intros Hpid Hp Hl He Hf. assert (process_exit fuel pid 1 (procs s) = Fault) as Hx.
  { rewrite (process_exit_tail _ _ _ p) by (done || lia). apply bind_Fault.
    pose proof (exit_callbacks_alternate fuel (procs s) pid p Hp Hl Hf) as Hc. by rewrite He in Hc. }
  apply bind_Fault. by apply proc_call_Fault.
Qed.

(** The beginning of [_fork]. *)
Lemma fork_until_clone fuel s p b pid u h w1 e w2 :
  let ps := procs s in let new := created b pid h (p_user p) (p_group p) in
  let l := _process_last ps + 1 + dist (_process_last ps) pid in
  let t := zset (_process ps) pid (Some new) in
  procs_wf ps -> zget (_process ps) (_process_current ps) = Some (Some p) -> zget (_process ps) pid = Some None ->
  process_create fuel (Some b) (p_user p) (p_group p) ps = Ret (pid, MkProcs t (_process_current ps) l w1) ->
  mmu_init_userspace (pmmu ps) = Ret ((u, h), w1) -> mmu_clone_userspace (p_userspace p) h w1 = Ret (e, w2) ->
  _fork fuel (Some b) s = (if e <? 0 then fork_undo fuel pid else fork_child (_process_current ps) pid)
    (lset (MkProcs t (_process_current ps) l w2) s).
Proof.
  intros ps new l t Hw Hp Hfree Hcr Hm Hcl. pose proof (wf_slot _ _ _ Hw Hfree) as Hpr. unfold _fork.
  rewrite (bind_Ret _ _ _ _ _ (current_process_eq s p Hw Hp)). cbn beta iota.
  rewrite (bind_Ret _ _ _ _ _ (proc_call_eq _ s _ _ Hcr)). destruct (Z.ltb_spec pid 0); [lia|].
  set (ps1 := MkProcs t _ l w1). assert (procs (lset ps1 s) = ps1) as Hps by apply procs_set.
  assert (zget (_process ps1) pid = Some (Some new)) as Hn.
  { cbn. unfold t. by rewrite (zget_zset_live _ _ _ _ _ Hfree), decide_True. }
  erewrite bind_Ret; [|apply (proc_call_id _ _ (Some new))].
  2: { rewrite Hps. unfold process_from_pid. rewrite pid_valid_true by done. by apply process_at_eq. }
  cbn beta iota. erewrite bind_Ret; [|unfold user_call; apply proc_call_eq; rewrite Hps; apply on_mmu_eq; exact Hcl].
  rewrite lset_lset. reflexivity.
Qed.

(** C11. Forking: with a free slot and a block for the process, the next free
    slot becomes a new address space [h] and a child of the caller, and the
    caller's address space is copied to [h] by the MMU driver.  When that
    succeeds the call returns the pid of the child, which is a copy of the
    caller (its owner, open files, program counter, stack pointer and general
    registers, with 0 in the register of the result), and nothing else in the
    system changes: the MMU is as the copy left it.  When the copy fails the
    child exits again: the call fails and leaves no process behind.  Then the
    callbacks count that the block of the child happened to hold, which nobody
    initialises: their owners are woken as by any exit, an odd number of them is
    a null pointer that is followed, and a child that is process 0 or 1 is a
    panic.  The status register of the child is whatever the block held. *)
Theorem fork_correct fuel s p b q :
  let ps := procs s in
  procs_wf ps -> inv (pmmu ps) -> zget (_process ps) (_process_current ps) = Some (Some p) ->
  -1 <= _process_last ps -> _process_last ps + 1025 < 2 ^ 31 -> free ps q -> q <> _process_last ps -> (1024 < fuel)%nat ->
  exists pid u h w1 e w2,
    free ps pid /\ (forall r, free ps r -> dist (_process_last ps) pid <= dist (_process_last ps) r) /\
    mmu_init_userspace (pmmu ps) = Ret ((u, h), w1) /\ mmu_clone_userspace (p_userspace p) h w1 = Ret (e, w2) /\
    (0 <= e -> wp (_fork fuel (Some b)) (fun r s' => r = pid /\ s' =
       lset (MkProcs (zset (_process ps) pid (Some (child b p pid h))) (_process_current ps)
         (_process_last ps + 1 + dist (_process_last ps) pid) w2) s) s) /\
    (e < 0 -> pid < 2 -> _fork fuel (Some b) s = Panic) /\
    (e < 0 -> 2 <= pid -> Forall (fun cb => live ps (cb_owner cb)) (p_callback b) -> (length (p_callback b) < fuel)%nat ->
     if Nat.even (length (p_callback b)) then
       wp (_fork fuel (Some b)) (fun r s' => r = - ENOMEM /\ s' = lset (procs s') s /\ forall r', zget (_process (procs s')) r' =
         wake_if (wakes (evens (p_callback b)) r') <$> zget (_process ps) r') s
     else _fork fuel (Some b) s = Fault).
Proof.
  intros ps Hw Hi Hp Hl Hb Hq Hne Hf. pose proof (wf_slot _ _ _ Hw Hp) as Hcur.
  pose proof (init_userspace_ok _ Hi) as ([u h] & w1 & Hm & Hi1)%wp_run.
  pose proof (clone_userspace_ok (p_userspace p) h _ Hi1) as (e & w2 & Hcl & Hi2)%wp_run.
  destruct (process_create_eq fuel b (p_user p) (p_group p) ps q u h w1) as (pid & Hfree & Hmin & E); [done..|].
  assert (zget (_process ps) pid = Some None) as Hfz by (destruct Hfree as ([x|] & Hfz & Hfo); done).
  pose proof (wf_slot _ _ _ Hw Hfz) as Hpr.
  pose proof (fork_until_clone fuel s p b pid u h w1 e w2 Hw Hp Hfz E Hm Hcl) as Heq. fold ps in Heq.
  set (new := created b pid h (p_user p) (p_group p)) in *. set (t := zset (_process ps) pid (Some new)) in *.
  set (ps2 := MkProcs t _ _ w2) in *. assert (procs (lset ps2 s) = ps2) as Hps2 by apply procs_set.
  assert (zget t pid = Some (Some new)) as Hn by (unfold t; by rewrite (zget_zset_live _ _ _ _ _ Hfz), decide_True).
  assert (forall i, i <> pid -> zget t i = zget (_process ps) i) as Ho.
  { intros i Hi'. unfold t. by rewrite (zget_zset_live _ _ _ _ _ Hfz), decide_False. }
  assert (_process_current ps <> pid) as Hcp by congruence.
  assert (forall i, live ps i -> live ps2 i) as Hlive.
  { intros i [x Hx]. exists x. cbn. rewrite Ho; [done|]. congruence. }
  assert (procs_wf ps2) as Hw2.
  { split; cbn; [unfold t; rewrite length_zset; apply Hw|]. intros i x Hx. unfold t in Hx.
    rewrite (zget_zset_live _ _ _ _ _ Hfz) in Hx. case_decide; [|by apply Hw]. simplify_eq. by split. }
  exists pid, u, h, w1, e, w2. split_and!; try done; unfold wp; rewrite Heq.
  - intros He. rewrite (proj2 (Z.ltb_ge e 0)) by done.
    eapply wp_mono; [apply (wp_fork_child _ _ p pid b h); rewrite ?Hps2; [done|cbn; by rewrite Ho|done]|].
    intros r s' [-> ->]. split; [done|]. rewrite Hps2, lset_lset. unfold set_process, ps2, t.
    cbn [_process _process_current _process_last pmmu]. by rewrite zset_zset.
  - intros He Hge. rewrite (proj2 (Z.ltb_lt e 0)) by done. apply (fork_undo_panics _ _ new); [lia|by rewrite Hps2].
  - intros He Hge Hcb Hf'. rewrite (proj2 (Z.ltb_lt e 0)) by done.
    assert (Forall (fun cb => live ps2 (cb_owner cb)) (p_callback new)) as Hl2 by (eapply Forall_impl; [exact Hcb|]; intros cb; apply Hlive).
    destruct (Nat.even _) eqn:Hev.
    + eapply wp_mono; [apply (wp_fork_undo fuel _ new pid); rewrite ?Hps2; done || lia|].
      intros r s' (-> & Hs & Hs'). split; [done|]. split; [by rewrite lset_lset in Hs|]. intros r'. rewrite Hs', Hps2. cbn [_process ps2]. case_decide as Er; [subst r'; by rewrite Hfz|].
      by rewrite Ho.
    + apply (fork_undo_faults _ _ new); rewrite ?Hps2; done || lia.
Qed.
End processes.

(** * Files *)

(** The lowest free descriptor of a process. *)
Definition first_free_fd (t : list Z) (fd : Z) : Prop :=
  (exists g, zget t fd = Some g /\ g < 0) /\ forall j g, 0 <= j < fd -> zget t j = Some g -> 0 <= g.

Section files.
Context {F D W : Type} `{LensLaws F (Io D W)} `{Mmu W} `{UserMmu W}.
Variables (fuel : nat) (s0 st : stat) (queue_block : bool) (process_block : option Process)
  (exe_block : option (Z * list Z)) (user_string : Z -> list Z) (user_bytes : Z -> Z -> list Z).
Implicit Types s : Sys F.
Abbreviation stub := (syscall_stub fuel s0 st queue_block process_block exe_block user_string user_bytes).

(** The file table of process [pid] with [g] as descriptor [fd]. *)
Definition with_fd (pid fd g : Z) (p : Process) s : Sys F :=
  lset (set_process (zset (_process (procs s)) pid (Some (set_file (zset (p_file p) fd g) p))) (procs s)) s.

(** The loop of [_open]. *)
Lemma install_fd_eq s pid p fd g : zget (_process (procs s)) pid = Some (Some p) ->
  length (p_file p) = Z.to_nat MAX_PROCESS_FILES -> first_free_fd (p_file p) fd ->
  for_range (Z.to_nat MAX_PROCESS_FILES) 0 (fun fd =>
    let* proc := proc_call (process_deref pid) in
    let* g' := need (zget (p_file proc) fd) in
    if g' <? 0 then
      proc_call (process_update pid (fun p => set_file (zset (p_file p) fd g) p)) ;; ret (Some fd)
    else ret None) s = Ret (Some fd, with_fd pid fd g p s).
Proof.
  intros Hp Hlen [(gf & Hgf & Hneg) Hlow]. pose proof (zget_lt_Some _ _ _ Hgf) as Hfr. unfold MAX_PROCESS_FILES in *.
  assert (proc_call (process_deref pid) s = Ret (p, s)) as Hd by by apply proc_call_id, process_deref_eq.
  replace (Z.to_nat 64) with (Z.to_nat fd + S (63 - Z.to_nat fd))%nat by lia. erewrite for_range_split.
  - apply for_range_done. rewrite Z.add_0_l, Z2Nat.id by lia. rewrite (bind_Ret _ _ _ _ _ Hd).
    rewrite (bind_Ret _ _ gf s s) by (unfold need; by rewrite Hgf). rewrite (proj2 (Z.ltb_lt gf 0)) by done.
    erewrite bind_Ret; [|apply proc_call_eq; by apply process_update_eq]. done.
  - rewrite (for_range_find _ _ _ (fun _ => None)).
    + assert (forall n i, find_from n i (fun _ : Z => @None Z) = None) as ->; [|done]. induction n; intros i; [done|]. by apply IHn.
    + intros j Hj. rewrite (bind_Ret _ _ _ _ _ Hd). destruct (zget_in_range (p_file p) j) as [gj Hgj]; [lia|].
      rewrite (bind_Ret _ _ gj s s) by (unfold need; by rewrite Hgj).
      pose proof (Hlow j gj ltac:(lia) Hgj). by rewrite (proj2 (Z.ltb_ge gj 0)).
Qed.

(** No descriptor is free. *)
Lemma install_fd_full s pid p g : zget (_process (procs s)) pid = Some (Some p) ->
  length (p_file p) = Z.to_nat MAX_PROCESS_FILES -> Forall (fun g => 0 <= g) (p_file p) ->
  for_range (Z.to_nat MAX_PROCESS_FILES) 0 (fun fd =>
    let* proc := proc_call (process_deref pid) in
    let* g' := need (zget (p_file proc) fd) in
    if g' <? 0 then
      proc_call (process_update pid (fun p => set_file (zset (p_file p) fd g) p)) ;; ret (Some fd)
    else ret None) s = Ret (None, s).
Proof.
  intros Hp Hlen Hall. rewrite (for_range_find _ _ _ (fun _ => None)); [reflexivity|].
  intros j Hj. assert (proc_call (process_deref pid) s = Ret (p, s)) as Hd by by apply proc_call_id, process_deref_eq.
  rewrite (bind_Ret _ _ _ _ _ Hd). destruct (zget_in_range (p_file p) j) as [gj Hgj]; [lia|].
  rewrite (bind_Ret _ _ gj s s) by (unfold need; by rewrite Hgj).
  pose proof (Forall_zget _ _ _ _ Hall Hgj). by rewrite (proj2 (Z.ltb_ge gj 0)).
Qed.

(** [_open] up to the process's file table. *)
Lemma open_eq s v p g name flags :
  procs_wf (procs s) -> zget (_process (procs s)) (_process_current (procs s)) = Some (Some p) -> name <> 0 ->
  vfs_open fuel s0 st (user_string name) flags (sys_vfs s) = Ret (g, v) -> fsw v = fsw (sys_vfs s) -> 0 <= g ->
  let s1 := lset v s in procs s1 = procs s /\
  _open fuel s0 st user_string name flags s =
  (let* r := for_range (Z.to_nat MAX_PROCESS_FILES) 0 (fun fd =>
      let* proc := proc_call (process_deref (_process_current (procs s))) in
      let* g' := need (zget (p_file proc) fd) in
      if g' <? 0 then
        proc_call (process_update (_process_current (procs s)) (fun p => set_file (zset (p_file p) fd g) p)) ;; ret (Some fd)
      else ret None) in ret (default (- EMFILE) r)) s1.
Proof.
  intros Hw Hp Hname Hv Hfs Hg s1. split; [unfold procs; cbn; by rewrite Hfs|].
  unfold _open. rewrite (proj2 (Z.eqb_neq name 0)) by done.
  rewrite (bind_Ret _ _ _ _ _ (current_process_eq s p Hw Hp)). cbn beta iota.
  erewrite bind_Ret; [|apply on_eq; exact Hv]. destruct (Z.ltb_spec g 0); [lia|]. done.
Qed.

(** A call with a number above the table is refused, and the calls in the
    table are those of their handlers. *)
Theorem syscall_dispatch s syscall arg0 arg1 arg2 : 0 <= syscall ->
  (SYSCALLS < syscall -> stub syscall arg0 arg1 arg2 s = Ret ((- EINVAL, []), s)) /\
  (syscall < SYSCALLS -> exists call,
     zget (syscall_handler fuel s0 st queue_block process_block exe_block user_string user_bytes) syscall = Some call /\
     stub syscall arg0 arg1 arg2 s = call arg0 arg1 arg2 s).
Proof.
  intros Hs0. unfold syscall_stub. split; intros Hs.
  - by rewrite (proj2 (Z.ltb_lt _ _)).
  - rewrite (proj2 (Z.ltb_ge _ _)) by lia.
    destruct (zget_in_range (syscall_handler fuel s0 st queue_block process_block exe_block user_string user_bytes) syscall)
      as [call Hc]; [cbn; unfold SYSCALLS in Hs; lia|].
    exists call. split; [done|]. rewrite (bind_Ret _ _ call s s); [done|]. unfold need. by rewrite Hc.
Qed.

(** The check of the number lets [SYSCALLS] itself pass: the call goes
    through the word after the table. *)
Theorem syscall_overrun s arg0 arg1 arg2 : stub SYSCALLS arg0 arg1 arg2 s = Fault.
Proof. done. Qed.

(** The descriptor is checked before anything is read: a number that is not
    a descriptor, or a descriptor that is not open, gives [-EBADF] and nothing
    changes. *)
Theorem syscall_read_refuses s fd buf count p :
  procs_wf (procs s) -> zget (_process (procs s)) (_process_current (procs s)) = Some (Some p) ->
  let d := s32 fd in
  (d < 0 \/ MAX_PROCESS_FILES <= d \/ exists g, zget (p_file p) d = Some g /\ g < 0) ->
  stub 2 fd buf count s = Ret ((- EBADF, []), s).
Proof.
  intros Hw Hp d Hd. unfold syscall_stub. cbn [Z.ltb Z.compare SYSCALLS]. unfold syscall_handler at 1.
  change (SYSCALLS <? 2) with false. cbn iota. rewrite (bind_Ret _ _ (fun arg0 _ arg2 =>
    let* ' (r, bytes) := _read queue_block (s32 arg0) arg2 in ret (s32 r, bytes)) s s) by done.
  rewrite (bind_Ret _ _ (- EBADF, []) s s); [done|]. unfold _read. fold d.
  rewrite (bind_Ret _ _ (inl (- EBADF)) s s); [done|]. unfold global_file.
  destruct ((d <? 0) || (MAX_PROCESS_FILES <=? d)) eqn:Er; [done|]. bool_prop.
  rewrite (bind_Ret _ _ _ _ _ (current_process_eq s p Hw Hp)). cbn beta iota.
  destruct Hd as [?|[?|(g & Hg & Hneg)]]; [lia|lia|].
  rewrite (bind_Ret _ _ g s s) by (unfold need; by rewrite Hg). by rewrite (proj2 (Z.ltb_lt g 0)).
Qed.

Section open.
Context (s : Sys F) (f : lookup_fun) (name : Z) (c : list Z) (cs : list (list Z)) (root mp g : Z).
Context (x x' : stat) (m : VFSMountPoint) (p : Process).
Abbreviation pid := (_process_current (procs s)).
Hypothesis Hw : procs_wf (procs s).
Hypothesis Hp : zget (_process (procs s)) pid = Some (Some p).
Hypothesis Hname : name <> 0.
Hypothesis Hpath : user_string name = render (c :: cs).
Hypothesis Hv : vfs_wf (sys_vfs s).
Hypothesis Ha : answers (sys_vfs s) f.
Hypothesis Hr : find_mount is_root (sys_vfs s) = Some root.
Hypothesis Hcs : Forall component_ok (c :: cs).
Hypothesis Hf : (length cs < fuel)%nat.
Hypothesis Hwalk : walk (sys_vfs s) f root 0 c cs = Some (inr (mp, x)).
Hypothesis Hino : inode_answer (sys_vfs s) mp (st_ino x) x'.
Hypothesis Hm : zget (_vfs_mount (sys_vfs s)) mp = Some m.
Hypothesis Hg : first_free_file (sys_vfs s) g.

(** The state after the global part of [open]. *)
Definition globally_open : Sys F := lset (opened_file (sys_vfs s) g mp x' m) s.

Lemma open_files_eq flags : procs globally_open = procs s /\
  _open fuel s0 st user_string name flags s =
  (let* r := for_range (Z.to_nat MAX_PROCESS_FILES) 0 (fun fd =>
      let* proc := proc_call (process_deref pid) in
      let* g' := need (zget (p_file proc) fd) in
      if g' <? 0 then
        proc_call (process_update pid (fun p => set_file (zset (p_file p) fd g) p)) ;; ret (Some fd)
      else ret None) in ret (default (- EMFILE) r)) globally_open.
Proof.
  destruct Hg as [(fx & Hfx & _) _]. pose proof (zget_lt_Some _ _ _ Hfx).
  apply (open_eq s (opened_file (sys_vfs s) g mp x' m) p g name flags); try done; [|lia].
  rewrite Hpath. by eapply vfs_open_eq.
Qed.

Lemma file_table_length : length (p_file p) = Z.to_nat MAX_PROCESS_FILES.
Proof. apply (ok_file _ _ (wf_entry _ Hw _ _ Hp)). Qed.

(** C10. Opening and reading a file with the system calls: the path resolves to
    an inode, the process gets its lowest free descriptor for it, and reading
    from that descriptor returns the first bytes of the contents that the file
    system serves for the inode. *)
Theorem open_then_read fd contents flags buf count :
  first_free_fd (p_file p) fd ->
  (forall ps : Procs W, regular (sys_vfs (lset ps globally_open)) (open_entry mp x') contents) ->
  Z.of_nat (length contents) < 2 ^ 31 -> 0 <= count < 2 ^ 31 ->
  wp (let* ' (r, _) := stub 4 name flags 0 in let* ' (n, bytes) := stub 2 (u32 r) buf count in ret (r, n, bytes))
    (fun res _ => let l := slice contents 0 count in res = (fd, Z.of_nat (length l), l)) s.
Proof.
  intros Hfd Hreg Hlen Hc. pose proof file_table_length as Hft.
  destruct (open_files_eq (s32 flags)) as [Hps Hopen]. pose proof Hfd as [(gf & Hgf & _) _].
  pose proof (zget_lt_Some _ _ _ Hgf) as Hfdr. unfold MAX_PROCESS_FILES in Hft.
  set (s2 := with_fd pid fd g p globally_open).
  assert (stub 4 name flags 0 s = Ret ((fd, []), s2)) as Hs.
  { unfold syscall_stub. change (SYSCALLS <? 4) with false. cbn iota.
    rewrite (bind_Ret _ _ (fun arg0 arg1 _ => result (_open fuel s0 st user_string arg0 (s32 arg1))) s s) by done.
    unfold result. rewrite (bind_Ret _ _ fd _ s2); [unfold ret; by rewrite s32_small by lia|].
    rewrite Hopen. erewrite bind_Ret; [|apply install_fd_eq; [by rewrite Hps|done|done]]. done. }
  rewrite wp_bind. eapply wp_eq; [exact Hs|]. cbn beta iota.
  set (p2 := set_file (zset (p_file p) fd g) p).
  assert (procs s2 = set_process (zset (_process (procs s)) pid (Some p2)) (procs s)) as Hps2.
  { unfold s2, with_fd. by rewrite procs_set, Hps. }
  pose proof (zget_lt_Some _ _ _ Hp) as Hpidr. pose proof Hg as [(fx & Hfx & _) _]. pose proof (zget_lt_Some _ _ _ Hfx) as Hgr.
  assert (procs_wf (procs s2)) as Hw2.
  { rewrite Hps2. apply wf_zset; [done|by eapply wf_slot|]. intros ? [= <-].
    destruct (wf_entry _ Hw _ _ Hp) as [? ?]. split; [done|]. cbn. by rewrite length_zset. }
  assert (vfs_wf (sys_vfs s2)) as Hv2.
  { destruct Hv as [? ?]. split; cbn; by rewrite ?length_zset. }
  assert (zget (vfs_file (sys_vfs s2)) g = Some (open_entry mp x')) as He by (cbn; by apply zget_zset_eq).
  rewrite wp_bind. eapply wp_eq.
  { unfold syscall_stub. change (SYSCALLS <? 2) with false. cbn iota.
    rewrite (bind_Ret _ _ (fun arg0 _ arg2 =>
      let* ' (r, bytes) := _read queue_block (s32 arg0) arg2 in ret (s32 r, bytes)) s2 s2) by done.
    rewrite u32_small, s32_small by lia. unfold _read. rewrite bind_assoc.
    rewrite (bind_Ret _ _ (inr g) s2 s2).
    - pose proof (vfs_read_eq queue_block (sys_vfs s2) g _ contents count Hv2 He (Hreg _) ltac:(cbn; lia) Hlen Hc) as Hrd.
      cbv zeta in Hrd. erewrite bind_Ret; [|apply on_eq; exact Hrd]. reflexivity.
    - unfold global_file, MAX_PROCESS_FILES. destruct (Z.ltb_spec fd 0), (Z.leb_spec 64 fd); try lia. cbn [orb].
      rewrite (bind_Ret _ _ _ _ _ (current_process_eq s2 p2 Hw2 ltac:(rewrite Hps2; cbn; by apply zget_zset_eq))). cbn beta iota.
      rewrite (bind_Ret _ _ g s2 s2); [|unfold need; cbn; by rewrite zget_zset_eq by lia].
      destruct (Z.ltb_spec g 0); [lia|done]. }
  rewrite wp_ret. cbn [f_pos open_entry]. pose proof (length_slice contents 0 count ltac:(lia) ltac:(lia)). by rewrite s32_small by lia.
Qed.

(** A process whose descriptors are all in use gets [-EMFILE], but the file
    stays open in the global table, where no descriptor leads to it. *)
Theorem open_leaks flags : Forall (fun g => 0 <= g) (p_file p) ->
  wp (stub 4 name flags 0) (fun r s' => r = (- EMFILE, []) /\ procs s' = procs s /\
    zget (vfs_file (sys_vfs s')) g = Some (open_entry mp x') /\ is_used (open_entry mp x') = true) s.
Proof.
  intros Hall. destruct (open_files_eq (s32 flags)) as [Hps Hopen]. pose proof Hg as [(fx & Hfx & _) _].
  pose proof (zget_lt_Some _ _ _ Hfx) as Hgr.
  eapply wp_eq.
  - unfold syscall_stub. change (SYSCALLS <? 4) with false. cbn iota.
    rewrite (bind_Ret _ _ (fun arg0 arg1 _ => result (_open fuel s0 st user_string arg0 (s32 arg1))) s s) by done.
    unfold result. rewrite (bind_Ret _ _ (- EMFILE) _ globally_open); [reflexivity|]. rewrite Hopen.
    rewrite (bind_Ret _ _ None _ globally_open); [reflexivity|]. apply (install_fd_full _ _ p); [by rewrite Hps|apply file_table_length|done].
  - split_and!; [done|done|cbn; by apply zget_zset_eq|done].
Qed.

(** * Executing a program *)

Lemma seek_set_eq (v : Vfs F) fd e pos : zget (vfs_file v) fd = Some e ->
  vfs_seek st fd pos 0 v = Ret (0, set_files (zset (vfs_file v) fd (set_pos pos e)) v).
Proof. intros He. unfold vfs_seek. cbn [Z.eqb]. by rewrite (bind_Ret _ _ _ _ _ (file_update_eq v fd e _ He)). Qed.

Lemma seek_end_eq (v : Vfs F) fd e x2 : zget (vfs_file v) fd = Some e -> inode_answer v (data_instance e) (data_inode e) x2 ->
  vfs_seek st fd 0 2 v = Ret (0, set_files (zset (vfs_file v) fd (set_pos (s64 (st_size x2 + 0)) e)) v).
Proof.
  intros He (m2 & t & Hm2 & Ht & Hst). unfold vfs_seek. change (2 =? 0) with false. change (2 =? 1) with false.
  change (2 =? 2) with true. cbn iota. rewrite (bind_Ret _ _ _ _ _ (file_at_eq v fd e He)).
  rewrite (bind_Ret _ _ (0, x2) v v).
  - cbn iota. by rewrite (bind_Ret _ _ _ _ _ (file_update_eq v fd e _ He)).
  - unfold vfs_stat_inode. rewrite (bind_Ret _ _ _ _ _ (mounted_type_eq _ _ _ _ Hm2 Ht)). cbn iota.
    by apply fs_call_eq_id.
Qed.

Lemma close_eq (v : Vfs F) fd e m2 : 0 <= fd < MAX_GLOBAL_FILES -> zget (vfs_file v) fd = Some e -> f_ref e = 1 ->
  zget (_vfs_mount v) (data_instance e) = Some m2 ->
  vfs_close fd v = Ret (0, set_mounts (zset (_vfs_mount v) (data_instance e) (set_open_files (s32 (open_files m2 - 1)) m2))
    (set_files (zset (vfs_file v) fd (set_is_used false (set_ref 0 e))) v)).
Proof.
  intros Hfd He Href Hm2. pose proof (zget_lt_Some _ _ _ He) as Hfdr. unfold vfs_close, MAX_GLOBAL_FILES in *.
  destruct (Z.ltb_spec fd 0), (Z.leb_spec 1024 fd); try lia. cbn [orb].
  rewrite (bind_Ret _ _ _ _ _ (file_update_eq v fd e _ He)). rewrite Href. change (s32 (1 - 1)) with 0.
  set (v1 := set_files (zset (vfs_file v) fd (set_ref 0 e)) v).
  assert (zget (vfs_file v1) fd = Some (set_ref 0 e)) as Hv1 by by apply zget_zset_eq.
  rewrite (bind_Ret _ _ _ _ _ (file_at_eq v1 fd _ Hv1)). cbn [f_ref set_ref Z.eqb].
  rewrite bind_assoc, (bind_Ret _ _ _ _ _ (file_update_eq v1 fd _ _ Hv1)).
  erewrite bind_Ret; [|apply mount_update_eq; exact Hm2].
  unfold ret, set_mounts, set_files, v1. cbn. unfold zset. by rewrite list_insert_insert_eq.
Qed.

(** The entry of the program file at position [pos]. *)
Definition exe_entry (pos : Z) : VFSFileEntry := set_pos pos (open_entry mp x').

(** The state of the VFS while the program file is open, at position [pos]. *)
Definition exe_open (pos : Z) : Vfs F :=
  set_files (zset (vfs_file (sys_vfs globally_open)) g (exe_entry pos)) (sys_vfs globally_open).

Lemma exe_open_file pos : zget (vfs_file (exe_open pos)) g = Some (exe_entry pos).
Proof. destruct Hg as [(fx & Hfx & _) _]. apply zget_zset_eq. cbn. rewrite length_zset. by apply (zget_lt_Some _ _ _ Hfx). Qed.
Lemma exe_open_set pos pos' :
  set_files (zset (vfs_file (exe_open pos)) g (set_pos pos' (exe_entry pos))) (exe_open pos) = exe_open pos'.
Proof. unfold exe_open, set_files. cbn. unfold zset. by rewrite !list_insert_insert_eq. Qed.
Lemma exe_open_first : opened_file (sys_vfs s) g mp x' m = exe_open 0.
Proof.
  unfold exe_open, globally_open, opened_file. destruct (sys_vfs s). unfold set_files. cbn. unfold zset.
  by rewrite !list_insert_insert_eq.
Qed.

(** After closing it again. *)
Lemma exe_closed pos : -1 <= open_files m < 2 ^ 31 - 1 -> S_ISBLK (st_mode x') || S_ISCHR (st_mode x') = false ->
  exists v, vfs_close g (exe_open pos) = Ret (0, v) /\ _vfs_mount v = _vfs_mount (sys_vfs s) /\
    fsw v = fsw (sys_vfs s) /\ forall j, j <> g -> zget (vfs_file v) j = zget (vfs_file (sys_vfs s)) j.
Proof.
  intros Hof Hdev. destruct Hg as [(fx & Hfx & _) _]. pose proof (zget_lt_Some _ _ _ Hfx) as Hgr.
  pose proof (zget_lt_Some _ _ _ Hm) as Hmr. rewrite (vwf_files _ Hv) in Hgr. rewrite (vwf_mounts _ Hv) in Hmr.
  unfold MAX_GLOBAL_FILES, MAX_MOUNT_POINTS in *.
  assert (data_instance (exe_entry pos) = mp) as Hd.
  { unfold data_instance. cbn [data_word exe_entry set_pos open_entry]. rewrite Hdev. apply s32_small. lia. }
  eexists. split.
  - apply (close_eq (exe_open pos) g (exe_entry pos) (set_open_files (s32 (open_files m + 1)) m)).
    + unfold MAX_GLOBAL_FILES. lia.
    + apply exe_open_file.
    + done.
    + rewrite Hd. cbn. by apply zget_zset_eq, (zget_lt_Some _ _ _ Hm).
  - rewrite Hd. split_and!.
    + change (zset (zset (_vfs_mount (sys_vfs s)) mp (set_open_files (s32 (open_files m + 1)) m)) mp
        (set_open_files (s32 (s32 (open_files m + 1) - 1)) m) = _vfs_mount (sys_vfs s)).
      unfold zset. rewrite list_insert_insert_eq, (s32_small (open_files m + 1)), Z.add_simpl_r, s32_small by lia.
      assert (set_open_files (open_files m) m = m) as -> by by destruct m. by apply zset_id.
    + done.
    + intros j Hj. cbn. by rewrite !zget_zset_ne by lia.
Qed.

Lemma on_vfs_eq {A} (a : M (Vfs F) A) v r v' : a v = Ret (r, v') -> on a (lset v s) = Ret (r, lset v' s).
Proof. intros Hrun. unfold on, zoom. cbn [lget lset sys_vfs_lens sys_vfs]. by rewrite Hrun. Qed.

Lemma user_call_eq {A} (u : M W A) s' a w : u (pmmu (procs s')) = Ret (a, w) ->
  user_call u s' = Ret (a, lset (MkProcs (_process (procs s')) (_process_current (procs s')) (_process_last (procs s')) w) s').
Proof. intros Hu. apply proc_call_eq. unfold on_mmu, zoom. by rewrite Hu. Qed.

(** Reading a file as a whole: opening it, asking for its size at the end,
    and reading that many bytes from the start. *)
Lemma wp_read_file {A} prog x2 (k : Z -> list Z -> M (Sys F) A) (Q : A -> Sys F -> Prop) :
  regular (exe_open 0) (exe_entry 0) prog ->
  inode_answer (sys_vfs s) mp (st_ino x') x2 -> st_size x2 = Z.of_nat (length prog) ->
  Z.of_nat (length prog) < 2 ^ 31 -> S_ISBLK (st_mode x') || S_ISCHR (st_mode x') = false ->
  wp (k g prog) Q (lset (exe_open (Z.of_nat (length prog))) s) ->
  wp (let* fd := on (vfs_open fuel s0 st (render (c :: cs)) 0) in
      on (vfs_seek st fd 0 2) ;;
      let* pos := on (vfs_tell fd) in
      let size := u32 pos in
      on (vfs_seek st fd 0 0) ;;
      let* ' (_, bytes) := on (vfs_read queue_block fd size) in
      k fd bytes) Q s.
Proof.
  intros Hreg Hino2 Hsize Hlen Hdev Hk. set (n := Z.of_nat (length prog)) in *.
  pose proof (zget_lt_Some _ _ _ Hm) as Hmr. rewrite (vwf_mounts _ Hv) in Hmr. unfold MAX_MOUNT_POINTS in Hmr.
  rewrite wp_bind. eapply wp_eq; [apply on_eq; by eapply vfs_open_eq|].
  change (lget s) with (sys_vfs s). rewrite exe_open_first.
  rewrite wp_bind. eapply wp_eq.
  { apply on_vfs_eq, (seek_end_eq (exe_open 0) g (exe_entry 0) x2); [apply exe_open_file|].
    destruct Hino2 as (m2 & t & Hm2 & Ht & Hst). exists (set_open_files (s32 (open_files m + 1)) m), t.
    assert (m2 = m) as -> by congruence.
    assert (data_instance (exe_entry 0) = mp) as ->.
    { unfold data_instance. cbn [data_word exe_entry set_pos open_entry]. rewrite Hdev. apply s32_small. lia. }
    split_and!; [cbn; by apply zget_zset_eq, (zget_lt_Some _ _ _ Hm)|done|done]. }
  rewrite exe_open_set, Hsize, Z.add_0_r, s64_small by lia.
  rewrite wp_bind. eapply wp_eq.
  { apply on_vfs_eq. unfold vfs_tell. rewrite (bind_Ret _ _ _ _ _ (file_at_eq _ _ _ (exe_open_file n))). reflexivity. }
  cbn [f_pos exe_entry set_pos]. cbv zeta. rewrite u32_small by lia.
  rewrite wp_bind. eapply wp_eq; [apply on_vfs_eq, seek_set_eq; apply exe_open_file|]. rewrite exe_open_set.
  rewrite wp_bind. eapply wp_eq.
  { apply on_vfs_eq, (vfs_read_eq queue_block (exe_open 0) g (exe_entry 0) prog n);
      [|apply exe_open_file|done|cbn; lia|done|lia].
    destruct Hv as [? ?]. split; cbn; by rewrite ?length_zset. }
  change (f_pos (exe_entry 0)) with 0. assert (slice prog 0 n = prog) as -> by (unfold slice, n; rewrite Nat2Z.id; apply take_ge; cbn; lia).
  rewrite exe_open_set. fold n. exact Hk.
Qed.

(** C9. Executing a program: when the path resolves to a file with the bytes
    [prog], and clearing the caller's address space and loading [prog] gives
    the entry point [entry] and the MMU state [w], then the call returns 0 and
    leaves the caller with the program counter [entry] in that MMU state, the
    file closed again, and a context switch requested; no other process and no
    other open file changes. *)
Theorem execve_correct E heap prog x2 entry w :
  exe_block = Some (E, heap) -> length heap = length prog ->
  (forall v, fsw v = fsw (sys_vfs s) -> _vfs_mount v = _vfs_mount (sys_vfs globally_open) ->
     _vfs_type v = _vfs_type (sys_vfs s) -> regular v (exe_entry 0) prog) ->
  inode_answer (sys_vfs s) mp (st_ino x') x2 -> st_size x2 = Z.of_nat (length prog) ->
  Z.of_nat (length prog) < 2 ^ 31 -> S_ISBLK (st_mode x') || S_ISCHR (st_mode x') = false ->
  -1 <= open_files m < 2 ^ 31 - 1 ->
  (mmu_clear_userspace (p_userspace p) ;; elf_load E prog) (pmmu (procs s)) = Ret (entry, w) ->
  wp (_execve fuel s0 st queue_block exe_block user_string name) (fun r s' => r = 0 /\
    procs s' = MkProcs (zset (_process (procs s)) pid (Some (set_reg
        (MkRegisters (reg_status (p_reg p)) entry (reg_stack (p_reg p)) (reg_general (p_reg p))) p)))
      pid (_process_last (procs s)) w /\
    syscall_context_switch_flag s' = 1 /\ _vfs_mount (sys_vfs s') = _vfs_mount (sys_vfs s) /\
    forall j, j <> g -> zget (vfs_file (sys_vfs s')) j = zget (vfs_file (sys_vfs s)) j) s.
Proof.
  intros Hexe Hheap Hreg Hino2 Hsize Hlen Hdev Hof Hload.
  apply bind_Ret_inv in Hload as ([] & w1 & Hclear & Hload).
  destruct (exe_closed (Z.of_nat (length prog)) Hof Hdev) as (v & Hclose & Hvm & Hvf & Hvo).
  unfold _execve. rewrite (proj2 (Z.eqb_neq name 0)) by done.
  rewrite wp_bind. eapply wp_eq; [by apply current_process_eq|]. cbn beta iota. rewrite Hpath.
  eapply wp_read_file; [by apply Hreg|done..|].
  rewrite wp_bind. eapply wp_eq; [apply on_vfs_eq; exact Hclose|]. set (s5 := lset v s).
  assert (procs s5 = procs s) as Hps5 by (unfold procs; cbn; by rewrite Hvf).
  rewrite wp_bind, (wp_need _ (E, heap)) by done. cbn beta iota.
  rewrite drop_ge, app_nil_r by lia.
  rewrite wp_bind. eapply wp_eq; [apply proc_call_id, process_deref_eq; rewrite Hps5; exact Hp|].
  rewrite wp_bind. eapply wp_eq; [apply user_call_eq; rewrite Hps5; exact Hclear|].
  rewrite wp_bind. eapply wp_eq; [apply user_call_eq; rewrite procs_set; exact Hload|].
  rewrite !procs_set. cbn [_process _process_current _process_last]. rewrite Hps5.
  rewrite wp_bind, wp_proc_call, procs_set. unfold process_set_pc. rewrite pid_valid_true by by eapply wf_slot.
  cbn [negb]. rewrite wp_bind. eapply wp_eq; [apply process_at_eq; exact Hp|]. cbn beta iota.
  eapply wp_eq; [apply process_update_eq; exact Hp|].
  rewrite wp_bind. unfold syscall_trigger_context_switch. rewrite wp_modify, wp_ret. split_and!; [done| |done|done|done].
  unfold procs. cbn. rewrite (lget_lset (S:=F) (T:=Io D W)). done.
Qed.
End open.

(** A program that is not there: the error of [vfs_open] is used as a
    descriptor. *)
Theorem execve_missing_faults s p name e v :
  procs_wf (procs s) -> zget (_process (procs s)) (_process_current (procs s)) = Some (Some p) -> name <> 0 ->
  vfs_open fuel s0 st (user_string name) 0 (sys_vfs s) = Ret (e, v) -> e < 0 ->
  _execve fuel s0 st queue_block exe_block user_string name s = Fault.
Proof.
  intros Hw Hp Hname Hv He. unfold _execve. rewrite (proj2 (Z.eqb_neq name 0)) by done.
  rewrite (bind_Ret _ _ _ _ _ (current_process_eq s p Hw Hp)). cbn beta iota.
  erewrite bind_Ret; [|apply on_eq; exact Hv]. apply bind_Fault. unfold on, zoom, vfs_seek. cbn [lget lset sys_vfs_lens sys_vfs].
  change (2 =? 0) with false. change (2 =? 1) with false. change (2 =? 2) with true. cbn iota.
  unfold file_at, bind, gets, need. unfold zget. by rewrite (proj2 (Z.ltb_lt e 0)).
Qed.
End files.

(** * Witnesses *)

#[local] Instance no_mmu : Mmu unit := {
  mmu_init_userspace := ret (0, 0); mmu_free_userspace _ := ret tt; mmu_switch_userspace _ := ret 0;
  mmu_invalidate_all := ret tt; mmu_map_current_userspace := ret tt }.
#[local] Instance no_user_mmu : UserMmu unit := {
  mmu_clear_userspace _ := ret tt; mmu_clone_userspace _ _ := ret 0;
  mmu_alloc_at _ _ _ := ret 0; mmu_fill_frame _ _ _ _ := ret tt }.
#[local] Instance no_mmu_laws : MmuLaws unit (fun _ => True).
Proof. by split. Qed.
#[local] Instance no_user_mmu_laws : UserMmuLaws unit (fun _ => True).
Proof. by split. Qed.
#[local] Instance self_lens : Lens (Io unit unit) (Io unit unit) := { lget s := s; lset t _ := t }.
#[local] Instance self_laws : LensLaws (Io unit unit) (Io unit unit).
Proof. by split. Qed.

(** The system over the VFS with the file "/d/f", and that path as the only
    string. *)
Definition toy_sys : Sys (Io unit unit) := MkSys toy_vfs 0.
Definition toy_string (a : Z) : list Z := render [[100]; [102]].
Definition toy_current : Process := demo_process 2 PROCESS_STATE_RUNNING [].

Lemma toy_procs_wf : procs_wf (procs toy_sys).
Proof. apply (demo_wf 3 2 2). lia. Qed.

Abbreviation toy_stub := (syscall_stub (F := Io unit unit) 5 (toy_node 0 0) (toy_node 0 0) true None None toy_string (fun _ _ => [])).

Lemma syscall_dispatch_witness :
  (SYSCALLS < 20 -> toy_stub 20 0 0 0 toy_sys = Ret ((- EINVAL, []), toy_sys)) /\
  (20 < SYSCALLS -> exists call, zget (syscall_handler (F := Io unit unit) 5 (toy_node 0 0) (toy_node 0 0) true None None
      toy_string (fun _ _ => [])) 20 = Some call /\ toy_stub 20 0 0 0 toy_sys = call 0 0 0 toy_sys).
Proof. apply syscall_dispatch. lia. Defined.

Lemma syscall_read_refuses_witness : toy_stub 2 3 0 10 toy_sys = Ret ((- EBADF, []), toy_sys).
Proof.
  apply (syscall_read_refuses _ _ _ _ _ _ _ _ _ _ _ _ toy_current); [apply toy_procs_wf|done|].
  right; right. by exists (-1).
Defined.

Lemma toy_fd : first_free_fd (p_file toy_current) 0.
Proof. split; [by exists (-1)|]. lia. Qed.

Lemma open_then_read_witness :
  wp (let* ' (r, _) := toy_stub 4 1 0 0 in let* ' (n, bytes) := toy_stub 2 (u32 r) 0 2 in ret (r, n, bytes))
    (fun res _ => res = (0, 2, [10; 20])) toy_sys.
Proof.
  apply (open_then_read 5 (toy_node 0 0) (toy_node 0 0) true None None toy_string (fun _ _ => []) toy_sys toy_answer 1
    [100] [[102]] 0 0 0 (toy_node 5 S_IFREG) (toy_node 5 S_IFREG) toy_mount toy_current toy_procs_wf eq_refl ltac:(lia)
    eq_refl toy_wf toy_answers toy_root toy_path ltac:(cbn; lia) toy_walk toy_inode eq_refl toy_free 0 [10; 20; 30] 0 0 2 toy_fd).
  - intros ps. split_and!; try done. exists (set_open_files 1 toy_mount), toy_type. by split_and!.
  - cbn. lia.
  - lia.
Defined.

(** An MMU that gives out the handle 77 and remembers what it copied. *)
#[local] Instance log_mmu : Mmu (list (Z * Z)) := {
  mmu_init_userspace := ret (0, 77); mmu_free_userspace _ := ret tt; mmu_switch_userspace _ := ret 0;
  mmu_invalidate_all := ret tt; mmu_map_current_userspace := ret tt }.
#[local] Instance log_user_mmu : UserMmu (list (Z * Z)) := {
  mmu_clear_userspace _ := ret tt; mmu_clone_userspace from to := modify (cons (from, to)) ;; ret 0;
  mmu_alloc_at _ _ _ := ret 0; mmu_fill_frame _ _ _ _ := ret tt }.
#[local] Instance log_mmu_laws : MmuLaws (list (Z * Z)) (fun _ => True).
Proof. by split. Qed.
#[local] Instance log_user_mmu_laws : UserMmuLaws (list (Z * Z)) (fun _ => True).
Proof. by split. Qed.
#[local] Instance log_lens : Lens (Io unit (list (Z * Z))) (Io unit (list (Z * Z))) := { lget s := s; lset t _ := t }.
#[local] Instance log_lens_laws : LensLaws (Io unit (list (Z * Z))) (Io unit (list (Z * Z))).
Proof. by split. Qed.

(** Process 2, in the address space 55, is about to fork. *)
Definition forker : Process := MkProcess 2 0 PROCESS_STATE_RUNNING [] 0 55 7 8 0 (replicate 64 3) (MkRegisters 0 4096 8192 (replicate 15 9)).
Definition fork_procs : Procs (list (Z * Z)) := MkProcs (zset (demo_table 3) 2 (Some forker)) 2 2 [].
Definition fork_sys : Sys (Io unit (list (Z * Z))) :=
  MkSys (MkVfs [] [] [] (MkIo (MkDevices [] 0 ∅ tt) fork_procs)) 0.

Lemma fork_correct_witness :
  let b := demo_process 9 PROCESS_STATE_BLOCKED [MkCallback KillCallback 0] in
  exists pid h, wp (_fork 1025 (Some b)) (fun r s' => r = pid /\
    zget (_process (procs s')) pid = Some (Some (child b forker pid h)) /\ pmmu (procs s') = [(55, h)]) fork_sys.
Proof.
  intros b. destruct (fork_correct (fun _ => True) 1025 fork_sys forker b 3) as (pid & u & h & w1 & e & w2 & Hfree & _ & Hm & Hcl & Hok & _ & _).
  - apply (wf_zset (MkProcs (demo_table 3) 2 2 ([] : list (Z * Z)))); [|done|by intros p [= <-]].
    destruct (demo_wf 3 2 2 ltac:(lia)). by split.
  - done.
  - reflexivity.
  - by cbn.
  - by cbn.
  - by exists None.
  - by cbn.
  - lia.
  - injection Hm as _ <- <-. injection Hcl as <- <-. exists pid, 77. eapply wp_mono; [by apply Hok|]. cbn beta. intros r s' [-> ->].
    split; [done|]. rewrite !procs_set. cbn [_process pmmu]. split; [|done]. destruct Hfree as (o & Hz & _). by rewrite (zget_zset_live _ _ _ _ _ Hz), decide_True.
Defined.

Lemma execve_correct_witness :
  wp (_execve 5 (toy_node 0 0) (toy_node 0 0) true (Some (4096, [1; 2; 3])) toy_string 1) (fun r s' => r = 0 /\
    procs s' = MkProcs (zset (_process (procs toy_sys)) 2 (Some (set_reg (MkRegisters 0 0 0 []) toy_current))) 2 2 tt /\
    syscall_context_switch_flag s' = 1 /\ _vfs_mount (sys_vfs s') = _vfs_mount toy_vfs /\
    forall j, j <> 0 -> zget (vfs_file (sys_vfs s')) j = zget (vfs_file toy_vfs) j) toy_sys.
Proof.
  apply (execve_correct 5 (toy_node 0 0) (toy_node 0 0) true (Some (4096, [1; 2; 3])) toy_string toy_sys toy_answer 1
    [100] [[102]] 0 0 0 (toy_node 5 S_IFREG) (toy_node 5 S_IFREG) toy_mount toy_current toy_procs_wf eq_refl ltac:(lia)
    eq_refl toy_wf toy_answers toy_root toy_path ltac:(cbn; lia) toy_walk toy_inode eq_refl toy_free
    4096 [1; 2; 3] [10; 20; 30] (toy_node 5 S_IFREG) 0 tt); try done; try (cbn; lia).
  - intros v Hf Hm Ht. split_and!; try done. exists (set_open_files 1 toy_mount), toy_type. rewrite Hm, Ht.
    split_and!; [done|done|]. intros count off Hc Ho. done.
  - apply toy_inode.
Defined.
