(* ===== verification/Printf.v ===== *)
(** Formatted output: [kernel/util/printf.c], [kernel/util/kconsole.c] and
    [kernel/util/log.c].

    The argument list is a list of 32-bit words and of pointers to strings; a
    [long long] takes two words.  A format is the list of its characters,
    without the terminating NUL. *)

From Stdlib Require Import String.
From S2P Require Import Prelude CString.

(** * The kernel console *)

(** [kconsole]: the [write] of the device, on the state [D] of the drivers. *)
Record KConsole (D : Type) : Type := MkKConsole {
  kconsole : option (list Z -> M D Z);
  loglevel : Z;
  kc_drivers : D;
}.
Arguments MkKConsole {_} _ _ _.
Arguments kconsole {_} _.
Arguments loglevel {_} _.
Arguments kc_drivers {_} _.

Inductive arg : Type :=
| ArgWord (w : Z)
| ArgString (s : list Z).

Inductive Length : Type :=
| LENGTH_CHAR
| LENGTH_SHORT
| LENGTH_INT
| LENGTH_LONG
| LENGTH_LONG_LONG
| LENGTH_INTMAX_T
| LENGTH_SIZE_T
| LENGTH_PTRDIFF_T.

(** The locals of a conversion. *)
Record Spec : Type := MkSpec {
  length : Length;
  width : Z;
  prefix : bool;
  pad : Z;
}.
Definition start_spec : Spec := MkSpec LENGTH_INT 0 false 32.
Definition set_length (l : Length) (p : Spec) : Spec := MkSpec l (width p) (prefix p) (pad p).
Definition set_width (w : Z) (p : Spec) : Spec := MkSpec (length p) w (prefix p) (pad p).
Definition set_prefix (p : Spec) : Spec := MkSpec (length p) (width p) true (pad p).
Definition set_pad (c : Z) (p : Spec) : Spec := MkSpec (length p) (width p) (prefix p) c.

(** How a conversion ends: at the end of the format, done, or with a number to
    print. *)
Inductive conversion : Type :=
| AtEnd
| Done (va : list arg) (signum : Z)
| PrintNum (va : list arg) (num signum base : Z) (spec : Spec).

(** [int_to_string] into the 24 characters before the end of the buffer. *)
Fixpoint int_to_string (room : nat) (n : Z) (s : list Z) (base : Z) : option (list Z) :=
  match room with
  | O => None
  | S room' =>
      let i := n mod base in
      let s := i + (if 9 <? i then 55 else 48) :: s in
      let n := n / base in
      if n =? 0 then Some s else int_to_string room' n s base
  end.

Section ops.
Context {D : Type}.

Definition set_drivers (d : D) (s : KConsole D) : KConsole D := MkKConsole (kconsole s) (loglevel s) d.
Definition kconsole_write (buf : list Z) : M (KConsole D) Z :=
  let* k := gets kconsole in
  match k with
  | Some write => zoom kc_drivers set_drivers (write buf)
  | None => ret (-1)
  end.
Definition kconsole_init (chr : list Z -> M D Z) : M (KConsole D) unit :=
  modify (fun s => MkKConsole (Some chr) (loglevel s) (kc_drivers s)).

(** [va_arg] of a word, and of two. *)
Definition va_word (va : list arg) : M (KConsole D) (Z * list arg) :=
  match va with ArgWord w :: va' => ret (u32 w, va') | _ => fault end.
Definition va_long_long (va : list arg) : M (KConsole D) (Z * list arg) :=
  let* ' (hi, va) := va_word va in let* ' (lo, va) := va_word va in ret (hi * 2 ^ 32 + lo, va).
Definition va_string (va : list arg) : M (KConsole D) (list Z * list arg) :=
  match va with ArgString s :: va' => ret (s, va') | _ => fault end.

(** The unsigned argument of the wanted length; [num] is what was there before,
    which the lengths without a case keep. *)
Definition unsigned_arg (l : Length) (va : list arg) (num : Z) : M (KConsole D) (Z * list arg) :=
  match l with
  | LENGTH_CHAR => let* ' (w, va) := va_word va in ret (u8 w, va)
  | LENGTH_SHORT => let* ' (w, va) := va_word va in ret (u16 w, va)
  | LENGTH_INT | LENGTH_LONG => va_word va
  | LENGTH_LONG_LONG => va_long_long va
  | _ => ret (num, va)
  end.
Definition signed_arg (l : Length) (va : list arg) (signum : Z) : M (KConsole D) (Z * list arg) :=
  match l with
  | LENGTH_CHAR => let* ' (w, va) := va_word va in ret (s8 w, va)
  | LENGTH_SHORT => let* ' (w, va) := va_word va in ret (s16 w, va)
  | LENGTH_INT | LENGTH_LONG => let* ' (w, va) := va_word va in ret (s32 w, va)
  | LENGTH_LONG_LONG => let* ' (w, va) := va_long_long va in ret (s64 w, va)
  | _ => ret (signum, va)
  end.

(** The cases of [o], [x] and [u], with their base and their prefix. *)
Definition print_unsigned (va : list arg) (num signum base : Z) (pre : list Z) (p : Spec) : M (KConsole D) conversion :=
  (if prefix p && negb (bool_decide (pre = [])) then let* _ := kconsole_write pre in ret tt else ret tt) ;;
  let* ' (num, va) := unsigned_arg (length p) va num in
  ret (PrintNum va num signum base p).

(** A character of a conversion: the next state of the conversion, or its
    end. *)
Definition spec_char (va : list arg) (num signum : Z) (c : Z) (p : Spec) : M (KConsole D) (Spec + conversion) :=
  if c =? 0 then ret (inr AtEnd)
  else if c =? 37 (* % *) then kconsole_write [c] ;; ret (inr (Done va signum))
  else if c =? 35 (* # *) then ret (inl (set_prefix p))
  else if (c =? 48) && (width p =? 0) then ret (inl (set_pad 48 p))
  else if (48 <=? c) && (c <=? 57) then ret (inl (set_width (s32 (s32 (width p * 10) + (c - 48))) p))
  else if c =? 104 (* h *) then
    ret (inl (set_length (match length p with LENGTH_SHORT => LENGTH_CHAR | _ => LENGTH_SHORT end) p))
  else if c =? 108 (* l *) then
    ret (inl (set_length (match length p with LENGTH_LONG => LENGTH_LONG_LONG | _ => LENGTH_LONG end) p))
  else if c =? 106 (* j *) then ret (inl (set_length LENGTH_INTMAX_T p))
  else if c =? 122 (* z *) then ret (inl (set_length LENGTH_SIZE_T p))
  else if c =? 116 (* t *) then ret (inl (set_length LENGTH_PTRDIFF_T p))
  else if c =? 111 (* o *) then let* r := print_unsigned va num signum 8 [48] p in ret (inr r)
  else if c =? 112 (* p *) then
    let* r := print_unsigned va num signum 16 [48; 120] (set_prefix (set_length LENGTH_LONG p)) in ret (inr r)
  else if (c =? 120) || (c =? 88) (* x, X *) then
    let* r := print_unsigned va num signum 16 [48; 120] p in ret (inr r)
  else if c =? 117 (* u *) then let* r := print_unsigned va num signum 10 [] p in ret (inr r)
  else if (c =? 100) || (c =? 105) (* d, i *) then
    let* ' (signum, va) := signed_arg (length p) va signum in
    if signum <? 0 then kconsole_write [45] ;; ret (inr (PrintNum va (u64 (- signum)) signum 10 p))
    else ret (inr (PrintNum va signum signum 10 p))
  else if c =? 115 (* s *) then
    let* ' (s, va) := va_string va in kconsole_write s ;; ret (inr (Done va signum))
  else if c =? 99 (* c *) then
    let* ' (w, va) := va_word va in kconsole_write [u8 w] ;; ret (inr (Done va signum))
  else ret (inl p).

(** A conversion: its end, and the rest of the format. *)
Fixpoint conversion_loop (format : list Z) (va : list arg) (num signum : Z) (p : Spec) :
    M (KConsole D) (conversion * list Z) :=
  match format with
  | [] => ret (AtEnd, [])
  | c :: format' =>
      let* r := spec_char va num signum c p in
      match r with
      | inl p => conversion_loop format' va num signum p
      | inr r => ret (r, format')
      end
  end.

(** [print_num]: padding to the width, then as many characters as the width. *)
Definition print_num (num base : Z) (p : Spec) : M (KConsole D) unit :=
  let* s := need (int_to_string 24 num [] base) in
  let j := Z.of_nat (List.length s) in
  let* w := (if width p =? 0 then ret j else
    for_range (R := unit) (Z.to_nat (u32 (width p) - j)) 0 (fun _ => kconsole_write [pad p] ;; ret None) ;;
    ret (if j <? u32 (width p) then j else width p)) in
  kconsole_write (take (Z.to_nat (u32 w)) s) ;; ret tt.

(** An iteration of the loop over the format. *)
Definition vprintf_step (a : list Z * list arg * Z * Z * Z) :
    M (KConsole D) (list Z * list arg * Z * Z * Z + Z) :=
  let '(format, va, num, signum, i) := a in
  match format with
  | [] => ret (inr i)
  | c :: format =>
      if negb (c =? 37) then kconsole_write [c] ;; ret (inl (format, va, num, signum, i + 1)) else
      let* ' (r, format) := conversion_loop format va num signum start_spec in
      match r with
      | AtEnd => ret (inr i)
      | Done va signum => ret (inl (format, va, num, signum, i + 1))
      | PrintNum va num signum base p => print_num num base p ;; ret (inl (format, va, num, signum, i + 1))
      end
  end.

(** Every turn takes a character of the format. *)
Definition vprintf (format : list Z) (va : list arg) : M (KConsole D) Z :=
  loop (S (List.length format)) (format, va, 0, 0, 0) vprintf_step.
Definition printf (format : list Z) (va : list arg) : M (KConsole D) Z := vprintf format va.

(** * The log *)

Definition LOG_LEVELS : Z := 7.
Definition LOG_LEVEL_INFO : Z := 4.
Definition logprefix : list (list Z) :=
  zstr <$> ["NONE"; "CRIT"; "EROR"; "WARN"; "INFO"; "DBUG"; "SPAM"]%string.
Definition logcolor : list (list Z) :=
  (fun x => 27 :: zstr x) <$> ["[0m"; "[31m"; "[1;31m"; "[1;33m"; "[1;37m"; "[37m"; "[36m"]%string.
Definition log_format : list Z := 27 :: zstr "[0m[%s%s" ++ 27 :: zstr "[0m] ".

(** The levels are unsigned. *)
Definition kprintf (level : Z) (format : list Z) (va : list arg) : M (KConsole D) Z :=
  let* max := gets loglevel in
  if max <? level then ret (-1) else
  (if (level <? LOG_LEVELS) && negb (level =? 0) then
     let* color := need (zget logcolor level) in
     let* name := need (zget logprefix level) in
     printf log_format [ArgString color; ArgString name] ;; ret tt
   else ret tt) ;;
  vprintf format va.

Definition log_set_level (level : Z) : M (KConsole D) unit :=
  if level <? LOG_LEVELS then
    modify (fun s => MkKConsole (kconsole s) level (kc_drivers s)) ;;
    let* name := need (zget logprefix level) in
    kprintf LOG_LEVEL_INFO (zstr "Setting loglevel to %s" ++ [10]) [ArgString name] ;; ret tt
  else ret tt.
End ops.

(** * Digits *)

Definition digit_value (c : Z) : Z := if c <=? 57 then c - 48 else c - 55.
Definition is_numeral (base c : Z) : Prop := (48 <= c <= 57 \/ 65 <= c <= 70) /\ 0 <= digit_value c < base.
(** The number that some digits spell. *)
Definition numeral (base : Z) (l : list Z) : Z := fold_left (fun a c => a * base + digit_value c) l 0.

Lemma number_char base i : 8 <= base <= 16 -> 0 <= i < base ->
  let c := i + (if 9 <? i then 55 else 48) in is_numeral base c /\ digit_value c = i /\ (c = 48 -> i = 0).
Proof.
  intros Hb Hi c. unfold is_numeral, digit_value, c. destruct (Z.ltb_spec 9 i), (Z.leb_spec (i + 55) 57), (Z.leb_spec (i + 48) 57);
    lia.
Qed.

Lemma int_to_string_eq base room n s : 8 <= base <= 16 -> 0 <= n < base ^ Z.of_nat room -> (0 < room)%nat ->
  exists l, int_to_string room n s base = Some (l ++ s) /\ numeral base l = n /\ Forall (is_numeral base) l /\
    (1 <= List.length l <= room)%nat /\ (0 < n -> head l <> Some 48) /\ (n = 0 -> l = [48]).
Proof.
  intros Hb. revert n s. induction room as [|room IH]; intros n s Hn Hr; [lia|].
  destruct (number_char base (n mod base) Hb ltac:(apply Z.mod_pos_bound; lia)) as (Hc & Hd & H0).
  cbn [int_to_string]. set (c := n mod base + _) in *. destruct (Z.eqb_spec (n / base) 0) as [E|E].
  - exists [c]. split_and!; [done| |by apply Forall_singleton|cbn; lia|cbn; lia| |].
    + unfold numeral. cbn. rewrite Hd. pose proof (Z.div_mod n base ltac:(lia)). lia.
    + intros Hpos [= Hc0]. pose proof (H0 Hc0). pose proof (Z.div_mod n base ltac:(lia)). lia.
    + intros ->. subst c. done.
  - assert (0 < n / base) by (pose proof (Z.div_pos n base ltac:(lia) ltac:(lia)); lia).
    assert (0 < room)%nat as Hroom.
    { destruct room; [|lia]. change (Z.of_nat 1) with 1 in Hn. rewrite Z.pow_1_r in Hn. rewrite Z.div_small in E; lia. }
    destruct (IH (n / base) (c :: s)) as (l & Hl & Hv & Hall & Hlen & Hh & _); [|done|].
    { split; [lia|]. apply Z.div_lt_upper_bound; [lia|]. rewrite Nat2Z.inj_succ, Z.pow_succ_r in Hn by lia. lia. }
    exists (l ++ [c]). split_and!.
    + rewrite Hl. by rewrite <- app_assoc.
    + unfold numeral in *. rewrite fold_left_app. cbn. rewrite Hv, Hd. pose proof (Z.div_mod n base ltac:(lia)). lia.
    + apply Forall_app. split; [done|by apply Forall_singleton].
    + rewrite length_app. cbn. lia.
    + rewrite length_app. cbn. lia.
    + intros _. destruct l; [cbn in Hlen; lia|]. by apply Hh.
    + intros ->. rewrite Z.div_0_l in E; lia.
Qed.

(** C27. Printing a number: for every 64-bit value and every base from 8 to 16,
    the digits fit in the buffer, spell exactly the number, and have no leading
    zero (the number 0 is the one digit 0). *)
Theorem int_to_string_correct base n : 8 <= base <= 16 -> 0 <= n < 2 ^ 64 ->
  exists l, int_to_string 24 n [] base = Some l /\ numeral base l = n /\ Forall (is_numeral base) l /\
    (1 <= List.length l <= 24)%nat /\ (0 < n -> head l <> Some 48) /\ (n = 0 -> l = [48]).
Proof.
  intros Hb Hn. destruct (int_to_string_eq base 24 n [] Hb) as (l & Hl & Hrest); [|lia|].
  - split; [lia|]. apply Z.lt_le_trans with (2 ^ 64); [lia|].
    apply Z.le_trans with (8 ^ 24); [done|]. apply Z.pow_le_mono_l. lia.
  - exists l. by rewrite app_nil_r in Hl.
Qed.

(** * What a format prints *)

(** The conversions of an [int]. *)
Inductive conv : Type := ConvD | ConvU | ConvX | ConvO.
Definition conv_char (c : conv) : Z := match c with ConvD => 100 | ConvU => 117 | ConvX => 120 | ConvO => 111 end.
Definition conv_base (c : conv) : Z := match c with ConvX => 16 | ConvO => 8 | _ => 10 end.

(** A part of a format, with its argument.  The width is given by its digits,
    none for no width. *)
Inductive directive : Type :=
| Lit (c : Z)
| Percent
| Text (s : list Z)
| Char (w : Z)
| Number (zero : bool) (digits : list Z) (c : conv) (w : Z).

Definition width_value (a : Z) (ds : list Z) : Z := fold_left (fun a d => a * 10 + d) ds a.
Definition directive_text (d : directive) : list Z :=
  match d with
  | Lit c => [c]
  | Percent => [37; 37]
  | Text _ => [37; 115]
  | Char _ => [37; 99]
  | Number zero ds c _ => 37 :: (if zero then [48] else []) ++ ((fun d => d + 48) <$> ds) ++ [conv_char c]
  end.
Definition directive_args (d : directive) : list arg :=
  match d with
  | Lit _ | Percent => []
  | Text s => [ArgString s]
  | Char w | Number _ _ _ w => [ArgWord w]
  end.

(** The digits of a number, padded to a width; a width below the number of the
    digits (other than 0) cuts them off. *)
Definition padded (p : Z) (width : Z) (l : list Z) : list (list Z) :=
  let j := Z.of_nat (List.length l) in
  replicate (Z.to_nat (width - j)) [p] ++ [if width =? 0 then l else take (Z.to_nat width) l].
Definition digits_of (n base : Z) : list Z := default [] (int_to_string 24 n [] base).
Definition directive_output (d : directive) : list (list Z) :=
  match d with
  | Lit c => [[c]]
  | Percent => [[37]]
  | Text s => [s]
  | Char w => [[u8 (u32 w)]]
  | Number zero ds c w =>
      let out n := padded (if zero : bool then 48 else 32) (width_value 0 ds) (digits_of n (conv_base c)) in
      match c with
      | ConvD => if s32 (u32 w) <? 0 then [45] :: out (- s32 (u32 w)) else out (s32 (u32 w))
      | _ => out (u32 w)
      end
  end.

Definition directive_ok (d : directive) : Prop :=
  match d with
  | Lit c => c <> 37
  | Number _ ds _ _ => Forall (fun d => 0 <= d < 10) ds /\ head ds <> Some 0 /\ width_value 0 ds < 2 ^ 31
  | _ => True
  end.

Section render.
Context {D : Type}.
Implicit Types s : KConsole D.

(** The console gets some texts, one after the other. *)
Definition write_all (l : list (list Z)) : M (KConsole D) unit :=
  foldr (fun t m => kconsole_write t ;; m) (ret tt) l.

Lemma texts_app a b s : write_all (a ++ b) s = (write_all a ;; write_all b) s.
Proof.
  revert s. induction a as [|t a IH]; intros s; [done|]. cbn [app write_all foldr]. rewrite bind_assoc.
  apply bind_cong; [done|]. intros r s' _. apply IH.
Qed.

(** [m] is: write [l], then give [a]. *)
Definition writes {A} (m : M (KConsole D) A) (l : list (list Z)) (a : A) : Prop :=
  forall s, m s = (write_all l ;; ret a) s.

Lemma writes_ret {A} (a : A) : writes (ret a) [] a.
Proof. done. Qed.
Lemma writes_one {A} t (k : M (KConsole D) A) l a : writes k l a -> writes (kconsole_write t ;; k) (t :: l) a.
Proof.
  intros Hk s. cbn [write_all foldr]. rewrite bind_assoc. apply bind_cong; [done|]. intros r s' _. apply Hk.
Qed.
Lemma writes_bind {A B} (m : M (KConsole D) A) (k : A -> M (KConsole D) B) l l' a b :
  writes m l a -> writes (k a) l' b -> writes (bind m k) (l ++ l') b.
Proof.
  intros Hm Hk s. etransitivity; [apply (bind_cong _ _ _ k s (Hm s)); done|]. rewrite bind_assoc.
  transitivity ((write_all l ;; (write_all l' ;; ret b)) s).
  - apply bind_cong; [done|]. intros [] s' _. apply Hk.
  - rewrite <- bind_assoc. by apply bind_cong; [by rewrite texts_app|].
Qed.
Lemma writes_pure {A B} (m : M (KConsole D) A) (k : A -> M (KConsole D) B) a l b :
  (forall s, m s = Ret (a, s)) -> writes (k a) l b -> writes (bind m k) l b.
Proof. intros Hm Hk s. rewrite (bind_Ret _ _ _ _ _ (Hm s)). apply Hk. Qed.

Lemma writes_pad n p : writes (for_range (R := unit) n 0 (fun _ => kconsole_write [p] ;; ret None)) (replicate n [p]) None.
Proof.
  assert (forall i, writes (for_range (R := unit) n i (fun _ => kconsole_write [p] ;; ret None)) (replicate n [p]) None) as H;
    [|apply H].
  induction n as [|n IH]; intros i; [apply writes_ret|]. cbn [for_range replicate].
  change ([p] :: replicate n [p]) with ([[p]] ++ replicate n [p]).
  eapply writes_bind; [apply writes_one, writes_ret|]. apply IH.
Qed.

Lemma digits_of_eq n base : 8 <= base <= 16 -> 0 <= n < 2 ^ 64 ->
  int_to_string 24 n [] base = Some (digits_of n base) /\ (1 <= List.length (digits_of n base) <= 24)%nat.
Proof.
  intros Hb Hn. destruct (int_to_string_eq base 24 n [] Hb) as (l & Hl & _ & _ & Hlen & _); [|lia|].
  - split; [lia|]. apply Z.lt_le_trans with (2 ^ 64); [lia|].
    apply Z.le_trans with (8 ^ 24); [done|]. apply Z.pow_le_mono_l. lia.
  - unfold digits_of. rewrite Hl, app_nil_r. done.
Qed.

Lemma print_num_writes n base p : 8 <= base <= 16 -> 0 <= n < 2 ^ 64 -> 0 <= width p < 2 ^ 31 ->
  writes (print_num n base p) (padded (pad p) (width p) (digits_of n base)) tt.
Proof.
  intros Hb Hn Hw. destruct (digits_of_eq n base Hb Hn) as [Hd Hlen]. unfold print_num, padded.
  eapply writes_pure; [intros s; by rewrite Hd|]. set (l := digits_of n base) in *. cbv zeta.
  rewrite u32_small by lia. destruct (Z.eqb_spec (width p) 0) as [E|E].
  - rewrite E. replace (Z.to_nat (0 - Z.of_nat (List.length l))) with 0%nat by lia. cbn [replicate app].
    eapply writes_pure; [done|]. rewrite u32_small, Nat2Z.id, firstn_all by lia. apply writes_one, writes_ret.
  - eapply writes_bind.
    + rewrite <- (app_nil_r (replicate _ _)). eapply writes_bind; [apply writes_pad|apply writes_ret].
    + assert (take (Z.to_nat (u32 (if Z.of_nat (List.length l) <? width p then Z.of_nat (List.length l) else width p))) l
        = take (Z.to_nat (width p)) l) as ->; [|apply writes_one, writes_ret].
      destruct (Z.ltb_spec (Z.of_nat (List.length l)) (width p)); rewrite u32_small by lia; [|done].
      rewrite Nat2Z.id, firstn_all, take_ge by lia. done.
Qed.

(** The digits of a width. *)
Lemma spec_digit va num signum d p : 0 <= d < 10 -> (d = 0 -> width p <> 0) -> 0 <= width p -> width p * 10 + d < 2 ^ 31 ->
  spec_char (D := D) va num signum (d + 48) p = ret (inl (set_width (width p * 10 + d) p)).
Proof.
  intros Hd Hz Hw Hb. unfold spec_char. rewrite !(proj2 (Z.eqb_neq (d + 48) _)) by lia.
  assert ((d + 48 =? 48) && (width p =? 0) = false) as ->.
  { apply andb_false_iff. destruct (Z.eqb_spec (d + 48) 48); [right; apply Z.eqb_neq; apply Hz; lia|by left]. }
  rewrite (proj2 (Z.leb_le 48 _)), (proj2 (Z.leb_le _ 57)) by lia. cbn [andb].
  rewrite (s32_small (width p * 10)), Z.add_simpl_r, s32_small by lia. done.
Qed.

Lemma width_value_ge a ds : 0 <= a -> Forall (fun d => 0 <= d < 10) ds -> a <= width_value a ds.
Proof.
  intros Ha Hds. revert a Ha. induction Hds as [|d ds Hd Hds IH]; intros a Ha; [done|].
  cbn [width_value fold_left]. specialize (IH (a * 10 + d) ltac:(lia)). unfold width_value in IH. lia.
Qed.

Lemma width_digits va num signum rest ds p :
  Forall (fun d => 0 <= d < 10) ds -> (width p = 0 -> head ds <> Some 0) -> 0 <= width p ->
  width_value (width p) ds < 2 ^ 31 ->
  conversion_loop (D := D) (((fun d => d + 48) <$> ds) ++ rest) va num signum p =
  conversion_loop rest va num signum (set_width (width_value (width p) ds) p).
Proof.
  intros Hds. revert p. induction Hds as [|d ds Hd Hds IH]; intros p Hz Hw Hb.
  - cbn. by destruct p.
  - cbn [fmap list_fmap app conversion_loop width_value fold_left] in *.
    pose proof (width_value_ge (width p * 10 + d) ds ltac:(lia) Hds) as Hge. unfold width_value in Hge.
    rewrite spec_digit; [|done| |done|lia]; cycle 1.
    { intros -> E. by apply (Hz E). }
    unfold bind at 1, ret at 1. cbv beta iota.
    change (conversion_loop (D := D) (((fun d => d + 48) <$> ds) ++ rest) va num signum (set_width (width p * 10 + d) p) =
      conversion_loop rest va num signum (set_width (width_value (width p * 10 + d) ds) p)).
    rewrite IH; [done| |cbn; lia|exact Hb]. cbn [width set_width]. intros E. assert (d = 0) as -> by lia.
    exfalso. apply Hz; [lia|done].
Qed.

(** The end of a conversion of an [int]. *)
Lemma conv_writes c w rest va num signum p : length p = LENGTH_INT -> prefix p = false ->
  writes (conversion_loop (D := D) (conv_char c :: rest) (ArgWord w :: va) num signum p)
    (match c with ConvD => if s32 (u32 w) <? 0 then [[45]] else [] | _ => [] end)
    (match c with
     | ConvD => PrintNum va (if s32 (u32 w) <? 0 then u64 (- s32 (u32 w)) else s32 (u32 w)) (s32 (u32 w)) 10 p
     | _ => PrintNum va (u32 w) signum (conv_base c) p
     end, rest).
Proof.
  intros Hl Hp s. destruct p as [pl pw pp pc]. cbn in Hl, Hp. subst. destruct c; cbn; try done.
  unfold bind, ret. cbn. destruct (s32 (u32 w) <? 0); [|done].
  cbn. unfold bind, ret. by destruct (kconsole_write [45] s) as [[]| | |].
Qed.

Lemma step_writes d rest va num signum i : directive_ok d -> exists num' signum',
  writes (vprintf_step (D := D) (directive_text d ++ rest, directive_args d ++ va, num, signum, i))
    (directive_output d) (inl (rest, va, num', signum', i + 1)).
Proof.
  intros Hok. destruct d as [c| |t|w|zero ds c w].
  - cbn in Hok. exists num, signum. cbn [directive_text app vprintf_step]. rewrite (proj2 (Z.eqb_neq c 37)) by done.
    apply writes_one, writes_ret.
  - exists num, signum. intros s. cbn. unfold bind, ret. cbn. by destruct (kconsole_write [37] s) as [[]| | |].
  - exists num, signum. intros s. cbn. unfold bind, ret. cbn. by destruct (kconsole_write t s) as [[]| | |].
  - exists num, signum. intros s. cbn. unfold bind, ret. cbn. by destruct (kconsole_write [u8 (u32 w)] s) as [[]| | |].
  - destruct Hok as (Hds & Hh & Hb). pose proof (width_value_ge 0 ds ltac:(lia) Hds) as Hge.
    set (p := set_width (width_value 0 ds) (if zero then set_pad 48 start_spec else start_spec)).
    set (n := match c with ConvD => if s32 (u32 w) <? 0 then u64 (- s32 (u32 w)) else s32 (u32 w) | _ => u32 w end).
    assert (0 <= n < 2 ^ 64) as Hn.
    { unfold n. pose proof (s32_range (u32 w)). pose proof (u32_range w).
      destruct c; try lia. destruct (Z.ltb_spec (s32 (u32 w)) 0); [|lia]. rewrite u64_small; lia. }
    assert (forall q, width q = 0 -> conversion_loop (D := D) (((fun d => d + 48) <$> ds) ++ conv_char c :: rest)
      (ArgWord w :: va) num signum q = conversion_loop (conv_char c :: rest) (ArgWord w :: va) num signum
        (set_width (width_value 0 ds) q)) as Hdigits.
    { intros q Hq. rewrite width_digits by (rewrite ?Hq; done). by rewrite Hq. }
    exists n, (match c with ConvD => s32 (u32 w) | _ => signum end).
    cbn [directive_text directive_args app vprintf_step]. change (37 =? 37) with true. cbn [negb].
    assert (conversion_loop (D := D) (((if zero then [48] else []) ++ ((fun d => d + 48) <$> ds) ++ [conv_char c]) ++ rest)
      (ArgWord w :: va) num signum start_spec = conversion_loop (conv_char c :: rest) (ArgWord w :: va) num signum p) as ->.
    { rewrite <- !app_assoc. cbn [app]. destruct zero; [|by apply Hdigits].
      cbn [app conversion_loop]. unfold bind at 1. cbn. by apply Hdigits. }
    assert (directive_output (Number zero ds c w) =
      (match c with ConvD => if s32 (u32 w) <? 0 then [[45]] else [] | _ => [] end) ++
      padded (pad p) (width p) (digits_of n (conv_base c))) as ->.
    { unfold p, n. destruct c, zero; cbn [directive_output conv_base]; try done;
        (destruct (Z.ltb_spec (s32 (u32 w)) 0); [|done]);
        pose proof (s32_range (u32 w)); by rewrite u64_small by lia. }
    eapply writes_bind; [apply conv_writes; by destruct zero|].
    set (next := @inl (list Z * list arg * Z * Z * Z) Z (rest, va, n, match c with ConvD => s32 (u32 w) | _ => signum end, i + 1)).
    assert (writes (print_num (D := D) n (conv_base c) p ;;
      ret next)
      (padded (pad p) (width p) (digits_of n (conv_base c))) next
      ) as Hpn.
    { rewrite <- (app_nil_r (padded _ _ _)). eapply writes_bind; [|apply writes_ret].
      apply print_num_writes; [by destruct c|done|done]. }
    unfold n in *. by destruct c.
Qed.

(** C14. Formatted output is what the format says: for every sequence of plain
    characters, [%%], [%s], [%c] and conversions [%d], [%u], [%x] and [%o] with
    an optional zero flag and width, and the arguments for them, [vprintf]
    writes to the console, in order, the texts of the parts, and the result is
    the number of the parts. *)
Theorem vprintf_renders ds s : Forall directive_ok ds ->
  vprintf (ds ≫= directive_text) (ds ≫= directive_args) s =
    (write_all (ds ≫= directive_output) ;; ret (Z.of_nat (List.length ds))) s.
Proof.
  intros Hds. unfold vprintf.
  enough (forall fuel num signum i, (List.length (ds ≫= directive_text) < fuel)%nat ->
    writes (loop fuel (ds ≫= directive_text, ds ≫= directive_args, num, signum, i) (vprintf_step (D := D)))
      (ds ≫= directive_output) (i + Z.of_nat (List.length ds))) as H by (apply (H _ 0 0 0); lia).
  induction Hds as [|d ds Hd Hds IH]; intros fuel num signum i Hf; (destruct fuel as [|fuel]; [lia|]).
  - intros s'. rewrite loop_unfold. cbn. by rewrite Z.add_0_r.
  - cbn [mbind list_bind] in *. rewrite loop_unfold.
    destruct (step_writes d (ds ≫= directive_text) (ds ≫= directive_args) num signum i Hd) as (num' & signum' & Hstep).
    eapply writes_bind; [exact Hstep|]. cbn [List.length].
    replace (i + Z.of_nat (S (List.length ds))) with (i + 1 + Z.of_nat (List.length ds)) by lia. apply IH.
    rewrite length_app in Hf. destruct d; cbn in Hf; lia.
Qed.
End render.

(** * Examples *)

(** A console that keeps what it gets. *)
Definition toy_write (t : list Z) (l : list Z) : outcome (Z * list Z) := Ret (Z.of_nat (List.length t), l ++ t).
Definition toy_console : KConsole (list Z) := MkKConsole (Some toy_write) 5 [].
Definition printed {A} (r : outcome (A * KConsole (list Z))) : option (list Z) :=
  match r with Ret (_, s) => Some (kc_drivers s) | _ => None end.

Definition toy_format : list directive :=
  [Lit 97; Number true [4] ConvX 48879; Lit 32; Number false [] ConvD (2 ^ 32 - 12); Percent; Text [104; 105]; Char 33].

Example toy_printed :
  printed (vprintf (toy_format ≫= directive_text) (toy_format ≫= directive_args) toy_console) = Some (zstr "aBEEF -12%hi!").
Proof. vm_compute. reflexivity. Qed.

Lemma int_to_string_correct_witness :
  (8 <= 16 <= 16 /\ 0 <= 48879 < 2 ^ 64) /\
  exists l, int_to_string 24 48879 [] 16 = Some l /\ numeral 16 l = 48879 /\ Forall (is_numeral 16) l /\
    (1 <= List.length l <= 24)%nat /\ (0 < 48879 -> head l <> Some 48) /\ (48879 = 0 -> l = [48]).
Proof. split; [lia|]. apply (int_to_string_correct 16 48879); lia. Defined.

Lemma vprintf_renders_witness :
  Forall directive_ok toy_format /\
  vprintf (toy_format ≫= directive_text) (toy_format ≫= directive_args) toy_console =
    (write_all (toy_format ≫= directive_output) ;; ret (Z.of_nat (List.length toy_format))) toy_console.
Proof.
  assert (Forall directive_ok toy_format) as H.
  { unfold toy_format. repeat constructor; cbn; try lia; try congruence. }
  split; [exact H|]. apply (vprintf_renders toy_format toy_console). exact H.
Defined.

(** A width below the number of the digits cuts the number off: the format is
    [%2x], the number 0x123. *)
Lemma width_cuts_number : printed (vprintf [37; 50; 120] [ArgWord 291] toy_console) = Some (zstr "12").
Proof. vm_compute. reflexivity. Qed.

(** The lengths [j], [z] and [t] print the last number once more and leave
    their argument for the next conversion: the format is [%u %zu %u]. *)
Lemma size_prints_stale_number :
  printed (vprintf (zstr "%u %zu %u") [ArgWord 7; ArgWord 8; ArgWord 9] toy_console) = Some (zstr "7 7 8").
Proof. vm_compute. reflexivity. Qed.

(** A message above the level is dropped, one at the level gets its prefix. *)
Example toy_log :
  kprintf 6 (zstr "x") [] toy_console = Ret (-1, toy_console) /\
  printed (kprintf 2 (zstr "x%d") [ArgWord 1] toy_console) =
    Some (27 :: zstr "[0m[" ++ 27 :: zstr "[1;31mEROR" ++ 27 :: zstr "[0m] x1").
Proof. split; vm_compute; reflexivity. Qed.
