(* ===== verification/Heap.v ===== *)
(** The kernel heap: [kernel/util/mem.c], the quick fit of [kmalloc] over the
    MMU.

    Kernel memory is a map from the addresses of aligned words to their
    values; an access to a word that is not mapped is undefined.  The MMU is
    the interface of the program loader. *)

From S2P Require Import Prelude Mmu Elf.

Definition NRQUICKLISTS : Z := 4.
(** [sizeof(Header)]: the size, and at offset 4 the next block. *)
Definition HEADER : Z := 8.

Record Heap (W : Type) : Type := MkHeap {
  freelist : list Z;
  malloc_used_mem : Z;
  heap_end : Z;
  kmem : gmap Z Z;
  hmmu : W;
}.
Arguments MkHeap {_} _ _ _ _ _.
Arguments freelist {_} _.
Arguments malloc_used_mem {_} _.
Arguments heap_end {_} _.
Arguments kmem {_} _.
Arguments hmmu {_} _.

Definition ALIGN (x : Z) : Z := let y := u32 (x + 3) in y - Z.land y 3.
(** [ALIGNWITH(x, MMU_PAGE_SIZE)]. *)
Definition ALIGN_PAGE (x : Z) : Z := let y := u32 (x + (MMU_PAGE_SIZE - 1)) in y - Z.land y MMU_PAGE_MASK.

(** A [Header **]: an entry of [freelist] or the [next] of a block. *)
Inductive place : Type :=
| Freelist (i : Z)
| NextOf (header : Z).

(** The words of a page that has just been mapped: [mmu_alloc_at] clears the
    frame. *)
Definition zero_page (p : Z) (m : gmap Z Z) : gmap Z Z :=
  foldr (fun i => insert (p + 4 * i) 0) m (seqZ 0 1024).

Section ops.
Context {W : Type} `{UserMmu W}.
Implicit Types h : Heap W.

Definition set_freelist (l : list Z) h : Heap W := MkHeap l (malloc_used_mem h) (heap_end h) (kmem h) (hmmu h).
Definition set_used (n : Z) h : Heap W := MkHeap (freelist h) n (heap_end h) (kmem h) (hmmu h).
Definition set_heap_end (e : Z) h : Heap W := MkHeap (freelist h) (malloc_used_mem h) e (kmem h) (hmmu h).
Definition set_kmem (m : gmap Z Z) h : Heap W := MkHeap (freelist h) (malloc_used_mem h) (heap_end h) m (hmmu h).
Definition set_hmmu (w : W) h : Heap W := MkHeap (freelist h) (malloc_used_mem h) (heap_end h) (kmem h) w.

(** * Memory *)

Definition kload (a : Z) : M (Heap W) Z := let* h := get in need (kmem h !! a).
Definition kstore (a v : Z) : M (Heap W) unit :=
  kload a ;; modify (fun h => set_kmem (<[a := u32 v]> (kmem h)) h).
Definition kload_byte (a : Z) : M (Heap W) Z := let* w := kload (a - a mod 4) in ret (field (byte_pos a) 8 w).
Definition kstore_byte (a v : Z) : M (Heap W) unit :=
  let* w := kload (a - a mod 4) in kstore (a - a mod 4) (set_field (byte_pos a) 8 v w).

Definition get_size (header : Z) : M (Heap W) Z := kload header.
Definition set_size (header v : Z) : M (Heap W) unit := kstore header v.
Definition get_next (header : Z) : M (Heap W) Z := kload (u32 (header + 4)).
Definition set_next (header v : Z) : M (Heap W) unit := kstore (u32 (header + 4)) v.

(** [*iter] and [*iter = x]. *)
Definition deref (iter : place) : M (Heap W) Z :=
  match iter with
  | Freelist i => let* h := get in need (zget (freelist h) i)
  | NextOf header => get_next header
  end.
Definition assign (iter : place) (x : Z) : M (Heap W) unit :=
  match iter with
  | Freelist i => deref iter ;; modify (fun h => set_freelist (zset (freelist h) i x) h)
  | NextOf header => set_next header x
  end.

Definition memset (pointer c n : Z) : M (Heap W) unit :=
  for_to 0 n (fun i => kstore_byte (u32 (pointer + (n - 1 - i))) c).
Definition memcpy (dest src n : Z) : M (Heap W) unit :=
  for_to 0 n (fun i => let* v := kload_byte (u32 (src + (n - 1 - i))) in kstore_byte (u32 (dest + (n - 1 - i))) v).

(** * Growing *)

(** A heap page.  One that gets no frame would show physical page 0, which is
    taken as undefined. *)
Definition map_page (p : Z) : M (Heap W) unit :=
  let* frame := zoom hmmu set_hmmu (mmu_alloc_at p true false) in
  if frame =? 0 then fault else modify (fun h => set_kmem (zero_page p (kmem h)) h).

Definition ksbrk (increment : Z) : M (Heap W) Z :=
  let* old_heap_end := gets heap_end in
  when (0 <? increment)
    (let tmp := ALIGN_PAGE old_heap_end in
     let new := ALIGN_PAGE (u32 (old_heap_end + increment)) in
     let pages := u32 (new - tmp) / MMU_PAGE_SIZE in
     for_to 0 pages (fun i => map_page (u32 (tmp + i * MMU_PAGE_SIZE)))) ;;
  modify (fun h => set_heap_end (u32 (heap_end h + increment)) h) ;;
  ret old_heap_end.

Definition getmore (size : Z) : M (Heap W) Z :=
  let size := ALIGN_PAGE (u32 (size + HEADER)) in
  modify (fun h => set_used (u32 (malloc_used_mem h + size)) h) ;;
  let* header := ksbrk (s32 size) in
  if header =? 2 ^ 32 - 1 then ret 0 else
  set_size header (size - HEADER) ;;
  ret header.

(** * Freeing *)

(** The quick list for a size, [NRQUICKLISTS] for the general list. *)
Definition quick_list (size : Z) : Z :=
  default NRQUICKLISTS (find_from 4 0 (fun list => if size <=? Z.shiftl 8 list then Some list else None)).

(** An iteration of the loop that merges a block with its neighbours in the
    general list; after a merge with the lower one it starts again. *)
Definition merge_step (a : Z * bool * place) : M (Heap W) (Z * bool * place + bool * Z) :=
  let '(header, hasmerged, iter) := a in
  let* it := deref iter in
  if it =? 0 then ret (inr (hasmerged, header)) else
  let* isize := get_size it in
  if u32 (it + isize + HEADER) =? header then
    let* hsize := get_size header in
    set_size it (isize + (HEADER + hsize)) ;;
    let* next := get_next it in
    assign iter next ;;
    ret (inl (it, hasmerged, Freelist NRQUICKLISTS))
  else
    let* hsize := get_size header in
    if u32 (header + HEADER + hsize) =? it then
      set_size header (hsize + (HEADER + isize)) ;;
      let* next := get_next it in
      set_next header next ;;
      assign iter header ;;
      ret (inl (header, true, NextOf header))
    else ret (inl (header, hasmerged, NextOf it)).

(** Put a block in front of a list. *)
Definition push_free (list header : Z) : M (Heap W) unit :=
  let* first := deref (Freelist list) in
  set_next header first ;;
  assign (Freelist list) header.

Variable fuel : nat.

Definition kfree (ptr : Z) : M (Heap W) unit :=
  if ptr =? 0 then ret tt else
  let header := u32 (ptr - HEADER) in
  let* size := get_size header in
  let list := quick_list size in
  if list <? NRQUICKLISTS then push_free list header else
  let* ' (hasmerged, header) := loop fuel (header, false, Freelist NRQUICKLISTS) merge_step in
  if hasmerged : bool then ret tt else push_free NRQUICKLISTS header.

(** * Allocating *)

(** The first block of a list that is large enough, or the end of the list. *)
Definition find_block (list size : Z) : M (Heap W) place :=
  loop fuel (Freelist list) (fun iter =>
    let* it := deref iter in
    if it =? 0 then ret (inr iter) else
    let* isize := get_size it in
    ret (if isize <? size then inl (NextOf it) else inr iter)).

(** Take a block out of its list; a rest that can hold a header stays. *)
Definition take_block (iter : place) (header size : Z) : M (Heap W) unit :=
  let* hsize := get_size header in
  if u32 (ALIGN size + HEADER) <? ALIGN hsize then
    let newheader := u32 (header + HEADER + ALIGN size) in
    set_size newheader (ALIGN hsize - (ALIGN size + HEADER)) ;;
    set_size header (ALIGN size) ;;
    let* next := get_next header in
    set_next newheader next ;;
    assign iter newheader
  else let* next := get_next header in assign iter next.

(** Cut a new block into blocks of a quick list; [tmp] is the block whose
    [next] is to be set, [None] for [header] itself. *)
Definition cut_turn (header n : Z) (tmp : option Z) : M (Heap W) (option Z) :=
  let* cur := match tmp with None => ret header | Some t => get_next t end in
  set_size cur n ;;
  set_next cur (cur + n + HEADER) ;;
  ret (Some cur).

Definition cut_blocks (list header : Z) : M (Heap W) unit :=
  let* hsize := get_size header in
  let sz := s32 (hsize + HEADER) in
  let n := Z.shiftl 8 list in
  let* tmp := for_acc (Z.to_nat (u32 sz / (n + HEADER))) 0 None (fun _ => cut_turn header n) in
  let* first := deref (Freelist list) in
  match tmp with
  | None => assign (Freelist list) first
  | Some t => set_next t first ;; assign (Freelist list) header
  end.

(** The loop ends after the first turn that finds a block. *)
Definition kmalloc_step (list size : Z) (_ : unit) : M (Heap W) (unit + Z) :=
  let* iter := find_block list size in
  let* header := deref iter in
  if negb (header =? 0) then take_block iter header size ;; ret (inr (u32 (header + HEADER))) else
  let* header := getmore size in
  if header =? 0 then ret (inr 0) else
  if list <? NRQUICKLISTS then cut_blocks list header ;; ret (inl tt)
  else kfree (u32 (header + HEADER)) ;; ret (inl tt).

Definition kmalloc (size : Z) : M (Heap W) Z :=
  if size =? 0 then ret 0 else loop fuel tt (kmalloc_step (quick_list size) size).

Definition krealloc (ptr size : Z) : M (Heap W) Z :=
  if ptr =? 0 then kmalloc size else
  if size =? 0 then kfree ptr ;; ret 0 else
  let* tmp := kmalloc size in
  let* hsize := get_size (u32 (ptr - HEADER)) in
  memcpy tmp ptr (if size <? hsize then size else hsize) ;;
  kfree ptr ;;
  ret tmp.
End ops.

(** * Blocks and lists of blocks *)

(** The address of the header and the size. *)
Abbreviation block := (Z * Z)%type.
Definition bend (b : block) : Z := b.1 + HEADER + b.2.
(** Blocks without a common byte, and without a common border. *)
Definition sep (b c : block) : Prop := bend b <= c.1 \/ bend c <= b.1.
Definition apart (b c : block) : Prop := bend b < c.1 \/ bend c < b.1.
Definition block_ok (lo hi : Z) (b : block) : Prop :=
  lo <= b.1 /\ bend b <= hi /\ b.1 mod 4 = 0 /\ b.2 mod 4 = 0 /\ 0 < b.2.

#[export] Instance sep_sym : Symmetric sep.
Proof. intros b c. unfold sep. tauto. Qed.
#[export] Instance apart_sym : Symmetric apart.
Proof. intros b c. unfold apart. tauto. Qed.

(** The head of a list of blocks that is continued at [q]. *)
Definition first_or (q : Z) (l : list block) : Z := match l with [] => q | b :: _ => b.1 end.
Fixpoint chain_to (m : gmap Z Z) (l : list block) (q : Z) : Prop :=
  match l with
  | [] => True
  | b :: l' => m !! b.1 = Some b.2 /\ m !! (b.1 + 4) = Some (first_or q l') /\ chain_to m l' q
  end.
(** The place behind some blocks of list [i]. *)
Definition place_after (i : Z) (l : list block) : place :=
  match last l with None => Freelist i | Some b => NextOf b.1 end.

(** Only header words of the blocks at [T] differ. *)
Definition upd (T : list Z) (m m' : gmap Z Z) : Prop :=
  (forall a, (forall t, t ∈ T -> a <> t /\ a <> t + 4) -> m' !! a = m !! a) /\
  (forall a, is_Some (m !! a) -> is_Some (m' !! a)).

Lemma upd_refl T m : upd T m m.
Proof. by split. Qed.
Lemma upd_trans T m1 m2 m3 : upd T m1 m2 -> upd T m2 m3 -> upd T m1 m3.
Proof. intros [H1 D1] [H2 D2]. split; [intros a Ha; by rewrite H2, H1|auto]. Qed.
Lemma upd_mono T T' m m' : T ⊆ T' -> upd T m m' -> upd T' m m'.
Proof. intros Hs [H D]. split; [intros a Ha; apply H; auto|done]. Qed.
Lemma upd_insert T t a v m : t ∈ T -> a = t \/ a = t + 4 -> upd T m (<[a := v]> m).
Proof.
  intros Ht Ha. split.
  - intros b Hb. apply lookup_insert_ne. specialize (Hb t Ht). lia.
  - intros b Hb. destruct (decide (a = b)) as [->|]; [rewrite lookup_insert_eq; eauto|by rewrite lookup_insert_ne].
Qed.

Lemma upd_mapped T m m' a : upd T m m' -> is_Some (m !! a) -> is_Some (m' !! a).
Proof. intros [_ H]. apply H. Qed.

Lemma first_or_app q l k : first_or q (l ++ k) = first_or (first_or q k) l.
Proof. by destruct l. Qed.
Lemma chain_app m l k q : chain_to m (l ++ k) q <-> chain_to m l (first_or q k) /\ chain_to m k q.
Proof. induction l as [|b l IH]; cbn [app chain_to]; [tauto|]. rewrite IH, first_or_app. tauto. Qed.

Lemma chain_upd T m m' l q : upd T m m' ->
  Forall (fun b => Forall (fun t => b.1 <> t /\ b.1 + 4 <> t /\ b.1 <> t + 4) T) l ->
  chain_to m l q -> chain_to m' l q.
Proof.
  intros [Hu _] Hl. induction Hl as [|b l Hb Hl IH]; [done|]. cbn [chain_to]. rewrite Forall_forall in Hb.
  intros (H1 & H2 & H3). rewrite !Hu; [auto|..]; intros t Ht; specialize (Hb t Ht); lia.
Qed.

(** Header words of separate blocks differ. *)
Lemma sep_words lo hi b c : block_ok lo hi b -> block_ok lo hi c -> sep b c ->
  b.1 <> c.1 /\ b.1 + 4 <> c.1 /\ b.1 <> c.1 + 4.
Proof. unfold block_ok, sep, bend, HEADER. lia. Qed.
Lemma sep_chain lo hi T m m' l q : upd T.*1 m m' ->
  Forall (block_ok lo hi) T -> Forall (block_ok lo hi) l -> Forall (fun b => Forall (sep b) T) l ->
  chain_to m l q -> chain_to m' l q.
Proof.
  intros Hu HT Hl Hs. apply (chain_upd _ _ _ _ _ Hu). rewrite Forall_forall in *. intros b Hb.
  apply Forall_fmap, Forall_forall. intros t Ht. cbn. apply (sep_words lo hi); [auto..|].
  specialize (Hs b Hb). rewrite Forall_forall in Hs. auto.
Qed.

Lemma Forall_singleton_1 {A} (P : A -> Prop) x : Forall P [x] -> P x.
Proof. by intros [? _]%Forall_cons. Qed.

Section lists.
Context {W : Type} `{UserMmu W}.
Implicit Types (h : Heap W) (l : list block).

(** List [i] holds the blocks [l]. *)
Definition listed h (i : Z) l : Prop := zget (freelist h) i = Some (first_or 0 l) /\ chain_to (kmem h) l 0.

Lemma kload_eq h a v : kmem h !! a = Some v -> kload a h = Ret (v, h).
Proof. intros Ha. unfold kload, bind, get, need. by rewrite Ha. Qed.
Lemma kstore_eq h a v : is_Some (kmem h !! a) -> 0 <= v < 2 ^ 32 ->
  kstore a v h = Ret (tt, set_kmem (<[a := v]> (kmem h)) h).
Proof.
  intros [w Hw] Hv. unfold kstore. rewrite (bind_Ret _ _ _ _ _ (kload_eq _ _ _ Hw)). unfold modify. by rewrite u32_small.
Qed.
Lemma get_next_eq h b q : 0 <= b -> b + 4 < 2 ^ 32 -> kmem h !! (b + 4) = Some q -> get_next b h = Ret (q, h).
Proof. intros Hb Hb2 Hq. unfold get_next. rewrite u32_small by lia. by apply kload_eq. Qed.
Lemma set_next_eq h b q : 0 <= b -> b + 4 < 2 ^ 32 -> is_Some (kmem h !! (b + 4)) -> 0 <= q < 2 ^ 32 ->
  set_next b q h = Ret (tt, set_kmem (<[b + 4 := q]> (kmem h)) h).
Proof. intros Hb Hb2 Hs Hq. unfold set_next. rewrite u32_small by lia. by apply kstore_eq. Qed.

Section range.
Context (lo hi : Z).
Hypothesis Hlo : 0 < lo.
Hypothesis Hhi : hi < 2 ^ 32.
Abbreviation ok := (block_ok lo hi).

Lemma ok_word b : ok b -> 0 < b.1 /\ b.1 + 8 < 2 ^ 32 /\ 0 < b.2 < 2 ^ 32 /\ bend b < 2 ^ 32.
Proof. unfold block_ok, bend, HEADER. lia. Qed.

Lemma deref_place h i l1 l2 : Forall ok (l1 ++ l2) -> listed h i (l1 ++ l2) ->
  deref (place_after i l1) h = Ret (first_or 0 l2, h).
Proof.
  intros Hok [Hf Hc]. destruct l1 as [|b k _] using rev_ind.
  - cbn. unfold bind, get, need. cbn in Hf. by rewrite Hf.
  - unfold place_after. rewrite last_snoc. cbn [deref].
    rewrite <- app_assoc in Hc, Hok. apply chain_app in Hc as [_ (_ & Hn & _)].
    apply Forall_app in Hok as [_ [Hb _]%Forall_cons]. apply ok_word in Hb. apply get_next_eq; [lia..|exact Hn].
Qed.

(** What an operation on list [i] leaves alone. *)
Definition same_rest (i : Z) h h' : Prop :=
  malloc_used_mem h' = malloc_used_mem h /\ heap_end h' = heap_end h /\ hmmu h' = hmmu h /\
  length (freelist h') = length (freelist h) /\ forall j, j <> i -> zget (freelist h') j = zget (freelist h) j.

Lemma same_rest_trans i h1 h2 h3 : same_rest i h1 h2 -> same_rest i h2 h3 -> same_rest i h1 h3.
Proof.
  intros (? & ? & ? & ? & ?) (? & ? & ? & ? & Hz). split_and!; try congruence. intros j Hj. rewrite Hz by done. auto.
Qed.

Lemma assign_place h i l1 l2 l3 : Forall ok (l1 ++ l3) -> pairwise sep (l1 ++ l3) -> 
  listed h i (l1 ++ l2) -> chain_to (kmem h) l3 0 ->
  exists h', assign (place_after i l1) (first_or 0 l3) h = Ret (tt, h') /\ listed h' i (l1 ++ l3) /\
    upd l1.*1 (kmem h) (kmem h') /\ same_rest i h h'.
Proof.
  intros Hok Hsep [Hf Hc] H3. destruct l1 as [|b k _] using rev_ind.
  - exists (set_freelist (zset (freelist h) i (first_or 0 l3)) h). cbn. unfold bind, get, need, modify. cbn in Hf. rewrite Hf.
    pose proof (zget_lt_Some _ _ _ Hf) as Hi. split_and!; try done.
    + split; [by apply zget_zset_eq|done].
    + split_and!; try done; [apply length_zset|]. intros j Hj. cbn. apply zget_zset_ne; lia.
  - unfold place_after. rewrite last_snoc. cbn [assign]. rewrite <- !app_assoc in *. cbn [app] in *.
    apply chain_app in Hc as [Hk (Hb1 & Hb2 & _)]. pose proof Hok as [Hokk [Hokb Hok3]%Forall_cons]%Forall_app.
    apply pairwise_app in Hsep as (_ & [Hs3 _] & Hsk). pose proof (ok_word b Hokb) as Hw.
    assert (0 <= first_or 0 l3 < 2 ^ 32) as Hr.
    { destruct l3 as [|c l3]; [cbn; lia|]. apply Forall_cons in Hok3 as [Hokc _]. apply ok_word in Hokc. cbn. lia. }
    eexists. split; [apply set_next_eq; [lia..|eauto|done]|]. unfold listed. cbn [freelist kmem set_kmem].
    assert (upd [b.1] (kmem h) (<[b.1 + 4 := first_or 0 l3]> (kmem h))) as Hu.
    { apply (upd_insert _ b.1); [by left|by right]. }
    split; [split|split; [|by split_and!]].
    + rewrite Hf. by rewrite !first_or_app.
    + apply chain_app. split; [|cbn [chain_to]; split_and!].
      * cbn [first_or] in *. eapply (sep_chain lo hi [b]); [exact Hu|by apply Forall_singleton|done| |exact Hk].
        eapply Forall_impl; [exact Hsk|]. intros x [Hx _]%Forall_cons. by apply Forall_singleton.
      * rewrite lookup_insert_ne by lia. done.
      * by rewrite lookup_insert_eq.
      * eapply (sep_chain lo hi [b]); [exact Hu|by apply Forall_singleton|done| |exact H3].
        eapply Forall_impl; [exact Hs3|]. intros x Hx. by apply Forall_singleton; symmetry.
    + eapply upd_mono; [|exact Hu]. rewrite fmap_app. cbn. set_solver.
Qed.
(** * Merging *)

Definition adjacent (b c : block) : Prop := bend b = c.1 \/ bend c = b.1.

Section merge.
Implicit Types (m : bool) (hd n : Z).

(** The block at the place: its address and size. *)
Lemma at_place h l1 b l2 : Forall ok (l1 ++ b :: l2) -> listed h 4 (l1 ++ b :: l2) ->
  deref (place_after 4 l1) h = Ret (b.1, h) /\ kmem h !! b.1 = Some b.2 /\ kmem h !! (b.1 + 4) = Some (first_or 0 l2) /\
  ok b /\ 0 < b.1 /\ bend b < 2 ^ 32.
Proof.
  intros Hok Hl. pose proof (deref_place h 4 l1 (b :: l2) Hok Hl) as Hd. destruct Hl as [_ Hc].
  apply chain_app in Hc as [_ (H1 & H2 & _)]. apply Forall_app in Hok as [_ [Hb _]%Forall_cons].
  pose proof (ok_word b Hb) as (? & _ & _ & ?). by repeat (split; [done|]).
Qed.

Lemma merge_end h hd m l1 : Forall ok l1 -> listed h 4 l1 ->
  merge_step (hd, m, place_after 4 l1) h = Ret (inr (m, hd), h).
Proof.
  intros Hok Hl. unfold merge_step. rewrite <- (app_nil_r l1) in Hok, Hl.
  by rewrite (bind_Ret _ _ _ _ _ (deref_place h 4 l1 [] Hok Hl)).
Qed.

(** A step that finds the block [b]. *)
Lemma merge_at h hd n m l1 b l2 : Forall ok (l1 ++ b :: l2) -> listed h 4 (l1 ++ b :: l2) -> ok (hd, n) ->
  kmem h !! hd = Some n ->
  merge_step (hd, m, place_after 4 l1) h =
  (if bend b =? hd then
     set_size b.1 (b.2 + (HEADER + n)) ;;
     let* next := get_next b.1 in
     assign (place_after 4 l1) next ;;
     ret (inl (b.1, m, Freelist NRQUICKLISTS))
   else if bend (hd, n) =? b.1 then
     set_size hd (n + (HEADER + b.2)) ;;
     let* next := get_next b.1 in
     set_next hd next ;;
     assign (place_after 4 l1) hd ;;
     ret (inl (hd, true, NextOf hd))
   else ret (inl (hd, m, NextOf b.1))) h.
Proof.
  intros Hok Hl Hh Hn. destruct (at_place h l1 b l2 Hok Hl) as (Hd & H1 & H2 & Hb & Hb0 & Hbe).
  pose proof (ok_word _ Hh) as Hw. cbn [fst snd] in Hw. pose proof (ok_word _ Hb) as Hw2.
  unfold merge_step. rewrite (bind_Ret _ _ _ _ _ Hd). destruct (Z.eqb_spec b.1 0); [lia|].
  rewrite (bind_Ret _ _ _ _ _ (kload_eq _ _ _ H1)).
  replace (u32 (b.1 + b.2 + HEADER)) with (bend b) by (unfold bend, HEADER in *; rewrite u32_small; lia).
  destruct (bend b =? hd); rewrite (bind_Ret _ _ _ _ _ (kload_eq _ _ _ Hn)); [done|].
  replace (u32 (hd + HEADER + n)) with (bend (hd, n)); [done|].
  unfold bend, HEADER in *. cbn in *. rewrite u32_small; lia.
Qed.

Lemma merge_skip h hd n m l1 b l2 : Forall ok (l1 ++ b :: l2) -> listed h 4 (l1 ++ b :: l2) -> ok (hd, n) ->
  kmem h !! hd = Some n -> ~ adjacent (hd, n) b ->
  merge_step (hd, m, place_after 4 l1) h = Ret (inl (hd, m, place_after 4 (l1 ++ [b])), h).
Proof.
  intros Hok Hl Hh Hn Ha. rewrite (merge_at h hd n m l1 b l2) by done. unfold adjacent in Ha. cbn in Ha.
  destruct (Z.eqb_spec (bend b) hd); [tauto|]. destruct (Z.eqb_spec (bend (hd, n)) b.1); [tauto|].
  unfold place_after. by rewrite last_snoc.
Qed.

Lemma merge_lower h hd n m l1 c l2 :
  Forall ok (l1 ++ c :: l2) -> pairwise sep (l1 ++ c :: l2) -> listed h 4 (l1 ++ c :: l2) -> ok (hd, n) ->
  kmem h !! hd = Some n -> bend c = hd ->
  exists h', merge_step (hd, m, place_after 4 l1) h = Ret (inl (c.1, m, Freelist NRQUICKLISTS), h') /\
    listed h' 4 (l1 ++ l2) /\ kmem h' !! c.1 = Some (c.2 + (HEADER + n)) /\
    upd (c :: l1).*1 (kmem h) (kmem h') /\ same_rest 4 h h'.
Proof.
  intros Hok Hsep Hl Hh Hn Hc. rewrite (merge_at h hd n m l1 c l2) by done. rewrite (proj2 (Z.eqb_eq _ _)) by done.
  destruct (at_place h l1 c l2 Hok Hl) as (_ & H1 & H2 & Hokc & Hc0 & _). pose proof (ok_word _ Hokc) as Hw.
  pose proof (ok_word _ Hh) as Hwh. unfold bend, HEADER in Hwh, Hc. cbn [fst snd] in Hwh.
  set (h1 := set_kmem (<[c.1 := c.2 + (HEADER + n)]> (kmem h)) h).
  assert (upd [c].*1 (kmem h) (kmem h1)) as Hu by (apply (upd_insert _ c.1); [by left|by left]).
  assert (Forall (fun b => Forall (sep b) [c]) (l1 ++ l2) /\ pairwise sep (l1 ++ l2)) as [Hsc Hsep'].
  { apply pairwise_app in Hsep as (Hs1 & [Hs2 Hs3] & Hs4). split; [apply Forall_app; split|apply pairwise_app; split_and!; try done].
    - eapply Forall_impl; [exact Hs4|]. intros x [Hx _]%Forall_cons. by apply Forall_singleton.
    - eapply Forall_impl; [exact Hs2|]. intros x Hx. apply Forall_singleton. by symmetry.
    - eapply Forall_impl; [exact Hs4|]. by intros x [_ Hx]%Forall_cons. }
  assert (Forall ok (l1 ++ l2)) as Hok'.
  { apply Forall_app in Hok as [? [? ?]%Forall_cons]. by apply Forall_app. }
  destruct Hl as [Hf Hch]. apply chain_app in Hch as [Hch1 (_ & _ & Hch2)]. cbn [first_or] in Hch1.
  apply Forall_app in Hsc as [Hsc1 Hsc2]. apply Forall_app in Hok' as Hok12. destruct Hok12 as [Hok1 Hok2].
  assert (chain_to (kmem h1) l1 c.1) as Hch1'.
  { eapply (sep_chain lo hi [c]); [exact Hu|by apply Forall_singleton|done|done|done]. }
  assert (chain_to (kmem h1) l2 0) as Hch2'.
  { eapply (sep_chain lo hi [c]); [exact Hu|by apply Forall_singleton|done|done|done]. }
  assert (kmem h1 !! (c.1 + 4) = Some (first_or 0 l2)) as Hn1 by (cbn; rewrite lookup_insert_ne by lia; done).
  assert (kmem h1 !! c.1 = Some (c.2 + (HEADER + n))) as Hc1 by apply lookup_insert_eq.
  destruct (assign_place h1 4 l1 ((c.1, c.2 + (HEADER + n)) :: l2) l2) as (h2 & Ha & Hl2 & Hu2 & Hr2); try done.
  { split; [cbn [freelist h1 set_kmem]; rewrite Hf; by rewrite !first_or_app|]. apply chain_app. cbn. by split_and!. }
  exists h2. split_and!; try done.
  - unfold set_size. erewrite bind_Ret; [|apply kstore_eq; [eauto|unfold HEADER; lia]]. fold h1.
    erewrite bind_Ret; [|apply get_next_eq; [lia..|exact Hn1]]. by rewrite (bind_Ret _ _ _ _ _ Ha).
  - destruct Hu2 as [Hu2 _]. rewrite Hu2; [done|]. intros t Ht. apply list_elem_of_fmap in Ht as (b & -> & Hb).
    pose proof (proj1 (Forall_forall _ _) Hsc1 b Hb) as Hbc%Forall_singleton_1.
    pose proof (sep_words lo hi b c (proj1 (Forall_forall _ _) Hok1 b Hb) Hokc Hbc). lia.
  - eapply upd_trans; (eapply upd_mono; [|done]); cbn; set_solver.
Qed.

Lemma merge_upper h hd n m l1 u l2 :
  Forall ok ((hd, n) :: l1 ++ u :: l2) -> pairwise sep ((hd, n) :: l1 ++ u :: l2) -> listed h 4 (l1 ++ u :: l2) ->
  kmem h !! hd = Some n -> is_Some (kmem h !! (hd + 4)) -> bend (hd, n) = u.1 ->
  let b := (hd, n + (HEADER + u.2)) in
  exists h', merge_step (hd, m, place_after 4 l1) h = Ret (inl (hd, true, place_after 4 (l1 ++ [b])), h') /\
    listed h' 4 (l1 ++ b :: l2) /\ upd (b :: l1).*1 (kmem h) (kmem h') /\ same_rest 4 h h'.
Proof.
  intros [Hh Hok]%Forall_cons [Hsh Hsep] Hl Hn Hn4 Hu b.
  destruct (at_place h l1 u l2 Hok Hl) as (_ & H1 & H2 & Hoku & Hu0 & _). pose proof (ok_word _ Hoku) as Hw.
  pose proof (ok_word _ Hh) as Hwh. unfold HEADER in Hwh. cbn [fst snd] in Hwh.
  rewrite (merge_at h hd n m l1 u l2) by done.
  rewrite (proj2 (Z.eqb_neq _ _)) by (unfold bend, HEADER, block_ok in *; cbn in *; lia).
  rewrite (proj2 (Z.eqb_eq _ _)) by done.
  set (h1 := set_kmem (<[hd := n + (HEADER + u.2)]> (kmem h)) h).
  set (h2 := set_kmem (<[hd + 4 := first_or 0 l2]> (kmem h1)) h1).
  assert (upd [(hd, n)].*1 (kmem h) (kmem h2)) as Hup.
  { eapply upd_trans; (apply (upd_insert _ hd); [by left|]); [by left|by right]. }
  destruct Hl as [Hf Hch]. apply chain_app in Hch as [Hch1 (_ & _ & Hch2)]. cbn [first_or] in Hch1.
  apply Forall_app in Hok as [Hok1 [_ Hok2]%Forall_cons]. apply Forall_app in Hsh as [Hsh1 [_ Hsh2]%Forall_cons].
  apply pairwise_app in Hsep as (Hs1 & [Hsu Hs2] & Hs12).
  assert (forall l q, Forall ok l -> Forall (sep (hd, n)) l -> chain_to (kmem h) l q -> chain_to (kmem h2) l q) as Hkeep.
  { intros l q Hokl Hsl. apply (sep_chain lo hi [(hd, n)]); [exact Hup|by apply Forall_singleton|done|].
    eapply Forall_impl; [exact Hsl|]. intros x Hx. apply Forall_singleton. by symmetry. }
  assert (ok b) as Hokb by (unfold block_ok, bend, HEADER in *; cbn in *; mod_lia).
  assert (forall x, sep (hd, n) x -> sep u x -> ok x -> sep b x) as Hsb by (unfold block_ok, sep, bend, HEADER in *; cbn in *; lia).
  assert (Forall ok (l1 ++ b :: l2)) as Hok' by (apply Forall_app; split; [done|by apply Forall_cons]).
  destruct (assign_place h2 4 l1 (u :: l2) (b :: l2)) as (h3 & Ha & Hl3 & Hu3 & Hr3).
  - done.
  - apply pairwise_app. split_and!; [done| |].
    + split; [|done]. rewrite Forall_forall in Hsu, Hsh2, Hok2 |- *. auto.
    + rewrite Forall_forall in Hs12, Hsh1, Hok1 |- *. intros x Hx. specialize (Hs12 x Hx).
      apply Forall_cons in Hs12 as [Hxu Hx2]. apply Forall_cons. split; [|done]. symmetry. apply Hsb; [auto|by symmetry|auto].
  - split; [cbn [freelist h2 h1 set_kmem]; rewrite Hf; by rewrite !first_or_app|]. apply chain_app. split; [by apply Hkeep|].
    assert (chain_to (kmem h2) (u :: l2) 0); [|done].
    apply Hkeep; [by apply Forall_cons| |by split_and!]. apply Forall_cons. split; [|done].
    unfold sep. left. by rewrite Hu.
  - cbn [chain_to]. split_and!; [|by apply lookup_insert_eq|by apply Hkeep].
    cbn. rewrite lookup_insert_ne by lia. apply lookup_insert_eq.
  - exists h3. split_and!; try done.
    + unfold set_size. erewrite bind_Ret; [|apply kstore_eq; [eauto|unfold bend, HEADER in *; cbn in *; lia]]. fold h1.
      erewrite bind_Ret; [|apply (get_next_eq h1 u.1 (first_or 0 l2)); [lia..|]].
      2: { cbn. rewrite lookup_insert_ne; [done|]. unfold bend, HEADER in *. cbn in *. lia. }
      erewrite bind_Ret; [|apply set_next_eq; [lia..| |]].
      * fold h2. cbn [first_or] in Ha. rewrite (bind_Ret _ _ _ _ _ Ha). unfold place_after. by rewrite last_snoc.
      * cbn. by rewrite lookup_insert_ne by lia.
      * destruct l2 as [|x l2]; [done|]. apply Forall_cons in Hok2 as [Hx _]. apply ok_word in Hx. cbn. lia.
    + eapply upd_trans; (eapply upd_mono; [|done]); cbn; set_solver.
Qed.

Lemma merge_next f a a' h h' : (0 < f)%nat -> merge_step a h = Ret (inl a', h') ->
  loop f a merge_step h = loop (f - 1) a' merge_step h'.
Proof. intros Hf Hs. destruct f as [|f]; [lia|]. cbn [Nat.sub]. rewrite Nat.sub_0_r. by apply loop_next. Qed.

(** The loop passes over blocks that are not neighbours. *)
Lemma merge_scan h hd n m l2 l3 l1 f : Forall ok (l1 ++ l2 ++ l3) -> listed h 4 (l1 ++ l2 ++ l3) -> ok (hd, n) ->
  kmem h !! hd = Some n -> Forall (fun b => ~ adjacent (hd, n) b) l2 -> (List.length l2 <= f)%nat ->
  loop f (hd, m, place_after 4 l1) merge_step h = loop (f - List.length l2) (hd, m, place_after 4 (l1 ++ l2)) merge_step h.
Proof.
  intros Hok Hl Hh Hn. revert l1 f Hok Hl. induction l2 as [|b l2 IH]; intros l1 f Hok Hl Hna Hf.
  - by rewrite app_nil_r, Nat.sub_0_r.
  - apply Forall_cons in Hna as [Hb Hna]. cbn [List.length app] in *.
    rewrite (merge_next _ _ (hd, m, place_after 4 (l1 ++ [b])) h h); [|lia|by eapply merge_skip].
    assert (forall k, l1 ++ b :: k = (l1 ++ [b]) ++ k) as E by (intros k; by rewrite <- app_assoc).
    rewrite E in Hok, Hl. rewrite (E l2). rewrite IH by (done || lia). f_equal. lia.
Qed.

Lemma merge_stops h hd n m l1 l2 f : Forall ok (l1 ++ l2) -> listed h 4 (l1 ++ l2) -> ok (hd, n) ->
  kmem h !! hd = Some n -> Forall (fun b => ~ adjacent (hd, n) b) l2 -> (List.length l2 < f)%nat ->
  loop f (hd, m, place_after 4 l1) merge_step h = Ret ((m, hd), h).
Proof.
  intros Hok Hl Hh Hn Hna Hf. rewrite (merge_scan h hd n m l2 [] l1 f) by (rewrite ?app_nil_r; done || lia).
  destruct (f - List.length l2)%nat as [|g] eqn:Eg; [lia|]. apply loop_done. by apply merge_end.
Qed.

Lemma first_with (P : block -> Prop) `{forall b, Decision (P b)} l :
  Forall (fun c => ~ P c) l \/ exists l1 c l2, l = l1 ++ c :: l2 /\ Forall (fun c => ~ P c) l1 /\ P c.
Proof.
  induction l as [|c l IH]; [by left|]. destruct (decide (P c)) as [Hc|Hc].
  - right. by exists [], c, l.
  - destruct IH as [IH|(l1 & d & l2 & -> & H1 & H2)]; [left; by constructor|].
    right. exists (c :: l1), d, l2. split; [done|]. split; [by constructor|done].
Qed.
Lemma first_adjacent b l : Forall (fun c => ~ adjacent b c) l \/
  exists l1 c l2, l = l1 ++ c :: l2 /\ Forall (fun c => ~ adjacent b c) l1 /\ adjacent b c.
Proof. apply first_with. intros c. unfold adjacent. apply _. Qed.

Lemma push_free_eq h i hd n l : Forall ok ((hd, n) :: l) -> Forall (sep (hd, n)) l -> pairwise sep l -> listed h i l ->
  kmem h !! hd = Some n -> is_Some (kmem h !! (hd + 4)) ->
  exists h', push_free i hd h = Ret (tt, h') /\ listed h' i ((hd, n) :: l) /\ upd [hd] (kmem h) (kmem h') /\ same_rest i h h'.
Proof.
  intros Hok Hs Hsep Hl Hn Hn4. pose proof Hok as [Hh Hokl]%Forall_cons. pose proof (ok_word _ Hh) as Hw. cbn [fst snd] in Hw.
  set (h1 := set_kmem (<[hd + 4 := first_or 0 l]> (kmem h)) h).
  assert (upd [(hd, n)].*1 (kmem h) (kmem h1)) as Hu by (apply (upd_insert _ hd); [by left|by right]).
  pose proof Hl as [Hf Hch].
  assert (chain_to (kmem h1) l 0) as Hch1.
  { eapply (sep_chain lo hi [(hd, n)]); [exact Hu|by apply Forall_singleton|done| |exact Hch].
    eapply Forall_impl; [exact Hs|]. intros x Hx. apply Forall_singleton. by symmetry. }
  destruct (assign_place h1 i [] l ((hd, n) :: l)) as (h2 & Ha & Hl2 & Hu2 & Hr2); [done|done|by split| |].
  - cbn [chain_to fst snd]. split_and!; [|by apply lookup_insert_eq|done]. cbn. by rewrite lookup_insert_ne by lia.
  - exists h2. split_and!; [| |by eapply upd_trans; [exact Hu|eapply upd_mono; [|exact Hu2]; cbn; set_solver]|apply Hr2..]; try done.
    unfold push_free. rewrite (bind_Ret _ _ _ _ _ (deref_place h i [] l Hokl Hl)).
    erewrite bind_Ret; [|apply set_next_eq; [lia..|done|]]; [exact Ha|].
    destruct l as [|x l]; [done|]. apply Forall_cons in Hokl as [Hx _]. apply ok_word in Hx. cbn. lia.
Qed.

(** What is separate from all blocks of [l] is separate from those of [l']. *)
Definition within (l l' : list block) : Prop := forall x, 0 < x.2 -> Forall (sep x) l -> Forall (sep x) l'.

Lemma apart_sep l : pairwise apart l -> pairwise sep l.
Proof.
  induction l as [|b l IH]; [done|]. intros [Hb Hl]. split; [|auto]. eapply Forall_impl; [exact Hb|].
  intros c. unfold apart, sep. lia.
Qed.
Lemma sep_apart b l : Forall (sep b) l -> Forall (fun c => ~ adjacent b c) l -> Forall (apart b) l.
Proof.
  rewrite !Forall_forall. intros H1 H2 x Hx. specialize (H1 x Hx). specialize (H2 x Hx).
  unfold sep, adjacent, apart in *. lia.
Qed.

(** Two neighbours as one block. *)
Definition union (b c : block) : block := (b.1, b.2 + (HEADER + c.2)).
Lemma sep_union x b c : bend b = c.1 -> 0 < x.2 -> 0 < b.2 -> sep x b -> sep x c -> sep x (union b c).
Proof. unfold sep, union, bend, HEADER. cbn. lia. Qed.
Lemma ok_union b c : ok b -> ok c -> bend b = c.1 -> ok (union b c) /\ bend (union b c) = bend c.
Proof. unfold block_ok, union, bend, HEADER. cbn. intros. split; mod_lia. Qed.

Lemma apart_not_adjacent b l : ok b -> Forall ok l -> Forall (apart b) l -> Forall (fun c => ~ adjacent b c) l.
Proof.
  rewrite !Forall_forall. intros Hb Hl Ha x Hx. specialize (Hl x Hx). specialize (Ha x Hx).
  unfold apart, adjacent, block_ok, bend, HEADER in *. lia.
Qed.

(** The outcome of freeing the block [b] into the list [l]. *)
Record freed h h' (b : block) l l' : Prop := {
  fr_listed : listed h' 4 l';
  fr_ok : Forall ok l';
  fr_apart : pairwise apart l';
  fr_within : within (b :: l) l';
  fr_covers : exists c, c ∈ l' /\ c.1 <= b.1 /\ bend b <= bend c;
  fr_upd : upd (b :: l).*1 (kmem h) (kmem h');
  fr_rest : same_rest 4 h h';
  fr_length : (List.length l' <= S (List.length l))%nat;
}.

Lemma apart_middle k1 u k2 : pairwise apart (k1 ++ u :: k2) ->
  Forall (apart u) (k1 ++ k2) /\ pairwise apart (k1 ++ k2).
Proof.
  rewrite <- Permutation_middle by apply _. intros [? ?]. done.
Qed.

(** The loop that has found the upper neighbour, and meets no lower one
    behind it. *)
Lemma merge_upper_end h b m k1 u k2 f :
  Forall ok (b :: k1 ++ u :: k2) -> Forall (sep b) (k1 ++ u :: k2) -> pairwise apart (k1 ++ u :: k2) ->
  listed h 4 (k1 ++ u :: k2) -> kmem h !! b.1 = Some b.2 -> is_Some (kmem h !! (b.1 + 4)) -> bend b = u.1 ->
  Forall (fun c => ~ adjacent b c) k1 -> Forall (fun c => bend c <> b.1) k2 -> (S (List.length k2) < f)%nat ->
  exists h', loop f (b.1, m, place_after 4 k1) merge_step h = Ret ((true, b.1), h') /\
    freed h h' b (k1 ++ u :: k2) (k1 ++ union b u :: k2).
Proof.
  intros Hok Hs Hap Hl Hb Hb4 Hu Hk1 Hk2 Hf. destruct b as [hd n]. cbn [fst snd] in *.
  destruct (merge_upper h hd n m k1 u k2) as (h1 & Hstep & Hl1 & Hu1 & Hr1); try done.
  { split; [done|by apply apart_sep]. }
  pose proof Hok as [Hokb (Hok1 & [Hoku Hok2]%Forall_cons)%Forall_app]%Forall_cons.
  destruct (ok_union (hd, n) u Hokb Hoku Hu) as [Hokn Hend]. destruct (apart_middle _ _ _ Hap) as [Hapu Hap12].
  pose proof Hs as [Hs1 [_ Hs2]%Forall_cons]%Forall_app. pose proof Hapu as [Ha1 Ha2]%Forall_app.
  assert (Forall (apart (union (hd, n) u)) (k1 ++ k2)) as Hapn.
  { assert (forall x, sep (hd, n) x -> apart u x -> bend x <> hd -> ok x -> apart (union (hd, n) u) x) as Hx.
    { intros x. unfold sep, apart, union, bend, HEADER, block_ok in *. cbn in *. lia. }
    rewrite Forall_forall in Hk1, Hk2, Hs1, Hs2, Ha1, Ha2, Hok1, Hok2. apply Forall_app. split; apply Forall_forall; intros x Hxk.
    - apply Hx; auto. intros E. apply (Hk1 x Hxk). by right.
    - apply Hx; auto. }
  exists h1. split.
  - rewrite (merge_next f _ _ _ _ ltac:(lia) Hstep). change ((hd, n + (HEADER + u.2))) with (union (hd, n) u) in Hl1 |- *.
    eapply (merge_stops h1 hd (n + (HEADER + u.2)) true (k1 ++ [union (hd, n) u]) k2); rewrite <- ?app_assoc; cbn [app]; try done.
    + apply Forall_app; split; [done|by constructor].
    + destruct Hl1 as [_ Hc]. apply chain_app in Hc as [_ (Hn & _)]. exact Hn.
    + apply Forall_app in Hapn as [_ Hapn]. by apply apart_not_adjacent.
    + lia.
  - split; try done.
    + apply Forall_app; split; [done|by constructor].
    + rewrite <- Permutation_middle by apply _. by split.
    + intros x Hx [Hxb [Hx1 [Hxu Hx2]%Forall_cons]%Forall_app]%Forall_cons. apply Forall_app; split; [done|].
      constructor; [|done]. apply sep_union; try done. apply (ok_word _ Hokb).
    + exists (union (hd, n) u). split; [set_solver|]. cbn [fst union]. split; [done|]. rewrite Hend. 
      pose proof (ok_word _ Hoku). unfold bend, HEADER in *. cbn in *. lia.
    + eapply upd_mono; [|exact Hu1]. rewrite !fmap_cons, fmap_app. cbn. set_solver.
    + rewrite !length_app. cbn. lia.
Qed.

(** What happens behind the loop. *)
Definition finish (r : bool * Z) : M (Heap W) unit :=
  let '(hasmerged, header) := r in if hasmerged then ret tt else push_free NRQUICKLISTS header.

(** Without a lower neighbour the block is inserted, or merged with its upper
    neighbour. *)
Lemma merge_no_lower h b l f :
  Forall ok (b :: l) -> Forall (sep b) l -> pairwise apart l -> listed h 4 l ->
  kmem h !! b.1 = Some b.2 -> is_Some (kmem h !! (b.1 + 4)) -> Forall (fun c => bend c <> b.1) l ->
  (S (List.length l) < f)%nat ->
  exists h' l', (let* r := loop f (b.1, false, Freelist NRQUICKLISTS) merge_step in finish r) h = Ret (tt, h') /\
    freed h h' b l l'.
Proof.
  intros Hok Hs Hap Hl Hb Hb4 Hlow Hf. pose proof Hok as [Hokb Hokl]%Forall_cons.
  change (Freelist NRQUICKLISTS) with (place_after 4 []). destruct b as [hd n]. cbn [fst snd] in Hb, Hb4, Hlow |- *.
  destruct (first_adjacent (hd, n) l) as [Hna|(k1 & u & k2 & -> & Hna & Hu)].
  - rewrite (bind_Ret _ _ _ _ _ (merge_stops h hd n false [] l f Hokl Hl Hokb Hb Hna ltac:(lia))).
    destruct (push_free_eq h 4 hd n l) as (h' & Hp & Hl' & Hu' & Hr'); try done.
    { by apply apart_sep. }
    exists h', ((hd, n) :: l). split; [done|]. split; try done.
    + split; [|done]. by apply sep_apart.
    + by intros x.
    + exists (hd, n). split; [by left|]. cbn. lia.
    + eapply upd_mono; [|exact Hu']. cbn. set_solver.
  - assert (bend (hd, n) = u.1) as Hbu.
    { destruct Hu as [?|E]; [done|]. exfalso. by apply Forall_app in Hlow as [_ [? _]%Forall_cons]. }
    rewrite length_app in Hf. cbn [List.length] in Hf.
    destruct (merge_upper_end h (hd, n) false k1 u k2 (f - List.length k1)) as (h' & Hrun & Hfr); try done; [|lia|].
    { by apply Forall_app in Hlow as [_ [_ ?]%Forall_cons]. }
    exists h', (k1 ++ union (hd, n) u :: k2). split; [|done].
    erewrite bind_Ret; [|rewrite (merge_scan h hd n false k1 (u :: k2) [] f); [exact Hrun|done..|lia]].
    done.
Qed.

(** A lower neighbour is met first: the two are one block for the rest of the
    loop. *)
Lemma free_lower h b l1 c l2 f : let l := l1 ++ c :: l2 in
  Forall ok (b :: l) -> Forall (sep b) l -> pairwise apart l -> listed h 4 l ->
  kmem h !! b.1 = Some b.2 -> is_Some (kmem h !! (b.1 + 4)) -> bend c = b.1 ->
  Forall (fun x => ~ adjacent b x) l1 -> (2 * List.length l + 2 < f)%nat ->
  exists h' l', (let* r := loop f (b.1, false, Freelist NRQUICKLISTS) merge_step in finish r) h = Ret (tt, h') /\
    freed h h' b l l'.
Proof.
  intros l Hok Hs Hap Hl Hb Hb4 Hc Hna Hf. destruct b as [hd n]. cbn [fst snd] in Hb, Hb4, Hc |- *.
  pose proof Hok as [Hokb Hokl]%Forall_cons. pose proof Hokl as [Hok1 [Hokc Hok2]%Forall_cons]%Forall_app.
  destruct (apart_middle _ _ _ Hap) as [Hapc Hap12]. unfold l in Hf. rewrite length_app in Hf. cbn [List.length] in Hf.
  destruct (merge_lower h hd n false l1 c l2) as (h1 & Hstep & Hl1 & Hc1 & Hu1 & Hr1); try done; [by apply apart_sep|].
  destruct (ok_union c (hd, n) Hokc Hokb Hc) as [Hoku Hend].
  pose proof (ok_word _ Hokb) as Hw. pose proof (ok_word _ Hokc) as Hwc.
  assert (Forall ok (l1 ++ l2)) as Hok12 by by apply Forall_app.
  assert (Forall (fun x => sep (hd, n) x /\ apart c x /\ ok x) (l1 ++ l2)) as Hx.
  { apply Forall_app in Hs as [Hs1 [_ Hs2]%Forall_cons]. rewrite !Forall_and. split_and!; [by apply Forall_app|done..]. }
  destruct (merge_no_lower h1 (union c (hd, n)) (l1 ++ l2) (f - List.length l1 - 1)) as (h' & l' & Hrun & Hfr); try done.
  - by apply Forall_cons.
  - eapply Forall_impl; [exact Hx|]. intros x (H1 & H2 & H3). symmetry. apply sep_union; [done|apply (ok_word _ H3)|apply Hwc| |by symmetry].
    unfold sep, apart in *. lia.
  - eapply upd_mapped; [exact Hu1|]. destruct (at_place h l1 c l2 Hokl Hl) as (_ & _ & H2 & _). by eexists.
  - eapply Forall_impl; [exact Hx|]. intros x (H1 & H2 & H3). cbn. unfold apart, block_ok, bend, HEADER in *. lia.
  - rewrite length_app. lia.
  - exists h', l'. change (Freelist NRQUICKLISTS) with (place_after 4 []). split.
    + etransitivity; [|exact Hrun]. unfold bind.
      rewrite (merge_scan h hd n false l1 (c :: l2) [] f) by (done || lia). cbn [app].
      rewrite (merge_next (f - List.length l1) _ _ _ _ ltac:(lia) Hstep). done.
    + destruct Hfr as [? ? ? Hwi (x & Hx1 & Hx2 & Hx3) Hu2 Hr2 Hlen]. split; try done.
      * intros y Hy [Hyb [Hy1 [Hyc Hy2]%Forall_cons]%Forall_app]%Forall_cons. apply Hwi; [done|].
        apply Forall_cons. split; [|by apply Forall_app]. by apply sep_union; [..|apply Hwc| |].
      * exists x. split; [done|]. rewrite Hend in Hx3. cbn [fst union] in Hx2. split; [|done].
        unfold bend, HEADER in Hc. cbn. lia.
      * eapply upd_trans; [eapply upd_mono; [|exact Hu1]|eapply upd_mono; [|exact Hu2]];
          unfold l; rewrite ?fmap_cons, ?fmap_app; cbn; set_solver.
      * by eapply same_rest_trans.
      * unfold l. rewrite length_app in *. cbn [List.length]. lia.
Qed.

(** A block between the free blocks [u] above and [c] below it: what is true of
    the union of the block and [u] in the rest [r] of the list. *)
Lemma neighbours b u c r : let b' := union b u in
  Forall ok (b :: u :: c :: r) -> Forall (sep b) (u :: c :: r) -> pairwise apart (u :: c :: r) ->
  bend b = u.1 -> bend c = b.1 ->
  ok b' /\ ok (union c b') /\ bend b' = bend u /\ Forall (apart b') r /\ pairwise apart r /\
  Forall (fun x => ~ adjacent (union c b') x) (b' :: r) /\ pairwise sep (b' :: c :: r).
Proof.
  intros b' [Hokb [Hoku [Hokc Hokr]%Forall_cons]%Forall_cons]%Forall_cons [_ [Hsc Hsr]%Forall_cons]%Forall_cons
    [[Huc Hur]%Forall_cons [Hcr Hapr]] Hu Hc.
  destruct (ok_union b u Hokb Hoku Hu) as [Hokb' Hend']. destruct (ok_union c b' Hokc Hokb' Hc) as [Hokc' Hendc].
  assert (Forall (fun x => sep b x /\ apart u x /\ apart c x /\ ok x) r) as Hx by by rewrite !Forall_and.
  assert (forall x, sep b x /\ apart u x /\ apart c x /\ ok x -> apart b' x /\ apart (union c b') x) as Hxb.
  { intros x. unfold b', sep, apart, union, block_ok, bend, HEADER in *. cbn. lia. }
  assert (Forall (apart b') r) as Hapb by (eapply Forall_impl; [exact Hx|]; naive_solver).
  do 5 (split; [done|]). split.
  - apply Forall_cons. split.
    + unfold adjacent, b', union, block_ok, bend, HEADER in *. cbn in *. lia.
    + apply apart_not_adjacent; [done|done|]. eapply Forall_impl; [exact Hx|]. naive_solver.
  - split; [|split].
    + apply Forall_cons. split; [unfold sep, b', union, bend, HEADER in *; cbn in *; lia|].
      eapply Forall_impl; [exact Hapb|]. unfold apart, sep. lia.
    + eapply Forall_impl; [exact Hcr|]. unfold apart, sep. lia.
    + by apply apart_sep.
Qed.

(** The upper neighbour is met before the lower one: the block is merged with
    the upper one, and the lower one is taken out of the list and lost. *)
Lemma free_upper_lower h b k1 u k2 c l2 f : let l := k1 ++ u :: k2 ++ c :: l2 in
  Forall ok (b :: l) -> Forall (sep b) l -> pairwise apart l -> listed h 4 l ->
  kmem h !! b.1 = Some b.2 -> is_Some (kmem h !! (b.1 + 4)) -> bend b = u.1 -> bend c = b.1 ->
  Forall (fun x => ~ adjacent b x) k1 -> (2 * List.length l + 2 < f)%nat ->
  exists h', (let* r := loop f (b.1, false, Freelist NRQUICKLISTS) merge_step in finish r) h = Ret (tt, h') /\
    freed h h' b l (k1 ++ union b u :: k2 ++ l2).
Proof.
  intros l Hok Hs Hap Hl Hb Hb4 Hu Hc Hna Hf. set (b' := union b u).
  pose proof Hok as [Hokb Hokl]%Forall_cons. assert (l ≡ₚ u :: c :: k1 ++ k2 ++ l2) as Hperm by (unfold l; solve_Permutation).
  pose proof Hokl as Hokp. rewrite Hperm in Hokp. apply Forall_cons in Hokp as [Hoku [Hokc Hokr]%Forall_cons].
  destruct (neighbours b u c (k1 ++ k2 ++ l2)) as (Hokb' & Hokc' & Hend' & Hapb & Hapr & Hnac & Hsep1);
    [by rewrite <- Hperm..|done|done|]. fold b' in Hokb', Hokc', Hend', Hapb, Hnac, Hsep1.
  assert (k1 ++ b' :: k2 ++ c :: l2 ≡ₚ b' :: c :: k1 ++ k2 ++ l2) as Hperm1 by solve_Permutation.
  rewrite <- Hperm1 in Hsep1. rewrite Permutation_middle in Hnac.
  assert (Forall ok (k1 ++ b' :: k2 ++ c :: l2)) as Hok1 by (rewrite Hperm1; by do 2 (apply Forall_cons; split; [done|])).
  pose proof (ok_word _ Hokb) as Hwb. pose proof (ok_word _ Hoku) as Hwu.
  unfold l in Hf. rewrite !length_app in Hf. cbn [List.length] in Hf. rewrite length_app in Hf. cbn [List.length] in Hf.
  destruct (merge_upper h b.1 b.2 false k1 u (k2 ++ c :: l2)) as (h1 & Hs1 & Hl1 & Hu1 & Hr1);
    [by destruct b|by destruct b; split; [|apply apart_sep]|done|done|done|by destruct b|].
  fold (union b u) in Hs1, Hl1, Hu1. fold b' in Hs1, Hl1, Hu1.
  assert (kmem h1 !! b.1 = Some b'.2) as Hb1 by (destruct Hl1 as [_ Hch]; by apply chain_app in Hch as [_ (Hn & _)]).
  assert (k1 ++ b' :: k2 ++ c :: l2 = (k1 ++ b' :: k2) ++ c :: l2) as E1 by by rewrite <- app_assoc.
  rewrite E1 in Hok1, Hsep1, Hl1.
  destruct (merge_lower h1 b.1 b'.2 true (k1 ++ b' :: k2) c l2) as (h2 & Hs2 & Hl2 & Hc2 & Hu2 & Hr2); try done.
  rewrite <- app_assoc in Hl2. cbn [app] in Hl2.
  assert (Forall ok (k1 ++ b' :: k2 ++ l2)) as Hok2 by (rewrite <- Permutation_middle; by constructor).
  exists h2. split.
  - change (Freelist NRQUICKLISTS) with (place_after 4 []). unfold bind.
    rewrite (merge_scan h b.1 b.2 false k1 (u :: k2 ++ c :: l2) [] f); [|done|done|by destruct b|done|by destruct b|lia].
    cbn [app]. rewrite (merge_next (f - List.length k1) _ _ _ _ ltac:(lia) Hs1).
    rewrite (merge_scan h1 b.1 b'.2 true k2 (c :: l2) (k1 ++ [b'])); [|by rewrite <- !app_assoc in *..|done|done| |lia].
    2: { apply apart_not_adjacent; [done| |]; [|by apply Forall_app in Hapb as [_ [? _]%Forall_app]].
         by apply Forall_app in Hokr as [_ [? _]%Forall_app]. }
    rewrite <- app_assoc. cbn [app]. erewrite merge_next; [|lia|exact Hs2].
    change (Freelist NRQUICKLISTS) with (place_after 4 []).
    rewrite (merge_stops h2 c.1 (union c b').2 true [] (k1 ++ b' :: k2 ++ l2)); try done.
    rewrite !length_app. cbn [List.length]. rewrite length_app. lia.
  - split; try done.
    + rewrite <- Permutation_middle by apply _. by split.
    + intros y Hy [Hyb Hyl]%Forall_cons. rewrite Hperm in Hyl. apply Forall_cons in Hyl as [Hyu [_ Hyr]%Forall_cons].
      rewrite <- Permutation_middle. constructor; [|done]. by apply sep_union; [..|apply Hwb| |].
    + exists b'. split; [set_solver|]. split; [done|]. rewrite Hend'. unfold bend, HEADER in *. lia.
    + eapply upd_trans; [eapply upd_mono; [|exact Hu1]|eapply upd_mono; [|exact Hu2]];
        unfold l; rewrite ?fmap_cons, ?fmap_app, ?fmap_cons, ?fmap_app; cbn; set_solver.
    + by eapply same_rest_trans.
    + unfold l. rewrite !length_app. cbn [List.length]. rewrite !length_app. cbn [List.length]. lia.
Qed.

(** The general list after a block is freed: [kfree] behind the quick lists. *)
Lemma kfree_general h b l f :
  Forall ok (b :: l) -> Forall (sep b) l -> pairwise apart l -> listed h 4 l ->
  kmem h !! b.1 = Some b.2 -> is_Some (kmem h !! (b.1 + 4)) -> (2 * List.length l + 2 < f)%nat ->
  exists h' l', (let* r := loop f (b.1, false, Freelist NRQUICKLISTS) merge_step in finish r) h = Ret (tt, h') /\
    freed h h' b l l'.
Proof.
  intros Hok Hs Hap Hl Hb Hb4 Hf. pose proof Hok as [Hokb Hokl]%Forall_cons.
  destruct (first_with (fun c => bend c = b.1) l) as [Hlow|(l1 & c & l2 & -> & Hl1 & Hc)].
  { apply merge_no_lower; try done. lia. }
  destruct (first_adjacent b l1) as [Hna|(k1 & u & k2 & -> & Hna & Hu)]; [by apply free_lower|].
  rewrite <- app_assoc in *. cbn [app] in *. assert (bend b = u.1) as Hbu.
  { destruct Hu as [?|E]; [done|]. exfalso. by apply Forall_app in Hl1 as [_ [? _]%Forall_cons]. }
  destruct (free_upper_lower h b k1 u k2 c l2 f) as (h' & ?); eauto.
Qed.
End merge.
End range.
End lists.

(** * The heap *)

(** Page boundaries. *)
Definition page_up (x : Z) : Z := (x + (MMU_PAGE_SIZE - 1)) / MMU_PAGE_SIZE * MMU_PAGE_SIZE.

(** The blocks of all lists but list [i]. *)
Definition others (F : list (list block)) (i : Z) : list block := mjoin (zset F i []).

Lemma mjoin_zset F i l k : zget F i = Some l -> mjoin (zset F i k) ≡ₚ k ++ others F i.
Proof.
  intros Hl. pose proof (zget_lt_Some _ _ _ Hl) as Hi. unfold others, zset.
  assert (Z.to_nat i < List.length F)%nat as Hlt by lia. clear Hl Hi. revert Hlt. generalize (Z.to_nat i).
  induction F as [|x F IH]; intros [|n] Hn; cbn in *; [lia..|done|]. rewrite (IH n) by lia. solve_Permutation.
Qed.
Lemma mjoin_others F i l : zget F i = Some l -> mjoin F ≡ₚ l ++ others F i.
Proof. intros Hl. rewrite <- (mjoin_zset F i l l Hl). by rewrite zset_id. Qed.
Lemma elem_others F i j k b : zget F j = Some k -> j <> i -> 0 <= i -> b ∈ k -> b ∈ others F i.
Proof.
  intros Hk Hij Hi Hb. apply list_elem_of_join. exists k. split; [done|].
  rewrite <- (zget_zset_ne F i j [] Hi) in Hk by done. unfold zget in Hk.
  destruct (j <? 0); [done|]. by eapply list_elem_of_lookup_2.
Qed.

Section heap.
Context {W : Type} `{UserMmu W} (lo : Z).
Implicit Types (h : Heap W) (F : list (list block)) (live : list block).

(** The heap from [lo] on: [F] are the blocks in the lists, [live] those that
    are in use. *)
Record heap_rep h F live : Prop := {
  hr_length : List.length F = 5%nat;
  hr_range : 0 < lo <= heap_end h /\ heap_end h + MMU_PAGE_SIZE < 2 ^ 32 /\ heap_end h mod 4 = 0;
  hr_listed i l : zget F i = Some l -> listed h i l;
  hr_ok : Forall (block_ok lo (heap_end h)) (mjoin F ++ live);
  hr_sep : pairwise sep (mjoin F ++ live);
  hr_apart l : zget F NRQUICKLISTS = Some l -> pairwise apart l;
  hr_live : Forall (fun b => kmem h !! b.1 = Some b.2) live;
  hr_mapped a : lo <= a < page_up (heap_end h) -> a mod 4 = 0 -> is_Some (kmem h !! a);
}.

(** The words of the blocks [live] are the same. *)
Definition kept live h h' : Prop :=
  forall x a, x ∈ live -> x.1 <= a < bend x -> kmem h' !! a = kmem h !! a.

Lemma upd_block hi T (m m' : gmap Z Z) x a : upd T.*1 m m' -> Forall (block_ok lo hi) T -> block_ok lo hi x ->
  Forall (sep x) T -> x.1 <= a < bend x -> m' !! a = m !! a.
Proof.
  intros [Hu _] HT Hx Hs Ha. apply Hu. intros t Ht. apply list_elem_of_fmap in Ht as (b & -> & Hb).
  rewrite Forall_forall in HT, Hs. specialize (HT b Hb). specialize (Hs b Hb).
  unfold block_ok, sep, bend, HEADER in *. lia.
Qed.

(** List [i] changes from [l] to [l'] and the blocks in use from [live] to
    [live'], by changes to headers of the blocks [T]. *)
Lemma rep_change h h' F live i l l' live' T : heap_rep h F live -> zget F i = Some l ->
  listed h' i l' -> same_rest i h h' -> upd T.*1 (kmem h) (kmem h') -> Forall (block_ok lo (heap_end h)) T ->
  Forall (fun b => Forall (sep b) T) (others F i) ->
  Forall (block_ok lo (heap_end h)) (l' ++ live') -> pairwise sep (l' ++ others F i ++ live') ->
  (i = NRQUICKLISTS -> pairwise apart l') -> Forall (fun b => kmem h' !! b.1 = Some b.2) live' ->
  heap_rep h' (zset F i l') live'.
Proof.
  intros Hr Hl Hl' (Hu1 & He & Hm & Hlen & Hsame) Hupd HT HsT Hok Hsep Hap Hlive.
  pose proof (zget_lt_Some _ _ _ Hl) as Hi. split.
  - rewrite length_zset. apply Hr.
  - rewrite He. apply Hr.
  - intros j k Hj. rewrite zget_zset in Hj by lia. case_decide as E; [by simplify_eq|].
    destruct (hr_listed _ _ _ Hr j k Hj) as [Hf Hch]. split; [by rewrite Hsame by lia|].
    pose proof (hr_ok _ _ _ Hr) as [Hokc _]%Forall_app. rewrite (mjoin_others _ _ _ Hl) in Hokc. apply Forall_app in Hokc as [_ Hoko].
    rewrite Forall_forall in HsT, Hoko. eapply (sep_chain lo (heap_end h)); [exact Hupd|done|apply Forall_forall..|exact Hch];
      intros x Hx; [apply Hoko|apply HsT]; eapply elem_others; (done || lia).
  - rewrite He. rewrite (mjoin_zset _ _ _ _ Hl), <- app_assoc. apply Forall_app in Hok as [? ?]. rewrite !Forall_app. split_and!; try done.
    pose proof (hr_ok _ _ _ Hr) as [Hokc _]%Forall_app. rewrite (mjoin_others _ _ _ Hl) in Hokc. by apply Forall_app in Hokc as [_ ?].
  - by rewrite (mjoin_zset _ _ _ _ Hl), <- app_assoc.
  - intros k Hk. rewrite zget_zset in Hk by lia. case_decide as E; [simplify_eq; auto|]. by apply (hr_apart _ _ _ Hr).
  - done.
  - intros a Ha Ha4. eapply upd_mapped; [exact Hupd|]. rewrite He in Ha. by apply (hr_mapped _ _ _ Hr).
Qed.

(** There is a bound for the number of the blocks. *)
Lemma block_count hi L : 0 <= lo -> Forall (block_ok lo hi) L -> pairwise sep L -> 4 * Z.of_nat (List.length L) <= Z.max 0 (hi - lo).
Proof.
  intros Hlo Hok Hsep. set (A := (fun b : block => b.1 / 4) <$> L).
  assert (NoDup A) as HA.
  { unfold A. clear -Hok Hsep. induction L as [|b L IH]; [constructor|]. apply Forall_cons in Hok as [Hb Hok]. destruct Hsep as [Hs Hsep].
    cbn. constructor; [|auto]. intros (c & E & Hc)%list_elem_of_fmap. rewrite Forall_forall in Hs, Hok.
    specialize (Hs c Hc). specialize (Hok c Hc). unfold sep, block_ok, bend, HEADER in *. mod_lia. }
  assert (List.length A <= List.length (seqZ ((lo + 3) / 4) (hi / 4 - (lo + 3) / 4)))%nat as Hle.
  { apply submseteq_length, NoDup_submseteq; [done|]. intros x (b & -> & Hb)%list_elem_of_fmap. rewrite Forall_forall in Hok.
    specialize (Hok b Hb). apply elem_of_seqZ. unfold block_ok, bend, HEADER in *. mod_lia. }
  unfold A in Hle. rewrite length_fmap, length_seqZ in Hle. mod_lia.
Qed.
End heap.

(** * Freeing a block *)

Lemma quick_list_range n : 0 <= quick_list n <= NRQUICKLISTS /\
  (quick_list n < NRQUICKLISTS -> n <= Z.shiftl 8 (quick_list n)) /\ (quick_list n = NRQUICKLISTS -> 64 < n).
Proof.
  unfold quick_list, NRQUICKLISTS. cbn [find_from]. change (Z.shiftl 8 0) with 8. change (Z.shiftl 8 (0 + 1)) with 16.
  change (Z.shiftl 8 (0 + 1 + 1)) with 32. change (Z.shiftl 8 (0 + 1 + 1 + 1)) with 64.
  repeat match goal with |- context [if ?x <=? ?y then _ else _] => destruct (Z.leb_spec x y); cbn - [Z.shiftl Z.add] in * end;
    repeat split; intros; try (change (Z.shiftl 8 0) with 8; lia); try (change (Z.shiftl 8 (0 + 1)) with 16; lia);
    try (change (Z.shiftl 8 (0 + 1 + 1)) with 32; lia); try (change (Z.shiftl 8 (0 + 1 + 1 + 1)) with 64; lia); lia.
Qed.

Lemma page_up_ge x : x <= page_up x < x + MMU_PAGE_SIZE /\ page_up x mod MMU_PAGE_SIZE = 0.
Proof. unfold page_up, MMU_PAGE_SIZE. split; [mod_lia|apply Z.mod_mul; lia]. Qed.

Section operations.
Context {W : Type} `{UserMmu W} (lo : Z).
Implicit Types (h : Heap W) (F : list (list block)) (live : list block).

Lemma rep_block h F live b : heap_rep lo h F (b :: live) ->
  block_ok lo (heap_end h) b /\ kmem h !! b.1 = Some b.2 /\ is_Some (kmem h !! (b.1 + 4)) /\
  Forall (sep b) (mjoin F) /\ Forall (sep b) live.
Proof.
  intros Hr. pose proof (hr_ok _ _ _ _ Hr) as [_ [Hb _]%Forall_cons]%Forall_app.
  pose proof (hr_live _ _ _ _ Hr) as [Hw _]%Forall_cons. pose proof (hr_sep _ _ _ _ Hr) as Hs.
  split; [done|]. split; [done|]. split.
  - apply (hr_mapped _ _ _ _ Hr); unfold block_ok, bend, HEADER in *; [|mod_lia]. pose proof (page_up_ge (heap_end h)). lia.
  - rewrite <- Permutation_middle in Hs by apply _. destruct Hs as [Hs _]. by apply Forall_app in Hs.
Qed.

Lemma rep_list h F live i : heap_rep lo h F live -> 0 <= i <= NRQUICKLISTS -> exists l, zget F i = Some l /\ listed h i l.
Proof.
  intros Hr Hi. destruct (zget_in_range F i) as [l Hl].
  - rewrite (hr_length _ _ _ _ Hr). unfold NRQUICKLISTS in Hi. lia.
  - exists l. split; [done|]. by apply (hr_listed _ _ _ _ Hr).
Qed.

Lemma Forall_pair_sym (P : block -> block -> Prop) l k : Symmetric P -> Forall (fun x => Forall (P x) k) l -> Forall (fun y => Forall (P y) l) k.
Proof.
  intros HP Hl. rewrite Forall_forall in Hl. apply Forall_forall. intros y Hy. apply Forall_forall. intros x Hx.
  specialize (Hl x Hx). rewrite Forall_forall in Hl. symmetry. auto.
Qed.

(** Freeing into list [i]: what the changes of the lists must satisfy. *)
Lemma rep_free h h' F live b i l l' T : heap_rep lo h F (b :: live) -> zget F i = Some l ->
  listed h' i l' -> Forall (block_ok lo (heap_end h)) l' -> pairwise sep l' -> (i = NRQUICKLISTS -> pairwise apart l') ->
  within (b :: l) l' -> Forall (block_ok lo (heap_end h)) T -> within (b :: l) T ->
  upd T.*1 (kmem h) (kmem h') -> same_rest i h h' ->
  heap_rep lo h' (zset F i l') live /\ kept live h h'.
Proof.
  intros Hr Hl Hl' Hok' Hsep' Hap Hw HokT HwT Hu Hsame. destruct (rep_block _ _ _ _ Hr) as (Hb & _ & _ & HbF & Hbl).
  pose proof (hr_ok _ _ _ _ Hr) as Hok. pose proof (hr_sep _ _ _ _ Hr) as Hsep.
  rewrite (mjoin_others _ _ _ Hl) in Hok, Hsep, HbF.
  apply Forall_app in Hok as [[Hokl Hoko]%Forall_app [_ Hoklive]%Forall_cons].
  apply pairwise_app in Hsep as ((_ & Hso & Hslo)%pairwise_app & [_ Hslive] & Hsx).
  apply Forall_app in HbF as [Hbl' Hbo]. apply Forall_app in Hsx as [Hslx Hsox].
  assert (Forall (fun x => Forall (sep x) (b :: l)) (others F i)) as Ho.
  { rewrite Forall_forall in Hslo, Hbo |- *. intros x Hx. constructor; [by symmetry; auto|].
    apply Forall_forall. intros y Hy. specialize (Hslo y Hy). rewrite Forall_forall in Hslo. symmetry. auto. }
  assert (Forall (fun x => Forall (sep x) (b :: l)) live) as Hlv.
  { rewrite Forall_forall in Hslx, Hbl |- *. intros x Hx. constructor; [by symmetry; auto|].
    apply Forall_forall. intros y Hy. specialize (Hslx y Hy). rewrite Forall_forall in Hslx. symmetry. apply Hslx. by right. }
  assert (forall k K, within (b :: l) K -> Forall (block_ok lo (heap_end h)) k -> Forall (fun x => Forall (sep x) (b :: l)) k ->
    Forall (fun x => Forall (sep x) K) k) as Hk.
  { intros k K HK Hk1 Hk2. rewrite Forall_forall in Hk1, Hk2. apply Forall_forall. intros x Hx.
    apply (HK x); [apply (Hk1 x Hx)|apply (Hk2 x Hx)]. }
  pose proof (Hk live T HwT Hoklive Hlv) as HlvT.
  assert (kept live h h') as Hkept.
  { intros x a Hx Ha. rewrite Forall_forall in Hoklive, HlvT.
    eapply (upd_block lo (heap_end h) T); [exact Hu|done|by apply Hoklive|by apply HlvT|done]. }
  split; [|done]. eapply rep_change; try done.
  - by apply Hk.
  - by apply Forall_app.
  - apply pairwise_app. split; [done|]. split; [apply pairwise_app; split; [done|]; split; [done|]|].
    + eapply Forall_impl; [exact Hsox|]. intros x Hx. by apply Forall_cons in Hx as [_ ?].
    + apply Forall_pair_sym; [apply _|]. apply Forall_app. split; by apply Hk.
  - pose proof (hr_live _ _ _ _ Hr) as [_ Hlw]%Forall_cons. rewrite Forall_forall in Hlw, Hoklive |- *. intros x Hx.
    rewrite (Hkept x x.1 Hx); [auto|]. specialize (Hoklive x Hx). unfold block_ok, bend, HEADER in *. lia.
Qed.

Lemma kfree_eq fuel h F live b : heap_rep lo h F (b :: live) -> heap_end h - lo + 6 <= 2 * Z.of_nat fuel ->
  exists h' F' i l c, kfree fuel (b.1 + HEADER) h = Ret (tt, h') /\ heap_rep lo h' F' live /\ kept live h h' /\
    same_rest i h h' /\ i = quick_list b.2 /\ zget F' i = Some l /\ c ∈ l /\ c.1 <= b.1 /\ bend b <= bend c.
Proof.
  intros Hr Hf. destruct (rep_block _ _ _ _ Hr) as (Hb & Hb0 & Hb4 & HbF & Hbl).
  destruct (quick_list_range b.2) as (Hq & _). destruct (rep_list _ _ _ _ Hr Hq) as (l & Hl & Hll). set (i := quick_list b.2) in *.
  pose proof (hr_ok _ _ _ _ Hr) as [Hok _]%Forall_app. pose proof (hr_sep _ _ _ _ Hr) as [Hsep _]%pairwise_app.
  rewrite (mjoin_others _ _ _ Hl) in Hok, Hsep, HbF. apply Forall_app in Hok as [Hokl _].
  apply pairwise_app in Hsep as [Hsl _]. apply Forall_app in HbF as [Hbl' _]. destruct (hr_range _ _ _ _ Hr) as ([Hlo Hle] & Hhi & _).
  assert (0 < heap_end h) by (destruct (hr_range _ _ _ _ Hr); lia).
  unfold kfree. destruct (Z.eqb_spec (b.1 + HEADER) 0); [unfold block_ok, HEADER in *; lia|].
  assert (u32 (b.1 + HEADER - HEADER) = b.1) as ->.
  { unfold block_ok, bend, HEADER, MMU_PAGE_SIZE in *. rewrite u32_small; lia. }
  rewrite (bind_Ret _ _ _ _ _ (kload_eq _ _ _ Hb0)). cbv zeta. fold i.
  assert (Forall (block_ok lo (heap_end h)) (b :: l)) as Hokbl by by apply Forall_cons.
  unfold MMU_PAGE_SIZE in Hhi. destruct (Z.ltb_spec i NRQUICKLISTS) as [Hi|Hi].
  - destruct (push_free_eq lo (heap_end h) Hlo ltac:(lia) h i b.1 b.2 l) as (h' & Hp & Hl' & Hu & Hsame);
      [by destruct b|by destruct b|done..|].
    replace (b.1, b.2) with b in Hl' by by destruct b.
    destruct (rep_free h h' F live b i l (b :: l) (b :: l)) as [Hr' Hk]; try done; [lia|by intros x|by intros x|..].
    { eapply upd_mono; [|exact Hu]. cbn. set_solver. }
    exists h', (zset F i (b :: l)), i, (b :: l), b. split; [done|]. do 4 (split; [done|]).
    split; [apply zget_zset_eq; by eapply zget_lt_Some|]. split; [by left|lia].
  - assert (i = NRQUICKLISTS) as Ei by lia. rewrite Ei in *.
    pose proof (block_count lo (heap_end h) l ltac:(lia) Hokl Hsl) as Hcount.
    destruct (kfree_general lo (heap_end h) Hlo ltac:(lia) h b l fuel) as (h' & l' & Hrun & [Hl' Hok' Hap' Hw (c & Hc1 & Hc2) Hu Hsame Hlen]);
      try done; [by apply (hr_apart _ _ _ _ Hr)|lia|].
    destruct (rep_free h h' F live b 4 l l' (b :: l)) as [Hr' Hk]; try done; [by apply apart_sep|by intros x|].
    exists h', (zset F 4 l'), 4, l', c. do 5 (split; [done|]).
    split; [apply zget_zset_eq; by eapply zget_lt_Some|done].
Qed.
End operations.

(** * Taking a block *)

Lemma ALIGN_eq x : 0 <= x -> x + 3 < 2 ^ 32 -> ALIGN x = (x + 3) / 4 * 4.
Proof.
  intros Hx Hx2. unfold ALIGN. rewrite u32_small by lia. cbv zeta.
  rewrite (Z.land_ones (x + 3) 2 ltac:(lia) : Z.land (x + 3) 3 = _). change (2 ^ 2) with 4. mod_lia.
Qed.
Lemma ALIGN_PAGE_eq x : 0 <= x -> x + MMU_PAGE_SIZE < 2 ^ 32 -> ALIGN_PAGE x = page_up x.
Proof.
  intros Hx Hx2. unfold ALIGN_PAGE, page_up. unfold MMU_PAGE_SIZE in *. rewrite u32_small by lia. cbv zeta.
  change MMU_PAGE_MASK with (Z.ones 12). rewrite Z.land_ones by lia. change (2 ^ 12) with 4096. mod_lia.
Qed.

Section taking.
Context {W : Type} `{UserMmu W} (lo hi : Z).
Hypothesis Hlo : 0 < lo.
Hypothesis Hhi : hi < 2 ^ 32.
Implicit Types (h : Heap W) (F : list (list block)) (live l : list block).
Abbreviation ok := (block_ok lo hi).

(** The search gives the first block that is large enough, or the end of the
    list. *)
Lemma find_block_from h i size l2 : forall l1 fuel, Forall ok (l1 ++ l2) -> listed h i (l1 ++ l2) -> (List.length l2 < fuel)%nat ->
  let run := loop fuel (place_after i l1) (fun iter =>
    let* it := deref iter in
    if it =? 0 then ret (inr iter) else
    let* isize := get_size it in
    ret (if isize <? size then inl (NextOf it) else inr iter)) h in
  (exists k1 b k2, l2 = k1 ++ b :: k2 /\ size <= b.2 /\ run = Ret (place_after i (l1 ++ k1), h)) \/
  (Forall (fun b => b.2 < size) l2 /\ run = Ret (place_after i (l1 ++ l2), h)).
Proof.
  induction l2 as [|b l2 IH]; intros l1 [|fuel] Hok Hl Hf; try (cbn in Hf; lia); cbv zeta.
  - right. split; [done|]. apply loop_done. rewrite app_nil_r in *. rewrite <- (app_nil_r l1) in Hok, Hl.
    by rewrite (bind_Ret _ _ _ _ _ (deref_place lo hi Hlo Hhi h i l1 [] Hok Hl)).
  - pose proof (deref_place lo hi Hlo Hhi h i l1 (b :: l2) Hok Hl) as Hd. cbn [first_or] in Hd.
    pose proof Hl as [_ Hc]. apply chain_app in Hc as [_ (Hb & _)]. pose proof Hok as [_ [Hokb _]%Forall_cons]%Forall_app.
    pose proof (ok_word lo hi Hlo Hhi b Hokb) as Hw.
    destruct (Z.ltb_spec b.2 size) as [Hlt|Hge].
    + erewrite loop_next; [|rewrite (bind_Ret _ _ _ _ _ Hd); destruct (Z.eqb_spec b.1 0); [lia|];
        rewrite (bind_Ret _ _ _ _ _ (kload_eq _ _ _ Hb)); rewrite (proj2 (Z.ltb_lt _ _)) by done; reflexivity].
      assert (NextOf b.1 = place_after i (l1 ++ [b])) as -> by (unfold place_after; by rewrite last_snoc).
      rewrite cons_middle, app_assoc in Hok, Hl. cbn in Hf.
      destruct (IH (l1 ++ [b]) fuel Hok Hl ltac:(lia)) as [(k1 & c & k2 & -> & Hs & Hrun)|[Hall Hrun]].
      * left. exists (b :: k1), c, k2. split; [done|]. split; [done|]. rewrite Hrun. by rewrite <- app_assoc.
      * right. split; [by constructor|]. rewrite Hrun. by rewrite <- app_assoc.
    + left. exists [], b, l2. split; [done|]. split; [done|]. rewrite app_nil_r. apply loop_done.
      rewrite (bind_Ret _ _ _ _ _ Hd). destruct (Z.eqb_spec b.1 0); [lia|].
      rewrite (bind_Ret _ _ _ _ _ (kload_eq _ _ _ Hb)). by rewrite (proj2 (Z.ltb_ge _ _)).
Qed.

(** Taking a block [b] out: what is given away, and what stays. *)
Record taken h h' (i : Z) (l1 : list block) (b : block) (l2 : list block) (size : Z) (b' : block) (r : list block) : Prop := {
  tk_listed : listed h' i (l1 ++ r ++ l2);
  tk_block : b'.1 = b.1 /\ size <= b'.2 /\ ok b' /\ bend b' <= bend b /\ kmem h' !! b'.1 = Some b'.2;
  tk_rest : r = [] \/ exists c, r = [c] /\ ok c /\ bend b' <= c.1 /\ bend c = bend b;
  tk_upd : upd (b :: r ++ l1).*1 (kmem h) (kmem h');
  tk_same : same_rest i h h';
}.

Lemma take_whole h i l1 b l2 size : Forall ok (l1 ++ b :: l2) -> pairwise sep (l1 ++ b :: l2) -> listed h i (l1 ++ b :: l2) ->
  size <= b.2 ->
  exists h', (let* next := get_next b.1 in assign (place_after i l1) next) h = Ret (tt, h') /\ taken h h' i l1 b l2 size b [].
Proof.
  intros Hok Hsep Hl Hs. pose proof Hok as [Hok1 [Hokb Hok2]%Forall_cons]%Forall_app. pose proof (ok_word lo hi Hlo Hhi b Hokb) as Hw.
  apply pairwise_app in Hsep as (Hs1 & [Hsb Hs2] & Hs12). pose proof Hl as [Hf Hc]. apply chain_app in Hc as [Hc1 (Hb & Hb4 & Hc2)].
  destruct (assign_place lo hi Hlo Hhi h i l1 (b :: l2) l2) as (h' & Ha & Hl' & Hu & Hsame); try done.
  - by apply Forall_app.
  - apply pairwise_app. split_and!; try done. eapply Forall_impl; [exact Hs12|]. by intros x [_ ?]%Forall_cons.
  - exists h'. split.
    + rewrite (bind_Ret _ _ _ _ _ (get_next_eq h b.1 _ ltac:(lia) ltac:(lia) Hb4)). done.
    + split; try done.
      * split; [done|]. split; [done|]. split; [done|]. split; [lia|]. destruct Hu as [Hu _]. rewrite Hu; [done|].
        intros t Ht. apply list_elem_of_fmap in Ht as (x & -> & Hx). rewrite Forall_forall in Hs12, Hok1.
        specialize (Hs12 x Hx). apply Forall_cons in Hs12 as [Hxb _].
        pose proof (sep_words lo hi x b (Hok1 x Hx) Hokb Hxb). lia.
      * by left.
      * eapply upd_mono; [|exact Hu]. cbn. set_solver.
Qed.

Lemma take_split h i l1 b l2 n : Forall ok (l1 ++ b :: l2) -> pairwise sep (l1 ++ b :: l2) -> listed h i (l1 ++ b :: l2) ->
  is_Some (kmem h !! (b.1 + HEADER + n)) -> is_Some (kmem h !! (b.1 + HEADER + n + 4)) ->
  0 < n -> n mod 4 = 0 -> n + HEADER < b.2 ->
  let c := (b.1 + HEADER + n, b.2 - (n + HEADER)) in
  exists h', (set_size c.1 c.2 ;; set_size b.1 n ;; let* next := get_next b.1 in set_next c.1 next ;;
              assign (place_after i l1) c.1) h = Ret (tt, h') /\
    forall size, size <= n -> taken h h' i l1 b l2 size (b.1, n) [c].
Proof.
  intros Hok Hsep Hl Hm1 Hm2 Hn Hn4 Hnb c.
  pose proof Hok as [Hok1 [Hokb Hok2]%Forall_cons]%Forall_app. pose proof (ok_word lo hi Hlo Hhi b Hokb) as Hw.
  apply pairwise_app in Hsep as (Hs1 & [Hsb Hs2] & Hs12). pose proof Hl as [Hf Hc]. apply chain_app in Hc as [Hc1 (Hb & Hb4 & Hc2)].
  assert (n + 8 < b.2) as Hnb8 by exact Hnb.
  assert (ok c /\ bend c = bend b) as [Hokc Hend] by (unfold c, block_ok, bend, HEADER in *; cbn; mod_lia).
  assert (c.1 = b.1 + 8 + n /\ 0 < c.2 < 2 ^ 32 /\ c.1 + 8 < 2 ^ 32) as (Ec & Hc2r & Hc1r) by (unfold c, bend, HEADER in *; cbn in *; lia).
  set (m1 := <[c.1 := c.2]> (kmem h)). set (m2 := <[b.1 := n]> m1). set (m3 := <[c.1 + 4 := first_or 0 l2]> m2).
  set (h3 := set_kmem m3 h).
  assert (upd [b; c].*1 (kmem h) m3) as Hu.
  { eapply upd_trans; [apply (upd_insert _ c.1 c.1); [set_solver|by left]|].
    eapply upd_trans; [apply (upd_insert _ b.1 b.1); [set_solver|by left]|]. apply (upd_insert _ c.1); [set_solver|by right]. }
  assert (forall x, sep b x -> ok x -> sep c x) as Hsc.
  { intros x. unfold sep, block_ok, c, bend, HEADER in *. cbn. lia. }
  assert (forall l q, Forall ok l -> Forall (fun x => sep b x) l -> chain_to (kmem h) l q -> chain_to m3 l q) as Hkeep.
  { intros l q Hokl Hsl. apply (sep_chain lo hi [b; c]); [exact Hu|by do 2 (apply Forall_cons; split; [done|])|done|].
    rewrite Forall_forall in Hsl, Hokl. apply Forall_forall. intros x Hx. apply Forall_cons. split; [by symmetry; auto|].
    apply Forall_singleton. symmetry. auto. }
  assert (Forall (sep b) l1) as Hs1b.
  { eapply Forall_impl; [exact Hs12|]. intros x [? _]%Forall_cons. by symmetry. }
  assert (is_Some (m2 !! (c.1 + 4))) as Hm4.
  { unfold m2, m1. rewrite !lookup_insert_ne by lia. rewrite Ec. done. }
  assert (0 <= first_or 0 l2 < 2 ^ 32) as Hr.
  { destruct l2 as [|x l2]; [done|]. apply Forall_cons in Hok2 as [Hx _]. apply (ok_word lo hi Hlo Hhi) in Hx. cbn. lia. }
  destruct (assign_place lo hi Hlo Hhi h3 i l1 ((b.1, n) :: l2) (c :: l2)) as (h' & Ha & Hl' & Hu' & Hsame).
  - apply Forall_app. split; [done|by apply Forall_cons].
  - apply pairwise_app. split; [done|]. split; [split; [|done]|].
    + rewrite Forall_forall in Hsb, Hok2 |- *. auto.
    + rewrite Forall_forall in Hs12, Hok1, Hs1b |- *. intros x Hx. specialize (Hs12 x Hx). apply Forall_cons in Hs12 as [_ ?].
      apply Forall_cons. split; [|done]. symmetry. auto.
  - split; [cbn [freelist h3 set_kmem]; rewrite Hf; by rewrite !first_or_app|]. apply chain_app. split; [by apply Hkeep|].
    cbn [chain_to fst snd kmem h3 set_kmem]. split_and!; [| |by apply Hkeep].
    + unfold m3, m2. rewrite lookup_insert_ne by lia. apply lookup_insert_eq.
    + unfold m3, m2, m1. by rewrite !lookup_insert_ne by lia.
  - cbn [chain_to fst snd kmem h3 set_kmem]. split_and!; [|apply lookup_insert_eq|by apply Hkeep].
    unfold m3, m2, m1. rewrite !lookup_insert_ne by lia. apply lookup_insert_eq.
  - exists h'. split.
    + unfold set_size. erewrite bind_Ret; [|apply kstore_eq; [by rewrite Ec|lia]].
      erewrite bind_Ret; [|apply kstore_eq; [|lia]]; [|cbn [kmem set_kmem]; rewrite lookup_insert_ne by lia; by eexists].
      erewrite bind_Ret; [|apply (get_next_eq _ b.1 (first_or 0 l2)); [lia..|]]; [|cbn [kmem set_kmem]; by rewrite !lookup_insert_ne by lia].
      erewrite bind_Ret; [|apply set_next_eq; [lia..|exact Hm4|done]]. exact Ha.
    + intros size Hsize. split; try done.
      * cbn [fst snd]. split; [done|]. split; [done|]. split; [unfold block_ok, bend, HEADER in *; cbn; lia|].
        split; [unfold bend, HEADER in *; cbn; lia|]. destruct Hu' as [Hu' _]. rewrite Hu'.
        -- cbn. unfold m3, m2. rewrite lookup_insert_ne by lia. apply lookup_insert_eq.
        -- intros t Ht. apply list_elem_of_fmap in Ht as (x & -> & Hx). rewrite Forall_forall in Hs1b, Hok1.
           pose proof (sep_words lo hi b x Hokb (Hok1 x Hx) (Hs1b x Hx)). lia.
      * right. exists c. split; [done|]. split; [done|]. split; [unfold c, bend; cbn; lia|done].
      * eapply upd_trans; (eapply upd_mono; [|eassumption]); cbn; set_solver.
Qed.

(** [take_block] on a block that is large enough. *)
Lemma take_block_eq h i l1 b l2 size : Forall ok (l1 ++ b :: l2) -> pairwise sep (l1 ++ b :: l2) -> listed h i (l1 ++ b :: l2) ->
  (forall a, b.1 <= a < bend b -> a mod 4 = 0 -> is_Some (kmem h !! a)) -> 0 < size <= b.2 ->
  exists h' b' r, take_block (place_after i l1) b.1 size h = Ret (tt, h') /\ taken h h' i l1 b l2 size b' r.
Proof.
  intros Hok Hsep Hl Hm Hs. pose proof Hok as [_ [Hokb _]%Forall_cons]%Forall_app. pose proof (ok_word lo hi Hlo Hhi b Hokb) as Hw.
  pose proof Hl as [_ (_ & Hb & _)%chain_app]. unfold take_block. rewrite (bind_Ret _ _ _ _ _ (kload_eq _ _ _ Hb)).
  assert (bend b < 2 ^ 32 /\ b.2 mod 4 = 0 /\ b.1 mod 4 = 0) as (He & H4 & H14) by (unfold block_ok in Hokb; lia). unfold bend, HEADER in He.
  rewrite !ALIGN_eq by lia. set (n := (size + 3) / 4 * 4). assert (size <= n <= b.2 /\ n mod 4 = 0) as [Hn Hn4].
  { unfold n. split; [mod_lia|apply Z.mod_mul; lia]. }
  assert ((b.2 + 3) / 4 * 4 = b.2) as -> by mod_lia. rewrite u32_small by (unfold HEADER; lia).
  destruct (Z.ltb_spec (n + HEADER) b.2) as [Hlt|Hge].
  - destruct (take_split h i l1 b l2 n) as (h' & Hrun & Ht); try done; [| |lia|].
    + apply Hm; unfold bend, HEADER in *; [lia|mod_lia].
    + apply Hm; unfold bend, HEADER in *; [lia|mod_lia].
    + exists h', (b.1, n), [(b.1 + HEADER + n, b.2 - (n + HEADER))]. split; [|apply Ht; lia].
      cbv zeta. rewrite u32_small by (unfold HEADER in *; lia). exact Hrun.
  - destruct (take_whole h i l1 b l2 size) as (h' & Hrun & Ht); try done; [lia|]. by exists h', b, [].
Qed.
End taking.

Section allocating.
Context {W : Type} `{UserMmu W} (lo : Z).
Implicit Types (h : Heap W) (F : list (list block)) (live l : list block).

(** What is separate from a block is separate from its parts. *)
Lemma taken_parts hi h h' i l1 b l2 size b' r x : taken lo hi h h' i l1 b l2 size b' r -> block_ok lo hi x ->
  sep x b -> sep x b' /\ Forall (sep x) r.
Proof.
  intros [_ (E & _ & Hok & He & _) Hr _ _] Hx Hs. split; [unfold sep, block_ok, bend, HEADER in *; lia|].
  destruct Hr as [->|(c & -> & Hc & Hc1 & Hc2)]; [done|]. apply Forall_singleton.
  unfold sep, block_ok, bend, HEADER in *. lia.
Qed.

Lemma rep_take h h' F live i l1 b l2 size b' r : heap_rep lo h F live -> zget F i = Some (l1 ++ b :: l2) ->
  taken lo (heap_end h) h h' i l1 b l2 size b' r ->
  heap_rep lo h' (zset F i (l1 ++ r ++ l2)) (b' :: live) /\ kept live h h'.
Proof.
  intros Hr Hl Ht. pose proof Ht as [Hl' (E & _ & Hokb' & He & Hw) Hrest Hu Hsame].
  pose proof (hr_ok _ _ _ _ Hr) as Hok. pose proof (hr_sep _ _ _ _ Hr) as Hsep.
  rewrite (mjoin_others _ _ _ Hl), <- app_assoc in Hok, Hsep.
  assert (l1 ++ b :: l2 ≡ₚ b :: l1 ++ l2) as Hp by solve_Permutation. rewrite Hp in Hok, Hsep. cbn [app] in Hok, Hsep.
  set (R := (l1 ++ l2) ++ others F i ++ live) in *. apply Forall_cons in Hok as [Hokb HokR]. destruct Hsep as [HbR HR].
  assert (Forall (fun x => sep x b' /\ Forall (sep x) r) R) as Hparts.
  { rewrite Forall_forall in HbR, HokR |- *. intros x Hx. eapply taken_parts; [done|auto|symmetry; auto]. }
  assert (forall k, Forall (fun x => sep x b' /\ Forall (sep x) r) k -> Forall (sep b') k /\ Forall (fun y => Forall (sep y) k) r) as Hk.
  { intros k Hk. apply Forall_and in Hk as [H1 H2]. split; [|by apply Forall_pair_sym; [apply _|]].
    eapply Forall_impl; [exact H1|]. intros x Hx. by symmetry. }
  assert (Forall (sep b') r /\ pairwise sep r /\ Forall (block_ok lo (heap_end h)) r) as (Hb'r & Hrr & Hokr).
  { destruct Hrest as [->|(c & -> & Hc & Hc1 & _)]; [done|]. split; [|split]; [|by repeat constructor|by apply Forall_singleton].
    apply Forall_singleton. by left. }
  assert (Forall (fun x => Forall (sep x) (b :: r ++ l1)) (others F i ++ live)) as HT.
  { apply Forall_forall. intros x Hx. unfold R in Hparts, HbR, HR. apply Forall_cons. split.
    - rewrite Forall_forall in HbR. symmetry. apply HbR. set_solver.
    - apply Forall_app. split; [rewrite Forall_forall in Hparts; apply Hparts; set_solver|].
      apply pairwise_app in HR as (_ & _ & Hx2). rewrite Forall_forall in Hx2. apply Forall_forall. intros y Hy.
      specialize (Hx2 y ltac:(set_solver)). rewrite Forall_forall in Hx2. symmetry. auto. }
  pose proof HokR as [[Hok1 Hok2]%Forall_app [Hoko Hoklive]%Forall_app]%Forall_app.
  assert (Forall (block_ok lo (heap_end h)) (b :: r ++ l1)) as HokT.
  { apply Forall_cons. split; [done|]. by apply Forall_app. }
  assert (kept live h h') as Hkept.
  { intros x a Hx Ha. rewrite Forall_forall in Hoklive, HT.
    eapply upd_block; [exact Hu|exact HokT|by apply Hoklive| |done]. apply HT. set_solver. }
  split; [|done]. eapply (rep_change lo h h' F live i (l1 ++ b :: l2) (l1 ++ r ++ l2)); [done..| | | | |].
  - by apply Forall_app in HT as [? _].
  - rewrite !Forall_app, Forall_cons. by split_and!.
  - assert ((l1 ++ r ++ l2) ++ others F i ++ b' :: live ≡ₚ b' :: r ++ R) as -> by (unfold R; solve_Permutation).
    destruct (Hk R Hparts) as [Hb'R HrR]. split; [by apply Forall_app|]. apply pairwise_app. done.
  - intros ->. pose proof (hr_apart _ _ _ _ Hr _ Hl) as Hap. rewrite Hp in Hap. destruct Hap as [Hapb Hap].
    assert (l1 ++ r ++ l2 ≡ₚ r ++ l1 ++ l2) as -> by solve_Permutation.
    destruct Hrest as [->|(c & -> & Hc & Hc1 & Hc2)]; [done|]. split; [|done]. eapply Forall_impl; [exact Hapb|].
    intros x. unfold apart, block_ok, bend, HEADER in *. lia.
  - apply Forall_cons. split; [done|]. pose proof (hr_live _ _ _ _ Hr) as Hlw. rewrite Forall_forall in Hlw, Hoklive |- *. intros x Hx.
    rewrite (Hkept x x.1 Hx); [auto|]. specialize (Hoklive x Hx). unfold block_ok, bend, HEADER in *. lia.
Qed.
End allocating.

(** * Growing the heap *)

(** What the heap needs of the MMU: [inv p n] says that from the address [p]
    on another [n] pages can be mapped. *)
Class HeapMmu (W : Type) `{UserMmu W} (inv : Z -> Z -> W -> Prop) : Prop :=
  heap_page_ok p n w : 0 < n -> 0 <= p -> p + n * MMU_PAGE_SIZE <= 2 ^ 32 -> p mod MMU_PAGE_SIZE = 0 -> inv p n w ->
    wp (mmu_alloc_at p true false) (fun f w' => f <> 0 /\ inv (p + MMU_PAGE_SIZE) (n - 1) w') w.

Lemma space_ok_fewer m R l k : k ⊆ l -> space_ok m R l -> space_ok m R k.
Proof. intros Hkl []. split; eauto. Qed.

(** The driver promises it for pages of the supervisor's space that are not
    mapped, with three free frames for each: one for the page, two for tables. *)
Definition free_pages (p n : Z) (s : Mmu040) : Prop :=
  exists l, level 0 s /\ free_list l s /\ 3 * n <= free_frames s /\ space_ok (mem s) (root_table_ph (srp s)) l /\
    forall v, p <= v < p + n * MMU_PAGE_SIZE -> translate (mem s) (root_table_ph (srp s)) v = None.

(** C5. The heap can stand on the driver: for a page of such a range
    [mmu040_alloc_at] gets a frame, and the range behind it stays usable. *)
Theorem mmu040_backs_heap : HeapMmu Mmu040 free_pages.
Proof.
  intros p n s Hn Hp Hlim Hp4 (l & Hk & Hl & Hf & Hok & Hnone). unfold MMU_PAGE_SIZE in Hlim, Hp4.
  assert (translate (mem s) (root_table_ph (srp s)) p = None) as Hold by (apply Hnone; unfold MMU_PAGE_SIZE; lia).
  destruct (alloc_at_eq 0 s p true false l) as (f & l' & s' & Ha & Hk' & Hsb & Hl' & Hok' & [_ Hf'] & _ & Hother & _ & _ & Hn');
    rewrite ?Hold; try done; [lia|lia|apply Hl|].
  eapply wp_eq; [exact Ha|]. split; [lia|]. exists l'. rewrite (sb_srp _ _ _ Hsb). split; [done|]. split; [done|]. split; [lia|].
  split; [apply (space_ok_fewer _ _ (f :: l')); [set_solver|done]|].
  intros v Hv. unfold MMU_PAGE_SIZE in Hv. rewrite Hother; [apply Hnone; unfold MMU_PAGE_SIZE; lia|lia|].
  unfold MMU_PAGE_SIZE. mod_lia.
Qed.

Lemma zero_words_in p (m : gmap Z Z) l i : i ∈ l -> foldr (fun i => insert (p + 4 * i) 0) m l !! (p + 4 * i) = Some 0.
Proof.
  intros Hi. induction l as [|j l IH]; [set_solver|]. cbn [foldr].
  destruct (decide (p + 4 * j = p + 4 * i)) as [->|Hne]; [apply lookup_insert_eq|]. rewrite lookup_insert_ne by done.
  apply IH. apply elem_of_cons in Hi as [->|]; done.
Qed.
Lemma zero_words_out p (m : gmap Z Z) l a : (forall i, i ∈ l -> a <> p + 4 * i) ->
  foldr (fun i => insert (p + 4 * i) 0) m l !! a = m !! a.
Proof.
  intros Ha. induction l as [|j l IH]; [done|]. cbn [foldr]. rewrite lookup_insert_ne; [apply IH; set_solver|].
  specialize (Ha j ltac:(set_solver)). lia.
Qed.
Lemma zero_page_in p m a : p mod MMU_PAGE_SIZE = 0 -> p <= a < p + MMU_PAGE_SIZE -> a mod 4 = 0 -> zero_page p m !! a = Some 0.
Proof.
  unfold MMU_PAGE_SIZE. intros Hp Ha H4. assert (a = p + 4 * ((a - p) / 4)) as -> by mod_lia.
  apply zero_words_in, elem_of_seqZ. mod_lia.
Qed.
Lemma zero_page_out p m a : ~ (p <= a < p + MMU_PAGE_SIZE) -> zero_page p m !! a = m !! a.
Proof. unfold MMU_PAGE_SIZE. intros Ha. apply zero_words_out. intros i Hi%elem_of_seqZ. lia. Qed.

Lemma chain_ext m m' l q : Forall (fun b => m' !! b.1 = m !! b.1 /\ m' !! (b.1 + 4) = m !! (b.1 + 4)) l ->
  chain_to m l q -> chain_to m' l q.
Proof.
  intros Hl. induction Hl as [|b l [H1 H2] Hl IH]; [done|]. cbn [chain_to]. rewrite H1, H2. tauto.
Qed.

Lemma page_up_add x G : G mod MMU_PAGE_SIZE = 0 -> page_up (x + G) = page_up x + G.
Proof. unfold page_up, MMU_PAGE_SIZE. intros HG. mod_lia. Qed.
Lemma page_up_mono x y : x <= y -> page_up x <= page_up y.
Proof. unfold page_up, MMU_PAGE_SIZE. intros. mod_lia. Qed.

Section growing.
Context {W : Type} `{UserMmu W} (inv : Z -> Z -> W -> Prop) `{!HeapMmu W inv} (lo : Z).
Implicit Types (h : Heap W) (F : list (list block)) (live l : list block).

(** Another [n] heap pages can be mapped. *)
Definition room (n : Z) h : Prop := inv (page_up (heap_end h)) n (hmmu h).

Lemma wp_map_page p n h (Q : unit -> Heap W -> Prop) : 0 < n -> 0 <= p -> p + n * MMU_PAGE_SIZE <= 2 ^ 32 ->
  p mod MMU_PAGE_SIZE = 0 -> inv p n (hmmu h) ->
  (forall w, inv (p + MMU_PAGE_SIZE) (n - 1) w -> Q tt (set_kmem (zero_page p (kmem h)) (set_hmmu w h))) ->
  wp (map_page p) Q h.
Proof.
  intros Hn Hp Hr Hp4 Hi HQ. unfold map_page. rewrite wp_bind, wp_zoom. eapply wp_mono; [by apply heap_page_ok|].
  intros f w [Hf Hw]. cbn beta. rewrite (proj2 (Z.eqb_neq f 0)) by done. rewrite wp_modify. by apply HQ.
Qed.

(** What [ksbrk] leaves. *)
Record grown h G n h' : Prop := {
  gr_freelist : freelist h' = freelist h;
  gr_used : malloc_used_mem h' = malloc_used_mem h;
  gr_end : heap_end h' = heap_end h + G;
  gr_words a : a < page_up (heap_end h) -> kmem h' !! a = kmem h !! a;
  gr_mapped a : page_up (heap_end h) <= a < page_up (heap_end h) + G -> a mod 4 = 0 -> is_Some (kmem h' !! a);
  gr_room : room (n - G / MMU_PAGE_SIZE) h';
}.

Lemma ksbrk_eq h G n : 0 < G < 2 ^ 31 -> G mod MMU_PAGE_SIZE = 0 -> 0 <= heap_end h -> heap_end h + G + MMU_PAGE_SIZE < 2 ^ 32 ->
  room n h -> G / MMU_PAGE_SIZE <= n -> page_up (heap_end h) + n * MMU_PAGE_SIZE <= 2 ^ 32 ->
  wp (ksbrk G) (fun r h' => r = heap_end h /\ grown h G n h') h.
Proof.
  intros HG HG4 He He2 Hroom Hn Hlim. unfold ksbrk. rewrite wp_bind, wp_gets, wp_bind. unfold MMU_PAGE_SIZE in HG4.
  rewrite (proj2 (Z.ltb_lt 0 G)) by lia. cbn [when]. rewrite (u32_small (heap_end h + G)) by (unfold MMU_PAGE_SIZE in *; lia).
  rewrite !ALIGN_PAGE_eq by (unfold MMU_PAGE_SIZE in *; lia). rewrite page_up_add by done.
  set (tmp := page_up (heap_end h)) in *. destruct (page_up_ge (heap_end h)) as [Ht Ht4]. fold tmp in Ht, Ht4.
  replace (tmp + G - tmp) with G by lia. rewrite (u32_small G) by lia. set (k := G / MMU_PAGE_SIZE) in *.
  assert (G = k * MMU_PAGE_SIZE) as EG by (unfold k, MMU_PAGE_SIZE; mod_lia).
  assert (0 < k) as Hk by (unfold MMU_PAGE_SIZE in EG; lia).
  apply (wp_for_to (fun i h1 => exists m w, h1 = set_kmem m (set_hmmu w h) /\ inv (tmp + i * MMU_PAGE_SIZE) (n - i) w /\
    (forall a, a < tmp -> m !! a = kmem h !! a) /\
    (forall a, tmp <= a < tmp + i * MMU_PAGE_SIZE -> a mod 4 = 0 -> is_Some (m !! a)))); [lia| | |].
  - exists (kmem h), (hmmu h). split; [by destruct h|]. rewrite Z.mul_0_l, Z.add_0_r, Z.sub_0_r. split; [done|]. split; [done|lia].
  - intros i h1 Hi (m & w & -> & Hw & Hm1 & Hm2). unfold MMU_PAGE_SIZE in Hlim, EG, Ht, He2, Ht4.
    rewrite u32_small by (unfold MMU_PAGE_SIZE; lia).
    apply (wp_map_page _ (n - i)); try (unfold MMU_PAGE_SIZE; lia); [unfold MMU_PAGE_SIZE; mod_lia|exact Hw|].
    intros w' Hw'. exists (zero_page (tmp + i * MMU_PAGE_SIZE) m), w'. split; [done|].
    split; [|split].
    + replace (tmp + (i + 1) * MMU_PAGE_SIZE) with (tmp + i * MMU_PAGE_SIZE + MMU_PAGE_SIZE) by lia.
      by replace (n - (i + 1)) with (n - i - 1) by lia.
    + intros a Ha. rewrite zero_page_out by (unfold MMU_PAGE_SIZE; lia). auto.
    + intros a Ha Ha4. destruct (decide (tmp + i * MMU_PAGE_SIZE <= a < tmp + i * MMU_PAGE_SIZE + MMU_PAGE_SIZE)) as [Hin|Hout].
      * rewrite zero_page_in; [by eexists| |done|done]. unfold MMU_PAGE_SIZE. mod_lia.
      * rewrite zero_page_out by done. apply Hm2; [lia|done].
  - intros h1 (m & w & -> & Hw & Hm1 & Hm2). rewrite wp_bind, wp_modify, wp_ret. split; [done|].
    assert (u32 (heap_end h + G) = heap_end h + G) as Eu by (apply u32_small; unfold MMU_PAGE_SIZE in *; lia).
    split; cbn; rewrite ?Eu; try done.
    + intros a Ha Ha4. apply Hm2; [lia|done].
    + unfold room. cbn. rewrite ?Eu, page_up_add by done. fold tmp. fold k. by rewrite EG.
Qed.

Lemma rep_words h F live b a : heap_rep lo h F live -> b ∈ mjoin F ++ live -> b.1 <= a < bend b ->
  lo <= a < heap_end h.
Proof.
  intros Hr Hb Ha. pose proof (hr_ok _ _ _ _ Hr) as Hok. rewrite Forall_forall in Hok. specialize (Hok b Hb).
  unfold block_ok in Hok. lia.
Qed.

(** The state after the heap has grown by a block. *)
Lemma rep_grown h h' F live G n : heap_rep lo h F live -> grown h G n h' ->
  HEADER < G -> G mod 4 = 0 -> G mod MMU_PAGE_SIZE = 0 -> heap_end h + G + MMU_PAGE_SIZE < 2 ^ 32 ->
  let b := (heap_end h, G - HEADER) in
  let h'' := set_kmem (<[heap_end h := G - HEADER]> (kmem h')) h' in
  heap_rep lo h'' F (b :: live) /\ kept live h h'' /\ is_Some (kmem h' !! heap_end h).
Proof.
  intros Hr [Hf _ He Hw Hm _] HG HG4 HGp Hlim b h''. destruct (hr_range _ _ _ _ Hr) as ([Hlo Hle] & Hhi & He4).
  destruct (page_up_ge (heap_end h)) as [Hpu Hpm].
  assert (forall a, a < heap_end h -> kmem h'' !! a = kmem h !! a) as Hsame.
  { intros a Ha. cbn. rewrite lookup_insert_ne by lia. apply Hw. lia. }
  assert (forall a, lo <= a < page_up (heap_end h + G) -> a mod 4 = 0 -> is_Some (kmem h' !! a)) as Hmap.
  { intros a Ha Ha4. rewrite page_up_add in Ha by done. destruct (Z.lt_ge_cases a (page_up (heap_end h))) as [Hlt|Hge].
    - rewrite Hw by done. apply (hr_mapped _ _ _ _ Hr); [lia|done].
    - apply Hm; [lia|done]. }
  assert (kept live h h'') as Hk.
  { intros x a Hx Ha. apply Hsame. eapply (rep_words h F live x); [done|apply elem_of_app; by right|done]. }
  split; [|split; [done|]].
  2: { apply Hmap; [|done]. rewrite page_up_add by done. unfold HEADER in HG. lia. }
  assert (forall x, block_ok lo (heap_end h) x -> block_ok lo (heap_end h'') x /\ sep b x) as Hold.
  { intros x. cbn. rewrite He. unfold block_ok, sep, b, bend, HEADER in *. cbn. lia. }
  pose proof (hr_ok _ _ _ _ Hr) as Hok. pose proof (hr_sep _ _ _ _ Hr) as Hsep.
  assert (mjoin F ++ b :: live ≡ₚ b :: mjoin F ++ live) as Hp by solve_Permutation.
  split.
  - apply Hr.
  - cbn. rewrite He. unfold HEADER in HG. split; [lia|]. split; [lia|]. mod_lia.
  - intros i l Hl. destruct (hr_listed _ _ _ _ Hr i l Hl) as [H1 H2]. split; [by cbn; rewrite Hf|].
    apply (chain_ext (kmem h)); [|done]. rewrite (mjoin_others _ _ _ Hl), <- app_assoc in Hok. apply Forall_app in Hok as [Hokl _].
    eapply Forall_impl; [exact Hokl|]. intros x Hx. unfold block_ok, bend, HEADER in Hx. split; apply Hsame; lia.
  - rewrite Hp. apply Forall_cons. split.
    + unfold block_ok, b, bend, HEADER in *. cbn. rewrite He. mod_lia.
    + eapply Forall_impl; [exact Hok|]. intros x Hx. by apply Hold.
  - rewrite Hp. split; [|done]. eapply Forall_impl; [exact Hok|]. intros x Hx. by apply Hold.
  - apply Hr.
  - apply Forall_cons. split; [apply lookup_insert_eq|]. pose proof (hr_live _ _ _ _ Hr) as Hlw.
    apply Forall_app in Hok as [_ Hokl]. rewrite Forall_forall in Hlw, Hokl |- *. intros x Hx. rewrite (Hk x x.1 Hx); [auto|].
    specialize (Hokl x Hx). unfold block_ok, bend, HEADER in *. lia.
  - intros a Ha Ha4. cbn in Ha |- *. rewrite He in Ha. destruct (decide (heap_end h = a)) as [->|]; [rewrite lookup_insert_eq; by eexists|].
    rewrite lookup_insert_ne by done. by apply Hmap.
Qed.

(** The space that a call of [getmore] takes. *)
Definition pages_for (size : Z) : Z := page_up (size + HEADER).

Lemma pages_for_ge size : 0 < size -> size + HEADER <= pages_for size /\ MMU_PAGE_SIZE <= pages_for size /\ pages_for size mod MMU_PAGE_SIZE = 0.
Proof.
  intros Hs. unfold pages_for. destruct (page_up_ge (size + HEADER)) as [? ?]. unfold MMU_PAGE_SIZE, HEADER in *.
  split; [lia|]. split; [mod_lia|done].
Qed.

Lemma getmore_eq h F live size n : heap_rep lo h F live -> 0 < size -> pages_for size < 2 ^ 31 ->
  heap_end h + pages_for size + MMU_PAGE_SIZE < 2 ^ 32 -> room n h -> pages_for size / MMU_PAGE_SIZE <= n ->
  page_up (heap_end h) + n * MMU_PAGE_SIZE <= 2 ^ 32 ->
  wp (getmore size) (fun r h' => r = heap_end h /\ heap_rep lo h' F ((r, pages_for size - HEADER) :: live) /\
    kept live h h' /\ heap_end h' = heap_end h + pages_for size /\ room (n - pages_for size / MMU_PAGE_SIZE) h') h.
Proof.
  intros Hr Hs HG Hlim Hroom Hn Hlim2. destruct (pages_for_ge size Hs) as (Hge & Hge2 & Hgm).
  destruct (hr_range _ _ _ _ Hr) as ([Hlo Hle] & Hhi & He4). unfold getmore. unfold HEADER in Hge.
  rewrite (u32_small (size + HEADER)) by (unfold HEADER; lia). rewrite ALIGN_PAGE_eq by (unfold HEADER, MMU_PAGE_SIZE in *; lia).
  fold (pages_for size). set (G := pages_for size) in *. rewrite s32_small by lia. cbv zeta. rewrite wp_bind, wp_modify, wp_bind.
  unfold MMU_PAGE_SIZE in Hge2.
  set (h1 := set_used _ h). assert (heap_rep lo h1 F live) as Hr1 by (destruct Hr; by split).
  eapply wp_mono; [apply (ksbrk_eq h1 G n); try done; cbn; lia|]. intros r h2 [-> Hg]. cbn [heap_end h1 set_used] in *.
  destruct (rep_grown h1 h2 F live G n Hr1 Hg) as (Hr2 & Hk & Hmap); [unfold HEADER; lia|unfold MMU_PAGE_SIZE in Hgm; mod_lia|done|done|].
  rewrite (proj2 (Z.eqb_neq _ _)) by (unfold MMU_PAGE_SIZE in *; lia). rewrite wp_bind.
  eapply wp_eq; [apply kstore_eq; [exact Hmap|unfold HEADER; lia]|]. rewrite wp_ret. split; [done|].
  split; [exact Hr2|]. split; [exact Hk|]. split; [exact (gr_end _ _ _ _ Hg)|]. pose proof (gr_room _ _ _ _ Hg) as Hroom2.
  exact Hroom2.
Qed.
End growing.

(** * Cutting a block into pieces *)

(** [k] blocks of size [n] from [hd] on. *)
Definition cuts (hd n : Z) (k : nat) : list block := (fun j => (hd + j * (n + HEADER), n)) <$> seqZ 0 (Z.of_nat k).

Lemma cuts_S hd n k : cuts hd n (S k) = cuts hd n k ++ [(hd + Z.of_nat k * (n + HEADER), n)].
Proof. unfold cuts. rewrite Nat2Z.inj_succ, <- Z.add_1_r, seqZ_app, fmap_app by lia. done. Qed.
Lemma elem_cuts hd n k c : c ∈ cuts hd n k <-> exists j, c = (hd + j * (n + HEADER), n) /\ 0 <= j < Z.of_nat k.
Proof. unfold cuts. rewrite list_elem_of_fmap. setoid_rewrite elem_of_seqZ. naive_solver lia. Qed.
Lemma first_cuts q hd n k : (0 < k)%nat -> first_or q (cuts hd n k) = hd.
Proof. intros Hk. unfold cuts. rewrite seqZ_cons by lia. cbn. lia. Qed.
Lemma cuts_aligned hd n j : hd mod 4 = 0 -> n mod 4 = 0 -> (hd + j * (n + HEADER)) mod 4 = 0.
Proof.
  intros Hhd Hn. assert (hd = hd / 4 * 4 /\ n = n / 4 * 4) as [E1 E2] by mod_lia. unfold HEADER.
  assert (hd + j * (n + 8) = (hd / 4 + j * (n / 4 + 2)) * 4) as -> by (rewrite E1, E2 at 1; lia). apply Z.mod_mul. lia.
Qed.
Lemma cuts_sep hd n k : 0 < n -> pairwise sep (cuts hd n k).
Proof.
  intros Hn. induction k as [|k IH]; [done|]. rewrite cuts_S. apply pairwise_app. split; [done|]. split; [done|].
  apply Forall_forall. intros c (j & -> & Hj)%elem_cuts. apply Forall_singleton. left. unfold bend, HEADER. cbn. nia.
Qed.

Section cutting.
Context {W : Type} `{UserMmu W}.
Implicit Types h : Heap W.

(** The place that the next turn fills: behind the last of [j] blocks. *)
Definition cut_tmp (hd n : Z) (j : nat) : option Z :=
  match j with O => None | S j' => Some (hd + Z.of_nat j' * (n + HEADER)) end.

Lemma cut_turn_eq h hd n j : 0 < hd -> 0 < n -> hd + (Z.of_nat j + 1) * (n + HEADER) < 2 ^ 32 ->
  (forall a, hd <= a < hd + (Z.of_nat j + 1) * (n + HEADER) -> a mod 4 = 0 -> is_Some (kmem h !! a)) ->
  hd mod 4 = 0 -> n mod 4 = 0 ->
  chain_to (kmem h) (cuts hd n j) (hd + Z.of_nat j * (n + HEADER)) ->
  exists m, cut_turn hd n (cut_tmp hd n j) h = Ret (cut_tmp hd n (S j), set_kmem m h) /\
    chain_to m (cuts hd n (S j)) (hd + Z.of_nat (S j) * (n + HEADER)) /\ upd (cuts hd n (S j)).*1 (kmem h) m.
Proof.
  intros Hhd Hn Hlim Hmap Hhd4 Hn4 Hch. unfold HEADER in *.
  rewrite Z.mul_add_distr_r, Z.mul_1_l in Hlim, Hmap. assert (0 <= Z.of_nat j * (n + 8)) as Hj by nia.
  set (cur := hd + Z.of_nat j * (n + 8)) in *. assert (0 < cur /\ cur + n + 8 < 2 ^ 32) as Hcur by (unfold cur; lia).
  assert ((match cut_tmp hd n j with None => ret hd | Some t => get_next t end) h = Ret (cur, h)) as Hget.
  { destruct j as [|j]; [unfold cur; cbn; by rewrite Z.add_0_r|]. cbn [cut_tmp]. rewrite cuts_S in Hch.
    apply chain_app in Hch as [_ (_ & Hnext & _)]. cbn [first_or fst] in Hnext. unfold HEADER in *.
    apply get_next_eq; [nia..|exact Hnext]. }
  pose proof (cuts_aligned hd n (Z.of_nat j) Hhd4 Hn4) as Hc4. unfold HEADER in Hc4. fold cur in Hc4.
  assert ((cur + 4) mod 4 = 0) as Hc44 by mod_lia.
  set (m1 := <[cur := n]> (kmem h)). set (m2 := <[cur + 4 := cur + n + 8]> m1). exists m2.
  assert (upd [cur] (kmem h) m2) as Hu.
  { eapply upd_trans; [apply (upd_insert _ cur cur); [by left|by left]|apply (upd_insert _ cur); [by left|by right]]. }
  split; [|split].
  - unfold cut_turn. rewrite (bind_Ret _ _ _ _ _ Hget). unfold set_size.
    erewrite bind_Ret; [|apply kstore_eq; [apply Hmap; [unfold cur; lia|done]|lia]].
    erewrite bind_Ret; [|apply set_next_eq; [lia..| |unfold HEADER; lia]]; [done|].
    cbn [kmem set_kmem]. rewrite lookup_insert_ne by lia. apply Hmap; [unfold cur; lia|done].
  - rewrite cuts_S. apply chain_app. split.
    + apply (chain_upd [cur] (kmem h)); [done| |done]. apply Forall_forall. intros c (i & -> & Hi)%elem_cuts.
      apply Forall_singleton. cbn. unfold cur, HEADER. nia.
    + cbn [chain_to fst snd]. unfold HEADER. fold cur. split_and!; [|unfold m2; rewrite lookup_insert_eq; f_equal; unfold cur; cbn [first_or]; lia|done].
      unfold m2, m1. rewrite lookup_insert_ne by lia. apply lookup_insert_eq.
  - eapply upd_mono; [|exact Hu]. rewrite cuts_S, fmap_app. cbn. unfold HEADER. fold cur. set_solver.
Qed.

Lemma cut_loop hd n : 0 < hd -> 0 < n -> hd mod 4 = 0 -> n mod 4 = 0 -> forall k j i h,
  hd + Z.of_nat (j + k) * (n + HEADER) < 2 ^ 32 ->
  (forall a, hd <= a < hd + Z.of_nat (j + k) * (n + HEADER) -> a mod 4 = 0 -> is_Some (kmem h !! a)) ->
  chain_to (kmem h) (cuts hd n j) (hd + Z.of_nat j * (n + HEADER)) ->
  exists m, for_acc k i (cut_tmp hd n j) (fun _ => cut_turn hd n) h = Ret (cut_tmp hd n (j + k), set_kmem m h) /\
    chain_to m (cuts hd n (j + k)) (hd + Z.of_nat (j + k) * (n + HEADER)) /\ upd (cuts hd n (j + k)).*1 (kmem h) m.
Proof.
  intros Hhd Hn Hhd4 Hn4 k. induction k as [|k IH]; intros j i h Hlim Hmap Hch.
  - rewrite Nat.add_0_r in *. exists (kmem h). split; [by destruct h|]. split; [done|apply upd_refl].
  - assert ((Z.of_nat j + 1) * (n + HEADER) <= Z.of_nat (j + S k) * (n + HEADER)) as Hle by (unfold HEADER; nia).
    destruct (cut_turn_eq h hd n j) as (m & Hturn & Hch' & Hu); try done; [lia|intros a Ha; apply Hmap; lia|].
    replace (j + S k)%nat with (S j + k)%nat in * by lia.
    destruct (IH (S j) (i + 1) (set_kmem m h)) as (m' & Hrun & Hch2 & Hu2); [done| |exact Hch'|].
    { intros a Ha Ha4. eapply upd_mapped; [exact Hu|by apply Hmap]. }
    exists m'. split; [cbn [for_acc]; by rewrite (bind_Ret _ _ _ _ _ Hturn)|]. split; [done|].
    eapply upd_trans; [eapply upd_mono; [|exact Hu]|exact Hu2].
    intros t (c & -> & (x & -> & Hx)%elem_cuts)%list_elem_of_fmap. apply list_elem_of_fmap. eexists. split; [|apply elem_cuts; exists x]; [done|].
    split; [done|lia].
Qed.

(** The pieces of a block, with [k] of them linked in front of a list. *)
Lemma link_cuts lo hi h m hd n k i l : 0 < lo -> hi < 2 ^ 32 ->
  listed h i l -> Forall (block_ok lo hi) (cuts hd n (S k) ++ l) -> pairwise sep (cuts hd n (S k) ++ l) ->
  chain_to m (cuts hd n (S k)) (hd + Z.of_nat (S k) * (n + HEADER)) -> upd (cuts hd n (S k)).*1 (kmem h) m ->
  exists h', (let* first := deref (Freelist i) in
      match cut_tmp hd n (S k) with
      | None => assign (Freelist i) first
      | Some t => set_next t first ;; assign (Freelist i) hd
      end) (set_kmem m h) = Ret (tt, h') /\
    listed h' i (cuts hd n (S k) ++ l) /\ upd (cuts hd n (S k)).*1 (kmem h) (kmem h') /\ same_rest i h h'.
Proof.
  intros Hlo Hhi Hl Hok Hsep Hch Hu. set (t := hd + Z.of_nat k * (n + HEADER)).
  pose proof Hok as [Hokc Hokl]%Forall_app. pose proof Hsep as (Hsc & Hsl & Hscl)%pairwise_app.
  assert (Forall (fun x => Forall (sep x) (cuts hd n (S k))) l) as Hslc by (apply Forall_pair_sym; [apply _|done]).
  assert ((t, n) ∈ cuts hd n (S k)) as Ht by (apply elem_cuts; exists (Z.of_nat k); split; [done|lia]).
  assert (block_ok lo hi (t, n)) as Hokt by (rewrite Forall_forall in Hokc; auto).
  pose proof (ok_word lo hi Hlo Hhi (t, n) Hokt) as Hw. cbn [fst snd] in Hw.
  assert (chain_to m l 0) as Hchl by (destruct Hl as [_ Hchl]; eapply sep_chain; [exact Hu|exact Hokc|exact Hokl|exact Hslc|exact Hchl]).
  assert (listed (set_kmem m h) i l) as Hl1 by (destruct Hl as [? _]; by split).
  rewrite cuts_S in Hch. apply chain_app in Hch as [Hch1 (Hct & Hct4 & _)]. fold t in Hch1, Hct, Hct4. cbn [fst snd first_or] in Hch1, Hct, Hct4.
  set (h2 := set_kmem (<[t + 4 := first_or 0 l]> m) (set_kmem m h)).
  assert (upd [t] m (kmem h2)) as Hu2 by (apply (upd_insert _ t); [by left|by right]).
  assert (Forall (fun x => sep x (t, n)) (cuts hd n k)) as Hst.
  { rewrite cuts_S in Hsc. apply pairwise_app in Hsc as (_ & _ & Hx). eapply Forall_impl; [exact Hx|]. by intros x Hx1%Forall_singleton_1. }
  assert (chain_to (kmem h2) (cuts hd n (S k)) (first_or 0 l)) as Hch2.
  { rewrite cuts_S. fold t. apply chain_app. split.
    - eapply (sep_chain lo hi [(t, n)]); [exact Hu2|by apply Forall_singleton| | |exact Hch1].
      + rewrite cuts_S in Hokc. by apply Forall_app in Hokc as [? _].
      + eapply Forall_impl; [exact Hst|]. intros x Hx. by apply Forall_singleton.
    - cbn [chain_to fst snd kmem h2 set_kmem]. split_and!; [|apply lookup_insert_eq|done]. by rewrite lookup_insert_ne by lia. }
  assert (chain_to (kmem h2) l 0) as Hchl2.
  { eapply (sep_chain lo hi [(t, n)]); [exact Hu2|by apply Forall_singleton|done| |exact Hchl].
    rewrite Forall_forall in Hslc. apply Forall_forall. intros x Hx. apply Forall_singleton. specialize (Hslc x Hx).
    rewrite Forall_forall in Hslc. auto. }
  destruct (assign_place lo hi Hlo Hhi h2 i [] l (cuts hd n (S k) ++ l)) as (h' & Ha & Hl' & Hu' & Hsame); [done|done| | |].
  - destruct Hl1 as [? _]. by split.
  - by apply chain_app.
  - exists h'. split; [|split; [done|split; [|done]]].
    + rewrite (bind_Ret _ _ _ _ _ (deref_place lo hi Hlo Hhi _ i [] l Hokl Hl1)). cbn [cut_tmp]. fold t.
      erewrite bind_Ret; [|apply set_next_eq; [lia..|by eexists|]].
      * rewrite first_or_app, first_cuts in Ha by lia. exact Ha.
      * destruct l as [|x l]; [done|]. apply Forall_cons in Hokl as [Hx _]. apply (ok_word lo hi Hlo Hhi) in Hx. cbn. lia.
    + eapply upd_trans; [exact Hu|]. eapply upd_trans; [|eapply upd_mono; [|exact Hu']; cbn; set_solver].
      eapply upd_mono; [|exact Hu2]. intros a ->%list_elem_of_singleton. apply list_elem_of_fmap. by exists (t, n).
Qed.
End cutting.

Section kmalloc.
Context {W : Type} `{UserMmu W} (lo : Z).
Implicit Types (h : Heap W) (F : list (list block)) (live l : list block).

(** The pieces of a block lie in it. *)
Lemma cuts_inside hi b n k : block_ok lo hi b -> 0 < n -> n mod 4 = 0 -> Z.of_nat k * (n + HEADER) <= b.2 + HEADER ->
  Forall (block_ok lo hi) (cuts b.1 n k) /\
  forall x l, 0 < x.2 -> Forall (sep x) (b :: l) -> Forall (sep x) (cuts b.1 n k).
Proof.
  intros Hb Hn Hn4 Hfit.
  assert (forall c, c ∈ cuts b.1 n k -> block_ok lo hi c /\ b.1 <= c.1 /\ bend c <= bend b) as Hcuts.
  { intros c (j & -> & Hj)%elem_cuts. pose proof (cuts_aligned b.1 n j ltac:(apply Hb) Hn4).
    assert (0 <= j * (n + HEADER) /\ (j + 1) * (n + HEADER) <= Z.of_nat k * (n + HEADER)) as [Hj0 Hj1] by (unfold HEADER; nia).
    unfold block_ok, bend, HEADER in *. cbn. lia. }
  split; [apply Forall_forall; intros c Hc; by apply Hcuts|].
  intros x l Hx [Hxb _]%Forall_cons. apply Forall_forall. intros c Hc. destruct (Hcuts c Hc) as (Hc1 & Hc2 & Hc3).
  unfold sep, block_ok, bend, HEADER in *. lia.
Qed.

Lemma cut_blocks_eq h F live b i l : heap_rep lo h F (b :: live) -> 0 <= i < NRQUICKLISTS -> zget F i = Some l ->
  64 <= b.2 -> b.2 + HEADER < 2 ^ 31 ->
  exists h' F' l' c, cut_blocks i b.1 h = Ret (tt, h') /\ heap_rep lo h' F' live /\ kept live h h' /\ same_rest i h h' /\
    zget F' i = Some l' /\ c ∈ l' /\ Z.shiftl 8 i <= c.2.
Proof.
  intros Hr Hi Hl Hb64 Hb31. destruct (rep_block lo h F live b Hr) as (Hokb & Hb & _ & HbF & Hbl).
  destruct (hr_range _ _ _ _ Hr) as ([Hlo Hle] & Hhi & He4). unfold MMU_PAGE_SIZE in Hhi.
  pose proof (hr_listed _ _ _ _ Hr i l Hl) as Hll.
  set (n := Z.shiftl 8 i). assert (0 < n <= 64 /\ n mod 4 = 0) as [Hn Hn4].
  { unfold n, NRQUICKLISTS in *. assert (i = 0 \/ i = 1 \/ i = 2 \/ i = 3) as [->|[->|[->| ->]]] by lia; by vm_compute. }
  unfold cut_blocks. rewrite (bind_Ret _ _ _ _ _ (kload_eq _ _ _ Hb)). cbv zeta. fold n.
  unfold HEADER in Hb31. pose proof (Hokb) as (Hb1 & Hb2 & Hb3 & Hb4 & Hb5). unfold bend, HEADER in Hb2.
  rewrite s32_small, u32_small by (unfold HEADER; lia). set (K := Z.to_nat ((b.2 + HEADER) / (n + HEADER))).
  assert (0 < (b.2 + HEADER) / (n + HEADER)) as Hk by (apply Z.div_str_pos; unfold HEADER; lia).
  assert (Z.of_nat K = (b.2 + HEADER) / (n + HEADER)) as Ek by (unfold K; lia).
  assert (Z.of_nat K * (n + HEADER) <= b.2 + HEADER) as Hfit.
  { rewrite Ek, Z.mul_comm. apply Z.mul_div_le. unfold HEADER. lia. }
  destruct K as [|k]; [lia|].
  destruct (cut_loop b.1 n ltac:(lia) ltac:(lia) Hb3 Hn4 (S k) 0 0 h) as (m & Hrun & Hch & Hu).
  { cbn [Nat.add]. unfold HEADER in *. lia. }
  { intros a Ha Ha4. cbn [Nat.add] in Ha. apply (hr_mapped _ _ _ _ Hr); [|done]. pose proof (page_up_ge (heap_end h)). unfold HEADER in *. lia. }
  { done. }
  cbn [Nat.add] in Hrun, Hch, Hu. rewrite (bind_Ret _ _ _ _ _ Hrun).
  destruct (cuts_inside (heap_end h) b n (S k) Hokb ltac:(lia) Hn4 Hfit) as [Hokc Hins].
  assert (within (b :: l) (cuts b.1 n (S k))) as Hwc by (intros x Hx Hxl; by eapply Hins).
  pose proof (hr_ok _ _ _ _ Hr) as [Hok _]%Forall_app. pose proof (hr_sep _ _ _ _ Hr) as [Hsep _]%pairwise_app.
  rewrite (mjoin_others _ _ _ Hl) in Hok, Hsep, HbF. apply Forall_app in Hok as [Hokl _].
  apply pairwise_app in Hsep as [Hsl _]. apply Forall_app in HbF as [Hbl' _].
  assert (within (b :: l) (cuts b.1 n (S k) ++ l)) as Hw.
  { intros x Hx Hxl. apply Forall_app. split; [by apply Hwc|]. by apply Forall_cons in Hxl as [_ ?]. }
  assert (pairwise sep (cuts b.1 n (S k) ++ l)) as Hsepc.
  { apply pairwise_app. split; [apply cuts_sep; lia|]. split; [done|]. apply Forall_pair_sym; [apply _|].
    rewrite Forall_forall in Hokl, Hbl'. apply Forall_forall. intros x Hx. apply (Hins x []); [apply (Hokl x Hx)|].
    apply Forall_singleton. symmetry. auto. }
  destruct (link_cuts lo (heap_end h) h m b.1 n k i l Hlo ltac:(lia) Hll) as (h' & Hlink & Hl' & Hu' & Hsame); try done.
  { by apply Forall_app. }
  destruct (rep_free lo h h' F live b i l (cuts b.1 n (S k) ++ l) (cuts b.1 n (S k))) as [Hr' Hk']; try done.
  { by apply Forall_app. } { unfold NRQUICKLISTS in *. lia. }
  exists h', (zset F i (cuts b.1 n (S k) ++ l)), (cuts b.1 n (S k) ++ l), (b.1, n).
  split; [exact Hlink|]. do 3 (split; [done|]). split; [apply zget_zset_eq; by eapply zget_lt_Some|].
  split; [|cbn; lia]. apply elem_of_app. left. apply elem_cuts. exists 0. split; [f_equal; lia|lia].
Qed.

(** A block [(p - 8, m)] has been given away. *)
Definition allocated h F live (size p : Z) h' : Prop :=
  exists F' m, heap_rep lo h' F' ((p - HEADER, m) :: live) /\ size <= m /\ kept live h h' /\
    heap_end h' = heap_end h /\ hmmu h' = hmmu h.

(** One turn: a block of the list, or nothing is changed and the list has no
    block that is large enough. *)
Lemma kmalloc_turn fuel h F live i l size : heap_rep lo h F live -> 0 <= i <= NRQUICKLISTS -> zget F i = Some l ->
  heap_end h - lo + 6 <= 2 * Z.of_nat fuel -> 0 < size ->
  (exists p h', kmalloc_step fuel i size tt h = Ret (inr p, h') /\ allocated h F live size p h') \/
  (Forall (fun b => b.2 < size) l /\ kmalloc_step fuel i size tt h =
    (let* header := getmore size in
     if header =? 0 then ret (inr 0) else
     if i <? NRQUICKLISTS then cut_blocks i header ;; ret (inl tt)
     else kfree fuel (u32 (header + HEADER)) ;; ret (inl tt)) h).
Proof.
  intros Hr Hi Hl Hf Hs. destruct (hr_range _ _ _ _ Hr) as ([Hlo Hle] & Hhi & He4). unfold MMU_PAGE_SIZE in Hhi.
  pose proof (hr_listed _ _ _ _ Hr i l Hl) as Hll.
  pose proof (hr_ok _ _ _ _ Hr) as [Hok _]%Forall_app. pose proof (hr_sep _ _ _ _ Hr) as [Hsep _]%pairwise_app.
  rewrite (mjoin_others _ _ _ Hl) in Hok, Hsep. apply Forall_app in Hok as [Hokl _]. apply pairwise_app in Hsep as [Hsl _].
  pose proof (block_count lo (heap_end h) l ltac:(lia) Hokl Hsl) as Hcount.
  unfold kmalloc_step, find_block.
  destruct (find_block_from lo (heap_end h) Hlo ltac:(lia) h i size l [] fuel Hokl Hll ltac:(lia)) as
    [(l1 & b & l2 & -> & Hb & Hrun)|[Hall Hrun]].
  - left. pose proof Hokl as [_ [Hokb _]%Forall_cons]%Forall_app. cbn [app] in Hrun.
    pose proof (deref_place lo (heap_end h) Hlo ltac:(lia) h i l1 (b :: l2) Hokl Hll) as Hd. cbn [first_or] in Hd.
    pose proof (ok_word lo (heap_end h) Hlo ltac:(lia) b Hokb) as Hw.
    destruct (take_block_eq lo (heap_end h) Hlo ltac:(lia) h i l1 b l2 size) as (h' & b' & r & Htake & Ht); try done.
    { intros a Ha Ha4. apply (hr_mapped _ _ _ _ Hr); [|done]. pose proof (page_up_ge (heap_end h)). unfold block_ok in Hokb. lia. }
    destruct (rep_take lo h h' F live i l1 b l2 size b' r Hr Hl Ht) as [Hr' Hk].
    destruct Ht as [_ (E & Hsz & _) _ _ (_ & He & Hm & _)].
    exists (b.1 + HEADER), h'. split.
    + rewrite (bind_Ret _ _ _ _ _ Hrun). rewrite (bind_Ret _ _ _ _ _ Hd). rewrite (proj2 (Z.eqb_neq b.1 0)) by lia. cbn [negb].
      rewrite (bind_Ret _ _ _ _ _ Htake). unfold ret. unfold HEADER. by rewrite u32_small by lia.
    + exists (zset F i (l1 ++ r ++ l2)), b'.2. rewrite Z.add_simpl_r, <- E. by destruct b'.
  - right. split; [done|]. cbn [app] in Hrun. rewrite (bind_Ret _ _ _ _ _ Hrun).
    rewrite <- (app_nil_r l) in Hokl, Hll.
    by rewrite (bind_Ret _ _ _ _ _ (deref_place lo (heap_end h) Hlo ltac:(lia) h i l [] Hokl Hll)).
Qed.

Context (inv : Z -> Z -> W -> Prop) `{!HeapMmu W inv}.

Lemma quick_size q : 0 <= q -> q < NRQUICKLISTS -> Z.shiftl 8 q <= 64.
Proof.
  unfold NRQUICKLISTS. intros H0 H4. assert (q = 0 \/ q = 1 \/ q = 2 \/ q = 3) as [->|[->|[->| ->]]] by lia; by vm_compute.
Qed.

(** The turn that gets more memory leaves a block that is large enough. *)
Lemma kmalloc_more fuel h F live n size : heap_rep lo h F live -> 0 < size -> pages_for size < 2 ^ 31 ->
  heap_end h + pages_for size + MMU_PAGE_SIZE < 2 ^ 32 -> room inv n h -> pages_for size / MMU_PAGE_SIZE <= n ->
  page_up (heap_end h) + n * MMU_PAGE_SIZE <= 2 ^ 32 -> heap_end h + pages_for size - lo + 6 <= 2 * Z.of_nat fuel ->
  wp (let* header := getmore size in
     if header =? 0 then ret (inr 0) else
     if quick_list size <? NRQUICKLISTS then cut_blocks (quick_list size) header ;; ret (inl tt)
     else kfree fuel (u32 (header + HEADER)) ;; ret (inl tt))
    (fun r h' => r = inl tt /\ exists F' l c, heap_rep lo h' F' live /\ kept live h h' /\
      heap_end h' = heap_end h + pages_for size /\ room inv (n - pages_for size / MMU_PAGE_SIZE) h' /\
      zget F' (quick_list size) = Some l /\ c ∈ l /\ size <= c.2) h.
Proof.
  intros Hr Hs HG Hlim Hroom Hn Hlim2 Hf. rewrite wp_bind. eapply wp_mono; [by apply (getmore_eq inv lo h F live size n)|].
  intros hd h1 (Ehd & Hr1 & Hk1 & He1 & Hroom1). destruct (pages_for_ge size Hs) as (Hge & Hge2 & _).
  destruct (hr_range _ _ _ _ Hr) as ([Hlo Hle] & Hhi & He4). unfold MMU_PAGE_SIZE in Hhi, Hge2. unfold HEADER in Hge.
  set (G := pages_for size) in *. set (b := (hd, G - HEADER)) in *.
  rewrite (proj2 (Z.eqb_neq hd 0)) by lia. destruct (quick_list_range size) as (Hq & Hq1 & Hq2).
  destruct (quick_list_range (G - HEADER)) as (Hg & Hg1 & Hg2).
  destruct (Z.ltb_spec (quick_list size) NRQUICKLISTS) as [Hi|Hi].
  - destruct (rep_list lo h1 F (b :: live) (quick_list size) Hr1 ltac:(lia)) as (l & Hl & _).
    destruct (cut_blocks_eq h1 F live b (quick_list size) l Hr1 ltac:(lia) Hl) as
      (h2 & F2 & l2 & c & Hcut & Hr2 & Hk2 & (_ & He2 & Hm2 & _) & Hl2 & Hc & Hcs); [unfold b, HEADER; cbn; lia..|].
    cbn [fst b] in Hcut. rewrite wp_bind. eapply wp_eq; [exact Hcut|]. rewrite wp_ret. split; [done|].
    exists F2, l2, c. split; [done|]. split; [intros x a Hx Ha; rewrite (Hk2 x) by done; by apply (Hk1 x)|].
    split; [by rewrite He2|]. split; [unfold room in *; by rewrite He2, Hm2|]. split; [done|]. split; [done|]. specialize (Hq1 Hi). lia.
  - destruct (kfree_eq lo fuel h1 F live b Hr1 ltac:(lia)) as (h2 & F2 & i & l2 & c & Hfree & Hr2 & Hk2 & (_ & He2 & Hm2 & _) & Ei & Hl2 & Hc & Hc1 & Hc2).
    assert (quick_list size = NRQUICKLISTS) as Eq by lia. specialize (Hq2 Eq). cbn [b snd] in Ei.
    assert (i = quick_list size) as ->.
    { rewrite Ei, Eq. destruct (Z.lt_ge_cases (quick_list (G - HEADER)) NRQUICKLISTS) as [Hlt|]; [|lia]. specialize (Hg1 Hlt).
      pose proof (quick_size _ (proj1 Hg) Hlt). unfold HEADER in *. lia. }
    rewrite wp_bind. eapply wp_eq; [rewrite u32_small by (unfold HEADER; lia); exact Hfree|]. rewrite wp_ret. split; [done|].
    exists F2, l2, c. split; [done|]. split; [intros x a Hx Ha; rewrite (Hk2 x) by done; by apply (Hk1 x)|].
    split; [by rewrite He2|]. split; [unfold room in *; by rewrite He2, Hm2|]. split; [done|]. split; [done|].
    unfold bend, b, HEADER in *. cbn in *. lia.
Qed.

Lemma kmalloc_eq fuel h F live n size : heap_rep lo h F live -> 0 < size -> pages_for size < 2 ^ 31 ->
  heap_end h + pages_for size + MMU_PAGE_SIZE < 2 ^ 32 -> room inv n h -> pages_for size / MMU_PAGE_SIZE <= n ->
  page_up (heap_end h) + n * MMU_PAGE_SIZE <= 2 ^ 32 -> heap_end h + pages_for size - lo + 6 <= 2 * Z.of_nat fuel ->
  wp (kmalloc fuel size) (fun p h' => exists F' m n', heap_rep lo h' F' ((p - HEADER, m) :: live) /\ size <= m /\
      kept live h h' /\ room inv n' h' /\
      (heap_end h' = heap_end h /\ n' = n \/
       heap_end h' = heap_end h + pages_for size /\ n' = n - pages_for size / MMU_PAGE_SIZE)) h.
Proof.
  intros Hr Hs HG Hlim Hroom Hn Hlim2 Hf. destruct (pages_for_ge size Hs) as (Hge & Hge2 & _). unfold MMU_PAGE_SIZE in Hge2.
  destruct (hr_range _ _ _ _ Hr) as ([Hlo Hle] & _ & _).
  unfold kmalloc. rewrite (proj2 (Z.eqb_neq size 0)) by lia. destruct fuel as [|[|f]]; [lia..|].
  destruct (quick_list_range size) as (Hq & _). destruct (rep_list lo h F live _ Hr Hq) as (l & Hl & _).
  destruct (kmalloc_turn (S (S f)) h F live _ l size Hr Hq Hl ltac:(lia) Hs) as [(p & h' & Hstep & Ha)|[_ Hstep]].
  - eapply wp_eq; [apply loop_done; exact Hstep|].
    destruct Ha as (F' & m & Hr' & Hm & Hk & He & Hmm). exists F', m, n. do 3 (split; [done|]).
    split; [unfold room in *; by rewrite He, Hmm|by left].
  - rewrite loop_unfold, wp_bind. unfold wp at 1. rewrite Hstep.
    eapply wp_mono; [by apply (kmalloc_more (S (S f)) h F live n size)|].
    intros r h1 (-> & F1 & l1 & c & Hr1 & Hk1 & He1 & Hroom1 & Hl1 & Hc & Hcs).
    destruct (kmalloc_turn (S (S f)) h1 F1 live _ l1 size Hr1 Hq Hl1 ltac:(lia) Hs) as [(p & h' & Hstep' & Ha)|[Hall _]].
    2: { rewrite Forall_forall in Hall. specialize (Hall c Hc). cbn in Hall. lia. }
    eapply wp_eq; [apply loop_done; exact Hstep'|].
    destruct Ha as (F' & m & Hr' & Hm & Hk & He & Hmm). exists F', m, (n - pages_for size / MMU_PAGE_SIZE). split; [done|]. split; [done|].
    split; [intros x a Hx Hxa; rewrite (Hk x) by done; by apply (Hk1 x)|].
    split; [unfold room in *; by rewrite He, Hmm|]. right. by rewrite He.
Qed.

(** C2. Allocation: given the memory that one call of [getmore] takes,
    [kmalloc] returns an aligned pointer to a block of at least the wanted size
    that lies in the heap and has no byte in common with any block in use or in
    a list; every word of the blocks in use is unchanged, and the heap is again
    well-formed, with the new block in use. *)
Theorem kmalloc_correct fuel h F live n size : heap_rep lo h F live -> 0 < size -> pages_for size < 2 ^ 31 ->
  heap_end h + pages_for size + MMU_PAGE_SIZE < 2 ^ 32 -> room inv n h -> pages_for size / MMU_PAGE_SIZE <= n ->
  page_up (heap_end h) + n * MMU_PAGE_SIZE <= 2 ^ 32 -> heap_end h + pages_for size - lo + 6 <= 2 * Z.of_nat fuel ->
  wp (kmalloc fuel size) (fun p h' => p mod 4 = 0 /\ lo < p /\ p + size <= heap_end h' /\ kept live h h' /\
    exists F' m, heap_rep lo h' F' ((p - HEADER, m) :: live) /\ size <= m /\
      Forall (sep (p - HEADER, m)) (mjoin F' ++ live)) h.
Proof.
  intros Hr Hs HG Hlim Hroom Hn Hlim2 Hf. eapply wp_mono; [by apply (kmalloc_eq fuel h F live n size)|].
  intros p h' (F' & m & n' & Hr' & Hm & Hk & _). destruct (rep_block lo h' F' live _ Hr') as ((H1 & H2 & H3 & _) & _ & _ & H4 & H5).
  unfold bend, HEADER in H1, H2, H3. cbn in H1, H2, H3. split; [mod_lia|]. split; [lia|]. split; [lia|]. split; [done|].
  exists F', m. split; [done|]. split; [done|]. by apply Forall_app.
Qed.

(** C3. Freeing: a block in use, whichever it is, goes back to the lists; the
    other blocks in use keep every word, and the heap is again well-formed
    without the block. *)
Theorem kfree_correct fuel h F live b : heap_rep lo h F (b :: live) -> heap_end h - lo + 6 <= 2 * Z.of_nat fuel ->
  wp (kfree fuel (b.1 + HEADER)) (fun _ h' => (exists F', heap_rep lo h' F' live) /\ kept live h h' /\
    heap_end h' = heap_end h /\ hmmu h' = hmmu h) h.
Proof.
  intros Hr Hf. destruct (kfree_eq lo fuel h F live b Hr Hf) as (h' & F' & i & l & c & Hrun & Hr' & Hk & (_ & He & Hm & _) & _).
  eapply wp_eq; [exact Hrun|]. split; [by exists F'|]. done.
Qed.
End kmalloc.

(** * Using a block *)

Section storing.
Context {W : Type} `{UserMmu W} (lo : Z).

Lemma block_mapped (h : Heap W) F live b a : heap_rep lo h F live -> b ∈ live -> b.1 + HEADER <= a < bend b -> a mod 4 = 0 ->
  is_Some (kmem h !! a).
Proof.
  intros Hr Hb Ha Ha4. apply (hr_mapped _ _ _ _ Hr); [|done]. pose proof (page_up_ge (heap_end h)) as [[Hpu _] _].
  pose proof (hr_ok _ _ _ _ Hr) as [_ Hok]%Forall_app. rewrite Forall_forall in Hok. specialize (Hok b Hb).
  unfold block_ok, HEADER in *. lia.
Qed.

(** The user of a block may write to every word of it. *)
Lemma rep_store (h : Heap W) F live b a v : heap_rep lo h F live -> b ∈ live -> b.1 + HEADER <= a < bend b -> a mod 4 = 0 ->
  0 <= v < 2 ^ 32 ->
  kstore a v h = Ret (tt, set_kmem (<[a := v]> (kmem h)) h) /\ heap_rep lo (set_kmem (<[a := v]> (kmem h)) h) F live.
Proof.
  intros Hr Hb Ha Ha4 Hv. pose proof (hr_ok _ _ _ _ Hr) as Hok. pose proof (hr_sep _ _ _ _ Hr) as Hsep.
  split; [apply kstore_eq; [by eapply block_mapped|done]|].
  assert (forall c, c ∈ mjoin F ++ live -> c.1 <> a /\ c.1 + 4 <> a) as Hne.
  { intros c Hc. apply elem_of_Permutation in Hb as [live' El]. rewrite El, <- Permutation_middle in Hok, Hsep, Hc by apply _.
    apply Forall_cons in Hok as [Hokb Hok]. destruct Hsep as [Hsb _]. apply elem_of_cons in Hc as [->|Hc]; [unfold HEADER in *; lia|].
    rewrite Forall_forall in Hsb, Hok. specialize (Hsb c Hc). specialize (Hok c Hc). unfold sep, block_ok, bend, HEADER in *. lia. }
  destruct Hr as [Hlen Hrange Hlist Hokr Hsepr Hap Hlive Hmapped]. split; try done; cbn [kmem set_kmem heap_end freelist].
  - intros i l Hl. destruct (Hlist i l Hl) as [Hf Hch]. split; [done|]. eapply chain_ext; [|exact Hch].
    apply Forall_forall. intros c Hc. destruct (Hne c) as [H1 H2]; [|cbn; by rewrite !lookup_insert_ne].
    apply elem_of_app. left. apply list_elem_of_join. exists l. split; [done|].
    unfold zget in Hl. destruct (i <? 0); [done|]. by eapply list_elem_of_lookup_2.
  - rewrite Forall_forall in Hlive |- *. intros c Hc. destruct (Hne c) as [H1 _]; [apply elem_of_app; by right|].
    rewrite lookup_insert_ne by done. by apply Hlive.
  - intros x Hx Hx4. destruct (decide (a = x)) as [->|]; [by rewrite lookup_insert_eq|]. rewrite lookup_insert_ne by done. by apply Hmapped.
Qed.

Lemma kept_trans live (h1 h2 h3 : Heap W) : kept live h1 h2 -> kept live h2 h3 -> kept live h1 h3.
Proof. intros H1 H2 x a Hx Ha. rewrite (H2 x a Hx Ha). by apply (H1 x a). Qed.
Lemma kept_sub live live' (h h' : Heap W) : live' ⊆ live -> kept live h h' -> kept live' h h'.
Proof. intros Hs Hk x a Hx Ha. apply (Hk x a); auto. Qed.

(** The same pages. *)
Definition same_space (h h' : Heap W) : Prop := heap_end h' = heap_end h /\ hmmu h' = hmmu h.

(** Writing to a block that is in use: the other blocks are kept. *)
Lemma wp_kstore (h : Heap W) F live live' b a v (Q : unit -> Heap W -> Prop) : heap_rep lo h F live -> live ≡ₚ b :: live' ->
  b.1 + HEADER <= a < bend b -> a mod 4 = 0 ->
  (forall h', kmem h' = <[a := u32 v]> (kmem h) -> heap_rep lo h' F live -> kept live' h h' ->
    same_space h h' -> Q tt h') ->
  wp (kstore a v) Q h.
Proof.
  intros Hr Hl Ha Ha4 HQ. destruct (rep_store h F live b a (u32 v) Hr) as [Hrun Hr']; [rewrite Hl; by left|done|done|apply u32_range|].
  unfold kstore in *. rewrite u32_u32 in Hrun. eapply wp_eq; [exact Hrun|]. apply HQ; [done|done| |done]. intros x y Hx Hy. cbn. apply lookup_insert_ne.
  pose proof (hr_sep _ _ _ _ Hr) as Hsep. rewrite Hl, <- Permutation_middle in Hsep by apply _. destruct Hsep as [Hsep _].
  apply Forall_app in Hsep as [_ Hsep]. rewrite Forall_forall in Hsep. specialize (Hsep x Hx). unfold sep, HEADER in *. lia.
Qed.
Lemma wp_kload (h : Heap W) F live b a (Q : Z -> Heap W -> Prop) : heap_rep lo h F live -> b ∈ live ->
  b.1 + HEADER <= a < bend b -> a mod 4 = 0 -> (forall w, kmem h !! a = Some w -> Q w h) -> wp (kload a) Q h.
Proof.
  intros Hr Hb Ha Ha4 HQ. destruct (block_mapped h F live b a Hr Hb Ha Ha4) as [x E].
  eapply wp_eq; [by apply kload_eq|]. by apply HQ.
Qed.
End storing.

(** A store to the first or the second of the blocks in use. *)
Ltac store_to low blk :=
  rewrite wp_bind; eapply (wp_kstore low) with (b := blk);
    [eassumption|first [reflexivity|apply Permutation_swap]|cbn; unfold bend, HEADER; cbn; lia|mod_lia|intros ? ? ? ? ?].
(** The words after such stores. *)
Ltac stored :=
  repeat match goal with E : kmem _ = <[_ := u32 ?v]> _ |- _ => rewrite (u32_small v) in E by lia end;
  repeat match goal with
    | E : kmem ?x = <[_ := _]> _ |- context [kmem ?x !! _] => rewrite E
    | |- context [<[?k := _]> _ !! ?k] => rewrite lookup_insert_eq
    | |- context [<[_ := _]> _ !! _] => rewrite lookup_insert_ne by lia
    end.

(** * Small blocks *)

Section small.
Context {W : Type} `{UserMmu W} (lo : Z) (inv : Z -> Z -> W -> Prop) `{!HeapMmu W inv}.
Implicit Types (h : Heap W) (live : list block).

(** There is memory for [n] blocks of less than a page, and fuel for them. *)
Definition supply (fuel : nat) (n : Z) h : Prop := exists k, n <= k /\ room inv k h /\
  page_up (heap_end h) + k * MMU_PAGE_SIZE <= 2 ^ 32 /\ heap_end h + n * MMU_PAGE_SIZE + MMU_PAGE_SIZE < 2 ^ 32 /\
  heap_end h + n * MMU_PAGE_SIZE - lo + 6 <= 2 * Z.of_nat fuel.

Lemma supply_same fuel n h h' : same_space h h' -> supply fuel n h -> supply fuel n h'.
Proof. unfold supply, room. by intros [-> ->]. Qed.

Lemma kmalloc_small fuel h F live n size : heap_rep lo h F live -> 0 < size -> size + HEADER <= MMU_PAGE_SIZE -> 1 <= n ->
  supply fuel n h ->
  wp (kmalloc fuel size) (fun p h' => exists F' m, heap_rep lo h' F' ((p - HEADER, m) :: live) /\ size <= m /\
    kept live h h' /\ supply fuel (n - 1) h' /\ lo < p < 2 ^ 32 /\ p + size <= heap_end h') h.
Proof.
  intros Hr Hs Hs2 Hn (k & Hk & Hroom & Hlim & Hend & Hfuel). unfold HEADER, MMU_PAGE_SIZE in *.
  assert (pages_for size = 4096) as Hp by (unfold pages_for, page_up, HEADER, MMU_PAGE_SIZE; mod_lia).
  assert (forall x, page_up (x + 4096) = page_up x + 4096) as Hup by (intros x; apply (page_up_add x 4096); done).
  eapply wp_mono; [apply (kmalloc_eq lo inv fuel h F live k size); rewrite ?Hp; try done; unfold MMU_PAGE_SIZE;
    try change (4096 / 4096) with 1; lia|].
  intros p h' (F' & m & k' & Hr' & Hm & Hkept & Hroom' & Hcase). rewrite Hp in Hcase. unfold MMU_PAGE_SIZE in Hcase.
  change (4096 / 4096) with 1 in Hcase. exists F', m. split; [done|]. split; [done|]. split; [done|]. split.
  - exists k'. unfold MMU_PAGE_SIZE. destruct Hcase as [[E ->]|[E ->]]; rewrite E, ?Hup; (split; [lia|]; split; [done|lia]).
  - destruct (rep_block lo h' F' live _ Hr') as ((H1 & H2 & _) & _). destruct (hr_range _ _ _ _ Hr') as (_ & Hh & _).
    unfold bend, HEADER, MMU_PAGE_SIZE in *. cbn in *. lia.
Qed.
End small.

(** * Changing the size *)

(** The pointer to a block. *)
Definition pointer (b : block) : Z := b.1 + HEADER.

Section bytes.
Context {W : Type} `{UserMmu W} (lo : Z).
Implicit Types (h : Heap W) (F : list (list block)) (live : list block).

(** The byte at an address. *)
Definition heap_byte h (a : Z) : option Z := field (byte_pos a) 8 <$> kmem h !! (a - a mod 4).

Lemma kept_byte live h h' x a : kept live h h' -> x ∈ live -> x.1 mod 4 = 0 -> x.1 <= a < bend x -> heap_byte h' a = heap_byte h a.
Proof. intros Hk Hx Hx4 Ha. unfold heap_byte. rewrite (Hk x); [done..|]. split; [|mod_lia]. mod_lia. Qed.

Lemma byte_pos_cases a : byte_pos a = 0 \/ byte_pos a = 8 \/ byte_pos a = 16 \/ byte_pos a = 24.
Proof. unfold byte_pos. pose proof (Z.mod_pos_bound a 4). lia. Qed.
Lemma byte_pos_ne a b : a <> b -> a - a mod 4 = b - b mod 4 -> byte_pos a + 8 <= byte_pos b \/ byte_pos b + 8 <= byte_pos a.
Proof. unfold byte_pos. lia. Qed.

Section block.
Context (F : list (list block)) (live live' : list block) (b : block).
Hypothesis Hl : live ≡ₚ b :: live'.

Lemma byte_word h a : heap_rep lo h F live -> b.1 + HEADER <= a < bend b ->
  b.1 + HEADER <= a - a mod 4 < bend b /\ (a - a mod 4) mod 4 = 0.
Proof.
  intros Hr Ha. pose proof (hr_ok _ _ _ _ Hr) as Hok. rewrite Hl in Hok. apply Forall_app in Hok as [_ [Hb _]%Forall_cons].
  unfold block_ok, bend, HEADER in *. split; mod_lia.
Qed.

Lemma wp_kload_byte h a (Q : Z -> Heap W -> Prop) : heap_rep lo h F live -> b.1 + HEADER <= a < bend b ->
  (forall v, heap_byte h a = Some v -> 0 <= v < 256 -> Q v h) -> wp (kload_byte a) Q h.
Proof.
  intros Hr Ha HQ. destruct (byte_word h a Hr Ha) as [Haw Ha4]. unfold kload_byte. rewrite wp_bind.
  eapply wp_kload; [exact Hr|rewrite Hl; by left|exact Haw|done|]. intros w Hw. rewrite wp_ret.
  apply HQ; [unfold heap_byte; by rewrite Hw|]. by apply field_range.
Qed.

Lemma wp_kstore_byte h a v (Q : unit -> Heap W -> Prop) : heap_rep lo h F live -> b.1 + HEADER <= a < bend b ->
  (forall h', heap_rep lo h' F live -> kept live' h h' -> same_space h h' -> heap_byte h' a = Some (u8 v) ->
    (forall x, x <> a -> heap_byte h' x = heap_byte h x) -> Q tt h') ->
  wp (kstore_byte a v) Q h.
Proof.
  intros Hr Ha HQ. destruct (byte_word h a Hr Ha) as [Haw Ha4]. unfold kstore_byte. rewrite wp_bind.
  eapply wp_kload; [exact Hr|rewrite Hl; by left|exact Haw|done|]. intros w Hw.
  eapply wp_kstore; [exact Hr|exact Hl|exact Haw|done|]. intros h' Em Hr' Hk Hs.
  pose proof (byte_pos_cases a) as Hpa. apply HQ; [done..| |].
  - unfold heap_byte. rewrite Em, lookup_insert_eq. cbn. rewrite field_u32, field_set_same by lia. done.
  - intros x Hx. unfold heap_byte. rewrite Em. destruct (decide (a - a mod 4 = x - x mod 4)) as [E|E].
    + rewrite <- E, lookup_insert_eq, Hw. cbn. f_equal. pose proof (byte_pos_cases x).
      pose proof (byte_pos_ne x a Hx ltac:(done)). rewrite field_u32, field_set_other by lia. done.
    + by rewrite lookup_insert_ne.
Qed.
End block.

Lemma rep_perm h F live live' : live ≡ₚ live' -> heap_rep lo h F live -> heap_rep lo h F live'.
Proof. intros E []. split; try done; by rewrite <- E. Qed.

(** Copying to a block from another one: the bytes are equal afterwards, and
    the other blocks are kept. *)
Lemma wp_memcpy h F live live' b c dest src n (Q : unit -> Heap W -> Prop) : heap_rep lo h F live ->
  live ≡ₚ c :: live' -> b ∈ live' -> 0 <= n ->
  c.1 + HEADER <= dest -> dest + n <= bend c -> b.1 + HEADER <= src -> src + n <= bend b ->
  (forall h', heap_rep lo h' F live -> kept live' h h' -> same_space h h' ->
    (forall i, 0 <= i < n -> heap_byte h' (dest + i) = heap_byte h (src + i)) -> Q tt h') ->
  wp (memcpy dest src n) Q h.
Proof.
  intros Hr Hl Hb Hn Hd1 Hd2 Hs1 Hs2 HQ.
  pose proof (hr_ok _ _ _ _ Hr) as Hok. rewrite Hl in Hok. apply Forall_app in Hok as [_ [Hokc Hokl]%Forall_cons].
  rewrite Forall_forall in Hokl. pose proof (Hokl b Hb) as Hokb.
  destruct (hr_range _ _ _ _ Hr) as ([Hlo Hle] & Hhi & _).
  destruct (proj1 (elem_of_Permutation live' b) Hb) as [k El].
  assert (live ≡ₚ b :: c :: k) as Hlb by (rewrite Hl, El; apply Permutation_swap).
  unfold block_ok, HEADER, MMU_PAGE_SIZE in *. unfold memcpy.
  eapply (wp_for_to (fun j h' => heap_rep lo h' F live /\ kept live' h h' /\ same_space h h' /\
    forall i, n - j <= i < n -> heap_byte h' (dest + i) = heap_byte h (src + i))); [done| | |].
  - split; [done|]. split; [by intros ? ? ? ?|]. split; [done|]. intros i Hi. lia.
  - intros j h1 Hj (Hr1 & Hk1 & Hs1' & Hc). rewrite !u32_small by (unfold bend, HEADER in *; lia). rewrite wp_bind.
    eapply (wp_kload_byte F live (c :: k) b Hlb); [exact Hr1|unfold HEADER; lia|]. intros v Hv Hv8.
    eapply (wp_kstore_byte F live live' c Hl); [exact Hr1|unfold HEADER; lia|]. intros h2 Hr2 Hk2 Hs2' He Ho.
    split; [done|]. split; [by eapply kept_trans|]. split; [unfold same_space in *; intuition congruence|].
    intros i Hi. destruct (decide (i = n - 1 - j)) as [->|].
    + rewrite He, u8_small by done. rewrite <- Hv. apply (kept_byte live' h h1 b); unfold bend, HEADER in *; (done || lia).
    + rewrite Ho by lia. apply Hc. lia.
  - intros h' (Hr' & Hk' & Hs' & Hc). apply HQ; [done..|]. intros i Hi. apply Hc. lia.
Qed.
End bytes.

Section krealloc.
Context {W : Type} `{UserMmu W} (lo : Z) (inv : Z -> Z -> W -> Prop) `{!HeapMmu W inv}.
Implicit Types (h : Heap W) (F : list (list block)) (live : list block).

Lemma krealloc_eq fuel h F live b n size : heap_rep lo h F (b :: live) -> 0 < size -> pages_for size < 2 ^ 31 ->
  heap_end h + pages_for size + MMU_PAGE_SIZE < 2 ^ 32 -> room inv n h -> pages_for size / MMU_PAGE_SIZE <= n ->
  page_up (heap_end h) + n * MMU_PAGE_SIZE <= 2 ^ 32 -> heap_end h + pages_for size - lo + 6 <= 2 * Z.of_nat fuel ->
  wp (krealloc fuel (pointer b) size) (fun p h' => exists F' m n', heap_rep lo h' F' ((p - HEADER, m) :: live) /\ size <= m /\
      kept live h h' /\ (forall i, 0 <= i < Z.min size b.2 -> heap_byte h' (p + i) = heap_byte h (pointer b + i)) /\
      room inv n' h' /\
      (heap_end h' = heap_end h /\ n' = n \/
       heap_end h' = heap_end h + pages_for size /\ n' = n - pages_for size / MMU_PAGE_SIZE)) h.
Proof.
  intros Hr Hs HG Hlim Hroom Hn Hlim2 Hf. destruct (rep_block lo h F live b Hr) as (Hb & _). destruct (hr_range _ _ _ _ Hr) as ([Hlo _] & Hhi & _).
  pose proof (pages_for_ge size Hs) as (Hge & _ & _).
  unfold krealloc. rewrite (proj2 (Z.eqb_neq (pointer b) 0)), (proj2 (Z.eqb_neq size 0)) by (unfold pointer, block_ok, HEADER in *; lia).
  rewrite wp_bind. eapply wp_mono; [by apply (kmalloc_eq lo inv fuel h F (b :: live) n size)|].
  intros p h1 (F1 & m & n1 & Hr1 & Hm & Hk1 & Hroom1 & Hcase). set (c := (p - HEADER, m)) in *.
  assert (heap_end h1 <= heap_end h + pages_for size) as Hend by (unfold HEADER in *; lia).
  pose proof (hr_live _ _ _ _ Hr1) as [_ [Hsz _]%Forall_cons]%Forall_cons.
  unfold pointer at 1. replace (u32 (b.1 + HEADER - HEADER)) with b.1
    by (rewrite u32_small by (unfold block_ok, bend, HEADER, MMU_PAGE_SIZE in *; lia); lia).
  rewrite wp_bind. eapply wp_eq; [by apply kload_eq|]. rewrite wp_bind.
  set (len := if size <? b.2 then size else b.2). assert (len = Z.min size b.2) as El by (unfold len; destruct (Z.ltb_spec size b.2); lia).
  eapply (wp_memcpy lo h1 F1 _ (b :: live) b c); [exact Hr1|done|by left| | | | |
    |intros h2 Hr2 Hk2 [He2 Hm2] Hcopy]; try (unfold c, pointer, block_ok, bend, HEADER in *; cbn; lia).
  assert (heap_rep lo h2 F1 (b :: c :: live)) as Hr2' by (eapply rep_perm; [apply Permutation_swap|exact Hr2]).
  destruct (kfree_eq lo fuel h2 F1 _ b Hr2') as (h3 & F3 & i & l & d & Hfree & Hr3 & Hk3 & (_ & He3 & Hm3 & _) & _).
  { rewrite He2. lia. }
  rewrite wp_bind. eapply wp_eq; [exact Hfree|]. rewrite wp_ret. exists F3, m, n1. split; [done|]. split; [done|]. split_and!.
  - eapply kept_trans; [eapply kept_sub; [|exact Hk1]|eapply kept_trans; [eapply kept_sub; [|exact Hk2]|eapply kept_sub; [|exact Hk3]]]; set_solver.
  - intros j Hj. pose proof (rep_block lo h3 F3 live c Hr3) as (Hc & _). unfold block_ok, pointer, bend, HEADER in *. 
    rewrite (kept_byte (c :: live) h2 h3 c); [|done|by left|apply Hc|unfold c, bend, HEADER; cbn; lia].
    rewrite Hcopy by lia. apply (kept_byte (b :: live) h h1 b); [done|by left|apply Hb|unfold bend, HEADER; lia].
  - unfold room in *. by rewrite He3, Hm3, He2, Hm2.
  - by rewrite He3, He2.
Qed.

(** What the clients that are given a block with its contents rely on: the
    pointer is not null, the block does not wrap, and its bytes are mapped. *)
Theorem kmalloc_gives_block fuel h F live n size : heap_rep lo h F live -> 0 < size -> pages_for size < 2 ^ 31 ->
  heap_end h + pages_for size + MMU_PAGE_SIZE < 2 ^ 32 -> room inv n h -> pages_for size / MMU_PAGE_SIZE <= n ->
  page_up (heap_end h) + n * MMU_PAGE_SIZE <= 2 ^ 32 -> heap_end h + pages_for size - lo + 6 <= 2 * Z.of_nat fuel ->
  wp (kmalloc fuel size) (fun p h' => 0 < p /\ p + size + MMU_PAGE_SIZE <= 2 ^ 32 /\
    exists contents, Z.of_nat (length contents) = size /\ Forall (fun c => 0 <= c < 256) contents /\
      forall i, 0 <= i < size -> heap_byte h' (p + i) = zget contents i) h.
Proof.
  intros Hr Hs HG Hlim Hroom Hn Hlim2 Hf. eapply wp_mono; [by apply (kmalloc_eq lo inv fuel h F live n size)|].
  intros p h' (F' & m & n' & Hr' & Hm & _ & _ & Hcase). destruct (rep_block lo h' F' live _ Hr') as ((H1 & H2 & _) & _).
  destruct (hr_range _ _ _ _ Hr') as ([Hlo _] & Hend & _). unfold bend, HEADER in H1, H2. cbn in H1, H2.
  split; [lia|]. split; [lia|]. exists ((fun i => default 0 (heap_byte h' (p + i))) <$> seqZ 0 size).
  assert (forall i, 0 <= i < size -> exists c, heap_byte h' (p + i) = Some c /\ 0 <= c < 256) as Hbyte.
  { intros i Hi. destruct (byte_word lo F' _ live (p - HEADER, m) (reflexivity _) h' (p + i) Hr') as [Haw Ha4].
    { unfold bend, HEADER. cbn. lia. }
    destruct (block_mapped lo h' F' _ (p - HEADER, m) _ Hr' ltac:(by left) Haw Ha4) as [w Hw].
    exists (field (byte_pos (p + i)) 8 w). split; [unfold heap_byte; by rewrite Hw|by apply field_range]. }
  split; [rewrite length_fmap, length_seqZ; lia|]. split.
  - apply Forall_fmap, Forall_forall. intros i Hi%elem_of_seqZ. destruct (Hbyte i ltac:(lia)) as (c & E & Hc). cbn. by rewrite E.
  - intros i Hi. destruct (Hbyte i Hi) as (c & E & _). unfold zget. rewrite (proj2 (Z.ltb_ge i 0)) by lia.
    rewrite list_lookup_fmap, lookup_seqZ_lt by lia. cbn. rewrite Z.add_0_l, Z2Nat.id, E by lia. done.
Qed.

(** C4. Resizing: [krealloc] of a block in use returns an aligned pointer to a
    block of at least the new size, with the bytes of the old block up to the
    smaller of the two sizes; the old block is free, every other block in use
    keeps its words, and the heap is again well-formed. *)
Theorem krealloc_correct fuel h F live b n size : heap_rep lo h F (b :: live) -> 0 < size -> pages_for size < 2 ^ 31 ->
  heap_end h + pages_for size + MMU_PAGE_SIZE < 2 ^ 32 -> room inv n h -> pages_for size / MMU_PAGE_SIZE <= n ->
  page_up (heap_end h) + n * MMU_PAGE_SIZE <= 2 ^ 32 -> heap_end h + pages_for size - lo + 6 <= 2 * Z.of_nat fuel ->
  wp (krealloc fuel (pointer b) size) (fun p h' => p mod 4 = 0 /\ kept live h h' /\
    (forall i, 0 <= i < Z.min size b.2 -> is_Some (heap_byte h (pointer b + i)) /\ heap_byte h' (p + i) = heap_byte h (pointer b + i)) /\
    exists F' m, heap_rep lo h' F' ((p - HEADER, m) :: live) /\ size <= m) h.
Proof.
  intros Hr Hs HG Hlim Hroom Hn Hlim2 Hf. eapply wp_mono; [by apply (krealloc_eq fuel h F live b n size)|].
  intros p h' (F' & m & n' & Hr' & Hm & Hk & Hc & _). destruct (rep_block lo h' F' live _ Hr') as ((_ & _ & H3 & _) & _).
  unfold HEADER in H3. cbn in H3. split; [mod_lia|]. split; [done|]. split; [|by exists F', m].
  intros i Hi. split; [|by apply Hc]. apply fmap_is_Some.
  destruct (byte_word lo F (b :: live) live b (reflexivity _) h (pointer b + i) Hr) as [Haw Ha4].
  { unfold pointer, bend, HEADER. lia. }
  eapply (block_mapped lo h F _ b); [exact Hr|by left|exact Haw|exact Ha4].
Qed.
End krealloc.

(** * Sequences of requests *)

(** What the rest of the kernel may ask for: a block, to give back the [k]-th
    of the pointers that it holds, or to change the size of its block. *)
Inductive request : Type :=
| Alloc (size : Z)
| Release (k : nat)
| Resize (k : nat) (size : Z).

Fixpoint run_requests {W} `{UserMmu W} (fuel : nat) (rs : list request) (ptrs : list Z) : M (Heap W) (list Z) :=
  match rs with
  | [] => ret ptrs
  | Alloc size :: rs => let* p := kmalloc fuel size in run_requests fuel rs (p :: ptrs)
  | Release k :: rs =>
      match ptrs !! k with
      | Some p => kfree fuel p ;; run_requests fuel rs (delete k ptrs)
      | None => run_requests fuel rs ptrs
      end
  | Resize k size :: rs =>
      match ptrs !! k with
      | Some p => let* q := krealloc fuel p size in run_requests fuel rs (q :: delete k ptrs)
      | None => run_requests fuel rs ptrs
      end
  end.

(** The memory that the requests take at most. *)
Definition demand (rs : list request) : Z :=
  foldr (fun r n => match r with Alloc size | Resize _ size => pages_for size + n | Release _ => n end) 0 rs.
Definition sensible (r : request) : Prop := match r with Alloc size | Resize _ size => 0 < size | Release _ => True end.

Lemma demand_pages rs : Forall sensible rs -> 0 <= demand rs /\ demand rs mod MMU_PAGE_SIZE = 0.
Proof.
  intros Hrs. induction Hrs as [|[size|k|k size] rs Hr Hrs IH]; [done| |done|]; cbn in Hr |- *; fold (demand rs);
    pose proof (pages_for_ge size Hr) as (_ & ? & ?); unfold MMU_PAGE_SIZE in *; (split; [lia|mod_lia]).
Qed.

Section requests.
Context {W : Type} `{UserMmu W} (lo : Z) (inv : Z -> Z -> W -> Prop) `{!HeapMmu W inv}.
Implicit Types (h : Heap W).

(** There are [n] pages behind the end of the heap; they are enough for a
    demand, and the fuel is for the heap that grows by it. *)
Definition suffices (fuel : nat) (d n : Z) h : Prop :=
  d < 2 ^ 31 /\ heap_end h + d + MMU_PAGE_SIZE < 2 ^ 32 /\ room inv n h /\ d <= n * MMU_PAGE_SIZE /\
  page_up (heap_end h) + n * MMU_PAGE_SIZE <= 2 ^ 32 /\ heap_end h + d - lo + 6 <= 2 * Z.of_nat fuel.

(** What is left when pages have been taken, or not. *)
Lemma suffices_rest fuel G d n n' h h' : suffices fuel (G + d) n h -> 0 <= d -> 0 <= G -> G mod MMU_PAGE_SIZE = 0 -> room inv n' h' ->
  heap_end h' = heap_end h /\ n' = n \/ heap_end h' = heap_end h + G /\ n' = n - G / MMU_PAGE_SIZE ->
  suffices fuel d n' h' /\ heap_end h <= heap_end h' <= heap_end h + G.
Proof.
  intros (H1 & H2 & _ & H4 & H5 & H6) Hd HG HGp Hroom Hcase. unfold suffices.
  assert (G = G / MMU_PAGE_SIZE * MMU_PAGE_SIZE) as EG by (unfold MMU_PAGE_SIZE in *; mod_lia).
  destruct Hcase as [[E ->]|[E ->]]; rewrite E, ?page_up_add by done; (split; [split_and!; try done|]); unfold MMU_PAGE_SIZE in *; lia.
Qed.

(** C1. No use of the allocator breaks the heap: whatever sequence of
    requests is made, to allocate, to free and to resize, with positive sizes,
    as long as the memory suffices for them, none of the calls fails or runs
    forever, the heap is well-formed at the end, and the pointers that are held
    are those of the blocks in use, which have no byte in common. *)
Theorem requests_keep_heap fuel rs : Forall sensible rs -> forall h F live n, heap_rep lo h F live -> suffices fuel (demand rs) n h ->
  wp (run_requests fuel rs (pointer <$> live)) (fun ptrs h' => exists F' live', heap_rep lo h' F' live' /\
    ptrs = pointer <$> live' /\ heap_end h <= heap_end h' <= heap_end h + demand rs) h.
Proof.
  intros Hrs. induction Hrs as [|r rs Hr Hrs IH]; intros h F live n Hrep Hsuf; cbn [run_requests].
  { rewrite wp_ret. exists F, live. cbn. split; [done|]. split; [done|lia]. }
  destruct (demand_pages rs Hrs) as [Hd0 Hdp].
  assert (forall k b, live !! k = Some b -> heap_rep lo h F (b :: delete k live)) as Hdel.
  { intros k b Hb. eapply rep_perm; [|exact Hrep]. by apply delete_Permutation. }
  (* The rest of the requests after one that was given a block. *)
  assert (forall size live1 p h1, r = Alloc size \/ (exists k, r = Resize k size) -> 0 < size ->
    (exists F1 m n1, heap_rep lo h1 F1 ((p - HEADER, m) :: live1) /\ room inv n1 h1 /\
      (heap_end h1 = heap_end h /\ n1 = n \/ heap_end h1 = heap_end h + pages_for size /\ n1 = n - pages_for size / MMU_PAGE_SIZE)) ->
    wp (run_requests fuel rs (p :: (pointer <$> live1))) (fun ptrs h' => exists F' live', heap_rep lo h' F' live' /\
      ptrs = pointer <$> live' /\ heap_end h <= heap_end h' <= heap_end h + demand (r :: rs)) h1) as Hrest.
  { intros size live1 p h1 Er Hs (F1 & m & n1 & Hr1 & Hroom1 & Hcase).
    pose proof (pages_for_ge size Hs) as (Hg1 & Hg2 & Hg3). unfold MMU_PAGE_SIZE in Hg2.
    assert (demand (r :: rs) = pages_for size + demand rs) as Ed by (destruct Er as [->|[k ->]]; done). rewrite Ed in *.
    destruct (suffices_rest fuel _ _ n n1 h h1 Hsuf Hd0 ltac:(lia) Hg3 Hroom1 Hcase) as [Hsuf1 He1].
    replace (p :: (pointer <$> live1)) with (pointer <$> (p - HEADER, m) :: live1) by (rewrite fmap_cons; unfold pointer at 1; cbn; f_equal; lia).
    eapply wp_mono; [by apply (IH h1 F1 _ n1 Hr1)|]. intros ptrs h2 (F2 & live2 & Hr2 & -> & He2). exists F2, live2.
    split; [done|]. split; [done|lia]. }
  destruct r as [size|k|k size]; cbn [sensible] in Hr; rewrite ?list_lookup_fmap.
  - destruct Hsuf as (H1 & H2 & H3 & H4 & H5 & H6). cbn [demand foldr] in *. fold (demand rs) in *.
    destruct (pages_for_ge size Hr) as (Hg1 & Hg2 & Hg3). unfold MMU_PAGE_SIZE in *.
    rewrite wp_bind. eapply wp_mono; [apply (kmalloc_eq lo inv fuel h F live n size); unfold MMU_PAGE_SIZE; (done || mod_lia)|].
    intros p h1 (F1 & m & n1 & Hr1 & _ & _ & Hroom1 & Hcase). apply (Hrest size); [by left|done|by exists F1, m, n1].
  - change (demand (Release k :: rs)) with (demand rs) in *.
    destruct (live !! k) as [b|] eqn:Eb; cbn [fmap option_fmap option_map]; [|by apply (IH h F live n)].
    destruct (kfree_eq lo fuel h F _ b (Hdel k b Eb)) as (h1 & F1 & i & l & c & Hrun & Hr1 & _ & (_ & He & Hm & _) & _).
    { destruct Hsuf as (_ & _ & _ & _ & _ & H6). lia. }
    rewrite wp_bind. eapply wp_eq; [exact Hrun|]. rewrite <- list_fmap_delete. rewrite <- He.
    apply (IH h1 F1 (delete k live) n); [done|]. unfold suffices, room in *. by rewrite He, Hm.
  - destruct (pages_for_ge size Hr) as (Hg1 & Hg2 & Hg3). destruct (live !! k) as [b|] eqn:Eb; cbn [fmap option_fmap option_map].
    + destruct Hsuf as (H1 & H2 & H3 & H4 & H5 & H6). cbn [demand foldr] in *. fold (demand rs) in *. unfold MMU_PAGE_SIZE in *.
      rewrite wp_bind. eapply wp_mono; [apply (krealloc_eq lo inv fuel h F _ b n size (Hdel k b Eb)); unfold MMU_PAGE_SIZE; (done || mod_lia)|].
      intros p h1 (F1 & m & n1 & Hr1 & _ & _ & _ & Hroom1 & Hcase). rewrite <- list_fmap_delete.
      apply (Hrest size); [right; by exists k|done|by exists F1, m, n1].
    + assert (suffices fuel (demand rs) n h) as Hsuf'.
      { eapply (suffices_rest fuel (pages_for size) _ n n h h); [exact Hsuf|done| |done|apply Hsuf|by left]. unfold MMU_PAGE_SIZE in *. lia. }
      eapply wp_mono; [by apply (IH h F live n)|]. intros ptrs h' (F' & live' & Hr' & -> & He). exists F', live'.
      split; [done|]. split; [done|]. cbn [demand foldr]. fold (demand rs). unfold MMU_PAGE_SIZE in *. lia.
Qed.
End requests.

(** * Concrete heaps *)

(** An MMU that has a frame for every page. *)
#[local] Instance generous_mmu : UserMmu unit := {
  mmu_clear_userspace _ := ret tt;
  mmu_clone_userspace _ _ := ret 0;
  mmu_alloc_at _ _ _ := ret 4096;
  mmu_fill_frame _ _ _ _ := ret tt;
}.
#[local] Instance generous_heap_mmu : HeapMmu unit (fun _ _ _ => True).
Proof. intros p n [] _ _ _ _ _. by eapply wp_eq. Qed.

(** The heap when the kernel starts, and with one block of 96 bytes in use. *)
Definition empty_heap : Heap unit := MkHeap [0; 0; 0; 0; 0] 0 65536 ∅ tt.
Definition one_block : Heap unit := MkHeap [0; 0; 0; 0; 0] 4096 69632 (<[65536 := 4088]> (zero_page 65536 ∅)) tt.

Lemma empty_heap_rep : heap_rep 65536 empty_heap [[]; []; []; []; []] [].
Proof.
  split; try done.
  - intros i l Hl. destruct (zget_lt_Some _ _ _ Hl) as [H0 H5]. cbn in H5.
    assert (i = 0 \/ i = 1 \/ i = 2 \/ i = 3 \/ i = 4) as [->|[->|[->|[->| ->]]]] by lia; injection Hl as <-; done.
  - intros l [= <-]. done.
  - intros a Ha. change (page_up (heap_end empty_heap)) with 65536 in Ha. lia.
Qed.
Lemma one_block_rep : heap_rep 65536 one_block [[]; []; []; []; []] [(65536, 4088)].
Proof.
  split.
  - reflexivity.
  - cbn [heap_end one_block]. unfold MMU_PAGE_SIZE. split; [lia|]. by split.
  - intros i l Hl. destruct (zget_lt_Some _ _ _ Hl) as [H0 H5]. cbn in H5.
    assert (i = 0 \/ i = 1 \/ i = 2 \/ i = 3 \/ i = 4) as [->|[->|[->|[->| ->]]]] by lia; injection Hl as <-; split; reflexivity || exact I.
  - apply Forall_singleton. done.
  - split; [constructor|exact I].
  - intros l [= <-]. exact I.
  - apply Forall_singleton. apply lookup_insert_eq.
  - intros a Ha H4. change (page_up (heap_end one_block)) with 69632 in Ha. unfold one_block. cbn [kmem].
    destruct (decide (65536 = a)) as [<-|]; [by rewrite lookup_insert_eq|]. rewrite lookup_insert_ne by done.
    rewrite zero_page_in by (done || unfold MMU_PAGE_SIZE; lia). by eexists.
Qed.

Lemma kmalloc_correct_witness :
  wp (kmalloc (Z.to_nat 3000) 100) (fun p h' => p mod 4 = 0 /\ 65536 < p /\ p + 100 <= heap_end h') empty_heap.
Proof.
  eapply wp_mono; [apply (kmalloc_correct 65536 (fun _ _ _ => True) (Z.to_nat 3000) empty_heap [[]; []; []; []; []] [] 1 100);
    try (vm_compute; (done || by split)); apply empty_heap_rep|].
  intros p h' (H1 & H2 & H3 & _). by split_and!.
Defined.
Lemma kfree_correct_witness :
  wp (kfree (Z.to_nat 3000) 65544) (fun _ h' => (exists F', heap_rep 65536 h' F' []) /\ heap_end h' = 69632) one_block.
Proof.
  eapply wp_mono; [apply (kfree_correct 65536 (Z.to_nat 3000) one_block _ [] (65536, 4088) one_block_rep); vm_compute; done|].
  intros _ h' (H1 & _ & H2 & _). by split.
Defined.
Lemma requests_keep_heap_witness :
  wp (run_requests (Z.to_nat 17000) [Alloc 100; Alloc 20; Alloc 100; Release 1; Resize 0 50; Release 0] [])
    (fun ptrs h' => exists F' live', heap_rep 65536 h' F' live' /\ ptrs = pointer <$> live') empty_heap.
Proof.
  eapply wp_mono; [apply (requests_keep_heap 65536 (fun _ _ _ => True) (Z.to_nat 17000)
    [Alloc 100; Alloc 20; Alloc 100; Release 1; Resize 0 50; Release 0]) with (live := []) (F := [[]; []; []; []; []]) (n := 4)|].
  - repeat constructor.
  - apply empty_heap_rep.
  - split_and!; vm_compute; done.
  - intros ptrs h' (F' & live' & H1 & H2 & _). by exists F', live'.
Defined.
Lemma krealloc_correct_witness :
  wp (krealloc (Z.to_nat 5000) 65544 100) (fun p h' => p mod 4 = 0 /\
    (exists F' m, heap_rep 65536 h' F' [(p - HEADER, m)] /\ 100 <= m) /\ heap_byte h' (p + 99) = Some 0) one_block.
Proof.
  eapply wp_mono; [apply (krealloc_correct 65536 (fun _ _ _ => True) (Z.to_nat 5000) one_block _ [] (65536, 4088) 1 100 one_block_rep);
    vm_compute; (done || by split)|].
  intros p h' (H1 & _ & H2 & H3). split; [done|]. split; [done|]. destruct (H2 99) as [_ ->]; [done|]. vm_compute. done.
Defined.

(** When the lower neighbour of a block stands in the list behind the upper
    one, merging all three loses the block: after these requests only the
    block at 65860 is in use, and the lists hold the memory from 65644 to
    65860 and from 69468 on, but not the first block. *)
Lemma freed_block_is_lost :
  match run_requests 10 [Alloc 100; Alloc 100; Alloc 100; Alloc 3600; Release 3; Release 1; Release 1] [] empty_heap with
  | Ret (ptrs, h) => (ptrs, freelist h, (fun a => kmem h !! a) <$> [65644; 65648; 69468; 69472])
  | _ => ([], [], [])
  end = ([65868], [0; 0; 0; 0; 65644], [Some 208; Some 69468; Some 156; Some 0]).
Proof. vm_compute. reflexivity. Qed.

(** A request that wraps: the new block gets no page. *)
Lemma kmalloc_wraps : kmalloc 2 (2 ^ 32 - 8) empty_heap = Fault.
Proof. by vm_compute. Qed.
