(* ===== verification/Interrupt.v ===== *)
(** The interrupt vectors and the handlers of peripherals: [kernel/int.c].

    The vector table is the memory from [int_vector] on; the kernel writes
    entry points of [int.S] and pointers to C functions to it.  The handlers
    of an interrupt are a linked list, the one registered last first; a handler
    works on the drivers' state [D]. *)

From S2P Require Import Prelude Types.

Definition INT_OFFSET_TRAP : Z := 32.
Definition INT_VECTOR_OFFSET_AVEC : Z := 99.
Definition INTERRUPTS : Z := 256.
Definition SYSCALL_TRAP : Z := 10.
Definition CHIPSET_INT_BASE : Z := 24.

(** The entry points of [int.S], or a function that was passed in. *)
Inductive vector : Type :=
| int_stub
| int_syscall
| int_invalid_trap
| int_invalid_interrupt
| int_stub_bus_error
| Function (p : Z).

Record IntHandler (D : Type) : Type := MkIntHandler {
  isr : Z -> Z -> M D unit;        (* interrupt, data *)
  ih_data : Z;
}.
Arguments MkIntHandler {_} _ _.
Arguments isr {_} _.
Arguments ih_data {_} _.

(** [chipset] is the I/O space, in words; [vbr] the vector base register. *)
Record Ints (D : Type) : Type := MkInts {
  int_vector : gmap Z vector;
  int_handler : list (list (IntHandler D));
  vbr : Z;
  enabled : bool;
  chipset : gmap Z Z;
  int_drivers : D;
}.
Arguments MkInts {_} _ _ _ _ _ _.
Arguments int_vector {_} _.
Arguments int_handler {_} _.
Arguments vbr {_} _.
Arguments enabled {_} _.
Arguments chipset {_} _.
Arguments int_drivers {_} _.

Section ops.
Context {D : Type}.
Implicit Types s : Ints D.

Definition set_vectors (v : gmap Z vector) s : Ints D :=
  MkInts v (int_handler s) (vbr s) (enabled s) (chipset s) (int_drivers s).
Definition set_handlers (l : list (list (IntHandler D))) s : Ints D :=
  MkInts (int_vector s) l (vbr s) (enabled s) (chipset s) (int_drivers s).
Definition set_int_drivers (d : D) s : Ints D :=
  MkInts (int_vector s) (int_handler s) (vbr s) (enabled s) (chipset s) d.

(** [int.S]: the vector base register, and the mask of the status register. *)
Definition int_move_vector (destination : Z) : M (Ints D) unit :=
  modify (fun s => MkInts (int_vector s) (int_handler s) destination (enabled s) (chipset s) (int_drivers s)).
Definition int_enable : M (Ints D) unit :=
  modify (fun s => MkInts (int_vector s) (int_handler s) (vbr s) true (chipset s) (int_drivers s)).
Definition int_disable : M (Ints D) unit :=
  modify (fun s => MkInts (int_vector s) (int_handler s) (vbr s) false (chipset s) (int_drivers s)).

(** A write to [CHIPSET_IO(port)]. *)
Definition chipset_write (port v : Z) : M (Ints D) unit :=
  modify (fun s => MkInts (int_vector s) (int_handler s) (vbr s) (enabled s) (<[port := v]> (chipset s)) (int_drivers s)).

Definition int_set_handler (i : Z) (handler : vector) : M (Ints D) unit :=
  modify (fun s => set_vectors (<[i := handler]> (int_vector s)) s).

Definition int_init : M (Ints D) unit :=
  int_move_vector 908544 ;;
  for_to 0 255 (fun i => int_set_handler (INT_OFFSET_TRAP + i) int_invalid_interrupt) ;;
  for_to 2 15 (fun i => int_set_handler i int_stub_bus_error) ;;
  for_to 0 16 (fun i => int_set_handler (INT_OFFSET_TRAP + i) int_invalid_trap) ;;
  int_set_handler (SYSCALL_TRAP + INT_OFFSET_TRAP) int_syscall ;;
  int_set_handler (CHIPSET_INT_BASE + 1) int_stub ;;
  int_enable.

Definition int_perihperal_enable (n : Z) : M (Ints D) unit :=
  chipset_write (32 + n) 0 ;;
  chipset_write n 1.

(** [block]: does [kmalloc] return a block? *)
Definition int_isr_register (block : bool) (i : Z) (f : Z -> Z -> M D unit) (data : Z) : M (Ints D) Z :=
  if negb block then ret (- ENOMEM) else
  let* handlers := gets int_handler in
  let* next := need (zget handlers i) in
  modify (set_handlers (zset handlers i (MkIntHandler f data :: next))) ;;
  ret 0.

(** The handlers of a list, in its order. *)
Fixpoint run_isrs (interrupt : Z) (l : list (IntHandler D)) : M D unit :=
  match l with
  | [] => ret tt
  | handler :: next => isr handler interrupt (ih_data handler) ;; run_isrs interrupt next
  end.

Definition int_handler_internal (interrupt : Z) : M (Ints D) unit :=
  let interrupt := u32 (interrupt - INT_VECTOR_OFFSET_AVEC) in
  let* handlers := gets int_handler in
  let* l := need (zget handlers interrupt) in
  zoom int_drivers set_int_drivers (run_isrs interrupt l).

(** The vectors of the debugger, [set_debug_traps] of [gdb-stub.c]; the
    arguments are the addresses of the two entry points. *)
Definition set_debug_vectors (_catchException _debug_level7 : Z) : M (Ints D) unit :=
  for_to 2 24 (fun exception => int_set_handler exception (Function _catchException)) ;;
  int_set_handler 31 (Function _debug_level7) ;;
  int_set_handler 33 (Function _catchException) ;;
  int_set_handler 40 (Function _catchException) ;;
  for_to 48 55 (fun exception => int_set_handler exception (Function _catchException)).

(** * The vector table *)

Lemma for_to_vectors f h i0 i1 s : i0 <= i1 ->
  exists v, for_to i0 i1 (fun i => int_set_handler (f + i) h) s = Ret (tt, set_vectors v s) /\
    forall a, v !! a = if decide (f + i0 <= a < f + i1) then Some h else int_vector s !! a.
Proof.
  intros Hi.
  assert (wp (for_to i0 i1 (fun i => int_set_handler (f + i) h)) (fun _ s' => exists v, s' = set_vectors v s /\
    forall a, v !! a = if decide (f + i0 <= a < f + i1) then Some h else int_vector s !! a) s) as Hw.
  { apply (wp_for_to (fun j s' => exists v, s' = set_vectors v s /\
      forall a, v !! a = if decide (f + i0 <= a < f + j) then Some h else int_vector s !! a)); [done| | |done].
    - exists (int_vector s). split; [by destruct s|]. intros a. rewrite decide_False by lia. done.
    - intros j s' Hj (v & -> & Hv). unfold int_set_handler. rewrite wp_modify. eexists. split; [reflexivity|].
      intros a. cbn [int_vector set_vectors]. destruct (decide (f + j = a)) as [<-|Hne].
      + rewrite lookup_insert_eq, decide_True by lia. done.
      + rewrite lookup_insert_ne, Hv by done. repeat case_decide; done || lia. }
  apply wp_run in Hw as ([] & s' & Hrun & v & -> & Hv). by exists v.
Qed.

(** What the kernel puts in place of vector [i]: the entries of the CPU's
    exceptions, the traps, the first autovector, and everything else from the
    first trap on, 31 words further than the table is long. *)
Definition vector_of (i : Z) : option vector :=
  if i =? 25 then Some int_stub
  else if i =? 42 then Some int_syscall
  else if (32 <=? i) && (i <? 48) then Some int_invalid_trap
  else if (2 <=? i) && (i <? 15) then Some int_stub_bus_error
  else if (48 <=? i) && (i <? 287) then Some int_invalid_interrupt
  else None.

Lemma wp_int_init s :
  wp int_init (fun _ s' => (forall i, int_vector s' !! i = match vector_of i with Some v => Some v | None => int_vector s !! i end) /\
    int_handler s' = int_handler s /\ int_drivers s' = int_drivers s /\ vbr s' = 908544 /\ enabled s' = true) s.
Proof.
  unfold int_init. rewrite wp_bind. unfold int_move_vector at 1. rewrite wp_modify.
  set (s0 := MkInts _ _ _ _ _ _). rewrite wp_bind.
  destruct (for_to_vectors INT_OFFSET_TRAP int_invalid_interrupt 0 255 s0 ltac:(lia)) as (v1 & H1 & Hv1).
  eapply wp_eq; [exact H1|]. rewrite wp_bind.
  destruct (for_to_vectors 0 int_stub_bus_error 2 15 (set_vectors v1 s0) ltac:(lia)) as (v2 & H2 & Hv2).
  eapply wp_eq; [exact H2|]. rewrite wp_bind.
  destruct (for_to_vectors INT_OFFSET_TRAP int_invalid_trap 0 16 (set_vectors v2 s0) ltac:(lia)) as (v3 & H3 & Hv3).
  eapply wp_eq; [exact H3|]. unfold int_set_handler, int_enable. rewrite !wp_bind, !wp_modify. rewrite wp_bind, !wp_modify.
  split_and!; [|done..]. intros i. cbn [int_vector set_vectors].
  unfold vector_of, SYSCALL_TRAP, INT_OFFSET_TRAP, CHIPSET_INT_BASE in *.
  destruct (Z.eqb_spec i 25) as [->|H25]; [apply lookup_insert_eq|]. rewrite lookup_insert_ne by lia.
  destruct (Z.eqb_spec i 42) as [->|H42]; [apply lookup_insert_eq|]. rewrite lookup_insert_ne by lia.
  rewrite Hv3. cbn [int_vector set_vectors]. rewrite Hv2. cbn [int_vector set_vectors]. rewrite Hv1.
  change (int_vector s0 !! i) with (int_vector s !! i).
  repeat case_decide; repeat match goal with |- context [if ?b then _ else _] => destruct b eqn:? end; done || lia.
Qed.

(** The start of the interrupt system sets exactly the vectors of
    [vector_of] and leaves the words at every other index; the handlers are
    unchanged, the base register points to the table and interrupts are on. *)
Theorem int_init_correct s :
  wp int_init (fun _ s' => (forall i, int_vector s' !! i = match vector_of i with Some v => Some v | None => int_vector s !! i end) /\
    int_handler s' = int_handler s /\ int_drivers s' = int_drivers s /\ vbr s' = 908544 /\ enabled s' = true) s.
Proof. apply wp_int_init. Qed.

(** The debugger takes the exceptions, trap 1 and trap 8; the system calls
    and the first autovector keep their vectors. *)
Lemma set_debug_vectors_correct c7 cx s :
  wp (set_debug_vectors cx c7) (fun _ s' => int_handler s' = int_handler s /\ forall i, int_vector s' !! i =
    if decide (2 <= i < 24 \/ i = 33 \/ i = 40 \/ 48 <= i < 55) then Some (Function cx)
    else if decide (i = 31) then Some (Function c7) else int_vector s !! i) s.
Proof.
  unfold set_debug_vectors. rewrite wp_bind.
  destruct (for_to_vectors 0 (Function cx) 2 24 s ltac:(lia)) as (v1 & H1 & Hv1). eapply wp_eq; [exact H1|].
  do 3 (rewrite wp_bind; unfold int_set_handler at 1; rewrite wp_modify).
  match goal with |- wp _ _ ?s0 => destruct (for_to_vectors 0 (Function cx) 48 55 s0 ltac:(lia)) as (v2 & H2 & Hv2) end.
  eapply wp_eq; [exact H2|]. split; [done|]. intros i. cbn [int_vector set_vectors]. rewrite Hv2. cbn [int_vector set_vectors].
  destruct (decide (i = 40)) as [->|]; [by rewrite lookup_insert_eq|]. rewrite lookup_insert_ne by done.
  destruct (decide (i = 33)) as [->|]; [by rewrite lookup_insert_eq|]. rewrite lookup_insert_ne by done.
  destruct (decide (i = 31)) as [->|]; [by rewrite lookup_insert_eq|]. rewrite lookup_insert_ne by done.
  rewrite Hv1. repeat case_decide; done || lia.
Qed.

(** * The handlers *)

Lemma isr_register_eq s i f data l : 0 <= i < INTERRUPTS -> zget (int_handler s) i = Some l ->
  exists s', int_isr_register true i f data s = Ret (0, s') /\
    (forall j, j <> i -> zget (int_handler s') j = zget (int_handler s) j) /\
    int_handler_internal (i + INT_VECTOR_OFFSET_AVEC) s' =
      zoom int_drivers set_int_drivers (f i data ;; run_isrs i l) s'.
Proof.
  intros Hi Hl. unfold INTERRUPTS in Hi. unfold int_isr_register. cbn [negb].
  eexists. split; [unfold bind, gets, need; rewrite Hl; reflexivity|]. split.
  - intros j Hj. cbn [int_handler set_handlers]. apply zget_zset_ne; lia.
  - unfold int_handler_internal. rewrite Z.add_simpl_r, u32_small by lia. unfold bind at 1, gets. cbn [int_handler set_handlers].
    unfold bind at 1, need. rewrite zget_zset_eq by (by eapply zget_lt_Some). reflexivity.
Qed.

(** Several registrations for one interrupt. *)
Fixpoint register_all (i : Z) (l : list (IntHandler D)) : M (Ints D) unit :=
  match l with
  | [] => ret tt
  | h :: l' => int_isr_register true i (isr h) (ih_data h) ;; register_all i l'
  end.

(** C38. When an interrupt comes, the handlers that were registered for it are
    run, each with its data, the one registered last first; then those that
    were there before.  The handlers of other interrupts are not affected. *)
Theorem isr_register_dispatch i l : 0 <= i < INTERRUPTS -> forall s old, zget (int_handler s) i = Some old ->
  exists s', register_all i l s = Ret (tt, s') /\
    (forall j, j <> i -> zget (int_handler s') j = zget (int_handler s) j) /\
    int_handler_internal (i + INT_VECTOR_OFFSET_AVEC) s' =
      zoom int_drivers set_int_drivers (run_isrs i (reverse l ++ old)) s'.
Proof.
  intros Hi. assert (forall s old, zget (int_handler s) i = Some old -> exists s', register_all i l s = Ret (tt, s') /\
    zget (int_handler s') i = Some (reverse l ++ old) /\ forall j, j <> i -> zget (int_handler s') j = zget (int_handler s) j) as Hreg.
  { induction l as [|h l IH]; intros s old Hl; [by exists s|].
    set (s1 := set_handlers (zset (int_handler s) i (h :: old)) s).
    destruct (IH s1 (h :: old)) as (s' & Hrun & Hget & Hoth); [apply zget_zset_eq; by eapply zget_lt_Some|].
    exists s'. split; [|split].
    - cbn [register_all]. erewrite bind_Ret; [exact Hrun|]. unfold int_isr_register, bind, gets, need. cbn [negb]. rewrite Hl. by destruct h.
    - rewrite Hget, reverse_cons, <- app_assoc. done.
    - intros j Hj. rewrite Hoth by done. apply zget_zset_ne; lia. }
  intros s old Hl. destruct (Hreg s old Hl) as (s' & Hrun & Hget & Hoth). exists s'. split; [done|]. split; [done|].
  unfold int_handler_internal, INTERRUPTS in *. rewrite Z.add_simpl_r, u32_small by lia. unfold bind at 1, gets, bind, need. by rewrite Hget.
Qed.

(** The stub passes the offset of the vector, four times its number: the
    index into the handlers is that of the registered interrupt only for the
    first autovector, level [n] gets to index [4 * n - 3], and below the first
    the index is out of range. *)
Theorem vector_offset_index s (v : Z) : 0 <= v < 256 -> List.length (int_handler s) = 256%nat ->
  (v <= 24 -> int_handler_internal (4 * v) s = Fault) /\
  (25 <= v <= 31 -> int_handler_internal (4 * v) s =
    (let* l := need (zget (int_handler s) (4 * (v - 24) - 3)) in
     zoom int_drivers set_int_drivers (run_isrs (4 * (v - 24) - 3) l)) s).
Proof.
  intros Hv Hlen. unfold int_handler_internal, INT_VECTOR_OFFSET_AVEC. split; intros Hv2.
  - cbv zeta. unfold bind at 1, gets. rewrite (proj2 (zget_None _ _)); [done|].
    assert (u32 (4 * v - 99) = 4 * v - 99 + 2 ^ 32) as ->; [|lia].
    unfold u32. rewrite <- (Z.mod_add _ 1 (2 ^ 32)), Z.mod_small by lia. lia.
  - rewrite u32_small by lia. replace (4 * v - 99) with (4 * (v - 24) - 3) by lia. reflexivity.
Qed.
End ops.

(** * Witnesses *)

Definition toy_ints : Ints (list Z) := MkInts ∅ (replicate 256 []) 0 false ∅ [].

Definition toy_isr (k : Z) : IntHandler (list Z) := MkIntHandler (fun i d => modify (fun l => l ++ [k; i; d])) (10 * k).

Lemma isr_register_dispatch_witness : exists s',
  register_all 1 [toy_isr 1; toy_isr 2] toy_ints = Ret (tt, s') /\
  int_handler_internal 100 s' = Ret (tt, set_int_drivers [2; 1; 20; 1; 1; 10] s').
Proof.
  destruct (isr_register_dispatch 1 [toy_isr 1; toy_isr 2] ltac:(done) toy_ints []) as (s' & H1 & _ & H2); [done|].
  exists s'. split; [exact H1|]. injection H1 as <-. exact H2.
Defined.
Lemma vector_offset_index_witness : int_handler_internal (4 * 24) toy_ints = Fault.
Proof. apply (proj1 (vector_offset_index toy_ints 24 ltac:(lia) eq_refl)). lia. Defined.
