(* ===== verification/Modules.v ===== *)
(** Kernel modules: the registry of [kernel/module.c] and the table of
    functions of [kernel/modules/module.c].

    The registry holds pointers, 0 for an empty entry; the structures are in a
    store.  The start function of a module, and the functions of the table, work
    on the drivers' state [D]. *)

From S2P Require Import Prelude CString Types.

Definition MODULES_MAX : Z := 32.
Definition MAX_MODULES : Z := 10.

(** * The registry *)

Record KModule (D : Type) : Type := MkModule {
  mod_name : list Z;
  depends : option (list (list Z));
  mod_init : list (list Z) -> M D Z;
}.
Arguments MkModule {_} _ _ _.
Arguments mod_name {_} _.
Arguments depends {_} _.
Arguments mod_init {_} _.

Record Modules (D : Type) : Type := MkModules {
  _module_registered : list Z;
  _module_loaded : list Z;
  module_store : gmap Z (KModule D);
  module_drivers : D;
}.
Arguments MkModules {_} _ _ _ _.
Arguments _module_registered {_} _.
Arguments _module_loaded {_} _.
Arguments module_store {_} _.
Arguments module_drivers {_} _.

Section ops.
Context {D : Type}.
Implicit Types s : Modules D.

Definition set_module_registered (l : list Z) s : Modules D :=
  MkModules l (_module_loaded s) (module_store s) (module_drivers s).
Definition set_module_loaded (l : list Z) s : Modules D :=
  MkModules (_module_registered s) l (module_store s) (module_drivers s).
Definition set_module_drivers (d : D) s : Modules D :=
  MkModules (_module_registered s) (_module_loaded s) (module_store s) d.

Definition module_deref (p : Z) : M (Modules D) (KModule D) :=
  let* t := gets module_store in need (t !! p).
Definition module_registered_at (i : Z) : M (Modules D) Z :=
  let* t := gets _module_registered in need (zget t i).
Definition module_loaded_at (i : Z) : M (Modules D) Z :=
  let* t := gets _module_loaded in need (zget t i).

(** The loop of [module_register]: the index, and the free entry found last;
    [None] is the early return. *)
Definition register_step (name : list Z) (a : Z * option Z) : M (Modules D) (Z * option Z + option (option Z)) :=
  let '(i, free_spot) := a in
  if negb (i <? MODULES_MAX) then ret (inr (Some free_spot)) else
  let* p := module_registered_at i in
  if p =? 0 then ret (inl (i + 1, Some i)) else
  let* m := module_deref p in
  if strcmp_val name (mod_name m) =? 0 then ret (inr None) else ret (inl (i + 1, free_spot)).

(** The name is an array in the structure, never a null pointer. *)
Definition module_register (module : Z) : M (Modules D) Z :=
  if module =? 0 then ret (-1) else
  let* m := module_deref module in
  let* r := loop (Z.to_nat MODULES_MAX + 1) (0, None) (register_step (mod_name m)) in
  match r with
  | None => ret (-1)
  | Some None => ret (-1)
  | Some (Some i) =>
      modify (fun s => set_module_registered (zset (_module_registered s) i module) s) ;; ret 0
  end.

Definition module_is_loaded (name : list Z) : M (Modules D) bool :=
  let* r := for_range (Z.to_nat MODULES_MAX) 0 (fun i =>
    let* p := module_loaded_at i in
    if p =? 0 then ret None else
    let* m := module_deref p in
    ret (if strcmp_val name (mod_name m) =? 0 then Some tt else None)) in
  ret (match r with Some _ => true | None => false end).

(** [name] is [None] for a null pointer.  The loop that looks for the module
    compares with the name of [module], which is still the null pointer. *)
Definition module_load (name : option (list Z)) (argv : list (list Z)) : M (Modules D) Z :=
  match name with
  | None => ret (-1)
  | Some name =>
      let* loaded := module_is_loaded name in
      if loaded : bool then ret (-1) else
      let* found := for_range (Z.to_nat MODULES_MAX) 0 (fun i =>
        let* p := module_registered_at i in
        if p =? 0 then ret None else
        let* module := module_deref 0 in
        let* m := module_deref p in
        ret (if strcmp_val (mod_name module) (mod_name m) =? 0 then Some p else None)) in
      match found with
      | None => ret (-1)
      | Some p =>
          let* module := module_deref p in
          let* missing := match depends module with
            | None => ret None
            | Some l => for_range (length l) 0 (fun i =>
                let* d := need (zget l i) in
                let* loaded := module_is_loaded d in
                ret (if loaded : bool then None else Some tt))
            end in
          match missing with
          | Some _ => ret (-1)
          | None =>
              let* free_spot := for_range (Z.to_nat MODULES_MAX) 0 (fun i =>
                let* p := module_loaded_at i in ret (if p =? 0 then Some i else None)) in
              match free_spot with
              | None => ret (-1)
              | Some i =>
                  modify (fun s => set_module_loaded (zset (_module_loaded s) i p) s) ;;
                  let* r := zoom module_drivers set_module_drivers (mod_init module argv) in
                  if r <? 0 then panic else ret 0
              end
          end
      end
  end.
End ops.

(** * Properties of the registry *)

Section registry.
Context {D : Type}.
Implicit Types s : Modules D.

(** The name of the module in entry [i] of a table. *)
Definition name_at s (table : list Z) (i : Z) : option (list Z) :=
  p ← zget table i; if p =? 0 then None else mod_name <$> module_store s !! p.

(** Every entry is empty or points to a module, and no two modules have the
    same name. *)
Definition table_ok s (table : list Z) : Prop :=
  Z.of_nat (length table) = MODULES_MAX /\
  (forall i p, zget table i = Some p -> p <> 0 -> exists m, module_store s !! p = Some m /\ bytes_ok (mod_name m)) /\
  (forall i j n, name_at s table i = Some n -> name_at s table j = Some n -> i = j).

Lemma name_at_range s table i n : name_at s table i = Some n -> 0 <= i < Z.of_nat (length table).
Proof. unfold name_at. destruct (zget table i) eqn:E; [|done]. intros _. by eapply zget_lt_Some. Qed.

Lemma register_loop s n : table_ok s (_module_registered s) -> bytes_ok n -> forall k i free, 0 <= i -> i + Z.of_nat k = MODULES_MAX ->
  exists r, loop (k + 1) (i, free) (register_step n) s = Ret (r, s) /\
    ((exists j, i <= j < MODULES_MAX /\ name_at s (_module_registered s) j = Some n) /\ r = None \/
     (forall j, i <= j < MODULES_MAX -> name_at s (_module_registered s) j <> Some n) /\ exists f, r = Some f /\
       (f = free /\ (forall j, i <= j < MODULES_MAX -> zget (_module_registered s) j <> Some 0) \/
        exists j, f = Some j /\ i <= j < MODULES_MAX /\ zget (_module_registered s) j = Some 0 /\
          forall l, j < l < MODULES_MAX -> zget (_module_registered s) l <> Some 0)).
Proof.
  intros (Hlen & Hok & _) Hn. induction k as [|k IH]; intros i free Hi Hk; cbn [Nat.add].
  - exists (Some free). split.
    + apply loop_done. unfold register_step. by rewrite (proj2 (Z.ltb_ge i MODULES_MAX)) by lia.
    + right. split; [lia|]. exists free. split; [done|]. left. split; [done|lia].
  - destruct (zget_in_range (_module_registered s) i ltac:(lia)) as [p Hp].
    assert (module_registered_at i s = Ret (p, s)) as Hat.
    { unfold module_registered_at, bind, gets, need. by rewrite Hp. }
    destruct (Z.eqb_spec p 0) as [->|Hp0].
    + destruct (IH (i + 1) (Some i) ltac:(lia) ltac:(lia)) as (r & Hr & Hcase). exists r. split.
      * erewrite loop_next; [exact Hr|]. unfold register_step. rewrite (proj2 (Z.ltb_lt i MODULES_MAX)) by lia. cbn [negb].
        by rewrite (bind_Ret _ _ _ _ _ Hat).
      * assert (name_at s (_module_registered s) i = None) as Hi0 by (unfold name_at; by rewrite Hp).
        destruct Hcase as [[(j & Hj & Hnj) ->]|[Hno (f & -> & Hf)]]; [left; split; [exists j; split; [lia|done]|done]|right].
        split; [intros j Hj; destruct (decide (j = i)) as [->|]; [by rewrite Hi0|apply Hno; lia]|].
        exists f. split; [done|]. right. destruct Hf as [[-> Hf]|(j & -> & Hj & Hj0 & Hl)].
        -- exists i. split_and!; [done|lia|lia|done|]. intros l Hl. apply Hf. lia.
        -- exists j. split_and!; [done|lia|lia|done|done].
    + destruct (Hok i p Hp Hp0) as (m & Hm & Hmn).
      assert (name_at s (_module_registered s) i = Some (mod_name m)) as Hni.
      { unfold name_at. rewrite Hp. cbn. by rewrite (proj2 (Z.eqb_neq p 0)), Hm. }
      assert (register_step n (i, free) s = Ret (if strcmp_val n (mod_name m) =? 0 then inr None else inl (i + 1, free), s)) as Hstep.
      { unfold register_step. rewrite (proj2 (Z.ltb_lt i MODULES_MAX)) by lia. cbn [negb].
        rewrite (bind_Ret _ _ _ _ _ Hat).
        rewrite (proj2 (Z.eqb_neq p 0)) by done. unfold module_deref, bind, gets, need. rewrite Hm. cbv beta iota delta [ret]. by destruct (strcmp_val n (mod_name m) =? 0). }
      destruct (Z.eqb_spec (strcmp_val n (mod_name m)) 0) as [E|E]; rewrite (strcmp_val_eq _ _ Hn Hmn) in E.
      * exists None. split; [by apply loop_done|]. left. split; [exists i; split; [lia|by rewrite E]|done].
      * destruct (IH (i + 1) free ltac:(lia) ltac:(lia)) as (r & Hr & Hcase). exists r. split; [by erewrite loop_next|].
        destruct Hcase as [[(j & Hj & Hnj) ->]|[Hno (f & -> & Hf)]]; [left; split; [exists j; split; [lia|done]|done]|right].
        split; [intros j Hj; destruct (decide (j = i)) as [->|]; [rewrite Hni; congruence|apply Hno; lia]|].
        exists f. split; [done|]. destruct Hf as [[-> Hf]|(j & -> & Hj & Hj0 & Hl)]; [left|right].
        -- split; [done|]. intros j Hj. destruct (decide (j = i)) as [->|]; [rewrite Hp; congruence|apply Hf; lia].
        -- exists j. split_and!; [done|lia|lia|done|done].
Qed.

(** C39. Registering a module: a name that is taken is refused, so is any
    module when the table is full, and nothing changes; otherwise the module is
    put into the last empty entry and the names in the table stay distinct. *)
Theorem module_register_correct s p m : table_ok s (_module_registered s) -> p <> 0 -> module_store s !! p = Some m ->
  bytes_ok (mod_name m) ->
  let registered := _module_registered s in
  (exists i, name_at s registered i = Some (mod_name m)) /\ module_register p s = Ret (-1, s) \/
  (forall i, name_at s registered i <> Some (mod_name m)) /\
    ((forall i, zget registered i <> Some 0) /\ module_register p s = Ret (-1, s) \/
     exists i s', zget registered i = Some 0 /\ (forall j, i < j -> zget registered j <> Some 0) /\
       module_register p s = Ret (0, s') /\ s' = set_module_registered (zset registered i p) s /\
       table_ok s' (_module_registered s')).
Proof.
  intros Hok Hp Hm Hn. pose proof Hok as (Hlen & Hent & Hdist). cbv zeta.
  destruct (register_loop s (mod_name m) Hok Hn (Z.to_nat MODULES_MAX) 0 None ltac:(lia) ltac:(done)) as (r & Hr & Hcase).
  assert (forall i n, name_at s (_module_registered s) i = Some n -> 0 <= i < MODULES_MAX) as Hin.
  { intros i n Hi. rewrite <- Hlen. by eapply name_at_range. }
  assert (forall i, zget (_module_registered s) i = Some 0 -> 0 <= i < MODULES_MAX) as Hiz.
  { intros i Hi. rewrite <- Hlen. by eapply zget_lt_Some. }
  unfold module_register. rewrite (proj2 (Z.eqb_neq p 0)) by done.
  assert (module_deref p s = Ret (m, s)) as Hd by (unfold module_deref, bind, gets, need; by rewrite Hm).
  rewrite (bind_Ret _ _ _ _ _ Hd), (bind_Ret _ _ _ _ _ Hr).
  destruct Hcase as [[(j & Hj & Hnj) ->]|[Hno (f & -> & Hf)]]; [left; split; [by exists j|done]|right].
  split; [intros i Hi; apply (Hno i); [by apply (Hin i _ Hi)|done]|].
  destruct Hf as [[-> Hf]|(j & -> & Hj & Hj0 & Hl)].
  - left. split; [intros i Hi; apply (Hf i); [by apply Hiz|done]|done].
  - right. exists j, (set_module_registered (zset (_module_registered s) j p) s). split; [done|].
    split; [intros l Hl1 Hl2; apply (Hl l); [by pose proof (Hiz l Hl2); lia|done]|]. split; [done|]. split; [done|].
    cbn [_module_registered set_module_registered].
    assert (forall i, name_at (set_module_registered (zset (_module_registered s) j p) s) (zset (_module_registered s) j p) i =
      if decide (i = j) then Some (mod_name m) else name_at s (_module_registered s) i) as Hname.
    { intros i. unfold name_at. rewrite zget_zset by lia. cbn [module_store set_module_registered].
      destruct (decide (j = i)) as [->|Hne]; [rewrite decide_True by done|by rewrite decide_False by congruence].
      cbn. by rewrite (proj2 (Z.eqb_neq p 0)), Hm. }
    split; [by rewrite length_zset|]. split.
    + intros i q Hq Hq0. rewrite zget_zset in Hq by lia. case_decide; [simplify_eq; by exists m|by apply (Hent i)].
    + intros i l n. rewrite !Hname. repeat case_decide; subst; [done| | |by apply Hdist].
      * intros [= <-] H1. by apply Hno in H1; [|by apply (Hin l _ H1)].
      * intros H1 [= <-]. by apply Hno in H1; [|by apply (Hin i _ H1)].
Qed.

(** Is there a module with the name in a table? *)
Definition has_name s (table : list Z) (n : list Z) : bool :=
  existsb (fun i => bool_decide (name_at s table i = Some n)) (seqZ 0 MODULES_MAX).

Lemma has_name_find s table n : has_name s table n = true <-> exists i, 0 <= i < MODULES_MAX /\ name_at s table i = Some n.
Proof.
  unfold has_name. rewrite existsb_exists. setoid_rewrite bool_decide_eq_true.
  split; intros (i & H1 & H2); exists i; (split; [|done]).
  - apply list_elem_of_In, elem_of_seqZ in H1. lia.
  - apply list_elem_of_In, elem_of_seqZ. lia.
Qed.

Lemma module_is_loaded_eq s n : table_ok s (_module_loaded s) -> bytes_ok n ->
  module_is_loaded n s = Ret (has_name s (_module_loaded s) n, s).
Proof.
  intros (Hlen & Hok & _) Hn. unfold module_is_loaded.
  erewrite bind_Ret; [|apply (for_range_find _ _ _ (fun i => if bool_decide (name_at s (_module_loaded s) i = Some n) then Some tt else None))].
  - unfold ret. do 2 f_equal. symmetry. match goal with |- _ = match ?r with _ => _ end => destruct r as [[]|] eqn:Ef end.
    + apply find_from_Some in Ef as (j & Hj & Hf & _). case_bool_decide as Hnj; [|done]. apply has_name_find. exists j. split; [lia|done].
    + apply not_true_is_false. intros (j & Hj & Hnj)%has_name_find. rewrite find_from_None in Ef. specialize (Ef j ltac:(lia)).
      by rewrite bool_decide_true in Ef.
  - intros j Hj. destruct (zget_in_range (_module_loaded s) j ltac:(lia)) as [p Hp]. unfold name_at.
    unfold module_loaded_at, module_deref. unfold bind at 1 2, gets, need. rewrite Hp. cbv beta iota delta [ret mbind option_bind].
    destruct (Z.eqb_spec p 0) as [->|Hp0]; [done|]. destruct (Hok j p Hp Hp0) as (m & Hm & Hmn).
    unfold bind. rewrite Hm. cbv beta iota delta [ret]. do 2 f_equal.
    destruct (Z.eqb_spec (strcmp_val n (mod_name m)) 0) as [E|E]; rewrite (strcmp_val_eq _ _ Hn Hmn) in E; cbn [fmap option_fmap option_map].
    + subst. by rewrite bool_decide_true.
    + rewrite bool_decide_false; [done|]. congruence.
Qed.

(** C40. No module is ever loaded: [module_load] refuses a null name, a module
    that is loaded and, while nothing is registered, every name; with a module
    in the registry the search goes through the null pointer. *)
Theorem module_load_fails s name argv : table_ok s (_module_registered s) -> table_ok s (_module_loaded s) ->
  module_store s !! 0 = None -> (forall n, name = Some n -> bytes_ok n) ->
  module_load name argv s =
  match name with
  | None => Ret (-1, s)
  | Some n =>
      if has_name s (_module_loaded s) n then Ret (-1, s)
      else if forallb (Z.eqb 0) (_module_registered s) then Ret (-1, s) else Fault
  end.
Proof.
  intros (Hlen & Hok & _) Hl H0 Hn. destruct name as [n|]; [|done]. unfold module_load.
  rewrite (bind_Ret _ _ _ _ _ (module_is_loaded_eq s n Hl (Hn n eq_refl))). destruct (has_name s (_module_loaded s) n); [done|].
  assert (forall k i, 0 <= i -> i + Z.of_nat k = MODULES_MAX ->
    for_range k i (fun i => let* p := module_registered_at i in
      if p =? 0 then ret None else
      let* module := module_deref 0 in let* m := module_deref p in
      ret (if strcmp_val (mod_name module) (mod_name m) =? 0 then Some p else None)) s =
    if forallb (Z.eqb 0) (drop (Z.to_nat i) (_module_registered s)) then Ret (None, s) else Fault) as Hloop.
  { induction k as [|k IH]; intros i Hi Hk.
    - rewrite drop_ge by lia. done.
    - destruct (zget_in_range (_module_registered s) i ltac:(lia)) as [p Hp].
      assert (module_registered_at i s = Ret (p, s)) as Hat by (unfold module_registered_at, bind, gets, need; by rewrite Hp).
      unfold zget in Hp. rewrite (proj2 (Z.ltb_ge i 0)) in Hp by lia. rewrite (drop_S _ p) by done. cbn [forallb].
      destruct (Z.eqb_spec p 0) as [->|Hp0].
      + rewrite (for_range_next _ _ _ s s) by (by rewrite (bind_Ret _ _ _ _ _ Hat)). rewrite IH by lia.
        by replace (Z.to_nat (i + 1)) with (S (Z.to_nat i)) by lia.
      + rewrite (proj2 (Z.eqb_neq 0 p)) by done. apply for_range_Fault. rewrite (bind_Ret _ _ _ _ _ Hat).
        rewrite (proj2 (Z.eqb_neq p 0)) by done. apply bind_Fault. unfold module_deref, bind, gets, need. by rewrite H0. }
  unfold bind at 1. rewrite Hloop by done. change (drop (Z.to_nat 0) (_module_registered s)) with (_module_registered s). by destruct (forallb (Z.eqb 0) (_module_registered s)).
Qed.
End registry.

(** * The table of functions *)

(** [mcarr]; [None] is a null pointer.  Buffers are handed through. *)
Record ModuleCall (D : Type) : Type := MkModuleCall {
  mc_open : option (Z -> Z -> M D Z);
  mc_open_module : option (Z -> Z -> Z -> Z -> M D Z);
  mc_seek : option (Z -> Z -> Z -> M D Z);
  mc_write : option (Z -> Z -> Z -> M D Z);
  mc_read : option (Z -> Z -> Z -> M D Z);
  mc_blksize : option (Z -> M D Z);
  mc_devsize : option (Z -> M D Z);
}.
Arguments MkModuleCall {_} _ _ _ _ _ _ _.
Arguments mc_open {_} _.
Arguments mc_open_module {_} _.
Arguments mc_seek {_} _.
Arguments mc_write {_} _.
Arguments mc_read {_} _.
Arguments mc_blksize {_} _.
Arguments mc_devsize {_} _.

Section calls.
Context {D : Type} (mcarr : list (ModuleCall D)).

(** The range check, the entry and its function [f], and the call [k]; the
    check is of [checked] and the entry is that of [major]. *)
Definition module_call {F} (checked major : Z) (f : ModuleCall D -> option F) (k : F -> M D Z) : M D Z :=
  if MAX_MODULES <=? checked then ret (- EINVAL) else
  let* c := need (zget mcarr major) in
  match f c with
  | None => ret (- EPERM)
  | Some g => k g
  end.

Definition module_open (major ptr length : Z) : M D Z := module_call major major mc_open (fun f => f ptr length).
Definition module_open_device (mod_major aux major minor flags : Z) : M D Z :=
  module_call mod_major major mc_open_module (fun f => f aux major minor flags).
Definition module_seek (major pid offset whence : Z) : M D Z :=
  module_call major major mc_seek (fun f => f pid offset whence).
Definition module_write (major pid buf count : Z) : M D Z :=
  module_call major major mc_write (fun f => f pid buf count).
Definition module_read (major pid buf count : Z) : M D Z :=
  module_call major major mc_read (fun f => f pid buf count).
Definition module_blksize (major pid : Z) : M D Z := module_call major major mc_blksize (fun f => f pid).
Definition module_devsize (major pid : Z) : M D Z := module_call major major mc_devsize (fun f => f pid).

(** A call on a number that is in range never goes outside the table, and an
    entry without the function refuses. *)
Lemma module_call_correct {F} major (f : ModuleCall D -> option F) k d : 0 <= major -> Z.of_nat (length mcarr) = MAX_MODULES ->
  module_call major major f k d =
  match zget mcarr major with
  | None => Ret (- EINVAL, d)
  | Some c => match f c with None => Ret (- EPERM, d) | Some g => k g d end
  end.
Proof.
  intros Hm Hlen. unfold module_call. destruct (Z.leb_spec MAX_MODULES major) as [Hle|Hlt].
  - by rewrite (proj2 (zget_None _ _)) by lia.
  - destruct (zget_in_range mcarr major ltac:(lia)) as [c Hc]. rewrite Hc. cbv [bind need ret]. by destruct (f c).
Qed.

(** [module_open_device] checks the number of the module but uses the other
    one: any device number that is not below [MAX_MODULES] is out of range. *)
Lemma module_open_device_overrun mod_major aux major minor flags d : 0 <= mod_major < MAX_MODULES ->
  Z.of_nat (length mcarr) = MAX_MODULES -> MAX_MODULES <= major ->
  module_open_device mod_major aux major minor flags d = Fault.
Proof.
  intros Hm Hlen Hmaj. unfold module_open_device, module_call. rewrite (proj2 (Z.leb_gt MAX_MODULES mod_major)) by lia.
  by rewrite (proj2 (zget_None _ _)) by lia.
Qed.
End calls.

(** * Witnesses *)

(** A registry with one module, at 4096, and another one that is not in it. *)
Definition toy_module (n : list Z) : KModule unit := MkModule n None (fun _ => ret 0).
Definition toy_registry : Modules unit :=
  MkModules (4096 :: replicate 31 0) (replicate 32 0) {[ 4096 := toy_module [97]; 8192 := toy_module [98] ]} tt.

Lemma zget_zeros n i p : zget (replicate n 0) i = Some p -> p = 0.
Proof. unfold zget. destruct (i <? 0); [done|]. by intros [-> _]%lookup_replicate. Qed.

Lemma toy_empty_ok : table_ok toy_registry (replicate 32 0).
Proof.
  split; [done|]. split.
  - intros i p Hp. by apply zget_zeros in Hp as ->.
  - intros i j n. unfold name_at at 1. destruct (zget (replicate 32 0) i) as [p|] eqn:E; [|done].
    by apply zget_zeros in E as ->.
Qed.
Lemma toy_registered_ok : table_ok toy_registry (_module_registered toy_registry).
Proof.
  assert (forall i p, zget (4096 :: replicate 31 0) i = Some p -> p = 0 \/ i = 0 /\ p = 4096) as Hz.
  { intros i p Hp. pose proof (zget_lt_Some _ _ _ Hp) as [Hi _]. destruct (decide (i = 0)) as [->|Hne]; [right; by injection Hp|].
    left. unfold zget in Hp. rewrite (proj2 (Z.ltb_ge i 0)) in Hp by lia. destruct (Z.to_nat i) as [|k] eqn:Ek; [lia|].
    by apply lookup_replicate in Hp as [-> _]. }
  assert (forall i n, name_at toy_registry (_module_registered toy_registry) i = Some n -> i = 0) as Hi.
  { intros i n. unfold name_at. cbn [_module_registered toy_registry].
    destruct (zget (4096 :: replicate 31 0) i) as [p|] eqn:E; [|done]. apply Hz in E as [->|[-> ->]]; done. }
  split; [done|]. split.
  - intros i p Hp Hp0. apply Hz in Hp as [->|[-> ->]]; [done|]. exists (toy_module [97]). split; [done|]. by repeat constructor.
  - intros i j n H1%Hi H2%Hi. congruence.
Qed.

Lemma module_register_correct_witness : module_register 8192 toy_registry =
  Ret (0, set_module_registered (zset (_module_registered toy_registry) 31 8192) toy_registry).
Proof.
  destruct (module_register_correct toy_registry 8192 (toy_module [98]) toy_registered_ok) as [[_ H]|[_ [[_ H]|(i & s' & H1 & H2 & H & _)]]];
    [done|done|by repeat constructor|vm_compute in H; discriminate H..|]. reflexivity.
Defined.
Lemma module_load_fails_witness : module_load (Some [98]) [] toy_registry = Fault.
Proof.
  rewrite (module_load_fails toy_registry (Some [98]) [] toy_registered_ok toy_empty_ok); [reflexivity..|].
  intros n [= <-]. by repeat constructor.
Defined.
