(* ===== verification/Spi.v ===== *)
(** The SPI driver: [kernel/modules/bus/trollbook-spi.c].

    The controller is the interface [SpiHw]: reads and writes of its registers
    on its state [H].  The laws [SpiLaws] are what the driver relies on. *)

From S2P Require Import Prelude Types Mmu Elf Heap.

(** The registers of [TrollbookSpiDevice]. *)
Inductive SpiReg : Type :=
| RegData
| RegStatus
| RegSlaveselect.

(** [spi_base] is the address of the controller. *)
Class SpiHw (H : Type) : Type := {
  spi_base : Z;
  spi_read : SpiReg -> M H Z;
  spi_write : SpiReg -> Z -> M H unit;
}.

(** The bit fields of the status register, from the most significant bit. *)
Definition status_busy (w : Z) : bool := negb (field 31 1 w =? 0).
Definition status_clockdiv (w : Z) : Z := field 0 16 w.

Record TrollbookSpiContext : Type := MkSpi {
  device : Z;
  spi_slave : Z;
  bauddiv : Z;
}.

Section ops.
Context {H : Type} `{SpiHw H}.
Implicit Types (h : H) (tspi : TrollbookSpiContext).
Variable fuel : nat.

(** An access to a register of the device of a context. *)
Definition reg_read tspi (r : SpiReg) : M H Z := if device tspi =? spi_base then spi_read r else fault.
Definition reg_write tspi (r : SpiReg) (v : Z) : M H unit := if device tspi =? spi_base then spi_write r v else fault.

Definition wait_idle tspi : M H unit :=
  loop fuel tt (fun _ => let* w := reg_read tspi RegStatus in ret (if status_busy w then inl tt else inr tt)).

Definition select_slave tspi (slave : Z) : M H unit :=
  wait_idle tspi ;;
  reg_write tspi RegSlaveselect (u32 slave).

Definition send_recv_byte tspi (dat : Z) : M H Z :=
  wait_idle tspi ;;
  reg_write tspi RegData dat ;;
  wait_idle tspi ;;
  let* w := reg_read tspi RegData in
  ret (u8 w).

Definition set_clockdiv tspi : M H unit :=
  let* w := reg_read tspi RegStatus in reg_write tspi RegStatus (set_field 0 16 (bauddiv tspi) w).

Definition get_clockdiv tspi : M H Z :=
  let* w := reg_read tspi RegStatus in ret (status_clockdiv w).

(** The context is given by its private part: [None] for a null pointer, of
    the context or in it. *)
Definition activate (ctx : option TrollbookSpiContext) : M H Z :=
  match ctx with
  | None => panic
  | Some privctx => set_clockdiv privctx ;; select_slave privctx (spi_slave privctx) ;; ret 0
  end.

Definition deactivate (ctx : option TrollbookSpiContext) : M H Z :=
  match ctx with
  | None => panic
  | Some privctx => select_slave privctx 0 ;; ret 0
  end.

(** The body of the loop of [send_recv], for the [i]-th byte. *)
Definition send_turn tspi (sdata : option (list Z)) (rdata : option Z) (i : Z) (received : list Z) : M H (list Z) :=
  let* s := match sdata with None => ret 255 | Some l => need (zget l i) end in
  let* r := send_recv_byte tspi s in
  match rdata with
  | None => ret received
  | Some n => if i <? n then ret (received ++ [r]) else fault
  end.

(** [sdata] are the bytes that stand at the pointer and [rdata] the size of
    the buffer, [None] for a null pointer; the second result is what has been
    written to [rdata].  The loop tests [size] and never changes it. *)
Definition send_recv (ctx : option TrollbookSpiContext) (sdata : option (list Z)) (rdata : option Z) (size : Z) :
    M H (Z * list Z) :=
  match ctx with
  | None => panic
  | Some privctx =>
      loop fuel (0, []) (fun '(i, received) =>
        if size =? 0 then ret (inr (0, received))
        else let* received := send_turn privctx sdata rdata i received in ret (inl (i + 1, received)))
  end.
End ops.

(** [trollbook_spi_new_context] in the memory of the heap.  The words of an
    [SpiContext] are its three functions, whose addresses are [fns], and the
    private pointer; those of the private context the device, the slave and, in
    the upper half, the divider.  The device is not set. *)
Section context.
Context {W : Type} `{UserMmu W}.
Variable fuel : nat.

Definition free_context (ctx privctx : Z) : M (Heap W) Z :=
  kfree fuel privctx ;; kfree fuel ctx ;; ret 0.

Definition trollbook_spi_new_context (fns : Z * Z * Z) (slave bauddiv : Z) : M (Heap W) Z :=
  let '(f1, f2, f3) := fns in
  let* ctx := kmalloc fuel 16 in
  if ctx =? 0 then free_context ctx 0 else
  let* privctx := kmalloc fuel 10 in
  if privctx =? 0 then free_context ctx privctx else
  let* w := kload (privctx + 8) in
  kstore (privctx + 8) (set_field 16 16 bauddiv w) ;;
  kstore (privctx + 4) slave ;;
  kstore ctx f1 ;;
  kstore (ctx + 4) f2 ;;
  kstore (ctx + 8) f3 ;;
  kstore (ctx + 12) privctx ;;
  ret ctx.

(** The private context that a context in memory points to. *)
Definition context_at (h : Heap W) (ctx : Z) : option TrollbookSpiContext :=
  p ← kmem h !! (ctx + 12);
  d ← kmem h !! p;
  s ← kmem h !! (p + 4);
  b ← kmem h !! (p + 8);
  Some (MkSpi d (s32 s) (field 16 16 b)).
End context.

(** * What the driver needs of the controller *)

(** The state as the driver sees it: how many more reads of the status find
    the controller busy, the bytes sent so far, the selected slave, the divider. *)
Record SpiView : Type := MkView {
  busy_left : nat;
  sent : list Z;
  selected : Z;
  clockdiv : Z;
}.

(** [delay] bounds the time of a transfer; [reply] is what the other side
    answers while the last of the bytes is sent. *)
Class SpiLaws (H : Type) `{SpiHw H} (view : H -> SpiView) (delay : nat) (reply : list Z -> Z) : Prop := {
  status_read_ok h : wp (spi_read RegStatus) (fun w h' =>
    status_busy w = negb (busy_left (view h) =? 0)%nat /\ status_clockdiv w = clockdiv (view h) /\ 0 <= w < 2 ^ 32 /\
    view h' = MkView (pred (busy_left (view h))) (sent (view h)) (selected (view h)) (clockdiv (view h))) h;
  status_write_ok h v : 0 <= v < 2 ^ 32 -> wp (spi_write RegStatus v) (fun _ h' =>
    view h' = MkView (busy_left (view h)) (sent (view h)) (selected (view h)) (status_clockdiv v)) h;
  data_write_ok h v : busy_left (view h) = 0%nat -> 0 <= v < 256 -> wp (spi_write RegData v) (fun _ h' => exists n,
    (n <= delay)%nat /\ view h' = MkView n (sent (view h) ++ [v]) (selected (view h)) (clockdiv (view h))) h;
  data_read_ok h : busy_left (view h) = 0%nat -> wp (spi_read RegData) (fun w h' =>
    u8 w = reply (sent (view h)) /\ view h' = view h) h;
  select_ok h v : busy_left (view h) = 0%nat -> wp (spi_write RegSlaveselect v) (fun _ h' =>
    view h' = MkView 0 (sent (view h)) v (clockdiv (view h))) h;
}.

Section driver.
Context {H : Type} (view : H -> SpiView) (delay : nat) (reply : list Z -> Z) `{SpiLaws H view delay reply}.
Implicit Types (h : H) (tspi : TrollbookSpiContext).

Lemma wp_wait_idle fuel tspi h : device tspi = spi_base -> (busy_left (view h) < fuel)%nat ->
  wp (wait_idle fuel tspi) (fun _ h' => view h' = MkView 0 (sent (view h)) (selected (view h)) (clockdiv (view h))) h.
Proof.
  intros Hd Hf. unfold wait_idle, reg_read. rewrite (proj2 (Z.eqb_eq _ _)) by done.
  apply (wp_loop (fun _ h' => view h' = MkView (busy_left (view h')) (sent (view h)) (selected (view h)) (clockdiv (view h)))
    (fun _ h' => busy_left (view h'))); [by destruct (view h)|done|].
  intros [] h1 Hv. rewrite wp_bind. eapply wp_mono; [apply status_read_ok|]. intros w h2 (Hb & _ & _ & Hv2).
  rewrite wp_ret, Hb. rewrite Hv in Hv2. cbn in Hv2. destruct (Nat.eqb_spec (busy_left (view h1)) 0) as [E|E]; cbn [negb].
  - by rewrite Hv2, E.
  - rewrite Hv2. cbn. split; [done|lia].
Qed.

(** C34. A transfer: given a controller whose transfers end, the driver waits
    for the one before, sends the byte, and returns the byte that the other side
    answered with; it ends with the controller idle and its settings unchanged. *)
Theorem send_recv_byte_correct fuel tspi dat h : device tspi = spi_base -> 0 <= dat < 256 ->
  (busy_left (view h) < fuel)%nat -> (delay < fuel)%nat ->
  wp (send_recv_byte fuel tspi dat) (fun r h' => r = reply (sent (view h) ++ [dat]) /\
    view h' = MkView 0 (sent (view h) ++ [dat]) (selected (view h)) (clockdiv (view h))) h.
Proof.
  intros Hd Hdat Hf Hdelay. unfold send_recv_byte. rewrite wp_bind. eapply wp_mono; [by apply wp_wait_idle|].
  intros [] h1 Hv1. rewrite wp_bind. unfold reg_write, reg_read. rewrite (proj2 (Z.eqb_eq _ _)) by done.
  eapply wp_mono; [apply data_write_ok; [by rewrite Hv1|done]|]. intros [] h2 (n & Hn & Hv2). rewrite Hv1 in Hv2. cbn in Hv2.
  rewrite wp_bind. eapply wp_mono; [apply wp_wait_idle; [done|rewrite Hv2; cbn; lia]|]. intros [] h3 Hv3. rewrite Hv2 in Hv3. cbn in Hv3.
  rewrite wp_bind. eapply wp_mono; [apply data_read_ok; by rewrite Hv3|]. intros w h4 [Hw Hv4]. rewrite wp_ret, Hw, Hv4, Hv3. done.
Qed.

(** Activating a context: the divider and the slave of the context are
    those of the controller; whatever was sent before has been finished. *)
Theorem activate_correct fuel tspi h : device tspi = spi_base -> 0 <= bauddiv tspi < 65536 -> (busy_left (view h) < fuel)%nat ->
  wp (activate fuel (Some tspi)) (fun r h' => r = 0 /\
    view h' = MkView 0 (sent (view h)) (u32 (spi_slave tspi)) (bauddiv tspi)) h.
Proof.
  intros Hd Hb Hf. unfold activate, set_clockdiv. rewrite !wp_bind. unfold reg_read at 1. rewrite (proj2 (Z.eqb_eq _ _)) by done.
  eapply wp_mono; [apply status_read_ok|]. intros w h1 (_ & _ & Hw & Hv1). unfold reg_write at 1. rewrite (proj2 (Z.eqb_eq _ _)) by done.
  assert (0 <= set_field 0 16 (bauddiv tspi) w < 2 ^ 32) as Hrange.
  { unfold set_field, field. rewrite Z.pow_0_r, Z.div_1_r, Z.mul_1_r. change (2 ^ 16) with 65536. mod_lia. }
  eapply wp_mono; [by apply status_write_ok|]. intros [] h2 Hv2. unfold status_clockdiv in Hv2. rewrite field_set_same in Hv2 by lia.
  rewrite (Z.mod_small (bauddiv tspi)) in Hv2 by (change (2 ^ 16) with 65536; lia). rewrite Hv1 in Hv2. cbn in Hv2.
  unfold select_slave. rewrite !wp_bind. eapply wp_mono; [apply wp_wait_idle; [done|rewrite Hv2; cbn; lia]|].
  intros [] h3 Hv3. rewrite Hv2 in Hv3. cbn in Hv3. unfold reg_write. rewrite (proj2 (Z.eqb_eq _ _)) by done.
  eapply wp_mono; [apply select_ok; by rewrite Hv3|]. intros [] h4 Hv4. rewrite wp_ret. split; [done|]. by rewrite Hv4, Hv3.
Qed.
End driver.

(** C35. A transfer of a buffer never ends: whatever the controller does, for no
    size but 0 does [send_recv] return, however long it runs; with a size of 0
    it returns at once. *)
Theorem send_recv_never_returns {H} `{SpiHw H} fuel tspi sdata rdata size (h : H) :
  (size = 0 -> send_recv (S fuel) (Some tspi) sdata rdata size h = Ret ((0, []), h)) /\
  (size <> 0 -> forall r, send_recv fuel (Some tspi) sdata rdata size h <> Ret r).
Proof.
  split; [intros ->; reflexivity|]. intros Hs. apply loop_never. intros [i received] h0 x h1.
  rewrite (proj2 (Z.eqb_neq size 0)) by done. by intros (l & h2 & _ & [=])%bind_Ret_inv.
Qed.

(** * Contexts in memory *)

Section new_context.
Context {W : Type} `{UserMmu W} (lo : Z) (inv : Z -> Z -> W -> Prop) `{!HeapMmu W inv}.

(** A new context: two fresh blocks are in use, the first points to the
    second and to the functions; slave and divider are set.  The device is
    whatever the memory held. *)
Theorem trollbook_spi_new_context_correct fuel h F live f1 f2 f3 slave div : heap_rep lo h F live -> supply lo inv fuel 2 h ->
  0 <= f1 < 2 ^ 32 -> 0 <= f2 < 2 ^ 32 -> 0 <= f3 < 2 ^ 32 -> 0 <= slave < 2 ^ 31 -> 0 <= div < 65536 ->
  wp (trollbook_spi_new_context fuel (f1, f2, f3) slave div) (fun ctx h' => exists F' b1 b2 d,
    heap_rep lo h' F' (b2 :: b1 :: live) /\ kept live h h' /\ ctx = pointer b1 /\ 16 <= b1.2 /\ 10 <= b2.2 /\
    kmem h' !! ctx = Some f1 /\ kmem h' !! (ctx + 4) = Some f2 /\ kmem h' !! (ctx + 8) = Some f3 /\
    kmem h' !! (ctx + 12) = Some (pointer b2) /\ context_at h' ctx = Some (MkSpi d slave div)) h.
Proof.
  intros Hr Hsup Hf1 Hf2 Hf3 Hslave Hdiv. unfold trollbook_spi_new_context. destruct (hr_range _ _ _ _ Hr) as ([Hlo _] & _).
  rewrite wp_bind. eapply wp_mono; [by apply (kmalloc_small lo inv fuel h F live 2 16)|].
  intros ctx h1 (F1 & m1 & Hr1 & Hm1 & Hk1 & Hsup1 & Hctx & _). rewrite (proj2 (Z.eqb_neq ctx 0)), wp_bind by lia.
  eapply wp_mono; [by apply (kmalloc_small lo inv fuel h1 F1 _ 1 10 Hr1)|].
  intros p h2 (F2 & m2 & Hr2 & Hm2 & Hk2 & _ & Hp & _). rewrite (proj2 (Z.eqb_neq p 0)) by lia.
  destruct (rep_block lo h2 F2 _ _ Hr2) as ((_ & _ & Hp4 & Hm4 & _) & _ & _ & _ & [Hsep _]%Forall_cons).
  pose proof (hr_ok _ _ _ _ Hr2) as [_ [_ [(_ & _ & Hc4 & _) _]%Forall_cons]%Forall_cons]%Forall_app.
  unfold sep, bend, HEADER in *. cbn in Hp4, Hm4, Hsep, Hc4.
  set (b1 := (ctx - 8, m1)) in *. set (b2 := (p - 8, m2)) in *.
  rewrite wp_bind. eapply (wp_kload lo) with (b := b2); [exact Hr2|by left|cbn; unfold bend, HEADER; cbn; lia|mod_lia|].
  intros w Hw. store_to lo b2. store_to lo b2. store_to lo b1. store_to lo b1. store_to lo b1. store_to lo b1.
  rewrite wp_ret.
  destruct (block_mapped lo h2 F2 _ b2 p Hr2) as [d Ed]; [by left|cbn; unfold bend, HEADER; cbn; lia|mod_lia|].
  exists F2, b1, b2, d. split; [done|]. split.
  - eapply kept_trans; [exact Hk1|]. eapply kept_trans; [eapply kept_sub; [|exact Hk2]; intros ? ?; by right|].
    repeat (eapply kept_trans; [eapply kept_sub; [|eassumption]; intros ? ?; by right|]). by intros ? ? ? ?.
  - unfold pointer, context_at, b1, b2, HEADER. cbn [fst snd]. split; [lia|]. split; [done|]. split; [done|]. stored.
    split_and!; [done|done|done|f_equal; lia|].
    cbn [mbind option_bind]. stored. rewrite Ed. cbn [mbind option_bind]. stored. cbn [mbind option_bind]. stored. cbn [mbind option_bind].
    rewrite s32_small, field_u32, field_set_same by lia. by rewrite Z.mod_small by (change (2 ^ 16) with 65536; lia).
Qed.
End new_context.

(** * Witnesses *)

(** A controller that is busy for one read after each transfer and answers
    with the complement of the byte: busy, last answer, sent, slave, divider. *)
Record ToySpi : Type := MkToySpi { toy_busy : nat; toy_sent : list Z; toy_slave : Z; toy_div : Z }.
Definition toy_reply (l : list Z) : Z := 255 - default 0 (last l).
#[local] Instance toy_spi : SpiHw ToySpi := {
  spi_base := 4096;
  spi_read r := match r with
    | RegStatus => let* t := get in
        put (MkToySpi (pred (toy_busy t)) (toy_sent t) (toy_slave t) (toy_div t)) ;;
        ret ((if (toy_busy t =? 0)%nat then 0 else 2 ^ 31) + toy_div t mod 2 ^ 16)
    | _ => let* t := get in ret (u8 (toy_reply (toy_sent t)))
    end;
  spi_write r v := modify (fun t => match r with
    | RegData => MkToySpi 1 (toy_sent t ++ [v]) (toy_slave t) (toy_div t)
    | RegStatus => MkToySpi (toy_busy t) (toy_sent t) (toy_slave t) (v mod 2 ^ 16)
    | RegSlaveselect => MkToySpi (toy_busy t) (toy_sent t) v (toy_div t)
    end);
}.
Definition toy_view (t : ToySpi) : SpiView := MkView (toy_busy t) (toy_sent t) (toy_slave t) (toy_div t mod 2 ^ 16).

#[local] Instance toy_spi_laws : SpiLaws ToySpi toy_view 1 (fun l => u8 (toy_reply l)).
Proof.
  split.
  - intros t. cbn [spi_read toy_spi]. rewrite wp_bind, wp_get, wp_bind. change (wp (put ?x) ?Q t) with (Q tt x). rewrite wp_ret.
    pose proof (Z.mod_pos_bound (toy_div t) (2 ^ 16)) as Hd. unfold status_busy, status_clockdiv, toy_view, field. cbn [busy_left clockdiv].
    rewrite Z.pow_0_r, Z.div_1_r, Z.pow_1_r. change (2 ^ 16) with 65536 in *. change (2 ^ 31) with 2147483648.
    destruct (Nat.eqb_spec (toy_busy t) 0); cbn [negb]; (split; [|split; [mod_lia|split; [lia|done]]]);
      [rewrite negb_false_iff, Z.eqb_eq|rewrite negb_true_iff, Z.eqb_neq]; mod_lia.
  - intros t v Hv. cbn [spi_write toy_spi]. rewrite wp_modify. unfold toy_view, status_clockdiv, field. cbn.
    change (Z.pow_pos 2 16) with 65536. f_equal. rewrite Z.div_1_r. by rewrite Z.mod_mod.
  - intros t v Hb Hv. cbn [spi_write toy_spi]. rewrite wp_modify. by exists 1%nat.
  - intros t Hb. cbn [spi_read toy_spi]. rewrite wp_bind, wp_get, wp_ret. split; [|done]. apply Z.mod_mod. lia.
  - intros t v Hb. cbn [spi_write toy_spi]. rewrite wp_modify. unfold toy_view in *. cbn in *. by rewrite Hb.
Qed.

Definition toy_tspi : TrollbookSpiContext := MkSpi 4096 2 100.

Lemma send_recv_byte_correct_witness :
  wp (send_recv_byte 5 toy_tspi 7) (fun r h' => r = u8 (toy_reply ([1] ++ [7])) /\ toy_view h' = MkView 0 ([1] ++ [7]) 0 9) (MkToySpi 1 [1] 0 9).
Proof. apply (send_recv_byte_correct toy_view 1 (fun l => u8 (toy_reply l)) 5 toy_tspi 7 (MkToySpi 1 [1] 0 9)); [done|lia|cbn; lia|lia]. Defined.
Lemma activate_correct_witness :
  wp (activate 5 (Some toy_tspi)) (fun r h' => r = 0 /\ toy_view h' = MkView 0 [1] 2 100) (MkToySpi 1 [1] 0 9).
Proof. apply (activate_correct toy_view 1 (fun l => u8 (toy_reply l)) 5 toy_tspi (MkToySpi 1 [1] 0 9)); [done|cbn; lia|cbn; lia]. Defined.
Lemma send_recv_never_returns_witness :
  match send_recv 5 (Some toy_tspi) (Some [1; 2]) (Some 2) 2 (MkToySpi 0 [] 0 9) with Ret _ => False | _ => True end.
Proof.
  pose proof (proj2 (send_recv_never_returns 5 toy_tspi (Some [1; 2]) (Some 2) 2 (MkToySpi 0 [] 0 9)) ltac:(lia)) as Hn.
  destruct (send_recv _ _ _ _ _ _) as [r| | |]; [exact (Hn r eq_refl)|exact I..].
Defined.

#[local] Existing Instance generous_mmu.
#[local] Existing Instance generous_heap_mmu.

Lemma empty_supply n : 0 <= n <= 4 -> supply 65536 (fun _ _ _ => True) (Z.to_nat 20000) n empty_heap.
Proof. intros Hn. exists 4. unfold MMU_PAGE_SIZE. cbn [heap_end empty_heap]. change (page_up 65536) with 65536. unfold room. lia. Qed.

Lemma trollbook_spi_new_context_correct_witness : exists Q, wp (trollbook_spi_new_context (Z.to_nat 20000) (1, 2, 3) 2 100) Q empty_heap.
Proof.
  eexists. apply (trollbook_spi_new_context_correct 65536 (fun _ _ _ => True) (Z.to_nat 20000) empty_heap [[]; []; []; []; []] []);
    [apply empty_heap_rep|by apply empty_supply|lia..].
Defined.

(** The first context that is made has a null pointer for its device. *)
Lemma new_context_has_no_device :
  match trollbook_spi_new_context 10 (1, 2, 3) 2 100 empty_heap with
  | Ret (ctx, h) => context_at h ctx
  | _ => None
  end = Some (MkSpi 0 2 100).
Proof. vm_compute. reflexivity. Qed.
