(* ===== verification/Uart.v ===== *)
(** The UART driver: [kernel/modules/chardev/trollbook-uart.c].

    The port is the interface [UartHw]: reads and writes of its registers on
    its state [H].  The driver's structures are in the memory of the heap, and
    its interrupt handler in the table of [Interrupt]; the functions of the port
    find the hardware through those structures, so that they work on the heap
    and the hardware together, a [Board]. *)

From S2P Require Import Prelude Types Mmu Elf Heap Interrupt.

(** The registers of [TrollbookUartHw]. *)
Inductive UartReg : Type :=
| UartData
| UartStatus
| UartCtrl.

(** [hw] is the address of the port. *)
Class UartHw (H : Type) : Type := {
  uart_read : Z -> UartReg -> M H Z;
  uart_write : Z -> UartReg -> Z -> M H unit;
}.

(** The bit fields of [TrollbookUartRegStatus] and [TrollbookUartRegCtrl],
    from the most significant bit. *)
Definition tx_empty (w : Z) : bool := negb (field 31 1 w =? 0).
Definition rx_full (w : Z) : bool := negb (field 30 1 w =? 0).
Definition set_tx_empty_ie (b : bool) (w : Z) : Z := set_field 31 1 (Z.b2z b) w.
Definition set_rx_full_ie (b : bool) (w : Z) : Z := set_field 30 1 (Z.b2z b) w.

Section ops.
Context {H : Type} `{UartHw H}.
(** [chardev_read_callback] is not defined in the sources. *)
Variable chardev_read_callback : M H unit.

(** A change of bits of the control register. *)
Definition set_ctrl (hw : Z) (f : Z -> Z) : M H unit :=
  let* w := uart_read hw UartCtrl in uart_write hw UartCtrl (f w).

(** The functions of the port with [hw], that is [uart->private->hw]. *)
Definition uart_isr (hw : Z) : M H Z :=
  let* w := uart_read hw UartStatus in
  when (rx_full w) (set_ctrl hw (set_rx_full_ie false) ;; chardev_read_callback) ;;
  let* w := uart_read hw UartStatus in
  when (tx_empty w) (set_ctrl hw (set_tx_empty_ie false)) ;;
  ret 0.

Definition uart_putc (hw c : Z) : M H Z :=
  let* w := uart_read hw UartStatus in
  if tx_empty w then uart_write hw UartData (u32 c) ;; ret 0
  else set_ctrl hw (set_tx_empty_ie true) ;; ret (- EWOULDBLOCK).

Definition uart_getc : M H Z := ret 0.
Definition _set_baudrate (baudrate : Z) : M H Z := ret 0.
Definition _get_baudrate : M H Z := ret 0.
End ops.

(** * The port in memory *)

(** The heap and the hardware. *)
Record Board (W H : Type) : Type := MkBoard {
  bd_heap : Heap W;
  bd_hw : H;
}.
Arguments MkBoard {_ _} _ _.
Arguments bd_heap {_ _} _.
Arguments bd_hw {_ _} _.

(** The interrupt table, whose handlers work on the board. *)
Abbreviation Machine W H := (Ints (Board W H)).
Definition mc_heap {W H} (s : Machine W H) : Heap W := bd_heap (int_drivers s).

Section init.
Context {W H : Type} `{UserMmu W} `{UartHw H}.
Variable fuel : nat.
Variable chardev_read_callback : Z -> M H unit.

Definition bd_mem {A} (m : M (Heap W) A) : M (Board W H) A := zoom bd_heap (fun t s => MkBoard t (bd_hw s)) m.
Definition bd_port {A} (m : M H A) : M (Board W H) A := zoom bd_hw (fun t s => MkBoard (bd_heap s) t) m.
Definition on_heap {A} (m : M (Heap W) A) : M (Machine W H) A := zoom int_drivers set_int_drivers (bd_mem m).

(** The pointer [uart->private->hw]; nothing that the functions call writes to
    these structures, so that it is read once. *)
Definition uart_hw (uart : Z) : M (Board W H) Z :=
  let* tbuart := bd_mem (kload (uart + 16)) in bd_mem (kload tbuart).

Definition _isr (interrupt data : Z) : M (Board W H) Z :=
  let* hw := uart_hw data in bd_port (uart_isr (chardev_read_callback data) hw).
Definition _putc (uart c : Z) : M (Board W H) Z :=
  let* hw := uart_hw uart in bd_port (uart_putc hw c).

(** As an entry of the table; its result is ignored there. *)
Definition isr_entry (interrupt data : Z) : M (Board W H) unit := _isr interrupt data ;; ret tt.

(** * Making a port *)

Definition free_uart (tbuart uart : Z) : M (Machine W H) Z :=
  on_heap (kfree fuel tbuart) ;; on_heap (kfree fuel uart) ;; ret 0.

(** [fns] are the addresses of the four functions of the port.  Registering
    the handler takes another block, of the size of an [IntHandler]. *)
Definition trollbook_uart_init (fns : Z * Z * Z * Z) (base_reg interrupt : Z) : M (Machine W H) Z :=
  let '(putc, getc, set_baudrate, get_baudrate) := fns in
  let* tbuart := on_heap (kmalloc fuel 8) in
  if tbuart =? 0 then free_uart tbuart 0 else
  let* uart := on_heap (kmalloc fuel 20) in
  if uart =? 0 then free_uart tbuart uart else
  on_heap (kstore tbuart base_reg ;; kstore (tbuart + 4) interrupt ;;
           kstore uart putc ;; kstore (uart + 4) getc ;;
           kstore (uart + 8) set_baudrate ;; kstore (uart + 12) get_baudrate ;;
           kstore (uart + 16) tbuart) ;;
  let* handler := on_heap (kmalloc fuel 12) in
  let* _ := int_isr_register (negb (handler =? 0)) interrupt isr_entry uart in
  ret uart.
End init.

(** * What the driver needs of the port *)

(** The state as the driver sees it: can a byte be sent, has one come, the
    bytes sent so far, the control register. *)
Record UartView : Type := MkUartView {
  tx_ready : bool;
  rx_ready : bool;
  transmitted : list Z;
  control : Z;
}.

Class UartLaws (H : Type) `{UartHw H} (hw : Z) (view : H -> UartView) : Prop := {
  status_ok h : wp (uart_read hw UartStatus) (fun w h' => tx_empty w = tx_ready (view h) /\ rx_full w = rx_ready (view h) /\ view h' = view h) h;
  ctrl_ok h : wp (uart_read hw UartCtrl) (fun w h' => w = control (view h) /\ view h' = view h) h;
  set_ctrl_ok h v : wp (uart_write hw UartCtrl v) (fun _ h' =>
    view h' = MkUartView (tx_ready (view h)) (rx_ready (view h)) (transmitted (view h)) v) h;
  send_ok h v : tx_ready (view h) = true -> wp (uart_write hw UartData v) (fun _ h' => exists b,
    view h' = MkUartView b (rx_ready (view h)) (transmitted (view h) ++ [u8 v]) (control (view h))) h;
}.

Section driver.
Context {H : Type} (hw : Z) (view : H -> UartView) `{UartLaws H hw view}.
Implicit Types h : H.

Lemma wp_set_ctrl f h : wp (set_ctrl hw f) (fun _ h' =>
  view h' = MkUartView (tx_ready (view h)) (rx_ready (view h)) (transmitted (view h)) (f (control (view h)))) h.
Proof.
  unfold set_ctrl. rewrite wp_bind. eapply wp_mono; [apply ctrl_ok|]. intros w h1 [-> Hv].
  eapply wp_mono; [apply set_ctrl_ok|]. intros [] h2 Hv2. by rewrite Hv2, Hv.
Qed.

(** Sending a character: if the port can take it, its byte is sent and
    nothing else; if not, nothing is sent, the port is told to interrupt when it
    can, and the caller is told to wait. *)
Theorem uart_putc_correct c h :
  wp (uart_putc hw c) (fun r h' =>
    if tx_ready (view h) then r = 0 /\ transmitted (view h') = transmitted (view h) ++ [u8 c] /\ control (view h') = control (view h)
    else r = - EWOULDBLOCK /\ transmitted (view h') = transmitted (view h) /\
      field 31 1 (control (view h')) = 1 /\ field 0 31 (control (view h')) = field 0 31 (control (view h))) h.
Proof.
  unfold uart_putc. rewrite wp_bind. eapply wp_mono; [apply status_ok|]. intros w h1 (Ht & _ & Hv). rewrite Ht.
  destruct (tx_ready (view h)) eqn:E; rewrite wp_bind.
  - eapply wp_mono; [apply send_ok; by rewrite Hv|]. intros [] h2 (b & Hv2). rewrite wp_ret, Hv2, Hv. cbn. split; [done|].
    split; [|done]. do 2 f_equal. unfold u8, u32. change (2 ^ 32) with (2 ^ 8 * 2 ^ 24). by rewrite Z.rem_mul_r, Z.mul_comm, Z.mod_add, Z.mod_mod.
  - eapply wp_mono; [apply wp_set_ctrl|]. intros [] h2 Hv2. rewrite wp_ret, Hv2, Hv. cbn. split; [done|]. split; [done|].
    unfold set_tx_empty_ie. rewrite field_set_same, field_set_other by lia. done.
Qed.

(** The handler: the interrupts whose cause is present are masked, so that
    they do not come again at once; the reader is woken when a byte has come;
    nothing is sent. *)
Theorem uart_isr_masks callback h : (forall g, wp callback (fun _ g' => view g' = view g) g) ->
  wp (uart_isr callback hw) (fun r h' => r = 0 /\ transmitted (view h') = transmitted (view h) /\
    field 30 1 (control (view h')) = (if rx_ready (view h) then 0 else field 30 1 (control (view h))) /\
    field 31 1 (control (view h')) = (if tx_ready (view h) then 0 else field 31 1 (control (view h))) /\
    field 0 30 (control (view h')) = field 0 30 (control (view h))) h.
Proof.
  intros Hcb. unfold uart_isr. rewrite wp_bind. eapply wp_mono; [apply status_ok|]. intros w h1 (_ & Hrx & Hv). rewrite Hrx, wp_bind.
  assert (wp (when (rx_ready (view h)) (set_ctrl hw (set_rx_full_ie false) ;; callback)) (fun _ h' => view h' =
    MkUartView (tx_ready (view h)) (rx_ready (view h)) (transmitted (view h))
      (if rx_ready (view h) then set_rx_full_ie false (control (view h)) else control (view h))) h1) as Hw1.
  { destruct (rx_ready (view h)) eqn:E; cbn [when].
    - rewrite wp_bind. eapply wp_mono; [apply wp_set_ctrl|]. intros [] h2 Hv2. eapply wp_mono; [apply Hcb|]. intros [] h3 Hv3.
      by rewrite Hv3, Hv2, Hv, E.
    - rewrite wp_ret, Hv. destruct (view h). cbn in *. by subst. }
  eapply wp_mono; [exact Hw1|]. intros [] h2 Hv2. cbn beta in Hv2. rewrite wp_bind. eapply wp_mono; [apply status_ok|].
  intros w2 h3 (Htx & _ & Hv3). rewrite Htx, wp_bind, Hv2. cbn [tx_ready]. rewrite Hv2 in Hv3.
  destruct (tx_ready (view h)) eqn:E; cbn [when].
  - eapply wp_mono; [apply wp_set_ctrl|]. intros [] h4 Hv4. rewrite wp_ret, Hv4, Hv3. cbn. unfold set_tx_empty_ie, set_rx_full_ie.
    split; [done|]. split; [done|]. rewrite field_set_same, !field_set_other by lia.
    destruct (rx_ready (view h)); rewrite ?field_set_same, ?field_set_other by lia; done.
  - rewrite !wp_ret, Hv3. cbn. unfold set_rx_full_ie. split; [done|]. split; [done|].
    destruct (rx_ready (view h)); rewrite ?field_set_same, ?field_set_other by lia; done.
Qed.
End driver.

Section init_thm.
Context {W H : Type} `{UserMmu W} `{UartHw H} (lo : Z) (inv : Z -> Z -> W -> Prop) `{!HeapMmu W inv}.

(** The hardware behind a port whose structures are in memory. *)
Lemma uart_hw_eq uart tbuart hw (s : Board W H) :
  kmem (bd_heap s) !! (uart + 16) = Some tbuart -> kmem (bd_heap s) !! tbuart = Some hw -> uart_hw uart s = Ret (hw, s).
Proof.
  intros E1 E2. assert (forall a v, kmem (bd_heap s) !! a = Some v -> bd_mem (kload a) s = Ret (v, s)) as Hl.
  { intros a v Ha. unfold bd_mem, zoom. rewrite (kload_eq _ _ _ Ha). by destruct s. }
  unfold uart_hw. by rewrite (bind_Ret _ _ _ _ _ (Hl _ _ E1)), (Hl _ _ E2).
Qed.

Lemma isr_register_drivers {D} b i f d (s s' : Ints D) r : int_isr_register b i f d s = Ret (r, s') -> int_drivers s' = int_drivers s.
Proof.
  unfold int_isr_register, bind, gets, need, modify. destruct b; cbn [negb]; [|by intros [= _ <-]].
  destruct (zget (int_handler s) i); [|done]. by intros [= _ <-].
Qed.

Lemma wp_on_heap {A} (m : M (Heap W) A) (Q : A -> Machine W H -> Prop) s :
  wp (on_heap m) Q s <-> wp m (fun a h => Q a (set_int_drivers (MkBoard h (bd_hw (int_drivers s))) s)) (mc_heap s).
Proof. unfold on_heap, bd_mem. by rewrite !wp_zoom. Qed.

(** C33. Setting up a port: two fresh blocks hold the functions, the address of
    the hardware and the number of the interrupt, and no block in use is
    touched.  From the pointer that is returned the driver finds its hardware
    again, in the memory as it is then: a character goes to the port at that
    address, and when the interrupt comes the handler of this port runs, before
    those that were registered before, and the reader it wakes is this one's. *)
Theorem trollbook_uart_init_correct fuel callback (s : Machine W H) F live putc getc sb gb base interrupt l :
  heap_rep lo (mc_heap s) F live -> supply lo inv fuel 3 (mc_heap s) ->
  0 <= putc < 2 ^ 32 -> 0 <= getc < 2 ^ 32 -> 0 <= sb < 2 ^ 32 -> 0 <= gb < 2 ^ 32 -> 0 <= base < 2 ^ 32 ->
  0 <= interrupt < INTERRUPTS -> zget (int_handler s) interrupt = Some l ->
  wp (trollbook_uart_init fuel callback (putc, getc, sb, gb) base interrupt) (fun uart s' => exists F' b1 b2 b3,
    heap_rep lo (mc_heap s') F' (b3 :: b2 :: b1 :: live) /\ kept live (mc_heap s) (mc_heap s') /\ uart = pointer b2 /\
    (fun i => kmem (mc_heap s') !! (uart + 4 * i)) <$> [0; 1; 2; 3; 4] =
      [Some putc; Some getc; Some sb; Some gb; Some (pointer b1)] /\
    kmem (mc_heap s') !! pointer b1 = Some base /\ kmem (mc_heap s') !! (pointer b1 + 4) = Some interrupt /\
    (forall j, j <> interrupt -> zget (int_handler s') j = zget (int_handler s) j) /\
    bd_hw (int_drivers s') = bd_hw (int_drivers s) /\
    (forall c, _putc uart c (int_drivers s') = bd_port (uart_putc base c) (int_drivers s')) /\
    int_handler_internal (interrupt + INT_VECTOR_OFFSET_AVEC) s' =
      zoom int_drivers set_int_drivers ((bd_port (uart_isr (callback uart) base) ;; ret tt) ;; run_isrs interrupt l) s') s.
Proof.
  intros Hr Hsup Hf1 Hf2 Hf3 Hf4 Hbase Hint Hl. unfold trollbook_uart_init. destruct (hr_range _ _ _ _ Hr) as ([Hlo _] & _).
  rewrite wp_bind. rewrite wp_on_heap. eapply wp_mono; [by apply (kmalloc_small lo inv fuel _ F live 3 8)|].
  intros t h1 (F1 & m1 & Hr1 & Hm1 & Hk1 & Hsup1 & Ht & _). rewrite (proj2 (Z.eqb_neq t 0)), wp_bind by lia.
  rewrite wp_on_heap. cbn [mc_heap int_drivers set_int_drivers bd_heap bd_hw]. eapply wp_mono; [by apply (kmalloc_small lo inv fuel h1 F1 _ 2 20 Hr1)|].
  intros u h2 (F2 & m2 & Hr2 & Hm2 & Hk2 & Hsup2 & Hu & _). rewrite (proj2 (Z.eqb_neq u 0)) by lia.
  destruct (rep_block lo h2 F2 _ _ Hr2) as ((_ & _ & Hu4 & Hm4 & _) & _ & _ & _ & [Hsep _]%Forall_cons).
  pose proof (hr_ok _ _ _ _ Hr2) as [_ [_ [(_ & _ & Ht4 & _) _]%Forall_cons]%Forall_cons]%Forall_app.
  unfold sep, bend, HEADER in *. cbn in Hu4, Hm4, Hsep, Ht4.
  set (b1 := (t - 8, m1)) in *. set (b2 := (u - 8, m2)) in *. unfold INTERRUPTS in Hint.
  rewrite wp_bind. rewrite wp_on_heap. unfold mc_heap in *; cbn [int_drivers set_int_drivers bd_heap bd_hw int_handler] in *.
  store_to lo b1. store_to lo b1. store_to lo b2. store_to lo b2. store_to lo b2. store_to lo b2.
  eapply (wp_kstore lo) with (b := b2); [eassumption|reflexivity|cbn; unfold bend, HEADER; cbn; lia|mod_lia|intros h3 E3 Hr3 Hk3 ?].
  rewrite wp_bind. rewrite wp_on_heap. unfold mc_heap in *; cbn [int_drivers set_int_drivers bd_heap bd_hw int_handler] in *.
  assert (supply lo inv fuel 1 h3) as Hsup3 by (repeat (eapply supply_same; [eassumption|]); exact Hsup2).
  eapply wp_mono; [by apply (kmalloc_small lo inv fuel h3 F2 _ 1 12 Hr3)|].
  intros a h4 (F4 & m3 & Hr4 & Hm3 & Hk4 & _ & Ha & _). rewrite (proj2 (Z.eqb_neq a 0)) by lia. cbn [negb].
  rewrite wp_bind. set (s4 := set_int_drivers _ _).
  destruct (isr_register_eq s4 interrupt (isr_entry callback) u l ltac:(unfold INTERRUPTS; lia) Hl) as (ints & Hrun & Hoth & Hint2).
  pose proof (isr_register_drivers _ _ _ _ _ _ _ Hrun) as Hdrv. cbn [s4 int_drivers set_int_drivers] in Hdrv.
  eapply wp_eq; [exact Hrun|]. rewrite wp_ret, Hdrv. cbn [bd_heap bd_hw].
  exists F4, b1, b2, (a - HEADER, m3). split; [done|]. split.
  { eapply kept_trans; [exact Hk1|]. eapply kept_trans; [eapply kept_sub; [|exact Hk2]; intros ? ?; by right|].
    eapply (kept_trans _ _ h3); [|eapply kept_sub; [|exact Hk4]; intros ? ?; by do 2 right].
    repeat (eapply kept_trans; [eapply kept_sub; [|eassumption]; intros ? ?; by right|]). by intros ? ? ? ?. }
  split; [unfold pointer, b2, HEADER; cbn; lia|].
  assert (forall x, t <= x < t + 8 \/ u <= x < u + 20 -> kmem h4 !! x = kmem h3 !! x) as Hkeep.
  { intros x [Hx|Hx]; [apply (Hk4 b1)|apply (Hk4 b2)]; try (by left); try (right; by left); unfold bend, b1, b2, HEADER; cbn; lia. }
  unfold pointer, b1, HEADER. cbn [fst snd fmap list_fmap]. replace (t - 8 + 8) with t by lia.
  rewrite !Hkeep by lia. rewrite Z.mul_0_r, Z.add_0_r. change (4 * 1) with 4. change (4 * 2) with 8. change (4 * 3) with 12. change (4 * 4) with 16.
  assert (kmem h4 !! (u + 16) = Some t /\ kmem h4 !! t = Some base) as [Hpriv Hhw] by (rewrite !Hkeep by lia; stored; done).
  stored. rewrite Hint2. split_and!; try done.
  - intros c. unfold _putc. by erewrite bind_Ret; [|apply (uart_hw_eq u t base)].
  - unfold zoom. rewrite Hdrv. unfold isr_entry, _isr. rewrite !bind_assoc.
    by erewrite bind_Ret; [|apply (uart_hw_eq u t base)].
Qed.
End init_thm.

(** * Witnesses *)

(** A port whose state is what the driver sees. *)
#[local] Instance toy_uart : UartHw UartView := {
  uart_read _ r := gets (fun v => match r with
    | UartStatus => Z.b2z (tx_ready v) * 2 ^ 31 + Z.b2z (rx_ready v) * 2 ^ 30
    | UartCtrl => control v
    | UartData => 0
    end);
  uart_write _ r x := modify (fun v => match r with
    | UartData => MkUartView false (rx_ready v) (transmitted v ++ [u8 x]) (control v)
    | UartCtrl => MkUartView (tx_ready v) (rx_ready v) (transmitted v) x
    | UartStatus => v
    end);
}.
#[local] Instance toy_uart_laws : UartLaws UartView 8192 id.
Proof.
  split.
  - intros v. cbn [uart_read toy_uart]. rewrite wp_gets. by destruct v as [[] [] ? ?].
  - intros v. cbn [uart_read toy_uart]. by rewrite wp_gets.
  - intros v x. cbn [uart_write toy_uart]. by rewrite wp_modify.
  - intros v x Hv. cbn [uart_write toy_uart]. rewrite wp_modify. by exists false.
Qed.

Lemma uart_putc_correct_witness : wp (uart_putc 8192 65) (fun r v => r = 0 /\ transmitted v = [66; 65] /\ control v = 7)
  (MkUartView true false [66] 7).
Proof. apply (uart_putc_correct 8192 id 65 (MkUartView true false [66] 7)). Defined.

Lemma uart_isr_masks_witness : exists Q, wp (uart_isr (ret tt) 8192) Q (MkUartView true true [] (3 * 2 ^ 30)).
Proof. eexists. apply (uart_isr_masks 8192 id (ret tt) (MkUartView true true [] (3 * 2 ^ 30))). done. Defined.

#[local] Existing Instance generous_mmu.
#[local] Existing Instance generous_heap_mmu.

Definition toy_machine : Machine unit UartView :=
  MkInts ∅ (replicate 256 []) 0 false ∅ (MkBoard empty_heap (MkUartView true true [] (3 * 2 ^ 30))).

(** The port is set up and its interrupt comes: both causes are masked. *)
Lemma trollbook_uart_init_correct_witness :
  wp (let* _ := trollbook_uart_init (Z.to_nat 20000) (fun _ => ret tt) (1, 2, 3, 4) 8192 9 in
      int_handler_internal (9 + INT_VECTOR_OFFSET_AVEC))
    (fun _ s' => control (bd_hw (int_drivers s')) = 0) toy_machine.
Proof.
  rewrite wp_bind.
  eapply wp_mono; [apply (trollbook_uart_init_correct 65536 (fun _ _ _ => True) (Z.to_nat 20000) (fun _ => ret tt) toy_machine [[]; []; []; []; []] []
    1 2 3 4 8192 9 []); [apply empty_heap_rep| |unfold INTERRUPTS; lia..|done]|].
  - exists 4. unfold MMU_PAGE_SIZE. change (mc_heap toy_machine) with (empty_heap). cbn [heap_end empty_heap]. change (page_up 65536) with 65536. unfold room. lia.
  - intros uart s' (F' & b1 & b2 & b3 & _ & _ & _ & _ & _ & _ & _ & Hhw & _ & Hint). unfold wp. rewrite Hint. unfold zoom.
    destruct (int_drivers s') as [h v]. cbn [bd_hw] in Hhw. subst v. vm_compute. done.
Defined.
