(* ===== verification/Files.v ===== *)
(** The file layer from before the VFS: [kernel/file.c], the file system list
    of [kernel/modules/fs/fs.c] and [kernel/modules/fs/devfs.c]. *)

From S2P Require Import Prelude CString Types Device Printf.

(** * [kernel/file.c] *)

Definition MAX_GLOBAL_FILES : Z := 8.

Record FileDescriptor : Type := MkFileDescriptor {
  fd_major : Z;
  fd_minor : Z;
  fd_flags : Z;
  fd_pos : Z;
  fd_ino : Z;
  fd_size : Z;
  fd_ref : Z;
}.
Definition set_fd_pos (pos : Z) (f : FileDescriptor) : FileDescriptor :=
  MkFileDescriptor (fd_major f) (fd_minor f) (fd_flags f) pos (fd_ino f) (fd_size f) (fd_ref f).

Section descriptors.
(** The state is [fd_global]. *)
Abbreviation S := (list FileDescriptor).

Definition fd_at (fd : Z) : M S FileDescriptor := let* l := get in need (zget l fd).

Definition fd_alloc : M S Z :=
  let* r := for_range (Z.to_nat MAX_GLOBAL_FILES) 0 (fun i =>
    let* f := fd_at i in ret (if fd_pos f =? -1 then Some i else None)) in
  ret (default (- EMFILE) r).

Definition fd_return (fd : Z) : M S unit :=
  if (fd <? -1) || (MAX_GLOBAL_FILES <=? fd) then ret tt else
  let* f := fd_at fd in
  modify (fun l => zset l fd (set_fd_pos (-1) f)).

Definition fd_init : M S Z := for_to 0 MAX_GLOBAL_FILES fd_return ;; ret 0.

Definition fd_open : M S Z :=
  let* fd := fd_alloc in
  if fd <? 0 then ret fd else
  fd_return fd ;;
  ret (- ENOENT).

Definition fd_read : M S Z := ret 0.

(** Opening never gives a descriptor: while one is free the answer is
    [-ENOENT] and the table is unchanged, else it is [-EMFILE]. *)
Theorem fd_open_fails l : Z.of_nat (List.length l) = MAX_GLOBAL_FILES ->
  fd_open l = Ret (if existsb (fun f => fd_pos f =? -1) l then - ENOENT else - EMFILE, l).
Proof.
  intros Hlen. set (g := fun i => match zget l i with Some f => if fd_pos f =? -1 then Some i else None | None => None end).
  assert (forall i f, zget l i = Some f -> fd_at i l = Ret (f, l)) as Hat.
  { intros i f Hf. unfold fd_at, bind, get, need. by rewrite Hf. }
  assert (fd_alloc l = Ret (default (- EMFILE) (find_from 8 0 g), l)) as Halloc.
  { unfold fd_alloc. erewrite bind_Ret; [reflexivity|]. apply for_range_find. intros j Hj.
    destruct (zget_in_range l j) as [f Hf]; [unfold MAX_GLOBAL_FILES in *; lia|]. unfold g. by rewrite Hf, (bind_Ret _ _ _ _ _ (Hat j f Hf)). }
  unfold fd_open. rewrite (bind_Ret _ _ _ _ _ Halloc). destruct (find_from 8 0 g) as [i|] eqn:Ef; cbn [default from_option id].
  - apply find_from_Some in Ef as (j & Hj & Hg & _). unfold g in Hg. destruct (zget l j) as [f|] eqn:Hf; [|done].
    destruct (Z.eqb_spec (fd_pos f) (-1)) as [Ep|]; [|done]. injection Hg as <-.
    rewrite (proj2 (Z.ltb_ge j 0)) by lia. unfold fd_return, MAX_GLOBAL_FILES. rewrite (proj2 (Z.ltb_ge j (-1))), (proj2 (Z.leb_gt 8 j)) by lia.
    cbn [orb]. rewrite bind_assoc, (bind_Ret _ _ _ _ _ (Hat j f Hf)). unfold bind, modify, ret.
    assert (set_fd_pos (-1) f = f) as -> by (destruct f; cbn in *; by subst). rewrite zset_id by done.
    rewrite (proj2 (existsb_exists _ l)); [done|]. exists f. split; [|by apply Z.eqb_eq].
    apply list_elem_of_In. unfold zget in Hf. destruct (j <? 0); [done|]. by eapply list_elem_of_lookup_2.
  - change (- EMFILE <? 0) with true. cbv iota. unfold ret. do 2 f_equal.
    assert (existsb (fun f => fd_pos f =? -1) l = false) as ->; [|done].
    apply not_true_is_false. intros (f & Hf & Hp)%existsb_exists. apply list_elem_of_In, list_elem_of_lookup in Hf as [n Hn].
    pose proof (lookup_lt_Some _ _ _ Hn). rewrite find_from_None in Ef. unfold MAX_GLOBAL_FILES in Hlen. specialize (Ef (Z.of_nat n) ltac:(lia)).
    unfold g in Ef. by rewrite zget_nat, Hn, Hp in Ef.
Qed.

(** The range check of [fd_return] lets -1 pass. *)
Lemma fd_return_minus_one l : fd_return (-1) l = Fault.
Proof. reflexivity. Qed.
End descriptors.

(** The bytes [buf] stand at the pointer.  Every chunk is copied from the
    pointer, which never moves. *)
Definition write_chunk {D} (buf : list Z) (count j : Z) : M (KConsole D) unit :=
  let rest := u32 (count - Z.shiftl j 9) in
  let cnt := if 512 <? rest then 512 else rest in
  if Z.of_nat (List.length buf) <? cnt then fault else
  kconsole_write (take (Z.to_nat cnt) buf) ;; ret tt.

Definition fd_write {D} (fuel : nat) (buf : list Z) (count : Z) : M (KConsole D) Z :=
  loop fuel 0 (fun j =>
    if u32 (s32 (Z.shiftl j 9)) <? count then write_chunk buf count j ;; ret (inl (j + 1))
    else ret (inr (s32 count))).

Section write.
Context {D : Type}.

(** The text that chunk [j] puts out. *)
Definition chunk (buf : list Z) (count j : Z) : list Z := take (Z.to_nat (Z.min 512 (count - 512 * j))) buf.

Lemma write_chunk_writes buf count j : 0 <= j -> 512 * j < count < 2 ^ 31 -> count <= Z.of_nat (List.length buf) ->
  writes (write_chunk (D := D) buf count j) [chunk buf count j] tt.
Proof.
  intros Hj Hc Hlen. unfold write_chunk, chunk. rewrite Z.shiftl_mul_pow2 by lia. change (2 ^ 9) with 512.
  rewrite u32_small by lia. cbv zeta. replace (j * 512) with (512 * j) by lia. destruct (Z.ltb_spec 512 (count - 512 * j)).
  - rewrite (proj2 (Z.ltb_ge _ _)) by lia. rewrite Z.min_l by lia. apply writes_one, writes_ret.
  - rewrite (proj2 (Z.ltb_ge _ _)) by lia. rewrite Z.min_r by lia. apply writes_one, writes_ret.
Qed.

(** Writing puts out the text in chunks of 512 bytes and returns the count;
    but every chunk is a copy of the beginning of the text: only a text of at
    most 512 bytes arrives as it is. *)
Theorem fd_write_repeats buf count fuel : 0 <= count < 2 ^ 31 - 512 -> count <= Z.of_nat (List.length buf) ->
  (count + 511) / 512 < Z.of_nat fuel ->
  writes (fd_write (D := D) fuel buf count) (chunk buf count <$> seqZ 0 ((count + 511) / 512)) count.
Proof.
  intros Hc Hlen Hf. set (n := (count + 511) / 512) in *. assert (512 * (n - 1) < count <= 512 * n) as Hn by (unfold n; mod_lia).
  assert (forall k fuel j, 0 <= j -> j + Z.of_nat k = n -> (k < fuel)%nat ->
    writes (D := D) (loop fuel j (fun j => if u32 (s32 (Z.shiftl j 9)) <? count then write_chunk buf count j ;; ret (inl (j + 1))
      else ret (inr (s32 count)))) (chunk buf count <$> seqZ j (Z.of_nat k)) count) as Hloop.
  { clear Hf fuel. intros k. induction k as [|k IH]; intros fuel j Hj Hk Hfk; (destruct fuel as [|fuel]; [lia|]); rewrite loop_unfold.
    all: rewrite Z.shiftl_mul_pow2 by lia; change (2 ^ 9) with 512; rewrite s32_small, u32_small by lia.
    - rewrite (proj2 (Z.ltb_ge _ _)) by lia. intros s. rewrite s32_small by lia. done.
    - rewrite (proj2 (Z.ltb_lt _ _)) by lia. rewrite seqZ_cons by lia. rewrite fmap_cons.
      replace (Z.pred (Z.of_nat (S k))) with (Z.of_nat k) by lia. replace (Z.succ j) with (j + 1) by lia.
      intros s. rewrite bind_assoc. revert s. change (chunk buf count j :: ?l) with ([chunk buf count j] ++ l).
      eapply writes_bind; [apply write_chunk_writes; lia|]. intros s. apply IH; lia. }
  replace n with (Z.of_nat (Z.to_nat n)) by lia. apply Hloop; lia.
Qed.

End write.

(** * [kernel/modules/fs/fs.c] *)

(** An entry of the list; the end is marked by a null name. *)
Record FSList : Type := MkFSList {
  fsl_name : option (list Z);
  fsl_init : M unit Z;
  fsl_inode_lookup : option (Z -> Z -> list Z -> M unit Z);
}.

Section fs.
Context (fs_list : list FSList).

(** The state is [fs_list_len]; the functions of the entries have none. *)
Definition fs_init (fuel : nat) : M Z unit :=
  let* n := loop fuel 0 (fun i =>
    let* e := need (zget fs_list i) in
    match fsl_name e with
    | None => ret (inr i)
    | Some _ => zoom (fun _ => tt) (fun _ s => s) (fsl_init e) ;; ret (inl (i + 1))
    end) in
  put n.

Definition fs_inode_lookup (active_fs context inode : Z) (name : list Z) : M Z Z :=
  let* len := get in
  if active_fs <? len then ret (- EINVAL) else
  if active_fs <? 0 then ret (- EINVAL) else
  let* e := need (zget fs_list active_fs) in
  match fsl_inode_lookup e with
  | Some f => zoom (fun _ => tt) (fun _ s => s) (f context inode name)
  | None => fault
  end.

(** The range check is inverted: a file system that is in the list is refused,
    and any other number is used as an index, the end of the list included. *)
Lemma fs_inode_lookup_inverted l e active_fs context inode name :
  fs_list = l ++ [e] -> fsl_inode_lookup e = None ->
  fs_inode_lookup active_fs context inode name (Z.of_nat (List.length l)) =
  if active_fs <? Z.of_nat (List.length l) then Ret (- EINVAL, Z.of_nat (List.length l)) else Fault.
Proof.
  intros Hl He. unfold fs_inode_lookup, bind at 1, get. destruct (Z.ltb_spec active_fs (Z.of_nat (List.length l))) as [|Hge]; [done|].
  rewrite (proj2 (Z.ltb_ge active_fs 0)) by lia. unfold bind, need. destruct (zget fs_list active_fs) as [x|] eqn:Ex; [|done].
  subst fs_list. pose proof (zget_lt_Some _ _ _ Ex) as Hr. rewrite length_app in Hr. cbn in Hr.
  assert (active_fs = Z.of_nat (List.length l)) as -> by lia. rewrite zget_nat, lookup_app_r, Nat.sub_diag in Ex by lia.
  injection Ex as <-. unfold ret. by rewrite He.
Qed.
End fs.

(** * [kernel/modules/fs/devfs.c] *)

Definition S_IRUSR : Z := 256.
Definition S_IWUSR : Z := 128.

Section devfs.
Context {D : Type}.

(** The address of a [Device] is passed where that of a pointer is expected:
    the pointer to the device is stored in the first word of [d], its type.
    [s] is what the structure held before; after a device that is found the
    function ends without a value, which is [garbage]. *)
Definition fs_devfs_stat (garbage inode : Z) (fname : list Z) (s : stat) : M (Devices D) (Z * stat) :=
  if inode =? 0 then ret (- ENOTDIR, s) else
  let* ' (dev, d) := device_lookup_name fname in
  if dev =? 0 then ret (- ENOENT, s) else
  let d_type := default 0 d in
  ret (garbage, Stat 0 dev
    (if d_type =? 0 then Z.lor (Z.lor S_IRUSR S_IWUSR) S_IFCHR
     else if d_type =? 1 then Z.lor (Z.lor S_IRUSR S_IWUSR) S_IFBLK else st_mode s)
    1 0 0 dev 0 512 0 0).

Definition fs_devfs_instantiate (dev : Z) : M (Devices D) Z := ret 0.

(** The mode of a device is never set: a device's pointer is none of the two
    types that are looked for. *)
Lemma fs_devfs_stat_keeps_mode garbage inode fname s t r x t' : (forall i d, has_name t fname i -> zget (_device_registered t) i = Some (Some d) -> 1 < rd_device d) ->
  devices_wf t -> bytes_ok fname -> fs_devfs_stat garbage inode fname s t = Ret ((r, x), t') -> st_mode x = st_mode s.
Proof.
  intros Hptr Hw Hb H. unfold fs_devfs_stat in H. destruct (inode =? 0); [by injection H as _ <- _|].
  destruct (device_lookup_name_eq t fname Hw Hb) as [(i & d & Hi & _ & Hd & Hrun)|[_ Hrun]].
  - rewrite (bind_Ret _ _ _ _ _ Hrun) in H. specialize (Hptr i d Hi Hd). destruct (makedev i 1 =? 0); [by injection H as _ <- _|].
    injection H as _ <- _. cbn. by rewrite (proj2 (Z.eqb_neq (rd_device d) 0)), (proj2 (Z.eqb_neq (rd_device d) 1)) by lia.
  - rewrite (bind_Ret _ _ _ _ _ Hrun) in H. by injection H as _ <- _.
Qed.
End devfs.

(** * Witnesses *)

Lemma fd_open_fails_witness :
  fd_open (replicate 8 (MkFileDescriptor 0 0 0 0 0 0 0)) = Ret (- EMFILE, replicate 8 (MkFileDescriptor 0 0 0 0 0 0 0)).
Proof. apply (fd_open_fails (replicate 8 (MkFileDescriptor 0 0 0 0 0 0 0))). reflexivity. Defined.
Lemma fd_write_repeats_witness : writes (D := list Z) (fd_write 5 (replicate 600 65) 600) [replicate 512 65; replicate 88 65] 600.
Proof. apply (fd_write_repeats (replicate 600 65) 600 5); [lia|done|vm_compute; reflexivity]. Defined.
