(* ===== verification/Sd.v ===== *)
(** The SD card protocol: [kernel/modules/blockdev/spisd.c], lines 18 to 439.

    The file is compiled out, and its last part, the block device, names what
    does not exist; the protocol is complete.  It is written for an older SPI
    driver that is not in the repository: [SdBus] is that interface, and
    [SdBusLaws] says that a transfer gives the byte that the card sends next.
    A [trace] is what happens on the bus; theorems say that an operation
    does exactly a trace when the card answers as in it. *)

From S2P Require Import Prelude.

(** * The bus *)

(** What "spi.h" and "delay.h" of the older driver give. *)
Class SdBus (B : Type) : Type := {
  SPI_SLAVE_NONE : Z;
  SPI_SLAVE_SD : Z;
  spi_send_recv : Z -> M B Z;
  spi_select_slave : Z -> M B unit;
  spi_set_clockdiv : Z -> M B unit;
  dumbdelay : Z -> M B unit;
}.

Inductive SDCardType : Type :=
| SD_CARD_TYPE_INVALID
| SD_CARD_TYPE_MMC
| SD_CARD_TYPE_SD
| SD_CARD_TYPE_SDHC.
#[export] Instance SDCardType_eq_dec : EqDecision SDCardType.
Proof. solve_decision. Defined.

Definition SD_BLOCK_SIZE : Z := 512.
Definition SD_STREAM_STATUS_FAILED : Z := -2.
Definition SD_STREAM_STATUS_BEGIN : Z := -1.
Definition SD_STREAM_STATUS_DONE : Z := 0.

(** The static [type] and the bus. *)
Record Sd (B : Type) : Type := MkSd {
  card_type : SDCardType;
  sd_bus : B;
}.
Arguments MkSd {_}.
Arguments card_type {_}.
Arguments sd_bus {_}.

Section ops.
Context {B : Type} `{SdBus B}.
Implicit Types s : Sd B.

Definition set_card_type (t : SDCardType) s : Sd B := MkSd t (sd_bus s).
Definition on_bus {A} (m : M B A) : M (Sd B) A := zoom sd_bus (fun b s => MkSd (card_type s) b) m.
Definition xfer (d : Z) : M (Sd B) Z := on_bus (spi_send_recv d).
Definition sd_send (d : Z) : M (Sd B) unit := xfer d ;; ret tt.
Definition select (slave : Z) : M (Sd B) unit := on_bus (spi_select_slave slave).

(** [n] times the byte 0xFF. *)
Definition idle (n : Z) : M (Sd B) unit := for_to 0 n (fun _ => sd_send 255).
(** Send bytes one after the other. *)
Fixpoint send_all (l : list Z) : M (Sd B) unit :=
  match l with [] => ret tt | d :: l' => sd_send d ;; send_all l' end.

Definition sd_send_command (command arg : Z) : M (Sd B) unit :=
  send_all [255; 255; Z.lor (Z.land command 63) 64; u8 (Z.shiftr arg 24); u8 (Z.shiftr arg 16); u8 (Z.shiftr arg 8); u8 arg; 1].

(** At most 5002 transfers. *)
Definition sd_recv : M (Sd B) Z :=
  loop (Z.to_nat 5002) 0 (fun tries =>
    let* r := xfer 255 in
    if r =? 255 then ret (if 5000 <? tries then inr (-1) else inl (tries + 1)) else ret (inr r)).

(** * Identification *)

(** An iteration of the loop that resets the card. *)
Definition reset_turn (j : Z) : M (Sd B) (Z + bool) :=
  if 200 <? j then ret (inr false) else
  send_all [255; 255; 64; 0; 0; 0; 0; 149] ;;
  let* r := sd_recv in
  ret (if negb (r =? 1) then inl (j + 1) else inr true).

Variable fuel : nat.

(** The initialisation of the types: until the card answers 0. *)
Definition init_mmc : M (Sd B) unit :=
  loop fuel tt (fun _ => sd_send_command 1 0 ;; let* r := sd_recv in ret (if negb (r =? 0) then inl tt else inr tt)).
Definition init_sd (i : Z) : M (Sd B) unit :=
  loop fuel tt (fun _ =>
    sd_send_command 55 0 ;;
    sd_recv ;;
    sd_send_command 41 i ;;
    let* r := sd_recv in ret (if negb (r =? 0) then inl tt else inr tt)) ;;
  sd_send_command 58 0 ;;
  sd_recv ;;
  let* r := xfer 255 in
  when (Z.land r 64 =? 0) (modify (set_card_type SD_CARD_TYPE_SD)) ;;
  idle 4.

(** The answer to command 8, and then a first idea of the type; [false] if
    the card is refused. *)
Definition identify : M (Sd B) bool :=
  send_all [255; 255; 72; 0; 0; 1; 165; 105] ;;
  let* r := sd_recv in
  if negb (Z.land r 4 =? 0) then
    modify (set_card_type SD_CARD_TYPE_SD) ;;
    sd_send_command 55 0 ;;
    sd_recv ;;
    sd_send_command 41 0 ;;
    let* r := sd_recv in
    when (negb (Z.land r 4 =? 0)) (modify (set_card_type SD_CARD_TYPE_MMC)) ;;
    ret true
  else
    modify (set_card_type SD_CARD_TYPE_SDHC) ;;
    idle 2 ;;
    let* i := xfer 255 in
    if Z.land i 1 =? 0 then ret false else
    let* c := xfer 255 in
    ret (c =? 165).

Definition sd_init : M (Sd B) SDCardType :=
  on_bus (spi_set_clockdiv 165) ;;
  select SPI_SLAVE_NONE ;;
  idle 12 ;;
  select SPI_SLAVE_SD ;;
  idle 520 ;;
  let* found := loop (Z.to_nat 202) 0 reset_turn in
  if negb found then modify (set_card_type SD_CARD_TYPE_INVALID) ;; ret SD_CARD_TYPE_INVALID else
  let* ok := identify in
  if negb ok then modify (set_card_type SD_CARD_TYPE_INVALID) ;; ret SD_CARD_TYPE_INVALID else
  let* t := gets card_type in
  match t with
  | SD_CARD_TYPE_MMC => init_mmc
  | SD_CARD_TYPE_SDHC => init_sd 1073741824
  | SD_CARD_TYPE_SD => init_sd 0
  | SD_CARD_TYPE_INVALID => ret tt
  end ;;
  on_bus (spi_set_clockdiv 1) ;;
  on_bus (dumbdelay 100000) ;;
  sd_send_command 16 512 ;;
  sd_recv ;;
  select SPI_SLAVE_NONE ;;
  sd_send 255 ;;
  gets card_type.

Definition sd_poll : M (Sd B) SDCardType :=
  let* t := gets card_type in
  if decide (t = SD_CARD_TYPE_INVALID) then ret t else
  sd_send_command 13 0 ;;
  let* r := sd_recv in
  if r <? 0 then modify (set_card_type SD_CARD_TYPE_INVALID) ;; ret SD_CARD_TYPE_INVALID else
  sd_send 255 ;;
  gets card_type.

(** * Size *)

(** The fields of the two versions of the card's register. *)
Definition size_v0 (blocksize : Z) : M (Sd B) Z :=
  let* a := xfer 255 in
  let* b := xfer 255 in
  let* c := xfer 255 in
  let size := Z.lor (Z.lor (Z.shiftl (Z.land a 3) 10) (Z.shiftl b 2)) (Z.shiftr c 6) in
  let* d := xfer 255 in
  let* e := xfer 255 in
  let size_mult := Z.lor (Z.shiftl (Z.land d 3) 1) (Z.shiftr e 7) in
  ret (u32 (u32 ((size + 1) * Z.shiftl 1 (size_mult + 2)) * blocksize) / 512).
Definition size_v1 : M (Sd B) Z :=
  sd_send 255 ;;
  let* a := xfer 255 in
  let* b := xfer 255 in
  let* c := xfer 255 in
  let size := Z.lor (Z.lor (Z.shiftl (Z.land a 63) 16) (Z.shiftl b 8)) c in
  sd_send 255 ;;
  ret (u32 (size * 1024)).

Definition sd_get_card_size : M (Sd B) Z :=
  select SPI_SLAVE_SD ;;
  sd_send_command 9 0 ;;
  sd_recv ;;
  sd_recv ;;
  let* ver := xfer 255 in
  idle 4 ;;
  let* b := xfer 255 in
  let blocksize := Z.shiftl 1 (Z.land b 15) in
  let* size := match Z.shiftr ver 6 with
               | 0 => size_v0 blocksize
               | 1 => size_v1
               | _ => idle 5 ;; ret 0
               end in
  idle 7 ;;
  select SPI_SLAVE_NONE ;;
  sd_send 255 ;;
  ret size.

(** * Streams *)

(** The argument of a command for a block: an address in bytes, or the number
    of the block. *)
Definition block_arg (t : SDCardType) (sector : Z) : Z :=
  match t with SD_CARD_TYPE_MMC | SD_CARD_TYPE_SD => u32 (Z.shiftl sector 9) | _ => u32 sector end.

Definition deselect : M (Sd B) unit := select SPI_SLAVE_NONE ;; sd_send 255.
(** [if(type == SD_CARD_TYPE_INVALID) *status = FAILED]. *)
Definition check_type (status : Z) : M (Sd B) Z :=
  let* t := gets card_type in ret (if decide (t = SD_CARD_TYPE_INVALID) then SD_STREAM_STATUS_FAILED else status).

(** The results are the new [*status] and the byte; [sector] is the argument
    that the first call has. *)
Definition sd_stream_read_block (status sector : Z) : M (Sd B) (Z * Z) :=
  if status =? SD_STREAM_STATUS_BEGIN then
    select SPI_SLAVE_SD ;;
    let* t := gets card_type in
    if decide (t = SD_CARD_TYPE_INVALID) then ret (SD_STREAM_STATUS_FAILED, 0) else
    sd_send_command 17 (block_arg t sector) ;;
    let* a := sd_recv in
    let* b := sd_recv in
    ret (if (a <? 0) || (b <? 0) then SD_STREAM_STATUS_FAILED else SD_BLOCK_SIZE, 0)
  else if (status =? SD_STREAM_STATUS_DONE) || (status =? SD_STREAM_STATUS_FAILED) then ret (status, 0)
  else if status =? 1 then
    let* data := xfer 255 in
    idle 2 ;;
    let* status := check_type 0 in
    deselect ;;
    ret (status, data)
  else let* data := xfer 255 in ret (status - 1, data).

(** [while(spi_send_recv(0xFF) == 0);]. *)
Definition wait_busy : M (Sd B) unit :=
  loop fuel tt (fun _ => let* r := xfer 255 in ret (if r =? 0 then inl tt else inr tt)).

(** [arg] is the sector for the first call, the data byte for the others. *)
Definition sd_stream_write_block (status arg : Z) : M (Sd B) Z :=
  if status =? SD_STREAM_STATUS_BEGIN then
    select SPI_SLAVE_SD ;;
    let* t := gets card_type in
    if decide (t = SD_CARD_TYPE_INVALID) then ret SD_STREAM_STATUS_FAILED else
    sd_send_command 24 (block_arg t arg) ;;
    let* r := sd_recv in
    if 0 <=? r then send_all [255; 254] ;; ret SD_BLOCK_SIZE else ret SD_STREAM_STATUS_FAILED
  else if (status =? SD_STREAM_STATUS_DONE) || (status =? SD_STREAM_STATUS_FAILED) then ret status
  else if status =? 1 then
    sd_send (u8 arg) ;;
    idle 2 ;;
    sd_recv ;;
    wait_busy ;;
    sd_send 255 ;;
    let* status := check_type 0 in
    deselect ;;
    ret status
  else sd_send (u8 arg) ;; ret (status - 1).

(** [arg] is the number of sectors for the first call, the data byte for the
    others; [sector] is the first sector. *)
Definition sd_stream_write_multiple (status arg sector : Z) : M (Sd B) Z :=
  if status =? SD_STREAM_STATUS_BEGIN then
    select SPI_SLAVE_SD ;;
    let status := s32 (u32 (SD_BLOCK_SIZE * arg)) in
    let* t := gets card_type in
    if decide (t = SD_CARD_TYPE_INVALID) then ret SD_STREAM_STATUS_FAILED else
    sd_send_command 25 (block_arg t sector) ;;
    let* r := sd_recv in
    ret (if r <? 0 then SD_STREAM_STATUS_FAILED else status)
  else if (status =? SD_STREAM_STATUS_DONE) || (status =? SD_STREAM_STATUS_FAILED) then ret status
  else if status =? 1 then
    sd_send (u8 arg) ;;
    idle 2 ;;
    sd_send 253 ;;
    sd_recv ;;
    wait_busy ;;
    let* status := check_type 0 in
    deselect ;;
    ret status
  else if Z.land status 511 =? 1 then
    sd_send (u8 arg) ;;
    idle 2 ;;
    sd_recv ;;
    wait_busy ;;
    ret (status - 1)
  else
    when (Z.land status 511 =? 0) (sd_send 252) ;;
    sd_send (u8 arg) ;;
    ret (status - 1).
End ops.

(** * What happens on the bus *)

Inductive event : Type :=
| Xfer (sent got : Z)
| Select (slave : Z)
| Clockdiv (div : Z)
| Delay (n : Z).

(** The bytes of the card in a trace. *)
Definition received (tr : list event) : list Z :=
  omap (fun e => match e with Xfer _ r => Some r | _ => None end) tr.
(** Bytes that are exchanged for others, and those that are read. *)
Definition exchange (out ins : list Z) : list event := zip_with Xfer out ins.
Definition polls (ins : list Z) : list event := Xfer 255 <$> ins.

(** [coming] is what the card is going to send, [trace] what has happened. *)
Class SdBusLaws (B : Type) `{SdBus B} (coming : B -> list Z) (trace : B -> list event) : Prop := {
  send_recv_ok d b r l : coming b = r :: l ->
    exists b', spi_send_recv d b = Ret (r, b') /\ coming b' = l /\ trace b' = trace b ++ [Xfer d r];
  select_ok n b : exists b', spi_select_slave n b = Ret (tt, b') /\ coming b' = coming b /\ trace b' = trace b ++ [Select n];
  clockdiv_ok n b : exists b', spi_set_clockdiv n b = Ret (tt, b') /\ coming b' = coming b /\ trace b' = trace b ++ [Clockdiv n];
  delay_ok n b : exists b', dumbdelay n b = Ret (tt, b') /\ coming b' = coming b /\ trace b' = trace b ++ [Delay n];
}.

(** What the card sends until [sd_recv] gives [r]: it is busy for a while and
    then answers, or it never does. *)
Inductive answers : list Z -> Z -> Prop :=
| answers_byte n r : Z.of_nat n <= 5001 -> r <> 255 -> answers (replicate n 255 ++ [r]) r
| answers_never : answers (replicate (Z.to_nat 5002) 255) (-1).

(** The bytes of a command. *)
Definition frame (command arg : Z) : list Z :=
  [255; 255; Z.lor (Z.land command 63) 64; u8 (Z.shiftr arg 24); u8 (Z.shiftr arg 16); u8 (Z.shiftr arg 8); u8 arg; 1].

Lemma received_app tr tr' : received (tr ++ tr') = received tr ++ received tr'.
Proof. apply omap_app. Qed.
Lemma received_polls l : received (polls l) = l.
Proof. induction l as [|r l IH]; [done|]. cbn. by f_equal. Qed.
Lemma polls_app l k : polls (l ++ k) = polls l ++ polls k.
Proof. apply fmap_app. Qed.

(** The use that the comments of the file describe: a first call with the
    sector, then calls until the status is [DONE]; [None] for a failure. *)
Section use.
Context {B : Type} `{SdBus B}.
Variable fuel : nat.

Definition read_sector (sector : Z) : M (Sd B) (option (list Z)) :=
  let* ' (status, _) := sd_stream_read_block SD_STREAM_STATUS_BEGIN sector in
  if status =? SD_STREAM_STATUS_FAILED then ret None else
  loop fuel (status, []) (fun '(status, data) =>
    if status =? SD_STREAM_STATUS_DONE then ret (inr (Some data))
    else let* ' (status, d) := sd_stream_read_block status 0 in ret (inl (status, data ++ [d]))).

(** The calls with the bytes of the data, as long as the status asks for them. *)
Fixpoint write_bytes (write : Z -> Z -> M (Sd B) Z) (status : Z) (data : list Z) : M (Sd B) Z :=
  match data with
  | [] => ret status
  | d :: data' => let* status := write status d in write_bytes write status data'
  end.
Definition write_sector (sector : Z) (data : list Z) : M (Sd B) Z :=
  let* status := sd_stream_write_block fuel SD_STREAM_STATUS_BEGIN sector in
  write_bytes (sd_stream_write_block fuel) status data.
Definition write_sectors (sector : Z) (blocks : list (list Z)) : M (Sd B) Z :=
  let* status := sd_stream_write_multiple fuel SD_STREAM_STATUS_BEGIN (Z.of_nat (length blocks)) sector in
  write_bytes (fun status d => sd_stream_write_multiple fuel status d 0) status (mjoin blocks).
End use.

Section does.
Context {B : Type} `{SdBus B} (coming : B -> list Z) (trace : B -> list event) `{!SdBusLaws B coming trace}.
Implicit Types (t : SDCardType) (b : B).

(** When the card sends the bytes of [tr], the operation does exactly [tr],
    with the result [a]; [t] and [t'] are the types before and after. *)
Definition does {A} (m : M (Sd B) A) (t : SDCardType) (tr : list event) (a : A) (t' : SDCardType) : Prop :=
  forall b l, coming b = received tr ++ l ->
    exists b', m (MkSd t b) = Ret (a, MkSd t' b') /\ coming b' = l /\ trace b' = trace b ++ tr.

Lemma does_ret {A} (a : A) t : does (ret a) t [] a t.
Proof. intros b l Hb. exists b. split; [done|]. split; [done|]. by rewrite app_nil_r. Qed.
Lemma does_bind {A C} (m : M (Sd B) A) (f : A -> M (Sd B) C) t tr a t1 tr2 c t2 :
  does m t tr a t1 -> does (f a) t1 tr2 c t2 -> does (bind m f) t (tr ++ tr2) c t2.
Proof.
  intros Hm Hf b l Hb. rewrite received_app, <- app_assoc in Hb. destruct (Hm b _ Hb) as (b1 & E1 & Hc1 & Ht1).
  destruct (Hf b1 l Hc1) as (b2 & E2 & Hc2 & Ht2). exists b2. rewrite (bind_Ret _ _ _ _ _ E1). split; [done|]. split; [done|].
  by rewrite Ht2, Ht1, app_assoc.
Qed.
(** The first operation does nothing on the bus. *)
Lemma does_bind_pure {A C} (m : M (Sd B) A) (f : A -> M (Sd B) C) t a t1 tr c t2 :
  does m t [] a t1 -> does (f a) t1 tr c t2 -> does (bind m f) t tr c t2.
Proof. intros Hm Hf. by apply (does_bind m f t [] a t1 tr). Qed.
Lemma does_gets {A} (f : SDCardType -> A) t : does (gets (fun s => f (card_type s))) t [] (f t) t.
Proof. intros b l Hb. exists b. split; [done|]. split; [done|]. by rewrite app_nil_r. Qed.
Lemma does_type t : does (gets card_type) t [] t t.
Proof. apply (does_gets (fun t => t)). Qed.
Lemma does_set_type t t' : does (modify (set_card_type t')) t [] tt t'.
Proof. intros b l Hb. exists b. split; [done|]. split; [done|]. by rewrite app_nil_r. Qed.
Lemma does_when c m t tr : (c = true -> does m t tr tt t) -> (c = false -> tr = []) -> does (when c m) t tr tt t.
Proof. destruct c; intros H1 H2; [by apply H1|]. rewrite H2 by done. apply does_ret. Qed.

Lemma does_on_bus {A} (m : M B A) t tr a :
  (forall b l, coming b = received tr ++ l -> exists b', m b = Ret (a, b') /\ coming b' = l /\ trace b' = trace b ++ tr) ->
  does (on_bus m) t tr a t.
Proof.
  intros Hm b l Hb. destruct (Hm b l Hb) as (b' & E & Hc & Ht). exists b'. unfold on_bus, zoom. cbn [sd_bus]. by rewrite E.
Qed.
Lemma does_xfer d r t : does (xfer d) t [Xfer d r] r t.
Proof. apply does_on_bus. intros b l Hb. by apply send_recv_ok. Qed.
Lemma does_select n t : does (select n) t [Select n] tt t.
Proof. apply does_on_bus. intros b l Hb. destruct (select_ok n b) as (b' & ? & E & ?). exists b'. by rewrite E. Qed.
Lemma does_clockdiv n t : does (on_bus (spi_set_clockdiv n)) t [Clockdiv n] tt t.
Proof. apply does_on_bus. intros b l Hb. destruct (clockdiv_ok n b) as (b' & ? & E & ?). exists b'. by rewrite E. Qed.
Lemma does_delay n t : does (on_bus (dumbdelay n)) t [Delay n] tt t.
Proof. apply does_on_bus. intros b l Hb. destruct (delay_ok n b) as (b' & ? & E & ?). exists b'. by rewrite E. Qed.
Lemma does_send d r t : does (sd_send d) t [Xfer d r] tt t.
Proof. eapply (does_bind _ _ _ [_] r _ []); [apply does_xfer|apply does_ret]. Qed.

Lemma does_send_all out ins t : length ins = length out -> does (send_all out) t (exchange out ins) tt t.
Proof.
  revert ins. induction out as [|d out IH]; intros [|r ins]; [intros _; apply does_ret|done..|]. intros [= Hl].
  eapply (does_bind _ _ _ [_]); [apply does_send|by apply IH].
Qed.
Lemma does_command c arg ins t : length ins = 8%nat -> does (sd_send_command c arg) t (exchange (frame c arg) ins) tt t.
Proof. intros Hl. by apply does_send_all. Qed.

Lemma does_idle_from (i : Z) ins t :
  does (for_range (length ins) i (fun _ => sd_send 255 ;; ret (@None unit))) t (polls ins) None t.
Proof.
  revert i. induction ins as [|r ins IH]; intros i; [apply does_ret|]. cbn [length for_range].
  eapply (does_bind _ _ _ [_] None _ (polls ins)); [|apply IH].
  eapply (does_bind _ _ _ [_] tt _ []); [apply does_send|apply does_ret].
Qed.
Lemma does_idle n ins t : Z.of_nat (length ins) = n -> does (idle n) t (polls ins) tt t.
Proof.
  intros <-. unfold idle, for_to. rewrite Z.sub_0_r, Nat2Z.id.
  rewrite <- (app_nil_r (polls ins)). eapply does_bind; [apply does_idle_from|apply does_ret].
Qed.

(** The loop of [sd_recv] after [k] bytes 0xFF. *)
Lemma does_recv l r t : answers l r -> does sd_recv t (polls l) r t.
Proof.
  assert (forall n k f, Z.of_nat (k + n) <= 5001 -> (n < f)%nat -> forall x tr a,
    does (let* r := xfer 255 in if r =? 255 then ret (if 5000 <? Z.of_nat (k + n) then inr (-1) else inl (Z.of_nat (k + n) + 1)) else ret (inr r))
      t tr (inr x) t -> a = x ->
    does (loop f (Z.of_nat k) (fun tries =>
      let* r := xfer 255 in if r =? 255 then ret (if 5000 <? tries then inr (-1) else inl (tries + 1)) else ret (inr r)))
      t (polls (replicate n 255) ++ tr) a t) as Hloop.
  { intros n. induction n as [|n IH]; intros k f Hk Hf x tr a Hlast ->; (destruct f as [|f]; [lia|]); rewrite loop_unfold; cbn beta.
    - rewrite Nat.add_0_r in Hlast. change (polls (replicate 0 255) ++ tr) with tr. rewrite <- (app_nil_r tr). eapply (does_bind _ _ _ _ (inr x)); [exact Hlast|apply does_ret].
    - change (polls (replicate (S n) 255) ++ tr) with ([Xfer 255 255] ++ (polls (replicate n 255) ++ tr)).
      eapply (does_bind _ _ _ _ (inl (Z.of_nat k + 1))).
      + rewrite <- (app_nil_r [Xfer 255 255]). eapply does_bind; [apply does_xfer|]. cbn.
        rewrite (proj2 (Z.ltb_ge 5000 _)) by lia. apply does_ret.
      + cbn beta iota. replace (Z.of_nat k + 1) with (Z.of_nat (S k)) by lia. eapply (IH (S k) f); [lia|lia| |done].
        by replace (S k + n)%nat with (k + S n)%nat by lia. }
  intros [n r' Hn Hr|].
  - rewrite polls_app. apply (Hloop n 0%nat (Z.to_nat 5002) ltac:(lia) ltac:(lia) r'); [|done].
    rewrite <- (app_nil_r (polls [r'])). eapply does_bind; [apply does_xfer|]. cbn beta.
    rewrite (proj2 (Z.eqb_neq r' 255)) by done. apply does_ret.
  - replace (replicate (Z.to_nat 5002) 255) with (replicate (Z.to_nat 5001) 255 ++ [255]).
    + rewrite polls_app. apply (Hloop (Z.to_nat 5001) 0%nat (Z.to_nat 5002) ltac:(lia) ltac:(lia) (-1)); [|done].
      rewrite <- (app_nil_r (polls [255])). eapply does_bind; [apply does_xfer|]. cbn beta.
      rewrite Nat.add_0_l, Z2Nat.id by lia. apply does_ret.
    + change [255] with (replicate 1 255). rewrite <- replicate_add. f_equal.
Qed.

(** * Reading and writing blocks *)

Lemma answers_sign l r : answers l r -> Forall (fun x => 0 <= x) l -> r = -1 \/ 0 <= r.
Proof. intros [n r' _ _|] Hl; [|by left]. right. apply Forall_app in Hl as [_ Hl]. by apply Forall_cons in Hl as [? _]. Qed.

(** How a read begins, with the answers [w1] and [w2] of the card. *)
Definition read_begin t sector rs w1 w2 : list event :=
  [Select SPI_SLAVE_SD] ++ exchange (frame 17 (block_arg t sector)) rs ++ polls w1 ++ polls w2.
Lemma does_read_begin t sector rs w1 r1 w2 r2 : t <> SD_CARD_TYPE_INVALID -> length rs = 8%nat -> answers w1 r1 -> answers w2 r2 ->
  does (sd_stream_read_block SD_STREAM_STATUS_BEGIN sector) t (read_begin t sector rs w1 w2)
    (if (r1 <? 0) || (r2 <? 0) then SD_STREAM_STATUS_FAILED else SD_BLOCK_SIZE, 0) t.
Proof.
  intros Ht Hrs H1 H2. unfold sd_stream_read_block, read_begin. rewrite Z.eqb_refl.
  eapply does_bind; [by apply does_select|]. eapply does_bind_pure; [apply does_type|]. rewrite decide_False by done.
  eapply does_bind; [by apply does_command|]. eapply does_bind; [by apply does_recv|]. rewrite <- (app_nil_r (polls w2)).
  eapply does_bind; [by apply does_recv|]. apply does_ret.
Qed.

(** The end of an operation. *)
Definition done_trace (x : Z) : list event := [Select SPI_SLAVE_NONE; Xfer 255 x].
Lemma does_deselect x t : does deselect t (done_trace x) tt t.
Proof. eapply (does_bind _ _ _ [_]); [by apply does_select|by apply does_send]. Qed.
Lemma does_check_type status t : t <> SD_CARD_TYPE_INVALID -> does (check_type status) t [] status t.
Proof. intros Ht. eapply does_bind_pure; [apply does_type|]. rewrite decide_False by done. apply does_ret. Qed.

(** A call in the middle of a block and the one for its last byte. *)
Lemma does_read_middle status d t : 1 < status -> does (sd_stream_read_block status 0) t [Xfer 255 d] (status - 1, d) t.
Proof.
  intros Hs. unfold sd_stream_read_block, SD_STREAM_STATUS_BEGIN, SD_STREAM_STATUS_DONE, SD_STREAM_STATUS_FAILED.
  rewrite !(proj2 (Z.eqb_neq status _)) by lia. eapply (does_bind _ _ _ [_] _ _ []); [by apply does_xfer|apply does_ret].
Qed.
Lemma does_read_last d c1 c2 x t : t <> SD_CARD_TYPE_INVALID ->
  does (sd_stream_read_block 1 0) t (polls [d; c1; c2] ++ done_trace x) (0, d) t.
Proof.
  intros Ht. change (polls [d; c1; c2] ++ done_trace x) with ([Xfer 255 d] ++ polls [c1; c2] ++ done_trace x).
  eapply does_bind; [by apply does_xfer|]. eapply does_bind; [by apply does_idle|].
  eapply does_bind_pure; [by apply does_check_type|]. rewrite <- (app_nil_r (done_trace x)).
  eapply does_bind; [apply does_deselect|apply does_ret].
Qed.

Lemma does_read_rest t data c1 c2 x : t <> SD_CARD_TYPE_INVALID -> data <> [] -> forall fuel acc, (length data < fuel)%nat ->
  does (loop fuel (Z.of_nat (length data), acc) (fun '(status, data) =>
      if status =? SD_STREAM_STATUS_DONE then ret (inr (Some data))
      else let* ' (status, d) := sd_stream_read_block status 0 in ret (inl (status, data ++ [d]))))
    t (polls (data ++ [c1; c2]) ++ done_trace x) (Some (acc ++ data)) t.
Proof.
  intros Ht. induction data as [|d data IH]; intros Hne fuel acc Hf; [done|]. destruct fuel as [|fuel]; [cbn in Hf; lia|].
  rewrite loop_unfold. cbn beta iota. unfold SD_STREAM_STATUS_DONE at 1. rewrite (proj2 (Z.eqb_neq _ 0)) by (cbn; lia).
  destruct data as [|d' data].
  - rewrite <- (app_nil_r (polls _ ++ _)). eapply (does_bind _ _ _ _ (inl (0, acc ++ [d]))).
    + rewrite <- (app_nil_r (polls _ ++ _)). eapply does_bind; [by apply does_read_last|apply does_ret].
    + destruct fuel as [|fuel]; [cbn in Hf; lia|]. rewrite loop_unfold. cbn beta iota. change (0 =? SD_STREAM_STATUS_DONE) with true. cbv iota.
      eapply does_bind_pure; [apply does_ret|apply does_ret].
  - eapply (does_bind _ _ _ [Xfer 255 d] (inl (Z.of_nat (length (d' :: data)), acc ++ [d]))).
    + eapply (does_bind _ _ _ [_] _ _ []); [apply does_read_middle; cbn; lia|]. cbn beta iota.
      replace (Z.of_nat (length (d :: d' :: data)) - 1) with (Z.of_nat (length (d' :: data))) by (cbn; lia). apply does_ret.
    + replace (acc ++ d :: d' :: data) with ((acc ++ [d]) ++ d' :: data) by (by rewrite <- app_assoc). apply IH; [done|]. cbn in Hf |- *. lia.
Qed.

(** Reading a sector: the card is selected and gets the read command with
    the address of the sector, in bytes for the old cards and as the number of
    the sector for the large ones; when it answers twice, the 512 bytes that
    follow are the result, in order, the checksum is read, and the card is
    deselected.  When one of the answers does not come, the read fails. *)
Theorem read_sector_correct fuel t sector rs w1 r1 w2 r2 data c1 c2 x : t <> SD_CARD_TYPE_INVALID -> length rs = 8%nat ->
  answers w1 r1 -> answers w2 r2 -> length data = 512%nat -> (512 < fuel)%nat ->
  (0 <= r1 -> 0 <= r2 -> does (read_sector fuel sector) t
    (read_begin t sector rs w1 w2 ++ polls (data ++ [c1; c2]) ++ done_trace x) (Some data) t) /\
  (r1 < 0 \/ r2 < 0 -> does (read_sector fuel sector) t (read_begin t sector rs w1 w2) None t).
Proof.
  intros Ht Hrs H1 H2 Hd Hf. split.
  - intros Hr1 Hr2. eapply does_bind; [by apply does_read_begin|]. cbn beta iota.
    rewrite (proj2 (Z.ltb_ge r1 0)), (proj2 (Z.ltb_ge r2 0)) by done. cbn [orb].
    change (SD_BLOCK_SIZE =? SD_STREAM_STATUS_FAILED) with false. cbv iota.
    change SD_BLOCK_SIZE with (Z.of_nat 512). rewrite <- Hd at 1.
    apply (does_read_rest t data c1 c2 x Ht ltac:(by intros ->) fuel []). lia.
  - intros Hr. rewrite <- (app_nil_r (read_begin _ _ _ _ _)). eapply does_bind; [by apply does_read_begin|]. cbn beta iota.
    assert ((r1 <? 0) || (r2 <? 0) = true) as -> by (apply orb_true_iff; destruct Hr; [left|right]; by apply Z.ltb_lt).
    rewrite Z.eqb_refl. apply does_ret.
Qed.

(** Writing: what the card says while it is busy, and then when it is ready. *)
Lemma does_wait_busy fuel n r t : (n < fuel)%nat -> r <> 0 -> does (wait_busy fuel) t (polls (replicate n 0 ++ [r])) tt t.
Proof.
  intros Hn Hr. unfold wait_busy. revert fuel Hn. induction n as [|n IH]; intros [|fuel] Hn; [lia| |lia|]; rewrite loop_unfold; cbn beta.
  - eapply (does_bind _ _ _ [_] (inr tt) _ []); [|apply does_ret]. eapply (does_bind _ _ _ [_] _ _ []); [apply does_xfer|].
    rewrite (proj2 (Z.eqb_neq r 0)) by done. apply does_ret.
  - eapply (does_bind _ _ _ [_] (inl tt)); [|apply IH; lia]. eapply (does_bind _ _ _ [_] _ _ []); [apply does_xfer|apply does_ret].
Qed.

Lemma write_bytes_app (write : Z -> Z -> M (Sd B) Z) l k st s :
  write_bytes write st (l ++ k) s = (let* st' := write_bytes write st l in write_bytes write st' k) s.
Proof.
  revert st s. induction l as [|d l IH]; intros st s; [done|]. cbn [app write_bytes]. rewrite bind_assoc.
  apply bind_cong; [done|]. intros st' s' _. apply IH.
Qed.
Lemma does_write_app (write : Z -> Z -> M (Sd B) Z) l k st st1 st2 tr tr2 t :
  does (write_bytes write st l) t tr st1 t -> does (write_bytes write st1 k) t tr2 st2 t ->
  does (write_bytes write st (l ++ k)) t (tr ++ tr2) st2 t.
Proof. intros H1 H2 b rest Hb. rewrite write_bytes_app. by apply (does_bind _ _ _ _ _ _ _ _ _ H1 H2). Qed.

Lemma does_write_one (write : Z -> Z -> M (Sd B) Z) st d tr st' t : does (write st d) t tr st' t -> does (write_bytes write st [d]) t tr st' t.
Proof. intros Hw. cbn [write_bytes]. rewrite <- (app_nil_r tr). eapply does_bind; [exact Hw|apply does_ret]. Qed.

(** Calls that only send their byte. *)
Lemma does_write_run (write : Z -> Z -> M (Sd B) Z) lo hi t :
  (forall j d r, lo < j <= hi -> does (write j d) t [Xfer (u8 d) r] (j - 1) t) ->
  forall l ins st, length ins = length l -> lo <= st - Z.of_nat (length l) -> st <= hi ->
    does (write_bytes write st l) t (exchange (u8 <$> l) ins) (st - Z.of_nat (length l)) t.
Proof.
  intros Hw. induction l as [|d l IH]; intros [|r ins] st Hl Hlo Hhi; [|done..|]; cbn [write_bytes length] in *.
  - rewrite Z.sub_0_r. apply does_ret.
  - eapply (does_bind _ _ _ [_]); [apply (Hw st d r); lia|]. replace (st - Z.of_nat (S (length l))) with (st - 1 - Z.of_nat (length l)) by lia.
    apply IH; lia.
Qed.

(** How a write begins, with the answer [w]. *)
Lemma does_write_begin fuel t sector rs w r x1 x2 : t <> SD_CARD_TYPE_INVALID -> length rs = 8%nat -> answers w r ->
  (0 <= r -> does (sd_stream_write_block fuel SD_STREAM_STATUS_BEGIN sector) t
    ([Select SPI_SLAVE_SD] ++ exchange (frame 24 (block_arg t sector)) rs ++ polls w ++ exchange [255; 254] [x1; x2]) SD_BLOCK_SIZE t) /\
  (r < 0 -> does (sd_stream_write_block fuel SD_STREAM_STATUS_BEGIN sector) t
    ([Select SPI_SLAVE_SD] ++ exchange (frame 24 (block_arg t sector)) rs ++ polls w) SD_STREAM_STATUS_FAILED t).
Proof.
  intros Ht Hrs Hw. unfold sd_stream_write_block. rewrite Z.eqb_refl. split; intros Hr;
    (eapply does_bind; [by apply does_select|]; eapply does_bind_pure; [apply does_type|]; rewrite decide_False by done;
     eapply does_bind; [by apply does_command|]).
  - eapply does_bind; [by apply does_recv|]. rewrite (proj2 (Z.leb_le 0 r)) by done. rewrite <- (app_nil_r (exchange _ [x1; x2])).
    eapply does_bind; [by apply does_send_all|apply does_ret].
  - rewrite <- (app_nil_r (polls w)). eapply does_bind; [by apply does_recv|]. rewrite (proj2 (Z.leb_gt 0 r)) by done. apply does_ret.
Qed.
Lemma does_write_middle fuel j d r t : 1 < j <= SD_BLOCK_SIZE -> does (sd_stream_write_block fuel j d) t [Xfer (u8 d) r] (j - 1) t.
Proof.
  intros Hj. unfold sd_stream_write_block, SD_STREAM_STATUS_BEGIN, SD_STREAM_STATUS_DONE, SD_STREAM_STATUS_FAILED.
  rewrite !(proj2 (Z.eqb_neq j _)) by lia. eapply (does_bind _ _ _ [_] _ _ []); [apply does_send|apply does_ret].
Qed.
Lemma does_write_last fuel d r c1 c2 w a n z x y t : t <> SD_CARD_TYPE_INVALID -> answers w a -> (n < fuel)%nat -> z <> 0 ->
  does (sd_stream_write_block fuel 1 d) t
    ([Xfer (u8 d) r] ++ polls [c1; c2] ++ polls w ++ polls (replicate n 0 ++ [z]) ++ [Xfer 255 x] ++ done_trace y) 0 t.
Proof.
  intros Ht Hw Hn Hz. unfold sd_stream_write_block. change (1 =? SD_STREAM_STATUS_BEGIN) with false.
  change ((1 =? SD_STREAM_STATUS_DONE) || (1 =? SD_STREAM_STATUS_FAILED)) with false. change (1 =? 1) with true. cbv iota.
  eapply does_bind; [apply does_send|]. eapply does_bind; [by apply does_idle|]. eapply does_bind; [by apply does_recv|].
  eapply does_bind; [by apply does_wait_busy|]. eapply does_bind; [apply does_send|].
  eapply does_bind_pure; [by apply does_check_type|]. rewrite <- (app_nil_r (done_trace y)).
  eapply does_bind; [apply does_deselect|apply does_ret].
Qed.

(** Writing a sector: after the write command and its answer the card gets
    the data token, the 512 bytes in order and two bytes of checksum; the driver
    waits for its response and until it is no longer busy, and deselects it. *)
Theorem write_sector_correct fuel t sector rs w1 r1 x1 x2 data ins c1 c2 w2 r2 n z x y :
  t <> SD_CARD_TYPE_INVALID -> length rs = 8%nat -> answers w1 r1 -> 0 <= r1 -> length data = 512%nat -> length ins = 512%nat ->
  answers w2 r2 -> (n < fuel)%nat -> z <> 0 ->
  does (write_sector fuel sector data) t
    (([Select SPI_SLAVE_SD] ++ exchange (frame 24 (block_arg t sector)) rs ++ polls w1 ++ exchange [255; 254] [x1; x2]) ++
     exchange (u8 <$> data) ins ++ polls [c1; c2] ++ polls w2 ++ polls (replicate n 0 ++ [z]) ++ [Xfer 255 x] ++ done_trace y) 0 t.
Proof.
  intros Ht Hrs H1 Hr1 Hd Hi H2 Hn Hz. unfold write_sector. eapply does_bind; [by eapply does_write_begin|].
  destruct data as [|dl data _] using rev_ind; [done|]. destruct ins as [|rl ins _] using rev_ind; [done|].
  rewrite length_app in Hd, Hi. cbn in Hd, Hi. rewrite fmap_app. unfold exchange. rewrite zip_with_app by (rewrite length_fmap; lia).
  rewrite <- app_assoc. apply (does_write_app _ _ _ _ 1).
  - replace 1 with (SD_BLOCK_SIZE - Z.of_nat (length data)) by (unfold SD_BLOCK_SIZE; lia).
    apply (does_write_run _ 1 SD_BLOCK_SIZE); [intros j d r Hj; by apply does_write_middle|lia|unfold SD_BLOCK_SIZE; lia|done].
  - apply does_write_one. by eapply does_write_last.
Qed.

(** ** Several sectors *)

(** A block and what the card does while it is written: the bytes that it
    sends for the token and the data and for the checksum, its response, how
    long it is busy, and that it is ready. *)
Record card_block : Type := MkCardBlock {
  cb_data : list Z;
  cb_ins : list Z;
  cb_sum : Z * Z;
  cb_response : list Z;
  cb_busy : nat;
  cb_ready : Z;
}.
Definition block_ok (fuel : nat) (c : card_block) : Prop :=
  length (cb_data c) = 512%nat /\ length (cb_ins c) = 513%nat /\ (exists r, answers (cb_response c) r) /\
  (cb_busy c < fuel)%nat /\ cb_ready c <> 0.
(** The token and the data, the checksum, and the end of a block. *)
Definition block_data (c : card_block) : list event := exchange (252 :: (u8 <$> cb_data c)) (cb_ins c) ++ polls [(cb_sum c).1; (cb_sum c).2].
Definition block_end (c : card_block) : list event := polls (cb_response c) ++ polls (replicate (cb_busy c) 0 ++ [cb_ready c]).
Definition block_trace (c : card_block) : list event := block_data c ++ block_end c.
(** The last block has a stop token. *)
Definition last_trace (c : card_block) (x y : Z) : list event := block_data c ++ [Xfer 253 x] ++ block_end c ++ done_trace y.

Abbreviation write_multiple fuel := (fun status d => sd_stream_write_multiple fuel status d 0).

Lemma status_low k j : 0 <= j < 512 -> Z.land (512 * k + j) 511 = j.
Proof.
  intros Hj. change 511 with (Z.ones 9). rewrite Z.land_ones by done. change (2 ^ 9) with 512.
  rewrite Z.add_comm, Z.mul_comm, Z.mod_add by done. by apply Z.mod_small.
Qed.
Lemma multiple_status fuel st d : 1 < st ->
  sd_stream_write_multiple fuel st d 0 =
  (if Z.land st 511 =? 1 then sd_send (u8 d) ;; idle 2 ;; sd_recv ;; wait_busy fuel ;; ret (st - 1)
   else when (Z.land st 511 =? 0) (sd_send 252) ;; sd_send (u8 d) ;; ret (st - 1)).
Proof.
  intros Hs. unfold sd_stream_write_multiple, SD_STREAM_STATUS_BEGIN, SD_STREAM_STATUS_DONE, SD_STREAM_STATUS_FAILED.
  by rewrite !(proj2 (Z.eqb_neq st _)) by lia.
Qed.
Lemma does_multiple_first fuel k d r0 r t : 1 <= k ->
  does (write_multiple fuel (512 * k) d) t (exchange [252; u8 d] [r0; r]) (512 * k - 1) t.
Proof.
  intros Hk. cbn beta. rewrite multiple_status by lia. replace (Z.land (512 * k) 511) with 0 by (rewrite <- (status_low k 0) at 1 by lia; f_equal; lia).
  change (0 =? 1) with false. change (0 =? 0) with true. cbv iota. cbn [when].
  eapply (does_bind _ _ _ [_] _ _ [_]); [apply does_send|]. eapply (does_bind _ _ _ [_] _ _ []); [apply does_send|apply does_ret].
Qed.
Lemma does_multiple_middle fuel k j d r t : 0 <= k -> 512 * k + 1 < j <= 512 * k + 511 ->
  does (write_multiple fuel j d) t [Xfer (u8 d) r] (j - 1) t.
Proof.
  intros Hk Hj. cbn beta. rewrite multiple_status by lia.
  assert (Z.land j 511 = j - 512 * k) as -> by (rewrite <- (status_low k (j - 512 * k)) by lia; f_equal; lia).
  rewrite (proj2 (Z.eqb_neq _ 1)), (proj2 (Z.eqb_neq _ 0)) by lia.
  eapply does_bind_pure; [apply does_ret|]. eapply (does_bind _ _ _ [_] _ _ []); [apply does_send|apply does_ret].
Qed.
Lemma does_multiple_next fuel k d r c1 c2 w a n z t : 1 <= k -> answers w a -> (n < fuel)%nat -> z <> 0 ->
  does (write_multiple fuel (512 * k + 1) d) t ([Xfer (u8 d) r] ++ polls [c1; c2] ++ polls w ++ polls (replicate n 0 ++ [z])) (512 * k) t.
Proof.
  intros Hk Hw Hn Hz. cbn beta. rewrite multiple_status by lia. rewrite (status_low k 1) by lia. change (1 =? 1) with true. cbv iota.
  eapply does_bind; [apply does_send|]. eapply does_bind; [by apply does_idle|]. eapply does_bind; [by apply does_recv|].
  rewrite <- (app_nil_r (polls (_ ++ [z]))). eapply does_bind; [by apply does_wait_busy|].
  replace (512 * k + 1 - 1) with (512 * k) by lia. apply does_ret.
Qed.
Lemma does_multiple_last fuel d r c1 c2 x w a n z y t : t <> SD_CARD_TYPE_INVALID -> answers w a -> (n < fuel)%nat -> z <> 0 ->
  does (write_multiple fuel 1 d) t
    ([Xfer (u8 d) r] ++ polls [c1; c2] ++ [Xfer 253 x] ++ polls w ++ polls (replicate n 0 ++ [z]) ++ done_trace y) 0 t.
Proof.
  intros Ht Hw Hn Hz. cbn beta. unfold sd_stream_write_multiple. change (1 =? SD_STREAM_STATUS_BEGIN) with false.
  change ((1 =? SD_STREAM_STATUS_DONE) || (1 =? SD_STREAM_STATUS_FAILED)) with false. change (1 =? 1) with true. cbv iota.
  eapply does_bind; [apply does_send|]. eapply does_bind; [by apply does_idle|]. eapply does_bind; [apply does_send|].
  eapply does_bind; [by apply does_recv|]. eapply does_bind; [by apply does_wait_busy|].
  eapply does_bind_pure; [by apply does_check_type|]. rewrite <- (app_nil_r (done_trace y)).
  eapply does_bind; [apply does_deselect|apply does_ret].
Qed.

(** The first 511 bytes of a block, with the token. *)
Lemma does_block_front fuel k d r0 r data ins t : 0 <= k -> length data = 510%nat -> length ins = 510%nat ->
  does (write_bytes (write_multiple fuel) (512 * (k + 1)) (d :: data)) t
    (exchange (252 :: u8 d :: (u8 <$> data)) (r0 :: r :: ins)) (512 * k + 1) t.
Proof.
  intros Hk Hd Hi. change (exchange (252 :: u8 d :: (u8 <$> data)) (r0 :: r :: ins)) with (exchange [252; u8 d] [r0; r] ++ exchange (u8 <$> data) ins).
  eapply does_bind; [apply does_multiple_first; lia|]. replace (512 * k + 1) with (512 * (k + 1) - 1 - Z.of_nat (length data)) by lia.
  apply (does_write_run _ (512 * k + 1) (512 * k + 511)); [|lia..]. intros j d' r' Hj. by apply (does_multiple_middle fuel k).
Qed.

(** The parts of a block: the first byte, the middle, the last byte. *)
Lemma block_parts fuel c : block_ok fuel c -> exists d data dl r0 r ins rl,
  cb_data c = (d :: data) ++ [dl] /\ length data = 510%nat /\ length ins = 510%nat /\
  block_data c = exchange (252 :: u8 d :: (u8 <$> data)) (r0 :: r :: ins) ++ [Xfer (u8 dl) rl] ++ polls [(cb_sum c).1; (cb_sum c).2].
Proof.
  intros (Hd & Hi & _). unfold block_data. destruct (cb_data c) as [|d data]; [done|]. destruct (cb_ins c) as [|r0 [|r ins]]; [done..|].
  destruct data as [|dl data _] using rev_ind; [done|]. destruct ins as [|rl ins _] using rev_ind; [done|].
  cbn in Hd, Hi. rewrite length_app in Hd, Hi. cbn in Hd, Hi. exists d, data, dl, r0, r, ins, rl. split; [done|]. split; [lia|]. split; [lia|].
  change (exchange (252 :: (u8 <$> d :: data ++ [dl])) (r0 :: r :: ins ++ [rl]))
    with (Xfer 252 r0 :: Xfer (u8 d) r :: exchange (u8 <$> data ++ [dl]) (ins ++ [rl])).
  rewrite fmap_app. unfold exchange at 1. rewrite zip_with_app by (rewrite length_fmap; lia).
  change (zip_with Xfer (u8 <$> [dl]) [rl]) with [Xfer (u8 dl) rl]. unfold exchange. cbn [zip_with app]. by rewrite <- app_assoc.
Qed.

Lemma does_block fuel k c t : 1 <= k -> block_ok fuel c ->
  does (write_bytes (write_multiple fuel) (512 * (k + 1)) (cb_data c)) t (block_trace c) (512 * k) t.
Proof.
  intros Hk Hc. destruct (block_parts fuel c Hc) as (d & data & dl & r0 & r & ins & rl & -> & Hd & Hi & Ht).
  destruct Hc as (_ & _ & [a Ha] & Hb & Hr). unfold block_trace. rewrite Ht, <- app_assoc.
  eapply does_write_app; [apply does_block_front; (done || lia)|].
  apply does_write_one. unfold block_end. rewrite <- !app_assoc. by eapply does_multiple_next.
Qed.
Lemma does_last_block fuel c x y t : t <> SD_CARD_TYPE_INVALID -> block_ok fuel c ->
  does (write_bytes (write_multiple fuel) 512 (cb_data c)) t (last_trace c x y) 0 t.
Proof.
  intros Hty Hc. destruct (block_parts fuel c Hc) as (d & data & dl & r0 & r & ins & rl & -> & Hd & Hi & Ht).
  destruct Hc as (_ & _ & [a Ha] & Hb & Hr). unfold last_trace. rewrite Ht, <- app_assoc.
  eapply does_write_app; [apply (does_block_front fuel 0); done|].
  apply does_write_one. unfold block_end. rewrite <- !app_assoc. by eapply does_multiple_last.
Qed.

(** C36. Writing several sectors: the command has the first of them, and then the
    card gets every block in order, each with a token, its 512 bytes and a
    checksum; the driver waits after each block until the card is ready, ends
    the last one with the stop token, and deselects the card. *)
Theorem write_sectors_correct fuel t sector rs w r blocks last x y :
  t <> SD_CARD_TYPE_INVALID -> length rs = 8%nat -> answers w r -> 0 <= r ->
  Forall (block_ok fuel) blocks -> block_ok fuel last -> 512 * (Z.of_nat (length blocks) + 1) < 2 ^ 31 ->
  does (write_sectors fuel sector (cb_data <$> (blocks ++ [last]))) t
    (([Select SPI_SLAVE_SD] ++ exchange (frame 25 (block_arg t sector)) rs ++ polls w) ++
     mjoin (block_trace <$> blocks) ++ last_trace last x y) 0 t.
Proof.
  intros Ht Hrs Hw Hr Hb Hl Hlen. unfold write_sectors. rewrite length_fmap, length_app. cbn [length].
  eapply (does_bind _ _ _ _ (512 * (Z.of_nat (length blocks) + 1))).
  { unfold sd_stream_write_multiple. rewrite Z.eqb_refl. eapply does_bind; [by apply does_select|]. cbv zeta.
    eapply does_bind_pure; [apply does_type|]. rewrite decide_False by done. eapply does_bind; [by apply does_command|].
    rewrite <- (app_nil_r (polls w)). eapply does_bind; [by apply does_recv|]. rewrite (proj2 (Z.ltb_ge r 0)) by done.
    unfold SD_BLOCK_SIZE. replace (512 * Z.of_nat (length blocks + 1)) with (512 * (Z.of_nat (length blocks) + 1)) by lia.
    rewrite u32_small, s32_small by lia. apply does_ret. }
  rewrite fmap_app, join_app. cbn [fmap list_fmap mjoin list_join]. rewrite app_nil_r.
  clear Hlen Hw. induction Hb as [|c blocks Hc Hb IH]; cbn [fmap list_fmap mjoin list_join app].
  - by apply does_last_block.
  - rewrite <- !app_assoc. eapply does_write_app; [|exact IH].
    replace (Z.of_nat (length (c :: blocks)) + 1) with (Z.of_nat (length blocks) + 1 + 1) by (cbn; lia). apply does_block; [lia|done].
Qed.

(** * The size of a card *)

(** The bits [hi] to [lo] of the 16 bytes of the card's register, the first
    byte being the most significant. *)
Definition csd_value (csd : list Z) : Z := foldl (fun v c => v * 256 + c) 0 csd.
Definition csd_field (csd : list Z) (hi lo : Z) : Z := csd_value csd / 2 ^ lo mod 2 ^ (hi - lo + 1).

(** The capacity of a card in bytes, as its register tells it: in version 0
    there are a size (less one), a multiplier and a block length, in version 1 a
    number (less one) of units of 512 KiB; the other versions are reserved. *)
Definition csd_capacity (csd : list Z) : Z :=
  match csd_field csd 127 126 with
  | 0 => (csd_field csd 73 62 + 1) * 2 ^ (csd_field csd 49 47 + 2) * 2 ^ csd_field csd 83 80
  | 1 => (csd_field csd 69 48 + 1) * (512 * 1024)
  | _ => 0
  end.

(** What the driver makes of the register. *)
Definition size_read (csd : list Z) : Z :=
  match csd_field csd 127 126 with
  | 0 => u32 (csd_capacity csd) / 512
  | 1 => csd_field csd 69 48 * 1024
  | _ => 0
  end.

Lemma land_low x n : 0 <= n -> Z.land x (2 ^ n - 1) = x mod 2 ^ n.
Proof. intros Hn. rewrite <- Z.land_ones by done. by rewrite Z.ones_equiv, Z.sub_1_r. Qed.

Lemma csd_value_app l k : csd_value (l ++ k) = csd_value l * 2 ^ (8 * Z.of_nat (length k)) + csd_value k.
Proof.
  unfold csd_value. rewrite foldl_app. generalize (foldl (fun v c => v * 256 + c) 0 l) as v. clear l.
  assert (forall v, foldl (fun v c => v * 256 + c) v k = v * 2 ^ (8 * Z.of_nat (length k)) + foldl (fun v c => v * 256 + c) 0 k) as Hk; [|done].
  induction k as [|c k IH]; intros v; [cbn; lia|]. cbn [foldl length]. rewrite (IH (v * 256 + c)), (IH (0 * 256 + c)).
  replace (8 * Z.of_nat (S (length k))) with (8 + 8 * Z.of_nat (length k)) by lia. rewrite Z.pow_add_r by lia. change (2 ^ 8) with 256. lia.
Qed.
Lemma csd_value_range l : Forall (fun c => 0 <= c < 256) l -> 0 <= csd_value l < 2 ^ (8 * Z.of_nat (length l)).
Proof.
  induction l as [|c l IH] using rev_ind; [done|]. intros [Hl [Hc _]%Forall_cons]%Forall_app. specialize (IH Hl).
  rewrite csd_value_app, length_app. cbn [length]. rewrite Nat2Z.inj_add, Z.mul_add_distr_l, Z.pow_add_r by lia.
  change (8 * Z.of_nat 1) with 8. change (2 ^ 8) with 256. unfold csd_value at 2 4. cbn [foldl]. lia.
Qed.
Lemma field_mid P v s nq nm a w : 0 <= nq -> 0 <= a -> 0 <= w -> a + w <= nm -> 0 <= s < 2 ^ nq ->
  ((P * 2 ^ nm + v) * 2 ^ nq + s) / 2 ^ (nq + a) mod 2 ^ w = v / 2 ^ a mod 2 ^ w.
Proof.
  intros Hq Ha Hw Hn Hs. assert (0 < 2 ^ nq /\ 0 < 2 ^ a /\ 0 < 2 ^ w) as (H1 & H2 & H3) by (split_and!; by apply Z.pow_pos_nonneg).
  rewrite Z.pow_add_r, <- Z.div_div, Z.div_add_l, (Z.div_small s), Z.add_0_r by lia.
  replace nm with (a + (w + (nm - a - w))) by lia. rewrite !Z.pow_add_r by lia.
  replace (P * (2 ^ a * (2 ^ w * 2 ^ (nm - a - w))) + v) with (P * 2 ^ (nm - a - w) * 2 ^ w * 2 ^ a + v) by lia.
  rewrite Z.div_add_l by lia. rewrite Z.add_comm. apply Z.mod_add. lia.
Qed.
(** A field that lies in the bytes [m]. *)
Lemma csd_field_middle p m q hi lo : Forall (fun c => 0 <= c < 256) q ->
  8 * Z.of_nat (length q) <= lo <= hi -> hi < 8 * Z.of_nat (length q) + 8 * Z.of_nat (length m) ->
  csd_field (p ++ m ++ q) hi lo = csd_value m / 2 ^ (lo - 8 * Z.of_nat (length q)) mod 2 ^ (hi - lo + 1).
Proof.
  intros Hq Hlo Hhi. unfold csd_field. rewrite app_assoc, !csd_value_app. pose proof (csd_value_range q Hq) as Hqr.
  rewrite <- (field_mid (csd_value p) (csd_value m) (csd_value q) (8 * Z.of_nat (length q)) (8 * Z.of_nat (length m))) by lia.
  by replace (8 * Z.of_nat (length q) + (lo - 8 * Z.of_nat (length q))) with lo by lia.
Qed.

Lemma u32_mul_l (x y : Z) : u32 (u32 x * y) = u32 (x * y).
Proof. unfold u32. by rewrite Z.mul_mod_idemp_l. Qed.

(** What the driver reads of the register, byte by byte. *)
Lemma does_size_v0 (bl a b c d e : Z) t : 0 <= a < 256 -> 0 <= b < 256 -> 0 <= c < 256 -> 0 <= d < 256 -> 0 <= e < 256 ->
  does (size_v0 bl) t (polls [a; b; c; d; e])
    (u32 ((csd_value [a; b; c] / 2 ^ 6 mod 2 ^ 12 + 1) * 2 ^ (csd_value [d; e] / 2 ^ 7 mod 2 ^ 3 + 2) * bl) / 512) t.
Proof.
  intros Ha Hb Hc Hd He. unfold size_v0. do 5 (eapply (does_bind _ _ _ [_]); [apply does_xfer|]).
  replace (Z.lor (Z.lor (Z.shiftl (Z.land a 3) 10) (Z.shiftl b 2)) (Z.shiftr c 6)) with (csd_value [a; b; c] / 2 ^ 6 mod 2 ^ 12).
  2: { change 3 with (2 ^ 2 - 1). rewrite land_low by done. rewrite lor_shiftl_add; [|done|rewrite Z.shiftl_mul_pow2; lia].
    replace (a mod 2 ^ 2 * 2 ^ 10 + Z.shiftl b 2) with (Z.shiftl (a mod 2 ^ 2 * 2 ^ 8 + b) 2) by (rewrite !Z.shiftl_mul_pow2; lia).
    rewrite lor_shiftl_add; [|done|rewrite Z.shiftr_div_pow2; mod_lia]. rewrite Z.shiftr_div_pow2 by done.
    unfold csd_value. cbn [foldl]. mod_lia. }
  replace (Z.lor (Z.shiftl (Z.land d 3) 1) (Z.shiftr e 7)) with (csd_value [d; e] / 2 ^ 7 mod 2 ^ 3).
  2: { change 3 with (2 ^ 2 - 1) at 2. rewrite land_low by done. rewrite lor_shiftl_add; [|done|rewrite Z.shiftr_div_pow2; mod_lia].
    rewrite Z.shiftr_div_pow2 by done. unfold csd_value. cbn [foldl]. mod_lia. }
  rewrite Z.shiftl_mul_pow2 by (pose proof (Z.mod_pos_bound (csd_value [d; e] / 2 ^ 7) (2 ^ 3)); lia). rewrite Z.mul_1_l, u32_mul_l. apply does_ret.
Qed.
Lemma does_size_v1 (x a b c y : Z) t : 0 <= a < 256 -> 0 <= b < 256 -> 0 <= c < 256 ->
  does size_v1 t (polls [x; a; b; c; y]) (csd_value [a; b; c] mod 2 ^ 22 * 1024) t.
Proof.
  intros Ha Hb Hc. unfold size_v1. eapply (does_bind _ _ _ [_]); [apply does_send|].
  do 3 (eapply (does_bind _ _ _ [_]); [apply does_xfer|]). eapply (does_bind _ _ _ [_] _ _ []); [apply does_send|].
  replace (Z.lor (Z.lor (Z.shiftl (Z.land a 63) 16) (Z.shiftl b 8)) c) with (csd_value [a; b; c] mod 2 ^ 22).
  2: { change 63 with (2 ^ 6 - 1). rewrite land_low by done. rewrite lor_shiftl_add; [|done|rewrite Z.shiftl_mul_pow2; lia].
    replace (a mod 2 ^ 6 * 2 ^ 16 + Z.shiftl b 8) with (Z.shiftl (a mod 2 ^ 6 * 2 ^ 8 + b) 8) by (rewrite !Z.shiftl_mul_pow2; lia).
    rewrite lor_shiftl_add by lia. unfold csd_value. cbn [foldl]. mod_lia. }
  rewrite u32_small; [apply does_ret|]. pose proof (Z.mod_pos_bound (csd_value [a; b; c]) (2 ^ 22)). lia.
Qed.

(** A field of the register, in the [n] bytes from the [i]-th on. *)
Lemma csd_field_bytes csd (i n : nat) hi lo : length csd = 16%nat -> Forall (fun c => 0 <= c < 256) csd -> (i + n <= 16)%nat ->
  8 * Z.of_nat (16 - (i + n)) <= lo <= hi -> hi < 8 * Z.of_nat (16 - i) ->
  csd_field csd hi lo = csd_value (take n (drop i csd)) / 2 ^ (lo - 8 * Z.of_nat (16 - (i + n))) mod 2 ^ (hi - lo + 1).
Proof.
  intros Hl Hb Hin Hlo Hhi. rewrite <- (take_drop i csd) at 1. rewrite <- (take_drop n (drop i csd)) at 1. rewrite drop_drop.
  rewrite csd_field_middle; rewrite ?length_drop, ?length_take, ?length_drop, ?Hl; [done|by apply Forall_drop|lia|lia].
Qed.

Lemma does_card_size t rs w1 r1 w2 r2 csd k1 k2 x : length rs = 8%nat -> answers w1 r1 -> answers w2 r2 ->
  length csd = 16%nat -> Forall (fun c => 0 <= c < 256) csd ->
  does sd_get_card_size t
    ([Select SPI_SLAVE_SD] ++ exchange (frame 9 0) rs ++ polls w1 ++ polls w2 ++ polls (csd ++ [k1; k2]) ++ done_trace x)
    (size_read csd) t.
Proof.
  intros Hrs H1 H2 Hl Hb. unfold sd_get_card_size.
  eapply does_bind; [by apply does_select|]. eapply does_bind; [by apply does_command|].
  do 2 (eapply does_bind; [by apply does_recv|]).
  pose proof (csd_field_bytes csd 0 1 127 126 Hl Hb ltac:(lia) ltac:(lia) ltac:(lia)) as Ever.
  pose proof (csd_field_bytes csd 5 1 83 80 Hl Hb ltac:(lia) ltac:(lia) ltac:(lia)) as Ebl.
  pose proof (csd_field_bytes csd 6 3 73 62 Hl Hb ltac:(lia) ltac:(lia) ltac:(lia)) as Esize.
  pose proof (csd_field_bytes csd 9 2 49 47 Hl Hb ltac:(lia) ltac:(lia) ltac:(lia)) as Emult.
  pose proof (csd_field_bytes csd 7 3 69 48 Hl Hb ltac:(lia) ltac:(lia) ltac:(lia)) as Eunits.
  unfold size_read, csd_capacity. rewrite Ever, Ebl, Esize, Emult, Eunits. clear Ever Ebl Esize Emult Eunits.
  do 16 (destruct csd as [|? csd]; [discriminate Hl|]). destruct csd; [|discriminate Hl]. clear Hl. rename z into c0.
  repeat match goal with H : Forall _ (_ :: _) |- _ => apply Forall_cons in H as [? H] end. cbn [take drop].
  assert (csd_value [c0] / 2 ^ (126 - 8 * Z.of_nat (16 - (0 + 1))) mod 2 ^ (127 - 126 + 1) = Z.shiftr c0 6) as ->.
  { rewrite Z.shiftr_div_pow2 by done. change (csd_value [c0]) with c0. change (126 - 8 * Z.of_nat (16 - (0 + 1))) with 6.
    apply Z.mod_small. change (2 ^ (127 - 126 + 1)) with 4. mod_lia. }
  assert (csd_value [z4] / 2 ^ (80 - 8 * Z.of_nat (16 - (5 + 1))) mod 2 ^ (83 - 80 + 1) = Z.land z4 15) as ->.
  { change 15 with (2 ^ 4 - 1). rewrite land_low by done. change (csd_value [z4]) with z4. change (2 ^ (80 - _)) with 1. by rewrite Z.div_1_r. }
  change (polls ([c0; z0; z1; z2; z3; z4; z5; z6; z7; z8; z9; z10; z11; z12; z13; z14] ++ [k1; k2]) ++ done_trace x) with
    ([Xfer 255 c0] ++ polls [z0; z1; z2; z3] ++ [Xfer 255 z4] ++ polls [z5; z6; z7; z8; z9] ++
     polls [z10; z11; z12; z13; z14; k1; k2] ++ done_trace x).
  eapply does_bind; [apply does_xfer|]. eapply does_bind; [by apply does_idle|]. eapply does_bind; [apply does_xfer|].
  eapply does_bind.
  2: { eapply does_bind; [by apply does_idle|]. eapply (does_bind _ _ _ [_] _ _ [_]); [by apply does_select|].
    eapply (does_bind _ _ _ [_] _ _ []); [apply does_send|apply does_ret]. }
  destruct (Z.shiftr c0 6) as [|[?|?|]|?]; try (rewrite <- (app_nil_r (polls _)); eapply does_bind; [by apply does_idle|apply does_ret]).
  - replace (2 ^ Z.land z4 15) with (Z.shiftl 1 (Z.land z4 15)) by (rewrite Z.shiftl_mul_pow2 by (apply Z.land_nonneg; by right); lia).
    apply (does_size_v0 (Z.shiftl 1 (Z.land z4 15)) z5 z6 z7 z8 z9 t); done.
  - change (csd_value [z6; z7; z8] / 2 ^ (48 - 8 * Z.of_nat (16 - (7 + 3))) mod 2 ^ (69 - 48 + 1)) with (csd_value [z6; z7; z8] / 1 mod 2 ^ 22).
    rewrite Z.div_1_r. by apply does_size_v1.
Qed.

Lemma csd_field_range csd hi lo : lo <= hi -> 0 <= csd_field csd hi lo < 2 ^ (hi - lo + 1).
Proof. intros Hlo. apply Z.mod_pos_bound. apply Z.pow_pos_nonneg; lia. Qed.

(** C37. The size of a card: after its register has been asked for, the driver
    reads 18 bytes and deselects the card.  For a card with version 0 of the
    register and less than 4 GiB the result is the capacity in sectors of 512
    bytes; from 4 GiB on it is too small, because the bytes are counted in 32
    bits.  For version 1 it is one unit, 1024 sectors, too small.  Other
    versions give 0. *)
Theorem card_size_correct t rs w1 r1 w2 r2 csd k1 k2 x : length rs = 8%nat -> answers w1 r1 -> answers w2 r2 ->
  length csd = 16%nat -> Forall (fun c => 0 <= c < 256) csd ->
  exists size,
    does sd_get_card_size t
      ([Select SPI_SLAVE_SD] ++ exchange (frame 9 0) rs ++ polls w1 ++ polls w2 ++ polls (csd ++ [k1; k2]) ++ done_trace x)
      size t /\
    match csd_field csd 127 126 with
    | 0 => if csd_capacity csd <? 2 ^ 32 then size = csd_capacity csd / 512 else size < csd_capacity csd / 512
    | 1 => size = csd_capacity csd / 512 - 1024
    | _ => size = 0
    end.
Proof.
  intros Hrs H1 H2 Hl Hb. exists (size_read csd). split; [by eapply does_card_size|].
  unfold size_read. destruct (csd_field csd 127 126) as [|p|p] eqn:Ev; [|destruct p; try done|done].
  - assert (0 <= csd_capacity csd) as Hpos.
    { unfold csd_capacity. rewrite Ev. pose proof (csd_field_range csd 73 62 ltac:(lia)).
      apply Z.mul_nonneg_nonneg; [apply Z.mul_nonneg_nonneg; [lia|]|]; apply Z.pow_nonneg; lia. }
    destruct (Z.ltb_spec (csd_capacity csd) (2 ^ 32)) as [Hs|Hs]; [by rewrite u32_small by lia|].
    assert (u32 (csd_capacity csd) <= csd_capacity csd - 2 ^ 32) as Hw.
    { unfold u32. rewrite Z.mod_eq by done. pose proof (Z.div_le_lower_bound (csd_capacity csd) (2 ^ 32) 1). lia. }
    pose proof (Z.div_le_mono _ _ 512 ltac:(lia) Hw) as Hd. replace (csd_capacity csd - 2 ^ 32) with (csd_capacity csd + (- 2 ^ 23) * 512) in Hd by lia.
    rewrite Z.div_add in Hd by lia. lia.
  - unfold csd_capacity. rewrite Ev. replace ((csd_field csd 69 48 + 1) * (512 * 1024)) with ((csd_field csd 69 48 + 1) * 1024 * 512) by lia.
    rewrite Z.div_mul by done. lia.
Qed.

(** * Identifying a card *)

(** A command that is sent as [out], and the answer: what the card sends
    meanwhile and then. *)
Definition asked (out : list Z) (c : list Z * list Z) : list event := exchange out c.1 ++ polls c.2.
Definition answered (c : list Z * list Z) (r : Z) : Prop := length c.1 = 8%nat /\ answers c.2 r.
Lemma does_asked out c r t : length out = 8%nat -> answered c r -> does (send_all out ;; sd_recv) t (asked out c) r t.
Proof. intros Ho [Hc Ha]. eapply does_bind; [apply does_send_all; congruence|by apply does_recv]. Qed.
(** The same before more operations. *)
Lemma does_asked_then {A} (f : Z -> M (Sd B) A) out c r t tr a t' : length out = 8%nat -> answered c r ->
  does (f r) t tr a t' -> does (send_all out ;; let* r := sd_recv in f r) t (asked out c ++ tr) a t'.
Proof.
  intros Ho [Hc Ha] Hf. unfold asked. rewrite <- app_assoc. eapply does_bind; [apply does_send_all; congruence|].
  eapply does_bind; [by apply does_recv|exact Hf].
Qed.

Definition reset_out : list Z := [255; 255; 64; 0; 0; 0; 0; 149].
Definition check_out : list Z := [255; 255; 72; 0; 0; 1; 165; 105].
(** Attempts to reset the card that are not answered with 1. *)
Definition refused (c : list Z * list Z) : Prop := exists r, answered c r /\ r <> 1.

Lemma does_reset_from fails t : Forall refused fails -> forall j fuel tr found,
  Z.of_nat fuel = 202 - j -> 0 <= j -> j + Z.of_nat (length fails) <= 201 ->
  (forall j' fuel', j' = j + Z.of_nat (length fails) -> Z.of_nat fuel' = 202 - j' -> does (loop fuel' j' reset_turn) t tr found t) ->
  does (loop fuel j reset_turn) t (mjoin (asked reset_out <$> fails) ++ tr) found t.
Proof.
  intros Hf. induction Hf as [|c fails (r & Hc & Hr) Hf IH]; intros j fuel tr found Hfuel Hj Hn Hlast; cbn [length] in *.
  - apply Hlast; lia.
  - destruct fuel as [|fuel]; [lia|]. rewrite loop_unfold. cbn [fmap list_fmap mjoin list_join]. rewrite <- app_assoc.
    eapply (does_bind _ _ _ _ (inl (j + 1))).
    + unfold reset_turn. rewrite (proj2 (Z.ltb_ge 200 j)) by lia. rewrite <- (app_nil_r (asked reset_out c)).
      eapply does_asked_then; [done|exact Hc|]. rewrite (proj2 (Z.eqb_neq r 1)) by done. apply does_ret.
    + cbn beta iota. apply IH; [lia|lia|lia|]. intros j' fuel' -> Hf'. apply Hlast; lia.
Qed.
Lemma does_reset fails c t : Forall refused fails -> (length fails <= 200)%nat -> answered c 1 ->
  does (loop (Z.to_nat 202) 0 reset_turn) t (mjoin (asked reset_out <$> fails) ++ asked reset_out c) true t.
Proof.
  intros Hf Hn Hc. apply does_reset_from; [done|lia|done|lia|]. intros j [|fuel] -> Hfuel; [lia|]. rewrite loop_unfold.
  rewrite <- (app_nil_r (asked reset_out c)). eapply (does_bind _ _ _ _ (inr true)); [|apply does_ret].
  unfold reset_turn. rewrite (proj2 (Z.ltb_ge 200 _)) by lia. rewrite <- (app_nil_r (asked reset_out c)).
  eapply does_asked_then; [done|exact Hc|]. apply does_ret.
Qed.
Lemma does_reset_fails fails t : Forall refused fails -> length fails = Z.to_nat 201 ->
  does (loop (Z.to_nat 202) 0 reset_turn) t (mjoin (asked reset_out <$> fails)) false t.
Proof.
  intros Hf Hn. rewrite <- (app_nil_r (mjoin _)). apply does_reset_from; [done|lia|done|lia|].
  intros j [|fuel] -> Hfuel; [lia|]. rewrite loop_unfold. eapply (does_bind_pure _ _ _ (inr false)); [|apply does_ret].
  unfold reset_turn. rewrite (proj2 (Z.ltb_lt 200 _)) by lia. apply does_ret.
Qed.

(** How [sd_init] begins. *)
Definition init_begin (a c : list Z) : list event :=
  [Clockdiv 165; Select SPI_SLAVE_NONE] ++ polls a ++ [Select SPI_SLAVE_SD] ++ polls c.
Lemma does_init_begin {A} (f : M (Sd B) A) a c t tr r t' : length a = 12%nat -> length c = Z.to_nat 520 -> does f t tr r t' ->
  does (on_bus (spi_set_clockdiv 165) ;; select SPI_SLAVE_NONE ;; idle 12 ;; select SPI_SLAVE_SD ;; idle 520 ;; f) t
    (init_begin a c ++ tr) r t'.
Proof.
  intros Ha Hc Hf. unfold init_begin. rewrite <- !app_assoc.
  change ([Clockdiv 165; Select SPI_SLAVE_NONE] ++ polls a ++ [Select SPI_SLAVE_SD] ++ polls c ++ tr)
    with ([Clockdiv 165] ++ [Select SPI_SLAVE_NONE] ++ polls a ++ [Select SPI_SLAVE_SD] ++ polls c ++ tr).
  eapply does_bind; [apply does_clockdiv|]. eapply does_bind; [apply does_select|]. eapply does_bind; [apply does_idle; lia|].
  eapply does_bind; [apply does_select|]. eapply does_bind; [apply does_idle; lia|]. exact Hf.
Qed.

(** No card: whatever the answers to 201 attempts are, or that there are none,
    as long as none of them is 1, the type is invalid. *)
Theorem sd_init_no_card fuel t a c fails : length a = 12%nat -> length c = Z.to_nat 520 ->
  Forall refused fails -> length fails = Z.to_nat 201 ->
  does (sd_init fuel) t (init_begin a c ++ mjoin (asked reset_out <$> fails)) SD_CARD_TYPE_INVALID SD_CARD_TYPE_INVALID.
Proof.
  intros Ha Hc Hf Hn. unfold sd_init. apply does_init_begin; [done|done|]. rewrite <- (app_nil_r (mjoin _)).
  eapply does_bind; [by apply does_reset_fails|]. cbn [negb]. eapply does_bind_pure; [apply does_set_type|apply does_ret].
Qed.

(** A round of the initialisation of a card, with the answers to the commands
    55 and 41. *)
Definition round (i : Z) (c : (list Z * list Z) * (list Z * list Z)) : list event := asked (frame 55 0) c.1 ++ asked (frame 41 i) c.2.
Definition round_ok (c : (list Z * list Z) * (list Z * list Z)) (r : Z) : Prop := (exists r0, answered c.1 r0) /\ answered c.2 r.
Definition init_turn (i : Z) : M (Sd B) (unit + unit) :=
  sd_send_command 55 0 ;; sd_recv ;; sd_send_command 41 i ;; let* r := sd_recv in ret (if negb (r =? 0) then inl tt else inr tt).
Lemma does_init_turn i c r t : round_ok c r -> does (init_turn i) t (round i c) (if negb (r =? 0) then inl tt else inr tt) t.
Proof.
  intros [[r0 H1] H2]. unfold init_turn, round. eapply does_asked_then; [done|exact H1|].
  rewrite <- (app_nil_r (asked _ c.2)). eapply does_asked_then; [done|exact H2|]. apply does_ret.
Qed.
Lemma does_rounds i fuel busy last t : Forall (fun c => exists r, round_ok c r /\ r <> 0) busy -> (length busy < fuel)%nat -> round_ok last 0 ->
  does (loop fuel tt (fun _ => init_turn i)) t (mjoin (round i <$> busy) ++ round i last) tt t.
Proof.
  intros Hb. revert fuel. induction Hb as [|c busy (r & Hc & Hr) Hb IH]; intros [|fuel] Hf Hl; cbn [length] in *; [lia| |lia|];
    rewrite loop_unfold; cbn [fmap list_fmap mjoin list_join app].
  - rewrite <- (app_nil_r (round i last)). eapply does_bind; [by apply does_init_turn|apply does_ret].
  - rewrite <- app_assoc. eapply does_bind; [by apply does_init_turn|]. rewrite (proj2 (Z.eqb_neq r 0)) by done. cbn [negb].
    apply IH; [lia|done].
Qed.

(** The rest for a card of version 2: rounds until it is ready, the register
    [o], the length of a block, and the end. *)
Definition init_end (i : Z) busy last (ocr : list Z * list Z) (o : Z) (pad : list Z) (len : list Z * list Z) (x : Z) : list event :=
  (mjoin (round i <$> busy) ++ round i last ++ asked (frame 58 0) ocr ++ [Xfer 255 o] ++ polls pad) ++
  [Clockdiv 1] ++ [Delay 100000] ++ asked (frame 16 512) len ++ done_trace x.

(** A card of version 2 is identified: it may refuse up to 200 attempts to
    reset it, answers 1 then, echoes the voltage and the pattern of command
    8, and may be busy for any number of rounds; the result is
    [SD_CARD_TYPE_SDHC] if its register has the bit for large cards and
    [SD_CARD_TYPE_SD] if not; in the end the clock is fast, the length of a
    block is set, and the card is deselected. *)
Theorem sd_init_version2 fuel t a c fails reset check v1 v2 volt busy last ocr r1 o pad len r2 x r0 :
  length a = 12%nat -> length c = Z.to_nat 520 -> Forall refused fails -> (length fails <= 200)%nat -> answered reset 1 ->
  answered check r0 -> Z.land r0 4 = 0 -> Z.land volt 1 <> 0 ->
  Forall (fun c => exists r, round_ok c r /\ r <> 0) busy -> (length busy < fuel)%nat -> round_ok last 0 ->
  answered ocr r1 -> length pad = 4%nat -> answered len r2 ->
  does (sd_init fuel) t
    (init_begin a c ++ (mjoin (asked reset_out <$> fails) ++ asked reset_out reset) ++
     (asked check_out check ++ polls [v1; v2] ++ [Xfer 255 volt] ++ [Xfer 255 165]) ++
     init_end (2 ^ 30) busy last ocr o pad len x)
    (if Z.land o 64 =? 0 then SD_CARD_TYPE_SD else SD_CARD_TYPE_SDHC)
    (if Z.land o 64 =? 0 then SD_CARD_TYPE_SD else SD_CARD_TYPE_SDHC).
Proof.
  intros Ha Hc Hf Hn Hreset Hcheck Hr0 Hvolt Hb Hfuel Hl Hocr Hpad Hlen. unfold sd_init. apply does_init_begin; [done|done|].
  eapply does_bind; [by apply does_reset|]. cbn [negb].
  eapply (does_bind _ _ _ _ true SD_CARD_TYPE_SDHC).
  { unfold identify. eapply does_asked_then; [done|exact Hcheck|]. rewrite (proj2 (Z.eqb_eq _ 0)) by done. cbn [negb].
    eapply does_bind_pure; [apply does_set_type|]. eapply does_bind; [by apply does_idle|]. eapply does_bind; [apply does_xfer|].
    rewrite (proj2 (Z.eqb_neq _ 0)) by done. eapply (does_bind _ _ _ [_] _ _ []); [apply does_xfer|apply does_ret]. }
  cbn [negb]. eapply does_bind_pure; [apply does_type|]. unfold init_end. set (tf := if Z.land o 64 =? 0 then _ else _).
  eapply (does_bind _ _ _ _ tt tf).
  { unfold init_sd. rewrite app_assoc. eapply does_bind; [by apply does_rounds|]. eapply does_asked_then; [done|exact Hocr|].
    eapply does_bind; [apply does_xfer|]. eapply does_bind_pure; [|apply does_idle; lia].
    unfold tf. destruct (Z.land o 64 =? 0); cbn [when]; [apply does_set_type|apply does_ret]. }
  eapply does_bind; [apply does_clockdiv|]. eapply does_bind; [apply does_delay|].
  eapply does_asked_then; [done|exact Hlen|]. eapply (does_bind _ _ _ [_] _ _ [_]); [apply does_select|].
  eapply (does_bind _ _ _ [_] _ _ []); [apply does_send|apply does_type].
Qed.

(** If a card is removed while it is initialised, so that only 0xFF comes,
    the driver waits for it forever: [sd_recv] gives -1, which is not 0. *)
Theorem init_sd_never_returns fuel i t b l :
  coming b = replicate (fuel * (2 * (8 + Z.to_nat 5002))) 255 ++ l -> init_sd fuel i (MkSd t b) = Timeout.
Proof.
  intros Hb. unfold init_sd. enough (loop fuel tt (fun _ => init_turn i) (MkSd t b) = Timeout) as E.
  { unfold bind at 1. change (loop fuel tt _) with (loop fuel tt (fun _ : unit => init_turn i)). by rewrite E. }
  revert b Hb. induction fuel as [|fuel IH]; intros b Hb; [done|].
  set (c := (replicate 8 255, replicate (Z.to_nat 5002) 255)).
  assert (answered c (-1)) as Hc by (split; [done|apply answers_never]).
  assert (received (round i (c, c)) = replicate (2 * (8 + Z.to_nat 5002)) 255) as Hrec.
  { assert (forall out, length out = 8%nat -> received (exchange out (replicate 8 255)) = replicate 8 255) as He.
    { intros out Ho. do 8 (destruct out as [|? out]; [discriminate Ho|]). by destruct out. }
    unfold round, asked, c. cbn [fst snd]. rewrite !received_app, !He, received_polls by done. rewrite <- !replicate_add. f_equal. }
  assert (coming b = received (round i (c, c)) ++ replicate (fuel * (2 * (8 + Z.to_nat 5002))) 255 ++ l) as Hb'.
  { by rewrite Hb, Hrec, app_assoc, <- replicate_add. }
  destruct (does_init_turn i (c, c) (-1) t (conj (ex_intro _ _ Hc) Hc) b _ Hb') as (b' & E & Hb2 & _).
  rewrite (loop_next _ _ _ _ _ _ E). by apply IH.
Qed.

Theorem sd_poll_correct t c r x : t <> SD_CARD_TYPE_INVALID -> answered c r ->
  (0 <= r -> does sd_poll t (asked (frame 13 0) c ++ [Xfer 255 x]) t t) /\
  (r < 0 -> does sd_poll t (asked (frame 13 0) c) SD_CARD_TYPE_INVALID SD_CARD_TYPE_INVALID).
Proof.
  intros Ht Hc. unfold sd_poll. split; intros Hr; (eapply does_bind_pure; [apply does_type|]; rewrite decide_False by done).
  - eapply does_asked_then; [done|exact Hc|]. rewrite (proj2 (Z.ltb_ge r 0)) by done.
    eapply (does_bind _ _ _ [_] _ _ []); [apply does_send|apply does_type].
  - rewrite <- (app_nil_r (asked _ c)). eapply does_asked_then; [done|exact Hc|]. rewrite (proj2 (Z.ltb_lt r 0)) by done.
    eapply does_bind_pure; [apply does_set_type|apply does_ret].
Qed.
End does.

(** * A bus with a card that follows a script *)

Record ScriptBus : Type := MkScript {
  script : list Z;
  happened : list event;
}.
Definition happen (e : event) (b : ScriptBus) : ScriptBus := MkScript (script b) (happened b ++ [e]).
#[export] Instance script_bus : SdBus ScriptBus := {
  SPI_SLAVE_NONE := 0;
  SPI_SLAVE_SD := 1;
  spi_send_recv d b := match script b with [] => Timeout | r :: l => Ret (r, MkScript l (happened b ++ [Xfer d r])) end;
  spi_select_slave n := modify (happen (Select n));
  spi_set_clockdiv n := modify (happen (Clockdiv n));
  dumbdelay n := modify (happen (Delay n));
}.
#[export] Instance script_bus_laws : SdBusLaws ScriptBus script happened.
Proof.
  split.
  - intros d b r l Hb. eexists. cbn. rewrite Hb. split; [reflexivity|done].
  - intros n b. by eexists.
  - intros n b. by eexists.
  - intros n b. by eexists.
Qed.

(** What the card does in the examples: 255 while the bytes of a command come,
    and a short wait before an answer. *)
Definition eight : list Z := replicate 8 255.
Definition soon (r : Z) : list Z := [255; 255; r].
Lemma answers_soon r : r <> 255 -> answers (soon r) r.
Proof. intros Hr. by apply (answers_byte 2 r). Qed.
Definition demo_block : list Z := (fun i => i mod 251) <$> seqZ 0 512.
Definition demo_card_block : card_block := MkCardBlock demo_block (replicate (Z.to_nat 513) 255) (255, 255) (soon 5) 3 255.
Lemma demo_block_ok : block_ok 10 demo_card_block.
Proof.
  split; [vm_compute; reflexivity|]. split; [vm_compute; reflexivity|]. split; [exists 5; by apply answers_soon|]. cbn. lia.
Qed.

Lemma read_sector_correct_witness :
  exists b, read_sector (Z.to_nat 600) 3 (MkSd SD_CARD_TYPE_SDHC (MkScript (eight ++ soon 0 ++ soon 254 ++ demo_block ++ [1; 2; 255]) [])) =
    Ret (Some demo_block, MkSd SD_CARD_TYPE_SDHC b) /\ script b = [] /\ length (happened b) = Z.to_nat 531.
Proof.
  destruct (read_sector_correct script happened (Z.to_nat 600) SD_CARD_TYPE_SDHC 3 eight (soon 0) 0 (soon 254) 254 demo_block 1 2 255)
    as [Hread _]; [done|done|by apply answers_soon|by apply answers_soon|vm_compute; reflexivity|lia|].
  destruct (Hread ltac:(lia) ltac:(lia) (MkScript (eight ++ soon 0 ++ soon 254 ++ demo_block ++ [1; 2; 255]) []) []) as (b & E & Hc & Ht).
  - vm_compute. reflexivity.
  - exists b. split; [exact E|]. split; [exact Hc|]. rewrite Ht. vm_compute. reflexivity.
Defined.

Lemma write_sectors_correct_witness :
  exists b, write_sectors 10 7 [demo_block; demo_block]
      (MkSd SD_CARD_TYPE_SD (MkScript (received (([Select 1] ++ exchange (frame 25 3584) eight ++ polls (soon 0)) ++
         block_trace demo_card_block ++ last_trace demo_card_block 255 255)) [])) =
    Ret (0, MkSd SD_CARD_TYPE_SD b) /\ script b = [] /\ count_occ Z.eq_dec (omap (fun e => match e with Xfer d _ => Some d | _ => None end) (happened b)) 252 = 2%nat.
Proof.
  pose proof (write_sectors_correct script happened 10 SD_CARD_TYPE_SD 7 eight (soon 0) 0 [demo_card_block] demo_card_block 255 255) as Hw.
  edestruct Hw as (b & E & Hc & Ht); [done|done|by apply answers_soon|done|apply Forall_singleton, demo_block_ok|apply demo_block_ok|done| |].
  2: { exists b. split; [exact E|]. split; [exact Hc|]. rewrite Ht. vm_compute. reflexivity. }
  cbn [mjoin list_join fmap list_fmap]. rewrite !app_nil_r. reflexivity.
Defined.

(** A card with version 0 of the register: 512 times 32 blocks of 1024 bytes. *)
Definition demo_csd : list Z := [0; 0; 0; 0; 0; 10; 0; 127; 192; 1; 128; 0; 0; 0; 0; 0].
Lemma card_size_correct_witness :
  csd_capacity demo_csd = 512 * 32 * 1024 /\
  exists b, sd_get_card_size (MkSd SD_CARD_TYPE_SD (MkScript (eight ++ soon 0 ++ soon 254 ++ demo_csd ++ [1; 2; 255]) [])) =
    Ret (512 * 32 * 1024 / 512, MkSd SD_CARD_TYPE_SD b).
Proof.
  split; [vm_compute; reflexivity|].
  destruct (card_size_correct script happened SD_CARD_TYPE_SD eight (soon 0) 0 (soon 254) 254 demo_csd 1 2 255
    eq_refl (answers_soon 0 ltac:(done)) (answers_soon 254 ltac:(done)) eq_refl) as (size & Hdoes & Hsize).
  - apply (bool_decide_unpack _). by vm_compute.
  - vm_compute in Hsize. subst size. edestruct Hdoes as (b & E & _).
    + instantiate (1 := []). instantiate (1 := MkScript _ _). cbn [script]. vm_compute. reflexivity.
    + exists b. exact E.
Defined.

(** A card of 4096 times 512 blocks of 2048 bytes, 4 GiB, has no sectors. *)
Theorem card_size_wraps : let csd := [0; 0; 0; 0; 0; 11; 3; 255; 192; 3; 128; 0; 0; 0; 0; 0] in
  csd_capacity csd = 2 ^ 32 /\ size_read csd = 0.
Proof. vm_compute. by split. Qed.

(** An error token in place of the data token is taken for it: the card says 0,
    and then that the sector is out of range, and the read goes on. *)
Example read_ignores_error_token :
  match sd_stream_read_block SD_STREAM_STATUS_BEGIN 3 (MkSd SD_CARD_TYPE_SDHC (MkScript (eight ++ soon 0 ++ soon 8) [])) with
  | Ret (r, _) => r
  | _ => (0, 0)
  end = (SD_BLOCK_SIZE, 0).
Proof. vm_compute. reflexivity. Qed.

(** A read that fails leaves the card selected, and its status never becomes
    [DONE]. *)
Example failed_read_stays_selected :
  match sd_stream_read_block SD_STREAM_STATUS_BEGIN 3
          (MkSd SD_CARD_TYPE_SDHC (MkScript (eight ++ replicate (Z.to_nat 10004) 255) [])) with
  | Ret (r, s) => (r, omap (fun e => match e with Select n => Some n | _ => None end) (happened (sd_bus s)))
  | _ => ((0, 0), [])
  end = ((SD_STREAM_STATUS_FAILED, 0), [1]).
Proof. vm_compute. reflexivity. Qed.
