(* ===== verification/Kernel.v ===== *)
(** The start of the kernel: [kernel/kernel.c] and [kernel/early.c], the
    composition of the other parts, up to the jump to the first process.

    Messages to the console are left out; a jump to user code ends [main] with
    the address that is jumped to. *)

From Stdlib Require Import String.
From S2P Require Import Prelude CString Types Printf Process Mmu Device Chardev Memblk Romfs Vfs RootFs Console FbCon Elf Syscall Interrupt.

(** * State *)

(** What the drivers keep. *)
Record Drivers : Type := MkDrivers {
  d_console : Console FbCon;
  d_memblk : Memblk;
}.
#[export] Instance drivers_console : Lens Drivers (Console FbCon) :=
  { lget := d_console; lset c d := MkDrivers c (d_memblk d) }.
#[export] Instance drivers_memblk : Lens Drivers Memblk :=
  { lget := d_memblk; lset b d := MkDrivers (d_console d) b }.
#[export] Instance drivers_console_laws : LensLaws Drivers (Console FbCon).
Proof. split; try done. by intros []. Qed.
#[export] Instance drivers_memblk_laws : LensLaws Drivers Memblk.
Proof. split; try done. by intros []. Qed.

(** [H] is the state that interrupt handlers work on; [kn_console] is the
    device of the messages. *)
Record Kernel (W H : Type) : Type := MkKernel {
  kn_sys : Sys (Kfs Drivers W);
  kn_ints : Ints H;
  kn_console : option (list Z -> M Drivers Z);
  kn_loglevel : Z;
}.
Arguments MkKernel {_ _} _ _ _ _.
Arguments kn_sys {_ _} _.
Arguments kn_ints {_ _} _.
Arguments kn_console {_ _} _.
Arguments kn_loglevel {_ _} _.

(** [mmu_init] of the MMU driver. *)
Class BootMmu (W : Type) : Type := mmu_init : M W unit.
#[export] Instance mmu040_boot : BootMmu Mmu040 := mmu040_init.

Definition CHIPSET_INT_NUM_VGA : Z := 10.
Definition cmap16 : list Z := [0; 4; 2; 6; 1; 4; 3; 7; 0 + 8; 4 + 8; 2 + 8; 6 + 8; 1 + 8; 4 + 8; 3 + 8; 7 + 8].

Section ops.
Context {W H : Type} `{Mmu W} `{UserMmu W} `{BootMmu W} `{Lens H (gmap Z Z)}.

Definition on_sys {A} (m : M (Sys (Kfs Drivers W)) A) : M (Kernel W H) A :=
  zoom kn_sys (fun t s => MkKernel t (kn_ints s) (kn_console s) (kn_loglevel s)) m.
Definition on_kints {A} (m : M (Ints H) A) : M (Kernel W H) A :=
  zoom kn_ints (fun t s => MkKernel (kn_sys s) t (kn_console s) (kn_loglevel s)) m.
Definition on_devices {A} (m : M (Devices Drivers) A) : M (Kernel W H) A := on_sys (on (dev_call m)).

(** What the hardware, the linker, the stack and [kmalloc] happen to give:
    bounds for the loops without one, the contents of the stack, the block for
    the process and the address and the contents of that for the program; the
    memory of the screen and the font; the addresses of [console_dev], of
    [dev] of the block driver, of the file system image, and of the entry
    points in assembly; and what the debugger does at a breakpoint. *)
Variables (fuel : nat) (s0 st : stat) (stk : nat -> list Z) (process_block : option Process) (init_block : option (Z * list Z)).
Variables (MEM_VGA_RAM font : list Z) (console_dev memblk_device rootfs rootfs_size : Z).
Variables (process_isr _catchException _debug_level7 : Z) (breakpoint : M (Kernel W H) unit).

(** The handler works on the ports of the chipset. *)
Definition isr_vga (interrupt data : Z) : M H unit :=
  on (modify (<[32 + CHIPSET_INT_NUM_VGA := 0]> : gmap Z Z -> gmap Z Z)).

(** [kernel.c]: messages are left out, and the loop after them is the end. *)
Definition panic : M (Kernel W H) unit := on_kints int_disable ;; Prelude.panic.

(** [console] of [console.c], on the state of the drivers. *)
Definition console_write (buf : list Z) : M Drivers Z := on (Console._write buf).
Definition console : CharDev Drivers := MkCharDev None (Some console_write) [].

Definition early_init : M (Kernel W H) Z :=
  on_devices (call (on (zoom out set_out (console_fb_init MEM_VGA_RAM 800 480 font 8 16 (Some cmap16))))) ;;
  on_devices (call (on (console_init console_fb))) ;;
  modify (fun s => MkKernel (kn_sys s) (kn_ints s) (Some console_write) (kn_loglevel s)) ;;
  on_devices (modify (fun s => set_store (<[console_dev := Chardev console]> (dev_store s)) s)) ;;
  ret console_dev.

(** [log_set_level], without its message. *)
Definition set_loglevel (level : Z) : M (Kernel W H) unit :=
  when (level <? LOG_LEVELS) (modify (fun s => MkKernel (kn_sys s) (kn_ints s) (kn_console s) level)).

(** The search for an argument: the first for which [p] holds. *)
Definition find_arg (argv : list (list Z)) (p : list Z -> bool) (f : list Z -> M (Kernel W H) unit) : M (Kernel W H) unit :=
  let* _ := for_range (List.length argv) 0 (fun i =>
    let* a := need (zget argv i) in if p a then f a ;; ret (Some tt) else ret None) in
  ret tt.

Definition loglevel_argument (argv : list (list Z)) : M (Kernel W H) unit :=
  find_arg argv (fun a => strncmp_val 9 a (zstr "loglevel=") =? 0) (fun a => set_loglevel (u32 (parse_value (drop 9 a)))).

(** The vectors that [set_debug_traps] sets, then [breakpoint]. *)
Definition debug_argument (argv : list (list Z)) : M (Kernel W H) unit :=
  find_arg argv (fun a => strcmp_val a (zstr "debug") =? 0)
    (fun _ => on_kints (set_debug_vectors _catchException _debug_level7) ;; breakpoint).

(** From the registration of the console to the mount of the root. *)
Definition mount_root (console_dev : Z) : M (Vfs (Kfs Drivers W)) Z :=
  let* ' (_, console_devnum) := dev_call (device_register true (zstr "console") console_dev) in
  vfs_open_device console_devnum 0 ;;
  dev_call (call (on memblk_init)) ;;
  dev_call (memblk_open true memblk_device rootfs rootfs_size) ;;
  let* ' (memblk_devnum, _) := dev_call (device_lookup_name (zstr "memblk0")) in
  fs_romfs_init fuel stk ;;
  vfs_mount fuel s0 st memblk_devnum (zstr "/") (zstr "romfs").

(** From the file to the first process. *)
Definition load_init : M (Sys (Kfs Drivers W)) Z :=
  let* fd := on (vfs_open fuel s0 st (zstr "/sbin/init") 0) in
  on (vfs_seek st fd 0 2) ;;
  let* pos := on (vfs_tell fd) in
  let init_size := u32 pos in
  on (vfs_seek st fd 0 0) ;;
  let* ' (_, bytes) := on (vfs_read true fd init_size) in
  let* ' (init_elf, contents) := need init_block in
  let* pid := proc_call (process_create fuel process_block 0 0) in
  let* init := user_call (elf_load init_elf (bytes ++ drop (List.length bytes) contents)) in
  proc_call (process_switch_to pid) ;;
  proc_call (process_set_pc pid init) ;;
  let* proc := proc_call (process_from_pid pid) in
  let* _ := need proc in
  proc_call (process_update pid (fun p => set_file (zset (p_file p) 0 0) p)) ;;
  proc_call (process_update pid (fun p => set_file (zset (p_file p) 1 0) p)) ;;
  proc_call (process_update pid (fun p => set_file (zset (p_file p) 2 0) p)) ;;
  ret init.

(** The interrupts that the first process needs. *)
Definition start_interrupts : M (Ints H) unit :=
  int_isr_register true 1 isr_vga 0 ;;
  int_set_handler (CHIPSET_INT_BASE + 1) (Function process_isr) ;;
  int_disable ;;
  int_perihperal_enable CHIPSET_INT_NUM_VGA.

Definition main (argv : list (list Z)) : M (Kernel W H) Z :=
  let* console := early_init in
  set_loglevel LOG_LEVEL_INFO ;;
  loglevel_argument argv ;;
  on_sys (user_call mmu_init) ;;
  on_kints int_init ;;
  debug_argument argv ;;
  on_sys (on (mount_root console)) ;;
  let* init := on_sys load_init in
  on_kints start_interrupts ;;
  ret init.
End ops.

(** * The first process *)

(** The first process, with standard input, output and error. *)
Definition first_process (b : Process) (pid h entry : Z) : Process :=
  MkProcess pid (p_parent b) PROCESS_STATE_RUNNING (p_callback b) (p_return_value b) h 0 0 1337
    (0 :: 0 :: 0 :: replicate 61 (-1))
    (MkRegisters (reg_status (p_reg b)) entry (reg_stack (p_reg b)) (reg_general (p_reg b))).

Section init.
Context {W : Type} `{Mmu W} `{UserMmu W} (inv : W -> Prop) `{!MmuLaws W inv}.
Implicit Types s : Sys (Kfs Drivers W).

(** A call of the process layer, when the processes are [ps]. *)
Lemma wp_proc_step {A B} (m : M (Procs W) A) (k : A -> M (Sys (Kfs Drivers W)) B) Q ps s :
  wp m (fun a ps' => wp (k a) Q (lset ps' s)) ps -> wp (let* a := proc_call m in k a) Q (lset ps s).
Proof.
  intros Hm. rewrite wp_bind, wp_proc_call. unfold procs. rewrite lget_lset.
  eapply wp_mono; [exact Hm|]. cbn beta. intros a ps' Hk. by rewrite lset_lset.
Qed.
Lemma wp_proc_step_eq {A B} (m : M (Procs W) A) (k : A -> M (Sys (Kfs Drivers W)) B) Q a ps ps' s :
  m ps = Ret (a, ps') -> wp (k a) Q (lset ps' s) -> wp (let* a := proc_call m in k a) Q (lset ps s).
Proof. intros Hm Hk. apply wp_proc_step. by eapply wp_eq. Qed.

(** The calls after the process is created. *)
Lemma wp_start_process E prog entry b pid h t cur last w s :
  inv w -> 0 <= pid < MAX_PROCESSES -> Z.of_nat (List.length t) = MAX_PROCESSES ->
  zget t pid = Some (Some (created b pid h 0 0)) ->
  (forall w, inv w -> wp (elf_load E prog) (fun e w' => e = entry /\ inv w') w) ->
  wp (let* init := user_call (elf_load E prog) in
      proc_call (process_switch_to pid) ;;
      proc_call (process_set_pc pid init) ;;
      let* proc := proc_call (process_from_pid pid) in
      let* _ := need proc in
      proc_call (process_update pid (fun p => set_file (zset (p_file p) 0 0) p)) ;;
      proc_call (process_update pid (fun p => set_file (zset (p_file p) 1 0) p)) ;;
      proc_call (process_update pid (fun p => set_file (zset (p_file p) 2 0) p)) ;;
      ret init)
    (fun init s' => init = entry /\ exists w', inv w' /\
       s' = lset (MkProcs (zset t pid (Some (first_process b pid h entry))) pid last w') s) (lset (MkProcs t cur last w) s).
Proof.
  intros Hi Hr Hlen Hp Hload.
  assert (forall x : option Process, zget (zset t pid x) pid = Some x) as Hz.
  { intros x. apply zget_zset_eq. lia. }
  assert (forall x y : option Process, zset (zset t pid x) pid y = zset t pid y) as Hzz.
  { intros x y. unfold zset. by rewrite list_insert_insert_eq. }
  apply wp_proc_step. unfold on_mmu at 1. rewrite wp_zoom. eapply wp_mono; [by apply Hload|]. cbn beta. intros init w1 [-> Hi1].
  apply wp_proc_step. eapply wp_mono; [eapply (wp_switch_to inv); [exact Hp|exact Hi1]|].
  intros _ [t' cur' last' w2]. cbn [_process _process_last _process_current pmmu]. intros (-> & -> & -> & Hi2).
  eapply wp_proc_step_eq.
  { unfold process_set_pc. rewrite pid_valid_true by done. cbn [negb].
    erewrite bind_Ret; [|apply process_at_eq; exact Hp]. cbn beta iota. by apply process_update_eq. }
  eapply wp_proc_step_eq.
  { unfold process_from_pid. rewrite pid_valid_true by done. apply process_at_eq. apply Hz. }
  rewrite wp_bind, wp_need by reflexivity.
  do 3 (eapply wp_proc_step_eq; [apply process_update_eq; cbn [_process set_process]; rewrite ?Hzz; apply Hz|]).
  rewrite wp_ret. split; [done|]. exists w2. split; [done|]. unfold set_process. cbn. by rewrite !Hzz.
Qed.

Lemma init_path : zstr "/sbin/init" = render [zstr "sbin"; zstr "init"].
Proof. done. Qed.

Section load.
Variables (fuel : nat) (s0 st : stat) (b : Process) (E : Z) (heap prog : list Z) (entry : Z).
Context (s : Sys (Kfs Drivers W)) (f : lookup_fun) (root mp g : Z) (x x' x2 : stat) (m : VFSMountPoint) (q : Z).
Hypothesis Hfuel : (1024 < fuel)%nat.
Hypothesis Hv : vfs_wf (sys_vfs s).
Hypothesis Ha : answers (sys_vfs s) f.
Hypothesis Hr : find_mount is_root (sys_vfs s) = Some root.
Hypothesis Hwalk : walk (sys_vfs s) f root 0 (zstr "sbin") [zstr "init"] = Some (inr (mp, x)).
Hypothesis Hino : inode_answer (sys_vfs s) mp (st_ino x) x'.
Hypothesis Hm : zget (_vfs_mount (sys_vfs s)) mp = Some m.
Hypothesis Hg : first_free_file (sys_vfs s) g.
Hypothesis Hreg : regular (exe_open s mp g x' m 0) (exe_entry mp x' 0) prog.
Hypothesis Hino2 : inode_answer (sys_vfs s) mp (st_ino x') x2.
Hypothesis Hsize : st_size x2 = Z.of_nat (List.length prog).
Hypothesis Hlen : Z.of_nat (List.length prog) < 2 ^ 31.
Hypothesis Hdev : S_ISBLK (st_mode x') || S_ISCHR (st_mode x') = false.
Hypothesis Hheap : List.length heap = List.length prog.
Hypothesis Hw : procs_wf (procs s).
Hypothesis Hi : inv (pmmu (procs s)).
Hypothesis Hlast : -1 <= _process_last (procs s) < 2 ^ 31 - 1025.
Hypothesis Hq : free (procs s) q.
Hypothesis Hqne : q <> _process_last (procs s).
Hypothesis Hload : forall w, inv w -> wp (elf_load E prog) (fun e w' => e = entry /\ inv w') w.

(** The program file is opened and read, and a free process runs it. *)
Lemma wp_load_init :
  wp (load_init fuel s0 st (Some b) (Some (E, heap))) (fun init s' => init = entry /\
    exists pid h last' w', free (procs s) pid /\
      (forall r, free (procs s) r -> dist (_process_last (procs s)) pid <= dist (_process_last (procs s)) r) /\ inv w' /\
      s' = lset (MkProcs (zset (_process (procs s)) pid (Some (first_process b pid h entry))) pid last' w')
             (lset (exe_open s mp g x' m (Z.of_nat (List.length prog))) s)) s.
Proof.
  unfold load_init. rewrite init_path.
  eapply (wp_read_file fuel s0 st true s f (zstr "sbin") [zstr "init"] root mp g x x' m); try done.
  { repeat constructor; by vm_compute. }
  { cbn. lia. }
  rewrite wp_bind, wp_need by reflexivity. cbn beta iota. rewrite drop_ge, app_nil_r by lia.
  set (s1 := lset (exe_open _ _ _ _ _ _) s).
  assert (procs s1 = procs s) as Hps by done.
  rewrite wp_bind, wp_proc_call. rewrite Hps.
  eapply wp_mono; [eapply (wp_process_create inv fuel b 0 0 (procs s) q); done || lia|].
  intros pid [t cur last w]. cbn [_process _process_last _process_current pmmu].
  intros (Hfree & Hmin & Hi' & _ & h & ->).
  assert (0 <= pid < MAX_PROCESSES) as Hpid.
  { destruct Hfree as (o & Ho & _). by eapply wf_slot. }
  pose proof (wf_length _ Hw) as Hl.
  eapply wp_mono; [apply (wp_start_process E prog entry b pid h _ cur last w s1); try done|].
  - rewrite length_zset. unfold MAX_PROCESSES in *. lia.
  - apply zget_zset_eq. unfold MAX_PROCESSES in *. lia.
  - cbn beta. intros init s' (-> & w' & Hi2 & ->). split; [done|]. exists pid, h, last, w'. split_and!; [done..|].
    unfold zset. by rewrite list_insert_insert_eq.
Qed.
End load.

(** Without the program: the error of [vfs_open] is used as a descriptor. *)
Lemma load_init_missing fuel st0 st block iblock s e v :
  vfs_open fuel st0 st (zstr "/sbin/init") 0 (sys_vfs s) = Ret (e, v) -> e < 0 ->
  load_init fuel st0 st block iblock s = Fault.
Proof.
  intros Hopen He. unfold load_init. erewrite bind_Ret; [|apply on_eq; exact Hopen]. apply bind_Fault.
  unfold on, zoom, vfs_seek. cbn [lget lset sys_vfs_lens sys_vfs].
  change (2 =? 0) with false. change (2 =? 1) with false. change (2 =? 2) with true. cbn iota.
  unfold file_at, bind, gets, need. unfold zget. by rewrite (proj2 (Z.ltb_lt e 0)).
Qed.
End init.

(** * The root file system *)

(** An image with the program: [root] is the first header, [d] is "sbin", not
    the first entry of the root, and [n] is "init". *)
Record boot_image (fuel : nat) (img : list Z) (root d n : Z) : Prop := {
  bi_ok : img_ok img;
  bi_format : exists w vol rest, img = zstr "-rom1fs-" ++ w ++ vol ++ 0 :: rest /\ List.length w = 8%nat /\
    Forall (fun b => b <> 0) vol /\ Z.of_nat (List.length vol) < 496 /\ root = 2 + Z.of_nat (List.length vol) / 16;
  bi_root : exists l, dir_entries img root root l /\ (List.length l < fuel)%nat /\ by_name img (zstr "sbin") l = Some d;
  bi_dir : d <> root;
  bi_sbin : exists l, dir_entries img root d l /\ (List.length l < fuel)%nat /\ by_name img (zstr "init") l = Some n;
  bi_init : file_ok img n;
}.

Section mount.
Context {W : Type}.
Variables (fuel : nat) (s0 st : stat) (stk : nat -> list Z) (console_dev memblk_device rootfs : Z) (img : list Z) (root d n : Z).
Variables (con : Console FbCon) (ram : CString.mem) (ps : Procs W).

(** The drivers before and after the block is opened, the device table, and
    the whole system after the mount. *)
Definition fresh_drivers : Drivers := MkDrivers con (MkMemblkState (replicate 4 (MkMemblk 0 0 0)) ram).
Definition fresh_devices : Devices Drivers :=
  MkDevices (replicate 256 None) 1 {[ console_dev := Chardev console ]} fresh_drivers.
Definition fresh_vfs : Vfs (Kfs Drivers W) :=
  MkVfs (replicate 1024 no_file) (replicate 4 None) (replicate 16 no_mount)
    (MkKfs (replicate 2 (MkInstance 0 0 0)) (MkIo fresh_devices ps)).

Definition console_file : VFSFileEntry := MkFile true true true true false false 0 1 0 65537 (u32 (-1)).
Definition root_mount : VFSMountPoint := MkMount 1 0 ALL_ONES ALL_ONES 3 0 131073 0.
Definition ready_drivers : Drivers :=
  MkDrivers con (MkMemblkState (MkMemblk rootfs (Z.of_nat (List.length img)) 131073 :: replicate 3 (MkMemblk 0 (-1) 0)) ram).
Definition ready_devices : Devices Drivers :=
  MkDevices (None :: Some (MkRegistered (zstr "console") console_dev) :: Some (MkRegistered (zstr "memblk0") memblk_device)
      :: replicate 253 None) 3
    (<[memblk_device := memblk_dev]> {[ console_dev := Chardev console ]}) ready_drivers.
Definition ready_vfs : Vfs (Kfs Drivers W) :=
  MkVfs (console_file :: replicate 1023 no_file) [None; None; None; Some (romfs_type fuel stk)]
    (root_mount :: replicate 15 no_mount)
    (MkKfs [MkInstance 1 131073 root; MkInstance 0 0 0] (MkIo ready_devices ps)).

(** The states on the way: the VFS with the given tables and devices. *)
Definition vfs_with files types mounts instances devices : Vfs (Kfs Drivers W) :=
  MkVfs files types mounts (MkKfs instances (MkIo devices ps)).

Lemma dev_call_with {A} (m : M (Devices Drivers) A) files types mounts instances devices a devices' :
  m devices = Ret (a, devices') ->
  dev_call m (vfs_with files types mounts instances devices) = Ret (a, vfs_with files types mounts instances devices').
Proof. intros Hm. unfold dev_call, io_call, fs_call, on, zoom. cbn. by rewrite Hm. Qed.

Lemma open_console types mounts instances devices :
  vfs_open_device 65537 0 (vfs_with (replicate 1024 no_file) types mounts instances devices) =
    Ret (0, vfs_with (console_file :: replicate 1023 no_file) types mounts instances devices).
Proof. reflexivity. Qed.

Definition console_registered (b : Memblk) : Devices Drivers :=
  MkDevices (None :: Some (MkRegistered (zstr "console") console_dev) :: replicate 254 None) 2
    {[ console_dev := Chardev console ]} (MkDrivers con b).

Lemma fresh_devices_wf : devices_wf fresh_devices.
Proof. destruct (devices_init_wf fresh_drivers) as [H1 H2 H3 H4]. by split. Qed.

Lemma register_console :
  device_register true (zstr "console") console_dev fresh_devices =
    Ret ((0, 65537), console_registered (d_memblk fresh_drivers)).
Proof. rewrite device_register_eq; [reflexivity|apply fresh_devices_wf|done|done]. Qed.

Lemma console_registered_wf b : devices_wf (console_registered b).
Proof.
  assert (devices_wf (registered fresh_devices (zstr "console") console_dev)) as [H1 H2 H3 H4].
  { apply registered_wf; [apply fresh_devices_wf|done|by apply (bool_decide_unpack _); vm_compute|done]. }
  by split.
Qed.

Lemma init_memblk :
  call (on memblk_init) (console_registered (d_memblk fresh_drivers)) =
    Ret (0, console_registered (MkMemblkState (replicate 4 (MkMemblk 0 (-1) 0)) ram)).
Proof. reflexivity. Qed.

Lemma open_memblk : Z.of_nat (List.length img) < INT_MAX ->
  memblk_open true memblk_device rootfs (Z.of_nat (List.length img))
    (console_registered (MkMemblkState (replicate 4 (MkMemblk 0 (-1) 0)) ram)) =
  Ret (0, ready_devices).
Proof.
  intros Hlen. rewrite (memblk_open_eq _ 0); [reflexivity|apply console_registered_wf| |done| |done].
  - split; [done|]. intros i b Hz. cbn [mb_of lget drivers_memblk drivers console_registered d_memblk memblk] in Hz.
    apply (Forall_zget (fun b => mb_len b = -1)) in Hz; [|by repeat constructor]. unfold INT_MAX. lia.
  - split; [by eexists|]. intros j b Hj Hz%zget_lt_Some. lia.
Qed.

Lemma lookup_memblk0 : device_lookup_name (zstr "memblk0") ready_devices = Ret ((131073, Some memblk_device), ready_devices).
Proof. reflexivity. Qed.

Lemma register_romfs files mounts instances devices :
  fs_romfs_init fuel stk (vfs_with files (replicate 4 None) mounts instances devices) =
    Ret (3, vfs_with files [None; None; None; Some (romfs_type fuel stk)] mounts instances devices).
Proof. reflexivity. Qed.

(** The block device serves the image. *)
Hypothesis Hbytes : bytes_at ram rootfs img.
Hypothesis Hrange : 0 <= rootfs /\ rootfs + Z.of_nat (List.length img) < 2 ^ 32.
Hypothesis Hlen : Z.of_nat (List.length img) < INT_MAX.
Hypothesis Himg : boot_image fuel img root d n.
Hypothesis Hstk : forall k, List.length (stk k) = k.

Lemma ready_contents : block_contents ready_devices 131073 img 512.
Proof.
  split; [lia|]. exists (MkRegistered (zstr "memblk0") memblk_device),
    (MkBlockDev (Some (fun device pos count => on (memblk_read device pos count))) None
       (Some (fun device => on (memblk_devsize device))) (Some (fun device => on (memblk_blksize device)))),
    (fun device pos count => on (memblk_read device pos count)), (fun device => on (memblk_blksize device)).
  split_and!; try done; [cbn; by rewrite lookup_insert_eq|]. intros pos count Hp Hc.
  apply on_eq_id. pose proof Hlen as Hl. unfold INT_MAX in Hl.
  apply (memblk_read_eq _ _ 0 (MkMemblk rootfs (Z.of_nat (List.length img)) 131073)); try done; try (cbn; lia).
  - split; [done|]. intros i b Hz. unfold INT_MAX.
    apply (Forall_zget (fun b => -1 <= mb_len b < 2147483647)) in Hz; [done|].
    repeat constructor; cbn; lia.
  - split_and!; [done|cbn; lia|done|]. intros j b Hj Hz%zget_lt_Some. lia.
Qed.

Lemma mount_root_eq :
  mount_root fuel s0 st stk memblk_device rootfs (Z.of_nat (List.length img)) console_dev fresh_vfs = Ret (0, ready_vfs).
Proof.
  unfold mount_root.
  erewrite bind_Ret; [|apply (dev_call_with _ _ _ _ _ _ _ _ register_console)]. cbn beta iota.
  rewrite (bind_Ret _ _ _ _ _ (open_console _ _ _ _)).
  erewrite bind_Ret; [|apply (dev_call_with _ _ _ _ _ _ _ _ init_memblk)].
  erewrite bind_Ret; [|apply (dev_call_with _ _ _ _ _ _ _ _ (open_memblk Hlen))].
  erewrite bind_Ret; [|apply (dev_call_with _ _ _ _ _ _ _ _ lookup_memblk0)]. cbn beta iota.
  rewrite (bind_Ret _ _ _ _ _ (register_romfs _ _ _ _)).
  destruct (bi_format _ _ _ _ _ Himg) as (w & vol & rest & Hfmt & Hw & Hvol & Hvl & Hroot).
  assert (fs_romfs_mount (stk 512%nat) 131073 (MkRomfs (replicate 2 (MkInstance 0 0 0)) ready_devices) =
    Ret ((0, Some 0), MkRomfs [MkInstance 1 131073 root; MkInstance 0 0 0] ready_devices)) as Hmount.
  { rewrite Hroot. etransitivity; [apply (romfs_mount_correct _ _ _ img 512 0 w vol rest); try done|reflexivity].
    - split; [by eexists|]. intros j i Hj Hz%zget_lt_Some. lia.
    - apply ready_contents.
    - apply (bi_ok _ _ _ _ _ Himg). }
  unfold vfs_mount.
  rewrite (bind_Ret _ _ 3 _ _) by reflexivity. change (3 =? MAX_FILE_SYSTEMS) with false. cbn iota.
  rewrite (bind_Ret _ _ 0 _ _) by reflexivity. change (0 =? MAX_MOUNT_POINTS) with false. cbn iota.
  do 3 (erewrite bind_Ret; [|reflexivity]; cbn beta iota).
  erewrite bind_Ret.
  2: { unfold fs_call. cbn [_mount romfs_type]. unfold zoom at 1. erewrite on_eq; [reflexivity|exact Hmount]. }
  cbn beta iota. erewrite bind_Ret; [|reflexivity]. change (0 <? 0) with false. cbn iota.
  erewrite bind_Ret; [|reflexivity]. reflexivity.
Qed.

(** * The program in the root file system *)

Lemma ready_wf : vfs_wf ready_vfs.
Proof. by split. Qed.

(** The entries of the two directories on the path. *)
Definition boot_dirs (l0 l1 : list Z) (dir : Z) : option (list Z) :=
  if dir =? 0 then Some l0 else if dir =? u32 (d - root) then Some l1 else None.

Lemma ready_mounts i m : zget (_vfs_mount ready_vfs) i = Some m -> mp_used m <> 0 -> i = 0 /\ m = root_mount.
Proof.
  unfold zget. destruct (Z.ltb_spec i 0); [done|]. destruct (Z.to_nat i) as [|k] eqn:E.
  - intros [= <-] _. split; [lia|done].
  - intros Hl. change (replicate 15 no_mount !! k = Some m) in Hl. by apply lookup_replicate in Hl as [-> _].
Qed.

Lemma by_name_in fname l k : by_name img fname l = Some k -> k ∈ l.
Proof. unfold by_name. intros [Hin _]%find_some. by apply list_elem_of_In. Qed.

Lemma root_range : 0 < root < 2 ^ 28.
Proof.
  destruct (bi_format _ _ _ _ _ Himg) as (w & vol & rest & _ & _ & _ & Hvl & ->).
  assert (0 <= Z.of_nat (List.length vol) / 16 < 31) by (split; [apply Z.div_pos|apply Z.div_lt_upper_bound]; lia). lia.
Qed.

Lemma sbin_node : node_ok img d /\ d <> root /\ Z.land (img_type img d) 7 = 1.
Proof.
  destruct (bi_sbin _ _ _ _ _ Himg) as (l1 & [Hd Hl1] & _ & _). pose proof (bi_dir _ _ _ _ _ Himg) as Hne.
  rewrite (proj2 (Z.eqb_neq d root)) in Hl1 by done. by destruct Hl1.
Qed.

Lemma directory_mode byte special :
  Z.land byte 7 = 1 -> S_ISDIR (fst (_byte_to_mode byte special)) = true.
Proof. intros Hb. unfold _byte_to_mode. rewrite Hb. cbn -[Z.lor Z.land]. by destruct (negb _). Qed.

Lemma boot_dirs_ok l0 l1 :
  dir_entries img root root l0 -> (List.length l0 < fuel)%nat -> dir_entries img root d l1 -> (List.length l1 < fuel)%nat ->
  forall dir l, boot_dirs l0 l1 dir = Some l -> dir_entries img root (u32 (dir + root)) l /\ (List.length l < fuel)%nat.
Proof.
  intros H0 Hf0 H1 Hf1 dir l. pose proof root_range as Hr. destruct sbin_node as (Hd & _ & _).
  pose proof (node_range _ _ Hd) as Hdr. unfold boot_dirs.
  destruct (Z.eqb_spec dir 0) as [->|_].
  - intros [= <-]. by rewrite Z.add_0_l, u32_small by lia.
  - destruct (Z.eqb_spec dir (u32 (d - root))) as [->|_]; [|done]. intros [= <-].
    assert (u32 (u32 (d - root) + root) = d) as ->; [|done].
    unfold u32. rewrite Z.add_mod_idemp_l by lia. rewrite Z.sub_add. by apply Z.mod_small; lia.
Qed.

Lemma ready_rom_mounted : rom_mounted fuel stk 0 131073 root 512 img ready_vfs 0.
Proof.
  split; [apply ready_wf| | |].
  - split; [by exists 1|apply ready_contents|apply (bi_ok _ _ _ _ _ Himg)|apply root_range].
  - intros j m Hz Hu. destruct (ready_mounts _ _ Hz Hu) as [_ ->]. by eexists.
  - eexists. by split_and!.
Qed.

Lemma boot_walk l0 l1 : by_name img (zstr "sbin") l0 = Some d -> by_name img (zstr "init") l1 = Some n ->
  walk ready_vfs (rom_answer 131073 root 512 img (boot_dirs l0 l1) 0) 0 0 (zstr "sbin") [zstr "init"] =
    Some (inr (0, node_stat 131073 root 512 img n)).
Proof.
  intros Hd Hn. destruct sbin_node as (Hdn & Hne & Hdir). pose proof root_range as Hr. pose proof (node_range _ _ Hdn) as Hdr.
  assert (name_ok (zstr "sbin") /\ name_ok (zstr "init")) as [Hk1 Hk2] by by split; apply (bool_decide_unpack _); vm_compute.
  cbn [walk]. unfold rom_answer at 1. rewrite decide_True by done. unfold boot_dirs at 1. cbn [Z.eqb mbind option_bind].
  rewrite Hd. cbn beta iota.
  assert (find_mount (is_mount_of (st_dev (node_stat 131073 root 512 img d)) (st_ino (node_stat 131073 root 512 img d))) ready_vfs = None) as ->.
  { destruct (find_mount _ _) as [j|] eqn:Ej; [|done]. apply find_mount_Some in Ej as (m & Hz & Hm). unfold is_mount_of in Hm.
    destruct (Z.eqb_spec (mp_used m) 0); [done|]. destruct (ready_mounts _ _ Hz ltac:(done)) as [_ ->]. done. }
  cbn [st_mode node_stat]. rewrite directory_mode by done.
  unfold rom_answer. rewrite decide_True by done. unfold boot_dirs.
  assert (u32 (d - root) <> 0) as Hd0.
  { unfold u32. intros Hz. apply Z.mod_divide in Hz as [k Hk]; [|lia]. assert (k = 0 \/ k <> 0) as [->|] by lia; lia. }
  cbn [st_ino node_stat]. rewrite (proj2 (Z.eqb_neq _ _) Hd0), Z.eqb_refl. cbn [mbind option_bind]. by rewrite Hn.
Qed.
End mount.

(** * The whole start *)

(** The level that the arguments ask for. *)
Definition boot_loglevel (argv : list (list Z)) : Z :=
  match List.find (fun a => strncmp_val 9 a (zstr "loglevel=") =? 0) argv with
  | Some a => let v := u32 (parse_value (drop 9 a)) in if v <? LOG_LEVELS then v else LOG_LEVEL_INFO
  | None => LOG_LEVEL_INFO
  end.

Section arguments.
Context {W H : Type}.
Implicit Types k : Kernel W H.

Lemma find_arg_eq argv p (f : list Z -> M (Kernel W H) unit) k :
  find_arg argv p f k = match List.find p argv with Some a => f a k | None => Ret (tt, k) end.
Proof.
  unfold find_arg. set (body := fun i => _).
  assert (forall i a, zget argv i = Some a -> body i k = (if p a then f a ;; ret (Some tt) else ret None) k) as Hbody.
  { intros i a Ha. unfold body. rewrite (bind_Ret _ _ a k k); [done|]. unfold need. by rewrite Ha. }
  clearbody body.
  enough (forall l pre, argv = pre ++ l ->
    (let* _ := for_range (List.length l) (Z.of_nat (List.length pre)) body in ret tt) k =
    match List.find p l with Some a => f a k | None => Ret (tt, k) end) as HL by by apply (HL argv []).
  induction l as [|a l IH]; intros pre Hargv; [done|]. cbn [List.length List.find].
  assert (zget argv (Z.of_nat (List.length pre)) = Some a) as Ha.
  { rewrite zget_nat, Hargv, lookup_app_r by lia. by rewrite Nat.sub_diag. }
  specialize (Hbody _ _ Ha). destruct (p a).
  - unfold bind. change (for_range (S (List.length l)) (Z.of_nat (List.length pre)) body k) with
      ((let* r := body (Z.of_nat (List.length pre)) in match r with Some x => ret (Some x) | None =>
         for_range (List.length l) (Z.of_nat (List.length pre) + 1) body end) k).
    unfold bind at 1. rewrite Hbody. unfold bind, ret. by destruct (f a k) as [[[] k']| | |].
  - specialize (IH (pre ++ [a])). rewrite <- IH by (rewrite <- app_assoc; done).
    unfold bind at 1. rewrite (for_range_next _ _ _ k k) by exact Hbody. rewrite length_app, Nat2Z.inj_add. done.
Qed.

Lemma wp_find_arg argv p (f : list Z -> M (Kernel W H) unit) Q k :
  wp (find_arg argv p f) Q k <-> match List.find p argv with Some a => wp (f a) Q k | None => Q tt k end.
Proof. unfold wp. rewrite find_arg_eq. by destruct (List.find p argv). Qed.

Lemma wp_on_sys {A} (m : M (Sys (Kfs Drivers W)) A) Q k :
  wp (on_sys m) Q k <-> wp m (fun a t => Q a (MkKernel t (kn_ints k) (kn_console k) (kn_loglevel k))) (kn_sys k).
Proof. apply wp_zoom. Qed.
Lemma wp_on_kints {A} (m : M (Ints H) A) Q k :
  wp (on_kints m) Q k <-> wp m (fun a t => Q a (MkKernel (kn_sys k) t (kn_console k) (kn_loglevel k))) (kn_ints k).
Proof. apply wp_zoom. Qed.

Lemma wp_loglevel_argument argv k : kn_loglevel k = LOG_LEVEL_INFO ->
  wp (loglevel_argument argv) (fun _ k' => k' = MkKernel (kn_sys k) (kn_ints k) (kn_console k) (boot_loglevel argv)) k.
Proof.
  intros Hk. unfold loglevel_argument. rewrite wp_find_arg. unfold boot_loglevel.
  destruct (List.find _ _) as [a|]; [|rewrite <- Hk; by destruct k].
  unfold set_loglevel. cbv zeta. destruct (_ <? _); [by apply wp_modify|]. apply wp_ret. rewrite <- Hk. by destruct k.
Qed.

(** The debugger may change the vectors and what it likes of the program, but
    not the kernel's tables. *)
Definition resumes (breakpoint : M (Kernel W H) unit) : Prop :=
  forall k, wp breakpoint (fun _ k' => kn_sys k' = kn_sys k /\ kn_console k' = kn_console k /\ kn_loglevel k' = kn_loglevel k /\
    List.length (int_handler (kn_ints k')) = List.length (int_handler (kn_ints k))) k.

Lemma wp_debug_argument cx c7 breakpoint argv k : resumes breakpoint ->
  wp (debug_argument cx c7 breakpoint argv) (fun _ k' => kn_sys k' = kn_sys k /\ kn_console k' = kn_console k /\ kn_loglevel k' = kn_loglevel k /\
    List.length (int_handler (kn_ints k')) = List.length (int_handler (kn_ints k))) k.
Proof.
  intros Hb. unfold debug_argument. rewrite wp_find_arg. destruct (List.find _ _) as [a|]; [|by split_and!].
  rewrite wp_bind, wp_on_kints. eapply wp_mono; [apply set_debug_vectors_correct|].
  cbn beta. intros _ t [Ht _]. eapply wp_mono; [apply Hb|]. cbn. intros _ k' (-> & -> & -> & ->). by rewrite Ht.
Qed.
End arguments.

Section start.
Context {W H : Type} `{Mmu W} `{UserMmu W} `{BootMmu W} `{Lens H CString.mem} (inv : W -> Prop) `{!MmuLaws W inv}.
Variables (fuel : nat) (s0 st : stat) (stk : nat -> list Z) (b : Process) (E : Z) (heap : list Z).
Variables (MEM_VGA_RAM font : list Z) (console_dev memblk_device rootfs : Z).
Variables (process_isr _catchException _debug_level7 : Z) (breakpoint : M (Kernel W H) unit).
Variables (con : Console FbCon) (ram : CString.mem) (w : W) (ints : Ints H) (kcon : option (list Z -> M Drivers Z)) (level : Z).
Variables (img : list Z) (root d n entry : Z).

(** The static data of the kernel before it starts. *)
Definition boot_kernel : Kernel W H :=
  MkKernel (MkSys (MkVfs (replicate 1024 no_file) (replicate 4 None) (replicate 16 no_mount)
      (MkKfs (replicate 2 (MkInstance 0 0 0)) (MkIo (devices_init (fresh_drivers con ram)) (procs_init w)))) 0)
    ints kcon level.

(** The console after [early_init]. *)
Definition boot_console : Console FbCon :=
  MkConsole (parse_state con) (Some console_fb) (attr con) (saved_cursor con)
    (MkFbCon MEM_VGA_RAM font 800 480 100 30 8 16 (cursor_x (out con)) (cursor_y (out con)) cmap16).

Lemma early_init_eq : early_init MEM_VGA_RAM font console_dev boot_kernel =
  Ret (console_dev, MkKernel (MkSys (fresh_vfs console_dev boot_console ram (procs_init w)) 0)
    ints (Some console_write) level).
Proof. reflexivity. Qed.

Hypothesis Hfuel : (1024 < fuel)%nat.
Hypothesis Hbytes : bytes_at ram rootfs img.
Hypothesis Hrange : 0 <= rootfs /\ rootfs + Z.of_nat (List.length img) < 2 ^ 32.
Hypothesis Hlen : Z.of_nat (List.length img) < INT_MAX.
Hypothesis Himg : boot_image fuel img root d n.
Hypothesis Hstk : forall k, List.length (stk k) = k.
Hypothesis Hdevice : memblk_device <> console_dev.
Hypothesis Hheap : List.length heap = List.length (file_data img n).
Hypothesis Hints : List.length (int_handler ints) = 256%nat.
Hypothesis Hbreak : resumes breakpoint.
Hypothesis Hmmu : wp mmu_init (fun _ => inv) w.
Hypothesis Hload : forall w, inv w -> wp (elf_load E (file_data img n)) (fun e w' => e = entry /\ inv w') w.

Abbreviation ready ps := (ready_vfs fuel stk console_dev memblk_device rootfs img root boot_console ram ps).

(** The first slot that [process_create] tries in the empty table. *)
Lemma first_pid (s1 : Procs W) pid : _process_last s1 = -1 -> free s1 0 -> 0 <= pid < MAX_PROCESSES ->
  (forall r, free s1 r -> dist (_process_last s1) pid <= dist (_process_last s1) r) -> pid = 0.
Proof.
  intros Hl Hf Hr Hmin. specialize (Hmin 0 Hf). rewrite Hl in Hmin. unfold dist, MAX_PROCESSES in *.
  change ((0 - -1 - 1) mod 1024) with 0 in Hmin. revert Hmin. mod_lia.
Qed.

(** The program is in the file system that is mounted. *)
Lemma wp_init_process w1 fl : inv w1 ->
  let ps := procs_init w1 in
  wp (load_init fuel s0 st (Some b) (Some (E, heap))) (fun init s' => init = entry /\
    exists h last' w', inv w' /\ procs s' = MkProcs (zset (replicate 1024 None) 0 (Some (first_process b 0 h entry))) 0 last' w' /\
      zget (vfs_file (sys_vfs s')) 0 = Some console_file /\ io_devices (k_io (fsw (sys_vfs s'))) = io_devices (k_io (fsw (ready ps))))
    (MkSys (ready ps) fl).
Proof.
  intros Hi1 ps. set (s := MkSys (ready ps) fl).
  destruct (bi_root _ _ _ _ _ Himg) as (l0 & Hd0 & Hf0 & Hn0). destruct (bi_sbin _ _ _ _ _ Himg) as (l1 & Hd1 & Hf1 & Hn1).
  pose proof (bi_init _ _ _ _ _ Himg) as Hfile.
  assert (rom_mounted fuel stk 0 131073 root 512 img (ready ps) 0) as Hrm.
  { by apply (ready_rom_mounted fuel stk console_dev memblk_device rootfs img root d n). }
  assert (forall dir l, boot_dirs root d l0 l1 dir = Some l -> dir_entries img root (u32 (dir + root)) l /\ (List.length l < fuel)%nat) as Hdirs.
  { by eapply boot_dirs_ok. }
  destruct (rom_file fuel stk Hstk 0 131073 root 512 img (ready ps) 0 n Hrm Hfile) as (Hdev & Hino & Hsize & Hsz).
  eapply wp_mono; [eapply (wp_load_init inv fuel s0 st b E heap (file_data img n) entry s
    (rom_answer 131073 root 512 img (boot_dirs root d l0 l1) 0) 0 0 1 _ _ _ root_mount 0);
    [exact Hfuel|apply ready_wf| |reflexivity| |exact Hino|reflexivity| | |exact Hino|exact Hsize| |exact Hdev|exact Hheap| |exact Hi1|
     cbn; lia| |done|exact Hload]|].
  - by apply (rom_answers fuel stk Hstk 0 131073 root 512 img _ Hdirs).
  - by eapply boot_walk.
  - split; [by exists no_file|]. intros j f Hj Hz. assert (j = 0) as -> by (apply zget_lt_Some in Hz; lia). by injection Hz as <-.
  - eapply (rom_regular fuel stk Hstk 0 131073 root 512 img (ready ps) _ 0 n _ Hrm Hfile); [|reflexivity..|].
    + pose proof (mt_root _ _ _ _ _ _ (rm_image _ _ _ _ _ _ _ _ _ Hrm)). lia.
    + intros m [= <-]. done.
  - lia.
  - apply init_procs_wf.
  - by exists None.
  - cbn beta. intros init s' [-> (pid & h & last' & w' & Hfree & Hmin & Hi' & ->)]. split; [done|].
    pose proof (stops_range _ _ _ (init_procs_wf w1) Hfree) as Hr.
    assert (pid = 0) as -> by (apply (first_pid (procs s)); [done|by exists None|done|done]).
    exists h, last', w'. rewrite procs_set. by split_and!.
Qed.

(** The interrupts of the first process. *)
Lemma wp_start_interrupts (t : Ints H) : List.length (int_handler t) = 256%nat ->
  wp (start_interrupts process_isr) (fun _ t' => int_vector t' !! 25 = Some (Function process_isr) /\ enabled t' = false /\
    chipset t' !! 10 = Some 1 /\ chipset t' !! 42 = Some 0) t.
Proof.
  intros Ht. destruct (zget_in_range (int_handler t) 1) as [l Hl]; [lia|].
  destruct (isr_register_eq t 1 isr_vga 0 l ltac:(done) Hl) as (t1 & H1' & _). unfold start_interrupts.
  rewrite wp_bind. eapply wp_eq; [exact H1'|]. rewrite wp_bind. unfold int_set_handler. rewrite wp_modify.
  rewrite wp_bind. unfold int_disable. rewrite wp_modify. unfold int_perihperal_enable, chipset_write.
  rewrite wp_bind, !wp_modify. split_and!; try done; cbn [int_vector set_vectors chipset].
  - apply lookup_insert_eq.
  - apply lookup_insert_eq.
  - by rewrite lookup_insert_ne, lookup_insert_eq.
Qed.

(** C6. The kernel starts: when the image in memory is a file system with a
    program "/sbin/init" that the loader accepts, [main] ends with the jump to
    the program's entry point.  Process 0 is then the only one and runs, with
    that program counter and the console as its standard input, output and
    error; messages go to the console, with the level that the arguments ask
    for; the interrupt of the scheduler is set, that of the display is on and
    the CPU's are off until the jump. *)
Theorem main_starts_init argv :
  wp (main fuel s0 st stk (Some b) (Some (E, heap)) MEM_VGA_RAM font console_dev memblk_device rootfs
        (Z.of_nat (List.length img)) process_isr _catchException _debug_level7 breakpoint argv)
    (fun init k => init = entry /\
      (exists h last w', inv w' /\ procs (kn_sys k) =
         MkProcs (zset (replicate 1024 None) 0 (Some (first_process b 0 h entry))) 0 last w') /\
      zget (vfs_file (sys_vfs (kn_sys k))) 0 = Some console_file /\
      (let devs := io_devices (k_io (fsw (sys_vfs (kn_sys k)))) in
       device_lookup (data_dev console_file) devs = Ret (Some console_dev, devs) /\
       device_deref console_dev devs = Ret (Chardev console, devs) /\ d_console (drivers devs) = boot_console) /\
      kn_console k = Some console_write /\ kn_loglevel k = boot_loglevel argv /\
      int_vector (kn_ints k) !! 25 = Some (Function process_isr) /\ enabled (kn_ints k) = false /\
      chipset (kn_ints k) !! 10 = Some 1 /\ chipset (kn_ints k) !! 42 = Some 0)
    boot_kernel.
Proof.
  unfold main. rewrite wp_bind. eapply wp_eq; [apply early_init_eq|].
  rewrite wp_bind. unfold set_loglevel at 1. change (LOG_LEVEL_INFO <? LOG_LEVELS) with true. cbn [when]. rewrite wp_modify.
  rewrite wp_bind. eapply wp_mono; [by apply wp_loglevel_argument|]. cbn beta. intros _ k ->. cbn [kn_sys kn_ints kn_console].
  rewrite wp_bind, wp_on_sys. cbn [kn_sys]. unfold user_call at 1. rewrite wp_proc_call. unfold on_mmu. rewrite wp_zoom.
  eapply wp_mono; [exact Hmmu|]. cbn beta. intros _ w1 Hi1. cbn [kn_ints kn_console kn_loglevel].
  rewrite wp_bind, wp_on_kints. eapply wp_mono; [apply wp_int_init|]. cbn beta. intros _ t (_ & Ht & _).
  rewrite wp_bind. eapply wp_mono; [by apply wp_debug_argument|]. cbn beta. intros _ k (Hks & Hkc & Hkl & Hkh).
  cbn [kn_sys kn_ints kn_loglevel kn_console] in Hks, Hkc, Hkl, Hkh.
  rewrite wp_bind, wp_on_sys, Hks, wp_on. cbn [lget sys_vfs_lens sys_vfs].
  eapply wp_eq; [by apply (mount_root_eq fuel s0 st stk console_dev memblk_device rootfs img root d n)|].
  rewrite wp_bind, wp_on_sys. cbn [kn_sys kn_ints kn_loglevel kn_console].
  eapply wp_mono; [exact (wp_init_process w1 0 Hi1)|]. cbn beta. intros init t' (-> & h & last & w' & Hi2 & Hproc & Hfile & Hdev).
  rewrite wp_bind, wp_on_kints. cbn [kn_ints].
  eapply wp_mono; [apply wp_start_interrupts; by rewrite Hkh, Ht|]. cbn beta. intros _ t2 (Hv25 & Hen & H10 & H42).
  rewrite wp_ret. cbn [kn_sys kn_ints kn_loglevel kn_console].
  rewrite Hdev, Hkl, Hkc.
  split_and!; try done; [by exists h, last, w'|]. unfold device_deref, bind, gets, need. cbn [dev_store ready_devices io_devices k_io fsw ready_vfs].
  by rewrite lookup_insert_ne, lookup_singleton_eq.
Qed.
End start.

(** * Concrete starts *)

#[local] Instance no_mmu : Mmu unit := {
  mmu_init_userspace := ret (0, 0); mmu_free_userspace _ := ret tt; mmu_switch_userspace _ := ret 0;
  mmu_invalidate_all := ret tt; mmu_map_current_userspace := ret tt }.
#[local] Instance no_user_mmu : UserMmu unit := {
  mmu_clear_userspace _ := ret tt; mmu_clone_userspace _ _ := ret 0;
  mmu_alloc_at _ _ _ := ret 0; mmu_fill_frame _ _ _ _ := ret tt }.
#[local] Instance no_boot_mmu : BootMmu unit := ret tt.
#[local] Instance no_mmu_laws : MmuLaws unit (fun _ => True).
Proof. by split. Qed.
#[local] Instance ports_lens : Lens CString.mem CString.mem := { lget s := s; lset t _ := t }.

(** An image with the directory "sbin", at inode 4, and the program of [Elf]
    in it, at inode 6; the root's first entry is ".". *)
Definition init_img : list Z :=
  zstr "-rom1fs-" ++ [0; 0; 0; 223; 0; 0; 0; 0] ++ zstr "v" ++ 0 :: (replicate 14 0 ++
  [0; 0; 0; 65; 0; 0; 0; 32; 0; 0; 0; 0; 0; 0; 0; 0] ++ zstr "." ++ replicate 15 0 ++
  [0; 0; 0; 1; 0; 0; 0; 96; 0; 0; 0; 0; 0; 0; 0; 0] ++ zstr "sbin" ++ replicate 12 0 ++
  [0; 0; 0; 2; 0; 0; 0; 0; 0; 0; 0; 95; 0; 0; 0; 0] ++ zstr "init" ++ replicate 12 0 ++ toy_elf).

Definition idle_console : Console FbCon :=
  MkConsole (MkParse PARSE_STATE_ASCII (replicate 10 0) 0 0) None (MkAttr false 7 0) (0, 0)
    (MkFbCon [] [] 0 0 0 0 0 0 0 0 []).
Definition toy_boot : Kernel unit CString.mem :=
  boot_kernel idle_console (put_bytes ∅ 4096 init_img) tt (MkInts ∅ (replicate 256 []) 0 false ∅ ∅) None 0.
Definition toy_block : Process := MkProcess 0 0 PROCESS_STATE_RUNNING [] 0 0 0 0 0 [] (MkRegisters 0 0 0 (replicate 15 0)).
Definition toy_main : list (list Z) -> M (Kernel unit CString.mem) Z :=
  main 1025 no_stat no_stat stk (Some toy_block) (Some (65536, replicate 95 170)) [] [] 8192 8448 4096
    (Z.of_nat (List.length init_img)) 777 888 999 (ret tt).

(** The whole start, by running it. *)
Example main_runs :
  match toy_main [zstr "kernel"; zstr "debug"; zstr "loglevel=5"] toy_boot with
  | Ret (init, k) => (init, kn_loglevel k, p_file <$> zget (_process (procs (kn_sys k))) 0 ≫= id,
                      f_pos <$> zget (vfs_file (sys_vfs (kn_sys k))) 1, int_vector (kn_ints k) !! 33)
  | _ => (0, 0, None, None, None)
  end = (3221229584, 5, Some (0 :: 0 :: 0 :: replicate 61 (-1)), Some 95, Some (Function 888)).
Proof. vm_compute. reflexivity. Qed.

Lemma init_node k : k = 2 \/ k = 4 \/ k = 6 -> node_ok init_img k.
Proof. intros [->|[->| ->]]; apply node_okb_ok; vm_compute; reflexivity. Qed.

Lemma init_boot_image : boot_image 1025 init_img 2 4 6.
Proof.
  assert (img_next init_img 2 = 4 /\ img_next init_img 4 = 0 /\ img_next init_img 6 = 0 /\ img_child init_img 4 = 6) as (E2 & E4 & E6 & Ec)
    by (vm_compute; by split_and!).
  split; [apply img_okb_ok; vm_compute; reflexivity| | |lia| |].
  - exists [0; 0; 0; 223; 0; 0; 0; 0], (zstr "v"). eexists. split; [reflexivity|]. split; [done|]. split; [by repeat constructor|].
    split; [done|]. vm_compute. reflexivity.
  - exists [2; 4]. split; [|split; [cbn; lia|vm_compute; reflexivity]]. split; [apply init_node; lia|].
    change (2 =? 2) with true. constructor; [apply init_node; lia|]. rewrite E2. constructor; [apply init_node; lia|].
    rewrite E4. constructor.
  - exists [6]. split; [|split; [cbn; lia|vm_compute; reflexivity]]. split; [apply init_node; lia|].
    change (4 =? 2) with false. split; [vm_compute; reflexivity|]. rewrite Ec. constructor; [apply init_node; lia|].
    rewrite E6. constructor.
  - split; [apply init_node; lia|vm_compute; reflexivity| |]; apply Z.ltb_lt || apply Z.leb_le; vm_compute; reflexivity.
Qed.

Lemma put_bytes_below l m p a : a < p -> put_bytes m p l !! a = m !! a.
Proof.
  revert m p. induction l as [|x l IH]; intros m p Ha; [done|]. cbn. rewrite IH by lia. by rewrite lookup_insert_ne by lia.
Qed.
Lemma put_bytes_at l m p : bytes_at (put_bytes m p l) p l.
Proof.
  revert m p. induction l as [|x l IH]; intros m p i b Hi; pose proof (zget_lt_Some _ _ _ Hi) as Hr; [cbn in Hr; lia|].
  cbn [put_bytes]. destruct (decide (i = 0)) as [->|Hne].
  - injection Hi as ->. rewrite put_bytes_below by lia. rewrite Z.add_0_r. apply lookup_insert_eq.
  - change (x :: l) with ([x] ++ l) in Hi. rewrite zget_app_r in Hi by (cbn; lia).
    replace (p + i) with (p + 1 + (i - 1)) by lia. by apply IH.
Qed.

(** On the 68040: the MMU as the entry code leaves it, with the program above as
    "/sbin/init". *)
Definition boot_040 : Kernel Mmu040 CString.mem :=
  boot_kernel idle_console (put_bytes ∅ 4096 init_img) (toy_mmu 0) (MkInts ∅ (replicate 256 []) 0 false ∅ ∅) None 0.

Lemma init_program : file_data init_img 6 = toy_elf.
Proof. vm_compute. reflexivity. Qed.
Lemma mmu040_boots s : Mmu.level 0 s -> wp mmu_init (fun _ => Mmu.level 0) s.
Proof. unfold mmu_init, mmu040_boot. apply mmu040_init_returns. Qed.
Lemma main_starts_init_witness :
  wp (main 1025 no_stat no_stat stk (Some toy_block) (Some (65536, replicate 95 170)) [] [] 8192 8448 4096
        (Z.of_nat (List.length init_img)) 777 888 999 (ret tt) [zstr "loglevel=5"])
    (fun init k => init = 3221229584 /\ kn_loglevel k = 5 /\ int_vector (kn_ints k) !! 25 = Some (Function 777) /\
       mapping (pmmu (procs (kn_sys k))) = 0) boot_040.
Proof.
  eapply wp_mono; [apply (main_starts_init (Mmu.level 0) 1025 no_stat no_stat stk toy_block 65536 (replicate 95 170) [] [] 8192 8448 4096
    777 888 999 (ret tt) idle_console (put_bytes ∅ 4096 init_img) (toy_mmu 0) (MkInts ∅ (replicate 256 []) 0 false ∅ ∅) None 0
    init_img 2 4 6 3221229584)|].
  - lia.
  - apply put_bytes_at.
  - split; [lia|vm_compute; reflexivity].
  - vm_compute. reflexivity.
  - apply init_boot_image.
  - intros k. apply length_replicate.
  - lia.
  - vm_compute. reflexivity.
  - reflexivity.
  - intros k. by apply wp_ret.
  - apply mmu040_boots. by split.
  - intros s Hs. rewrite init_program. apply (elf_load_returns 65536 toy_elf); [|apply toy_elf_bytes|lia|by vm_compute..| |done].
    + by split.
    + apply (bool_decide_unpack _). by vm_compute.
  - cbn beta. intros init k (-> & (h & last & w' & [Hw _] & ->) & _ & _ & _ & Hl & Hv & _). rewrite Hl. split; [done|].
    split; [vm_compute; reflexivity|]. by split.
Defined.
